(* ===== verification/_CoqProject ===== *)
-Q . S2P
Prelude.v
Conf.v
Calc.v
Fifo.v
Crc.v
Md5.v
Calendar.v
Format.v
TwoWire.v
Pcf8563.v
Machine.v
SysStatus.v
EventRecord.v
Eeprom.v
EepromBus.v
CycBuff.v
Logs.v
GlobalVar.v
AlarmCalc.v
Fan.v
Compressor.v
WaterMake.v
WaterOut.v
HeaterLink.v
Storage.v
Dio.v
Daq.v
OutputCtrl.v
Background.v
CoreLoop.v
ConfLoad.v
Boot.v
ModbusRegs.v
ModbusSlave.v
ModbusWrite.v
Network.v
Mqtt.v
