(* ===== verification/Prelude.v ===== *)
(** * TQ01M1 controller: verification library

    The program is the firmware of an air-to-water machine (STM32F103, RT-Thread), under
    src/bsp/stm32f10x; the rest of the repository is the vendored real-time kernel with its
    drivers and packages.  This library models the firmware as executable functions
    and proves what makes it correct.  All paths below are relative to src/bsp/stm32f10x,
    except src/kservice.c and components/libc, which belong to the kernel.

    ** The program

    - Sampling: drivers/dio_bsp.c debounces the digital inputs; usr/modules/daq.c turns ADC
      words into temperatures and a UV level; drivers/TH_Sensor_Bsp.c decodes the air sensor.
      All of them publish in [g_sys].
    - The core thread (usr/threads/core_thread.c) runs twice a second: the alarm engine
      (usr/modules/alarm_calc.c) debounces 23 alarm conditions, keeps the chain of active
      alarms (usr/modules/event_record.c) and forces outputs off; the requests
      (usr/modules/req_execution.c) decide about fan, compressors, pumps, valves, lamps,
      dispensing, storage and the display; the output control (usr/modules/output_ctrl.c)
      arbitrates and drives the pins and the fan speed.
    - The background thread (usr/threads/bkg_thread.c) counts timers down once a second,
      accounts running times and dispensed water, publishes the running mode
      (usr/modules/sys_status.c) and runs the production tests.
    - The configuration (applications/global_var.c) is a table of 435 registers over members
      of [g_sys.config], written with validation, stored three times in an EEPROM
      (drivers/i2c_bsp.c) and loaded at start-up; passwords are stored beside it.
    - Events and alarms go through two FIFOs to two rings in the EEPROM (event_record.c over
      kits/cyc_buff.c), which the panel reads page by page.
    - The host reads and writes registers over a serial line
      (FreeModbus/port/modbus_monitor_slave, checksum of FreeModbus/modbus/rtu/mbcrc.c).
    - The water heater, or a dust sensor, is attached to another line
      (drivers/usart_bsp.c, drivers/zph01_opt.c).
    - The clock is a PCF8563 chip (drivers/pcf8563.c, drivers/rtc_bsp.c) on two wires of its
      own; the calendar is the kernel's (components/libc/compilers/common/gmtime_r.c).  The
      EEPROM is reached over two other wires, also by switching pins (drivers/i2c_bsp.c).
    - The unit reports to a cloud platform: TQ01_net/network.c makes and takes JSON messages,
      signed with MD5 (TQ01_net/utils_md5.c, utils_hmac.c), TQ01_net/mqtt_client.c and
      paho_mqtt_pipe.c are the client that connects and publishes them.  Texts are printed
      with the kernel's [rt_snprintf] (src/kservice.c).

    The control threads communicate through the global objects [g_sys] and [l_sys] only; the
    network threads read and write the same registers through the register interface of the
    host ([cpad_eMBRegHoldingCB]).

    ** Model

    The state is one record [world] (file Machine): a typed memory of the C objects the
    modelled code uses, addressed by [cell]s (a member name with up to two indices), the alarm
    chain, the two log FIFOs, the transmit FIFO, the EEPROM bytes and the bytes sent to the
    heater and to the host.  Reading a cell gives a value of its declared C type, assigning
    wraps it to that type; expressions are computed in [Z] as C computes them in [int] (the few
    that need a cast have it).  A C function is a [cmd] (state to state) or an [act A] (with a
    result); a small set of statement notations (IF, FOR, LET, CALL, RETURN) lets definitions
    follow the source.

    Loops of the control code run over finite ranges or over the messages waiting, so these
    definitions are total functions.  Three kinds of loop have no such bound and take fuel, with
    [None] when it runs out: the sort, the search and the bit count of kits/calc.c.
    [quick_sorts] and [bin_search_correct] show that fuel above the length of the slice, and
    one more than the number of bits of the size, is always enough; [BitCount_16] needs 17, one
    more than the number of bits.  The table search of daq.c has 9 for its 190 entries, and
    [ntc_index_spec] shows that it returns for every word.  The samples of the air
    sensor's line are a list, which bounds the wait for its edges in the same way.

    The drivers below that interface and the cloud connection are models of their own beside
    [world].  Two-wire buses are pins and a device that follows the protocol ([TwoWire.bus], with
    the class [device] for what the chip does with its bytes); a message is a list of bytes, a
    JSON document a value of type [json], the MQTT client a record that one turn of its loop
    maps to the next, given what sockets and packets brought ([Mqtt.turn]).  Loops without a
    fixed bound take fuel here too: [gmtime_r] has 137 years, which an unsigned 32-bit time does
    not pass ([Calendar.gmtime_r_spec]); the binary-coded decimal conversion has 25 tens for a byte; a
    number has 16 digits, of which at most 10 are used; the loop over a format takes its length
    and one more, which is enough ([Format.format_fuel]).  MD5 counts its whole blocks beforehand.

    ** Files

    - Prelude: C integer types, bit operations, byte orders, generic lemmas and tactics.
    - Conf: the constants of applications/sys_conf.h and the module headers.
    - Calc: kits/calc.c: sorting, searching, counting, checksums.
    - Fifo: kits/fifo.c, refined to bounded queues.
    - Crc: the table-driven checksum of the serial protocol and its bit-wise definition.
    - Machine: the state, the statements, and footprints: [unch F D] says that a statement
      changes only the objects in [F] and the request bits in [D]; the tactic [footprint] and
      the hint database [foot] prove such facts from the text of a function.
    - SysStatus: usr/modules/sys_status.c without the running mode.
    - EventRecord: the alarm chain and the pushes to the log FIFOs.
    - Eeprom: drivers/i2c_bsp.c above the bus, and the three copies with their checksums.
    - CycBuff: kits/cyc_buff.c, with the abstraction [log_holds] of a ring to a list.
    - Logs: the log routines of event_record.c: start-up, draining the FIFOs, reading,
      clearing; [LogSpec] is the abstract log.
    - GlobalVar: the register table, validated reads and writes, run-time counters.
    - AlarmCalc: the conditions, the machine and the arbitration of all 23 alarms.
    - Fan, Compressor, WaterMake, WaterOut, Storage: the five parts of req_execution.c and
      [req_execution] itself.
    - HeaterLink: the receiving half of usart_bsp.c, and zph01_opt.c.
    - Dio: drivers/dio_bsp.c.
    - Daq: daq.c, TH_Sensor_Bsp.c and usr/threads/daq_thread.c.
    - OutputCtrl: output_ctrl.c and the pulse widths of pwm_bsp.c.
    - Background: bkg_thread.c and the running mode of sys_status.c.
    - CoreLoop: the loop of core_thread.c, composed with the other threads.
    - ConfLoad: saving and loading the configuration, passwords.
    - Boot: start-up from power-on to the control loop.
    - ModbusRegs: user_mb_app_cpad.c, the registers and commands the host sees.
    - ModbusSlave: mb_event_cpad.c, portserial_cpad.c and porttimer_cpad.c: frames, interrupts
      and the poll; theorems about reading.  ModbusWrite: theorems about writing.
    - TwoWire: the wires, and the protocol every two-wire device follows, with the class
      [device].  EepromBus: i2c_bsp.c on its pins, with the chip that programs pages, as the
      implementation of Eeprom.  Pcf8563: pcf8563.c and rtc_bsp.c with the clock chip.
    - Calendar: gmtime_r.c and its inverse.
    - Format: rt_vsnprintf of src/kservice.c.  Md5: utils_md5.c and utils_hmac.c, with the module
      [Rfc], the reference.
    - Network: the messages and parsers of network.c.  Mqtt: mqtt_client.c, paho_mqtt_pipe.c.

    ** Theorems

    Each theorem that states a main property of the program is preceded by a comment with its
    number (C1, C2, ...) and a description.  Their groups:
    - the whole control loop: in every reachable state, whatever the other threads change,
      the pins obey alarms and the lid ([core_safety]), and start-up leads to such a state
      with any EEPROM contents ([boot_reaches_loop]);
    - alarms: the invariant of the engine over all reachable states, refinement of each alarm
      to an abstract debounced alarm, when it appears and ends, which outputs it stops;
    - machines and requests: fan, compressors (safety of starts and stops, minimum run time),
      pumps, cold water, storage, restarts; nothing pours without permission;
    - outputs and inputs: arbitration reaches the pins, the speed reaches the timer, inputs
      are debounced, the air sensor's frames are decoded; as lemmas, a broken temperature
      sensor raises its alarm and the loss of the air sensor is noticed;
    - data: FIFO refinement, EEPROM page splitting, majority repair and checksums, validated
      writes, round trips of saved configurations and passwords, accounting of time and water;
    - chips: the levels the EEPROM driver puts on its pins are the transfers of Eeprom, for a
      chip that programs a page in at most five ticks ([eeprom_driver_refines]; a slower or
      absent chip is treated in [slow_chip_loses_page] and [eeprom_busy_refused]); a time that
      was set is read back through both conversions and the clock's registers;
    - the cloud: MD5 in pieces is MD5 of the whole, [rt_snprintf] prints and cuts as documented,
      the messages to the platform carry the signature of their parameters (the announcement of
      the version carries none), credentials and topics are those the platform asks for, settings written to registers are read back, topic filters match
      as the wildcards say, reports start only after the handshake and in the order of their
      deadlines;
    - logs: every sequence of writes, reads and clears behaves as on the abstract list; the
      routines that drain the FIFOs bring events to their log and keep table and log of the
      alarms as an abstract book ([AlarmBook]); alarms open at a power failure are closed at
      start-up;
    - the host line: a request that arrives byte by byte is answered with exactly the bytes
      the protocol asks for, a write is validated and stored or refused, a request with one
      damaged byte changes no register, the receiver stays in its buffer; the checksum is CRC-16;
    - the heater line: frames are assembled and taken over, the buffer index stays in bounds;
    - errors: the behaviours that the code does not seem to intend, each stated as what
      happens (stale checksums, unreachable times, wrong counters, inverted inputs, unchecked
      multiple writes, misread temperatures, a truncated frame that spoils the next one, a
      clock that is silent or set to the wrong day, a number printed in the wrong base, a
      message that lacks its code).

    ** Assumptions

    - Above the driver the EEPROM answers, and a page write wraps inside its page; EepromBus
      proves that of the driver and a chip that keeps to its programming time.  On the wires,
      time passes only in [rt_thread_delay].
    - The clock does not tick during a transfer, and there is no time zone.  Register bits the
      chip does not define and stack bytes a failed transfer leaves uninitialised are parameters
      ([undefined_bits], [stack_contents]); so are the variables network.c may read before it
      sets them ([uninitialised]).
    - cJSON's allocations succeed; a JSON value stands for its text.  A message digested in
      pieces is shorter than 2^32 bytes.  What sockets, timers and the MQTT packet library give
      the client in a turn is arbitrary.
    - The digest library is a parameter of the password functions, with the documented length
      of a digest as hypothesis.  The conversion of an out-of-range [float] to an integer,
      which C leaves undefined, is a parameter ([f2u_undefined]).
    - What [rt_malloc] returns for the log FIFOs is a parameter ([heap]); the transmit FIFO of
      the host line is taken to have been allocated.
    - Address 0 holds read-only flash: reads through null register pointers give a constant,
      writes do nothing.
    - What lies before the temperature table ([flash_before_tab]) and around the register table
      ([beyond_table]), which the code can reach, are parameters, and so is what a record of an
      alarm without an entry does past the table of alarms ([beyond_alarm_table]).
    - Threads and interrupts interleave between, not inside, the modelled turns: [core_reach]
      lets the other threads change anything the loop does not own between two of its turns.
    - applications/application.c of this commit has the start of the control threads commented
      out; the model is of their bodies.  In the same way the background thread has the calls
      that drain the log FIFOs commented out; Logs models the routines, not that thread.

    ** Not modelled

    The rest of the kernel and the vendored packages (sockets, the modem's TCP/IP, MQTT packets,
    the text form of JSON); the Modbus master and the second slave; the protocol of the T5 display
    and [add_n_cycbuff] (no caller); register-level drivers (converter, timers, baud rates, SD
    card, timing of the wires in microseconds); require_calc.c (nothing calls it); team.c,
    password.c, can_bsp.c and Moter.c (commented out as a whole); of the network threads, TLS, the
    shell commands and [network_get_register].  These are hardware
    access, third-party code, or code that does not run. *)

From Stdlib Require Export ZArith Lia Bool.
From stdpp Require Export base tactics list sets numbers.

#[global] Open Scope Z_scope.

(** ** C integer types

    A C object of a fixed-width integer type keeps the low bits of whatever is
    assigned to it.  [cast t z] is the value read back from an object of type
    [t] after [z] was stored in it.  Arithmetic inside an expression is done by
    C in [int] after promotion; the model computes it in [Z]. *)

Inductive ity : Type := U8 | U16 | U32 | S8 | S16 | S32.

#[global] Instance ity_eq_dec : EqDecision ity.
Proof. solve_decision. Defined.

Definition u8 (z : Z) : Z := z mod 256.
Definition u16 (z : Z) : Z := z mod 65536.
Definition u32 (z : Z) : Z := z mod 4294967296.
Definition s8 (z : Z) : Z := (z + 128) mod 256 - 128.
Definition s16 (z : Z) : Z := (z + 32768) mod 65536 - 32768.
Definition s32 (z : Z) : Z := (z + 2147483648) mod 4294967296 - 2147483648.

Definition cast (t : ity) (z : Z) : Z :=
  match t with
  | U8 => u8 z | U16 => u16 z | U32 => u32 z
  | S8 => s8 z | S16 => s16 z | S32 => s32 z
  end.

Definition ity_min (t : ity) : Z :=
  match t with
  | U8 | U16 | U32 => 0
  | S8 => -128 | S16 => -32768 | S32 => -2147483648
  end.

Definition ity_max (t : ity) : Z :=
  match t with
  | U8 => 255 | U16 => 65535 | U32 => 4294967295
  | S8 => 127 | S16 => 32767 | S32 => 2147483647
  end.

(** The number of bits of an unsigned type that its values may use. *)
Definition ity_bits (t : ity) : Z :=
  match t with U8 | S8 => 8 | U16 | S16 => 16 | U32 | S32 => 32 end.

Ltac unfold_cast := unfold cast, u8, u16, u32, s8, s16, s32 in *.
Ltac cast_lia := unfold_cast; Z.div_mod_to_equations; lia.

Lemma cast_range t z : ity_min t <= cast t z <= ity_max t.
Proof. destruct t; cbn [ity_min ity_max]; cast_lia. Qed.

Lemma cast_small t z : ity_min t <= z <= ity_max t -> cast t z = z.
Proof.
  destruct t; cbn [ity_min ity_max]; unfold_cast; intros H.
  1-3: apply Z.mod_small; lia.
  all: rewrite Z.mod_small; lia.
Qed.

Lemma cast_idemp t z : cast t (cast t z) = cast t z.
Proof. apply cast_small, cast_range. Qed.

Lemma u16_small z : 0 <= z < 65536 -> u16 z = z.
Proof. intros. apply Z.mod_small. lia. Qed.
Lemma u8_small z : 0 <= z < 256 -> u8 z = z.
Proof. intros. apply Z.mod_small. lia. Qed.
Lemma u32_small z : 0 <= z < 4294967296 -> u32 z = z.
Proof. intros. apply Z.mod_small. lia. Qed.
Lemma u16_add a b : u16 (u16 a + b) = u16 (a + b).
Proof. apply Zplus_mod_idemp_l. Qed.
Lemma u16_idem a : u16 (u16 a) = u16 a.
Proof. apply Z.mod_mod. lia. Qed.
Lemma u16_range z : 0 <= u16 z < 65536.
Proof. apply Z.mod_pos_bound. lia. Qed.
Lemma u8_range z : 0 <= u8 z < 256.
Proof. apply Z.mod_pos_bound. lia. Qed.
Lemma u32_range z : 0 <= u32 z < 4294967296.
Proof. apply Z.mod_pos_bound. lia. Qed.

(** ** C operators on integers *)

Declare Scope c_scope.
Delimit Scope c_scope with c.
#[global] Open Scope c_scope.

Infix ".&" := Z.land (at level 43, left associativity) : c_scope.
Infix ".|" := Z.lor (at level 46, left associativity) : c_scope.
Infix ".^" := Z.lxor (at level 44, left associativity) : c_scope.
Infix ".<<" := Z.shiftl (at level 42, left associativity) : c_scope.
Infix ".>>" := Z.shiftr (at level 42, left associativity) : c_scope.
Notation ".~ x" := (Z.lnot x) (at level 41, right associativity) : c_scope.

(** C truth value of an integer, and the integer of a C comparison. *)
Definition nz (z : Z) : bool := negb (z =? 0).

Definition TRUE : Z := 1.
Definition FALSE : Z := 0.

(** [x |> f] runs [f] on [x]: statements in the order C executes them. *)
Notation "x |> f" := (f x) (at level 68, left associativity, only parsing) : c_scope.

(** ** Bits of a word *)

Definition set_bit (w k : Z) : Z := w .| (1 .<< k).
Definition clr_bit (w k : Z) : Z := w .& (.~ (1 .<< k)).

(** [if ((w >> k) & 1)]. *)
Definition get_bit (w k : Z) : Z := (w .>> k) .& 1.

Lemma get_bit_b2z w k : 0 <= k -> get_bit w k = Z.b2z (Z.testbit w k).
Proof.
  intros Hk. unfold get_bit. change 1 with (Z.ones 1).
  rewrite Z.land_ones by lia. rewrite Z.shiftr_div_pow2 by lia.
  change (2 ^ 1) with 2. symmetry. apply Z.testbit_spec'. lia.
Qed.

Lemma nz_b2z b : nz (Z.b2z b) = b.
Proof. by destruct b. Qed.

Lemma nz_get_bit w k : 0 <= k -> nz (get_bit w k) = Z.testbit w k.
Proof. intros. by rewrite get_bit_b2z, nz_b2z. Qed.

Lemma get_bit_01 w k : 0 <= k -> get_bit w k = 0 \/ get_bit w k = 1.
Proof. intros. rewrite get_bit_b2z by done. destruct (Z.testbit w k); cbn; lia. Qed.

Lemma testbit_1_shift j k : 0 <= j -> 0 <= k -> Z.testbit (1 .<< k) j = (j =? k).
Proof.
  intros Hj Hk. rewrite Z.shiftl_spec by lia.
  destruct (Z.eqb_spec j k) as [->|Hne].
  - by rewrite Z.sub_diag.
  - destruct (Z_lt_dec (j - k) 0).
    + by apply Z.testbit_neg_r.
    + change 1 with (2 ^ 0). rewrite Z.pow2_bits_eqb by lia. apply Z.eqb_neq. lia.
Qed.

Lemma testbit_set_bit w k j :
  0 <= j -> 0 <= k -> Z.testbit (set_bit w k) j = (j =? k) || Z.testbit w j.
Proof.
  intros. unfold set_bit. rewrite Z.lor_spec, testbit_1_shift by done. apply orb_comm.
Qed.

Lemma testbit_clr_bit w k j :
  0 <= j -> 0 <= k -> Z.testbit (clr_bit w k) j = negb (j =? k) && Z.testbit w j.
Proof.
  intros. unfold clr_bit.
  rewrite Z.land_spec, Z.lnot_spec, testbit_1_shift by done. apply andb_comm.
Qed.

(** Testing a word against a single-bit mask, [if (w & (1 << k))]. *)
Lemma land_pow2 w k : 0 <= k -> nz (w .& (1 .<< k)) = Z.testbit w k.
Proof.
  intros Hk. unfold nz.
  destruct (Z.testbit w k) eqn:E.
  - apply negb_true_iff, Z.eqb_neq. intros H0.
    apply (f_equal (fun z => Z.testbit z k)) in H0.
    rewrite Z.land_spec, testbit_1_shift, E, Z.eqb_refl, Z.bits_0 in H0 by done. done.
  - apply negb_false_iff, Z.eqb_eq. apply Z.bits_inj'. intros j Hj.
    rewrite Z.land_spec, testbit_1_shift, Z.bits_0 by done.
    destruct (Z.eqb_spec j k) as [->|]; [by rewrite E | by rewrite andb_false_r].
Qed.

Lemma u16_testbit w k : 0 <= k < 16 -> Z.testbit (u16 w) k = Z.testbit w k.
Proof.
  intros. unfold u16. change 65536 with (2 ^ 16).
  destruct (Z.ltb_spec k 16); [|lia]. rewrite Z.mod_pow2_bits_low by lia. done.
Qed.

Lemma u16_testbit_high w k : 16 <= k -> Z.testbit (u16 w) k = false.
Proof. intros. unfold u16. change 65536 with (2 ^ 16). apply Z.mod_pow2_bits_high. lia. Qed.

Lemma u8_testbit w k : 0 <= k < 8 -> Z.testbit (u8 w) k = Z.testbit w k.
Proof. intros. unfold u8. change 256 with (2 ^ 8). rewrite Z.mod_pow2_bits_low by lia. done. Qed.

(** A number with no bit at or above [n] is below [2 ^ n]. *)
Lemma bits_bound z n :
  0 <= n -> (forall j, n <= j -> Z.testbit z j = false) -> 0 <= z < 2 ^ n.
Proof.
  intros Hn H. assert (z = z mod 2 ^ n) as ->; [|apply Z.mod_pos_bound; lia].
  apply Z.bits_inj'. intros j Hj. destruct (Z.lt_ge_cases j n).
  - by rewrite Z.mod_pow2_bits_low.
  - by rewrite Z.mod_pow2_bits_high, H by lia.
Qed.

(** A component number [bpos] addresses bit [bpos & 0x0f] of word [bpos >> 4]. *)
Definition byte_offset (bpos : Z) : Z := bpos .>> 4.
Definition bit_offset (bpos : Z) : Z := bpos .& 15.

Lemma byte_offset_div b : byte_offset b = b / 16.
Proof. unfold byte_offset. rewrite Z.shiftr_div_pow2 by lia. done. Qed.
Lemma bit_offset_mod b : bit_offset b = b mod 16.
Proof. unfold bit_offset. change 15 with (Z.ones 4). rewrite Z.land_ones by lia. done. Qed.

Lemma bit_offset_range b : 0 <= bit_offset b < 16.
Proof. rewrite bit_offset_mod. apply Z.mod_pos_bound. lia. Qed.

Lemma byte_bit_inj a b :
  byte_offset a = byte_offset b -> bit_offset a = bit_offset b -> a = b.
Proof.
  rewrite !byte_offset_div, !bit_offset_mod. intros H1 H2.
  rewrite (Z.div_mod a 16), (Z.div_mod b 16) by lia. lia.
Qed.

(** ** Checking every integer of a dyadic interval by evaluation *)

Fixpoint bin_check (P : Z -> bool) (k : nat) (b : Z) : bool :=
  match k with
  | O => P b
  | S k' => bin_check P k' (2 * b) && bin_check P k' (2 * b + 1)
  end.

Lemma bin_check_sound P k b n :
  bin_check P k b = true -> b * 2 ^ Z.of_nat k <= n < (b + 1) * 2 ^ Z.of_nat k -> P n = true.
Proof.
  revert b. induction k as [|k IH]; intros b H Hn.
  - cbn in H. rewrite Z.pow_0_r in Hn. by replace n with b by lia.
  - cbn [bin_check] in H. apply andb_true_iff in H as [H1 H2].
    rewrite Nat2Z.inj_succ, Z.pow_succ_r in Hn by lia.
    destruct (Z.lt_ge_cases n ((2 * b + 1) * 2 ^ Z.of_nat k)); [apply (IH _ H1) | apply (IH _ H2)]; lia.
Qed.

Lemma foldl_cons {A B} (f : A -> B -> A) a x l : foldl f a (x :: l) = foldl f (f a x) l.
Proof. done. Qed.

(** ** Bytes and words *)

Definition byte (z : Z) : Prop := 0 <= z < 256.
Definition bytes (l : list Z) : Prop := Forall byte l.

Lemma byte_high v j : byte v -> 8 <= j -> Z.testbit v j = false.
Proof. intros Hv Hj. rewrite <- (Z.mod_small v (2 ^ 8)) by exact Hv. apply Z.mod_pow2_bits_high. lia. Qed.

Lemma byte_land v m : byte v -> byte (v .& m).
Proof. intros Hv. apply (bits_bound _ 8); [lia|]. intros j Hj. rewrite Z.land_spec. by rewrite byte_high. Qed.

Lemma byte_lor v m : byte v -> byte m -> byte (v .| m).
Proof. intros Hv Hm. apply (bits_bound _ 8); [lia|]. intros j Hj. rewrite Z.lor_spec. by rewrite !byte_high. Qed.

(** Low byte first. *)

Definition le16 (v : Z) : list Z := [u8 v; u8 (v .>> 8)].
Definition le32 (v : Z) : list Z := [u8 v; u8 (v .>> 8); u8 (v .>> 16); u8 (v .>> 24)].
Definition of_le16 (l : list Z) : Z := nth 0 l 0 + 256 * nth 1 l 0.
Definition of_le32 (l : list Z) : Z := of_le16 l + 65536 * of_le16 (drop 2 l).

(** High byte first. *)
Definition be16 (v : Z) : list Z := [u8 (v .>> 8); u8 v].
Definition be32 (v : Z) : list Z := [u8 (v .>> 24); u8 (v .>> 16); u8 (v .>> 8); u8 v].

Lemma of_le16_le16 v : of_le16 (le16 v) = u16 v.
Proof.
  unfold of_le16, le16. cbn [nth]. rewrite Z.shiftr_div_pow2 by lia. unfold u8, u16. change (2 ^ 8) with 256.
  Z.div_mod_to_equations. lia.
Qed.

(** [lo | (hi << 8)]: the word with these two bytes. *)
Lemma lor_bytes lo hi : 0 <= lo < 256 -> lo .| (hi .<< 8) = lo + 256 * hi.
Proof.
  intros Hlo. apply Z.bits_inj'. intros j Hj. rewrite Z.lor_spec, Z.shiftl_spec by lia.
  destruct (Z.lt_ge_cases j 8).
  - rewrite (Z.testbit_neg_r hi) by lia. rewrite orb_false_r.
    rewrite <- (Z.mod_pow2_bits_low (lo + 256 * hi) 8) by lia. f_equal. change (2 ^ 8) with 256.
    Z.div_mod_to_equations. lia.
  - assert (Z.testbit lo j = false) as ->.
    { destruct (Z.eq_dec lo 0) as [->|]; [apply Z.bits_0|]. apply Z.bits_above_log2; [lia|].
      apply Z.log2_lt_pow2; [lia|]. eapply Z.lt_le_trans with (2 ^ 8); [cbn; lia|]. apply Z.pow_le_mono_r; lia. }
    cbn [orb]. replace j with (j - 8 + 8) at 2 by lia. rewrite <- Z.div_pow2_bits by lia. f_equal.
    change (2 ^ 8) with 256. Z.div_mod_to_equations. lia.
Qed.

#[global] Create Rewrite HintDb cbits.
#[global] Hint Rewrite nz_b2z nz_get_bit land_pow2 testbit_set_bit testbit_clr_bit
  u16_testbit using lia : cbits.
