(* ===== verification/Conf.v ===== *)
(** * Constants of the firmware

    The enumerations and macros of applications/sys_conf.h, usr/modules/alarms.h,
    usr/modules/local_status.h, usr/modules/req_execution.h, drivers/dio_bsp.h and
    applications/global_var.h, for the build the repository configures
    ([SYS_M_L28], [PUMP_TEST] defined; [WV_TEST], [BD_COLD] not defined).  They are
    abbreviations, so a C name and its number are the same term. *)

From S2P Require Import Prelude.

(** sys_conf.h: digital outputs. *)
Abbreviation DO_COMP1_BPOS := 0.
Abbreviation DO_COMP2_BPOS := 1.
Abbreviation DO_RH1_BPOS := 2.
Abbreviation DO_FAN_BPOS := 3.
Abbreviation DO_LAMP_BPOS := 4.
Abbreviation DO_WV_BPOS := 5.
Abbreviation DO_CV_BPOS := 6.
Abbreviation DO_RSV1_BPOS := 7.
Abbreviation DO_WP_BPOS := 8.
Abbreviation DO_HWP_BPOS := 9.
Abbreviation DO_PWP_BPOS := 10.
Abbreviation DO_DWP_BPOS := 11.
Abbreviation DO_DV_BPOS := 12.
Abbreviation DO_FV_BPOS := 13.
Abbreviation DO_RSV2_BPOS := 14.
Abbreviation DO_EL1_BPOS := 15.
Abbreviation DO_EL2_BPOS := 16.
Abbreviation DO_RSV3_BPOS := 17.
Abbreviation DO_LED_LOCK_BPOS := 18.
Abbreviation DO_PWR_CTRL_BPOS := 19.
Abbreviation DO_FILLTER_DUMMY_BPOS := 32.
Abbreviation DO_FILLTER_ELEMENT_DUMMY_BPOS_0 := 33.
Abbreviation DO_FILLTER_ELEMENT_DUMMY_BPOS_1 := 34.
Abbreviation DO_FILLTER_ELEMENT_DUMMY_BPOS_2 := 35.
Abbreviation DO_FILLTER_ELEMENT_DUMMY_BPOS_3 := 36.
Abbreviation DO_FILLTER_ELEMENT_DUMMY_BPOS_5 := 38.
Abbreviation DO_MAX_CNT := 39.
Abbreviation DO_FAN_LOW_BPOS := DO_FAN_BPOS.
Abbreviation DO_UV1_BPOS := DO_RSV1_BPOS.
Abbreviation DO_HEAT_FAN_BPOS := DO_RSV2_BPOS.
Abbreviation DO_EV1_BPOS := DO_DWP_BPOS.
Abbreviation DO_EV2_BPOS := DO_DV_BPOS.
Abbreviation DO_EV3_BPOS := DO_RSV2_BPOS.
Abbreviation DO_EV4_BPOS := DO_RSV3_BPOS.
Abbreviation DO_P1_BPOS := DO_PWP_BPOS.
Abbreviation DO_P2_BPOS := DO_WP_BPOS.
Abbreviation DO_UV24_BPOS := DO_RSV2_BPOS.
Abbreviation DO_F24_BPOS := DO_EL1_BPOS.

(** sys_conf.h: analog channels and status registers. *)
Abbreviation AI_NTC1 := 1.
Abbreviation AI_NTC2 := 2.
Abbreviation AI_NTC3 := 3.
Abbreviation AI_NTC4 := 4.
Abbreviation AO_EC_FAN := 0.
Abbreviation AO_EC_COMPRESSOR := 3.
Abbreviation AO_MAX_CNT := 5.
Abbreviation AO_REAL_CNT := 1.
Abbreviation ABNORMAL_VALUE := 32767.
Abbreviation WORK_MODE_STS_REG_NO := 0.
Abbreviation MBM_COM_STS_REG_NO := 2.
Abbreviation SENSOR_STS_REG_NO := 3.
Abbreviation ALARM_COM := 0.
Abbreviation PWR_STS_BPOS := 0.
Abbreviation COOLING_STS_BPOS := 1.
Abbreviation OUTWATER_STS_BPOS := 2.
Abbreviation DEFROST1_STS_BPOS := 4.
Abbreviation DEFROST2_STS_BPOS := 5.
Abbreviation FAN_STS_BPOS := 6.
Abbreviation EXITWATER_STS_BPOS := 8.
Abbreviation ALARM_STUSE_BPOS := 14.
Abbreviation ALARM_BEEP_BPOS := 15.
Abbreviation ALARM_TOTAL_WORD := 2.

(** alarms.h. *)
Abbreviation ACL_E0 := 0.
Abbreviation ACL_E1 := 1.
Abbreviation ACL_E2 := 2.
Abbreviation ACL_E3 := 3.
Abbreviation ACL_E4 := 4.
Abbreviation ACL_E5 := 5.
Abbreviation ACL_E6 := 6.
Abbreviation ACL_E7 := 7.
Abbreviation ACL_E8 := 8.
Abbreviation ACL_E9 := 9.
Abbreviation ACL_WATER_LEAK := 10.
Abbreviation ACL_E11 := 11.
Abbreviation ACL_E12 := 12.
Abbreviation ACL_FILTER_OT := 13.
Abbreviation ACL_FILTER_ELEMENT_0_OT := 14.
Abbreviation ACL_FILTER_ELEMENT_1_OT := 15.
Abbreviation ACL_FILTER_ELEMENT_2_OT := 16.
Abbreviation ACL_FILTER_ELEMENT_3_OT := 17.
Abbreviation ACL_FILTER_ELEMENT_4_OT := 18.
Abbreviation ACL_RS_NETERR := 20.
Abbreviation ACL_HI_PRESS1 := 21.
Abbreviation ACL_TOTAL_NUM := 23.
Abbreviation ACL_FAN01_OD := ACL_E7.
Abbreviation ACL_UV1_OT := ACL_E8.
Abbreviation ACL_SYS01_EXHAUST_HI := ACL_E11.
Abbreviation ACL_SYS01_EXHAUST_HI_LOCK := ACL_E12.
Abbreviation RT_MS := 1000.

(** local_status.h. *)
Abbreviation BITMAP_REQ := 0.
Abbreviation BITMAP_ALARM := 1.
Abbreviation BITMAP_MANUAL := 2.
Abbreviation BITMAP_FINAL := 3.
Abbreviation BITMAP_MASK := 4.
Abbreviation FAN_FSM_STATE := 0.
Abbreviation COMPRESS_SIG_FSM_STATE := 1.
Abbreviation COMPRESS1_FSM_STATE := 2.
Abbreviation COMPRESS2_FSM_STATE := 3.
Abbreviation FAN_GEAR_NO := 0.
Abbreviation FAN_GEAR_LOW := 1.
Abbreviation FAN_GEAR_START := FAN_GEAR_LOW.

(** dio_bsp.h: digital inputs. *)
Abbreviation DI_SOURCE_DOWN_BPOS := 0.
Abbreviation DI_SOURCE_MIDDLE_BPOS := 1.
Abbreviation DI_SOURCE_UP_BPOS := 2.
Abbreviation DI_DRINK_DOWN_BPOS := 3.
Abbreviation DI_DRINK_MIDDLE_BPOS := 4.
Abbreviation DI_DRINK_UP_BPOS := 5.
Abbreviation DI_DRINK_MD_BPOS := 6.
Abbreviation DI_HI_PRESS1_BPOS := 7.
Abbreviation DI_HI_PRESS2_BPOS := 8.
Abbreviation DI_Cold_1_BPOS := 9.
Abbreviation DI_Heat_BPOS := 10.
Abbreviation DI_Child_BPOS := 11.
Abbreviation DI_OPEN_BPOS := 12.
Abbreviation DI_Cold_2_BPOS := 13.
Abbreviation DI_FAN01_OD_BPOS := 14.
Abbreviation DI_WATER_LEAK_BPOS := 15.
Abbreviation DI_POWER_LOSS_BPOS := 18.

(** req_execution.h. *)
Abbreviation COMPRESSOR_FSM_STATE_IDLE := 0.
Abbreviation COMPRESSOR_FSM_STATE_INIT := 1.
Abbreviation COMPRESSOR_FSM_STATE_STARTUP := 2.
Abbreviation COMPRESSOR_FSM_STATE_NORMAL := 3.
Abbreviation COMPRESSOR_FSM_STATE_SHUTING := 4.
Abbreviation COMPRESSOR_FSM_STATE_STOP := 5.
Abbreviation COMPRESSOR_SIG_HOLD := 0.
Abbreviation COMPRESSOR_SIG_ON := 1.
Abbreviation COMPRESSOR_SIG_OFF := 2.
Abbreviation COMPRESSOR_SIG_ERR := 3.
Abbreviation FAN_SIG_IDLE := 0.
Abbreviation FAN_SIG_START := 1.
Abbreviation FAN_SIG_STOP := 2.
Abbreviation FAN_TPYE_EC := 1.
Abbreviation FAN_MODE_FIX := 0.
Abbreviation FAM_MODE_INV_COMP := 8.
Abbreviation FSM_FAN_IDLE := 0.
Abbreviation FSM_FAN_INIT := 1.
Abbreviation FSM_FAN_START_UP := 2.
Abbreviation FSM_FAN_NORM := 3.
Abbreviation FSM_FAN_SHUT := 4.
Abbreviation WATER_STROGE_IDLE := 0.
Abbreviation WATER_STROGE_1 := 1.
Abbreviation WATER_STROGE_2 := 2.
Abbreviation WATER_STROGE_3 := 3.
Abbreviation WATER_STROGE_STOP := 9.
Abbreviation WATER_NO := 0.
Abbreviation WATER_NORMAL_ICE := 1.
Abbreviation WATER_HEAT := 2.
Abbreviation WATER_ICE := 4.
Abbreviation WATER_HEATPOT := 8.
Abbreviation NORMAL_ICE := 1.
Abbreviation BD_ICE := 2.
Abbreviation COLD_FV_DELAY := 2.
Abbreviation COLD_START_DELAY := 60.
Abbreviation HEART_POT := 1.
Abbreviation HMI_KEY := 2.
Abbreviation OPEN_PWP := 4.
Abbreviation TWO_COLD := 8.
Abbreviation ChildKey_Cnt := 1.
Abbreviation ChildKey_Lose := 5.
Abbreviation WATER_AIR := 0.
Abbreviation WATER_FILL := 1.
Abbreviation WATER_EXIT := 2.
Abbreviation S_L := 1.
Abbreviation S_M := 2.
Abbreviation S_U := 4.
Abbreviation D_L := 8.
Abbreviation D_M := 16.
Abbreviation D_U := 32.
Abbreviation D_ML := 64.
Abbreviation HEATER_IDLE := 0.
Abbreviation HEATER_SEND := 1.
Abbreviation WATER_READ := 2.
Abbreviation WATER_OUT := 3.
Abbreviation CLOSE_HEAT := 0.
Abbreviation OPEN_HEAT := 1.
Abbreviation HEAT_NO := 0.
Abbreviation HEAT_OUTWATER := 1.
Abbreviation RH_DEALY := 10.
Abbreviation WRITEHEAT_MAX := 250.
Abbreviation CLOSEHEAT_MAX := 5.
Abbreviation WATER_MAXTIME := 600.
Abbreviation FIXED_SAVETIME := 900.
Abbreviation PUMP_FIRET := 0.
Abbreviation CLOSE_TIME := 5.

(** req_execution.c. *)
Abbreviation CF_DELAY := 60.
Abbreviation FC_WL := 1.
Abbreviation FC_TH := 4.
Abbreviation FC_WS := 8.
Abbreviation FC_AL := 128.

(** global_var.h. *)
Abbreviation CONF_REG_MAP_NUM := 435.
Abbreviation POWER_ON_ADDR := 36.
Abbreviation EE_WATER_MODE := 46.
Abbreviation EE_WATER_FLOW := 47.
Abbreviation EE_EXITWATER := 50.
Abbreviation EE_STORAGE := 120.
