(* ===== verification/Calc.v ===== *)
(** * Numeric helpers: kits/calc.c

    Sorting, searching, counting and checksums on arrays of [uint16_t] and [uint8_t].  An
    array is a list; a read or write outside it, like a loop that runs out of fuel, gives
    [None], so a theorem that a routine returns [Some] shows that it terminates and stays
    inside the array.  The array indices of the source are [int16_t] and wrap around. *)

From S2P Require Import Prelude.
From stdpp Require Import relations.

#[local] Open Scope Z_scope.

(** ** Arrays *)

Definition alen (a : list Z) : Z := Z.of_nat (length a).

Definition inb (a : list Z) (i : Z) : bool := (0 <=? i) && (i <? alen a).

Definition aget (a : list Z) (i : Z) : option Z :=
  if inb a i then a !! Z.to_nat i else None.

Definition aset (a : list Z) (i v : Z) : option (list Z) :=
  if inb a i then Some (<[Z.to_nat i := v]> a) else None.

(** The element at a position that is known to be inside. *)
Definition at_ (a : list Z) (i : Z) : Z := nth (Z.to_nat i) a 0.

(** ** The routines *)

(** [while (a[m] < k && m < j) m++;] *)
Fixpoint scan_up (fuel : nat) (a : list Z) (k j m : Z) : option Z :=
  match fuel with
  | O => None
  | S f =>
      x ← aget a m;
      if (x <? k) && (m <? j) then scan_up f a k j (s16 (m + 1)) else Some m
  end.

(** [while (a[n] > k && n > i) n--;] *)
Fixpoint scan_down (fuel : nat) (a : list Z) (k i n : Z) : option Z :=
  match fuel with
  | O => None
  | S f =>
      x ← aget a n;
      if (k <? x) && (i <? n) then scan_down f a k i (s16 (n - 1)) else Some n
  end.

(** The exchange goes through an [int16_t]. *)
Definition swap (a : list Z) (m n : Z) : option (list Z) :=
  x ← aget a m;
  let temp := s16 x in
  y ← aget a n;
  a ← aset a m y;
  aset a n (u16 temp).

(** The [do ... while (m <= n)] loop; the scans run with fuel [g]. *)
Fixpoint partition (g fuel : nat) (a : list Z) (k i j m n : Z) : option (list Z * Z * Z) :=
  match fuel with
  | O => None
  | S f =>
      m ← scan_up g a k j m;
      n ← scan_down g a k i n;
      '(a, m, n) ←
        (if m <=? n then a ← swap a m n; Some (a, s16 (m + 1), s16 (n - 1)) else Some (a, m, n));
      if m <=? n then partition g f a k i j m n else Some (a, m, n)
  end.

Fixpoint quick (fuel : nat) (a : list Z) (i j : Z) : option (list Z) :=
  match fuel with
  | O => None
  | S f =>
      k ← aget a (Z.quot (i + j) 2);
      '(a, m, n) ← partition fuel fuel a k i j i j;
      a ← (if m <? j then quick f a m j else Some a);
      if i <? n then quick f a i n else Some a
  end.

(** The [while (low <= high)] loop of [bin_search]; the returned [int] is narrowed to
    [int16_t]. *)
Fixpoint bin_loop (fuel : nat) (a : list Z) (array_size key low high : Z) : option Z :=
  match fuel with
  | O => None
  | S f =>
      if low <=? high then
        let mid := Z.quot (low + high) 2 in
        x ← aget a mid;
        hit ← (if x <=? key then
                 y ← aget a (mid + 1);
                 Some ((key <? y) && (mid + 1 <? array_size))
               else Some false);
        if (hit : bool) then Some (s16 mid)
        else if key <? x then bin_loop f a array_size key low (mid - 1)
        else bin_loop f a array_size key (mid + 1) high
      else Some (-1)
  end.

Definition bin_search (fuel : nat) (a : list Z) (array_size key : Z) : option Z :=
  x ← aget a 0;
  if key <? x then Some (-1)
  else
    y ← aget a array_size;
    if y <? key then Some (-1) else bin_loop fuel a array_size key 0 (array_size - 1).

(** [for (c = 0; n; n >>= 1) c += n & 1;] *)
Fixpoint bit_loop (fuel : nat) (n c : Z) : option Z :=
  match fuel with
  | O => None
  | S f => if nz n then bit_loop f (u16 (n .>> 1)) (u8 (c + (n .& 1))) else Some c
  end.

Definition BitCount_16 (fuel : nat) (n : Z) : option Z := bit_loop fuel n 0.

(** [for (i; i < data_num; i++) res ^= data[i];] over the first [data_num] bytes. *)
Fixpoint xor_loop (data : list Z) (num : nat) (res : Z) : option Z :=
  match num, data with
  | O, _ => Some res
  | S k, d :: ds => xor_loop ds k (u8 (res .^ d))
  | S _, [] => None
  end.

(** The first byte is read before the loop, also when [data_num] is 0. *)
Definition checksum_u8 (data : list Z) (data_num : Z) : option Z :=
  match data with
  | [] => None
  | d :: ds => xor_loop ds (Z.to_nat (data_num - 1)) d
  end.

Definition xor_checksum (data : list Z) (data_num : Z) : option Z :=
  xor_loop data (Z.to_nat data_num) 0.

(** ** Lemmas on arrays *)

Lemma inb_true a i : 0 <= i < alen a -> inb a i = true.
Proof. intros. apply andb_true_iff. lia. Qed.

Lemma aget_at a i : 0 <= i < alen a -> aget a i = Some (at_ a i).
Proof.
  intros Hi. unfold aget, at_. rewrite inb_true by done. unfold alen in Hi.
  destruct (nth_lookup_or_length a (Z.to_nat i) 0); [done|lia].
Qed.

Lemma aset_in a i v : 0 <= i < alen a -> aset a i v = Some (<[Z.to_nat i := v]> a).
Proof. intros. unfold aset. by rewrite inb_true. Qed.

Lemma alen_insert a i v : alen (<[i := v]> a) = alen a.
Proof. unfold alen. by rewrite length_insert. Qed.

Lemma at_insert a i v p :
  0 <= i < alen a -> 0 <= p -> at_ (<[Z.to_nat i := v]> a) p = if p =? i then v else at_ a p.
Proof.
  intros Hi Hp. unfold at_, alen in *. rewrite !nth_lookup.
  destruct (Z.eqb_spec p i) as [->|].
  - rewrite list_lookup_insert_eq by lia. done.
  - rewrite list_lookup_insert_ne by lia. done.
Qed.

Definition swapped (a : list Z) (m n : Z) : list Z :=
  <[Z.to_nat n := at_ a m]> (<[Z.to_nat m := at_ a n]> a).

Definition words (a : list Z) : Prop := Forall (fun x => 0 <= x < 65536) a.

Lemma at_word a i : words a -> 0 <= at_ a i < 65536.
Proof.
  intros H. unfold at_. destruct (nth_lookup_or_length a (Z.to_nat i) 0) as [E|E].
  - exact (Forall_lookup_1 _ _ _ _ H E).
  - rewrite nth_overflow by lia. lia.
Qed.

Lemma swap_ok a m n :
  words a -> 0 <= m < alen a -> 0 <= n < alen a -> swap a m n = Some (swapped a m n).
Proof.
  intros Ha Hm Hn. unfold swap. rewrite !aget_at by done. cbn.
  rewrite aset_in by done. cbn. rewrite aset_in by (by rewrite alen_insert). unfold swapped.
  pose proof (at_word a m Ha). do 2 f_equal. cast_lia.
Qed.

Lemma alen_swapped a m n : alen (swapped a m n) = alen a.
Proof. unfold swapped. by rewrite !alen_insert. Qed.

Lemma at_swapped a m n p :
  0 <= m < alen a -> 0 <= n < alen a -> 0 <= p ->
  at_ (swapped a m n) p = if p =? n then at_ a m else if p =? m then at_ a n else at_ a p.
Proof. intros. unfold swapped. rewrite !at_insert; rewrite ?alen_insert; done. Qed.

Lemma swapped_perm a m n : 0 <= m < alen a -> 0 <= n < alen a -> swapped a m n ≡ₚ a.
Proof.
  intros Hm Hn. unfold swapped, at_, alen in *.
  apply Permutation_insert_swap.
  - destruct (nth_lookup_or_length a (Z.to_nat m) 0); [done|lia].
  - destruct (nth_lookup_or_length a (Z.to_nat n) 0); [done|lia].
Qed.

(** ** Rearranging a slice

    [slice_perm i j a b]: [b] comes from [a] by exchanges of elements at positions [i..j]. *)

Definition exchange (i j : Z) (a b : list Z) : Prop :=
  exists m n, i <= m <= j /\ i <= n <= j /\ 0 <= i /\ j < alen a /\ b = swapped a m n.

Definition slice_perm (i j : Z) : relation (list Z) := rtc (exchange i j).

#[global] Instance slice_perm_preorder i j : PreOrder (slice_perm i j).
Proof. apply _. Qed.

Lemma slice_perm_len i j a b : slice_perm i j a b -> alen b = alen a.
Proof. induction 1 as [|a ? b (m & n & ? & ? & ? & ? & ->)]; [done|]. by rewrite IHrtc, alen_swapped. Qed.

Lemma slice_perm_perm i j a b : slice_perm i j a b -> b ≡ₚ a.
Proof.
  induction 1 as [|a ? b (m & n & ? & ? & ? & ? & ->)]; [done|].
  rewrite IHrtc. apply swapped_perm; lia.
Qed.

Lemma slice_perm_words i j a b : slice_perm i j a b -> words a -> words b.
Proof. intros H. unfold words. by rewrite (slice_perm_perm i j a b). Qed.

Lemma slice_perm_outside i j a b p :
  slice_perm i j a b -> 0 <= p -> ~ i <= p <= j -> at_ b p = at_ a p.
Proof.
  intros H Hp Hout. induction H as [|a ? b (m & n & ? & ? & ? & ? & ->)]; [done|].
  rewrite IHrtc, at_swapped by lia.
  destruct (Z.eqb_spec p n); [lia|]. destruct (Z.eqb_spec p m); [lia|done].
Qed.

(** What holds of every element of the slice still does. *)
Lemma slice_perm_all i j a b (P : Z -> Prop) :
  slice_perm i j a b ->
  (forall p, i <= p <= j -> P (at_ a p)) -> forall p, i <= p <= j -> P (at_ b p).
Proof.
  induction 1 as [|a ? b (m & n & ? & ? & ? & ? & ->)]; [done|].
  intros Ha. apply IHrtc. intros p Hp. rewrite at_swapped by lia.
  repeat case_match; apply Ha; lia.
Qed.

Lemma slice_perm_mono i j i' j' a b :
  slice_perm i' j' a b -> 0 <= i <= i' -> j' <= j < alen a -> slice_perm i j a b.
Proof.
  intros H Hi. induction H as [|a ? b (m & n & ? & ? & ? & ? & ->)]; intros Hj; [done|].
  apply rtc_l with (swapped a m n).
  - exists m, n. repeat split; lia.
  - apply IHrtc. by rewrite alen_swapped.
Qed.

(** ** [quick]: the scans, the partition, the sort *)

Ltac destr_if := match goal with |- context[if ?c then _ else _] => destruct c eqn:? end.
Ltac to_prop :=
  repeat match goal with
  | H : (_ && _)%bool = true |- _ => apply andb_true_iff in H as [? ?]
  | H : (_ && _)%bool = false |- _ => apply andb_false_iff in H
  end.

Lemma s16_small z : -32768 <= z < 32768 -> s16 z = z.
Proof. intros. apply (cast_small S16). cbn. lia. Qed.

Section Quick.
Context (a0 : list Z) (Hlen : alen a0 <= 32767).

Lemma scan_up_ok fuel a k j m :
  alen a = alen a0 -> 0 <= m <= j -> j < alen a -> j - m < Z.of_nat fuel ->
  exists m', scan_up fuel a k j m = Some m' /\ m <= m' <= j /\
    (forall p, m <= p < m' -> at_ a p < k) /\ (k <= at_ a m' \/ m' = j).
Proof using Hlen.
  revert m. induction fuel as [|f IH]; intros m Ha Hm Hj Hf; [lia|].
  cbn [scan_up]. rewrite aget_at by lia. cbn. destr_if; to_prop.
  - rewrite s16_small by lia.
    destruct (IH (m + 1)) as (m' & -> & ? & Hlt & ?); [lia..|].
    exists m'. repeat split; try lia.
    intros p Hp. destruct (Z.eq_dec p m) as [->|]; [lia|apply Hlt; lia].
  - exists m. repeat split; lia.
Qed.

Lemma scan_down_ok fuel a k i n :
  alen a = alen a0 -> 0 <= i <= n -> n < alen a -> n - i < Z.of_nat fuel ->
  exists n', scan_down fuel a k i n = Some n' /\ i <= n' <= n /\
    (forall p, n' < p <= n -> k < at_ a p) /\ (at_ a n' <= k \/ n' = i).
Proof using Hlen.
  revert n. induction fuel as [|f IH]; intros n Ha Hn Hj Hf; [lia|].
  cbn [scan_down]. rewrite aget_at by lia. cbn. destr_if; to_prop.
  - rewrite s16_small by lia.
    destruct (IH (n - 1)) as (n' & -> & ? & Hlt & ?); [lia..|].
    exists n'. repeat split; try lia.
    intros p Hp. destruct (Z.eq_dec p n) as [->|]; [lia|apply Hlt; lia].
  - exists n. repeat split; lia.
Qed.

(** Left of [m] nothing exceeds the pivot, right of [n] nothing is below it. *)
Definition split_at (a : list Z) (k i j m n : Z) : Prop :=
  (forall p, i <= p < m -> at_ a p <= k) /\ (forall p, n < p <= j -> k <= at_ a p).

(** Before the first exchange the pivot is in the slice, afterwards both ends have moved. *)
Definition stoppers (a : list Z) (k i j m n : Z) : Prop :=
  (m = i /\ n = j /\ exists q, i <= q <= j /\ at_ a q = k) \/ (i < m /\ n < j).

Lemma scans_meet a k i j m n m' n' :
  split_at a k i j m n -> stoppers a k i j m n -> i <= m <= n -> n <= j ->
  m <= m' <= j -> (forall p, m <= p < m' -> at_ a p < k) -> (k <= at_ a m' \/ m' = j) ->
  i <= n' <= n -> (forall p, n' < p <= n -> k < at_ a p) -> (at_ a n' <= k \/ n' = i) ->
  split_at a k i j m' n' /\
  ((m' <= n' /\ k <= at_ a m' /\ at_ a n' <= k) \/ (n' < m' /\ i < m' /\ n' < j)).
Proof using Type.
  intros [HL HR] Hst Hmn Hn Hm' Hup Hsu Hn' Hdn Hsd. split.
  - split; intros p Hp.
    + destruct (Z.lt_ge_cases p m); [apply HL; lia|]. specialize (Hup p). lia.
    + destruct (Z.lt_ge_cases n p); [apply HR; lia|]. specialize (Hdn p). lia.
  - destruct Hst as [(-> & -> & q & Hq & Eq)|[Hi Hj]].
    + left. assert (m' <= q) by (destruct (Z.le_gt_cases m' q); [done|]; specialize (Hup q); lia).
      assert (q <= n') by (destruct (Z.le_gt_cases q n'); [done|]; specialize (Hdn q); lia).
      repeat split; [lia| |].
      * destruct Hsu as [ | -> ]; [done|]. replace j with q by lia. lia.
      * destruct Hsd as [ | -> ]; [done|]. replace i with q by lia. lia.
    + assert (m' <= n + 1)
        by (destruct (Z.le_gt_cases m' (n + 1)); [done|]; specialize (Hup (n + 1)); specialize (HR (n + 1)); lia).
      destruct (Z.le_gt_cases m' n'); [left|right; lia]. repeat split; [done|lia..].
Qed.

Lemma swapped_split a k i j m n :
  0 <= i -> j < alen a -> i <= m <= n -> n <= j -> split_at a k i j m n ->
  k <= at_ a m -> at_ a n <= k -> split_at (swapped a m n) k i j (m + 1) (n - 1).
Proof using Type.
  intros ? ? ? ? [HL HR] Hm Hn. split; intros p Hp; rewrite at_swapped by lia.
  - destruct (Z.eqb_spec p n) as [->|]; [assert (m = n) as -> by lia; lia|].
    destruct (Z.eqb_spec p m); [lia|]. apply HL. lia.
  - destruct (Z.eqb_spec p n); [lia|].
    destruct (Z.eqb_spec p m) as [->|]; [assert (m = n) as -> by lia; lia|]. apply HR. lia.
Qed.

Lemma partition_ok g fuel a k i j m n :
  words a -> alen a = alen a0 -> 0 <= i -> i <= m <= n -> n <= j -> j < alen a ->
  j - i < Z.of_nat g -> n - m < Z.of_nat fuel ->
  split_at a k i j m n -> stoppers a k i j m n ->
  exists b m' n', partition g fuel a k i j m n = Some (b, m', n') /\
    slice_perm i j a b /\ n' < m' /\ i < m' <= j + 1 /\ i - 1 <= n' < j /\
    split_at b k i j m' n'.
Proof using Hlen.
  revert a m n. induction fuel as [|f IH]; intros a m n Hw Ha Hi Hm Hn Hj Hg Hf Hsp Hst; [lia|].
  cbn [partition].
  destruct (scan_up_ok g a k j m) as (m' & -> & Hm' & Hup & Hsu); [lia..|]. cbn [mbind option_bind].
  destruct (scan_down_ok g a k i n) as (n' & -> & Hn' & Hdn & Hsd); [lia..|]. cbn [mbind option_bind].
  destruct (scans_meet a k i j m n m' n') as [Hsp' Hmeet]; [done..|].
  destruct Hmeet as [(Hle & Hkm & Hkn)|(Hgt & Him & Hnj)].
  - rewrite (proj2 (Z.leb_le m' n') Hle), swap_ok by (done || lia). cbn [mbind option_bind].
    rewrite !s16_small by lia.
    assert (Hs : slice_perm i j a (swapped a m' n')).
    { apply rtc_once. exists m', n'. repeat split; lia. }
    apply swapped_split in Hsp'; [|lia..].
    destruct (Z.leb_spec (m' + 1) (n' - 1)).
    + destruct (IH (swapped a m' n') (m' + 1) (n' - 1)) as (b & m2 & n2 & E & Hp & ? & ? & ? & Hsp2);
        rewrite ?alen_swapped; try done; try lia.
      { eapply slice_perm_words; eauto. }
      { right. lia. }
      exists b, m2, n2. repeat split; try done; try lia; [by etrans|apply Hsp2..].
    + exists (swapped a m' n'), (m' + 1), (n' - 1). repeat split; try done; try lia; apply Hsp'.
  - rewrite (proj2 (Z.leb_gt m' n') Hgt). cbn [mbind option_bind].
    rewrite (proj2 (Z.leb_gt m' n') Hgt).
    exists a, m', n'. repeat split; try done; try lia; apply Hsp'.
Qed.

Definition sorted_between (a : list Z) (i j : Z) : Prop :=
  forall p q, i <= p <= q -> q <= j -> at_ a p <= at_ a q.

(** Sorting the two sides of a split sorts the whole. *)
Lemma sorted_join b c d k i j m n :
  0 <= i -> j < alen b -> n < m -> i < m <= j + 1 -> i - 1 <= n < j -> split_at b k i j m n ->
  slice_perm m j b c -> sorted_between c m j ->
  slice_perm i n c d -> sorted_between d i n -> sorted_between d i j.
Proof using Type.
  intros Hi Hj Hnm Hm Hn [HL HR] Hbc Sc Hcd Sd p q Hpq Hqj.
  assert (Lc : forall p, i <= p < m -> at_ c p <= k).
  { intros x Hx. rewrite (slice_perm_outside m j b c) by (done || lia). apply HL. lia. }
  assert (Ld : forall p, i <= p < m -> at_ d p <= k).
  { intros x Hx. destruct (Z.le_gt_cases x n).
    - apply (slice_perm_all i n c d (fun z => z <= k)); [done| |lia]. intros; apply Lc; lia.
    - rewrite (slice_perm_outside i n c d) by (done || lia). apply Lc. lia. }
  assert (Rd : forall p, n < p <= j -> k <= at_ d p).
  { intros x Hx. rewrite (slice_perm_outside i n c d) by (done || lia).
    destruct (Z.lt_ge_cases x m).
    - rewrite (slice_perm_outside m j b c) by (done || lia). apply HR. lia.
    - apply (slice_perm_all m j b c (fun z => k <= z)); [done| |lia]. intros; apply HR; lia. }
  destruct (Z.le_gt_cases q n); [apply Sd; lia|].
  destruct (Z.lt_ge_cases p m); [transitivity k; [apply Ld|apply Rd]; lia|].
  rewrite !(slice_perm_outside i n c d) by (done || lia). apply Sc; lia.
Qed.

Lemma quick_slice fuel a i j :
  words a -> alen a = alen a0 -> 0 <= i <= j -> j < alen a -> j - i < Z.of_nat fuel ->
  exists b, quick fuel a i j = Some b /\ slice_perm i j a b /\ sorted_between b i j.
Proof using Hlen.
  revert a i j. induction fuel as [|f IH]; intros a i j Hw Ha Hi Hj Hf; [lia|].
  cbn [quick]. assert (Hq : i <= Z.quot (i + j) 2 <= j) by (Z.quot_rem_to_equations; lia).
  rewrite aget_at by lia. cbn [mbind option_bind].
  destruct (partition_ok (S f) (S f) a (at_ a (Z.quot (i + j) 2)) i j i j)
    as (b & m & n & -> & Hab & Hnm & Hm & Hn & Hsp); [done || lia..| | |].
  { split; intros; lia. }
  { left. eauto. }
  cbn [mbind option_bind]. pose proof (slice_perm_len _ _ _ _ Hab) as Lb.
  assert (exists c, (if m <? j then quick f b m j else Some b) = Some c /\
            slice_perm m j b c /\ sorted_between c m j) as (c & -> & Hbc & Sc).
  { destruct (Z.ltb_spec m j).
    - apply IH; [eapply slice_perm_words; eauto|lia..].
    - exists b. repeat split; [done|]. intros p q ? ?. by replace q with p by lia. }
  cbn [mbind option_bind]. pose proof (slice_perm_len _ _ _ _ Hbc) as Lc.
  assert (Hbc' : slice_perm i j b c) by (apply (slice_perm_mono i j m j); [done|lia..]).
  assert (exists d, (if i <? n then quick f c i n else Some c) = Some d /\
            slice_perm i n c d /\ sorted_between d i n) as (d & -> & Hcd & Sd).
  { destruct (Z.ltb_spec i n).
    - apply IH; [do 2 (eapply slice_perm_words; [eassumption|]); done|lia..].
    - exists c. repeat split; [done|]. intros p q ? ?. by replace q with p by lia. }
  assert (slice_perm i j c d) by (apply (slice_perm_mono i j i n); [done|lia..]).
  exists d. split; [done|]. split; [by do 2 (etrans; [eassumption|])|].
  eapply (sorted_join b c d); eauto; lia.
Qed.
End Quick.

(** C27: [quick] always terminates on an array of 16-bit words with [int16_t] indices inside the
    array (recursion deeper than the slice is never needed), reads and writes only inside it,
    rearranges exactly the elements of the slice [i..j] and leaves it sorted. *)
Theorem quick_sorts fuel a i j :
  words a -> alen a <= 32767 -> 0 <= i <= j -> j < alen a -> j - i < Z.of_nat fuel ->
  exists b, quick fuel a i j = Some b /\ b ≡ₚ a /\
    (forall p, 0 <= p -> ~ i <= p <= j -> at_ b p = at_ a p) /\
    (forall p q, i <= p <= q -> q <= j -> at_ b p <= at_ b q).
Proof.
  intros Hw Hl Hi Hj Hf. destruct (quick_slice a Hl fuel a i j) as (b & E & Hp & Hs); [done..|].
  exists b. repeat split; [done|by eapply slice_perm_perm| |done].
  intros p Hp0 Hout. by eapply slice_perm_outside.
Qed.

Definition sample : list Z := [500; 3; 65535; 3; 40000; 0; 7].

Lemma quick_sorts_witness :
  quick 7 sample 0 6 = Some [0; 3; 3; 7; 500; 40000; 65535] /\
  exists b, quick 7 sample 0 6 = Some b /\ b ≡ₚ sample /\
    (forall p, 0 <= p -> ~ 0 <= p <= 6 -> at_ b p = at_ sample p) /\
    (forall p q, 0 <= p <= q -> q <= 6 -> at_ b p <= at_ b q).
Proof.
  split; [vm_compute; reflexivity|].
  apply quick_sorts; [repeat (apply List.Forall_cons; [lia|]); apply List.Forall_nil|unfold alen; cbn; lia..].
Defined.

(** A table can be checked to be sorted by comparing neighbours. *)
Fixpoint ascending (a : list Z) : bool :=
  match a with x :: (y :: _) as t => (x <=? y) && ascending t | _ => true end.

Lemma sorted_steps a i j :
  (forall p, i <= p < j -> at_ a p <= at_ a (p + 1)) -> sorted_between a i j.
Proof.
  intros H p q [Hp Hpq] Hq. revert Hq. pattern q. apply (Zlt_lower_bound_ind _ p); [|done].
  intros x IH Hx Hxj. destruct (Z.eq_dec x p) as [->|]; [lia|].
  transitivity (at_ a (x - 1)); [apply IH; lia|].
  replace x with (x - 1 + 1) at 2 by lia. apply H. lia.
Qed.

Lemma ascending_step a p : ascending a = true -> (S p < length a)%nat -> nth p a 0 <= nth (S p) a 0.
Proof.
  revert p. induction a as [|x [|y t] IH]; intros p Ha Hp; [cbn in Hp; lia..|].
  cbn [ascending] in Ha. apply andb_true_iff in Ha as [Hxy Ha].
  destruct p as [|p]; [cbn; lia|]. apply (IH p Ha). cbn in *. lia.
Qed.

Lemma ascending_sorted a : ascending a = true -> sorted_between a 0 (alen a - 1).
Proof.
  intros Ha. apply sorted_steps. intros p Hp. unfold at_, alen in *.
  replace (Z.to_nat (p + 1)) with (S (Z.to_nat p)) by lia. apply ascending_step; [done|lia].
Qed.

(** ** [bin_search] *)

(** The interval of the table that holds the key, as the code looks for it. *)
Definition holds (a : list Z) (size key r : Z) : Prop :=
  0 <= r /\ r + 1 < size /\ at_ a r <= key < at_ a (r + 1).

Lemma interval_exists a key n :
  at_ a 0 <= key < at_ a (Z.of_nat n) -> exists r, 0 <= r < Z.of_nat n /\ at_ a r <= key < at_ a (r + 1).
Proof.
  induction n as [|n IH]; intros H; [change (Z.of_nat 0) with 0 in H; lia|].
  destruct (Z.lt_ge_cases key (at_ a (Z.of_nat n))) as [Hk|Hk].
  - destruct IH as (r & ? & ?); [lia|]. exists r. lia.
  - exists (Z.of_nat n). rewrite Nat2Z.inj_succ in H. unfold Z.succ in H. lia.
Qed.

Section Search.
Context (a : list Z) (size key : Z).
Context (Hsize : 0 < size <= 32767) (Hin : size < alen a) (Hsorted : sorted_between a 0 size).

Lemma holds_left mid r :
  0 <= mid < size -> key < at_ a mid -> holds a size key r -> r < mid.
Proof using Hsorted.
  intros Hm Hk (? & ? & ?). destruct (Z.lt_ge_cases r mid); [done|].
  assert (at_ a mid <= at_ a r) by (apply Hsorted; lia). lia.
Qed.

Lemma holds_right mid r :
  0 <= mid < size -> at_ a mid <= key -> r <> mid -> holds a size key r -> mid < r.
Proof using Hsorted.
  intros Hm Hk Hne (? & ? & ?). destruct (Z.lt_ge_cases mid r); [done|].
  assert (at_ a (r + 1) <= at_ a mid) by (apply Hsorted; lia). lia.
Qed.

(** Each round halves the interval, so [log2] rounds are enough. *)
Lemma bin_loop_ok f low high :
  0 <= low -> high < size -> high - low + 1 < 2 ^ Z.of_nat f ->
  exists r, bin_loop (S f) a size key low high = Some r /\
    (holds a size key r \/ (r = -1 /\ forall q, low <= q <= high -> ~ holds a size key q)).
Proof using Hsize Hin Hsorted.
  revert low high. induction f as [|f IH]; intros low high Hlo Hhi Hf.
  { cbn in Hf. cbn [bin_loop]. destruct (Z.leb_spec low high); [lia|].
    exists (-1). split; [done|]. right. split; [done|lia]. }
  remember (S f) as g eqn:Eg. cbn [bin_loop]. subst g.
  destruct (Z.leb_spec low high); [|exists (-1); split; [done|right; split; [done|lia]]].
  rewrite Nat2Z.inj_succ, Z.pow_succ_r in Hf by lia.
  set (mid := Z.quot (low + high) 2).
  assert (Hmid : low <= mid <= high /\ 2 * mid <= low + high <= 2 * mid + 1)
    by (subst mid; Z.quot_rem_to_equations; lia).
  clearbody mid. rewrite (aget_at a mid) by lia. cbn [mbind option_bind].
  destruct (Z.leb_spec (at_ a mid) key) as [Hk|Hk].
  - rewrite aget_at by lia. cbn [mbind option_bind].
    destruct (Z.ltb_spec key (at_ a mid)); [lia|].
    destr_if; to_prop.
    + exists mid. rewrite s16_small by lia. split; [done|]. left. unfold holds. lia.
    + destruct (IH (mid + 1) high) as (r & E & Hr); [lia..|]. exists r. split; [exact E|].
      destruct Hr as [|[-> Hno]]; [by left|right; split; [done|]]. intros q Hq Hh.
      destruct (Z.eq_dec q mid) as [->|]; [unfold holds in Hh; lia|].
      apply (Hno q); [|done]. assert (mid < q) by (apply holds_right; done || lia). lia.
  - destruct (Z.ltb_spec key (at_ a mid)); [|lia]. cbn [mbind option_bind].
    destruct (IH low (mid - 1)) as (r & E & Hr); [lia..|]. exists r. split; [exact E|].
    destruct Hr as [|[-> Hno]]; [by left|right; split; [done|]]. intros q Hq Hh.
    apply (Hno q); [|done]. assert (q < mid) by (apply holds_left; done || lia). lia.
Qed.
End Search.

Lemma bin_search_spec f a array_size key :
  0 < array_size <= 32767 -> array_size < alen a -> array_size < 2 ^ Z.of_nat f ->
  sorted_between a 0 array_size ->
  exists r, bin_search (S f) a array_size key = Some r /\
    (if (at_ a 0 <=? key) && (key <? at_ a (array_size - 1))
     then 0 <= r /\ r + 1 < array_size /\ at_ a r <= key < at_ a (r + 1) else r = -1).
Proof.
  intros Hs Hin Hf Hsort. unfold bin_search. rewrite (aget_at a 0) by lia. cbn [mbind option_bind].
  destruct (Z.ltb_spec key (at_ a 0)).
  { exists (-1). split; [done|]. destr_if; to_prop; lia. }
  rewrite (aget_at a array_size) by lia. cbn [mbind option_bind].
  assert (at_ a (array_size - 1) <= at_ a array_size) by (apply Hsort; lia).
  destruct (Z.ltb_spec (at_ a array_size) key).
  { exists (-1). split; [done|]. destr_if; to_prop; lia. }
  destruct (bin_loop_ok a array_size key Hs Hin Hsort f 0 (array_size - 1)) as (r & E & Hr); [lia..|].
  exists r. split; [exact E|]. destr_if; to_prop.
  - destruct Hr as [|[-> Hno]]; [done|].
    destruct (interval_exists a key (Z.to_nat (array_size - 1))) as (q & Hq & ?); [rewrite Z2Nat.id; lia|].
    exfalso. apply (Hno q); [lia|]. unfold holds. lia.
  - destruct Hr as [(? & ? & ?)|[-> Hno]]; [|done].
    assert (at_ a (r + 1) <= at_ a (array_size - 1)) by (apply Hsort; lia).
    assert (at_ a 0 <= at_ a r) by (apply Hsort; lia). lia.
Qed.

(** [bin_search] on a sorted table of [array_size + 1] words terminates after at most
    [log2 array_size + 2] rounds, reads only inside the table, and returns the interval that
    holds the key when the key is in [a[0] .. a[array_size - 1])], else -1: keys in the last
    interval, [a[array_size - 1] .. a[array_size]], are rejected too. *)
Theorem bin_search_correct f a array_size key :
  0 < array_size <= 32767 -> array_size < alen a -> array_size < 2 ^ Z.of_nat f ->
  sorted_between a 0 array_size ->
  exists r, bin_search (S f) a array_size key = Some r /\
    (if (at_ a 0 <=? key) && (key <? at_ a (array_size - 1))
     then 0 <= r /\ r + 1 < array_size /\ at_ a r <= key < at_ a (r + 1) else r = -1).
Proof. apply bin_search_spec. Qed.

Definition ladder : list Z := [10; 20; 30; 40; 50].

Lemma bin_search_correct_witness :
  bin_search 4 ladder 4 35 = Some 2 /\ bin_search 4 ladder 4 45 = Some (-1) /\
  exists r, bin_search 4 ladder 4 35 = Some r /\ 0 <= r /\ r + 1 < 4 /\ at_ ladder r <= 35 < at_ ladder (r + 1).
Proof.
  split; [reflexivity|]. split; [reflexivity|].
  apply (bin_search_correct 3 ladder 4 35); [lia|unfold alen; cbn; lia|cbn; lia|].
  by apply (ascending_sorted ladder).
Defined.

(** ** [BitCount_16] and the byte checksums *)

Fixpoint popcount (k : nat) (n : Z) : Z :=
  match k with O => 0 | S k => n mod 2 + popcount k (n / 2) end.

Lemma bit_loop_count f n c :
  0 <= n < 2 ^ Z.of_nat f -> (f <= 16)%nat -> 0 <= c -> c + Z.of_nat f < 256 ->
  bit_loop (S f) n c = Some (c + popcount f n).
Proof.
  revert n c. induction f as [|f IH]; intros n c Hn Hf Hc Hcf.
  - cbn in Hn. replace n with 0 by lia. cbn. by rewrite Z.add_0_r.
  - remember (S f) as g. cbn [bit_loop]. subst g. cbn [popcount].
    rewrite Nat2Z.inj_succ, Z.pow_succ_r in Hn by lia.
    assert (2 ^ Z.of_nat f <= 2 ^ 15) by (apply Z.pow_le_mono_r; lia).
    destruct (nz n) eqn:E; unfold nz in E.
    + rewrite Z.shiftr_div_pow2 by lia. change (2 ^ 1) with 2.
      assert (n .& 1 = n mod 2) as -> by (change 1 with (Z.ones 1); by rewrite Z.land_ones by lia).
      assert (0 <= n / 2 < 2 ^ Z.of_nat f) by (Z.div_mod_to_equations; lia).
      assert (0 <= n mod 2 <= 1) by (Z.div_mod_to_equations; lia).
      rewrite u16_small by (change (2 ^ 15) with 32768 in *; lia). rewrite u8_small by lia.
      rewrite IH by lia. f_equal. lia.
    + apply negb_false_iff, Z.eqb_eq in E as ->. f_equal. change (0 mod 2) with 0. change (0 / 2) with 0.
      assert (popcount f 0 = 0) as ->; [clear; induction f; cbn [popcount]; change (0 / 2) with 0; [done|by rewrite IHf]|lia].
Qed.

(** The loop of [BitCount_16] ends after at most 16 shifts and counts the bits that are set. *)
Lemma BitCount_16_count n : 0 <= n < 65536 -> BitCount_16 17 n = Some (popcount 16 n).
Proof. intros. unfold BitCount_16. rewrite bit_loop_count; [by rewrite Z.add_0_l|cbn; lia..]. Qed.

(** Both byte checksums are the exclusive or of the bytes. *)
Lemma checksum_u8_xor d ds n : 0 <= d < 256 -> 0 < n -> checksum_u8 (d :: ds) n = xor_checksum (d :: ds) n.
Proof.
  intros Hd Hn. unfold checksum_u8, xor_checksum.
  replace (Z.to_nat n) with (S (Z.to_nat (n - 1))) by lia. cbn [xor_loop].
  by rewrite Z.lxor_0_l, u8_small.
Qed.

Lemma xor_loop_app data c r s :
  xor_loop data (length data) r = Some s -> xor_loop (data ++ [c]) (S (length data)) r = Some (u8 (s .^ c)).
Proof.
  revert r. induction data as [|d ds IH]; intros r; cbn [length xor_loop app]; [by intros [= ->]|].
  apply IH.
Qed.

(** A block followed by its checksum has checksum 0, and by any other byte has not. *)
Lemma xor_checksum_detects data s c :
  0 <= s < 256 -> 0 <= c < 256 ->
  xor_checksum data (alen data) = Some s -> (xor_checksum (data ++ [c]) (alen data + 1) = Some 0 <-> c = s).
Proof.
  intros Hs Hc H. unfold xor_checksum, alen in *. rewrite Nat2Z.id in H.
  replace (Z.to_nat (Z.of_nat (length data) + 1)) with (S (length data)) by lia.
  rewrite (xor_loop_app data c 0 s H). split.
  - intros [= E]. symmetry. apply Z.lxor_eq.
    assert (Hb : 0 <= s .^ c < 2 ^ 8).
    { apply bits_bound; [lia|]. intros j Hj. rewrite Z.lxor_spec.
      rewrite !Z.bits_above_log2; [done| | | |]; try lia.
      all: eapply Z.le_lt_trans; [apply Z.log2_le_mono with (b := 255); lia|]; cbn; lia. }
    rewrite u8_small in E; [done|]. cbn in Hb. lia.
  - intros ->. by rewrite Z.lxor_nilpotent.
Qed.
