(* ===== verification/Fifo.v ===== *)
(** * kits/fifo.c: block FIFOs

    [fifo8] and [fifo16] are the same code over bytes and over half-words: a
    control block holds a buffer of [depth] blocks of [block_size] units, a write
    pointer, a read pointer and a count.  Pointers are offsets in units from
    [buffer_ptr].  The specification is a bounded queue of blocks; the refinement
    theorem relates any sequence of calls on the control block to it. *)

From S2P Require Import Prelude.

Record fifo_cb : Type := FifoCb {
  buffer : list Z;        (* *buffer_ptr, one element per unit *)
  bhead_ptr : Z;          (* offset of the next block to write *)
  btail_ptr : Z;          (* offset of the next block to read *)
  block_size : Z;
  depth : Z;
  length_ : Z             (* uint16_t length *)
}.

(** [rt_memcpy] of [n] units to offset [o] of the buffer, and from it. *)
Definition memcpy_to (buf : list Z) (o : Z) (src : list Z) : list Z :=
  take (Z.to_nat o) buf ++ src ++ drop (Z.to_nat o + List.length src) buf.

Definition memcpy_from (buf : list Z) (o n : Z) : list Z :=
  take (Z.to_nat n) (drop (Z.to_nat o) buf).

(** [malloc n] is the block of units [rt_malloc] returned for [n] bytes, or
    [None] for [RT_NULL]; [usz] is the size of a unit in bytes. *)
Definition fifo_init (usz : Z) (malloc : Z -> option (list Z)) (bs d : Z) : option fifo_cb :=
  match malloc (bs * d * usz) with
  | None => None
  | Some mem => Some (FifoCb mem 0 0 bs d 0)
  end.

Definition is_fifo_full (f : fifo_cb) : Z := if length_ f =? depth f then 1 else 0.
Definition is_fifo_empty (f : fifo_cb) : Z := if length_ f =? 0 then 1 else 0.
Definition get_fifo_length (f : fifo_cb) : Z := length_ f.

Definition next_ptr (f : fifo_cb) (p : Z) : Z :=
  if block_size f * (depth f - 1) <=? p then 0 else p + block_size f.

Definition fifo_push (f : fifo_cb) (src : list Z) : Z * fifo_cb :=
  if is_fifo_full f =? 1 then (0, f)
  else
    let buf := memcpy_to (buffer f) (bhead_ptr f) (take (Z.to_nat (block_size f)) src) in
    (1, FifoCb buf (next_ptr f (bhead_ptr f)) (btail_ptr f)
          (block_size f) (depth f) (u16 (length_ f + 1))).

Definition fifo_pop (f : fifo_cb) : Z * option (list Z) * fifo_cb :=
  if is_fifo_empty f =? 1 then (0, None, f)
  else
    let dest := memcpy_from (buffer f) (btail_ptr f) (block_size f) in
    (1, Some dest, FifoCb (buffer f) (bhead_ptr f) (next_ptr f (btail_ptr f))
          (block_size f) (depth f) (u16 (length_ f - 1))).

Definition fifo_reset (f : fifo_cb) : fifo_cb :=
  FifoCb (buffer f) 0 0 (block_size f) (depth f) 0.

(** The two instances of the source. *)
Definition fifo16_init := fifo_init 2.
Definition is_fifo16_full := is_fifo_full.
Definition is_fifo16_empty := is_fifo_empty.
Definition fifo16_push := fifo_push.
Definition fifo16_pop := fifo_pop.
Definition fifo16_reset := fifo_reset.

Definition fifo8_init := fifo_init 1.
Definition is_fifo8_full := is_fifo_full.
Definition is_fifo8_empty := is_fifo_empty.
Definition get_fifo8_length := get_fifo_length.
Definition fifo8_push := fifo_push.
Definition fifo8_pop := fifo_pop.
Definition fifo8_reset := fifo_reset.

(** ** Abstract specification: a bounded queue of blocks *)

Module Spec.

Inductive op : Type := Push (blk : list Z) | Pop | Reset.

(** Result of a call: its return value and the block written to the caller. *)
Definition step (cap : Z) (o : op) (q : list (list Z)) : (Z * option (list Z)) * list (list Z) :=
  match o with
  | Push b => if Z.of_nat (List.length q) =? cap then ((0, None), q) else ((1, None), q ++ [b])
  | Pop => match q with [] => ((0, None), q) | b :: q' => ((1, Some b), q') end
  | Reset => ((0, None), [])
  end.

Fixpoint run (cap : Z) (os : list op) (q : list (list Z)) :=
  match os with
  | [] => ([], q)
  | o :: os' => let (r, q') := step cap o q in
                let (rs, q'') := run cap os' q' in (r :: rs, q'')
  end.

End Spec.

Definition exec (o : Spec.op) (f : fifo_cb) : (Z * option (list Z)) * fifo_cb :=
  match o with
  | Spec.Push b => let (r, f') := fifo_push f b in ((r, None), f')
  | Spec.Pop => let '(r, d, f') := fifo_pop f in ((r, d), f')
  | Spec.Reset => ((0, None), fifo_reset f)
  end.

Fixpoint exec_all (os : list Spec.op) (f : fifo_cb) :=
  match os with
  | [] => ([], f)
  | o :: os' => let (r, f') := exec o f in
                let (rs, f'') := exec_all os' f' in (r :: rs, f'')
  end.

(** ** Invariant and abstraction function *)

Definition block_at (f : fifo_cb) (k : Z) : list Z :=
  memcpy_from (buffer f) (block_size f * k) (block_size f).

Record fifo_inv (f : fifo_cb) (t : Z) : Prop := {
  inv_bs : 0 < block_size f;
  inv_depth : 0 < depth f < 65536;
  inv_buf : Z.of_nat (List.length (buffer f)) = block_size f * depth f;
  inv_len : 0 <= length_ f <= depth f;
  inv_t : 0 <= t < depth f;
  inv_tail : btail_ptr f = block_size f * t;
  inv_head : bhead_ptr f = block_size f * ((t + length_ f) mod depth f)
}.

Definition contents (f : fifo_cb) (t : Z) : list (list Z) :=
  (fun i => block_at f ((t + Z.of_nat i) mod depth f)) <$> seq 0 (Z.to_nat (length_ f)).

Lemma length_contents f t : List.length (contents f t) = Z.to_nat (length_ f).
Proof. unfold contents. by rewrite length_fmap, length_seq. Qed.

Lemma next_ptr_mod f k :
  0 < block_size f -> 0 <= k < depth f ->
  next_ptr f (block_size f * k) = block_size f * ((k + 1) mod depth f).
Proof.
  intros Hbs Hk. unfold next_ptr. case_match eqn:E; [apply Z.leb_le in E | apply Z.leb_gt in E].
  - assert (k = depth f - 1) as -> by nia.
    rewrite Z.sub_add, Z.mod_same by lia. lia.
  - rewrite Z.mod_small by nia. lia.
Qed.

(** Writing block [k] changes block [k] and no other. *)
Lemma memcpy_block_same buf bs k n src :
  0 < bs -> 0 <= k < n -> Z.of_nat (List.length buf) = bs * n ->
  Z.of_nat (List.length src) = bs ->
  memcpy_from (memcpy_to buf (bs * k) src) (bs * k) bs = src.
Proof.
  intros Hbs Hk Hbuf Hsrc. unfold memcpy_from, memcpy_to.
  rewrite drop_app_length' by (rewrite length_take; nia).
  apply take_app_length'. lia.
Qed.

Lemma memcpy_block_other buf bs j k n src :
  0 < bs -> 0 <= k < n -> 0 <= j < n -> j <> k ->
  Z.of_nat (List.length buf) = bs * n -> Z.of_nat (List.length src) = bs ->
  memcpy_from (memcpy_to buf (bs * k) src) (bs * j) bs = memcpy_from buf (bs * j) bs.
Proof.
  intros Hbs Hk Hj Hne Hbuf Hsrc. unfold memcpy_from, memcpy_to.
  apply list_eq. intros i. destruct (decide (i < Z.to_nat bs)%nat) as [Hi|Hi].
  2: by rewrite !lookup_take_ge by lia.
  rewrite !lookup_take_lt, !lookup_drop by lia.
  destruct (Z.lt_ge_cases j k).
  - rewrite lookup_app_l by (rewrite length_take; nia).
    by rewrite lookup_take_lt by nia.
  - rewrite lookup_app_r by (rewrite length_take; nia).
    rewrite lookup_app_r by (rewrite length_take; nia).
    rewrite lookup_drop, length_take. f_equal. nia.
Qed.

Lemma length_memcpy_to buf o src :
  0 <= o -> o + Z.of_nat (List.length src) <= Z.of_nat (List.length buf) ->
  List.length (memcpy_to buf o src) = List.length buf.
Proof.
  intros. unfold memcpy_to. rewrite !length_app, length_take, length_drop. lia.
Qed.

Lemma mod_add_ne t i j d :
  0 < d -> 0 <= i < d -> 0 <= j < d -> i <> j -> (t + i) mod d <> (t + j) mod d.
Proof.
  intros Hd Hi Hj Hne E. apply Hne.
  assert ((i - j) mod d = 0) as H0.
  { replace (i - j) with ((t + i) - (t + j)) by lia. by rewrite Zminus_mod, E, Z.sub_diag. }
  apply Z.mod_divide in H0 as [q Hq]; [|lia].
  assert (q = 0) as -> by (assert (-1 < q < 1) by nia; lia). lia.
Qed.

(** ** Each operation preserves the invariant and acts as its specification *)

Lemma push_spec f t b :
  fifo_inv f t -> Z.of_nat (List.length b) = block_size f ->
  let '(r, f') := fifo_push f b in
  fifo_inv f' t /\ depth f' = depth f /\ block_size f' = block_size f /\
  ((r, None), contents f' t) = Spec.step (depth f) (Spec.Push b) (contents f t).
Proof.
  intros [Hbs Hd Hbuf Hlen Ht Htl Hhd] Hb. unfold fifo_push, is_fifo_full. cbn [Spec.step].
  rewrite length_contents, Z2Nat.id by lia.
  destruct (Z.eqb_spec (length_ f) (depth f)) as [E|E]; cbn; [done|].
  rewrite (take_ge b) by lia.
  pose proof (Z.mod_pos_bound (t + length_ f) (depth f) ltac:(lia)) as Hm.
  rewrite u16_small by lia. split_and!; try done.
  - split; cbn [buffer bhead_ptr btail_ptr block_size depth length_]; try done; try lia.
    + rewrite length_memcpy_to; [done| nia..].
    + rewrite Hhd, next_ptr_mod, Zplus_mod_idemp_l by lia. do 2 f_equal. lia.
  - unfold contents; cbn [buffer bhead_ptr btail_ptr block_size depth length_].
    replace (Z.to_nat (length_ f + 1)) with (S (Z.to_nat (length_ f))) by lia.
    rewrite seq_S, fmap_app. f_equal. f_equal.
    + apply list_fmap_ext. intros i x [-> Hi]%lookup_seq. unfold block_at; cbn.
      rewrite Hhd. eapply memcpy_block_other; eauto; try lia.
      * apply Z.mod_pos_bound. lia.
      * apply mod_add_ne; lia.
    + cbn. f_equal. unfold block_at; cbn. rewrite Z2Nat.id by lia. rewrite Hhd.
      eapply memcpy_block_same; eauto.
Qed.

Lemma pop_spec f t :
  fifo_inv f t ->
  let '(r, d, f') := fifo_pop f in
  exists t', fifo_inv f' t' /\ depth f' = depth f /\ block_size f' = block_size f /\
  ((r, d), contents f' t') = Spec.step (depth f) Spec.Pop (contents f t).
Proof.
  intros [Hbs Hd Hbuf Hlen Ht Htl Hhd]. unfold fifo_pop, is_fifo_empty. cbn [Spec.step].
  destruct (Z.eqb_spec (length_ f) 0) as [E|E]; cbn -[next_ptr].
  { exists t. split_and!; try done. unfold contents. by rewrite E. }
  exists ((t + 1) mod depth f). rewrite u16_small by lia.
  pose proof (Z.mod_pos_bound (t + 1) (depth f) ltac:(lia)) as Hm.
  split_and!; try done.
  - split; cbn [buffer bhead_ptr btail_ptr block_size depth length_]; try done; try lia.
    + rewrite Htl, next_ptr_mod by lia. done.
    + rewrite Hhd, Zplus_mod_idemp_l by lia. do 2 f_equal. lia.
  - unfold contents; cbn [buffer bhead_ptr btail_ptr block_size depth length_].
    replace (Z.to_nat (length_ f)) with (S (Z.to_nat (length_ f - 1))) by lia.
    cbn [seq fmap list_fmap]. f_equal.
    + rewrite Htl. unfold block_at. rewrite Z.add_0_r, Z.mod_small by lia. done.
    + rewrite <- (fmap_S_seq 0), <- list_fmap_compose.
      apply list_fmap_ext. intros i x _. cbn [compose]. unfold compose, block_at; cbn [buffer block_size].
      rewrite Zplus_mod_idemp_l. do 3 f_equal. lia.
Qed.

Lemma reset_spec f t :
  fifo_inv f t -> fifo_inv (fifo_reset f) 0 /\ contents (fifo_reset f) 0 = [].
Proof. intros []. split; [split|]; cbn; try done; try lia. rewrite Z.mod_0_l; lia. Qed.

Lemma init_spec usz malloc bs d f :
  0 < usz -> 0 < bs -> 0 < d < 65536 ->
  (forall n m, malloc n = Some m -> usz * Z.of_nat (List.length m) = n) ->
  fifo_init usz malloc bs d = Some f ->
  fifo_inv f 0 /\ contents f 0 = [] /\ depth f = d /\ block_size f = bs.
Proof.
  intros Hu Hbs Hd Hm. unfold fifo_init. case_match eqn:E; [|done]. intros [= <-].
  apply Hm in E. split_and!; try done.
  split; cbn; try done; try nia. rewrite Z.mod_0_l; lia.
Qed.

(** A call's argument is one block. *)
Definition op_ok (bs : Z) (o : Spec.op) : Prop :=
  match o with Spec.Push b => Z.of_nat (List.length b) = bs | _ => True end.

Lemma exec_spec f t o :
  fifo_inv f t -> op_ok (block_size f) o ->
  let '(r, f') := exec o f in
  exists t', fifo_inv f' t' /\ depth f' = depth f /\ block_size f' = block_size f /\
  (r, contents f' t') = Spec.step (depth f) o (contents f t).
Proof.
  intros Hi Ho. destruct o as [b| |]; cbn [exec].
  - pose proof (push_spec f t b Hi Ho) as H. destruct (fifo_push f b). eauto.
  - pose proof (pop_spec f t Hi) as H. destruct (fifo_pop f) as [[??]?]. eauto.
  - destruct (reset_spec f t Hi) as [H1 _]. exists 0. by split_and!.
Qed.

Lemma exec_all_spec os f t :
  fifo_inv f t -> Forall (op_ok (block_size f)) os ->
  exists t', fifo_inv (exec_all os f).2 t' /\
  ((exec_all os f).1, contents (exec_all os f).2 t') = Spec.run (depth f) os (contents f t).
Proof.
  revert f t. induction os as [|o os IH]; intros f t Hi Ho; cbn [exec_all Spec.run].
  { by exists t. }
  inversion_clear Ho as [|? ? Ho1 Ho2].
  pose proof (exec_spec f t o Hi Ho1) as H. destruct (exec o f) as [r f1].
  destruct H as (t1 & Hi1 & Hd & Hb & Hs). rewrite <- Hs.
  rewrite <- Hb in Ho2. destruct (IH f1 t1 Hi1 Ho2) as (t2 & Hi2 & Hr).
  rewrite Hd in Hr. rewrite <- Hr. destruct (exec_all os f1) as [rs f2]. by exists t2.
Qed.

(** C34: a control block set up by [fifo8_init]/[fifo16_init] answers every sequence
    of push, pop and reset calls exactly as a queue bounded by [depth] would: the
    same return values and the same blocks out, in the order they went in, with a
    push refused exactly when [depth] blocks are held and a pop refused exactly
    when none is; the ring pointers may wrap any number of times. *)
Theorem fifo_refines_bounded_queue usz malloc bs d f os :
  0 < usz -> 0 < bs -> 0 < d < 65536 ->
  (forall n m, malloc n = Some m -> usz * Z.of_nat (List.length m) = n) ->
  fifo_init usz malloc bs d = Some f ->
  Forall (op_ok bs) os ->
  (exec_all os f).1 = (Spec.run d os []).1.
Proof.
  intros Hu Hbs Hd Hm Hf Ho.
  destruct (init_spec _ _ _ _ _ Hu Hbs Hd Hm Hf) as (Hi & Hc & <- & <-).
  destruct (exec_all_spec os f 0 Hi Ho) as (t' & _ & Hr). rewrite Hc in Hr. by rewrite <- Hr.
Qed.

(** Two half-word blocks of two units in a FIFO of depth two: the write pointer wraps. *)
Lemma fifo_refines_bounded_queue_witness :
  let malloc := fun n => Some (repeat 0 (Z.to_nat (n / 2))) in
  let os := [Spec.Push [1; 2]; Spec.Push [3; 4]; Spec.Push [5; 6]; Spec.Pop;
             Spec.Push [7; 8]; Spec.Pop; Spec.Pop; Spec.Pop] in
  exists f, fifo16_init malloc 2 2 = Some f /\
  (exec_all os f).1 = (Spec.run 2 os []).1.
Proof.
  eexists. split; [reflexivity|].
  apply (fifo_refines_bounded_queue 2
    (fun n => if n =? 8 then Some (repeat 0 4) else None) 2 2); try lia.
  - intros n m. case_match eqn:E; [|done]. intros [= <-]. cbn. lia.
  - reflexivity.
  - repeat constructor.
Defined.
