(* ===== verification/Crc.v ===== *)
(** * Modbus checksum: FreeModbus/modbus/rtu/mbcrc.c

    [usMBCRC16] computes CRC-16 a byte at a time with two tables.  The reference definition
    divides bit by bit by the reversed polynomial 0xA001; the two agree on every message.  A
    message followed by its checksum, low byte first, has checksum 0, any other pair of bytes
    there gives another value, and a change of a single byte is always noticed. *)

From S2P Require Import Prelude.

#[local] Open Scope Z_scope.

Definition aucCRCHi : list Z :=
  [0x00; 0xC1; 0x81; 0x40; 0x01; 0xC0; 0x80; 0x41; 0x01; 0xC0; 0x80; 0x41; 0x00; 0xC1; 0x81;
   0x40; 0x01; 0xC0; 0x80; 0x41; 0x00; 0xC1; 0x81; 0x40; 0x00; 0xC1; 0x81; 0x40; 0x01; 0xC0;
   0x80; 0x41; 0x01; 0xC0; 0x80; 0x41; 0x00; 0xC1; 0x81; 0x40; 0x00; 0xC1; 0x81; 0x40; 0x01;
   0xC0; 0x80; 0x41; 0x00; 0xC1; 0x81; 0x40; 0x01; 0xC0; 0x80; 0x41; 0x01; 0xC0; 0x80; 0x41;
   0x00; 0xC1; 0x81; 0x40; 0x01; 0xC0; 0x80; 0x41; 0x00; 0xC1; 0x81; 0x40; 0x00; 0xC1; 0x81;
   0x40; 0x01; 0xC0; 0x80; 0x41; 0x00; 0xC1; 0x81; 0x40; 0x01; 0xC0; 0x80; 0x41; 0x01; 0xC0;
   0x80; 0x41; 0x00; 0xC1; 0x81; 0x40; 0x00; 0xC1; 0x81; 0x40; 0x01; 0xC0; 0x80; 0x41; 0x01;
   0xC0; 0x80; 0x41; 0x00; 0xC1; 0x81; 0x40; 0x01; 0xC0; 0x80; 0x41; 0x00; 0xC1; 0x81; 0x40;
   0x00; 0xC1; 0x81; 0x40; 0x01; 0xC0; 0x80; 0x41; 0x01; 0xC0; 0x80; 0x41; 0x00; 0xC1; 0x81;
   0x40; 0x00; 0xC1; 0x81; 0x40; 0x01; 0xC0; 0x80; 0x41; 0x00; 0xC1; 0x81; 0x40; 0x01; 0xC0;
   0x80; 0x41; 0x01; 0xC0; 0x80; 0x41; 0x00; 0xC1; 0x81; 0x40; 0x00; 0xC1; 0x81; 0x40; 0x01;
   0xC0; 0x80; 0x41; 0x01; 0xC0; 0x80; 0x41; 0x00; 0xC1; 0x81; 0x40; 0x01; 0xC0; 0x80; 0x41;
   0x00; 0xC1; 0x81; 0x40; 0x00; 0xC1; 0x81; 0x40; 0x01; 0xC0; 0x80; 0x41; 0x00; 0xC1; 0x81;
   0x40; 0x01; 0xC0; 0x80; 0x41; 0x01; 0xC0; 0x80; 0x41; 0x00; 0xC1; 0x81; 0x40; 0x01; 0xC0;
   0x80; 0x41; 0x00; 0xC1; 0x81; 0x40; 0x00; 0xC1; 0x81; 0x40; 0x01; 0xC0; 0x80; 0x41; 0x01;
   0xC0; 0x80; 0x41; 0x00; 0xC1; 0x81; 0x40; 0x00; 0xC1; 0x81; 0x40; 0x01; 0xC0; 0x80; 0x41;
   0x00; 0xC1; 0x81; 0x40; 0x01; 0xC0; 0x80; 0x41; 0x01; 0xC0; 0x80; 0x41; 0x00; 0xC1; 0x81;
   0x40].

Definition aucCRCLo : list Z :=
  [0x00; 0xC0; 0xC1; 0x01; 0xC3; 0x03; 0x02; 0xC2; 0xC6; 0x06; 0x07; 0xC7; 0x05; 0xC5; 0xC4;
   0x04; 0xCC; 0x0C; 0x0D; 0xCD; 0x0F; 0xCF; 0xCE; 0x0E; 0x0A; 0xCA; 0xCB; 0x0B; 0xC9; 0x09;
   0x08; 0xC8; 0xD8; 0x18; 0x19; 0xD9; 0x1B; 0xDB; 0xDA; 0x1A; 0x1E; 0xDE; 0xDF; 0x1F; 0xDD;
   0x1D; 0x1C; 0xDC; 0x14; 0xD4; 0xD5; 0x15; 0xD7; 0x17; 0x16; 0xD6; 0xD2; 0x12; 0x13; 0xD3;
   0x11; 0xD1; 0xD0; 0x10; 0xF0; 0x30; 0x31; 0xF1; 0x33; 0xF3; 0xF2; 0x32; 0x36; 0xF6; 0xF7;
   0x37; 0xF5; 0x35; 0x34; 0xF4; 0x3C; 0xFC; 0xFD; 0x3D; 0xFF; 0x3F; 0x3E; 0xFE; 0xFA; 0x3A;
   0x3B; 0xFB; 0x39; 0xF9; 0xF8; 0x38; 0x28; 0xE8; 0xE9; 0x29; 0xEB; 0x2B; 0x2A; 0xEA; 0xEE;
   0x2E; 0x2F; 0xEF; 0x2D; 0xED; 0xEC; 0x2C; 0xE4; 0x24; 0x25; 0xE5; 0x27; 0xE7; 0xE6; 0x26;
   0x22; 0xE2; 0xE3; 0x23; 0xE1; 0x21; 0x20; 0xE0; 0xA0; 0x60; 0x61; 0xA1; 0x63; 0xA3; 0xA2;
   0x62; 0x66; 0xA6; 0xA7; 0x67; 0xA5; 0x65; 0x64; 0xA4; 0x6C; 0xAC; 0xAD; 0x6D; 0xAF; 0x6F;
   0x6E; 0xAE; 0xAA; 0x6A; 0x6B; 0xAB; 0x69; 0xA9; 0xA8; 0x68; 0x78; 0xB8; 0xB9; 0x79; 0xBB;
   0x7B; 0x7A; 0xBA; 0xBE; 0x7E; 0x7F; 0xBF; 0x7D; 0xBD; 0xBC; 0x7C; 0xB4; 0x74; 0x75; 0xB5;
   0x77; 0xB7; 0xB6; 0x76; 0x72; 0xB2; 0xB3; 0x73; 0xB1; 0x71; 0x70; 0xB0; 0x50; 0x90; 0x91;
   0x51; 0x93; 0x53; 0x52; 0x92; 0x96; 0x56; 0x57; 0x97; 0x55; 0x95; 0x94; 0x54; 0x9C; 0x5C;
   0x5D; 0x9D; 0x5F; 0x9F; 0x9E; 0x5E; 0x5A; 0x9A; 0x9B; 0x5B; 0x99; 0x59; 0x58; 0x98; 0x88;
   0x48; 0x49; 0x89; 0x4B; 0x8B; 0x8A; 0x4A; 0x4E; 0x8E; 0x8F; 0x4F; 0x8D; 0x4D; 0x4C; 0x8C;
   0x44; 0x84; 0x85; 0x45; 0x87; 0x47; 0x46; 0x86; 0x82; 0x42; 0x43; 0x83; 0x41; 0x81; 0x80;
   0x40].

Definition tab8 (t : list Z) (i : Z) : Z := nth (Z.to_nat i) t 0.

(** One round of the loop on [ucCRCHi] and [ucCRCLo]. *)
Definition crc_round (s : Z * Z) (byte : Z) : Z * Z :=
  let '(ucCRCHi, ucCRCLo) := s in
  let iIndex := ucCRCLo .^ byte in
  (tab8 aucCRCLo iIndex, u8 (ucCRCHi .^ tab8 aucCRCHi iIndex)).

Definition crc_state (frame : list Z) : Z * Z := foldl crc_round (0xFF, 0xFF) frame.

(** The checksum of the [usLen] bytes at [pucFrame]. *)
Definition usMBCRC16 (pucFrame : Z -> Z) (usLen : Z) : Z :=
  let '(ucCRCHi, ucCRCLo) := crc_state (pucFrame <$> seqZ 0 usLen) in
  u16 ((ucCRCHi .<< 8) .| ucCRCLo).

(** The checksum of a list of bytes. *)
Definition crc_of (frame : list Z) : Z :=
  let '(ucCRCHi, ucCRCLo) := crc_state frame in u16 ((ucCRCHi .<< 8) .| ucCRCLo).

(** ** The reference: division bit by bit *)

Definition crc_shift (r : Z) : Z := if Z.odd r then (r .>> 1) .^ 0xA001 else r .>> 1.
Definition crc_byte (r byte : Z) : Z := Nat.iter 8 crc_shift (r .^ byte).
Definition crc16_modbus (frame : list Z) : Z := foldl crc_byte 0xFFFF frame.

(** ** Bytes and their pairs *)


Lemma byte_bits_high x j : byte x -> 8 <= j -> Z.testbit x j = false.
Proof.
  intros Hx Hj. unfold byte in Hx. destruct (Z.eq_dec x 0) as [->|]; [apply Z.bits_0|].
  apply Z.bits_above_log2; [lia|]. apply Z.log2_lt_pow2; [lia|].
  eapply Z.lt_le_trans with (2 ^ 8); [change (2 ^ 8) with 256; lia|]. apply Z.pow_le_mono_r; lia.
Qed.

Lemma lxor_byte x y : byte x -> byte y -> byte (x .^ y).
Proof.
  intros Hx Hy. apply (bits_bound _ 8); [lia|]. intros j Hj.
  rewrite Z.lxor_spec, !byte_bits_high by done. done.
Qed.

Lemma tab8_byte t i : forallb (fun x => (0 <=? x) && (x <? 256)) t = true -> byte (tab8 t i).
Proof.
  intros H. unfold tab8. destruct (nth_in_or_default (Z.to_nat i) t 0) as [Hin| ->]; [|unfold byte; lia].
  rewrite forallb_forall in H. apply H in Hin. unfold byte. lia.
Qed.

Lemma hi_byte i : byte (tab8 aucCRCHi i).
Proof. by apply tab8_byte. Qed.
Lemma lo_byte i : byte (tab8 aucCRCLo i).
Proof. by apply tab8_byte. Qed.
#[local] Hint Resolve hi_byte lo_byte lxor_byte : core.

Lemma u8_byte x : byte x -> u8 x = x.
Proof. apply u8_small. Qed.

Definition byte_pair (s : Z * Z) : Prop := byte s.1 /\ byte s.2.

Lemma crc_round_pair s b : byte_pair s -> byte_pair (crc_round s b).
Proof. destruct s as [h l]. intros [Hh Hl]. split; cbn [crc_round fst snd]; [done|apply u8_range]. Qed.

Lemma crc_state_pair_from s frame : byte_pair s -> byte_pair (foldl crc_round s frame).
Proof. revert s. induction frame as [|b f IH]; intros s Hs; [done|]. cbn [foldl]. by apply IH, crc_round_pair. Qed.

Lemma crc_state_pair frame : byte_pair (crc_state frame).
Proof. apply crc_state_pair_from. split; unfold byte; cbn; lia. Qed.

(** The word of a pair. *)
Definition word_of (s : Z * Z) : Z := s.2 .| (s.1 .<< 8).

Lemma word_of_add s : byte_pair s -> word_of s = s.2 + 256 * s.1.
Proof. intros [? Hl]. by apply lor_bytes. Qed.

Lemma crc_of_word frame : crc_of frame = word_of (crc_state frame).
Proof.
  unfold crc_of. pose proof (crc_state_pair frame) as Hp. destruct (crc_state frame) as [h l].
  rewrite Z.lor_comm. change (l .| (h .<< 8)) with (word_of (h, l)).
  rewrite word_of_add by done. destruct Hp as [Hh Hl]. cbn in *. unfold byte in *. apply u16_small. lia.
Qed.

Lemma usMBCRC16_list buf n : usMBCRC16 buf n = crc_of (buf <$> seqZ 0 n).
Proof. done. Qed.

(** ** The tables hold the division of each byte *)

Lemma table_rows i :
  byte i -> Nat.iter 8 crc_shift i = word_of (tab8 aucCRCLo i, tab8 aucCRCHi i).
Proof.
  intros Hi. apply Z.eqb_eq.
  apply (bin_check_sound (fun i => Nat.iter 8 crc_shift i =? word_of (tab8 aucCRCLo i, tab8 aucCRCHi i)) 8 0);
    [vm_compute; reflexivity|unfold byte in Hi; cbn; lia].
Qed.

(** Division is linear, and a multiple of 256 is shifted down unchanged. *)
Lemma crc_shift_lxor a b : crc_shift (a .^ b) = crc_shift a .^ crc_shift b.
Proof.
  unfold crc_shift. rewrite <- !Z.bit0_odd, Z.lxor_spec, Z.shiftr_lxor.
  destruct (Z.testbit a 0), (Z.testbit b 0); cbn [xorb]; apply Z.bits_inj'; intros j _;
    rewrite ?Z.lxor_spec; repeat destruct (Z.testbit _ _); done.
Qed.

Lemma crc_iter_lxor n a b : Nat.iter n crc_shift (a .^ b) = Nat.iter n crc_shift a .^ Nat.iter n crc_shift b.
Proof. induction n as [|n IH]; [done|]. rewrite !Nat.iter_succ. by rewrite IH, crc_shift_lxor. Qed.

Lemma crc_shift_even h k : 0 < k -> crc_shift (h .<< k) = h .<< (k - 1).
Proof.
  intros Hk. unfold crc_shift. rewrite <- Z.bit0_odd, Z.shiftl_spec, Z.testbit_neg_r by lia.
  rewrite Z.shiftr_shiftl_l by lia. done.
Qed.

Lemma crc_iter_high h : Nat.iter 8 crc_shift (h .<< 8) = h.
Proof. rewrite !Nat.iter_succ. cbn [Nat.iter nat_rect]. rewrite !crc_shift_even by lia. apply Z.shiftl_0_r. Qed.

(** Words of pairs combine by exclusive or. *)
Lemma word_of_lxor h l : byte h -> byte l -> word_of (h, l) = (h .<< 8) .^ l.
Proof.
  intros Hh Hl. unfold word_of; cbn [fst snd]. apply Z.bits_inj'. intros j Hj.
  rewrite Z.lor_spec, Z.lxor_spec, Z.shiftl_spec by lia.
  destruct (Z.lt_ge_cases j 8).
  - rewrite (Z.testbit_neg_r h) by lia. by destruct (Z.testbit l j).
  - rewrite (byte_bits_high l) by done. by destruct (Z.testbit h (j - 8)).
Qed.

Lemma crc_round_spec s b : byte_pair s -> byte b -> word_of (crc_round s b) = crc_byte (word_of s) b.
Proof.
  destruct s as [h l]. intros [Hh Hl] Hb. cbn [fst snd] in *. unfold crc_byte, crc_round.
  rewrite (word_of_lxor h l), Z.lxor_assoc, crc_iter_lxor, crc_iter_high by done.
  assert (Hi : byte (l .^ b)) by auto.
  rewrite table_rows by done. rewrite u8_byte by auto. rewrite !word_of_lxor by auto.
  set (x := tab8 aucCRCLo _). set (y := tab8 aucCRCHi _).
  rewrite <- !Z.lxor_assoc. by rewrite (Z.lxor_comm h).
Qed.

(** C35: the table-driven checksum is CRC-16/MODBUS: on every message of bytes it equals the
    division bit by bit by the polynomial 0xA001, started with all ones. *)
Theorem usMBCRC16_is_crc16 frame : bytes frame -> crc_of frame = crc16_modbus frame.
Proof.
  intros Hf. rewrite crc_of_word. unfold crc_state, crc16_modbus.
  change 0xFFFF with (word_of (0xFF, 0xFF)).
  assert (byte_pair (0xFF, 0xFF)) as Hp by (split; unfold byte; cbn; lia).
  revert Hp. generalize (0xFF, 0xFF). induction Hf as [|b f Hb Hf IH]; intros s Hp; [done|].
  cbn [foldl]. rewrite <- crc_round_spec by done. apply IH. by apply crc_round_pair.
Qed.

Lemma usMBCRC16_is_crc16_witness :
  usMBCRC16 (fun i => nth (Z.to_nat i) [0x01; 0x03; 0x00; 0x00; 0x00; 0x0A] 0) 6 = 0xCDC5 /\
  crc_of [0x01; 0x03; 0x00; 0x00; 0x00; 0x0A] = crc16_modbus [0x01; 0x03; 0x00; 0x00; 0x00; 0x0A].
Proof.
  split; [vm_compute; reflexivity|].
  apply usMBCRC16_is_crc16. repeat (apply List.Forall_cons; [unfold byte; lia|]). apply List.Forall_nil.
Defined.

(** ** Appending the checksum, and noticing errors *)

Lemma lxor_self_0 a b : a .^ b = 0 -> b = a.
Proof. intros H. symmetry. by apply Z.lxor_eq. Qed.

(** The low table is a permutation of the bytes: its rows are distinct. *)
Definition lo_inverse : list Z :=
  (fun v => nth 0 (filter (fun i => tab8 aucCRCLo i = v) (seqZ 0 256)) 0) <$> seqZ 0 256.

Lemma aucCRCLo_inj i j : byte i -> byte j -> tab8 aucCRCLo i = tab8 aucCRCLo j -> i = j.
Proof.
  intros Hi Hj H.
  assert (forall i, byte i -> tab8 lo_inverse (tab8 aucCRCLo i) = i) as Hinv.
  { intros k Hk. apply Z.eqb_eq.
    apply (bin_check_sound (fun k => tab8 lo_inverse (tab8 aucCRCLo k) =? k) 8 0);
      [vm_compute; reflexivity|unfold byte in Hk; cbn; lia]. }
  rewrite <- (Hinv i), <- (Hinv j) by done. by rewrite H.
Qed.

Lemma tab_zero : tab8 aucCRCLo 0 = 0 /\ tab8 aucCRCHi 0 = 0.
Proof. done. Qed.

Lemma lxor_inj_l a x y : a .^ x = a .^ y -> x = y.
Proof.
  intros H. apply (f_equal (Z.lxor a)) in H.
  by rewrite <- !Z.lxor_assoc, Z.lxor_nilpotent, !Z.lxor_0_l in H.
Qed.

(** A round loses no information about the state, nor about the byte. *)
Lemma crc_round_inj s b s' b' :
  byte_pair s -> byte b -> byte_pair s' -> byte b' ->
  crc_round s b = crc_round s' b' -> s.1 = s'.1 /\ s.2 .^ b = s'.2 .^ b'.
Proof.
  destruct s as [h l], s' as [h' l']. intros [Hh Hl] Hb [Hh' Hl'] Hb'. cbn [crc_round fst snd] in *. intros [= H1 H2].
  apply aucCRCLo_inj in H1; [|auto..]. rewrite H1 in *. split; [|done].
  rewrite !u8_byte in H2 by auto. rewrite (Z.lxor_comm h), (Z.lxor_comm h') in H2. by apply lxor_inj_l in H2.
Qed.

Lemma crc_tail_inj s s' tail :
  byte_pair s -> byte_pair s' -> bytes tail -> foldl crc_round s tail = foldl crc_round s' tail -> s = s'.
Proof.
  intros Hs Hs' Ht. revert s s' Hs Hs'. induction Ht as [|b t Hb Ht IH]; intros s s' Hs Hs' H; [done|].
  cbn [foldl] in H. apply IH in H; [|by apply crc_round_pair..].
  apply crc_round_inj in H as [H1 H2]; [|done..].
  rewrite (Z.lxor_comm s.2), (Z.lxor_comm s'.2) in H2. apply lxor_inj_l in H2.
  by destruct s, s'; cbn in *; subst.
Qed.

Lemma word_of_inj s s' : byte_pair s -> byte_pair s' -> word_of s = word_of s' -> s = s'.
Proof.
  intros Hs Hs' H. rewrite !word_of_add in H by done. destruct s as [h l], s' as [h' l'].
  destruct Hs as [Hh Hl], Hs' as [Hh' Hl']. cbn [fst snd] in *. unfold byte in *. f_equal; lia.
Qed.

(** The state after a message and two more bytes is zero only for its own checksum. *)
Lemma crc_two_bytes s a b :
  byte_pair s -> byte a -> byte b ->
  (crc_round (crc_round s a) b = (0, 0) <-> a = s.2 /\ b = s.1).
Proof.
  intros Hs Ha Hb. destruct tab_zero as [Z1 Z2]. split.
  - intros H. change (0, 0) with (crc_round (0, 0) 0) in H.
    apply crc_round_inj in H as [H1 H2]; [|by apply crc_round_pair|done|split; unfold byte; cbn; lia|unfold byte; lia].
    destruct s as [h l]. destruct Hs as [Hh Hl]. cbn [crc_round fst snd] in *.
    assert (E : l .^ a = 0).
    { apply aucCRCLo_inj; [auto|unfold byte; lia|]. by rewrite Z1. }
    apply lxor_self_0 in E as ->. rewrite Z.lxor_nilpotent, Z2, Z.lxor_0_r, u8_byte in H2 by done.
    change (0 .^ 0) with 0 in H2. by apply lxor_self_0 in H2 as ->.
  - intros [-> ->]. destruct s as [h l]. destruct Hs as [Hh Hl]. cbn [crc_round fst snd].
    rewrite Z.lxor_nilpotent, Z1, Z2, Z.lxor_0_r, (u8_byte h) by done.
    rewrite Z.lxor_nilpotent, Z1, Z2. done.
Qed.

Lemma crc_of_zero frame : crc_of frame = 0 <-> crc_state frame = (0, 0).
Proof.
  rewrite crc_of_word. pose proof (crc_state_pair frame) as Hp. split; [|by intros ->].
  intros H. apply word_of_inj; [done|split; unfold byte; cbn; lia|done].
Qed.

Lemma crc_append_iff frame a b :
  byte a -> byte b ->
  (crc_of (frame ++ [a; b]) = 0 <-> a = u8 (crc_of frame) /\ b = u8 (crc_of frame .>> 8)).
Proof.
  intros Ha Hb. rewrite crc_of_zero. unfold crc_state at 1. rewrite foldl_app. fold (crc_state frame).
  cbn [foldl]. pose proof (crc_state_pair frame) as Hp. rewrite crc_two_bytes by done.
  rewrite crc_of_word, word_of_add by done. destruct Hp as [Hh Hl]. unfold byte in *.
  rewrite Z.shiftr_div_pow2 by lia. change (2 ^ 8) with 256. unfold u8.
  assert ((crc_state frame).2 = ((crc_state frame).2 + 256 * (crc_state frame).1) mod 256) as <-
    by (Z.div_mod_to_equations; lia).
  assert ((crc_state frame).1 = ((crc_state frame).2 + 256 * (crc_state frame).1) / 256 mod 256) as <-
    by (Z.div_mod_to_equations; lia). done.
Qed.

(** The checksum the sender appends. *)
Definition crc_bytes (frame : list Z) : list Z := [u8 (crc_of frame); u8 (crc_of frame .>> 8)].

Lemma crc_closed frame : crc_of (frame ++ crc_bytes frame) = 0.
Proof. apply crc_append_iff; [apply u8_range..|done]. Qed.

(** A message followed by two bytes passes the receiver's test (checksum 0) exactly when
    the two bytes are the checksum of the message, low byte first, as the sender appends it. *)
Theorem crc_append frame a b :
  byte a -> byte b ->
  (crc_of (frame ++ [a; b]) = 0 <-> a = u8 (crc_of frame) /\ b = u8 (crc_of frame .>> 8)).
Proof. apply crc_append_iff. Qed.

Lemma crc_append_witness :
  crc_of ([0x01; 0x03; 0x00; 0x00; 0x00; 0x0A] ++ [0xC5; 0xCD]) = 0.
Proof. apply crc_append; [unfold byte; lia..|vm_compute; done]. Defined.

(** A frame that passes the test does not pass it after any change of one of its bytes:
    no single-byte error is accepted. *)
Lemma crc_detects_byte_error pre x y post :
  bytes pre -> byte x -> byte y -> bytes post -> x <> y ->
  crc_of (pre ++ x :: post) = 0 -> crc_of (pre ++ y :: post) <> 0.
Proof.
  intros Hpre Hx Hy Hpost Hne H1 H2. apply crc_of_zero in H1, H2. rewrite <- H1 in H2.
  unfold crc_state in H2. rewrite !foldl_app in H2. fold (crc_state pre) in H2. cbn [foldl] in H2.
  pose proof (crc_state_pair pre) as Hp.
  apply crc_tail_inj in H2; [|by apply crc_round_pair..|done].
  apply crc_round_inj in H2 as [_ H2]; [|done..]. apply lxor_inj_l in H2. congruence.
Qed.
