(* ===== verification/Md5.v ===== *)
(** * Message digests: TQ01_net/utils_md5.c and utils_hmac.c

    The firmware signs its messages to the cloud with MD5 and HMAC-MD5.  [utils_md5_update] takes
    a message in pieces of any size and keeps the unfinished block in a buffer.  The reference
    (module [Rfc]) is the text of RFC 1321: pad the whole message, cut it into blocks, run 64
    rounds for each, with the round constants computed as the RFC defines them, from the sine. *)

From S2P Require Import Prelude.

Definition word (z : Z) : Prop := 0 <= z < 4294967296.

(** ** [utils_md5_process] *)

(** The four registers (or the chaining value) A, B, C, D. *)
Record quad_st : Type := Quad { rA : Z; rB : Z; rC : Z; rD : Z }.

(** [IOT_MD5_GET_UINT32_LE(n, b, i)]. *)
Definition get_uint32_le (b : list Z) (i : nat) : Z :=
  nth i b 0 .| u32 (nth (i + 1) b 0 .<< 8) .| u32 (nth (i + 2) b 0 .<< 16) .| u32 (nth (i + 3) b 0 .<< 24).

(** The macro S. *)
Definition rotate (x n : Z) : Z := u32 (x .<< n) .| ((x .& 0xFFFFFFFF) .>> (32 - n)).

(** The four definitions of the macro F. *)
Inductive macro_F : Type := F1 | F2 | F3 | F4.

Definition F (f : macro_F) (x y z : Z) : Z :=
  match f with
  | F1 => z .^ (x .& (y .^ z))
  | F2 => y .^ (z .& (x .^ y))
  | F3 => x .^ y .^ z
  | F4 => y .^ (x .| u32 (.~ z))
  end.

(** The macro P: the new value of its first argument. *)
Definition P (f : macro_F) (X : list Z) (a b c d : Z) (e : Z * Z * Z) : Z :=
  let '(k, s, t) := e in
  let a := u32 (a + F f b c d + nth (Z.to_nat k) X 0 + t) in
  u32 (rotate a s + b).

(** Four lines of the source: the registers A, D, C, B are updated in this order. *)
Definition four_lines (X : list Z) (st : quad_st) (l : macro_F * list (Z * Z * Z)) : quad_st :=
  let '(f, es) := l in
  let e i := nth i es (0, 0, 0) in
  let A := P f X (rA st) (rB st) (rC st) (rD st) (e 0%nat) in
  let D := P f X (rD st) A (rB st) (rC st) (e 1%nat) in
  let C := P f X (rC st) D A (rB st) (e 2%nat) in
  let B := P f X (rB st) C D A (e 3%nat) in
  Quad A B C D.

(** The 64 uses of P, four in a row, with their arguments k, s, t. *)
Definition process_lines : list (macro_F * list (Z * Z * Z)) :=
  [
   (F1, [(0, 7, 0xD76AA478); (1, 12, 0xE8C7B756); (2, 17, 0x242070DB); (3, 22, 0xC1BDCEEE)]);
   (F1, [(4, 7, 0xF57C0FAF); (5, 12, 0x4787C62A); (6, 17, 0xA8304613); (7, 22, 0xFD469501)]);
   (F1, [(8, 7, 0x698098D8); (9, 12, 0x8B44F7AF); (10, 17, 0xFFFF5BB1); (11, 22, 0x895CD7BE)]);
   (F1, [(12, 7, 0x6B901122); (13, 12, 0xFD987193); (14, 17, 0xA679438E); (15, 22, 0x49B40821)]);
   (F2, [(1, 5, 0xF61E2562); (6, 9, 0xC040B340); (11, 14, 0x265E5A51); (0, 20, 0xE9B6C7AA)]);
   (F2, [(5, 5, 0xD62F105D); (10, 9, 0x02441453); (15, 14, 0xD8A1E681); (4, 20, 0xE7D3FBC8)]);
   (F2, [(9, 5, 0x21E1CDE6); (14, 9, 0xC33707D6); (3, 14, 0xF4D50D87); (8, 20, 0x455A14ED)]);
   (F2, [(13, 5, 0xA9E3E905); (2, 9, 0xFCEFA3F8); (7, 14, 0x676F02D9); (12, 20, 0x8D2A4C8A)]);
   (F3, [(5, 4, 0xFFFA3942); (8, 11, 0x8771F681); (11, 16, 0x6D9D6122); (14, 23, 0xFDE5380C)]);
   (F3, [(1, 4, 0xA4BEEA44); (4, 11, 0x4BDECFA9); (7, 16, 0xF6BB4B60); (10, 23, 0xBEBFBC70)]);
   (F3, [(13, 4, 0x289B7EC6); (0, 11, 0xEAA127FA); (3, 16, 0xD4EF3085); (6, 23, 0x04881D05)]);
   (F3, [(9, 4, 0xD9D4D039); (12, 11, 0xE6DB99E5); (15, 16, 0x1FA27CF8); (2, 23, 0xC4AC5665)]);
   (F4, [(0, 6, 0xF4292244); (7, 10, 0x432AFF97); (14, 15, 0xAB9423A7); (5, 21, 0xFC93A039)]);
   (F4, [(12, 6, 0x655B59C3); (3, 10, 0x8F0CCC92); (10, 15, 0xFFEFF47D); (1, 21, 0x85845DD1)]);
   (F4, [(8, 6, 0x6FA87E4F); (15, 10, 0xFE2CE6E0); (6, 15, 0xA3014314); (13, 21, 0x4E0811A1)]);
   (F4, [(4, 6, 0xF7537E82); (11, 10, 0xBD3AF235); (2, 15, 0x2AD7D2BB); (9, 21, 0xEB86D391)])
  ].

Definition utils_md5_process (st : quad_st) (data : list Z) : quad_st :=
  let X := (fun i => get_uint32_le data (4 * i)) <$> seq 0 16 in
  let r := foldl (four_lines X) st process_lines in
  Quad (u32 (rA st + rA r)) (u32 (rB st + rB r)) (u32 (rC st + rC r)) (u32 (rD st + rD r)).

(** ** The context *)

Record iot_md5_context : Type := Md5Ctx { total0 : Z; total1 : Z; state : quad_st; buffer : list Z }.

Definition utils_md5_init : iot_md5_context := Md5Ctx 0 0 (Quad 0 0 0 0) (repeat 0 64%nat).

Definition utils_md5_starts (ctx : iot_md5_context) : iot_md5_context :=
  Md5Ctx 0 0 (Quad 0x67452301 0xEFCDAB89 0x98BADCFE 0x10325476) (buffer ctx).

(** [memcpy(dst + at, src, len)] with [len] the length of [src]. *)
Definition memcpy (dst : list Z) (at_ : nat) (src : list Z) : list Z :=
  take at_ dst ++ src ++ drop (at_ + length src) dst.

(** [while (ilen >= 64)]: the loop runs [n = ilen / 64] times. *)
Fixpoint whole_blocks (n : nat) (st : quad_st) (input : list Z) : quad_st * list Z :=
  match n with
  | O => (st, input)
  | S n' => whole_blocks n' (utils_md5_process st (take 64 input)) (drop 64 input)
  end.

Definition utils_md5_update (ctx : iot_md5_context) (input : list Z) : iot_md5_context :=
  let ilen := Z.of_nat (length input) in
  if ilen =? 0 then ctx else
  let left_ := total0 ctx .& 0x3F in
  let fill := 64 - left_ in
  let total0 := u32 (total0 ctx + u32 ilen) .& 0xFFFFFFFF in
  let total1 := if total0 <? u32 ilen then u32 (total1 ctx + 1) else total1 ctx in
  let '(st, buf, input, left_) :=
    if nz left_ && (fill <=? ilen) then
      let buf := memcpy (buffer ctx) (Z.to_nat left_) (take (Z.to_nat fill) input) in
      (utils_md5_process (state ctx) buf, buf, drop (Z.to_nat fill) input, 0)
    else (state ctx, buffer ctx, input, left_) in
  let '(st, input) := whole_blocks (length input / 64) st input in
  let buf := if 0 <? Z.of_nat (length input) then memcpy buf (Z.to_nat left_) input else buf in
  Md5Ctx total0 total1 st buf.

Definition iot_md5_padding : list Z := 0x80 :: repeat 0 63.

(** [IOT_MD5_PUT_UINT32_LE]. *)
Definition put_uint32_le (n : Z) : list Z := [n .& 0xFF; (n .>> 8) .& 0xFF; (n .>> 16) .& 0xFF; (n .>> 24) .& 0xFF].

Definition utils_md5_finish (ctx : iot_md5_context) : list Z :=
  let high := (total0 ctx .>> 29) .| u32 (total1 ctx .<< 3) in
  let low := u32 (total0 ctx .<< 3) in
  let msglen := put_uint32_le low ++ put_uint32_le high in
  let last := total0 ctx .& 0x3F in
  let padn := if last <? 56 then 56 - last else 120 - last in
  let ctx := utils_md5_update ctx (take (Z.to_nat padn) iot_md5_padding) in
  let ctx := utils_md5_update ctx msglen in
  let st := state ctx in
  put_uint32_le (rA st) ++ put_uint32_le (rB st) ++ put_uint32_le (rC st) ++ put_uint32_le (rD st).

Definition utils_md5 (input : list Z) : list Z :=
  utils_md5_finish (utils_md5_update (utils_md5_starts utils_md5_init) input).

Definition utils_hb2hex (hb : Z) : Z :=
  let hb := hb .& 0xF in
  s8 (if hb <? 10 then 48 + hb else hb - 10 + 97).

(** ** [utils_hmac_md5] *)

Abbreviation KEY_IOPAD_SIZE := 64.

(** The 32 characters stored in [digest]; [None] when the key is too long and nothing is stored. *)
Definition utils_hmac_md5 (msg key : list Z) : option (list Z) :=
  if KEY_IOPAD_SIZE <? Z.of_nat (length key) then None else
  let pad c := (fun v => v .^ c) <$> memcpy (repeat 0 64) 0 key in
  let k_ipad := pad 0x36 in
  let k_opad := pad 0x5c in
  let context := utils_md5_update (utils_md5_update (utils_md5_starts utils_md5_init) k_ipad) msg in
  let out := utils_md5_finish context in
  let context := utils_md5_update (utils_md5_update (utils_md5_starts utils_md5_init) k_opad) out in
  let out := utils_md5_finish context in
  Some (concat ((fun v => [utils_hb2hex (v .>> 4); utils_hb2hex v]) <$> out)).

(** ** The reference *)

Module Rfc.

(** [sin i] in units of [2 ^ -300], by its power series. *)
Fixpoint sine (terms : nat) (k x2 term : Z) : Z :=
  match terms with
  | O => 0
  | S n => term - sine n (k + 2) x2 (term * x2 / (k * (k + 1)))
  end.

(** "T[i] is the integer part of 4294967296 times abs(sin(i))." *)
Definition T (i : Z) : Z := Z.abs (sine 200 2 (i * i) (i * 2 ^ 300)) / 2 ^ 268.

Definition rotl (x s : Z) : Z := x * 2 ^ s mod 2 ^ 32 + x / 2 ^ (32 - s).

Definition not32 (x : Z) : Z := 4294967295 - x.

Definition f (i : nat) (x y z : Z) : Z :=
  match (i / 16)%nat with
  | 0%nat => (x .& y) .| (not32 x .& z)
  | 1%nat => (x .& z) .| (y .& not32 z)
  | 2%nat => x .^ y .^ z
  | _ => y .^ (x .| not32 z)
  end.

(** The word of the block and the shift of round [i]. *)
Definition g (i : nat) : nat :=
  match (i / 16)%nat with
  | 0%nat => i mod 16
  | 1%nat => (5 * i + 1) mod 16
  | 2%nat => (3 * i + 5) mod 16
  | _ => (7 * i) mod 16
  end.

Definition s (i : nat) : Z := nth (4 * (i / 16) + i mod 4) [7; 12; 17; 22; 5; 9; 14; 20; 4; 11; 16; 23; 6; 10; 15; 21] 0.

Definition round (X : list Z) (st : quad_st) (i : nat) : quad_st :=
  let '(Quad a b c d) := st in
  Quad d (u32 (b + rotl (u32 (a + f i b c d + nth (g i) X 0 + T (Z.of_nat i + 1))) (s i))) b c.

Definition compress (st : quad_st) (block : list Z) : quad_st :=
  let X := (fun i => of_le32 (drop (4 * i) block)) <$> seq 0 16 in
  let r := foldl (round X) st (seq 0 64) in
  Quad (u32 (rA st + rA r)) (u32 (rB st + rB r)) (u32 (rC st + rC r)) (u32 (rD st + rD r)).

Definition init : quad_st := Quad 0x67452301 0xEFCDAB89 0x98BADCFE 0x10325476.

Fixpoint absorb (n : nat) (st : quad_st) (l : list Z) : quad_st :=
  match n with
  | O => st
  | S n' => absorb n' (compress st (take 64 l)) (drop 64 l)
  end.

(** A one bit, zeros up to 56 modulo 64, the number of bits as 64-bit number, low byte first. *)
Definition padded (m : list Z) : list Z :=
  let len := Z.of_nat (length m) in
  m ++ 0x80 :: repeat 0 (Z.to_nat ((55 - len) mod 64)) ++ le32 (8 * len) ++ le32 (8 * len / 2 ^ 32).

Definition md5 (m : list Z) : list Z :=
  let st := absorb (length (padded m) / 64) init (padded m) in
  le32 (rA st) ++ le32 (rB st) ++ le32 (rC st) ++ le32 (rD st).

(** RFC 2104 for keys that fit into a block. *)
Definition hmac (key m : list Z) : list Z :=
  let pad c := (fun v => v .^ c) <$> (key ++ repeat 0 (64 - length key)) in
  md5 (pad 0x5c ++ md5 (pad 0x36 ++ m)).

End Rfc.

(** ** One block *)

Definition words (st : quad_st) : Prop := word (rA st) /\ word (rB st) /\ word (rC st) /\ word (rD st).

Lemma u32_testbit w j : 0 <= j -> Z.testbit (u32 w) j = (j <? 32) && Z.testbit w j.
Proof.
  intros Hj. unfold u32. change 4294967296 with (2 ^ 32).
  destruct (Z.ltb_spec j 32); [by rewrite Z.mod_pow2_bits_low by lia | by rewrite Z.mod_pow2_bits_high by lia].
Qed.

Lemma word_high w j : word w -> 32 <= j -> Z.testbit w j = false.
Proof. intros Hw Hj. rewrite <- (u32_small w Hw), u32_testbit by lia. by destruct (Z.ltb_spec j 32); [lia|]. Qed.

Lemma u32_word z : word (u32 z).
Proof. apply u32_range. Qed.

#[local] Hint Resolve u32_word : core.

Lemma not32_lnot x : word x -> Rfc.not32 x = u32 (.~ x).
Proof. unfold word, Rfc.not32, Z.lnot. intros. cast_lia. Qed.

Lemma rotate_rotl x n : word x -> 0 < n < 32 -> rotate x n = Rfc.rotl x n.
Proof.
  intros Hx Hn. unfold rotate, Rfc.rotl.
  change (x .& 0xFFFFFFFF) with (x .& Z.ones 32). rewrite Z.land_ones, Z.mod_small by (unfold word in Hx; lia).
  rewrite <- Z.shiftl_mul_pow2, <- Z.shiftr_div_pow2 by lia. change (2 ^ 32) with 4294967296.
  fold (u32 (x .<< n)). rewrite <- Z.add_lor_land. set (k := _ .& _). enough (k = 0) by lia. subst k.
  apply Z.bits_inj'. intros j Hj. rewrite Z.land_spec, u32_testbit, Z.shiftl_spec, Z.shiftr_spec, Z.bits_0 by lia.
  destruct (Z.ltb_spec (j - n) 0); [by rewrite (Z.testbit_neg_r x (j - n)), andb_false_r by lia|].
  by rewrite (word_high x (j + (32 - n))), andb_false_r by (done || lia).
Qed.

Definition F_of (i : nat) : macro_F :=
  match (i / 16)%nat with 0%nat => F1 | 1%nat => F2 | 2%nat => F3 | _ => F4 end.

Lemma F_of_spec i x y z : word x -> word y -> word z -> F (F_of i) x y z = Rfc.f i x y z.
Proof.
  intros Hx Hy Hz. unfold F_of, Rfc.f.
  destruct (i / 16)%nat as [|[|[|]]]; cbn [F]; [| |done|by rewrite not32_lnot].
  all: rewrite not32_lnot by done; apply Z.bits_inj'; intros j Hj.
  all: rewrite ?Z.lor_spec, ?Z.lxor_spec, ?Z.land_spec, ?u32_testbit, ?Z.lnot_spec, ?Z.lxor_spec by lia.
  all: destruct (Z.ltb_spec j 32); [|rewrite !(word_high _ j) by (done || lia)].
  all: by destruct (Z.testbit x j), (Z.testbit y j), (Z.testbit z j).
Qed.

(** The arguments of line [i] of the source are those of round [i]. *)
Definition entry_of (i : nat) : Z * Z * Z := (Z.of_nat (Rfc.g i), Rfc.s i, Rfc.T (Z.of_nat i + 1)).

Lemma process_lines_rounds :
  process_lines = (fun n => (F_of (4 * n), entry_of <$> seq (4 * n) 4)) <$> seq 0 16.
Proof. vm_compute. reflexivity. Qed.

Lemma s_range i : (i < 64)%nat -> 0 < Rfc.s i < 32.
Proof.
  intros Hi. assert (forallb (fun i => (0 <? Rfc.s i) && (Rfc.s i <? 32)) (seq 0 64) = true) as H by (vm_compute; done).
  rewrite forallb_forall in H. specialize (H i (proj2 (in_seq _ _ _) (conj (Nat.le_0_l _) Hi))). lia.
Qed.

Lemma P_round X a b c d i : (i < 64)%nat -> word b -> word c -> word d ->
  P (F_of i) X a b c d (entry_of i) =
  u32 (b + Rfc.rotl (u32 (a + Rfc.f i b c d + nth (Rfc.g i) X 0 + Rfc.T (Z.of_nat i + 1))) (Rfc.s i)).
Proof.
  intros Hi Hb Hc Hd. unfold P, entry_of. rewrite Nat2Z.id, F_of_spec, rotate_rotl, Z.add_comm by eauto using s_range.
  reflexivity.
Qed.

Lemma F_of_row n j : (j < 4)%nat -> F_of (4 * n + j) = F_of (4 * n).
Proof.
  intros Hj. unfold F_of. replace ((4 * n + j) / 16)%nat with (4 * n / 16)%nat; [done|].
  change 16%nat with (4 * 4)%nat. rewrite <- !Nat.Div0.div_div. f_equal.
  rewrite (Nat.mul_comm 4 n), Nat.div_add_l, Nat.div_mul, Nat.div_small; lia.
Qed.

Lemma round_P X st i : (i < 64)%nat -> words st ->
  Rfc.round X st i = Quad (rD st) (P (F_of i) X (rA st) (rB st) (rC st) (rD st) (entry_of i)) (rB st) (rC st) /\
  words (Rfc.round X st i).
Proof.
  intros Hi Hst. destruct st as [a b c d]. destruct Hst as (Ha & Hb & Hc & Hd). cbn [rA rB rC rD] in *.
  rewrite P_round by done. split; [done|]. unfold words, Rfc.round. cbn [rA rB rC rD]. auto.
Qed.

Lemma four_lines_rounds X st n : (n < 16)%nat -> words st ->
  four_lines X st (F_of (4 * n), entry_of <$> seq (4 * n) 4) = foldl (Rfc.round X) st (seq (4 * n) 4) /\
  words (foldl (Rfc.round X) st (seq (4 * n) 4)).
Proof.
  intros Hn H0. set (r := Rfc.round X). cbn [seq foldl fmap list_fmap].
  destruct (round_P X st (4 * n)) as [E1 H1]; [lia|done|].
  destruct (round_P X _ (S (4 * n)) ltac:(lia) H1) as [E2 H2].
  destruct (round_P X _ (S (S (4 * n))) ltac:(lia) H2) as [E3 H3].
  destruct (round_P X _ (S (S (S (4 * n)))) ltac:(lia) H3) as [E4 H4].
  split; [|exact H4]. subst r. rewrite E4, E3, E2, E1. cbn [rA rB rC rD]. unfold four_lines. cbn [nth].
  assert (forall m j, m = (4 * n + j)%nat -> (j < 4)%nat -> F_of m = F_of (4 * n)) as HF
    by (intros m j -> Hj; exact (F_of_row n j Hj)).
  rewrite (HF (S (4 * n)) 1%nat), (HF (S (S (4 * n))) 2%nat), (HF (S (S (S (4 * n)))) 3%nat) by lia.
  reflexivity.
Qed.

Lemma process_rounds X st : words st ->
  foldl (four_lines X) st process_lines = foldl (Rfc.round X) st (seq 0 64) /\ words (foldl (Rfc.round X) st (seq 0 64)).
Proof.
  intros Hst. rewrite process_lines_rounds.
  assert (forall k, (k <= 16)%nat ->
    foldl (four_lines X) st ((fun n => (F_of (4 * n), entry_of <$> seq (4 * n) 4)) <$> seq 0 k) =
    foldl (Rfc.round X) st (seq 0 (4 * k)) /\ words (foldl (Rfc.round X) st (seq 0 (4 * k)))) as H; [|exact (H 16%nat (le_n _))].
  induction k as [|k IH]; intros Hk; [done|]. destruct IH as [E W]; [lia|].
  replace (4 * S k)%nat with (4 * k + 4)%nat by lia. rewrite seq_S, seq_app, fmap_app, !foldl_app, E.
  exact (four_lines_rounds X _ k Hk W).
Qed.

Lemma lor_shift lo hi k : 0 <= k -> 0 <= lo < 2 ^ k -> lo .| (hi .<< k) = lo + 2 ^ k * hi.
Proof.
  intros Hk Hlo. assert (lo .& (hi .<< k) = 0) as E.
  { apply Z.bits_inj'. intros j Hj. rewrite Z.land_spec, Z.shiftl_spec, Z.bits_0 by lia.
    destruct (Z.lt_ge_cases j k); [by rewrite (Z.testbit_neg_r hi), andb_false_r by lia|].
    rewrite <- (Z.mod_small lo (2 ^ k)), Z.mod_pow2_bits_high by lia. done. }
  pose proof (Z.add_lor_land lo (hi .<< k)) as H. rewrite E, (Z.shiftl_mul_pow2 hi k) in H by lia.
  rewrite Z.shiftl_mul_pow2 by lia. lia.
Qed.

Lemma nth_byte b j : bytes b -> byte (nth j b 0).
Proof.
  intros Hb. destruct (nth_in_or_default j b 0) as [H| ->]; [|done]. exact (proj1 (List.Forall_forall _ _) Hb _ H).
Qed.

Lemma get_uint32_le_spec b i : bytes b -> get_uint32_le b i = of_le32 (drop i b).
Proof.
  intros Hb. unfold get_uint32_le, of_le32, of_le16. rewrite !nth_skipn. cbn [Nat.add].
  pose proof (nth_byte b i Hb) as H0. pose proof (nth_byte b (i + 1) Hb) as H1.
  pose proof (nth_byte b (i + 2) Hb) as H2. pose proof (nth_byte b (i + 3) Hb) as H3.
  replace (2 + (i + 0))%nat with (i + 2)%nat by lia. replace (2 + (i + 1))%nat with (i + 3)%nat by lia.
  rewrite Nat.add_0_r. unfold byte in *. rewrite !u32_small by (rewrite Z.shiftl_mul_pow2; lia).
  rewrite (lor_shift (nth i b 0)), (lor_shift (_ + _)), (lor_shift (_ + _ + _)) by lia. lia.
Qed.

Lemma utils_md5_process_spec st data : words st -> bytes data ->
  utils_md5_process st data = Rfc.compress st data /\ words (Rfc.compress st data).
Proof.
  intros Hst Hd. unfold utils_md5_process, Rfc.compress.
  rewrite (list_fmap_ext _ (fun i => of_le32 (drop (4 * i) data)) (seq 0 16))
    by (intros; apply get_uint32_le_spec; done).
  destruct (process_rounds ((fun i => of_le32 (drop (4 * i) data)) <$> seq 0 16) st Hst) as [-> _].
  split; [reflexivity|]. unfold words. cbn [rA rB rC rD]. auto.
Qed.

(** ** A message in pieces *)

Lemma absorb_add n k st l : Rfc.absorb (n + k) st l = Rfc.absorb k (Rfc.absorb n st l) (drop (64 * n) l).
Proof.
  revert st l. induction n as [|n IH]; intros st l; [done|].
  cbn [Nat.add Rfc.absorb]. rewrite IH, drop_drop. do 2 f_equal. lia.
Qed.

Lemma absorb_prefix n st l x : (64 * n <= length l)%nat -> Rfc.absorb n st (l ++ x) = Rfc.absorb n st l.
Proof.
  revert st l. induction n as [|n IH]; intros st l Hl; [done|].
  cbn [Rfc.absorb]. rewrite take_app_le, drop_app_le by lia. apply IH. rewrite length_drop. lia.
Qed.

Lemma bytes_take n l : bytes l -> bytes (take n l).
Proof. apply Forall_take. Qed.
Lemma bytes_drop n l : bytes l -> bytes (drop n l).
Proof. apply Forall_drop. Qed.

#[local] Hint Resolve bytes_take bytes_drop : core.

Lemma whole_blocks_spec n st input : words st -> bytes input ->
  whole_blocks n st input = (Rfc.absorb n st input, drop (64 * n) input) /\ words (Rfc.absorb n st input).
Proof.
  revert st input. induction n as [|n IH]; intros st input Hst Hi; [done|].
  cbn [whole_blocks Rfc.absorb].
  destruct (utils_md5_process_spec st (take 64 input)) as [-> W]; [done|auto|].
  destruct (IH _ (drop 64 input) W) as [-> W']; [auto|]. split; [|done].
  rewrite drop_drop. do 2 f_equal. lia.
Qed.

Lemma memcpy_length dst k src : (k + length src <= length dst)%nat -> length (memcpy dst k src) = length dst.
Proof. intros. unfold memcpy. rewrite !length_app, length_take, length_drop. lia. Qed.

Lemma memcpy_take dst k src : (k + length src <= length dst)%nat ->
  take (k + length src) (memcpy dst k src) = take k dst ++ src.
Proof.
  intros. unfold memcpy. rewrite app_assoc, take_app_length'; [done|]. rewrite length_app, length_take. lia.
Qed.

(** [st] and [buf] after the bytes [l]: whole blocks are in [st], the rest is at the start of [buf]. *)
Definition holds (st0 : quad_st) (l : list Z) (st : quad_st) (buf : list Z) : Prop :=
  st = Rfc.absorb (length l / 64) st0 l /\ words st /\ length buf = 64%nat /\
  take (length l mod 64) buf = drop (64 * (length l / 64)) l.

Lemma holds_rest st l buf : words st -> bytes l -> length buf = 64%nat ->
  let '(st', rest) := whole_blocks (length l / 64) st l in
  holds st l st' (if 0 <? Z.of_nat (length rest) then memcpy buf 0 rest else buf).
Proof.
  intros Hst Hl Hb. destruct (whole_blocks_spec (length l / 64) st l Hst Hl) as [-> W].
  pose proof (Nat.div_mod_eq (length l) 64) as E. pose proof (Nat.mod_upper_bound (length l) 64 ltac:(lia)) as B.
  assert (length (drop (64 * (length l / 64)) l) = length l mod 64)%nat as Er by (rewrite length_drop; lia).
  split; [done|]. split; [done|]. destruct (Z.ltb_spec 0 (Z.of_nat (length (drop (64 * (length l / 64)) l)))).
  - split; [rewrite memcpy_length; lia|]. rewrite <- Er at 1. apply (memcpy_take buf 0). lia.
  - split; [done|]. assert (length l mod 64 = 0)%nat as E0 by lia. rewrite E0 in *. cbn [take].
    symmetry. apply length_zero_iff_nil. lia.
Qed.

(** The counter of bytes. *)
Definition counts (ctx : iot_md5_context) (len : nat) : Prop :=
  total0 ctx = u32 (Z.of_nat len) /\ total1 ctx = u32 (Z.of_nat len / 4294967296).

(** [ctx] stands for the message [m]. *)
Definition rep (ctx : iot_md5_context) (m : list Z) : Prop :=
  bytes m /\ counts ctx (length m) /\ holds Rfc.init m (state ctx) (buffer ctx).

Lemma counts_left ctx len : counts ctx len -> total0 ctx .& 0x3F = Z.of_nat (len mod 64).
Proof.
  intros [-> _]. change 0x3F with (Z.ones 6). rewrite Z.land_ones by lia. change (2 ^ 6) with 64.
  rewrite Nat2Z.inj_mod. unfold u32. Z.div_mod_to_equations. lia.
Qed.

Lemma counts_add t0 t1 (len k : nat) : 
  t0 = u32 (Z.of_nat len) -> t1 = u32 (Z.of_nat len / 4294967296) -> Z.of_nat k < 4294967296 ->
  let t0' := u32 (t0 + u32 (Z.of_nat k)) .& 0xFFFFFFFF in
  t0' = u32 (Z.of_nat (len + k)) /\
  (if t0' <? u32 (Z.of_nat k) then u32 (t1 + 1) else t1) = u32 (Z.of_nat (len + k) / 4294967296).
Proof.
  intros -> -> Hk. cbv zeta. change 0xFFFFFFFF with (Z.ones 32). rewrite Z.land_ones by lia.
  change (2 ^ 32) with 4294967296. rewrite (u32_small (Z.of_nat k)), Nat2Z.inj_add by lia.
  assert (u32 (u32 (Z.of_nat len) + Z.of_nat k) mod 4294967296 = u32 (Z.of_nat len + Z.of_nat k)) as -> by cast_lia.
  split; [done|]. destruct (Z.ltb_spec (u32 (Z.of_nat len + Z.of_nat k)) (Z.of_nat k)); cast_lia.
Qed.

Lemma holds_trans st0 m st buf input st' buf' :
  holds st0 m st buf -> holds st (drop (64 * (length m / 64)) m ++ input) st' buf' -> holds st0 (m ++ input) st' buf'.
Proof.
  intros (-> & _ & _ & _) (-> & W & Hl & Ht).
  pose proof (Nat.div_mod_eq (length m) 64) as E. set (q := (length m / 64)%nat) in *.
  set (p := drop (64 * q) m ++ input) in *.
  assert (p = drop (64 * q) (m ++ input)) as Ep by (unfold p; rewrite drop_app_le; [done|lia]).
  assert (length (m ++ input) = length p + q * 64)%nat as El by (rewrite Ep, length_drop, length_app; lia).
  unfold holds. rewrite El, Nat.div_add, Nat.Div0.mod_add by lia.
  split; [|split; [done|split; [done|]]].
  - rewrite Nat.add_comm, absorb_add, absorb_prefix, <- Ep by lia. done.
  - rewrite Ht, Ep, drop_drop. f_equal. lia.
Qed.

Lemma bytes_app l l' : bytes l -> bytes l' -> bytes (l ++ l').
Proof. intros. by apply Forall_app_2. Qed.

#[local] Hint Resolve bytes_app : core.

Lemma holds_block st b input st' buf' : length b = 64%nat -> words (Rfc.compress st b) ->
  holds (Rfc.compress st b) input st' buf' -> holds st (b ++ input) st' buf'.
Proof.
  intros Hb W H. apply (holds_trans st b (Rfc.compress st b) b).
  - unfold holds. rewrite Hb. cbn [Rfc.absorb Nat.div Nat.divmod fst]. rewrite take_ge by lia.
    by rewrite drop_ge by (cbn; lia).
  - rewrite Hb, drop_ge by (cbn; lia). exact H.
Qed.

(** The unfinished block is filled up first. *)
Lemma holds_filled st buf r input : words st -> bytes (take r buf) -> bytes input -> length buf = 64%nat ->
  (0 < r < 64)%nat -> (64 - r <= length input)%nat ->
  let buf1 := memcpy buf r (take (64 - r) input) in
  let input1 := drop (64 - r) input in
  let '(st', rest) := whole_blocks (length input1 / 64) (utils_md5_process st buf1) input1 in
  holds st (take r buf ++ input) st' (if 0 <? Z.of_nat (length rest) then memcpy buf1 0 rest else buf1).
Proof.
  intros Hst Hb Hi Hl Hr Hf buf1 input1. assert (length (take r buf) = r) as Hlr by (rewrite length_take; lia).
  assert (length (take (64 - r) input) = 64 - r)%nat as Hlf by (rewrite length_take; lia).
  assert (buf1 = take 64 (take r buf ++ input)) as E1.
  { unfold buf1, memcpy. rewrite Hlf, take_app, Hlr, (take_ge (take r buf)), drop_ge, app_nil_r by lia. done. }
  assert (input1 = drop 64 (take r buf ++ input)) as E2.
  { unfold input1. rewrite drop_app, Hlr, (drop_ge (take r buf)) by lia. done. }
  assert (length buf1 = 64%nat) as Hl1 by (unfold buf1; rewrite memcpy_length; lia).
  assert (bytes buf1) as Hb1 by (rewrite E1; auto).
  destruct (utils_md5_process_spec st buf1 Hst Hb1) as [-> W].
  pose proof (holds_rest (Rfc.compress st buf1) input1 buf1 W ltac:(unfold input1; auto) Hl1) as H.
  destruct (whole_blocks _ _ input1) as [st' rest].
  rewrite <- (take_drop 64 (take r buf ++ input)), <- E1, <- E2. apply holds_block; done.
Qed.

Theorem utils_md5_update_rep ctx m input :
  rep ctx m -> bytes input -> Z.of_nat (length input) < 4294967296 -> rep (utils_md5_update ctx input) (m ++ input).
Proof.
  intros (Hm & Hc & Hh) Hi Hs. unfold utils_md5_update. destruct (Z.eqb_spec (Z.of_nat (length input)) 0) as [E|E].
  { apply (Nat2Z.inj _ 0), length_zero_iff_nil in E. subst. by rewrite app_nil_r. }
  rewrite (counts_left ctx _ Hc). destruct Hc as [C0 C1].
  pose proof (counts_add _ _ _ (length input) C0 C1 Hs) as HC. cbv zeta in HC.
  set (t0 := u32 (total0 ctx + _) .& _) in *. set (t1 := if t0 <? _ then _ else _) in *.
  pose proof (Nat.mod_upper_bound (length m) 64 ltac:(lia)) as Hr. set (r := (length m mod 64)%nat) in *.
  assert (forall st buf, holds (state ctx) (drop (64 * (length m / 64)) m ++ input) st buf ->
    rep (Md5Ctx t0 t1 st buf) (m ++ input)) as K.
  { intros st buf H. split; [auto|]. split; [unfold counts; rewrite length_app; exact HC|].
    exact (holds_trans _ _ _ _ _ _ _ Hh H). }
  destruct Hh as (_ & W & Hl & Ht). fold r in Ht. rewrite <- Ht in K.
  assert (bytes (take r (buffer ctx))) as Hb by (rewrite Ht; auto).
  destruct (nz (Z.of_nat r) && (64 - Z.of_nat r <=? Z.of_nat (length input))) eqn:G; unfold nz in G.
  { assert (0 < r /\ 64 - r <= length input)%nat as [G1 G2] by lia.
    replace (Z.to_nat (64 - Z.of_nat r)) with (64 - r)%nat by lia. rewrite Nat2Z.id.
    pose proof (holds_filled (state ctx) (buffer ctx) r input W Hb Hi Hl (conj G1 Hr) G2) as H. cbv zeta in H.
    destruct (whole_blocks _ _ _) as [st' rest]. exact (K _ _ H). }
  rewrite Nat2Z.id. destruct (decide (r = 0%nat)) as [R|R].
  - pose proof (holds_rest (state ctx) input (buffer ctx) W Hi Hl) as H. destruct (whole_blocks _ _ _) as [st' rest].
    rewrite R in *. exact (K _ _ H).
  - rewrite (Nat.div_small (length input)) by lia. cbn [whole_blocks].
    assert ((0 <? Z.of_nat (length input)) = true) as -> by lia. apply K.
    unfold holds. rewrite length_app, length_take, Hl, Nat.min_l, Nat.div_small, Nat.mod_small by lia.
    split; [done|]. split; [done|]. split; [rewrite memcpy_length; lia|]. rewrite memcpy_take by lia. done.
Qed.

Lemma rep_starts ctx : length (buffer ctx) = 64%nat -> rep (utils_md5_starts ctx) [].
Proof. intros H. split; [constructor|]. split; [done|]. split; [done|]. split; [done|]. done. Qed.

Lemma rep_chunks chunks ctx m :
  rep ctx m -> Forall (fun c => bytes c /\ Z.of_nat (length c) < 4294967296) chunks ->
  rep (foldl utils_md5_update ctx chunks) (m ++ concat chunks).
Proof.
  intros H Hc. revert ctx m H. induction Hc as [|c cs [Hb Hl] _ IH]; intros ctx m H; [by rewrite app_nil_r|].
  cbn [foldl concat]. rewrite app_assoc. apply IH. by apply utils_md5_update_rep.
Qed.

(** ** The digest *)

Lemma put_uint32_le_spec n : put_uint32_le n = le32 n.
Proof. unfold put_uint32_le, le32, u8. change 0xFF with (Z.ones 8). by rewrite !Z.land_ones by lia. Qed.

Lemma le32_u32 x y : u32 x = u32 y -> le32 x = le32 y.
Proof.
  intros H. assert (forall k, 0 <= k <= 24 -> u8 (x .>> k) = u8 (y .>> k)) as K.
  { intros k Hk. apply Z.bits_inj'. intros j Hj. unfold u8. change 256 with (2 ^ 8).
    destruct (Z.lt_ge_cases j 8); [|by rewrite !Z.mod_pow2_bits_high by lia].
    rewrite !Z.mod_pow2_bits_low, !Z.shiftr_spec by lia.
    pose proof (u32_testbit x (j + k) ltac:(lia)) as Ex. pose proof (u32_testbit y (j + k) ltac:(lia)) as Ey.
    rewrite H in Ex. assert ((j + k <? 32) = true) as L by lia. rewrite L in *. cbn [andb] in *. congruence. }
  unfold le32. pose proof (K 0 ltac:(lia)) as K0. rewrite !Z.shiftr_0_r in K0. rewrite K0, !K by lia. done.
Qed.

(** The two words of the bit count. *)
Lemma bit_count ctx len : counts ctx len ->
  put_uint32_le (u32 (total0 ctx .<< 3)) ++ put_uint32_le ((total0 ctx .>> 29) .| u32 (total1 ctx .<< 3)) =
  le32 (8 * Z.of_nat len) ++ le32 (8 * Z.of_nat len / 2 ^ 32).
Proof.
  intros [-> ->]. rewrite !put_uint32_le_spec. set (n := Z.of_nat len). assert (0 <= n) as Hn by lia. f_equal.
  - apply le32_u32. rewrite Z.shiftl_mul_pow2 by lia. cast_lia.
  - assert (forall t, 0 <= t -> u32 (t .<< 3) = (t mod 2 ^ 29) .<< 3) as E
      by (intros; rewrite !Z.shiftl_mul_pow2 by lia; change (2 ^ 3) with 8; change (2 ^ 29) with 536870912; cast_lia).
    rewrite E by apply u32_range. rewrite Z.shiftr_div_pow2 by lia.
    rewrite lor_shift; [|lia| pose proof (u32_range n); split; [apply Z.div_pos; lia | apply Z.div_lt_upper_bound; lia]].
    apply le32_u32. change (2 ^ 29) with 536870912. change (2 ^ 32) with 4294967296. change (2 ^ 3) with 8. cast_lia.
Qed.

Lemma repeat_take {A} (x : A) n k : take n (repeat x k) = repeat x (min n k).
Proof. revert k. induction n as [|n IH]; intros [|k]; cbn; [done..|]. by rewrite IH. Qed.

(** The padding. *)
Lemma padding_bytes (len : nat) :
  let last := Z.of_nat (len mod 64) in
  take (Z.to_nat (if last <? 56 then 56 - last else 120 - last)) iot_md5_padding =
  0x80 :: repeat 0 (Z.to_nat ((55 - Z.of_nat len) mod 64)).
Proof.
  cbv zeta. pose proof (Nat.mod_upper_bound len 64 ltac:(lia)) as B.
  set (padn := if _ <? _ then _ else _).
  assert (1 <= padn <= 64) as R by (unfold padn; destruct (Z.ltb_spec (Z.of_nat (len mod 64)) 56); lia).
  replace (Z.to_nat padn) with (S (Z.to_nat ((55 - Z.of_nat len) mod 64))).
  - unfold iot_md5_padding. cbn [take]. f_equal. rewrite repeat_take. f_equal. Z.div_mod_to_equations. lia.
  - unfold padn. rewrite Nat2Z.inj_mod. destruct (Z.ltb_spec (Z.of_nat len mod Z.of_nat 64) 56); Z.div_mod_to_equations; lia.
Qed.

Lemma le32_bytes v : bytes (le32 v).
Proof. repeat constructor; apply Z.mod_pos_bound; lia. Qed.

#[local] Hint Resolve le32_bytes : core.

Lemma zeros_bytes n : bytes (repeat 0 n).
Proof. induction n; constructor; done. Qed.

#[local] Hint Resolve zeros_bytes : core.

Lemma finish_rep ctx m : rep ctx m -> utils_md5_finish ctx = Rfc.md5 m.
Proof.
  intros H. pose proof H as (_ & Hc & _). unfold utils_md5_finish.
  rewrite (counts_left ctx _ Hc), (padding_bytes (length m)), (bit_count ctx _ Hc).
  set (pad := 0x80 :: _). set (cnt := le32 _ ++ le32 _).
  assert (rep (utils_md5_update (utils_md5_update ctx pad) cnt) ((m ++ pad) ++ cnt)) as (_ & _ & Es & _).
  { assert (bytes pad) by (constructor; [done|apply zeros_bytes]). assert (bytes cnt) by (apply bytes_app; auto).
    apply utils_md5_update_rep; [apply utils_md5_update_rep; [done..|]|done|done].
    unfold pad. cbn [length]. rewrite repeat_length. Z.div_mod_to_equations. lia. }
  rewrite Es, !put_uint32_le_spec. unfold Rfc.md5, Rfc.padded. fold cnt.
  change (0x80 :: ?l ++ cnt) with (pad ++ cnt). rewrite <- (app_assoc m pad cnt). reflexivity.
Qed.

(** C17: however a message is cut into pieces, the digest the code computes from the pieces is the
    MD5 of the whole message as RFC 1321 defines it. *)
Theorem md5_of_pieces ctx chunks :
  length (buffer ctx) = 64%nat -> Forall (fun c => bytes c /\ Z.of_nat (length c) < 4294967296) chunks ->
  utils_md5_finish (foldl utils_md5_update (utils_md5_starts ctx) chunks) = Rfc.md5 (concat chunks).
Proof. intros Hb Hc. apply finish_rep. exact (rep_chunks chunks _ [] (rep_starts ctx Hb) Hc). Qed.

Lemma md5_of_pieces_witness :
  utils_md5_finish (foldl utils_md5_update (utils_md5_starts utils_md5_init) [repeat 97 70; repeat 98 60; [99]]) =
  Rfc.md5 (repeat 97 70 ++ repeat 98 60 ++ [99]).
Proof.
  apply (md5_of_pieces utils_md5_init [repeat 97 70; repeat 98 60; [99]]); [reflexivity|].
  repeat (constructor; [split; [|reflexivity]; apply (bool_decide_unpack _); vm_compute; exact I|]). constructor.
Defined.

(** The digest of "abc" that RFC 1321 lists. *)
Example rfc_abc :
  utils_md5 [97; 98; 99] = [0x90; 0x01; 0x50; 0x98; 0x3c; 0xd2; 0x4f; 0xb0; 0xd6; 0x96; 0x3f; 0x7d; 0x28; 0xe1; 0x7f; 0x72].
Proof. vm_compute. reflexivity. Qed.

(** ** Signatures *)

Definition hex_digit (d : Z) : Z :=
  nth (Z.to_nat d) [48; 49; 50; 51; 52; 53; 54; 55; 56; 57; 97; 98; 99; 100; 101; 102] 0.

Definition hex (l : list Z) : list Z := concat ((fun v => [hex_digit (v / 16); hex_digit (v mod 16)]) <$> l).

Lemma hb2hex_spec v : utils_hb2hex v = hex_digit (v mod 16).
Proof.
  unfold utils_hb2hex. change 0xF with (Z.ones 4). rewrite Z.land_ones by lia. change (2 ^ 4) with 16.
  pose proof (Z.mod_pos_bound v 16 ltac:(lia)) as B. generalize dependent (v mod 16). intros d B.
  assert (d = 0 \/ d = 1 \/ d = 2 \/ d = 3 \/ d = 4 \/ d = 5 \/ d = 6 \/ d = 7 \/ d = 8 \/ d = 9 \/ d = 10 \/ d = 11 \/
    d = 12 \/ d = 13 \/ d = 14 \/ d = 15) as H by lia.
  repeat (destruct H as [->|H]; [reflexivity|]). by subst.
Qed.

Lemma md5_bytes m : bytes (Rfc.md5 m).
Proof. unfold Rfc.md5. auto 10. Qed.

Lemma md5_length m : length (Rfc.md5 m) = 16%nat.
Proof. reflexivity. Qed.

Lemma pad_bytes c l : byte c -> bytes l -> bytes ((fun v => v .^ c) <$> l).
Proof.
  intros Hc Hl. unfold bytes. apply Forall_fmap. eapply Forall_impl; [|exact Hl]. intros v Hv. cbn.
  apply (bits_bound _ 8); [lia|]. intros j Hj. rewrite Z.lxor_spec. by rewrite !byte_high.
Qed.

Lemma two_pieces a b : bytes a -> bytes b -> Z.of_nat (length a) < 4294967296 -> Z.of_nat (length b) < 4294967296 ->
  utils_md5_finish (utils_md5_update (utils_md5_update (utils_md5_starts utils_md5_init) a) b) = Rfc.md5 (a ++ b).
Proof.
  intros. apply finish_rep. apply utils_md5_update_rep; [|done..].
  apply (utils_md5_update_rep _ []); [by apply rep_starts|done..].
Qed.

Lemma key_block key : (length key <= 64)%nat ->
  memcpy (repeat 0 64) 0 key = key ++ repeat 0 (64 - length key).
Proof.
  intros H. unfold memcpy. rewrite firstn_O. change (0 + length key)%nat with (length key). rewrite app_nil_l. f_equal.
  replace (repeat 0 64) with (repeat 0 (length key) ++ repeat 0 (64 - length key)) by (rewrite <- repeat_app; f_equal; lia).
  apply drop_app_length'. by rewrite repeat_length.
Qed.

(** A message is signed with the HMAC-MD5 of RFC 2104, in lower-case hexadecimal; a key longer
    than a block is refused and no signature is stored. *)
Lemma hmac_md5_spec msg key : bytes msg -> bytes key -> Z.of_nat (length msg) < 4294967296 ->
  utils_hmac_md5 msg key = if decide (length key <= 64)%nat then Some (hex (Rfc.hmac key msg)) else None.
Proof.
  intros Hm Hk Hl. unfold utils_hmac_md5. destruct (Z.ltb_spec 64 (Z.of_nat (length key))), (decide _); try lia; [done|].
  rewrite key_block by done. unfold Rfc.hmac. set (kb := key ++ _).
  assert (bytes kb) as Hkb by (apply bytes_app; auto).
  assert (length kb = 64%nat) as Lkb by (unfold kb; rewrite length_app, repeat_length; lia).
  rewrite (two_pieces _ msg), two_pieces by (rewrite ?length_fmap, ?Lkb, ?md5_length; auto using pad_bytes, md5_bytes; 
    first [apply pad_bytes; [done|exact Hkb] | lia]).
  unfold hex. do 2 f_equal. apply list_fmap_ext. intros i v Hv.
  assert (byte v) as Hb by (eapply Forall_lookup_1; [apply md5_bytes|exact Hv]).
  rewrite !hb2hex_spec, Z.shiftr_div_pow2 by lia. change (2 ^ 4) with 16. rewrite (Z.mod_small (v / 16)); [done|].
  unfold byte in Hb. Z.div_mod_to_equations. lia.
Qed.
