(* ===== verification/Calendar.v ===== *)
(** * Calendar time: components/libc/compilers/common/gmtime_r.c

    [gmtime_r] turns the seconds since 1970 into a broken-down time by counting years and
    months.  The other direction, [mktime], is the compiler's library function; its definition
    here is that of the C standard for a machine without time zones.  The two are inverse. *)

From S2P Require Import Prelude.

Abbreviation SPD := (24 * 60 * 60).

Record tm : Type := Tm {
  tm_sec : Z; tm_min : Z; tm_hour : Z; tm_mday : Z; tm_mon : Z; tm_year : Z; tm_wday : Z; tm_yday : Z
}.

(** ** [gmtime_r] *)

Definition __spm : list Z := [0; 31; 59; 90; 120; 151; 181; 212; 243; 273; 304; 334; 365].
Definition spm (i : nat) : Z := nth i __spm 0.

Definition __isleap (year : Z) : bool :=
  (Z.rem year 4 =? 0) && (nz (Z.rem year 100) || (Z.rem year 400 =? 0)).

(** The loop over the years, [None] when [fuel] years are not enough. *)
Fixpoint year_loop (fuel : nat) (i work : Z) : option (Z * Z) :=
  match fuel with
  | O => None
  | S fuel' =>
      let k := if __isleap i then 366 else 365 in
      if k <=? work then year_loop fuel' (i + 1) (work - k) else Some (i, work)
  end.

(** [for (i = 11; i && (__spm[i] > work); --i)]. *)
Fixpoint month_loop (i : nat) (work : Z) : nat :=
  match i with
  | O => O
  | S i' => if work <? spm i then month_loop i' work else i
  end.

(** Month and day of the month from the day of the year. *)
Definition month_day (leap : bool) (yday : Z) : Z * Z :=
  let mday := if leap && (58 <? yday) && (yday =? 59) then 2 else 1 in
  let work := if leap && (58 <? yday) then yday - 1 else yday in
  let i := month_loop 11 work in
  (Z.of_nat i, mday + (work - spm i)).

(** 137 years reach past the last second of an unsigned 32-bit [time_t]. *)
Definition gmtime_r (timep : Z) : option tm :=
  let work := timep mod SPD in
  let sec := work mod 60 in
  let work := work / 60 in
  let days := timep / SPD in
  '(i, yday) ← year_loop 137 1970 days;
  let '(mon, mday) := month_day (__isleap i) yday in
  Some (Tm sec (work mod 60) (work / 60) mday mon (i - 1900) ((4 + days) mod 7) yday).

(** ** [mktime] *)

(** Days from 1970-01-01 to the first day of a year. *)
Definition year_days (y : Z) : Z := 365 * (y - 1970) + (y - 1) / 4 - (y - 1) / 100 + (y - 1) / 400 - 477.

Definition mktime (t : tm) : Z :=
  let y := tm_year t + 1900 + tm_mon t / 12 in
  let m := tm_mon t mod 12 in
  let day := year_days y + spm (Z.to_nat m) + Z.b2z (__isleap y && (1 <? m)) + tm_mday t - 1 in
  u32 (((day * 24 + tm_hour t) * 60 + tm_min t) * 60 + tm_sec t).

(** ** Proofs *)

Lemma rem_mod_eqb y k : 0 <= y -> 0 < k -> (Z.rem y k =? 0) = (y mod k =? 0).
Proof. intros. by rewrite Z.rem_mod_nonneg by lia. Qed.

Lemma year_days_next y : 0 <= y -> year_days (y + 1) = year_days y + (if __isleap y then 366 else 365).
Proof.
  intros Hy. unfold __isleap, nz, year_days. rewrite !rem_mod_eqb by lia.
  destruct (Z.eqb_spec (y mod 4) 0), (Z.eqb_spec (y mod 100) 0), (Z.eqb_spec (y mod 400) 0); cbn;
    Z.div_mod_to_equations; lia.
Qed.

Lemma year_loop_spec fuel : forall y d,
  0 <= y -> 0 <= d < 365 * Z.of_nat fuel -> exists y' d',
  year_loop fuel y d = Some (y', d') /\ year_days y + d = year_days y' + d' /\
  y <= y' /\ 0 <= d' < (if __isleap y' then 366 else 365).
Proof.
  induction fuel as [|fuel IH]; intros y d Hy Hd; [lia|]. cbn [year_loop].
  destruct (Z.leb_spec (if __isleap y then 366 else 365) d) as [Hk|Hk].
  - destruct (IH (y + 1) (d - (if __isleap y then 366 else 365))) as (y' & d' & E & Hs & Hle & Hr);
      [lia|destruct (__isleap y); lia|].
    exists y', d'. rewrite year_days_next in Hs by lia. repeat split; try done; try lia; destruct (__isleap y); lia.
  - exists y, d. repeat split; [lia..|]. destruct (__isleap y); lia.
Qed.

(** Months and days count the days of the year. *)
Definition month_ok (leap : bool) (yday : Z) : bool :=
  let '(mon, mday) := month_day leap yday in
  ((if leap then 366 else 365) <=? yday) ||
  ((0 <=? mon) && (mon <? 12) && (1 <=? mday) && (mday <=? 31) &&
   (spm (Z.to_nat mon) + Z.b2z (leap && (1 <? mon)) + mday - 1 =? yday)).

Lemma month_day_spec (leap : bool) yday :
  0 <= yday < (if leap then 366 else 365) ->
  let '(mon, mday) := month_day leap yday in
  0 <= mon < 12 /\ 1 <= mday <= 31 /\ spm (Z.to_nat mon) + Z.b2z (leap && (1 <? mon)) + mday - 1 = yday.
Proof.
  intros Hd. assert (H : month_ok leap yday = true).
  { destruct leap; (apply (bin_check_sound _ 9 0); [vm_compute; reflexivity|cbn; lia]). }
  unfold month_ok in H. destruct (month_day leap yday) as [mon mday].
  destruct (Z.leb_spec (if leap then 366 else 365) yday); [lia|]. cbn [orb] in H.
  rewrite !andb_true_iff, !Z.leb_le, Z.ltb_lt, Z.eqb_eq in H. lia.
Qed.

Lemma year_days_mono y z : 0 <= y <= z -> year_days y <= year_days z.
Proof.
  intros [Hy Hz]. replace z with (y + Z.of_nat (Z.to_nat (z - y))) by lia. generalize (Z.to_nat (z - y)) as n.
  induction n as [|n IH]; [by rewrite Z.add_0_r|]. rewrite Nat2Z.inj_succ. unfold Z.succ. rewrite Z.add_assoc, year_days_next by lia.
  destruct (__isleap _); lia.
Qed.

(** A day lies between the first days of two years exactly when its year does. *)
Lemma year_bounds y d lo hi :
  0 <= y -> 0 <= lo -> 0 <= d < (if __isleap y then 366 else 365) -> year_days lo <= year_days y + d < year_days hi -> lo <= y < hi.
Proof.
  intros Hy Hlo Hd H. assert (Hn : year_days y + d < year_days (y + 1)) by (rewrite year_days_next by lia; destruct (__isleap y); lia).
  split.
  - destruct (Z.le_gt_cases lo y); [done|]. pose proof (year_days_mono (y + 1) lo). lia.
  - destruct (Z.lt_ge_cases y hi); [done|]. destruct (Z.lt_ge_cases hi 0); [unfold year_days in *; Z.div_mod_to_equations; lia|].
    pose proof (year_days_mono hi y). lia.
Qed.

(** Every 32-bit time is broken down, into members in their ranges, and [mktime] inverts it. *)
Lemma gmtime_r_spec t :
  0 <= t < 4294967296 -> exists r,
  gmtime_r t = Some r /\ mktime r = t /\
  0 <= tm_sec r < 60 /\ 0 <= tm_min r < 60 /\ 0 <= tm_hour r < 24 /\ 1 <= tm_mday r <= 31 /\ 0 <= tm_mon r < 12 /\
  0 <= tm_wday r < 7 /\
  (forall lo hi, 0 <= lo -> SPD * year_days lo <= t < SPD * year_days hi -> lo <= tm_year r + 1900 < hi).
Proof.
  intros Ht. unfold gmtime_r.
  destruct (year_loop_spec 137 1970 (t / SPD)) as (y & d & -> & Hs & Hy & Hd); [lia|Z.div_mod_to_equations; lia|].
  change (year_days 1970) with 0 in Hs. cbn [mbind option_bind].
  pose proof (month_day_spec (__isleap y) d Hd) as Hm. destruct (month_day (__isleap y) d) as [mon mday].
  destruct Hm as (Hmon & Hmday & Hday). eexists. split; [reflexivity|].
  cbn [tm_sec tm_min tm_hour tm_mday tm_mon tm_year tm_wday]. split.
  - unfold mktime. cbn [tm_sec tm_min tm_hour tm_mday tm_mon tm_year].
    rewrite (Z.div_small mon), (Z.mod_small mon), Z.add_0_r by lia. replace (y - 1900 + 1900) with y by lia.
    replace (year_days y + spm (Z.to_nat mon) + Z.b2z (__isleap y && (1 <? mon)) + mday - 1) with (t / SPD) by lia.
    rewrite u32_small by (Z.div_mod_to_equations; lia). Z.div_mod_to_equations. lia.
  - repeat (split; [Z.div_mod_to_equations; lia|]). intros lo hi Hlo Hb.
    replace (y - 1900 + 1900) with y by lia. apply (year_bounds _ d); [lia|lia|done|].
    rewrite <- Hs. split; Z.div_mod_to_equations; lia.
Qed.
