(* ===== verification/Format.v ===== *)
(** * Formatted text: rt_vsnprintf and its helpers in src/kservice.c

    The firmware builds its messages with the kernel's [rt_snprintf], which prints into a buffer of
    a given size and cuts what does not fit.  A text is the list of its characters, without the
    terminating zero.  The buffer is written at an increasing position [str]; a character is stored
    while [str <= end].  The model keeps the list of all characters put so far, stored or not, so
    that its length is [str - buf].

    The kernel is configured with precisions, without 64-bit numbers and without the prefixes of
    the flag [#]. *)

From S2P Require Import Prelude.
From Stdlib Require Import Ascii String.

#[local] Abbreviation length := Datatypes.length.
#[local] Abbreviation concat := List.concat.

#[local] Open Scope Z_scope.

(** The characters of a C string literal. *)
Definition chars (s : string) : list Z := (fun a => Z.of_nat (nat_of_ascii a)) <$> list_ascii_of_string s.

Abbreviation ZEROPAD := 1.
Abbreviation SIGN := 2.
Abbreviation PLUS := 4.
Abbreviation SPACE := 8.
Abbreviation LEFT := 16.
Abbreviation SPECIAL := 32.
Abbreviation LARGE := 64.

(** ** Numbers *)

Definition isdigit (c : Z) : bool := u32 (c - 48) <? 10.

(** [divide]: the remainder and the quotient; every base but ten is taken as sixteen. *)
Definition divide (n base : Z) : Z * Z :=
  if base =? 10 then (u32 n mod 10, s32 (u32 n / 10)) else (u32 n mod 16, s32 (u32 n / 16)).

Definition small_digits : list Z := chars "0123456789abcdef".
Definition large_digits : list Z := chars "0123456789ABCDEF".

(** [while (num != 0) tmp[i++] = digits[divide(&num, base)]]: at most ten digits. *)
Fixpoint digit_loop (fuel : nat) (digits : list Z) (num base : Z) : list Z :=
  match fuel with
  | O => []
  | S n =>
      if num =? 0 then []
      else let '(d, num) := divide num base in nth (Z.to_nat d) digits 0 :: digit_loop n digits num base
  end.

(** [tmp[0 .. i)], the lowest digit first. *)
Definition number_digits (type num base : Z) : list Z :=
  let digits := if nz (type .& LARGE) then large_digits else small_digits in
  if num =? 0 then [48] else digit_loop 16 digits num base.

(** [while (size-- > 0)] puts [c] so often and leaves [size] at this value. *)
Definition fill (c size : Z) : list Z := repeat c (Z.to_nat size).
Definition after_fill (size : Z) : Z := Z.min size 0 - 1.

Definition print_number (end_ : Z) (buf : list Z) (num base s precision type : Z) : list Z :=
  let precision_bak := precision in
  let type := if nz (type .& LEFT) then type .& .~ ZEROPAD else type in
  let c := if nz (type .& ZEROPAD) then 48 else 32 in
  let '(sign, num) :=
    if nz (type .& SIGN) then
      if num <? 0 then (45, s32 (- num))
      else if nz (type .& PLUS) then (43, num)
      else if nz (type .& SPACE) then (32, num)
      else (0, num)
    else (0, num) in
  let tmp := number_digits type num base in
  let i := Z.of_nat (length tmp) in
  let precision := if precision <? i then i else precision in
  let size := s - precision in
  let '(buf, size) :=
    if negb (nz (type .& (ZEROPAD .| LEFT))) then
      let size := if nz sign && (0 <? size) then size - 1 else size in
      (buf ++ fill 32 size, after_fill size)
    else (buf, size) in
  let '(buf, size) :=
    if nz sign then (buf ++ [sign], if Z.of_nat (length buf) <=? end_ then size - 1 else size)
    else (buf, size) in
  let '(buf, size) :=
    if negb (nz (type .& LEFT)) then (buf ++ fill c size, after_fill size) else (buf, size) in
  let buf := buf ++ fill 48 (precision - i) in
  let buf := if nz precision_bak then buf ++ rev tmp else buf in
  buf ++ fill 32 size.

(** ** Formats *)

(** What the caller passes for the conversions; a string may be a null pointer. *)
Inductive arg : Type := Int (n : Z) | Str (s : option (list Z)).

Fixpoint flag_loop (fmt : list Z) (flags : Z) : Z * list Z :=
  match fmt with
  | [] => (flags, [])
  | c :: fmt' =>
      if c =? 45 then flag_loop fmt' (flags .| LEFT)
      else if c =? 43 then flag_loop fmt' (flags .| PLUS)
      else if c =? 32 then flag_loop fmt' (flags .| SPACE)
      else if c =? 35 then flag_loop fmt' (flags .| SPECIAL)
      else if c =? 48 then flag_loop fmt' (flags .| ZEROPAD)
      else (flags, fmt)
  end.

Fixpoint skip_atoi (fmt : list Z) (i : Z) : Z * list Z :=
  match fmt with
  | [] => (i, [])
  | c :: fmt' => if isdigit c then skip_atoi fmt' (i * 10 + c - 48) else (i, fmt)
  end.

(** A number in the format or, for [*], the next argument. *)
Definition number_or_star (fmt : list Z) (args : list arg) (absent : Z) : option (Z * list Z * list arg) :=
  match fmt, args with
  | c :: fmt', _ =>
      if isdigit c then let '(v, fmt) := skip_atoi fmt 0 in Some (v, fmt, args)
      else if c =? 42 then match args with Int v :: args => Some (v, fmt', args) | _ => None end
      else Some (absent, fmt, args)
  | [], _ => Some (absent, fmt, args)
  end.

Record spec_st : Type := Spec { flags : Z; field_width : Z; precision : Z; qualifier : Z }.

(** From the character after [%] up to the conversion character. *)
Definition conversion_spec (fmt : list Z) (args : list arg) : option (spec_st * list Z * list arg) :=
  let '(flags, fmt) := flag_loop fmt 0 in
  let star := match fmt with c :: _ => c =? 42 | [] => false end in
  '(w, fmt, args) ← number_or_star fmt args (-1);
  let '(flags, w) := if star && (w <? 0) then (flags .| LEFT, - w) else (flags, w) in
  '(p, fmt, args) ←
    match fmt with
    | 46 :: fmt' => '(p, fmt, args) ← number_or_star fmt' args (-1); Some (if p <? 0 then 0 else p, fmt, args)
    | _ => Some (-1, fmt, args)
    end;
  let '(q, fmt) := match fmt with c :: fmt' => if (c =? 104) || (c =? 108) then (c, fmt') else (0, fmt) | [] => (0, fmt) end in
  Some (Spec flags w p q, fmt, args).

Definition put_char (buf : list Z) (s : spec_st) (c : Z) : list Z :=
  let '(buf, w) :=
    if negb (nz (flags s .& LEFT)) then (buf ++ fill 32 (field_width s - 1), Z.min (field_width s - 1) 0)
    else (buf, field_width s) in
  buf ++ [u8 c] ++ fill 32 (w - 1).

Definition put_string (buf : list Z) (s : spec_st) (str : option (list Z)) : list Z :=
  let str := default (chars "(NULL)") str in
  let n := Z.of_nat (length str) in
  let len := if (0 <? precision s) && (precision s <? n) then precision s else n in
  let '(buf, w) :=
    if negb (nz (flags s .& LEFT)) then (buf ++ fill 32 (field_width s - len), Z.min (field_width s) len - 1)
    else (buf, field_width s) in
  buf ++ take (Z.to_nat len) str ++ fill 32 (w - len).

(** The integer argument of a conversion with this qualifier. *)
Definition int_arg (q flags v : Z) : Z :=
  let sign := nz (flags .& SIGN) in
  if q =? 104 then let v := cast U16 v in if sign then u32 (cast S16 v) else v
  else u32 v.

Definition put_int (end_ : Z) (buf : list Z) (s : spec_st) (base flags v : Z) : list Z :=
  print_number end_ buf (s32 (int_arg (qualifier s) flags v)) base (field_width s) (precision s) flags.

(** The conversion [c]: the characters put and the arguments left. *)
Definition conversion (end_ : Z) (buf : list Z) (s : spec_st) (c : Z) (args : list arg) : option (list Z * list arg) :=
  let number base fl :=
    match args with Int v :: args => Some (put_int end_ buf s base fl v, args) | _ => None end in
  if c =? 99 then match args with Int v :: args => Some (put_char buf s v, args) | _ => None end
  else if c =? 115 then match args with Str v :: args => Some (put_string buf s v, args) | _ => None end
  else if c =? 112 then
    let '(w, fl) := if field_width s =? -1 then (8, flags s .| ZEROPAD) else (field_width s, flags s) in
    match args with Int v :: args => Some (print_number end_ buf (s32 v) 16 w (precision s) fl, args) | _ => None end
  else if c =? 37 then Some (buf ++ [37], args)
  else if c =? 111 then number 8 (flags s)
  else if c =? 88 then number 16 (flags s .| LARGE)
  else if c =? 120 then number 16 (flags s)
  else if (c =? 100) || (c =? 105) then number 10 (flags s .| SIGN)
  else if c =? 117 then number 10 (flags s)
  else Some (buf ++ [37; c], args).

(** [for (; *fmt; ++fmt)]; [None] when the arguments do not fit the format. *)
Fixpoint format_loop (fuel : nat) (end_ : Z) (buf fmt : list Z) (args : list arg) : option (list Z) :=
  match fuel with
  | O => None
  | S n =>
      match fmt with
      | [] => Some buf
      | 37 :: fmt =>
          '(s, fmt, args) ← conversion_spec fmt args;
          match fmt with
          | [] => Some (buf ++ [37])
          | c :: fmt => '(buf, args) ← conversion end_ buf s c args; format_loop n end_ buf fmt args
          end
      | c :: fmt => format_loop n end_ (buf ++ [c]) fmt args
      end
  end.

(** [end - buf]: without limit for the sizes with which [buf + size - 1] wraps around. *)
Definition buffer_end (size : Z) : Z :=
  if (size =? 0) || (size =? 4294967295) then 4294967295 else size - 1.

(** The value returned and the text left in the buffer. *)
Definition rt_vsnprintf (size : Z) (fmt : list Z) (args : list arg) : option (Z * list Z) :=
  let end_ := buffer_end size in
  str ← format_loop (S (length fmt)) end_ [] fmt args;
  Some (Z.of_nat (length str), if Z.of_nat (length str) <=? end_ then str else take (Z.to_nat end_) str).

(** ** Decimal numbers *)

(** The [k] lowest places of [n] in base ten, the highest first; the character "0" is 48. *)
Fixpoint places (k : nat) (n : Z) : list Z :=
  match k with O => [] | S k' => places k' (n / 10) ++ [48 + n mod 10] end.

Fixpoint no_leading_zeros (l : list Z) : list Z :=
  match l with c :: (_ :: _) as l' => if c =? 48 then no_leading_zeros l' else l | _ => l end.

(** A number of at most ten places as [%d] and [%0wd] are to show it. *)
Definition decimal (n : Z) : list Z := no_leading_zeros (places 10 n).
Definition signed_decimal (n : Z) : list Z := if n <? 0 then 45 :: decimal (- n) else decimal n.
Definition zero_padded (w n : Z) : list Z := if n <? 10 ^ w then places (Z.to_nat w) n else decimal n.

(** The number a text of digits stands for. *)
Definition dec_value (l : list Z) : Z := foldl (fun v c => v * 10 + (c - 48)) 0 l.

Lemma small_digit d : 0 <= d < 10 -> nth (Z.to_nat d) small_digits 0 = 48 + d.
Proof.
  intros Hd. assert (d = 0 \/ d = 1 \/ d = 2 \/ d = 3 \/ d = 4 \/ d = 5 \/ d = 6 \/ d = 7 \/ d = 8 \/ d = 9) as H by lia.
  repeat (destruct H as [->|H]; [reflexivity|]). by subst.
Qed.

Lemma places_0 k : places k 0 = repeat 48 k.
Proof. induction k as [|k IH]; [done|]. cbn [places repeat]. change (0 / 10) with 0. rewrite IH. symmetry. apply repeat_cons. Qed.

Lemma places_length k n : length (places k n) = k.
Proof. revert n. induction k as [|k IH]; intros n; [done|]. cbn [places]. rewrite length_app, IH. cbn. lia. Qed.

Lemma places_digits k n : Forall (fun c => 48 <= c <= 57) (places k n).
Proof.
  revert n. induction k as [|k IH]; intros n; [constructor|]. cbn [places]. apply Forall_app_2; [apply IH|].
  pose proof (Z.mod_pos_bound n 10 ltac:(lia)). repeat constructor; lia.
Qed.

Lemma places_value k n : 0 <= n < 10 ^ Z.of_nat k -> dec_value (places k n) = n.
Proof.
  revert n. induction k as [|k IH]; intros n Hn; [cbn in *; lia|]. rewrite Nat2Z.inj_succ, Z.pow_succ_r in Hn by lia.
  cbn [places]. unfold dec_value in *. rewrite foldl_app, IH; [cbn; pose proof (Z.div_mod n 10 ltac:(lia)); lia|].
  split; [Z.div_mod_to_equations; lia|]. apply Z.div_lt_upper_bound; lia.
Qed.

Lemma divide_10 n : 0 <= n < 4294967296 -> divide n 10 = (n mod 10, n / 10).
Proof.
  intros Hn. unfold divide. cbn [Z.eqb Pos.eqb]. rewrite u32_small by lia.
  do 2 f_equal. apply (cast_small S32). cbn. Z.div_mod_to_equations. lia.
Qed.

(** What the digit loop leaves, read from its end, are the places of the number but for leading zeros. *)
Lemma digit_loop_places fuel : forall n k,
  0 <= n < 2147483648 -> n < 10 ^ Z.of_nat fuel -> n < 10 ^ Z.of_nat k ->
  let l := digit_loop fuel small_digits n 10 in
  places k n = repeat 48 (k - length l) ++ rev l /\ (length l <= k)%nat /\
  (if n =? 0 then l = [] else exists d t, rev l = d :: t /\ d <> 48).
Proof.
  induction fuel as [|fuel IH]; intros n k Hn Hf Hk; cbn [digit_loop]; cbv zeta.
  { assert (n = 0) as -> by (cbn in Hf; lia). cbn. rewrite Nat.sub_0_r, app_nil_r. split; [apply places_0|split; [lia|done]]. }
  destruct (Z.eqb_spec n 0) as [->|E].
  { cbn. rewrite Nat.sub_0_r, app_nil_r. split; [apply places_0|split; [lia|done]]. }
  rewrite divide_10 by lia. cbv iota beta. rewrite Nat2Z.inj_succ, Z.pow_succ_r in Hf by lia.
  assert (0 <= n mod 10 < 10) as Hm by (apply Z.mod_pos_bound; lia). rewrite small_digit by done.
  destruct k as [|k]; [cbn in Hk; lia|]. rewrite Nat2Z.inj_succ, Z.pow_succ_r in Hk by lia.
  destruct (IH (n / 10) k) as (P & L & Hd);
    [Z.div_mod_to_equations; lia|apply Z.div_lt_upper_bound; lia|apply Z.div_lt_upper_bound; lia|].
  cbn [places Datatypes.length rev]. rewrite P, <- app_assoc. split; [done|]. split; [lia|].
  destruct (Z.eqb_spec (n / 10) 0) as [E0|_].
  - rewrite Hd. cbn. exists (48 + n mod 10), []. split; [done|]. Z.div_mod_to_equations. lia.
  - destruct Hd as (d & t & -> & Hd). exists d, (t ++ [48 + n mod 10]). done.
Qed.

Lemma no_leading_zeros_skip k d t : d <> 48 \/ t = [] -> no_leading_zeros (repeat 48 k ++ d :: t) = d :: t.
Proof.
  intros H. induction k as [|k IH].
  - cbn. destruct t; [done|]. destruct (Z.eqb_spec d 48); [naive_solver|done].
  - cbn [repeat app no_leading_zeros]. destruct (repeat 48 k ++ d :: t) eqn:E; [by destruct k|]. cbn [Z.eqb Pos.eqb]. exact IH.
Qed.

(** The digits of a number, by the code and in base ten; they are shorter than [w] only below [10 ^ w]. *)
Lemma number_digits_decimal n : 0 <= n < 2147483648 -> rev (number_digits SIGN n 10) = decimal n.
Proof.
  intros Hn. unfold number_digits, decimal. change (nz (SIGN .& LARGE)) with false. cbv iota.
  destruct (digit_loop_places 16 n 10 Hn) as (-> & _ & Hd); [cbn; lia..|]. destruct (Z.eqb_spec n 0) as [->|E]; [reflexivity|].
  destruct Hd as (d & t & -> & Hd). symmetry. apply no_leading_zeros_skip. by left.
Qed.

Lemma decimal_places n k : 0 <= n < 2147483648 -> (0 < k)%nat -> n < 10 ^ Z.of_nat k ->
  places k n = repeat 48 (k - length (decimal n)) ++ decimal n /\ (length (decimal n) <= k)%nat.
Proof.
  intros Hn Hk Hp. destruct (Z.eqb_spec n 0) as [->|E].
  { rewrite places_0. change (decimal 0) with [48]. cbn [Datatypes.length]. destruct k as [|k]; [lia|].
    rewrite Nat.sub_succ, Nat.sub_0_r. split; [cbn [repeat]; apply repeat_cons|lia]. }
  rewrite <- number_digits_decimal by done. unfold number_digits. rewrite (proj2 (Z.eqb_neq n 0) E).
  change (nz (SIGN .& LARGE)) with false. cbv iota. rewrite length_rev.
  destruct (digit_loop_places 16 n k Hn) as (P & L & _); [cbn; lia|done|done].
Qed.

Lemma decimal_spec n : 0 <= n < 2147483648 ->
  dec_value (decimal n) = n /\ Forall (fun c => 48 <= c <= 57) (decimal n) /\
  (forall k, 0 < k -> n < 10 ^ k -> Z.of_nat (length (decimal n)) <= k).
Proof.
  intros Hn. destruct (decimal_places n 10 Hn) as [P _]; [lia|cbn; lia|].
  pose proof (places_value 10 n ltac:(cbn; lia)) as V. pose proof (places_digits 10 n) as F. rewrite P in V, F.
  apply Forall_app in F as [_ F]. split; [|split; [done|]].
  - rewrite <- V at 2. generalize (10 - length (decimal n))%nat. intros j. unfold dec_value.
    induction j as [|j IH]; [done|exact IH].
  - intros k Hk Hnk. destruct (decimal_places n (Z.to_nat k) Hn) as [_ L]; [lia|by rewrite Z2Nat.id by lia|]. lia.
Qed.

(** A decimal number with leading zeros, as the code puts it. *)
Lemma zero_padded_fill w n : 0 <= n < 2147483648 -> 0 < w ->
  zero_padded w n = fill 48 (w - Z.of_nat (length (decimal n))) ++ decimal n.
Proof.
  intros Hn Hw. unfold zero_padded, fill. destruct (Z.ltb_spec n (10 ^ w)) as [H|H].
  - destruct (decimal_places n (Z.to_nat w) Hn) as [-> L]; [lia|by rewrite Z2Nat.id by lia|]. do 2 f_equal. lia.
  - assert (w <= Z.of_nat (length (decimal n))) as L; [|by replace (Z.to_nat _) with 0%nat by lia].
    apply Z.nlt_ge. intros L. destruct (decimal_spec n Hn) as (V & F & _).
    assert (forall l v, Forall (fun c => 48 <= c <= 57) l -> foldl (fun v c => v * 10 + (c - 48)) v l < (v + 1) * 10 ^ Z.of_nat (length l)) as B.
    { clear. induction l as [|c l IH]; intros v F; [cbn; lia|]. apply Forall_cons_1 in F as [Hc F]. cbn [foldl Datatypes.length].
      specialize (IH (v * 10 + (c - 48)) F). rewrite Nat2Z.inj_succ, Z.pow_succ_r by lia. nia. }
    specialize (B (decimal n) 0 F). change (foldl _ 0 (decimal n)) with (dec_value (decimal n)) in B. rewrite V in B.
    assert (10 ^ Z.of_nat (length (decimal n)) <= 10 ^ w) by (apply Z.pow_le_mono_r; lia). lia.
Qed.

Lemma zero_padded_spec w n : 0 <= n < 2147483648 -> 0 < w -> n < 10 ^ w ->
  dec_value (zero_padded w n) = n /\ Z.of_nat (length (zero_padded w n)) = w.
Proof.
  intros Hn Hw Hp. unfold zero_padded. rewrite (proj2 (Z.ltb_lt _ _) Hp), places_length, Z2Nat.id by lia.
  split; [|done]. apply places_value. rewrite Z2Nat.id by lia. lia.
Qed.

Lemma fill_nonpos c size : size <= 0 -> fill c size = [].
Proof. intros H. unfold fill. by destruct size; [| |]; try lia. Qed.

Lemma print_decimal end_ buf n : 0 <= n < 2147483648 -> print_number end_ buf n 10 (-1) (-1) SIGN = buf ++ decimal n.
Proof.
  intros Hn. rewrite <- number_digits_decimal by done. unfold print_number. change (nz (SIGN .& LEFT)) with false. cbv iota.
  change (nz (SIGN .& ZEROPAD)) with false. change (nz (SIGN .& SIGN)) with true. cbv iota.
  destruct (Z.ltb_spec n 0); [lia|]. change (nz (SIGN .& PLUS)) with false. change (nz (SIGN .& SPACE)) with false.
  change (nz (SIGN .& (ZEROPAD .| LEFT))) with false. cbv iota beta. cbn [negb]. change (nz 0) with false. cbn [andb].
  change (nz (-1)) with true. cbv iota. unfold after_fill.
  set (len := Z.of_nat _). assert (0 <= len) by lia. destruct (Z.ltb_spec (-1) len); [|lia].
  change (nz (SIGN .& LEFT)) with false. cbn [negb]. cbv iota beta.
  rewrite !fill_nonpos, !app_nil_r by lia. reflexivity.
Qed.

(** A number below zero: the sign and the digits of its magnitude. *)
Lemma print_negative end_ buf n : -2147483648 < n < 0 -> print_number end_ buf n 10 (-1) (-1) SIGN = buf ++ 45 :: decimal (- n).
Proof.
  intros Hn. rewrite <- number_digits_decimal by lia. unfold print_number. change (nz (SIGN .& LEFT)) with false. cbv iota.
  change (nz (SIGN .& ZEROPAD)) with false. change (nz (SIGN .& SIGN)) with true. cbv iota.
  destruct (Z.ltb_spec n 0); [|lia]. assert (s32 (- n) = - n) as -> by (apply (cast_small S32); cbn; lia). cbv beta iota.
  change (nz (SIGN .& (ZEROPAD .| LEFT))) with false. change (nz 45) with true. change (nz (-1)) with true.
  change (nz (SIGN .& LEFT)) with false. cbn [negb andb]. cbv iota.
  set (len := Z.of_nat (length (number_digits SIGN (- n) 10))). assert (0 <= len) by lia.
  destruct (Z.ltb_spec (-1) len); [|lia]. rewrite (proj2 (Z.ltb_ge 0 (-1 - len))) by lia. cbv iota beta. unfold after_fill.
  case_match; rewrite !fill_nonpos, !app_nil_r by lia; by rewrite <- app_assoc.
Qed.

Lemma print_signed end_ buf n : -2147483648 < n < 2147483648 -> print_number end_ buf n 10 (-1) (-1) SIGN = buf ++ signed_decimal n.
Proof.
  intros Hn. unfold signed_decimal. destruct (Z.ltb_spec n 0); [apply print_negative|apply print_decimal]; lia.
Qed.

Lemma print_zero_padded end_ buf w n : 0 <= n < 2147483648 -> 0 < w ->
  print_number end_ buf n 10 w (-1) (ZEROPAD .| SIGN) = buf ++ zero_padded w n.
Proof.
  intros Hn Hw. rewrite zero_padded_fill, <- number_digits_decimal, length_rev by done. unfold print_number. change (nz ((ZEROPAD .| SIGN) .& LEFT)) with false. cbv iota.
  change (nz ((ZEROPAD .| SIGN) .& ZEROPAD)) with true. change (nz ((ZEROPAD .| SIGN) .& SIGN)) with true. cbv iota.
  destruct (Z.ltb_spec n 0); [lia|]. change (nz ((ZEROPAD .| SIGN) .& PLUS)) with false.
  change (nz ((ZEROPAD .| SIGN) .& SPACE)) with false.
  change (nz ((ZEROPAD .| SIGN) .& (ZEROPAD .| LEFT))) with true. cbv iota beta. cbn [negb]. change (nz 0) with false. cbn [andb].
  change (nz (-1)) with true. cbv iota.
  change (number_digits (ZEROPAD .| SIGN) n 10) with (number_digits SIGN n 10). unfold after_fill.
  set (len := Z.of_nat _). assert (0 <= len) by lia. destruct (Z.ltb_spec (-1) len); [|lia].
  change (nz ((ZEROPAD .| SIGN) .& LEFT)) with false. cbn [negb]. cbv iota beta.
  rewrite (fill_nonpos 48 (len - len)), (fill_nonpos 32) by lia. rewrite !app_nil_r, <- app_assoc. reflexivity.
Qed.

(** ** The formats the messages use *)

(** Text without [%], [%s], [%d], and [%0wd] with one digit [w]. *)
Inductive piece : Type := Text (t : list Z) | PStr | PDec | PPad (w : Z).

Definition show (p : piece) : list Z :=
  match p with Text t => t | PStr => [37; 115] | PDec => [37; 100] | PPad w => [37; 48; 48 + w; 100] end.

Definition piece_ok (p : piece) : Prop :=
  match p with Text t => 37 ∉ t | PPad w => 1 <= w <= 9 | _ => True end.

(** What they stand for: a number between the limits of 32 bits, for [%0wd] one that is not negative. *)
Fixpoint render (ps : list piece) (args : list arg) : option (list Z) :=
  match ps, args with
  | [], _ => Some []
  | Text t :: ps, _ => (fun r => t ++ r) <$> render ps args
  | PStr :: ps, Str (Some s) :: args => (fun r => s ++ r) <$> render ps args
  | PDec :: ps, Int n :: args => if (-2147483648 <? n) && (n <? 2147483648) then (fun r => signed_decimal n ++ r) <$> render ps args else None
  | PPad w :: ps, Int n :: args =>
      if (0 <=? n) && (n <? 2147483648) then (fun r => zero_padded w n ++ r) <$> render ps args else None
  | _, _ => None
  end.

Lemma signed_decimal_nonneg n : 0 <= n -> signed_decimal n = decimal n.
Proof. intros Hn. unfold signed_decimal. by rewrite (proj2 (Z.ltb_ge n 0)). Qed.

(** A number that is not negative, in front of what follows. *)
Lemma render_number n ps args : 0 <= n < 2147483648 ->
  render (PDec :: ps) (Int n :: args) = (fun r => decimal n ++ r) <$> render ps args.
Proof.
  intros Hn. cbn [render]. replace ((_ <? n) && (n <? _)) with true by lia.
  by rewrite signed_decimal_nonneg by lia.
Qed.

Lemma format_text n end_ buf t fmt args : 37 ∉ t ->
  format_loop (length t + n) end_ buf (t ++ fmt) args = format_loop n end_ (buf ++ t) fmt args.
Proof.
  revert buf. induction t as [|c t IH]; intros buf H; [by rewrite app_nil_r|].
  apply not_elem_of_cons in H as [Hc Ht]. cbn [app Datatypes.length Nat.add format_loop].
  assert (forall (T : Type) (a b : T), match c with 37 => a | _ => b end = b) as E.
  { intros T a b. destruct c as [|c|c]; [done| |done]. repeat (destruct c; try done). }
  rewrite (E (option (list Z))). rewrite IH, <- app_assoc by done. reflexivity.
Qed.

Lemma put_plain_string buf t : put_string buf (Spec 0 (-1) (-1) 0) (Some t) = buf ++ t.
Proof.
  unfold put_string. cbn [default field_width precision flags]. change (negb (nz (0 .& LEFT))) with true.
  cbn [Z.ltb Z.compare andb]. cbv iota. rewrite Nat2Z.id, firstn_all, !fill_nonpos, !app_nil_r by lia. reflexivity.
Qed.

Lemma int_small n : -2147483648 <= n < 2147483648 -> s32 (u32 n) = n.
Proof. intros. cast_lia. Qed.

Lemma format_pieces ps : forall args n end_ buf out, Forall piece_ok ps -> (length (concat (show <$> ps)) < n)%nat ->
  render ps args = Some out -> format_loop n end_ buf (concat (show <$> ps)) args = Some (buf ++ out).
Proof.
  induction ps as [|p ps IH]; intros args n end_ buf out Hok Hn Hr.
  { cbn in Hr. injection Hr as <-. destruct n; [cbn in Hn; lia|]. by rewrite app_nil_r. }
  apply Forall_cons_1 in Hok as [Hp Hok]. cbn [List.concat fmap list_fmap] in *. rewrite length_app in Hn.
  destruct p as [t| | |w]; cbn [show Datatypes.length] in *.
  - cbn [render] in Hr. destruct (render ps args) as [r|] eqn:E; [|done]. injection Hr as <-.
    replace n with (length t + (n - length t))%nat by lia. rewrite format_text, app_assoc by done.
    apply (IH _ _ _ _ _ Hok); [lia|done].
  - destruct args as [|[|[s|]] args]; try done. cbn [render] in Hr.
    destruct (render ps args) as [r|] eqn:E; [|done]. injection Hr as <-. destruct n as [|n]; [lia|].
    change (format_loop (S n) end_ buf ([37; 115] ++ ?f) ?a) with
      (format_loop n end_ (put_string buf (Spec 0 (-1) (-1) 0) (Some s)) f args).
    rewrite put_plain_string, app_assoc. apply (IH _ _ _ _ _ Hok); [lia|done].
  - destruct args as [|[v|] args]; try done. cbn [render] in Hr. destruct (_ && _) eqn:Ev; [|done].
    destruct (render ps args) as [r|] eqn:E; [|done]. injection Hr as <-. destruct n as [|n]; [lia|].
    change (format_loop (S n) end_ buf ([37; 100] ++ ?f) ?a) with
      (format_loop n end_ (print_number end_ buf (s32 (u32 v)) 10 (-1) (-1) SIGN) f args).
    rewrite int_small, print_signed, app_assoc by lia. apply (IH _ _ _ _ _ Hok); [lia|done].
  - destruct args as [|[v|] args]; try done. cbn [render] in Hr. destruct (_ && _) eqn:Ev; [|done].
    destruct (render ps args) as [r|] eqn:E; [|done]. injection Hr as <-. destruct n as [|n]; [lia|]. cbn in Hp.
    assert (format_loop (S n) end_ buf ([37; 48; 48 + w; 100] ++ concat (show <$> ps)) (Int v :: args) =
      format_loop n end_ (print_number end_ buf (s32 (u32 v)) 10 w (-1) (ZEROPAD .| SIGN)) (concat (show <$> ps)) args) as ->.
    { assert (w = 1 \/ w = 2 \/ w = 3 \/ w = 4 \/ w = 5 \/ w = 6 \/ w = 7 \/ w = 8 \/ w = 9) as H by lia.
      repeat (destruct H as [->|H]; [reflexivity|]). by subst. }
    rewrite int_small, print_zero_padded, app_assoc by lia. apply (IH _ _ _ _ _ Hok); [lia|done].
Qed.

(** C29: for a format made of plain text, [%s], [%d] and [%0wd], with a string for each [%s], a number of
    more than -2^31 for each [%d] and one that is not negative for each [%0wd], [rt_vsnprintf] leaves
    the text the format stands for, cut at the size of the buffer, and returns its full length.  The
    digits are those of base ten ([places]), whatever digit table and division the code uses. *)
Theorem snprintf_correct ps args size out :
  Forall piece_ok ps -> render ps args = Some out -> 1 <= size < 4294967295 ->
  rt_vsnprintf size (concat (show <$> ps)) args = Some (Z.of_nat (length out), take (Z.to_nat (size - 1)) out).
Proof.
  intros Hok Hr Hs. unfold rt_vsnprintf, buffer_end.
  destruct (Z.eqb_spec size 0), (Z.eqb_spec size 4294967295); try lia. cbn [orb].
  rewrite (format_pieces ps args _ _ [] out Hok (Nat.lt_succ_diag_r _) Hr). cbn [mbind option_bind app].
  destruct (Z.leb_spec (Z.of_nat (length out)) (size - 1)); [|done]. by rewrite take_ge by lia.
Qed.

Lemma snprintf_correct_witness :
  rt_vsnprintf 8 (chars "no %d: %s/%04d") [Int (-7); Str (Some (chars "ab")); Int 21] =
    Some (14, chars "no -7: ").
Proof.
  apply (snprintf_correct [Text (chars "no "); PDec; Text (chars ": "); PStr; Text (chars "/"); PPad 4]
    [Int (-7); Str (Some (chars "ab")); Int 21] 8 (chars "no -7: ab/0021")).
  - repeat constructor; cbn; try lia; apply (bool_decide_unpack _); vm_compute; exact I.
  - vm_compute. reflexivity.
  - lia.
Defined.

(** ** Every format *)

Lemma flag_loop_shorter fmt fl fl' fmt' : flag_loop fmt fl = (fl', fmt') -> (length fmt' <= length fmt)%nat.
Proof.
  revert fl. induction fmt as [|c fmt IH]; intros fl H; cbn [flag_loop] in H; [by injection H as <- <-|].
  cbn [Datatypes.length]. repeat case_match; try (apply IH in H; lia). injection H as <- <-. cbn. lia.
Qed.

Lemma skip_atoi_shorter fmt i v fmt' : skip_atoi fmt i = (v, fmt') -> (length fmt' <= length fmt)%nat.
Proof.
  revert i. induction fmt as [|c fmt IH]; intros i H; cbn [skip_atoi] in H; [by injection H as <- <-|].
  cbn [Datatypes.length]. case_match; [apply IH in H; lia|]. injection H as <- <-. cbn. lia.
Qed.

Lemma number_or_star_shorter fmt args d v fmt' args' :
  number_or_star fmt args d = Some (v, fmt', args') -> (length fmt' <= length fmt)%nat.
Proof.
  destruct fmt as [|c fmt]; cbn [number_or_star]; intros H; [by injection H as <- <- <-|].
  destruct (isdigit c).
  - destruct (skip_atoi (c :: fmt) 0) eqn:E. apply skip_atoi_shorter in E. by injection H as <- <- <-.
  - repeat case_match; simplify_eq; cbn; lia.
Qed.

Lemma conversion_spec_shorter fmt args s fmt' args' :
  conversion_spec fmt args = Some (s, fmt', args') -> (length fmt' <= length fmt)%nat.
Proof.
  unfold conversion_spec. destruct (flag_loop fmt 0) as [fl f1] eqn:E1. apply flag_loop_shorter in E1.
  destruct (number_or_star f1 args (-1)) as [[[w f2] a2]|] eqn:E2; [|done]. apply number_or_star_shorter in E2.
  cbn [mbind option_bind]. destruct (if _ && _ then _ else _) as [fl' w'].
  match goal with |- (?m ≫= _ = _) -> _ => destruct m as [[[p f3] a3]|] eqn:E3 end; [|done].
  cbn [mbind option_bind].
  assert (length f3 <= length f2)%nat as H3.
  { revert E3. destruct f2 as [|c f2]; [by injection 1 as <- <- <-|].
    destruct (decide (c = 46)) as [->|Hc].
    - destruct (number_or_star f2 a2 (-1)) as [[[p' f4] a4]|] eqn:E4; [|done]. cbn. injection 1 as <- <- <-.
      apply number_or_star_shorter in E4. lia.
    - assert (forall (T : Type) (a b : T), match c with 46 => a | _ => b end = b) as ->; [|by injection 1 as <- <- <-].
      intros T a b. destruct c as [|c|c]; [done| |done]. repeat (destruct c; try done). }
  destruct f3 as [|c f3]; [injection 1 as <- <- <-; cbn in *; lia|].
  destruct ((c =? 104) || (c =? 108)); injection 1 as <- <- <-; cbn [Datatypes.length] in *; lia.
Qed.

(** The number of characters of the format is enough fuel. *)
Lemma format_fuel n m end_ buf fmt args : (length fmt < n)%nat -> (length fmt < m)%nat ->
  format_loop n end_ buf fmt args = format_loop m end_ buf fmt args.
Proof.
  revert m buf fmt args. induction n as [|n IH]; intros [|m] buf fmt args Hn Hm; try lia.
  destruct fmt as [|c fmt]; [done|]. cbn [format_loop Datatypes.length] in *.
  assert (forall (T : Type) (a a' b b' : T), a = a' -> b = b' ->
    match c with 37 => a | _ => b end = match c with 37 => a' | _ => b' end) as D by (intros; by subst).
  apply D; [|apply IH; lia].
  destruct (conversion_spec fmt args) as [[[s f] a]|] eqn:E; [|done]. apply conversion_spec_shorter in E. cbn [mbind option_bind].
  destruct f as [|d f]; [done|]. destruct (conversion end_ buf s d a) as [[buf' a']|]; [|done].
  apply IH; cbn [Datatypes.length] in E; lia.
Qed.

(** [%o] prints base sixteen: [divide] knows the bases 10 and 16 only. *)
Lemma octal_is_hexadecimal : rt_vsnprintf 10 (chars "%o") [Int 15] = Some (1, chars "f").
Proof. vm_compute. reflexivity. Qed.
