(* ===== verification/TwoWire.v ===== *)
(** * Two-wire serial buses

    Two drivers of the firmware make the waveforms of an I2C bus by switching two pins:
    drivers/i2c_bsp.c for the EEPROM (file EepromBus) and drivers/pcf8563.c for the clock (file
    Pcf8563).  This file is what both talk to: the wires with the pins of the processor, and the
    half of the protocol that every device on such a bus implements (start and stop conditions,
    bits sampled while the clock is high, an acknowledge after eight bits).  What a device does
    with the bytes is the interface [device], which the chips implement. *)

From S2P Require Import Prelude.

(** A device: what a start condition, a byte from the master (with the answer whether it is
    acknowledged), a byte to the master and a stop condition do to its state [D]; [dev_sends]
    tells whether the device is to send after an acknowledged byte. *)
Class device (D : Type) : Type := {
  dev_start : D -> D;
  dev_byte : D -> Z -> bool * D;
  dev_sends : D -> bool;
  dev_next : D -> Z * D;
  dev_stop : D -> D
}.

(** The device's side of the protocol. *)
Inductive phase : Type :=
  | Quiet                      (* not addressed: waits for a start condition *)
  | Recv (n : nat) (v : Z)     (* [n] bits of a byte have been received *)
  | AckOut (clocked : bool)    (* holds the data line low for the ninth clock *)
  | Send (n : nat) (v : Z)     (* puts bit [7 - n] of [v] on the data line *)
  | AckIn (sample : option bool). (* listens to the master's acknowledge *)

Section Wires.
Context {D : Type} `{!device D}.

(** The pins of the processor (clock level, data output register, data direction) and the
    device. *)
Record bus : Type := Bus { scl : bool; sda_odr : bool; sda_out : bool; ph : phase; dev : D }.

(** The level to which the device lets the data line rise. *)
Definition pull (p : phase) : bool :=
  match p with
  | AckOut _ => false
  | Send n v => Z.testbit v (7 - Z.of_nat n)
  | _ => true
  end.

(** The data line: low as soon as one side pulls it low. *)
Definition sda (b : bus) : bool := (if sda_out b then sda_odr b else true) && pull (ph b).

Definition set_dev (f : D -> D) (b : bus) : bus := Bus (scl b) (sda_odr b) (sda_out b) (ph b) (f (dev b)).

(** The clock rises: bits are sampled. *)
Definition rise (b : bus) : bus :=
  let p := match ph b with
           | Recv n v => Recv (S n) (2 * v + Z.b2z (sda b))
           | AckOut _ => AckOut true
           | AckIn _ => AckIn (Some (sda b))
           | p => p
           end in
  Bus true (sda_odr b) (sda_out b) p (dev b).

(** The device begins to send a byte or to receive one. *)
Definition next_byte (b : bus) : bus :=
  if dev_sends (dev b) then
    let '(v, d) := dev_next (dev b) in Bus false (sda_odr b) (sda_out b) (Send 0 v) d
  else Bus false (sda_odr b) (sda_out b) (Recv 0 0) (dev b).

(** The clock falls: the device changes what it puts on the line. *)
Definition fall (b : bus) : bus :=
  match ph b with
  | Recv 8 v =>
      let '(ack, d) := dev_byte (dev b) v in
      Bus false (sda_odr b) (sda_out b) (if ack then AckOut false else Quiet) d
  | AckOut true => next_byte b
  | Send 7 v => Bus false (sda_odr b) (sda_out b) (AckIn None) (dev b)
  | Send n v => Bus false (sda_odr b) (sda_out b) (Send (S n) v) (dev b)
  | AckIn (Some false) => next_byte b
  | AckIn (Some true) => Bus false (sda_odr b) (sda_out b) Quiet (dev b)
  | p => Bus false (sda_odr b) (sda_out b) p (dev b)
  end.

Definition set_scl (v : bool) (b : bus) : bus :=
  if eqb v (scl b) then b else if v then rise b else fall b.

(** The data pin changes; while the clock is high that is a start or a stop condition. *)
Definition set_pin (odr out : bool) (b : bus) : bus :=
  let b' := Bus (scl b) odr out (ph b) (dev b) in
  if scl b then
    match sda b, sda b' with
    | true, false => Bus true odr out (Recv 0 0) (dev_start (dev b))
    | false, true => Bus true odr out Quiet (dev_stop (dev b))
    | _, _ => b'
    end
  else b'.

Definition set_sda (v : bool) (b : bus) : bus := set_pin v (sda_out b) b.
Definition set_dir (out : bool) (b : bus) : bus := set_pin (sda_odr b) out b.

End Wires.
Arguments bus : clear implicits.

(** ** Stable states of the bus, between the bytes of a transfer *)

(** Nobody uses the bus: both lines are high. *)
Definition idle {D} (d : D) : bus D := Bus true true true Quiet d.

(** The device waits for a byte, or sends one, and the clock is low; the data pin is in either
    direction. *)
Definition ready {D} `{!device D} (odr out : bool) (d : D) : bus D :=
  if dev_sends d then let '(v, d') := dev_next d in Bus false odr out (Send 0 v) d'
  else Bus false odr out (Recv 0 0) d.

(** ** A byte on the wires, the highest bit first *)

Section Bytes.
Context {D : Type} `{!device D}.

Definition clock_bit (v : bool) (b : bus D) : bus D := b |> set_sda v |> set_scl true |> set_scl false.

Fixpoint clock_bits (t : nat) (x : Z) (b : bus D) : bus D :=
  match t with
  | O => b
  | S t' => clock_bits t' (u8 (x .<< 1)) (clock_bit (128 <=? x) b)
  end.

Definition shift_in (v : Z) (b : bool) : Z := 2 * v + Z.b2z b.

Lemma clock_bit_recv n v x odr d :
  (n < 8)%nat -> clock_bit x (Bus false odr true (Recv n v) d) = fall (Bus true x true (Recv (S n) (shift_in v x)) d).
Proof. by destruct x. Qed.

(** The bits still to be clocked out are the top [t] bits of [x]. *)
Lemma clock_bits_spec t : forall n v x odr d,
  (n + S t = 8)%nat -> byte x -> exists odr',
  clock_bits (S t) x (Bus false odr true (Recv n v) d) =
  fall (Bus true odr' true (Recv 8 (v * 2 ^ Z.of_nat (S t) + x / 2 ^ Z.of_nat (7 - t))) d).
Proof.
  induction t as [|t IH]; intros n v x odr d Hn Hx.
  - exists (128 <=? x). cbn [clock_bits]. rewrite clock_bit_recv by lia. replace (S n) with 8%nat by lia. do 3 f_equal.
    unfold shift_in. change (2 ^ Z.of_nat 1) with 2. change (2 ^ Z.of_nat (7 - 0)) with 128.
    unfold byte in Hx. destruct (Z.leb_spec 128 x); cbn [Z.b2z]; Z.div_mod_to_equations; lia.
  - remember (S t) as t1 eqn:Et. cbn [clock_bits]. subst t1. rewrite clock_bit_recv by lia.
    assert (Hf : fall (Bus true (128 <=? x) true (Recv (S n) (shift_in v (128 <=? x))) d)
      = Bus false (128 <=? x) true (Recv (S n) (shift_in v (128 <=? x))) d).
    { unfold fall. cbn [ph]. by do 8 (destruct n as [|n]; [done || lia|]). }
    rewrite Hf. destruct (IH (S n) (shift_in v (128 <=? x)) (u8 (x .<< 1)) (128 <=? x) d) as [o ->].
    { lia. } { apply u8_range. }
    exists o. do 3 f_equal. rewrite Z.shiftl_mul_pow2 by lia. change (2 ^ 1) with 2. unfold shift_in, u8, byte in *.
    assert (Ht : (t <= 6)%nat) by lia. clear -Hx Ht.
    do 7 (destruct t as [|t]; [cbn; destruct (Z.leb_spec 128 x); cbn [Z.b2z]; Z.div_mod_to_equations; lia|]). lia.
Qed.

(** After eight clocks the device has the byte and answers it. *)
Lemma clock_byte v odr d :
  byte v -> exists odr',
  clock_bits 8 v (Bus false odr true (Recv 0 0) d) =
  let '(ack, d') := dev_byte d v in Bus false odr' true (if ack then AckOut false else Quiet) d'.
Proof.
  intros Hv. destruct (clock_bits_spec 7 0 0 v odr d) as [o ->]; [done..|]. exists o.
  change (2 ^ Z.of_nat (7 - 7)) with 1. rewrite Z.div_1_r. reflexivity.
Qed.

End Bytes.

(** Testing the highest bit of a byte with a mask. *)
Lemma high_bit v : byte v -> nz (v .& 0x80) = (128 <=? v) /\ ((v .& 0x80) .>> 7 =? 1) = (128 <=? v).
Proof.
  intros Hv. split; apply Bool.eqb_prop.
  - refine (bin_check_sound (fun v => Bool.eqb (nz (v .& 0x80)) (128 <=? v)) 8 0 v _ _); [vm_compute; reflexivity|].
    unfold byte in Hv. cbn. lia.
  - refine (bin_check_sound (fun v => Bool.eqb ((v .& 0x80) .>> 7 =? 1) (128 <=? v)) 8 0 v _ _); [vm_compute; reflexivity|].
    unfold byte in Hv. cbn. lia.
Qed.

(** The bits of a byte as a device that sends presents them. *)
Definition bits_of (v : Z) : list bool := (fun k => Z.testbit v (7 - k)) <$> seqZ 0 8.
