(* ===== verification/Pcf8563.v ===== *)
(** * The clock: drivers/pcf8563.c and the time functions of drivers/rtc_bsp.c

    The PCF8563 keeps the time in binary-coded decimal registers behind a two-wire bus of its
    own.  The driver switches the pins (section [Waveforms]), transfers registers, and converts
    between registers and calendar time.  A transfer the chip does not acknowledge leaves the
    caller's variables as they were, so the contents of uninitialised variables are a parameter.
    The time the chip counts during a transfer is not modelled. *)

From S2P Require Import Prelude TwoWire Calendar.

(** ** Waveforms *)

Section Waveforms.
Context {D : Type} `{!device D}.

Definition IIC_SCL (n : Z) : bus D -> bus D := set_scl (nz n).
Definition IIC_SDA (n : Z) : bus D -> bus D := set_sda (nz n).
Definition IIC_SDA_OUT : bus D -> bus D := set_dir true.
Definition IIC_SDA_IN : bus D -> bus D := set_dir false.
Definition IN_SDA (b : bus D) : Z := Z.b2z (sda b).

Definition IIC_GPIO_Init (b : bus D) : bus D := b |> IIC_SDA_OUT |> IIC_SDA 1 |> IIC_SCL 1.

Definition IIC_Start (b : bus D) : bus D :=
  b |> IIC_SDA_OUT |> IIC_SDA 1 |> IIC_SCL 1 |> IIC_SDA 0 |> IIC_SCL 0.

Definition IIC_Stop (b : bus D) : bus D :=
  b |> IIC_SDA_OUT |> IIC_SDA 0 |> IIC_SCL 1 |> IIC_SDA 1.

Definition IIC_Ack (a : Z) (b : bus D) : bus D :=
  b |> IIC_SDA_OUT |> IIC_SDA (if nz a then 1 else 0) |> IIC_SCL 1 |> IIC_SCL 0.

Fixpoint write_bits (i : nat) (dat : Z) (b : bus D) : bus D :=
  match i with
  | O => b
  | S i' => write_bits i' (u8 (dat .<< 1)) (b |> IIC_SDA (if nz (dat .& 0x80) then 1 else 0) |> IIC_SCL 1 |> IIC_SCL 0)
  end.

(** The loop that waits for the data line to fall only counts: without an edge of the clock no
    device moves. *)
Definition IIC_Write_Byte (dat : Z) (b : bus D) : Z * bus D :=
  let b := write_bits 8 dat (IIC_SDA_OUT b) in
  let b := b |> IIC_SDA 1 |> IIC_SDA_IN |> IIC_SCL 1 in
  let iic_ack := 0 .| IN_SDA b in
  (iic_ack, IIC_SCL 0 b).

Fixpoint read_bits (i : nat) (x : Z) (b : bus D) : Z * bus D :=
  match i with
  | O => (x, b)
  | S i' =>
      let x := u8 (x .<< 1) in
      let b := IIC_SCL 1 b in
      read_bits i' (if nz (IN_SDA b) then x .| 0x01 else x) (IIC_SCL 0 b)
  end.

Definition IIC_Read_Byte (b : bus D) : Z * bus D :=
  let '(x, b) := read_bits 8 0 (b |> IIC_SDA 1 |> IIC_SDA_IN) in
  (x, IIC_SCL 0 b).

(** *** Their meaning for the device *)

Lemma rtc_IIC_Start_idle d : IIC_Start (idle d) = Bus false false true (Recv 0 0) (dev_start d).
Proof. reflexivity. Qed.

Lemma rtc_IIC_Start_again odr out d : IIC_Start (Bus false odr out (Recv 0 0) d) = Bus false false true (Recv 0 0) (dev_start d).
Proof. by destruct odr, out. Qed.

Lemma rtc_IIC_Stop_low odr out p d : p = Quiet \/ p = Recv 0 0 -> IIC_Stop (Bus false odr out p d) = idle (dev_stop d).
Proof. by intros [-> | ->]; destruct odr, out. Qed.

Lemma write_bits_clock i : forall x b, byte x -> write_bits i x b = clock_bits i x b.
Proof.
  induction i as [|i IH]; intros x b Hx; [done|]. cbn [write_bits clock_bits]. rewrite IH by apply u8_range.
  f_equal. rewrite (proj1 (high_bit x Hx)). by destruct (128 <=? x).
Qed.

Lemma IIC_Write_Byte_spec v odr out d :
  byte v ->
  IIC_Write_Byte v (Bus false odr out (Recv 0 0) d) =
  let '(ack, d') := dev_byte d v in
  if ack then (0, ready true false d') else (1, Bus false true false Quiet d').
Proof.
  intros Hv. unfold IIC_Write_Byte. rewrite write_bits_clock by done.
  assert (E : IIC_SDA_OUT (Bus false odr out (Recv 0 0) d) = Bus false odr true (Recv 0 0) d) by done.
  rewrite E. destruct (clock_byte v odr d Hv) as [o ->]. destruct (dev_byte d v) as [[] d']; reflexivity.
Qed.

Definition or_bit (x : Z) (b : bool) : Z := if b then u8 (x .<< 1) .| 0x01 else u8 (x .<< 1).

Lemma or_bits v : byte v -> foldl or_bit 0 (bits_of v) = v.
Proof.
  intros Hv. apply Z.eqb_eq. refine (bin_check_sound (fun v => foldl or_bit 0 (bits_of v) =? v) 8 0 v _ _); [vm_compute; reflexivity|].
  unfold byte in Hv. cbn. lia.
Qed.

Fixpoint sampled (i : nat) (x : Z) (b : bus D) : Z * bus D :=
  match i with
  | O => (x, b)
  | S i' => let b := IIC_SCL 1 b in sampled i' (or_bit x (sda b)) (IIC_SCL 0 b)
  end.

Lemma read_bits_sampled i : forall x b, read_bits i x b = sampled i x b.
Proof.
  induction i as [|i IH]; intros x b; [done|]. cbn [read_bits sampled]. rewrite IH. unfold or_bit, IN_SDA. by rewrite nz_b2z.
Qed.

Lemma rtc_IIC_Read_Byte_spec v odr out d :
  byte v -> IIC_Read_Byte (Bus false odr out (Send 0 v) d) = (v, Bus false true false (AckIn None) d).
Proof.
  intros Hv. unfold IIC_Read_Byte.
  assert (E : read_bits 8 0 (IIC_SDA_IN (IIC_SDA 1 (Bus false odr out (Send 0 v) d))) =
    (foldl or_bit 0 (bits_of v), Bus false true false (AckIn None) d)).
  { rewrite read_bits_sampled. reflexivity. }
  rewrite E, or_bits by done. reflexivity.
Qed.

Lemma IIC_Ack_spec a d :
  IIC_Ack a (Bus false true false (AckIn None) d) =
  if nz a then Bus false true true Quiet d else ready false true d.
Proof. unfold IIC_Ack. by destruct (nz a). Qed.

End Waveforms.

(** ** The chip

    Sixteen registers with an address counter that wraps; [r_deaf] is a chip that does not
    answer.  The bits a register does not have read as [undefined_bits] says. *)

Inductive rtc_expect : Type := R_ctrl | R_addr | R_data | R_send | R_none.

Record rtc : Type := Rtc { r_reg : Z -> Z; r_ptr : Z; r_pos : rtc_expect; r_deaf : bool }.

Class undefined_bits : Type := undefined : Z -> Z.

(** The bits each register has. *)
Definition reg_bits (a : Z) : Z :=
  nth (Z.to_nat a) [0xa8; 0x1f; 0xff; 0x7f; 0x3f; 0x3f; 0x07; 0x9f; 0xff; 0xff; 0xbf; 0xbf; 0x87; 0x83; 0x83; 0xff] 0.

Definition reg_read {X : undefined_bits} (r : Z -> Z) (a : Z) : Z :=
  u8 ((r a .& reg_bits a) .| (undefined a .& (.~ reg_bits a))).

Definition put_reg (a v : Z) (r : Z -> Z) : Z -> Z := fun x => if a =? x then v else r x.

Definition rtc_byte (c : rtc) (v : Z) : bool * rtc :=
  match r_pos c with
  | R_ctrl =>
      if r_deaf c then (false, Rtc (r_reg c) (r_ptr c) R_none true)
      else if v =? 0xa2 then (true, Rtc (r_reg c) (r_ptr c) R_addr false)
      else if v =? 0xa3 then (true, Rtc (r_reg c) (r_ptr c) R_send false)
      else (false, Rtc (r_reg c) (r_ptr c) R_none false)
  | R_addr => (true, Rtc (r_reg c) (v mod 16) R_data (r_deaf c))
  | R_data => (true, Rtc (put_reg (r_ptr c) v (r_reg c)) ((r_ptr c + 1) mod 16) R_data (r_deaf c))
  | _ => (false, Rtc (r_reg c) (r_ptr c) R_none (r_deaf c))
  end.

#[export] Instance rtc_chip {X : undefined_bits} : device rtc := {|
  dev_start c := Rtc (r_reg c) (r_ptr c) R_ctrl (r_deaf c);
  dev_byte := rtc_byte;
  dev_sends c := match r_pos c with R_send => true | _ => false end;
  dev_next c := (reg_read (r_reg c) (r_ptr c), Rtc (r_reg c) ((r_ptr c + 1) mod 16) R_send (r_deaf c));
  dev_stop c := Rtc (r_reg c) (r_ptr c) R_none (r_deaf c)
|}.

(** ** Transfers *)

Abbreviation PCF8563_Write := 0xa2.
Abbreviation PCF8563_Read := 0xa3.

(** What an uninitialised local variable of one byte holds. *)
Class stack_contents : Type := stack_byte : Z.

Section Transfers.
Context {X : undefined_bits} {U : stack_contents}.

Definition PCF8563_Write_Byte (REG_ADD dat : Z) (b : bus rtc) : bus rtc :=
  let '(ack, b) := IIC_Write_Byte PCF8563_Write (IIC_Start b) in
  let b := if negb (nz ack) then
             let '(_, b) := IIC_Write_Byte REG_ADD b in (IIC_Write_Byte dat b).2
           else b in
  IIC_Stop b.

Definition PCF8563_Read_Byte (REG_ADD : Z) (b : bus rtc) : Z * bus rtc :=
  let '(ack, b) := IIC_Write_Byte PCF8563_Write (IIC_Start b) in
  let '(read_data, b) :=
    if negb (nz ack) then
      let '(_, b) := IIC_Write_Byte REG_ADD b in
      let '(_, b) := IIC_Write_Byte PCF8563_Read (IIC_Start b) in
      let '(read_data, b) := IIC_Read_Byte b in
      (read_data, IIC_Ack 1 b)
    else (stack_byte, b) in
  (read_data, IIC_Stop b).

Definition send_all (l : list Z) (b : bus rtc) : bus rtc := foldl (fun b v => (IIC_Write_Byte v b).2) b l.

Definition PCF8563_Write_nByte (REG_ADD num : Z) (pBuff : list Z) (b : bus rtc) : bus rtc :=
  let '(ack, b) := IIC_Write_Byte PCF8563_Write (IIC_Start b) in
  let b := if negb (nz ack) then
             let '(_, b) := IIC_Write_Byte REG_ADD b in send_all (take (Z.to_nat num) pBuff) b
           else b in
  IIC_Stop b.

(** [num] bytes, the last one not acknowledged; [rx] and [ack] are the calls of the loop. *)
Fixpoint receive_loop (rx : bus rtc -> Z * bus rtc) (ack : Z -> bus rtc -> bus rtc) (num : nat) (b : bus rtc) : list Z * bus rtc :=
  match num with
  | O => ([], b)
  | S num' =>
      let '(v, b) := rx b in
      let '(l, b) := receive_loop rx ack num' (ack (match num' with O => 1 | _ => 0 end) b) in (v :: l, b)
  end.

Definition receive_all : nat -> bus rtc -> list Z * bus rtc := receive_loop IIC_Read_Byte IIC_Ack.

(** [pBuff] is what the buffer held before. *)
Definition PCF8563_Read_nByte (REG_ADD num : Z) (pBuff : list Z) (b : bus rtc) : list Z * bus rtc :=
  let '(ack, b) := IIC_Write_Byte PCF8563_Write (IIC_Start b) in
  let '(pBuff, b) :=
    if negb (nz ack) then
      let '(_, b) := IIC_Write_Byte REG_ADD b in
      let '(_, b) := IIC_Write_Byte PCF8563_Read (IIC_Start b) in
      let '(l, b) := receive_all (Z.to_nat num) b in
      (l ++ drop (Z.to_nat num) pBuff, b)
    else (pBuff, b) in
  (pBuff, IIC_Stop b).

(** *** What they do *)

Definition at_rest (r : Z -> Z) (p : Z) : rtc := Rtc r p R_none false.

(** [n] registers from address [a] on, wrapping after the last one. *)
Definition reg_span (r : Z -> Z) (a : Z) (n : nat) : list Z := (fun k => reg_read r ((a + Z.of_nat k) mod 16)) <$> seq 0 n.

Fixpoint put_regs (a : Z) (l : list Z) (r : Z -> Z) : Z -> Z :=
  match l with
  | [] => r
  | v :: l' => put_regs ((a + 1) mod 16) l' (put_reg a v r)
  end.

Lemma write_command r p pos : byte 0xa2 ->
  IIC_Write_Byte PCF8563_Write (IIC_Start (idle (Rtc r p pos false))) = (0, Bus false true false (Recv 0 0) (Rtc r p R_addr false)).
Proof. intros Hb. rewrite rtc_IIC_Start_idle, IIC_Write_Byte_spec by done. reflexivity. Qed.

Lemma write_reg_addr a odr out r p : byte a ->
  IIC_Write_Byte a (Bus false odr out (Recv 0 0) (Rtc r p R_addr false)) = (0, Bus false true false (Recv 0 0) (Rtc r (a mod 16) R_data false)).
Proof. intros Hb. by rewrite IIC_Write_Byte_spec by done. Qed.

Lemma write_reg_data v odr out r p : byte v ->
  IIC_Write_Byte v (Bus false odr out (Recv 0 0) (Rtc r p R_data false)) =
  (0, Bus false true false (Recv 0 0) (Rtc (put_reg p v r) ((p + 1) mod 16) R_data false)).
Proof. intros Hb. by rewrite IIC_Write_Byte_spec by done. Qed.

Lemma read_command odr out r p :
  IIC_Write_Byte PCF8563_Read (IIC_Start (Bus false odr out (Recv 0 0) (Rtc r p R_data false))) = (0, ready true false (Rtc r p R_send false)).
Proof. rewrite rtc_IIC_Start_again, IIC_Write_Byte_spec by done. reflexivity. Qed.

Lemma send_all_spec l : forall odr out r p,
  bytes l -> exists odr' out' p',
  send_all l (Bus false odr out (Recv 0 0) (Rtc r p R_data false)) = Bus false odr' out' (Recv 0 0) (Rtc (put_regs p l r) p' R_data false).
Proof.
  induction l as [|v l IH]; intros odr out r p Hl; [by exists odr, out, p|]. apply Forall_cons_1 in Hl as [Hv Hl].
  unfold send_all in *. rewrite foldl_cons, write_reg_data by done. by apply IH.
Qed.

Lemma receive_loop_S rx ack n b :
  receive_loop rx ack (S n) b =
  let '(v, b) := rx b in
  let '(l, b) := receive_loop rx ack n (ack (match n with O => 1 | _ => 0 end) b) in (v :: l, b).
Proof. reflexivity. Qed.

Lemma ready_send odr out r p :
  ready odr out (Rtc r p R_send false) = Bus false odr out (Send 0 (reg_read r p)) (Rtc r ((p + 1) mod 16) R_send false).
Proof. reflexivity. Qed.

Lemma reg_span_S r p n : 0 <= p < 16 -> reg_span r p (S n) = reg_read r p :: reg_span r ((p + 1) mod 16) n.
Proof.
  intros Hp. unfold reg_span. cbn [seq fmap list_fmap]. rewrite Z.add_0_r, Z.mod_small, <- fmap_S_seq, <- list_fmap_compose by done.
  f_equal. apply list_fmap_ext. intros i x _. cbn [compose]. rewrite Zplus_mod_idemp_l. do 2 f_equal. lia.
Qed.

Lemma receive_all_spec n : forall odr out r p,
  0 <= p < 16 -> exists c,
  receive_all (S n) (ready odr out (Rtc r p R_send false)) = (reg_span r p (S n), Bus false true true Quiet c) /\
  dev_stop c = at_rest r (r_ptr c).
Proof.
  unfold receive_all. induction n as [|n IH]; intros odr out r p Hp; rewrite receive_loop_S, ready_send;
    rewrite rtc_IIC_Read_Byte_spec by apply u8_range; cbv beta iota; rewrite IIC_Ack_spec, reg_span_S by done.
  - eexists. split; reflexivity.
  - change (nz 0) with false. cbv iota. destruct (IH false true r ((p + 1) mod 16)) as (c & E & Hc); [apply Z.mod_pos_bound; lia|].
    rewrite E. by exists c.
Qed.

Lemma end_transfer odr out p0 c r p : p0 = Quiet \/ p0 = Recv 0 0 -> dev_stop c = at_rest r p -> IIC_Stop (Bus false odr out p0 c) = idle (at_rest r p).
Proof. intros H <-. by apply rtc_IIC_Stop_low. Qed.

Lemma Write_Byte_spec a v r p : byte a -> byte v -> exists p',
  PCF8563_Write_Byte a v (idle (at_rest r p)) = idle (at_rest (put_reg (a mod 16) v r) p').
Proof.
  intros Ha Hv. unfold PCF8563_Write_Byte, at_rest at 1. rewrite write_command by done. cbv beta iota. change (negb (nz 0)) with true. cbv iota.
  rewrite write_reg_addr by done. cbv beta iota. rewrite write_reg_data by done. eexists. eapply end_transfer; [by right|reflexivity].
Qed.

Lemma Read_Byte_spec a r p : byte a -> exists p',
  PCF8563_Read_Byte a (idle (at_rest r p)) = (reg_read r (a mod 16), idle (at_rest r p')).
Proof.
  intros Ha. unfold PCF8563_Read_Byte, at_rest at 1. rewrite write_command by done. cbv beta iota. change (negb (nz 0)) with true. cbv iota.
  rewrite write_reg_addr by done. cbv beta iota. rewrite read_command. cbv beta iota. rewrite ready_send.
  rewrite rtc_IIC_Read_Byte_spec by apply u8_range. cbv beta iota. rewrite IIC_Ack_spec. change (nz 1) with true. cbv iota.
  eexists. reflexivity.
Qed.

Lemma Write_nByte_spec a num l r p : byte a -> bytes l -> exists p',
  PCF8563_Write_nByte a num l (idle (at_rest r p)) = idle (at_rest (put_regs (a mod 16) (take (Z.to_nat num) l) r) p').
Proof.
  intros Ha Hl. unfold PCF8563_Write_nByte, at_rest at 1. rewrite write_command by done. cbv beta iota. change (negb (nz 0)) with true. cbv iota.
  rewrite write_reg_addr by done. cbv beta iota.
  destruct (send_all_spec (take (Z.to_nat num) l) true false r (a mod 16)) as (o & u & p' & ->); [by apply Forall_take|].
  exists p'. eapply end_transfer; [by right|reflexivity].
Qed.

Lemma Read_nByte_spec a n l r p : byte a -> exists p',
  PCF8563_Read_nByte a (Z.of_nat (S n)) l (idle (at_rest r p)) = (reg_span r (a mod 16) (S n) ++ drop (S n) l, idle (at_rest r p')).
Proof.
  intros Ha. unfold PCF8563_Read_nByte, at_rest at 1. rewrite write_command by done. cbv beta iota. change (negb (nz 0)) with true. cbv iota.
  rewrite write_reg_addr by done. cbv beta iota. rewrite read_command. cbv beta iota. rewrite Nat2Z.id.
  destruct (receive_all_spec n true false r (a mod 16)) as (c & -> & Hc); [apply Z.mod_pos_bound; lia|].
  exists (r_ptr c). cbv beta iota. f_equal. eapply end_transfer; [by left|done].
Qed.

(** A chip that does not answer: nothing is written, and a read gives what was there before. *)
Definition no_answer (c : rtc) : rtc := Rtc (r_reg c) (r_ptr c) R_none true.

Lemma deaf_command c : r_deaf c = true ->
  IIC_Write_Byte PCF8563_Write (IIC_Start (idle c)) = (1, Bus false true false Quiet (no_answer c)).
Proof. intros Hc. rewrite rtc_IIC_Start_idle, IIC_Write_Byte_spec by done. cbn. unfold rtc_byte. cbn. by rewrite Hc. Qed.

Lemma deaf_stop c : IIC_Stop (Bus false true false Quiet (no_answer c)) = idle (no_answer c).
Proof. reflexivity. Qed.

Lemma deaf_transfers c a v n l :
  r_deaf c = true ->
  PCF8563_Write_Byte a v (idle c) = idle (no_answer c) /\
  PCF8563_Read_Byte a (idle c) = (stack_byte, idle (no_answer c)) /\
  PCF8563_Write_nByte a n l (idle c) = idle (no_answer c) /\
  PCF8563_Read_nByte a n l (idle c) = (l, idle (no_answer c)).
Proof.
  intros Hc. unfold PCF8563_Write_Byte, PCF8563_Read_Byte, PCF8563_Write_nByte, PCF8563_Read_nByte.
  rewrite (deaf_command c Hc). change (negb (nz 1)) with false. cbv beta iota. by rewrite deaf_stop.
Qed.

End Transfers.

(** ** Binary-coded decimal *)

(** [while (BINValue >= 10)]; a byte needs at most 25 rounds ([bcd_loop_done]). *)
Fixpoint bcd_loop (fuel : nat) (bcdhigh BINValue : Z) : Z * Z :=
  match fuel with
  | O => (bcdhigh, BINValue)
  | S fuel' => if 10 <=? BINValue then bcd_loop fuel' (u8 (bcdhigh + 1)) (BINValue - 10) else (bcdhigh, BINValue)
  end.

Definition RTC_BinToBcd2 (BINValue : Z) : Z :=
  let '(bcdhigh, BINValue) := bcd_loop 25 0 BINValue in u8 (bcdhigh .<< 4) .| BINValue.

Definition RTC_Bcd2ToBin (BCDValue : Z) : Z :=
  let tmp := u8 (((BCDValue .& 0xF0) .>> 0x04) * 10) in
  u8 (tmp + (BCDValue .& 0x0F)).

Lemma bcd_loop_done v : byte v -> (bcd_loop 25 0 v).2 = v mod 10.
Proof.
  intros Hv. apply Z.eqb_eq. refine (bin_check_sound (fun v => (bcd_loop 25 0 v).2 =? v mod 10) 8 0 v _ _); [vm_compute; reflexivity|].
  unfold byte in Hv. cbn. lia.
Qed.

(** Two decimal digits survive, also through a mask that keeps the digits of the largest value. *)
Definition bcd_okb (mask hi v : Z) : bool :=
  (hi <? v) || ((RTC_Bcd2ToBin (RTC_BinToBcd2 v .& mask) =? v) && (RTC_BinToBcd2 v .& mask =? RTC_BinToBcd2 v) && (RTC_BinToBcd2 v <? 256)).

Lemma bcd_roundtrip mask hi v :
  bin_check (bcd_okb mask hi) 8 0 = true -> 0 <= v <= hi -> hi < 256 ->
  RTC_Bcd2ToBin (RTC_BinToBcd2 v .& mask) = v /\ RTC_BinToBcd2 v .& mask = RTC_BinToBcd2 v.
Proof.
  intros H Hv Hh. apply (bin_check_sound _ _ _ v) in H; [|cbn; lia]. unfold bcd_okb in H.
  destruct (Z.ltb_spec hi v); [lia|]. cbn [orb] in H. rewrite !andb_true_iff, !Z.eqb_eq in H. tauto.
Qed.

Lemma bcd_byte v : byte v -> byte (RTC_BinToBcd2 v).
Proof.
  intros Hv. unfold byte at 1.
  pose proof (bin_check_sound (fun v => (0 <=? RTC_BinToBcd2 v) && (RTC_BinToBcd2 v <? 256)) 8 0 v) as H.
  cbv beta in H. rewrite andb_true_iff, Z.leb_le, Z.ltb_lt in H. apply H; [vm_compute; reflexivity|]. unfold byte in Hv. cbn. lia.
Qed.

(** ** Registers, time, date, alarm, timer *)

Abbreviation PCF_Format_BIN := 1.
Abbreviation PCF_Format_BCD := 2.
Abbreviation PCF_Mode_Normal := 5.
Abbreviation PCF_Mode_EXT_CLK := 6.
Abbreviation PCF8563_PowerResetEnable := 0x08.
Abbreviation PCF8563_PowerResetDisable := 0x09.
Abbreviation PCF8563_Check_Data := 0x55.
Abbreviation PCF_Timer_Close := 0x7f.
Abbreviation PCF_Timer_Open := 0x80.
Abbreviation PCF_Time_INT_Open := 0x01.
Abbreviation PCF_Time_INT_Close := 0xfe.
Abbreviation PCF_Alarm_INT_Open := 0x02.
Abbreviation PCF_Alarm_INT_Close := 0xfd.
Abbreviation PCF_Control_ClearAF := 0xf7.

Abbreviation RT_DEVICE_CTRL_RTC_GET_TIME := 0x10.
Abbreviation RT_DEVICE_CTRL_RTC_SET_TIME := 0x11.

(** [_PCF8563_Register_Typedef]: the sixteen bytes in the order of the registers. *)
Abbreviation Control_Status_1 := 0%nat.
Abbreviation Control_Status_2 := 1%nat.
Abbreviation Seconds := 2%nat.
Abbreviation Minutes := 3%nat.
Abbreviation Hours := 4%nat.
Abbreviation Days := 5%nat.
Abbreviation WeekDays := 6%nat.
Abbreviation Months_Century := 7%nat.
Abbreviation Years := 8%nat.
Abbreviation Minute_Alarm := 9%nat.
Abbreviation Hour_Alarm := 10%nat.
Abbreviation Day_Alarm := 11%nat.
Abbreviation WeekDays_Alarm := 12%nat.
Abbreviation CLKOUT_Frequency := 13%nat.
Abbreviation Timer_Control := 14%nat.

Definition upd (i : nat) (f : Z -> Z) (l : list Z) : list Z := <[i := f (nth i l 0)]> l.
Definition upd_all (ks : list nat) (f : Z -> Z) (l : list Z) : list Z := foldl (fun l i => upd i f l) l ks.

Record Time_Typedef : Type := Time { RTC_Hours : Z; RTC_Minutes : Z; RTC_Seconds : Z }.
Record Date_Typedef : Type := Date { RTC_Years : Z; RTC_Months : Z; RTC_WeekDays : Z; RTC_Days : Z }.
Record Alarm_Typedef : Type := Alarm {
  RTC_AlarmDays : Z; RTC_AlarmWeekDays : Z; RTC_AlarmHours : Z; RTC_AlarmMinutes : Z;
  RTC_AlarmNewState : Z; RTC_AlarmType : Z
}.
Record Timer_Typedef : Type := Timer {
  RTC_Timer_Value : Z; RTC_Timer_Frequency : Z; RTC_Timer_NewState : Z; RTC_Timer_Interrupt : Z
}.

(** [if (v > hi) v = dft]. *)
Definition or_default (v hi dft : Z) : Z := if hi <? v then dft else v.

Section Driver.
Context {X : undefined_bits} {U : stack_contents}.

Definition PCF8563_Check (b : bus rtc) : Z * bus rtc :=
  let '(ctrl, b) := PCF8563_Read_Byte 0x0e b in
  let '(Time_Count, b) :=
    if nz (ctrl .& 0x80) then PCF8563_Read_Byte 0x0f (PCF8563_Write_Byte 0x0e PCF_Timer_Close b) else (0, b) in
  let b := PCF8563_Write_Byte 0x0f PCF8563_Check_Data b in
  let '(test_value, b) := PCF8563_Read_Byte 0x0f b in
  let b := if nz Time_Count then b |> PCF8563_Write_Byte 0x0f Time_Count |> PCF8563_Write_Byte 0x0e PCF_Timer_Open else b in
  (if negb (test_value =? PCF8563_Check_Data) then 1 else 0, b).

Definition PCF8563_Start (b : bus rtc) : bus rtc :=
  let '(temp, b) := PCF8563_Read_Byte 0x00 b in
  let temp := if nz (temp .& 0x20) then temp .& 0xdf else temp in
  let temp := if (temp .& 0x80) =? 0 then temp .& 0xf7 else temp in
  PCF8563_Write_Byte 0x00 temp b.

Definition PCF8563_Stop (b : bus rtc) : bus rtc :=
  let '(temp, b) := PCF8563_Read_Byte 0x00 b in
  PCF8563_Write_Byte 0x00 (temp .| 0x20) b.

Definition PCF8563_SetMode (Mode : Z) (b : bus rtc) : bus rtc :=
  let '(temp, b) := PCF8563_Read_Byte 0x00 b in
  let temp := if Mode =? PCF_Mode_EXT_CLK then temp .| 0x80
              else if Mode =? PCF_Mode_Normal then (temp .& 0x7f) .& 0xf7 else temp in
  PCF8563_Write_Byte 0x00 temp b.

Definition PCF8563_SetPowerReset (NewState : Z) (b : bus rtc) : bus rtc :=
  let '(TestC, b) := PCF8563_Read_Byte 0x00 b in
  let TestC := TestC .& 0xf7 in
  let TestC := if NewState =? PCF8563_PowerResetEnable then TestC .| PCF8563_PowerResetEnable
               else if NewState =? PCF8563_PowerResetDisable then TestC .& 0xf7 else TestC in
  PCF8563_Write_Byte 0x00 TestC b.

Definition PCF8563_SetCLKOUT (CLKOUT_Frequency_ CLKOUT_NewState : Z) (b : bus rtc) : bus rtc :=
  let '(tmp, b) := PCF8563_Read_Byte 0x0d b in
  let tmp := tmp .& 0x7c in
  let tmp := if CLKOUT_NewState =? 0x80 then tmp .| 0x80 else tmp .& 0x7f in
  PCF8563_Write_Byte 0x0d (tmp .| CLKOUT_Frequency_) b.

Definition PCF8563_SetTimer (t : Timer_Typedef) (b : bus rtc) : bus rtc :=
  let '(Timer_Ctrl, b) := PCF8563_Read_Byte 0x0e b in
  let '(Timer_Value, b) := PCF8563_Read_Byte 0x0f b in
  let Timer_Ctrl := Timer_Ctrl .& PCF_Timer_Close in
  let b := PCF8563_Write_Byte 0x0e Timer_Ctrl b in
  let Timer_Ctrl := Timer_Ctrl .& 0x7c in
  let open := RTC_Timer_NewState t =? PCF_Timer_Open in
  let Timer_Value := if open && nz (RTC_Timer_Value t) then RTC_Timer_Value t else Timer_Value in
  let Timer_Ctrl := if open then Timer_Ctrl .| PCF_Timer_Open .| RTC_Timer_Frequency t else Timer_Ctrl .& PCF_Timer_Close in
  let b := PCF8563_Write_Byte 0x0f Timer_Value b in
  let '(Timer_Value, b) := PCF8563_Read_Byte 0x01 b in
  let Timer_Value :=
    if RTC_Timer_Interrupt t =? PCF_Time_INT_Open
    then Timer_Value .& PCF_Time_INT_Close .& 0xfb .& 0xef .| PCF_Time_INT_Open
    else Timer_Value .& PCF_Time_INT_Close .| PCF_Time_INT_Open in
  let b := PCF8563_Write_Byte 0x01 Timer_Value b in
  PCF8563_Write_Byte 0x0e Timer_Ctrl b.

Definition PCF8563_Set_Times (PCF_Format Year Month Date_ Week Hour Minute : Z) (b : bus rtc) : bus rtc :=
  let bin := PCF_Format =? PCF_Format_BIN in
  let conv v hi dft := if bin then RTC_BinToBcd2 (or_default v hi dft) else stack_byte in
  let seconds := 0x00 .& 0x7f in
  b |> PCF8563_Write_nByte 0x02 3 [seconds; conv Minute 59 0; conv Hour 23 0]
    |> PCF8563_Write_nByte 0x05 4 [conv Date_ 31 1; conv Week 6 1; conv Month 12 1; conv Year 99 0].

Definition IS_PCF8563_Data (l : list Z) : list Z :=
  l |> upd Years (fun v => or_default v 99 0)
    |> upd Months_Century (fun v => or_default v 12 1)
    |> upd Days (fun v => or_default v 31 1)
    |> upd WeekDays (fun v => or_default v 6 1)
    |> upd Hours (fun v => or_default v 23 0)
    |> upd Minutes (fun v => or_default v 59 0)
    |> upd Seconds (fun v => or_default v 59 0).

(** The members that are decimal. *)
Definition bcd_members : list nat :=
  [Years; Months_Century; Days; WeekDays; Hours; Minutes; Seconds; Day_Alarm; WeekDays_Alarm; Hour_Alarm; Minute_Alarm].

Definition PCF8563_SetRegister (PCF_Format : Z) (l : list Z) (b : bus rtc) : bus rtc :=
  let l := if PCF_Format =? PCF_Format_BIN then upd_all bcd_members RTC_BinToBcd2 (IS_PCF8563_Data l) else l in
  let l := upd_all [Timer_Control; CLKOUT_Frequency; WeekDays_Alarm; Day_Alarm; Hour_Alarm; Minute_Alarm] (fun v => v .& 0x7f) l in
  let l := upd Control_Status_2 (fun v => v .& 0xfc) l in
  PCF8563_Write_nByte 0x00 16 l b.

Definition shield (l : list Z) : list Z :=
  l |> upd Years (Z.land 0xff) |> upd Months_Century (Z.land 0x1f) |> upd Days (Z.land 0x3f) |> upd WeekDays (Z.land 0x07)
    |> upd Hours (Z.land 0x3f) |> upd Minutes (Z.land 0x7f) |> upd Seconds (Z.land 0x7f)
    |> upd Minute_Alarm (Z.land 0x7f) |> upd Hour_Alarm (Z.land 0x3f) |> upd Day_Alarm (Z.land 0x3f) |> upd WeekDays_Alarm (Z.land 0x07).

Definition PCF8563_GetRegister (PCF_Format : Z) (l : list Z) (b : bus rtc) : list Z * bus rtc :=
  let '(l, b) := PCF8563_Read_nByte 0x00 16 l b in
  let l := shield l in
  (if PCF_Format =? PCF_Format_BIN then upd_all bcd_members RTC_Bcd2ToBin l else l, b).

(** [buffer] is the file's array of ten bytes: what it holds is an argument and a result. *)

Definition PCF8563_SetTime (PCF_Format : Z) (t : Time_Typedef) (b : bus rtc) : bus rtc :=
  let t := if PCF_Format =? PCF_Format_BIN
           then Time (RTC_BinToBcd2 (or_default (RTC_Hours t) 23 0)) (RTC_BinToBcd2 (or_default (RTC_Minutes t) 59 0))
                  (RTC_BinToBcd2 (or_default (RTC_Seconds t) 59 0))
           else t in
  PCF8563_Write_nByte 0x02 3 [RTC_Seconds t; RTC_Minutes t; RTC_Hours t] b.

Definition PCF8563_GetTime (PCF_Format : Z) (t : Time_Typedef) (b : bus rtc) : Time_Typedef * bus rtc :=
  let '(buffer, b) := PCF8563_Read_nByte 0x02 3 (repeat 0 10) b in
  let buffer := buffer |> upd 0 (Z.land 0x7f) |> upd 1 (Z.land 0x7f) |> upd 2 (Z.land 0x3f) in
  let t := if PCF_Format =? PCF_Format_BIN
           then Time (RTC_Bcd2ToBin (nth 2 buffer 0)) (RTC_Bcd2ToBin (nth 1 buffer 0)) (RTC_Bcd2ToBin (nth 0 buffer 0))
           else if PCF_Format =? PCF_Format_BCD then Time (nth 2 buffer 0) (nth 1 buffer 0) (nth 0 buffer 0)
           else t in
  (t, b).

Definition PCF8563_SetDate (PCF_Format : Z) (d : Date_Typedef) (b : bus rtc) : bus rtc :=
  let d := if PCF_Format =? PCF_Format_BIN
           then Date (RTC_BinToBcd2 (or_default (RTC_Years d) 99 0)) (RTC_BinToBcd2 (or_default (RTC_Months d) 12 1))
                  (RTC_BinToBcd2 (or_default (RTC_WeekDays d) 6 1)) (RTC_BinToBcd2 (or_default (RTC_Days d) 31 1))
           else d in
  PCF8563_Write_nByte 0x05 4 [RTC_Days d; RTC_WeekDays d; RTC_Months d; RTC_Years d] b.

Definition PCF8563_GetDate (PCF_Format : Z) (d : Date_Typedef) (buffer : list Z) (b : bus rtc) : Date_Typedef * bus rtc :=
  let '(buffer, b) := PCF8563_Read_nByte 0x05 4 buffer b in
  let buffer := buffer |> upd 0 (Z.land 0x3f) |> upd 1 (Z.land 0x07) |> upd 2 (Z.land 0x1f) |> upd 3 (Z.land 0xff) in
  let d := if PCF_Format =? PCF_Format_BIN
           then Date (RTC_Bcd2ToBin (nth 3 buffer 0)) (RTC_Bcd2ToBin (nth 2 buffer 0)) (RTC_Bcd2ToBin (nth 1 buffer 0)) (RTC_Bcd2ToBin (nth 0 buffer 0))
           else if PCF_Format =? PCF_Format_BCD then Date (nth 3 buffer 0) (nth 2 buffer 0) (nth 1 buffer 0) (nth 0 buffer 0)
           else d in
  (d, b).

Definition with_type (t bit : Z) (f : Z -> Z) (v : Z) : Z := if nz (t .& bit) then f v else v.

Definition PCF8563_SetAlarm (PCF_Format : Z) (a : Alarm_Typedef) (b : bus rtc) : bus rtc :=
  let conv v hi dft := if PCF_Format =? PCF_Format_BIN then RTC_BinToBcd2 (or_default v hi dft) else v in
  let minutes := conv (RTC_AlarmMinutes a) 59 0 in
  let hours := conv (RTC_AlarmHours a) 23 0 in
  let days := conv (RTC_AlarmDays a) 31 1 in
  let weekdays := conv (RTC_AlarmWeekDays a) 6 1 in
  let Alarm_State := if RTC_AlarmNewState a =? 1 then 1 else if RTC_AlarmNewState a =? 4 then 2
                     else if RTC_AlarmNewState a =? 2 then 3 else 0 in
  let '(Alarm_Interrupt, b) := PCF8563_Read_Byte 0x01 b in
  let Alarm_Interrupt := Alarm_Interrupt .& PCF_Alarm_INT_Close .& PCF_Control_ClearAF in
  let b := PCF8563_Write_Byte 0x01 Alarm_Interrupt b in
  let enable := if (Alarm_State =? 1) || (Alarm_State =? 2) then (fun v => v .& 0x7f)
                else if Alarm_State =? 3 then (fun v => v .| 0x80) else (fun v => v) in
  let days := with_type (RTC_AlarmType a) 0x04 enable days in
  let hours := with_type (RTC_AlarmType a) 0x02 enable hours in
  let minutes := with_type (RTC_AlarmType a) 0x01 enable minutes in
  let weekdays := with_type (RTC_AlarmType a) 0x08 enable weekdays in
  let Alarm_Interrupt := if Alarm_State =? 2 then (Alarm_Interrupt .| PCF_Alarm_INT_Open) .& PCF_Control_ClearAF else Alarm_Interrupt in
  b |> PCF8563_Write_nByte 0x09 4 [minutes; hours; days; weekdays]
    |> PCF8563_Write_Byte 0x01 Alarm_Interrupt.

Definition PCF8563_GetAlarm (PCF_Format : Z) (a : Alarm_Typedef) (buffer : list Z) (b : bus rtc) : Alarm_Typedef * bus rtc :=
  let '(buffer, b) := PCF8563_Read_nByte 0x09 4 buffer b in
  let buffer := buffer |> upd 0 (Z.land 0x7f) |> upd 1 (Z.land 0x3f) |> upd 2 (Z.land 0x3f) |> upd 3 (Z.land 0x07) in
  let get f := Alarm (f (nth 2 buffer 0)) (f (nth 3 buffer 0)) (f (nth 1 buffer 0)) (f (nth 0 buffer 0)) (RTC_AlarmNewState a) (RTC_AlarmType a) in
  (if PCF_Format =? PCF_Format_BIN then get RTC_Bcd2ToBin else if PCF_Format =? PCF_Format_BCD then get (fun v => v) else a, b).

(** ** Seconds since 1970 *)

(** [regs]: what the uninitialised structure holds. *)
Definition pcf8563_GetCounter (regs : list Z) (b : bus rtc) : Z * bus rtc :=
  let '(l, b) := PCF8563_GetRegister PCF_Format_BIN regs b in
  let ti := Tm (nth Seconds l 0) (nth Minutes l 0) (nth Hours l 0) (nth Days l 0) (nth Months_Century l 0 - 1)
              (nth Years l 0 + 2000 - 1900) 0 0 in
  (s32 (mktime ti), b).

(** [localtime] is [gmtime] on this machine, which has no time zone. *)
Definition pcf8563_SetCounter (now : Z) (b : bus rtc) : option (bus rtc) :=
  ti ← gmtime_r now;
  let bcd v := RTC_BinToBcd2 (u8 v) in
  let l := [bcd (tm_sec ti); bcd (tm_min ti); bcd (tm_hour ti); bcd (tm_mday ti); bcd (tm_wday ti); bcd (tm_mon ti + 1);
            bcd (Z.rem (tm_year ti + 1900) 100)] in
  Some (b |> PCF8563_SetMode PCF_Mode_Normal |> PCF8563_Stop |> PCF8563_Write_nByte 0x02 7 l |> PCF8563_Start).

Definition PCF8563_Config (b : bus rtc) : Z * bus rtc :=
  let b := IIC_GPIO_Init b in
  let '(_, b) := PCF8563_Check b in
  let b := b |> PCF8563_SetMode PCF_Mode_Normal |> PCF8563_Stop |> PCF8563_Start in
  let '(t, b) := PCF8563_GetTime PCF_Format_BCD (Time 5 6 7) b in
  let '(_, b) := PCF8563_GetDate PCF_Format_BCD (Date 19 1 3 9) [RTC_Seconds t; RTC_Minutes t; RTC_Hours t; 0; 0; 0; 0; 0; 0; 0] b in
  (0, b).

(** drivers/rtc_bsp.c *)

(** The time read (or the argument) and the bus. *)
Definition rt_rtc_control (regs : list Z) (cmd args : Z) (b : bus rtc) : option (Z * bus rtc) :=
  if cmd =? RT_DEVICE_CTRL_RTC_GET_TIME then
    let '(v, b) := pcf8563_GetCounter regs b in Some (u32 v, b)
  else if cmd =? RT_DEVICE_CTRL_RTC_SET_TIME then b ← pcf8563_SetCounter args b; Some (args, b)
  else Some (args, b).

(** The commands of the shell that set date and time; [regs] as above. *)
Definition set_date (regs : list Z) (year month day : Z) (b : bus rtc) : option (Z * bus rtc) :=
  '(now, b) ← rt_rtc_control regs RT_DEVICE_CTRL_RTC_GET_TIME 0 b;
  ti ← gmtime_r now;
  let ti := Tm (tm_sec ti) (tm_min ti) (tm_hour ti) day (s32 (month - 1)) (s32 (year - 1900)) (tm_wday ti) (tm_yday ti) in
  rt_rtc_control regs RT_DEVICE_CTRL_RTC_SET_TIME (mktime ti) b.

Definition set_time (regs : list Z) (hour minute second : Z) (b : bus rtc) : option (Z * bus rtc) :=
  '(now, b) ← rt_rtc_control regs RT_DEVICE_CTRL_RTC_GET_TIME 0 b;
  ti ← gmtime_r now;
  let ti := Tm second minute hour (tm_mday ti) (tm_mon ti) (tm_year ti) (tm_wday ti) (tm_yday ti) in
  rt_rtc_control regs RT_DEVICE_CTRL_RTC_SET_TIME (u32 (mktime ti - 28800)) b.

End Driver.

(** ** The clock keeps the time it was given *)

Lemma reg_read_bit {X : undefined_bits} r a j :
  0 <= j < 8 -> Z.testbit (reg_bits a) j = true -> Z.testbit (reg_read r a) j = Z.testbit (r a) j.
Proof.
  intros Hj Hb. unfold reg_read. rewrite u8_testbit, Z.lor_spec, !Z.land_spec, Z.lnot_spec, Hb by lia. cbn [negb].
  by rewrite andb_true_r, andb_false_r, orb_false_r.
Qed.

(** The driver's masks hide the undefined bits of a register. *)
Lemma shielded {X : undefined_bits} s r a :
  byte s -> s .& (.~ reg_bits a) = 0 -> Z.land s (reg_read r a) = Z.land s (r a).
Proof.
  intros Hs Hm. apply Z.bits_inj'. intros j Hj. rewrite !Z.land_spec. destruct (Z.testbit s j) eqn:Es; [|done]. cbn [andb].
  destruct (Z.lt_ge_cases j 8); [|by rewrite byte_high in Es]. apply reg_read_bit; [lia|].
  apply (f_equal (fun z => Z.testbit z j)) in Hm. rewrite Z.land_spec, Z.lnot_spec, Z.bits_0, Es in Hm by lia.
  by destruct (Z.testbit (reg_bits a) j).
Qed.

Section Keeping.
Context {X : undefined_bits} {U : stack_contents}.

Lemma GetRegister_fields regs r p : exists l p',
  PCF8563_GetRegister PCF_Format_BIN regs (idle (at_rest r p)) = (l, idle (at_rest r p')) /\
  nth Seconds l 0 = RTC_Bcd2ToBin (Z.land 0x7f (reg_read r 2)) /\
  nth Minutes l 0 = RTC_Bcd2ToBin (Z.land 0x7f (reg_read r 3)) /\
  nth Hours l 0 = RTC_Bcd2ToBin (Z.land 0x3f (reg_read r 4)) /\
  nth Days l 0 = RTC_Bcd2ToBin (Z.land 0x3f (reg_read r 5)) /\
  nth Months_Century l 0 = RTC_Bcd2ToBin (Z.land 0x1f (reg_read r 7)) /\
  nth Years l 0 = RTC_Bcd2ToBin (Z.land 0xff (reg_read r 8)).
Proof.
  unfold PCF8563_GetRegister. destruct (Read_nByte_spec 0 15 regs r p) as [p' E]; [done|].
  change (Z.of_nat 16) with 16 in E. rewrite E. eexists _, p'. split; [reflexivity|]. repeat split; reflexivity.
Qed.

(** Control register 1 with its undefined bits: what the mode, stop and start functions make of it. *)
Lemma reg_read_byte r a : byte (reg_read r a).
Proof. apply u8_range. Qed.

Lemma SetMode_spec r p : exists p',
  PCF8563_SetMode PCF_Mode_Normal (idle (at_rest r p)) = idle (at_rest (put_reg 0 (reg_read r 0 .& 0x7f .& 0xf7) r) p').
Proof.
  unfold PCF8563_SetMode. destruct (Read_Byte_spec 0 r p) as [p1 ->]; [done|]. cbv beta iota. change (0 mod 16) with 0.
  change (PCF_Mode_Normal =? PCF_Mode_EXT_CLK) with false. change (PCF_Mode_Normal =? PCF_Mode_Normal) with true. cbv iota.
  apply (Write_Byte_spec 0); [done|]. by do 2 apply byte_land; apply reg_read_byte.
Qed.

Lemma Stop_spec r p : exists p',
  PCF8563_Stop (idle (at_rest r p)) = idle (at_rest (put_reg 0 (reg_read r 0 .| 0x20) r) p').
Proof.
  unfold PCF8563_Stop. destruct (Read_Byte_spec 0 r p) as [p1 ->]; [done|]. apply (Write_Byte_spec 0); [done|].
  apply byte_lor; [apply reg_read_byte|done].
Qed.

(** The control word that starts the clock. *)
Definition started (temp : Z) : Z :=
  let temp := if nz (temp .& 0x20) then temp .& 0xdf else temp in
  if (temp .& 0x80) =? 0 then temp .& 0xf7 else temp.

Lemma Start_spec r p : exists p',
  PCF8563_Start (idle (at_rest r p)) = idle (at_rest (put_reg 0 (started (reg_read r 0)) r) p').
Proof.
  unfold PCF8563_Start. destruct (Read_Byte_spec 0 r p) as [p1 ->]; [done|]. apply (Write_Byte_spec 0); [done|].
  unfold started. repeat case_match; repeat apply byte_land; apply reg_read_byte.
Qed.

(** The chip runs in its normal mode: test mode, stop and power-on reset are off. *)
Definition runs (r : Z -> Z) : Prop := r 0 .& 0xa8 = 0.

Lemma started_runs temp : Z.testbit temp 7 = false -> started temp .& 0xa8 = 0.
Proof.
  intros H7. unfold started. change 0x20 with (1 .<< 5). rewrite land_pow2 by lia.
  set (t := if Z.testbit temp 5 then temp .& 0xdf else temp).
  assert (Ht : Z.testbit t 7 = false /\ Z.testbit t 5 = false).
  { unfold t. destruct (Z.testbit temp 5) eqn:E5; rewrite ?Z.land_spec, ?H7; by rewrite ?andb_false_r. }
  assert (E : (t .& 0x80 =? 0) = true).
  { pose proof (land_pow2 t 7 ltac:(lia)) as H. rewrite (proj1 Ht) in H. unfold nz in H. by apply negb_false_iff in H. }
  rewrite E. apply Z.bits_inj'. intros j Hj. rewrite !Z.land_spec, Z.bits_0.
  destruct (Z.lt_ge_cases j 8); [|by rewrite (byte_high 0xa8), andb_false_r].
  assert (j = 0 \/ j = 1 \/ j = 2 \/ j = 3 \/ j = 4 \/ j = 5 \/ j = 6 \/ j = 7) as Hc by lia.
  destruct Ht as [T7 T5]. destruct Hc as [->|[->|[->|[->|[->|[->|[->| ->]]]]]]]; rewrite ?T7, ?T5; by rewrite ?andb_false_r.
Qed.

(** Reading back a decimal value through a register's mask. *)
Lemma bcd_kept mask hi r a v :
  bin_check (bcd_okb mask hi) 8 0 = true -> byte mask -> mask .& (.~ reg_bits a) = 0 ->
  r a = RTC_BinToBcd2 v -> 0 <= v <= hi -> hi < 256 -> RTC_Bcd2ToBin (Z.land mask (reg_read r a)) = v.
Proof.
  intros Hc Hm Hb Hr Hv Hh. rewrite shielded, Hr, Z.land_comm by done. by apply (bcd_roundtrip mask hi).
Qed.

Lemma okb_59 : bin_check (bcd_okb 0x7f 59) 8 0 = true.
Proof. vm_compute. reflexivity. Qed.
Lemma okb_23 : bin_check (bcd_okb 0x3f 23) 8 0 = true.
Proof. vm_compute. reflexivity. Qed.
Lemma okb_31 : bin_check (bcd_okb 0x3f 31) 8 0 = true.
Proof. vm_compute. reflexivity. Qed.
Lemma okb_12 : bin_check (bcd_okb 0x1f 12) 8 0 = true.
Proof. vm_compute. reflexivity. Qed.
Lemma okb_99 : bin_check (bcd_okb 0xff 99) 8 0 = true.
Proof. vm_compute. reflexivity. Qed.

Lemma put_reg_ne x v r a : x <> a -> put_reg x v r a = r a.
Proof. intros. unfold put_reg. by destruct (Z.eqb_spec x a). Qed.

(** Registers below and above those that are written. *)
Lemma put_regs_ne l : forall x r a,
  0 <= x -> x + Z.of_nat (length l) <= 16 -> a < x \/ x + Z.of_nat (length l) <= a -> put_regs x l r a = r a.
Proof.
  induction l as [|v l IH]; intros x r a H0 Hx Ha; [done|]. cbn [put_regs length] in *.
  destruct l as [|v' l']; [cbn [put_regs]; apply put_reg_ne; cbn in Ha; lia|].
  rewrite Z.mod_small by (cbn [length] in *; lia). rewrite IH by (cbn [length] in *; lia). apply put_reg_ne. cbn [length] in *. lia.
Qed.

(** The seven registers of time and date hold a broken-down time. *)
Definition holds_tm (r : Z -> Z) (ti : tm) : Prop :=
  r 2 = RTC_BinToBcd2 (tm_sec ti) /\ r 3 = RTC_BinToBcd2 (tm_min ti) /\ r 4 = RTC_BinToBcd2 (tm_hour ti) /\
  r 5 = RTC_BinToBcd2 (tm_mday ti) /\ r 7 = RTC_BinToBcd2 (tm_mon ti + 1) /\ r 8 = RTC_BinToBcd2 (tm_year ti - 100).

Lemma GetCounter_holds regs r p ti :
  holds_tm r ti -> 0 <= tm_sec ti < 60 -> 0 <= tm_min ti < 60 -> 0 <= tm_hour ti < 24 -> 1 <= tm_mday ti <= 31 -> 0 <= tm_mon ti < 12 ->
  2000 <= tm_year ti + 1900 < 2100 -> exists p',
  pcf8563_GetCounter regs (idle (at_rest r p)) = (s32 (mktime ti), idle (at_rest r p')).
Proof.
  intros (R2 & R3 & R4 & R5 & R7 & R8) Hs Hm Hh Hd Hmo Hy. unfold pcf8563_GetCounter.
  destruct (GetRegister_fields regs r p) as (l & p' & -> & F2 & F3 & F4 & F5 & F7 & F8). exists p'. f_equal.
  rewrite (bcd_kept 0x7f 59 _ _ (tm_sec ti) okb_59) in F2 by (done || lia).
  rewrite (bcd_kept 0x7f 59 _ _ (tm_min ti) okb_59) in F3 by (done || lia).
  rewrite (bcd_kept 0x3f 23 _ _ (tm_hour ti) okb_23) in F4 by (done || lia).
  rewrite (bcd_kept 0x3f 31 _ _ (tm_mday ti) okb_31) in F5 by (done || lia).
  rewrite (bcd_kept 0x1f 12 _ _ (tm_mon ti + 1) okb_12) in F7 by (done || lia).
  rewrite (bcd_kept 0xff 99 _ _ (tm_year ti - 100) okb_99) in F8 by (done || lia).
  rewrite F2, F3, F4, F5, F7, F8. unfold mktime. cbn [tm_sec tm_min tm_hour tm_mday tm_mon tm_year].
  replace (tm_year ti - 100 + 2000 - 1900) with (tm_year ti) by lia. by replace (tm_mon ti + 1 - 1) with (tm_mon ti) by lia.
Qed.

Lemma SetCounter_spec r p now ti :
  gmtime_r now = Some ti -> 0 <= tm_sec ti < 60 -> 0 <= tm_min ti < 60 -> 0 <= tm_hour ti < 24 -> 1 <= tm_mday ti <= 31 ->
  0 <= tm_mon ti < 12 -> 0 <= tm_wday ti < 7 -> 2000 <= tm_year ti + 1900 < 2100 -> exists r' p',
  pcf8563_SetCounter now (idle (at_rest r p)) = Some (idle (at_rest r' p')) /\ holds_tm r' ti /\ runs r' /\
  (forall a, a = 1 \/ 9 <= a -> r' a = r a).
Proof.
  intros E Hs Hm Hh Hd Hmo Hw Hy. unfold pcf8563_SetCounter. rewrite E. cbn [mbind option_bind].
  rewrite !u8_small by (rewrite ?Z.rem_mod_nonneg by lia; Z.div_mod_to_equations; lia).
  replace (Z.rem (tm_year ti + 1900) 100) with (tm_year ti - 100) by (rewrite Z.rem_mod_nonneg by lia; Z.div_mod_to_equations; lia).
  destruct (SetMode_spec r p) as [p1 ->]. set (r1 := put_reg 0 _ r). destruct (Stop_spec r1 p1) as [p2 ->]. set (r2 := put_reg 0 _ r1).
  set (l := [_; _; _; _; _; _; _]). destruct (Write_nByte_spec 2 7 l r2 p2) as [p3 ->].
  { done. } { unfold bytes, l. repeat constructor; apply bcd_byte; unfold byte; lia. }
  change (2 mod 16) with 2. change (take (Z.to_nat 7) l) with l. set (r3 := put_regs 2 l r2).
  destruct (Start_spec r3 p3) as [p4 ->]. exists (put_reg 0 (started (reg_read r3 0)) r3), p4.
  split; [done|]. split; [by repeat split|]. split.
  - apply started_runs. rewrite reg_read_bit by done. change (r3 0) with (reg_read r1 0 .| 0x20). rewrite Z.lor_spec.
    rewrite reg_read_bit by done. change (r1 0) with (reg_read r 0 .& 0x7f .& 0xf7). by rewrite !Z.land_spec, !andb_false_r.
  - intros a Ha. rewrite put_reg_ne by lia. unfold r3. rewrite put_regs_ne by (cbn; lia). unfold r2, r1. by rewrite !put_reg_ne by lia.
Qed.

(** C18: The clock keeps the time it is given.  Setting any time from 2000 to 2099 over the
    two-wire bus leaves the chip running in its normal mode with its other registers unchanged,
    and reading the time back returns the same second, whatever the chip held before and
    whatever its unused register bits read as. *)
Theorem clock_roundtrip regs r p now :
  946684800 <= now < 4102444800 -> exists r' p' p'',
  rt_rtc_control regs RT_DEVICE_CTRL_RTC_SET_TIME now (idle (at_rest r p)) = Some (now, idle (at_rest r' p')) /\
  runs r' /\ (forall a, a = 1 \/ 9 <= a -> r' a = r a) /\
  rt_rtc_control regs RT_DEVICE_CTRL_RTC_GET_TIME 0 (idle (at_rest r' p')) = Some (now, idle (at_rest r' p'')).
Proof.
  intros Hn. destruct (gmtime_r_spec now) as (ti & E & Ek & Hs & Hm & Hh & Hd & Hmo & Hw & Hy); [lia|].
  specialize (Hy 2000 2100 ltac:(lia) Hn).
  destruct (SetCounter_spec r p now ti) as (r' & p' & E1 & Ht & Hr & Ho); [done..|].
  destruct (GetCounter_holds regs r' p' ti) as (p'' & E2); [done..|]. exists r', p', p''.
  unfold rt_rtc_control. change (RT_DEVICE_CTRL_RTC_SET_TIME =? RT_DEVICE_CTRL_RTC_GET_TIME) with false.
  change (RT_DEVICE_CTRL_RTC_SET_TIME =? RT_DEVICE_CTRL_RTC_SET_TIME) with true.
  change (RT_DEVICE_CTRL_RTC_GET_TIME =? RT_DEVICE_CTRL_RTC_GET_TIME) with true. cbv iota.
  split; [rewrite E1; reflexivity|]. split; [exact Hr|]. split; [exact Ho|].
  rewrite E2, Ek. cbv beta iota. do 2 f_equal. cast_lia.
Qed.

End Keeping.

Lemma clock_roundtrip_witness :
  let X : undefined_bits := fun _ => 0xff in
  let U : stack_contents := 0 in
  exists r' p' p'', rt_rtc_control [] RT_DEVICE_CTRL_RTC_SET_TIME 1546300800 (idle (at_rest (fun _ => 0) 0)) = Some (1546300800, idle (at_rest r' p')) /\
    r' 8 = 0x19 /\
    rt_rtc_control [] RT_DEVICE_CTRL_RTC_GET_TIME 0 (idle (at_rest r' p')) = Some (1546300800, idle (at_rest r' p'')).
Proof.
  intros X U. destruct (clock_roundtrip [] (fun _ => 0) 0 1546300800) as (r' & p' & p'' & E1 & _ & _ & E2); [lia|].
  exists r', p', p''. split; [exact E1|]. split; [|exact E2].
  assert (r' 8 = match rt_rtc_control [] RT_DEVICE_CTRL_RTC_SET_TIME 1546300800 (idle (at_rest (fun _ => 0) 0)) with
                 | Some (_, b) => r_reg (dev b) 8 | None => 0 end) as -> by (by rewrite E1).
  vm_compute. reflexivity.
Defined.

(** ** Further properties of the driver *)

Section More.
Context {X : undefined_bits} {U : stack_contents}.

Lemma or_default_bound v hi dft : 0 <= v -> 0 <= dft <= hi -> 0 <= or_default v hi dft <= hi.
Proof. intros. unfold or_default. destruct (Z.ltb_spec hi v); lia. Qed.

(** Time and date set in binary are read back, with values out of range replaced by their defaults. *)
Lemma time_roundtrip h m s t0 r p :
  byte h -> byte m -> byte s -> exists p',
  PCF8563_GetTime PCF_Format_BIN t0 (PCF8563_SetTime PCF_Format_BIN (Time h m s) (idle (at_rest r p))) =
  (Time (or_default h 23 0) (or_default m 59 0) (or_default s 59 0),
   idle (at_rest (put_regs 2 [RTC_BinToBcd2 (or_default s 59 0); RTC_BinToBcd2 (or_default m 59 0); RTC_BinToBcd2 (or_default h 23 0)] r) p')).
Proof.
  intros [Hh _] [Hm _] [Hs _].
  pose proof (or_default_bound h 23 0 Hh ltac:(lia)). pose proof (or_default_bound m 59 0 Hm ltac:(lia)).
  pose proof (or_default_bound s 59 0 Hs ltac:(lia)). unfold PCF8563_SetTime, PCF8563_GetTime.
  change (PCF_Format_BIN =? PCF_Format_BIN) with true. cbn [RTC_Hours RTC_Minutes RTC_Seconds]. cbv iota.
  generalize dependent (or_default h 23 0). generalize dependent (or_default m 59 0). generalize dependent (or_default s 59 0). intros vs Bs vm Bm vh Bh.
  destruct (Write_nByte_spec 2 3 [RTC_BinToBcd2 vs; RTC_BinToBcd2 vm; RTC_BinToBcd2 vh] r p) as [p1 ->].
  { done. } { unfold bytes. repeat constructor; apply bcd_byte; unfold byte; lia. }
  change (2 mod 16) with 2. change (take (Z.to_nat 3) ?l) with l. set (r1 := put_regs 2 _ r).
  destruct (Read_nByte_spec 2 2 (repeat 0 10) r1 p1) as [p2 E]; [done|]. change (Z.of_nat 3) with 3 in E. rewrite E. exists p2. f_equal.
  assert (E4 : RTC_Bcd2ToBin (Z.land 0x3f (reg_read r1 4)) = vh) by (apply (bcd_kept _ 23 _ _ _ okb_23); [split; lia|reflexivity|reflexivity|lia|lia]).
  assert (E3 : RTC_Bcd2ToBin (Z.land 0x7f (reg_read r1 3)) = vm) by (apply (bcd_kept _ 59 _ _ _ okb_59); [split; lia|reflexivity|reflexivity|lia|lia]).
  assert (E2 : RTC_Bcd2ToBin (Z.land 0x7f (reg_read r1 2)) = vs) by (apply (bcd_kept _ 59 _ _ _ okb_59); [split; lia|reflexivity|reflexivity|lia|lia]).
  rewrite <- E4, <- E3, <- E2. reflexivity.
Qed.

(** An answering chip passes the check, which leaves 0x55 in the timer register. *)
Lemma Check_answering r p :
  r 0x0e .& 0x80 = 0 -> exists p',
  PCF8563_Check (idle (at_rest r p)) = (0, idle (at_rest (put_reg 0x0f PCF8563_Check_Data r) p')).
Proof.
  intros Hr. unfold PCF8563_Check. destruct (Read_Byte_spec 0x0e r p) as [p1 ->]; [done|]. cbv beta iota.
  change (0x0e mod 16) with 0x0e. rewrite (Z.land_comm (reg_read r 14)), shielded, Z.land_comm, Hr by done.
  change (nz 0) with false. cbv iota beta.
  destruct (Write_Byte_spec 0x0f PCF8563_Check_Data r p1) as [p2 ->]; [done..|]. change (0x0f mod 16) with 0x0f.
  destruct (Read_Byte_spec 0x0f (put_reg 0x0f PCF8563_Check_Data r) p2) as [p3 ->]; [done|]. cbv beta iota.
  change (nz 0) with false. cbv iota. exists p3. f_equal.
  assert (E : reg_read (put_reg 0x0f PCF8563_Check_Data r) (0x0f mod 16) = Z.land 0xff (reg_read (put_reg 0x0f PCF8563_Check_Data r) 0x0f)).
  { change (0x0f mod 16) with 0x0f. change 0xff with (Z.ones 8). rewrite Z.land_comm, Z.land_ones by lia.
    rewrite Z.mod_small; [done|]. apply reg_read_byte. }
  rewrite E, shielded by done. reflexivity.
Qed.

(** The time read from a chip that does not answer is made of whatever the stack held. *)
Lemma silent_clock c :
  r_deaf c = true ->
  (pcf8563_GetCounter (repeat 0x11 16) (idle c)).1 <> (pcf8563_GetCounter (repeat 0x12 16) (idle c)).1.
Proof.
  intros Hc. unfold pcf8563_GetCounter, PCF8563_GetRegister.
  rewrite !(proj2 (proj2 (proj2 (deaf_transfers c _ 0 _ _ Hc)))). vm_compute. discriminate.
Qed.

End More.

(** [set_time] keeps the date of Greenwich but takes a local time: at four in the morning of
    10 January local time (20:00 on the 9th in Greenwich), setting the clock to five o'clock
    sets it to five o'clock of the 9th. *)
Lemma set_time_wrong_day :
  let X : undefined_bits := fun _ => 0 in
  let U : stack_contents := 0 in
  let local t := match gmtime_r (t + 28800) with Some r => (tm_mday r, tm_hour r) | None => (0, 0) end in
  let now b := match rt_rtc_control [] RT_DEVICE_CTRL_RTC_GET_TIME 0 b with Some (t, _) => local t | None => (0, 0) end in
  match rt_rtc_control [] RT_DEVICE_CTRL_RTC_SET_TIME 1547064000 (idle (at_rest (fun _ => 0) 0)) with
  | Some (_, b) => now b = (10, 4) /\ match set_time [] 5 0 0 b with Some (_, b') => now b' = (9, 5) | None => False end
  | None => False
  end.
Proof. vm_compute. split; reflexivity. Qed.
