(* ===== verification/Machine.v ===== *)
(** * The machine: global C objects, statements and footprints

    The firmware keeps its state in a few global structures ([g_sys], [l_sys],
    [alarm_inst], function statics, driver tables).  A C object is a [cell]: a field,
    named after the C member, with up to two array indices.  A [world] maps cells to
    integers and holds the parts of the state that are not integers (the alarm chain,
    the log FIFOs, the EEPROM, the queued and sent bytes of the serial ports).  Statements are
    functions on worlds, written with the combinators below so that they read like
    the source; the value of an object in an expression is [«c»]. *)

From S2P Require Import Prelude Conf Fifo.

(** ** Cells *)

Inductive field : Type :=
  (* g_sys.config.general *)
  | general_surv_baudrate | general_surv_addr | general_diagnose_mode_en |
  general_alarm_bypass_en | general_testing_mode_en | general_power_mode_mb_en |
  general_alarm_remove_bitmap | general_ntc_cali | general_ai_cali |
  general_temp_sensor_cali_temp | general_temp_sensor_cali_hum
  (* g_sys.config.dev_mask *)
  | dev_mask_ain | dev_mask_din | dev_mask_din_pusl | dev_mask_aout | dev_mask_dout |
  dev_mask_mb_comp | dev_mask_din_bitmap_polarity
  (* g_sys.config.alarm[i] *)
  | alarm_enable_mode | alarm_alarm_param
  (* g_sys.config.ComPara *)
  | ComPara_u16Net_Sel | ComPara_u16Net_WifiSet | ComPara_u16Wifi_Name |
  ComPara_u16Wifi_Password | ComPara_u16SN_Code | ComPara_u16M_Type | ComPara_u16Power_Mode |
  ComPara_u16TH_Interal | ComPara_u16Start_Temp | ComPara_u16Start_Humidity |
  ComPara_u16Stop_Temp | ComPara_u16Stop_Humidity | ComPara_u16Start_Defrost_Temp |
  ComPara_u16Stop_Defrost_Temp | ComPara_u16Sterilize_Mode | ComPara_u16Sterilize_Time |
  ComPara_u16Sterilize_Interval | ComPara_u16UV_Delay | ComPara_u16Water_Ctrl |
  ComPara_u16Water_Mode | ComPara_u16Water_Flow | ComPara_u16NormalWater_Temp |
  ComPara_u16HotWater_Temp | ComPara_u16HotWater_Cali | ComPara_u16ExitWater_Mode |
  ComPara_u16Disinfection_Mode | ComPara_u16Reset | ComPara_u16Test_Mode_Type |
  ComPara_u16Manual_Test_En | ComPara_u16TPower_En | ComPara_u16TPower_On |
  ComPara_u16TPower_Off | ComPara_u16FILTER_ELEMENT_Type | ComPara_u16Clear_RT |
  ComPara_u16Clear_ALARM | ComPara_u16Set_Time | ComPara_u16Start_Delay |
  ComPara_u16Fan_Stop_Delay | ComPara_u16Comp_Interval | ComPara_u16ColdWater_Mode |
  ComPara_u16ColdWater_StartTemp | ComPara_u16ColdWater_StopTemp |
  ComPara_u16HeatFan_StartTemp | ComPara_u16HeatFan_StopTemp | ComPara_u16WaterFlow |
  ComPara_u16Storage | ComPara_u16StorageDealy | ComPara_u16CloseFrist | ComPara_u16CloseDelay
  | ComPara_u16LN_Enable | ComPara_u16LN_Mode | ComPara_u16LN_Time | ComPara_u16LN_Fan |
  ComPara_u16TestEV | ComPara_u16Heater_PM25 | ComPara_device_info
  (* g_sys.config.fan *)
  | fan_type | fan_mode | fan_adjust_step | fan_set_speed | fan_min_speed | fan_max_speed |
  fan_noload_down
  (* g_sys.config.compressor *)
  | compressor_startup_delay | compressor_stop_delay | compressor_min_runtime |
  compressor_min_stoptime | compressor_startup_lowpress_shield
  (* g_sys.config.Platform *)
  | Platform_Fixed_Report | Platform_Real_Report | Platform_Restart_Enable |
  Platform_Restart_Delay | Platform_Net_ERR
  (* g_sys.status *)
  | status_permission_level | status_aout | status_din_bitmap | status_dout_bitmap |
  status_status_remap | status_alarm_bitmap | status_Alarm_COM_NTC_BIT | status_pwr_off_alarm
  | status_critical_cnt | status_major_cnt | status_mioor_cnt | status_total_cnt
  (* g_sys.status.ComSta *)
  | ComSta_u16Hardware_ver | ComSta_u16Software_ver | ComSta_u16Status_remap |
  ComSta_u16Din_bitmap | ComSta_u16Dout_bitmap | ComSta_u16Alarm_bitmap | ComSta_u16Ain |
  ComSta_u16AO | ComSta_u16TH_Temp | ComSta_u16TH_Hum | ComSta_u16Pluse_CNT |
  ComSta_u16Cur_Water | ComSta_u16Last_Water | ComSta_u16Cumulative_Water | ComSta_u16PM25 |
  ComSta_u16TDS | ComSta_u16Runtime | ComSta_u16WL | ComSta_Sys_Time_Hour |
  ComSta_Sys_Time_Min | ComSta_TEST | ComSta_REQ_TEST | ComSta_net_status
  (* l_sys (local_reg_st) *)
  | l_bitmap | l_ao_list | l_comp_timeout | l_authen_cd | l_debug_flag | l_debug_tiemout |
  l_l_fsm_state | l_Fan_Gear | l_Fan_Close | l_Comp_Close | l_Water_Full | l_Pwp_Open |
  l_Pwp_Open_Time | l_Sterilize | l_OutWater_Flag | l_OutWater_OK | l_HeatWater_st |
  l_HeatWater_Flow | l_HeatWater_Time | l_Cold_Water | l_Cold_Delay | l_u16BD_Time |
  l_u16BD_FAN_Delay | l_SEL_Jump | l_comp_startup_interval | l_comp_stop_interval |
  l_PowerOn_Time | l_TH_Check_Interval | l_TH_Check_Delay | l_Set_Systime_Flag |
  l_Set_Systime_Delay | l_OutWater_Key | l_OutWater_Delay | l_ChildLock_Key | l_ChildLock_Cnt
  | l_u16Uart_Timeout | l_u8RSInteral_Neterr | l_u8CloseDelay | l_u16UV_Delay | l_u32WaterFlow
  | l_u8Storage_Status | l_u8Storage_Fsm
  (* alarm_inst.alarm_sts[i], alarm_inst.alarm_lock[i] (alarm_calc.c) *)
  | acl_id | acl_state | acl_alram_value | acl_timeout | acl_enable_mask | acl_reset_mask |
  acl_alarm_level | acl_dev_type | lock_time | lock_last_state | lock_flag | cycle_flag |
  cycle_compress_state | cycle_start_time | compress_high_flag | alarm_fan_timer |
  alarm_compressor1_timer | alarm_compressor2_timer
  (* function statics *)
  | alarm_acl_exe_u8CNT | acl00_u8Delay | FCW_u8Offset_CNT | FCW_u8FCP_Start | FCW_u8WL_Start
  | Pwp_u8PWP_S | Close_u8CloseNum | Out_u8HeatNum | Out_u8HeatFirst |
  Str_u32Sterilize_Interval | Str_u16Sterilize_Time | Cold_u8Coldwater | HeatFan_u8Heatfan |
  RS_u8CloseTime | RS_u16NeterrDelay | RS_u32RSInteral | RS_u8Restart | run_u16Sec |
  power_loss_delay_delay | stimer_count | led_flag
  (* event_record.c *)
  | table_trigger_time | table_alarm_value | table_alarm_id | mp_block_free
  (* drivers: dio_bsp.c, pwm_bsp.c, usart_bsp.c, the kernel clock and the RTC *)
  | din_bitmap | din_reg_array | gpio_in | gpio_out | pwm_duty | TIM1_CNT | g_ComStat |
  rt_tick | rtc_now | flash_alias0 | stack_cs_data
  (* parts of the state that are not C integers (for footprints) *)
  | P_chain | P_alarmlog | P_eventlog | P_ee | P_uart
  (* statics of test_mode_init_data (bkg_thread.c) *)
  | TM_u8Test | TM_u16Test_UV | TM_u32Sterilize_Interval | TM_u16Sterilize_Time
  (* drivers/adc_bsp.c and TH_Sensor_Bsp.c *)
  | ADC1ConvertedValue | u16TH_Sensor | AM_u16TH_Ave_Temp | AM_u16TH_Ave_Hum | AM_u8CNT |
  AM_u8TH_CNT | AM_u8Err_CNT | AM_u8Offset_CNT
  (* cpad_slave_inst and its port (FreeModbus/port/modbus_monitor_slave), reset requests *)
  | cpad_rec_cnt | cpad_addr | cpad_usSRegHoldBuf | CU_u16Num | cpad_rec_state | cpad_rxbuf |
  cpad_rx_flag | cpad_rx_ok | cpad_rx_timeout | cpad_update_timer_flag | cpad_rx_DataCnt |
  TIM5_enabled | USART2_TC_int | USART2_RXNE_int | CPAD_RS485_send | system_reset
  (* heater and PM2.5 reception (usart_bsp.c, zph01_opt.c) *)
  | g_ComGap | g_ComBuff | Protocol_StatckStatus | Protocol_DataCount | u16FrameCheckSum |
  u8FrameDataLength | zph_rx_buffer | zph_count | ComSta_TEST2 | ComSta_TEST3 | ComSta_TEST4 |
  ComSta_TEST5 | ComSta_TEST6
  (* cyc_buff_st instances (kits/cyc_buff.c, event_record.c) *)
  | cb_startpiont | cb_endpiont | cb_cnt | cb_depth | cb_block_size | cb_base_addr | cb_size
  (* the transmit FIFO of USART2 and the bytes sent on it *)
  | P_cpadfifo | P_cpadtx.

Definition all_fields : list field :=
  [general_surv_baudrate; general_surv_addr; general_diagnose_mode_en;
  general_alarm_bypass_en; general_testing_mode_en; general_power_mode_mb_en;
  general_alarm_remove_bitmap; general_ntc_cali; general_ai_cali;
  general_temp_sensor_cali_temp; general_temp_sensor_cali_hum; dev_mask_ain; dev_mask_din;
  dev_mask_din_pusl; dev_mask_aout; dev_mask_dout; dev_mask_mb_comp;
  dev_mask_din_bitmap_polarity; alarm_enable_mode; alarm_alarm_param; ComPara_u16Net_Sel;
  ComPara_u16Net_WifiSet; ComPara_u16Wifi_Name; ComPara_u16Wifi_Password; ComPara_u16SN_Code;
  ComPara_u16M_Type; ComPara_u16Power_Mode; ComPara_u16TH_Interal; ComPara_u16Start_Temp;
  ComPara_u16Start_Humidity; ComPara_u16Stop_Temp; ComPara_u16Stop_Humidity;
  ComPara_u16Start_Defrost_Temp; ComPara_u16Stop_Defrost_Temp; ComPara_u16Sterilize_Mode;
  ComPara_u16Sterilize_Time; ComPara_u16Sterilize_Interval; ComPara_u16UV_Delay;
  ComPara_u16Water_Ctrl; ComPara_u16Water_Mode; ComPara_u16Water_Flow;
  ComPara_u16NormalWater_Temp; ComPara_u16HotWater_Temp; ComPara_u16HotWater_Cali;
  ComPara_u16ExitWater_Mode; ComPara_u16Disinfection_Mode; ComPara_u16Reset;
  ComPara_u16Test_Mode_Type; ComPara_u16Manual_Test_En; ComPara_u16TPower_En;
  ComPara_u16TPower_On; ComPara_u16TPower_Off; ComPara_u16FILTER_ELEMENT_Type;
  ComPara_u16Clear_RT; ComPara_u16Clear_ALARM; ComPara_u16Set_Time; ComPara_u16Start_Delay;
  ComPara_u16Fan_Stop_Delay; ComPara_u16Comp_Interval; ComPara_u16ColdWater_Mode;
  ComPara_u16ColdWater_StartTemp; ComPara_u16ColdWater_StopTemp; ComPara_u16HeatFan_StartTemp;
  ComPara_u16HeatFan_StopTemp; ComPara_u16WaterFlow; ComPara_u16Storage;
  ComPara_u16StorageDealy; ComPara_u16CloseFrist; ComPara_u16CloseDelay; ComPara_u16LN_Enable;
  ComPara_u16LN_Mode; ComPara_u16LN_Time; ComPara_u16LN_Fan; ComPara_u16TestEV;
  ComPara_u16Heater_PM25; ComPara_device_info; fan_type; fan_mode; fan_adjust_step;
  fan_set_speed; fan_min_speed; fan_max_speed; fan_noload_down; compressor_startup_delay;
  compressor_stop_delay; compressor_min_runtime; compressor_min_stoptime;
  compressor_startup_lowpress_shield; Platform_Fixed_Report; Platform_Real_Report;
  Platform_Restart_Enable; Platform_Restart_Delay; Platform_Net_ERR; status_permission_level;
  status_aout; status_din_bitmap; status_dout_bitmap; status_status_remap;
  status_alarm_bitmap; status_Alarm_COM_NTC_BIT; status_pwr_off_alarm; status_critical_cnt;
  status_major_cnt; status_mioor_cnt; status_total_cnt; ComSta_u16Hardware_ver;
  ComSta_u16Software_ver; ComSta_u16Status_remap; ComSta_u16Din_bitmap; ComSta_u16Dout_bitmap;
  ComSta_u16Alarm_bitmap; ComSta_u16Ain; ComSta_u16AO; ComSta_u16TH_Temp; ComSta_u16TH_Hum;
  ComSta_u16Pluse_CNT; ComSta_u16Cur_Water; ComSta_u16Last_Water; ComSta_u16Cumulative_Water;
  ComSta_u16PM25; ComSta_u16TDS; ComSta_u16Runtime; ComSta_u16WL; ComSta_Sys_Time_Hour;
  ComSta_Sys_Time_Min; ComSta_TEST; ComSta_REQ_TEST; ComSta_net_status; l_bitmap; l_ao_list;
  l_comp_timeout; l_authen_cd; l_debug_flag; l_debug_tiemout; l_l_fsm_state; l_Fan_Gear;
  l_Fan_Close; l_Comp_Close; l_Water_Full; l_Pwp_Open; l_Pwp_Open_Time; l_Sterilize;
  l_OutWater_Flag; l_OutWater_OK; l_HeatWater_st; l_HeatWater_Flow; l_HeatWater_Time;
  l_Cold_Water; l_Cold_Delay; l_u16BD_Time; l_u16BD_FAN_Delay; l_SEL_Jump;
  l_comp_startup_interval; l_comp_stop_interval; l_PowerOn_Time; l_TH_Check_Interval;
  l_TH_Check_Delay; l_Set_Systime_Flag; l_Set_Systime_Delay; l_OutWater_Key; l_OutWater_Delay;
  l_ChildLock_Key; l_ChildLock_Cnt; l_u16Uart_Timeout; l_u8RSInteral_Neterr; l_u8CloseDelay;
  l_u16UV_Delay; l_u32WaterFlow; l_u8Storage_Status; l_u8Storage_Fsm; acl_id; acl_state;
  acl_alram_value; acl_timeout; acl_enable_mask; acl_reset_mask; acl_alarm_level;
  acl_dev_type; lock_time; lock_last_state; lock_flag; cycle_flag; cycle_compress_state;
  cycle_start_time; compress_high_flag; alarm_fan_timer; alarm_compressor1_timer;
  alarm_compressor2_timer; alarm_acl_exe_u8CNT; acl00_u8Delay; FCW_u8Offset_CNT;
  FCW_u8FCP_Start; FCW_u8WL_Start; Pwp_u8PWP_S; Close_u8CloseNum; Out_u8HeatNum;
  Out_u8HeatFirst; Str_u32Sterilize_Interval; Str_u16Sterilize_Time; Cold_u8Coldwater;
  HeatFan_u8Heatfan; RS_u8CloseTime; RS_u16NeterrDelay; RS_u32RSInteral; RS_u8Restart;
  run_u16Sec; power_loss_delay_delay; stimer_count; led_flag; table_trigger_time;
  table_alarm_value; table_alarm_id; mp_block_free; din_bitmap; din_reg_array; gpio_in;
  gpio_out; pwm_duty; TIM1_CNT; g_ComStat; rt_tick; rtc_now; flash_alias0; stack_cs_data;
  P_chain; P_alarmlog; P_eventlog; P_ee; P_uart; TM_u8Test; TM_u16Test_UV;
  TM_u32Sterilize_Interval; TM_u16Sterilize_Time;
  ADC1ConvertedValue; u16TH_Sensor; AM_u16TH_Ave_Temp; AM_u16TH_Ave_Hum; AM_u8CNT;
  AM_u8TH_CNT; AM_u8Err_CNT; AM_u8Offset_CNT; cpad_rec_cnt; cpad_addr; cpad_usSRegHoldBuf;
  CU_u16Num; cpad_rec_state; cpad_rxbuf; cpad_rx_flag; cpad_rx_ok; cpad_rx_timeout;
  cpad_update_timer_flag; cpad_rx_DataCnt; TIM5_enabled; USART2_TC_int; USART2_RXNE_int;
  CPAD_RS485_send; system_reset; g_ComGap; g_ComBuff; Protocol_StatckStatus;
  Protocol_DataCount; u16FrameCheckSum; u8FrameDataLength; zph_rx_buffer; zph_count;
  ComSta_TEST2; ComSta_TEST3; ComSta_TEST4; ComSta_TEST5; ComSta_TEST6; cb_startpiont;
  cb_endpiont; cb_cnt; cb_depth; cb_block_size; cb_base_addr; cb_size; P_cpadfifo; P_cpadtx].

Definition ftag (f : field) : positive :=
  match f with
  | general_surv_baudrate => 1 | general_surv_addr => 2 | general_diagnose_mode_en => 3 |
  general_alarm_bypass_en => 4 | general_testing_mode_en => 5 | general_power_mode_mb_en => 6
  | general_alarm_remove_bitmap => 7 | general_ntc_cali => 8 | general_ai_cali => 9 |
  general_temp_sensor_cali_temp => 10 | general_temp_sensor_cali_hum => 11 | dev_mask_ain =>
  12 | dev_mask_din => 13 | dev_mask_din_pusl => 14 | dev_mask_aout => 15 | dev_mask_dout =>
  16 | dev_mask_mb_comp => 17 | dev_mask_din_bitmap_polarity => 18 | alarm_enable_mode => 19 |
  alarm_alarm_param => 20 | ComPara_u16Net_Sel => 21 | ComPara_u16Net_WifiSet => 22 |
  ComPara_u16Wifi_Name => 23 | ComPara_u16Wifi_Password => 24 | ComPara_u16SN_Code => 25 |
  ComPara_u16M_Type => 26 | ComPara_u16Power_Mode => 27 | ComPara_u16TH_Interal => 28 |
  ComPara_u16Start_Temp => 29 | ComPara_u16Start_Humidity => 30 | ComPara_u16Stop_Temp => 31 |
  ComPara_u16Stop_Humidity => 32 | ComPara_u16Start_Defrost_Temp => 33 |
  ComPara_u16Stop_Defrost_Temp => 34 | ComPara_u16Sterilize_Mode => 35 |
  ComPara_u16Sterilize_Time => 36 | ComPara_u16Sterilize_Interval => 37 | ComPara_u16UV_Delay
  => 38 | ComPara_u16Water_Ctrl => 39 | ComPara_u16Water_Mode => 40 | ComPara_u16Water_Flow =>
  41 | ComPara_u16NormalWater_Temp => 42 | ComPara_u16HotWater_Temp => 43 |
  ComPara_u16HotWater_Cali => 44 | ComPara_u16ExitWater_Mode => 45 |
  ComPara_u16Disinfection_Mode => 46 | ComPara_u16Reset => 47 | ComPara_u16Test_Mode_Type =>
  48 | ComPara_u16Manual_Test_En => 49 | ComPara_u16TPower_En => 50 | ComPara_u16TPower_On =>
  51 | ComPara_u16TPower_Off => 52 | ComPara_u16FILTER_ELEMENT_Type => 53 |
  ComPara_u16Clear_RT => 54 | ComPara_u16Clear_ALARM => 55 | ComPara_u16Set_Time => 56 |
  ComPara_u16Start_Delay => 57 | ComPara_u16Fan_Stop_Delay => 58 | ComPara_u16Comp_Interval =>
  59 | ComPara_u16ColdWater_Mode => 60 | ComPara_u16ColdWater_StartTemp => 61 |
  ComPara_u16ColdWater_StopTemp => 62 | ComPara_u16HeatFan_StartTemp => 63 |
  ComPara_u16HeatFan_StopTemp => 64 | ComPara_u16WaterFlow => 65 | ComPara_u16Storage => 66 |
  ComPara_u16StorageDealy => 67 | ComPara_u16CloseFrist => 68 | ComPara_u16CloseDelay => 69 |
  ComPara_u16LN_Enable => 70 | ComPara_u16LN_Mode => 71 | ComPara_u16LN_Time => 72 |
  ComPara_u16LN_Fan => 73 | ComPara_u16TestEV => 74 | ComPara_u16Heater_PM25 => 75 |
  ComPara_device_info => 76 | fan_type => 77 | fan_mode => 78 | fan_adjust_step => 79 |
  fan_set_speed => 80 | fan_min_speed => 81 | fan_max_speed => 82 | fan_noload_down => 83 |
  compressor_startup_delay => 84 | compressor_stop_delay => 85 | compressor_min_runtime => 86
  | compressor_min_stoptime => 87 | compressor_startup_lowpress_shield => 88 |
  Platform_Fixed_Report => 89 | Platform_Real_Report => 90 | Platform_Restart_Enable => 91 |
  Platform_Restart_Delay => 92 | Platform_Net_ERR => 93 | status_permission_level => 94 |
  status_aout => 95 | status_din_bitmap => 96 | status_dout_bitmap => 97 | status_status_remap
  => 98 | status_alarm_bitmap => 99 | status_Alarm_COM_NTC_BIT => 100 | status_pwr_off_alarm
  => 101 | status_critical_cnt => 102 | status_major_cnt => 103 | status_mioor_cnt => 104 |
  status_total_cnt => 105 | ComSta_u16Hardware_ver => 106 | ComSta_u16Software_ver => 107 |
  ComSta_u16Status_remap => 108 | ComSta_u16Din_bitmap => 109 | ComSta_u16Dout_bitmap => 110 |
  ComSta_u16Alarm_bitmap => 111 | ComSta_u16Ain => 112 | ComSta_u16AO => 113 |
  ComSta_u16TH_Temp => 114 | ComSta_u16TH_Hum => 115 | ComSta_u16Pluse_CNT => 116 |
  ComSta_u16Cur_Water => 117 | ComSta_u16Last_Water => 118 | ComSta_u16Cumulative_Water => 119
  | ComSta_u16PM25 => 120 | ComSta_u16TDS => 121 | ComSta_u16Runtime => 122 | ComSta_u16WL =>
  123 | ComSta_Sys_Time_Hour => 124 | ComSta_Sys_Time_Min => 125 | ComSta_TEST => 126 |
  ComSta_REQ_TEST => 127 | ComSta_net_status => 128 | l_bitmap => 129 | l_ao_list => 130 |
  l_comp_timeout => 131 | l_authen_cd => 132 | l_debug_flag => 133 | l_debug_tiemout => 134 |
  l_l_fsm_state => 135 | l_Fan_Gear => 136 | l_Fan_Close => 137 | l_Comp_Close => 138 |
  l_Water_Full => 139 | l_Pwp_Open => 140 | l_Pwp_Open_Time => 141 | l_Sterilize => 142 |
  l_OutWater_Flag => 143 | l_OutWater_OK => 144 | l_HeatWater_st => 145 | l_HeatWater_Flow =>
  146 | l_HeatWater_Time => 147 | l_Cold_Water => 148 | l_Cold_Delay => 149 | l_u16BD_Time =>
  150 | l_u16BD_FAN_Delay => 151 | l_SEL_Jump => 152 | l_comp_startup_interval => 153 |
  l_comp_stop_interval => 154 | l_PowerOn_Time => 155 | l_TH_Check_Interval => 156 |
  l_TH_Check_Delay => 157 | l_Set_Systime_Flag => 158 | l_Set_Systime_Delay => 159 |
  l_OutWater_Key => 160 | l_OutWater_Delay => 161 | l_ChildLock_Key => 162 | l_ChildLock_Cnt
  => 163 | l_u16Uart_Timeout => 164 | l_u8RSInteral_Neterr => 165 | l_u8CloseDelay => 166 |
  l_u16UV_Delay => 167 | l_u32WaterFlow => 168 | l_u8Storage_Status => 169 | l_u8Storage_Fsm
  => 170 | acl_id => 171 | acl_state => 172 | acl_alram_value => 173 | acl_timeout => 174 |
  acl_enable_mask => 175 | acl_reset_mask => 176 | acl_alarm_level => 177 | acl_dev_type =>
  178 | lock_time => 179 | lock_last_state => 180 | lock_flag => 181 | cycle_flag => 182 |
  cycle_compress_state => 183 | cycle_start_time => 184 | compress_high_flag => 185 |
  alarm_fan_timer => 186 | alarm_compressor1_timer => 187 | alarm_compressor2_timer => 188 |
  alarm_acl_exe_u8CNT => 189 | acl00_u8Delay => 190 | FCW_u8Offset_CNT => 191 |
  FCW_u8FCP_Start => 192 | FCW_u8WL_Start => 193 | Pwp_u8PWP_S => 194 | Close_u8CloseNum =>
  195 | Out_u8HeatNum => 196 | Out_u8HeatFirst => 197 | Str_u32Sterilize_Interval => 198 |
  Str_u16Sterilize_Time => 199 | Cold_u8Coldwater => 200 | HeatFan_u8Heatfan => 201 |
  RS_u8CloseTime => 202 | RS_u16NeterrDelay => 203 | RS_u32RSInteral => 204 | RS_u8Restart =>
  205 | run_u16Sec => 206 | power_loss_delay_delay => 207 | stimer_count => 208 | led_flag =>
  209 | table_trigger_time => 210 | table_alarm_value => 211 | table_alarm_id => 212 |
  mp_block_free => 213 | din_bitmap => 214 | din_reg_array => 215 | gpio_in => 216 | gpio_out
  => 217 | pwm_duty => 218 | TIM1_CNT => 219 | g_ComStat => 220 | rt_tick => 221 | rtc_now =>
  222 | flash_alias0 => 223 | stack_cs_data => 224 | P_chain => 225 | P_alarmlog => 226 |
  P_eventlog => 227 | P_ee => 228 | P_uart => 229 | TM_u8Test => 230 |
  TM_u16Test_UV => 231 | TM_u32Sterilize_Interval => 232 | TM_u16Sterilize_Time => 233 |
  ADC1ConvertedValue => 234 | u16TH_Sensor => 235 | AM_u16TH_Ave_Temp => 236 |
  AM_u16TH_Ave_Hum => 237 | AM_u8CNT => 238 | AM_u8TH_CNT => 239 | AM_u8Err_CNT => 240 |
  AM_u8Offset_CNT => 241 | cpad_rec_cnt => 242 | cpad_addr => 243 | cpad_usSRegHoldBuf =>
  244 | CU_u16Num => 245 | cpad_rec_state => 246 | cpad_rxbuf => 247 | cpad_rx_flag => 248 |
  cpad_rx_ok => 249 | cpad_rx_timeout => 250 | cpad_update_timer_flag => 251 |
  cpad_rx_DataCnt => 252 | TIM5_enabled => 253 | USART2_TC_int => 254 | USART2_RXNE_int =>
  255 | CPAD_RS485_send => 256 | system_reset => 257 | g_ComGap => 258 | g_ComBuff => 259 |
  Protocol_StatckStatus => 260 | Protocol_DataCount => 261 | u16FrameCheckSum => 262 |
  u8FrameDataLength => 263 | zph_rx_buffer => 264 | zph_count => 265 | ComSta_TEST2 => 266 |
  ComSta_TEST3 => 267 | ComSta_TEST4 => 268 | ComSta_TEST5 => 269 | ComSta_TEST6 => 270 |
  cb_startpiont => 271 | cb_endpiont => 272 | cb_cnt => 273 | cb_depth => 274 |
  cb_block_size => 275 | cb_base_addr => 276 | cb_size => 277 | P_cpadfifo => 278 | P_cpadtx
  => 279
  end%positive.

(** The declared C type of each object. *)
Definition fty (f : field) : ity :=
  match f with
  | l_Fan_Gear | l_Fan_Close | l_Comp_Close | l_Water_Full | l_Pwp_Open | l_Sterilize |
  l_OutWater_Flag | l_OutWater_OK | l_HeatWater_st | l_Cold_Water | l_Cold_Delay | l_SEL_Jump
  | l_Set_Systime_Flag | l_Set_Systime_Delay | l_OutWater_Key | l_ChildLock_Key |
  l_ChildLock_Cnt | l_u8RSInteral_Neterr | l_u8CloseDelay | l_u8Storage_Status |
  l_u8Storage_Fsm | acl_alarm_level | lock_flag | cycle_flag | compress_high_flag |
  alarm_acl_exe_u8CNT | acl00_u8Delay | FCW_u8Offset_CNT | FCW_u8FCP_Start | FCW_u8WL_Start |
  Pwp_u8PWP_S | Close_u8CloseNum | Out_u8HeatNum | Out_u8HeatFirst | Cold_u8Coldwater |
  HeatFan_u8Heatfan | RS_u8CloseTime | RS_u8Restart | led_flag | gpio_in | gpio_out |
  g_ComStat | TM_u8Test | P_chain | P_alarmlog | P_eventlog | P_ee | P_uart |
  AM_u8CNT | AM_u8TH_CNT | AM_u8Err_CNT | AM_u8Offset_CNT | cpad_rec_state | cpad_rxbuf |
  cpad_rx_flag | cpad_rx_ok | cpad_rx_timeout | cpad_update_timer_flag | cpad_rx_DataCnt |
  TIM5_enabled | USART2_TC_int | USART2_RXNE_int | CPAD_RS485_send | system_reset | g_ComGap
  | g_ComBuff | Protocol_StatckStatus | Protocol_DataCount | u8FrameDataLength |
  zph_rx_buffer | zph_count | P_cpadfifo | P_cpadtx => U8
  | l_ao_list => S16
  | TM_u32Sterilize_Interval | l_u32WaterFlow | lock_time | cycle_start_time | alarm_fan_timer | alarm_compressor1_timer
  | alarm_compressor2_timer | Str_u32Sterilize_Interval | RS_u32RSInteral | table_trigger_time
  | rt_tick | rtc_now | cb_size => U32
  | _ => U16
  end.

Lemma ftag_all f : nth_error all_fields (Pos.to_nat (ftag f) - 1) = Some f.
Proof. by destruct f. Qed.

Definition feqb (f g : field) : bool := Pos.eqb (ftag f) (ftag g).

Lemma feqb_spec f g : feqb f g = true <-> f = g.
Proof.
  unfold feqb. rewrite Pos.eqb_eq. split; [|by intros ->].
  intros H. pose proof (ftag_all f) as Hf. rewrite H, ftag_all in Hf. congruence.
Qed.

#[global] Instance field_eq_dec : EqDecision field.
Proof.
  intros f g. destruct (feqb f g) eqn:E.
  - left. by apply feqb_spec.
  - right. intros H%feqb_spec. congruence.
Defined.

Record cell : Type := Cell { fld : field; ix : Z; jx : Z }.

Definition scalar (f : field) : cell := Cell f 0 0.
Coercion scalar : field >-> cell.

Notation "f .[ i ]" := (Cell f i 0) (at level 1, format "f .[ i ]") : c_scope.
Notation "f .[ i , j ]" := (Cell f i j) (at level 1, format "f .[ i , j ]") : c_scope.

Definition cell_eqb (c d : cell) : bool :=
  feqb (fld c) (fld d) && (ix c =? ix d) && (jx c =? jx d).

Lemma cell_eqb_spec c d : cell_eqb c d = true <-> c = d.
Proof.
  unfold cell_eqb. rewrite !andb_true_iff, feqb_spec, !Z.eqb_eq.
  destruct c, d; cbn. split; [intros [[-> ->] ->]; done | intros [= -> -> ->]; done].
Qed.

Lemma cell_eqb_refl c : cell_eqb c c = true.
Proof. by apply cell_eqb_spec. Qed.

(** ** The state *)

Record alram_node : Type := AlarmNode { trigger_time : Z; alarm_id : Z; alarm_value : Z }.

#[global] Instance alram_node_eq_dec : EqDecision alram_node.
Proof. solve_decision. Defined.

Record world : Type := World {
  mem : cell -> Z;
  chain : list alram_node;       (* nodes from head_node.next on *)
  alarmlog_fifo : fifo_cb;
  eventlog_fifo : fifo_cb;
  ee : Z -> Z;                   (* EEPROM bytes *)
  uart_tx : list Z;              (* bytes sent to the heater, latest first *)
  mnt_tx_fifo : fifo_cb;         (* bytes waiting for USART2 (host or display) *)
  usart2_tx : list Z             (* bytes sent on USART2, latest first *)
}.

(** The world an expression is evaluated in; a class, so that expressions need not
    name it. *)
Definition cur : Type := world.
Existing Class cur.
Definition here {w : cur} : world := w.

(** The value an expression reads from an object is a value of its type. *)
Definition rd {w : cur} (c : cell) : Z := cast (fty (fld c)) (mem w c).
Notation "« c »" := (rd c) (at level 0, c at level 200, format "« c »") : c_scope.
Notation "w ⟪ c ⟫" := (@rd w c) (at level 1, c at level 200, format "w ⟪ c ⟫") : c_scope.

Definition set_mem (m : cell -> Z) (w : world) : world :=
  World m (chain w) (alarmlog_fifo w) (eventlog_fifo w) (ee w) (uart_tx w) (mnt_tx_fifo w) (usart2_tx w).
Definition set_chain (l : list alram_node) (w : world) : world :=
  World (mem w) l (alarmlog_fifo w) (eventlog_fifo w) (ee w) (uart_tx w) (mnt_tx_fifo w) (usart2_tx w).
Definition set_alarmlog (f : fifo_cb) (w : world) : world :=
  World (mem w) (chain w) f (eventlog_fifo w) (ee w) (uart_tx w) (mnt_tx_fifo w) (usart2_tx w).
Definition set_eventlog (f : fifo_cb) (w : world) : world :=
  World (mem w) (chain w) (alarmlog_fifo w) f (ee w) (uart_tx w) (mnt_tx_fifo w) (usart2_tx w).
Definition set_ee (m : Z -> Z) (w : world) : world :=
  World (mem w) (chain w) (alarmlog_fifo w) (eventlog_fifo w) m (uart_tx w) (mnt_tx_fifo w) (usart2_tx w).
Definition set_uart (l : list Z) (w : world) : world :=
  World (mem w) (chain w) (alarmlog_fifo w) (eventlog_fifo w) (ee w) l (mnt_tx_fifo w) (usart2_tx w).
Definition set_cpadfifo (f : fifo_cb) (w : world) : world :=
  World (mem w) (chain w) (alarmlog_fifo w) (eventlog_fifo w) (ee w) (uart_tx w) f (usart2_tx w).
Definition set_cpadtx (l : list Z) (w : world) : world :=
  World (mem w) (chain w) (alarmlog_fifo w) (eventlog_fifo w) (ee w) (uart_tx w) (mnt_tx_fifo w) l.

Definition wr (c : cell) (v : Z) (w : world) : world :=
  set_mem (fun d => if cell_eqb c d then v else mem w d) w.

(** All objects zero, no alarm, empty logs: the state of [.bss] after reset. *)
Definition w_zero : world :=
  World (fun _ => 0) [] (FifoCb (repeat 0 360) 0 0 12 30 0) (FifoCb (repeat 0 768) 0 0 12 64 0)
    (fun _ => 255) [] (FifoCb [] 0 0 0 0 0) [].

(** [poke l w]: the state [w] with the cells of [l] set. *)
Definition poke (l : list (cell * Z)) (w : world) : world :=
  foldr (fun p w => wr p.1 p.2 w) w l.

(** ** Statements *)

Abbreviation cmd := (world -> world).
Abbreviation act A := (world -> A * world).

Definition skip : cmd := fun w => w.
Definition seqc {X} (c : cmd) (k : world -> X) : world -> X := fun w => k (c w).
Definition cif {X} (b : world -> bool) (c1 c2 : world -> X) : world -> X :=
  fun w => if b w then c1 w else c2 w.
Definition letc {A X} (e : world -> A) (k : A -> world -> X) : world -> X :=
  fun w => k (e w) w.
Definition bindc {A X} (a : act A) (k : A -> world -> X) : world -> X :=
  fun w => k (a w).1 (a w).2.
Definition reta {A} (e : world -> A) : act A := fun w => (e w, w).
Definition assign (c : cell) (e : world -> Z) : cmd := fun w => wr c (e w) w.
Definition forc (l : list Z) (body : Z -> cmd) : cmd :=
  fun w => foldl (fun w i => body i w) w l.

(** [for (i = 0; i < n; i++)]. *)
Definition range (n : Z) : list Z := seqZ 0 n.

Lemma elem_of_range i n : i ∈ range n <-> 0 <= i < n.
Proof. unfold range. rewrite elem_of_seqZ. lia. Qed.

(** Checking a property of every index by evaluation. *)
Lemma range_check (P : Z -> bool) n i : forallb P (range n) = true -> 0 <= i < n -> P i = true.
Proof.
  intros H Hi%elem_of_range. rewrite forallb_forall in H. apply H.
  by apply list_elem_of_In.
Qed.

Notation "c1 ;; c2" := (seqc c1 c2) (at level 100, c2 at level 200, right associativity) : c_scope.
Notation "c '::=' e" := (assign c (fun w : cur => e)) (at level 90, e at level 90) : c_scope.
Notation "c '.|=' e" := (assign c (fun w : cur => rd c .| e)) (at level 90, e at level 90) : c_scope.
Notation "c '.&=' e" := (assign c (fun w : cur => rd c .& e)) (at level 90, e at level 90) : c_scope.
Notation "c '.++'" := (assign c (fun w : cur => rd c + 1)) (at level 1) : c_scope.
Notation "c '.--'" := (assign c (fun w : cur => rd c - 1)) (at level 1) : c_scope.
Notation "'IF' b 'THEN' c1 'ELSE' c2 'END'" := (cif (fun w : cur => b) c1 c2)
  (at level 0, b at level 200, c1 at level 200, c2 at level 200,
   format "'[v' IF  b  THEN '/  ' c1 '/' ELSE '/  ' c2 '/' END ']'") : c_scope.
Notation "'IF' b 'THEN' c1 'END'" := (cif (fun w : cur => b) c1 skip)
  (at level 0, b at level 200, c1 at level 200, only parsing) : c_scope.
Notation "'LET' x := e 'IN' k" := (letc (fun w : cur => e) (fun x => k))
  (at level 10, x name, e at level 200, k at level 200) : c_scope.
Notation "'CALL' x := a 'IN' k" := (bindc a (fun x => k))
  (at level 10, x name, a at level 200, k at level 200) : c_scope.
(** Run a call for its effect. *)
Definition runc {A} (a : act A) : cmd := fun w => (a w).2.
Notation "'RUN' a" := (runc a) (at level 99, a at level 90) : c_scope.
Notation "'RETURN' e" := (reta (fun w : cur => e)) (at level 99, e at level 99) : c_scope.
Notation "'FOR' i 'IN' l 'DO' c 'END'" := (forc l (fun i => c))
  (at level 0, i name, l at level 200, c at level 200) : c_scope.

(** ** Reading after writing *)

Lemma mem_wr c v w d : mem (wr c v w) d = if cell_eqb c d then v else mem w d.
Proof. done. Qed.

Lemma rd_wr c v w d :
  (wr c v w)⟪d⟫ = if cell_eqb c d then cast (fty (fld d)) v else w⟪d⟫.
Proof. unfold rd. rewrite mem_wr. by case_match. Qed.

Lemma rd_wr_same c v w : (wr c v w)⟪c⟫ = cast (fty (fld c)) v.
Proof. by rewrite rd_wr, cell_eqb_refl. Qed.

Lemma rd_wr_fld c v w d : feqb (fld c) (fld d) = false -> (wr c v w)⟪d⟫ = w⟪d⟫.
Proof. intros H. rewrite rd_wr. unfold cell_eqb. by rewrite H. Qed.

Lemma rd_wr_ix f i j v w f' i' j' :
  i <> i' \/ j <> j' -> (wr (Cell f i j) v w)⟪Cell f' i' j'⟫ = w⟪Cell f' i' j'⟫.
Proof.
  intros H. rewrite rd_wr. case_match eqn:E; [|done].
  apply cell_eqb_spec in E. injection E. intros. lia.
Qed.

Lemma rd_range w c : ity_min (fty (fld c)) <= w⟪c⟫ <= ity_max (fty (fld c)).
Proof. apply cast_range. Qed.

Lemma rd_u16 w c : fty (fld c) = U16 -> 0 <= w⟪c⟫ < 65536.
Proof. intros H. pose proof (rd_range w c) as Hr. rewrite H in Hr. cbn in Hr. lia. Qed.
Lemma rd_u8 w c : fty (fld c) = U8 -> 0 <= w⟪c⟫ < 256.
Proof. intros H. pose proof (rd_range w c) as Hr. rewrite H in Hr. cbn in Hr. lia. Qed.
Lemma rd_u32 w c : fty (fld c) = U32 -> 0 <= w⟪c⟫ < 4294967296.
Proof. intros H. pose proof (rd_range w c) as Hr. rewrite H in Hr. cbn in Hr. lia. Qed.

Lemma rd_cast w c : cast (fty (fld c)) (w⟪c⟫) = w⟪c⟫.
Proof. apply cast_idemp. Qed.

Lemma rd_w_zero c : w_zero⟪c⟫ = 0.
Proof. unfold rd. cbn [mem w_zero]. by destruct (fty (fld c)). Qed.

(** Writing back what was read changes no read. *)
Lemma rd_wr_self w c d : (wr c (w⟪c⟫) w)⟪d⟫ = w⟪d⟫.
Proof.
  rewrite rd_wr. case_match eqn:E; [|done]. apply cell_eqb_spec in E as ->. apply rd_cast.
Qed.

(** ** Statements that stay within a relation

    [resp out R k]: running [k] takes the state along the preorder [R].  Invariants,
    monotonicity and footprints are all such relations, and each composes through the
    statement combinators with the same lemmas. *)

Definition resp {X} (out : X -> world) (R : relation world) (k : world -> X) : Prop :=
  forall w, R w (out (k w)).

Abbreviation respc R c := (resp (fun w => w) R c).
Abbreviation respa R a := (resp snd R a).

Section Resp.
Context (R : relation world) `{!PreOrder R}.

Lemma resp_skip : respc R skip.
Proof. intros w. reflexivity. Qed.
Lemma resp_seq {X} (out : X -> world) c k :
  respc R c -> resp out R k -> resp out R (seqc c k).
Proof. intros Hc Hk w. etrans; [exact (Hc w) | exact (Hk (c w))]. Qed.
Lemma resp_if {X} (out : X -> world) b c1 c2 :
  resp out R c1 -> resp out R c2 -> resp out R (cif b c1 c2).
Proof. intros H1 H2 w. unfold cif. case_match; [apply H1 | apply H2]. Qed.
Lemma resp_let {A X} (out : X -> world) (e : world -> A) k :
  (forall x, resp out R (k x)) -> resp out R (letc e k).
Proof. intros H w. apply H. Qed.
Lemma resp_bind {A X} (out : X -> world) (a : act A) k :
  respa R a -> (forall x, resp out R (k x)) -> resp out R (bindc a k).
Proof. intros Ha Hk w. etrans; [exact (Ha w) | exact (Hk (a w).1 (a w).2)]. Qed.
Lemma resp_ret {A} (e : world -> A) : respa R (reta e).
Proof. intros w. reflexivity. Qed.
Lemma resp_run {A} (a : act A) : respa R a -> respc R (runc a).
Proof. intros H w. apply H. Qed.
Lemma resp_for l body : (forall i, i ∈ l -> respc R (body i)) -> respc R (forc l body).
Proof.
  unfold forc. intros H w. revert w. induction l as [|i l IH]; intros w; cbn; [reflexivity|].
  etrans; [refine (H i _ w); set_solver | apply IH; set_solver].
Qed.
End Resp.

Lemma resp_impl {X} (out : X -> world) (R R' : relation world) k :
  (forall w w', R w w' -> R' w w') -> resp out R k -> resp out R' k.
Proof. intros H Hk w. apply H, Hk. Qed.

Create HintDb resp.

(** Decompose a statement; the leaves are left to [resp] hints. *)
Ltac resp_step :=
  lazymatch goal with
  | |- resp _ _ skip => apply resp_skip
  | |- resp _ _ (seqc _ _) => apply resp_seq
  | |- resp _ _ (cif _ _ _) => apply resp_if
  | |- resp _ _ (letc _ _) => apply resp_let; intros ?
  | |- resp _ _ (bindc _ _) => apply resp_bind; [typeclasses eauto | | intros ?]
  | |- resp _ _ (reta _) => apply resp_ret
  | |- resp _ _ (runc _) => apply resp_run
  | |- resp _ _ (forc _ _) => apply resp_for; [typeclasses eauto | intros ? ?]
  | |- resp _ _ (match ?x with _ => _ end) => destruct x
  end.
Ltac resp_tac := repeat (first [resp_step; try typeclasses eauto | progress cbv beta zeta]);
  try solve [eauto 4 with resp].

(** ** Output bitmaps

    [l_sys.bitmap[word][column]]: one column per stage of output arbitration. *)

Definition bmp_bit (col : Z) (w : world) (d : Z) : bool :=
  Z.testbit (w⟪l_bitmap.[byte_offset d, col]⟫) (bit_offset d).

Abbreviation req_bit := (bmp_bit BITMAP_REQ).

(** The body shared by [req_bitmap_op], [alarm_bitmap_op] and [alarm_bitmap_mask_op]. *)
Definition bitmap_op (col bpos action : Z) : cmd :=
  let c := l_bitmap.[byte_offset bpos, col] in
  IF action =? 0 THEN c ::= clr_bit «c» (bit_offset bpos)
  ELSE c ::= set_bit «c» (bit_offset bpos) END.

(** The bit written takes the value of [action]; every other bit of every column keeps its value. *)
Lemma bmp_bit_op col bpos action w col' d :
  bmp_bit col' (bitmap_op col bpos action w) d =
  if (col =? col') && (bpos =? d) then nz action else bmp_bit col' w d.
Proof.
  pose proof (bit_offset_range bpos). pose proof (bit_offset_range d).
  unfold bmp_bit, bitmap_op, cif, assign.
  assert (forall v, (wr l_bitmap.[byte_offset bpos, col] v w)⟪l_bitmap.[byte_offset d, col']⟫ =
    if (col =? col') && (byte_offset bpos =? byte_offset d) then u16 v
    else w⟪l_bitmap.[byte_offset d, col']⟫) as Hrd.
  { intros v. rewrite rd_wr. unfold cell_eqb; cbn -[Z.eqb]. rewrite andb_comm.
    by destruct (col =? col'), (byte_offset bpos =? byte_offset d). }
  destruct (Z.eqb_spec col col') as [<-|]; cbn [andb] in *.
  2: { by case_match; rewrite Hrd. }
  destruct (Z.eqb_spec bpos d) as [<-|Hne].
  - rewrite Z.eqb_refl in Hrd. unfold nz.
    destruct (action =? 0); rewrite Hrd, u16_testbit by lia;
      [rewrite testbit_clr_bit by lia | rewrite testbit_set_bit by lia]; by rewrite Z.eqb_refl.
  - destruct (Z.eqb_spec (byte_offset bpos) (byte_offset d)) as [E|E].
    2: { case_match; by rewrite Hrd. }
    assert ((bit_offset d =? bit_offset bpos) = false) as Hb.
    { apply Z.eqb_neq. intros ?. apply Hne, byte_bit_inj; lia. }
    destruct (action =? 0); rewrite Hrd, u16_testbit, <- E by lia;
      [rewrite testbit_clr_bit by lia | rewrite testbit_set_bit by lia]; by rewrite Hb.
Qed.

(** ** Footprints

    [unch F D w w']: going from [w] to [w'] changed no object outside the fields [F],
    and no request bit outside [D].  Cells of the request column are only constrained
    bit by bit. *)

Definition fin (f : field) (F : list field) : bool := existsb (feqb f) F.
Definition zin (d : Z) (D : list Z) : bool := existsb (Z.eqb d) D.
Definition is_req (c : cell) : bool := feqb (fld c) l_bitmap && (jx c =? BITMAP_REQ).

Record unch (F : list field) (D : list Z) (w w' : world) : Prop := {
  unch_mem : forall c, fin (fld c) F = false -> is_req c = false -> mem w' c = mem w c;
  unch_req : forall d, zin d D = false -> req_bit w' d = req_bit w d;
  unch_chain : fin P_chain F = false -> chain w' = chain w;
  unch_alog : fin P_alarmlog F = false -> alarmlog_fifo w' = alarmlog_fifo w;
  unch_elog : fin P_eventlog F = false -> eventlog_fifo w' = eventlog_fifo w;
  unch_ee : fin P_ee F = false -> ee w' = ee w;
  unch_uart : fin P_uart F = false -> uart_tx w' = uart_tx w;
  unch_cpadfifo : fin P_cpadfifo F = false -> mnt_tx_fifo w' = mnt_tx_fifo w;
  unch_cpadtx : fin P_cpadtx F = false -> usart2_tx w' = usart2_tx w
}.

#[global] Instance unch_preorder F D : PreOrder (unch F D).
Proof.
  split.
  - intros w. by split.
  - intros w1 w2 w3 [A1 A2 A3 A4 A5 A6 A7 A8 A9] [B1 B2 B3 B4 B5 B6 B7 B8 B9].
    split; intros; [rewrite B1, A1 | rewrite B2, A2 | rewrite B3, A3 | rewrite B4, A4
      | rewrite B5, A5 | rewrite B6, A6 | rewrite B7, A7 | rewrite B8, A8
      | rewrite B9, A9]; done.
Qed.

Lemma unch_rd F D w w' c :
  unch F D w w' -> fin (fld c) F = false -> is_req c = false -> w'⟪c⟫ = w⟪c⟫.
Proof. intros [H] **. unfold rd. by rewrite H. Qed.

Lemma fin_sub F F' f : forallb (fun g => fin g F') F = true -> fin f F' = false -> fin f F = false.
Proof.
  intros HF Hf. apply not_true_is_false. intros (g & Hg & E)%existsb_exists.
  apply feqb_spec in E as ->. rewrite forallb_forall in HF. apply HF in Hg. congruence.
Qed.

Lemma zin_sub D D' d : forallb (fun g => zin g D') D = true -> zin d D' = false -> zin d D = false.
Proof.
  intros HF Hf. apply not_true_is_false. intros (g & Hg & E)%existsb_exists.
  apply Z.eqb_eq in E as ->. rewrite forallb_forall in HF. apply HF in Hg. congruence.
Qed.

Lemma unch_weaken F D F' D' w w' :
  unch F D w w' -> forallb (fun g => fin g F') F = true -> forallb (fun d => zin d D') D = true ->
  unch F' D' w w'.
Proof. intros [] HF HD. split; eauto using fin_sub, zin_sub. Qed.

Lemma resp_unch_weaken {X} (out : X -> world) F D F' D' k :
  resp out (unch F D) k ->
  forallb (fun g => fin g F') F && forallb (fun d => zin d D') D = true ->
  resp out (unch F' D') k.
Proof. intros H [? ?]%andb_true_iff w. eapply unch_weaken; [apply H | done..]. Qed.

Lemma bmp_bit_unch F D w w' col d :
  unch F D w w' -> fin l_bitmap F = false -> col <> BITMAP_REQ -> bmp_bit col w' d = bmp_bit col w d.
Proof.
  intros H HF Hc. unfold bmp_bit. rewrite (unch_rd F D w w'); [done..|].
  unfold is_req; cbn. by apply Z.eqb_neq.
Qed.

Lemma unch_assign F D c e :
  fin (fld c) F && negb (feqb (fld c) l_bitmap) = true -> respc (unch F D) (assign c e).
Proof.
  intros [HF Hb%negb_true_iff]%andb_true_iff w. split; try done.
  - intros d Hd _. cbn. case_match eqn:E; [|done].
    apply cell_eqb_spec in E as ->. congruence.
  - intros d _. unfold bmp_bit, assign. rewrite rd_wr_fld; done.
Qed.

(** An assignment outside the request column of the bitmaps. *)
Lemma unch_assign_col F D c e : fin (fld c) F && negb (is_req c) = true -> respc (unch F D) (assign c e).
Proof.
  intros [HF Hb%negb_true_iff]%andb_true_iff w. split; try done.
  - intros d Hd _. cbn. case_match eqn:E; [|done].
    apply cell_eqb_spec in E as ->. congruence.
  - intros d _. unfold bmp_bit, assign, rd. cbn. case_match eqn:E; [|done].
    apply cell_eqb_spec in E as ->. done.
Qed.

Lemma unch_bitmap_op F D bpos action :
  zin bpos D = true -> respc (unch F D) (bitmap_op BITMAP_REQ bpos action).
Proof.
  intros HD w. split; try (unfold bitmap_op, cif; by case_match).
  - intros c _ Hr. unfold bitmap_op, cif, assign.
    case_match; cbn; (case_match eqn:E; [|done]); apply cell_eqb_spec in E as <-; done.
  - intros d Hd. rewrite bmp_bit_op. cbn [Z.eqb andb].
    destruct (Z.eqb_spec bpos d) as [<-|]; [congruence | done].
Qed.

(** Alarm and mask columns. *)
Lemma unch_bitmap_op_col F D col bpos action :
  fin l_bitmap F = true -> col <> BITMAP_REQ -> respc (unch F D) (bitmap_op col bpos action).
Proof.
  intros HF Hc w. split; try (unfold bitmap_op, cif; by case_match).
  - intros c Hf _. unfold bitmap_op, cif, assign.
    case_match; cbn; (case_match eqn:E; [|done]); apply cell_eqb_spec in E as <-; cbn in *; congruence.
  - intros d Hd. rewrite bmp_bit_op. apply Z.eqb_neq in Hc. by rewrite Hc.
Qed.

(** A step that leaves the memory alone. *)
Lemma unch_set_chain F D (g : world -> list alram_node) :
  fin P_chain F = true -> respc (unch F D) (fun w => set_chain (g w) w).
Proof. intros H w. split; try done. intros ?. congruence. Qed.
Lemma unch_set_alarmlog F D (g : world -> fifo_cb) :
  fin P_alarmlog F = true -> respc (unch F D) (fun w => set_alarmlog (g w) w).
Proof. intros H w. split; try done. intros ?. congruence. Qed.
Lemma unch_set_eventlog F D (g : world -> fifo_cb) :
  fin P_eventlog F = true -> respc (unch F D) (fun w => set_eventlog (g w) w).
Proof. intros H w. split; try done. intros ?. congruence. Qed.
Lemma unch_set_ee F D (g : world -> Z -> Z) :
  fin P_ee F = true -> respc (unch F D) (fun w => set_ee (g w) w).
Proof. intros H w. split; try done. intros ?. congruence. Qed.
Lemma unch_set_uart F D (g : world -> list Z) :
  fin P_uart F = true -> respc (unch F D) (fun w => set_uart (g w) w).
Proof. intros H w. split; try done. intros ?. congruence. Qed.

Lemma unch_set_cpadfifo F D (g : world -> fifo_cb) :
  fin P_cpadfifo F = true -> respc (unch F D) (fun w => set_cpadfifo (g w) w).
Proof. intros H w. split; try done. intros ?. congruence. Qed.
Lemma unch_set_cpadtx F D (g : world -> list Z) :
  fin P_cpadtx F = true -> respc (unch F D) (fun w => set_cpadtx (g w) w).
Proof. intros H w. split; try done. intros ?. congruence. Qed.

#[export] Hint Resolve unch_set_chain unch_set_alarmlog unch_set_eventlog unch_set_ee
  unch_set_uart unch_set_cpadfifo unch_set_cpadtx : resp.

(** [footprint]: prove [resp _ (unch F D) f] from the text of [f]; called functions are
    discharged by their own footprint lemmas, registered with [Hint Resolve] in [foot]. *)
Create HintDb foot discriminated.
#[global] Hint Constants Opaque : foot.
Ltac foot_leaf :=
  lazymatch goal with
  | |- resp _ (unch _ _) (assign _ _) => apply unch_assign; vm_compute; reflexivity
  | |- resp _ (unch _ _) (bitmap_op BITMAP_REQ _ _) => apply unch_bitmap_op; vm_compute; reflexivity
  | |- resp _ (unch _ _) (bitmap_op _ _ _) =>
      apply unch_bitmap_op_col; [vm_compute; reflexivity | lia]
  | |- resp _ (unch _ _) (fun _ => _) => eauto with resp
  | |- resp _ (unch _ _) _ =>
      eapply resp_unch_weaken; [solve [eauto 2 with foot] | vm_compute; reflexivity]
  end.
Ltac footprint :=
  repeat first [progress cbv beta zeta | resp_step; try typeclasses eauto | foot_leaf].

(** ** Observations that a statement leaves alone *)

Definition keep {A} (o : world -> A) : relation world := fun w w' => o w' = o w.

#[global] Instance keep_preorder {A} (o : world -> A) : PreOrder (keep o).
Proof. split; [by intros w | intros w1 w2 w3 H1 H2]. unfold keep in *. congruence. Qed.

Lemma keep_rd_assign c d e :
  feqb (fld d) (fld c) && (ix d =? ix c) && (jx d =? jx c) = false ->
  respc (keep (fun w => w⟪c⟫)) (assign d e).
Proof. intros H w. unfold keep, assign. rewrite rd_wr. unfold cell_eqb. by rewrite H. Qed.

Lemma keep_rd_unch {X} (out : X -> world) F D k c :
  resp out (unch F D) k -> fin (fld c) F || is_req c = false ->
  resp out (keep (fun w => w⟪c⟫)) k.
Proof. intros H [? ?]%orb_false_iff w. eapply unch_rd; [apply H | done..]. Qed.

Lemma keep_rd_bitmap_op c col bpos action :
  feqb l_bitmap (fld c) = false -> respc (keep (fun w => w⟪c⟫)) (bitmap_op col bpos action).
Proof.
  intros H w. unfold keep, bitmap_op, cif, assign. case_match; by rewrite rd_wr_fld.
Qed.

Lemma keep_bmp_assign col d c e :
  feqb (fld c) l_bitmap = false -> respc (keep (fun w => bmp_bit col w d)) (assign c e).
Proof. intros H w. unfold keep, bmp_bit, assign. by rewrite rd_wr_fld. Qed.

Lemma keep_req_unch {X} (out : X -> world) F D k d :
  resp out (unch F D) k -> zin d D = false -> resp out (keep (fun w => req_bit w d)) k.
Proof. intros H ? w. by apply (unch_req _ _ _ _ (H w)). Qed.

Lemma keep_bmp_unch {X} (out : X -> world) F D k col d :
  resp out (unch F D) k -> fin l_bitmap F || (col =? BITMAP_REQ) = false ->
  resp out (keep (fun w => bmp_bit col w d)) k.
Proof.
  intros H [? ?%Z.eqb_neq]%orb_false_iff w. unfold keep. by eapply bmp_bit_unch; [apply H|..].
Qed.

Lemma keep_bmp_op col d col' bpos action :
  (col' =? col) && (bpos =? d) = false ->
  respc (keep (fun w => bmp_bit col w d)) (bitmap_op col' bpos action).
Proof. intros H w. unfold keep. by rewrite bmp_bit_op, H. Qed.

Lemma keep_chain_assign c e : respc (keep chain) (assign c e).
Proof. by intros w. Qed.
Lemma keep_chain_unch {X} (out : X -> world) F D k :
  resp out (unch F D) k -> fin P_chain F = false -> resp out (keep chain) k.
Proof. intros H ? w. by apply (unch_chain _ _ _ _ (H w)). Qed.
Lemma keep_rd_set_chain (g : world -> list alram_node) c :
  respc (keep (fun w => w⟪c⟫)) (fun w => set_chain (g w) w).
Proof. by intros w. Qed.

Ltac keep_side := first [reflexivity | vm_compute; reflexivity | cbn; lia].
Ltac keep_call :=
  first
  [ eapply keep_rd_unch; [solve [eauto 2 with foot] | keep_side]
  | eapply keep_req_unch; [solve [eauto 2 with foot] | keep_side]
  | eapply keep_bmp_unch; [solve [eauto 2 with foot] | keep_side]
  | eapply keep_chain_unch; [solve [eauto 2 with foot] | keep_side] ].
Ltac keep_leaf :=
  lazymatch goal with
  | |- resp _ (keep _) (assign _ _) =>
      first [apply keep_rd_assign; keep_side | apply keep_bmp_assign; keep_side | apply keep_chain_assign]
  | |- resp _ (keep _) (bitmap_op _ _ _) =>
      first [apply keep_rd_bitmap_op; keep_side | apply keep_bmp_op; keep_side | keep_call]
  | |- resp _ (keep _) (fun _ => set_chain _ _) => apply keep_rd_set_chain
  | |- resp _ (keep _) (set_chain ?l) => apply (keep_rd_set_chain (fun _ => l))
  | |- resp _ (keep _) _ => keep_call
  end.
Ltac keep_tac := repeat first [progress cbv beta zeta | resp_step; try typeclasses eauto | keep_leaf].

Lemma rd_assign_same c e w : (assign c e w)⟪c⟫ = cast (fty (fld c)) (e w).
Proof. apply rd_wr_same. Qed.
Lemma rd_assign_other c d e w : c <> d -> (assign c e w)⟪d⟫ = w⟪d⟫.
Proof. intros H. unfold assign. rewrite rd_wr. destruct (cell_eqb c d) eqn:E; [|done]. by apply cell_eqb_spec in E. Qed.

(** [obs]: evaluate an observation of the state after a statement: step back over
    the statements that leave it alone, and read the assignment that sets it. *)
Lemma keep_rd k w c : respc (keep (fun w => w⟪c⟫)) k -> (k w)⟪c⟫ = w⟪c⟫.
Proof. intros H. exact (H w). Qed.
Lemma keep_rda {A} (k : act A) w c : respa (keep (fun w => w⟪c⟫)) k -> (k w).2⟪c⟫ = w⟪c⟫.
Proof. intros H. exact (H w). Qed.
Lemma keep_bmp k w col d :
  respc (keep (fun w => bmp_bit col w d)) k -> bmp_bit col (k w) d = bmp_bit col w d.
Proof. intros H. exact (H w). Qed.
Lemma keep_bmpa {A} (k : act A) w col d :
  respa (keep (fun w => bmp_bit col w d)) k -> bmp_bit col (k w).2 d = bmp_bit col w d.
Proof. intros H. exact (H w). Qed.
Lemma keep_ch k w : respc (keep chain) k -> chain (k w) = chain w.
Proof. intros H. exact (H w). Qed.
Lemma keep_cha {A} (k : act A) w : respa (keep chain) k -> chain (k w).2 = chain w.
Proof. intros H. exact (H w). Qed.

Ltac obs1 :=
  match goal with
  | |- context [@rd (assign ?c ?e ?w) ?c] => rewrite (rd_assign_same c e w)
  | |- context [@rd (snd (?k ?w)) ?c] =>
      rewrite (keep_rda k w c) by (solve [keep_tac])
  | |- context [@rd (?k ?w) ?c] =>
      rewrite (keep_rd k w c) by (solve [keep_tac])
  | |- context [bmp_bit ?col (bitmap_op ?col' ?b ?a ?w) ?d] =>
      rewrite (bmp_bit_op col' b a w col d)
  | |- context [bmp_bit ?col (snd (?k ?w)) ?d] =>
      rewrite (keep_bmpa k w col d) by (solve [keep_tac])
  | |- context [bmp_bit ?col (?k ?w) ?d] =>
      rewrite (keep_bmp k w col d) by (solve [keep_tac])
  | |- context [chain (snd (?k ?w))] => rewrite (keep_cha k w) by (solve [keep_tac])
  | |- context [chain (?k ?w)] => rewrite (keep_ch k w) by (solve [keep_tac])
  | |- context [seqc ?c ?k ?w] => change (seqc c k w) with (k (c w))
  | |- context [letc ?e ?k ?w] => change (letc e k w) with (k (e w) w)
  end; cbv beta.
Ltac obs := repeat obs1; cbn [fty fld scalar cast].
