(* ===== verification/SysStatus.v ===== *)
(** * usr/modules/sys_status.c: status words, digital inputs and outputs, water level

    [sys_get_pwr_signal] and [sys_running_mode_update] write configuration registers
    and are in the file of the background thread. *)

From S2P Require Import Prelude Conf Fifo Machine.

Definition sys_set_remap_status (reg_no sbit_pos bit_action : Z) : cmd :=
  let c := ComSta_u16Status_remap.[reg_no] in
  IF bit_action =? 1 THEN c ::= set_bit «c» sbit_pos
  ELSE c ::= clr_bit «c» sbit_pos END.

Definition sys_get_remap_status {w : cur} (reg_no rbit_pos : Z) : Z :=
  get_bit «ComSta_u16Status_remap.[reg_no]» rbit_pos.

Definition sys_get_di_sts {w : cur} (din_channel : Z) : Z :=
  if nz (get_bit «ComSta_u16Din_bitmap.[byte_offset din_channel]» (bit_offset din_channel))
  then 1 else 0.

Definition sys_option_di_sts (din_channel option : Z) : cmd :=
  let c := status_din_bitmap.[byte_offset din_channel] in
  IF nz option THEN c ::= set_bit «c» (bit_offset din_channel)
  ELSE c ::= clr_bit «c» (bit_offset din_channel) END.

Definition sys_get_do_sts {w : cur} (dout_channel : Z) : Z :=
  if nz (get_bit «ComSta_u16Dout_bitmap.[byte_offset dout_channel]» (bit_offset dout_channel))
  then 1 else 0.

Definition sys_get_pwr_sts {w : cur} : Z :=
  if nz (get_bit «ComSta_u16Status_remap.[WORK_MODE_STS_REG_NO]» PWR_STS_BPOS) then 1 else 0.

Definition sys_get_mbm_online {w : cur} (mbm_dev : Z) : Z :=
  if nz («status_status_remap.[MBM_COM_STS_REG_NO]» .& (1 .<< mbm_dev)) then 1 else 0.

(** The count found in the device mask is overwritten with 2 before it is returned. *)
Definition devinfo_get_compressor_cnt {w : cur} : Z :=
  let compressor_bit_map :=
    (get_bit «dev_mask_dout.[0]» DO_COMP2_BPOS .<< 1) .| get_bit «dev_mask_dout.[0]» DO_COMP1_BPOS in
  let compressor_count :=
    match compressor_bit_map with 0 => 0 | 1 => 1 | 3 => 2 | _ => 0 end in
  let compressor_count := 2 in
  compressor_count.

(** One level switch: [level |= mask] when the input reads 0, [level &= ~mask] otherwise. *)
Definition level_sense {w : cur} (u16Water_level di mask : Z) : Z :=
  if sys_get_di_sts di =? 0 then u16Water_level .| mask else u16Water_level .& (.~ mask).

Definition water_level_value {w : cur} : Z :=
  let l := 0 in
  let l := level_sense l DI_SOURCE_DOWN_BPOS S_L in
  let l := level_sense l DI_SOURCE_MIDDLE_BPOS S_M in
  let l := level_sense l DI_SOURCE_UP_BPOS S_U in
  let l := if negb (nz («dev_mask_din.[0]» .& S_U)) then l .& (.~ S_U) else l in
  let l := level_sense l DI_DRINK_DOWN_BPOS D_L in
  let l := level_sense l DI_DRINK_MIDDLE_BPOS D_M in
  let l := level_sense l DI_DRINK_UP_BPOS D_U in
  level_sense l DI_DRINK_MD_BPOS D_ML.

Definition Get_Water_level : act Z :=
  LET u16Water_level := water_level_value IN
  ComSta_u16WL ::= u16Water_level;;
  RETURN u16Water_level.

(** ** Footprints *)

Lemma sys_set_remap_status_foot r b a :
  respc (unch [ComSta_u16Status_remap] []) (sys_set_remap_status r b a).
Proof. unfold sys_set_remap_status. footprint. Qed.
Lemma sys_option_di_sts_foot ch o : respc (unch [status_din_bitmap] []) (sys_option_di_sts ch o).
Proof. unfold sys_option_di_sts. footprint. Qed.
Lemma Get_Water_level_foot : respa (unch [ComSta_u16WL] []) Get_Water_level.
Proof. unfold Get_Water_level. footprint. Qed.
#[export] Hint Resolve sys_set_remap_status_foot sys_option_di_sts_foot Get_Water_level_foot : foot.

(** ** Behaviour *)

Lemma sys_get_di_sts_bit w ch :
  @sys_get_di_sts w ch =
  Z.b2z (Z.testbit (w⟪ComSta_u16Din_bitmap.[byte_offset ch]⟫) (bit_offset ch)).
Proof.
  unfold sys_get_di_sts. pose proof (bit_offset_range ch).
  rewrite nz_get_bit by lia. by destruct (Z.testbit _ _).
Qed.

Lemma sys_get_do_sts_bit w ch :
  @sys_get_do_sts w ch =
  Z.b2z (Z.testbit (w⟪ComSta_u16Dout_bitmap.[byte_offset ch]⟫) (bit_offset ch)).
Proof.
  unfold sys_get_do_sts. pose proof (bit_offset_range ch).
  rewrite nz_get_bit by lia. by destruct (Z.testbit _ _).
Qed.

Definition remap_bit (w : world) (r b : Z) : bool :=
  Z.testbit (w⟪ComSta_u16Status_remap.[r]⟫) b.

Lemma sys_get_remap_status_bit w r b :
  0 <= b -> @sys_get_remap_status w r b = Z.b2z (remap_bit w r b).
Proof. intros. unfold sys_get_remap_status. by rewrite get_bit_b2z. Qed.

Lemma sys_get_pwr_sts_bit w :
  @sys_get_pwr_sts w = Z.b2z (remap_bit w WORK_MODE_STS_REG_NO PWR_STS_BPOS).
Proof. unfold sys_get_pwr_sts, remap_bit. rewrite nz_get_bit by lia. by destruct (Z.testbit _ _). Qed.

(** A status bit reads back the action written to it; the other bits are untouched. *)
Lemma remap_bit_set w r b a r' b' :
  0 <= b < 16 -> 0 <= b' < 16 ->
  remap_bit (sys_set_remap_status r b a w) r' b' =
  if (r =? r') && (b =? b') then a =? 1 else remap_bit w r' b'.
Proof.
  intros Hb Hb'. unfold sys_set_remap_status, remap_bit, cif, assign.
  destruct (Z.eqb_spec r r') as [<-|Hr]; cbn [andb].
  2: { case_match; rewrite rd_wr_ix by lia; done. }
  case_match; rewrite rd_wr_same, u16_testbit by (done || lia);
    [rewrite testbit_set_bit by lia | rewrite testbit_clr_bit by lia];
    rewrite (Z.eqb_sym b' b); by destruct (b =? b').
Qed.

Lemma land_bit_nz w k : 0 <= k -> nz (w .& 2 ^ k) = Z.testbit w k.
Proof. intros. rewrite <- land_pow2 by done. by rewrite Z.shiftl_1_l. Qed.

Lemma testbit_pow2 k j : 0 <= k -> 0 <= j -> Z.testbit (2 ^ k) j = (j =? k).
Proof. intros. rewrite <- Z.shiftl_1_l. by apply testbit_1_shift. Qed.

Lemma testbit_level_sense w l di k j :
  0 <= k -> 0 <= j ->
  Z.testbit (@level_sense w l di (2 ^ k)) j =
  if j =? k then @sys_get_di_sts w di =? 0 else Z.testbit l j.
Proof.
  intros Hk Hj. unfold level_sense. case_match.
  - rewrite Z.lor_spec, testbit_pow2 by done. destruct (j =? k); [apply orb_true_r | apply orb_false_r].
  - rewrite Z.land_spec, Z.lnot_spec, testbit_pow2 by done.
    destruct (j =? k); cbn; [apply andb_false_r | apply andb_true_r].
Qed.

Lemma testbit_gate (b : bool) l k j :
  0 <= k -> 0 <= j ->
  Z.testbit (if negb b then l .& (.~ (2 ^ k)) else l) j =
  (if j =? k then b && Z.testbit l j else Z.testbit l j).
Proof.
  intros. destruct b; cbn [negb andb]; [by case_match|].
  rewrite Z.land_spec, Z.lnot_spec, testbit_pow2 by done.
  destruct (j =? k); cbn; [apply andb_false_r | apply andb_true_r].
Qed.

Lemma testbit_water_level w j :
  0 <= j ->
  Z.testbit (@water_level_value w) j =
  (if j <? 7 then
     (@sys_get_di_sts w j =? 0) && (negb (j =? 2) || Z.testbit (w⟪dev_mask_din.[0]⟫) 2)
   else false).
Proof.
  intros Hj. unfold water_level_value.
  change S_L with (2 ^ 0). change S_M with (2 ^ 1). change S_U with (2 ^ 2).
  change D_L with (2 ^ 3). change D_M with (2 ^ 4). change D_U with (2 ^ 5).
  change D_ML with (2 ^ 6).
  repeat (rewrite testbit_level_sense || rewrite testbit_gate || rewrite land_bit_nz); try lia.
  destruct (Z.ltb_spec j 7).
  - assert (j = 0 \/ j = 1 \/ j = 2 \/ j = 3 \/ j = 4 \/ j = 5 \/ j = 6) as Hc by lia.
    destruct Hc as [->|[->|[->|[->|[->|[-> | ->]]]]]]; rewrite ?andb_true_r; try done.
    apply andb_comm.
  - repeat match goal with
      |- context [j =? ?k] => rewrite (proj2 (Z.eqb_neq j k)) by lia
    end. apply Z.bits_0.
Qed.

(** The water level word.  Each level bit is set exactly when the switch of that
    level reads 0 (the upper switch of the source tank only when it is enabled in the
    input mask), no other bit is ever set, and the word returned is the one published in
    the status registers. *)
Theorem Get_Water_level_spec w k :
  0 <= k ->
  let (wl, w') := Get_Water_level w in
  w'⟪ComSta_u16WL⟫ = wl /\
  Z.testbit wl k =
    (if k <? 7 then
       (@sys_get_di_sts w k =? 0) && ((negb (k =? 2)) || Z.testbit (w⟪dev_mask_din.[0]⟫) 2)
     else false).
Proof.
  intros Hk. cbn -[Z.testbit water_level_value rd wr].
  unfold assign. split; [|by apply testbit_water_level].
  rewrite rd_wr_same. apply u16_small. apply (bits_bound _ 16); [lia|].
  intros j Hj. rewrite testbit_water_level by lia. destruct (Z.ltb_spec j 7); [lia | done].
Qed.

(** The lower drink switch closed, everything else open: the level word is [D_L]. *)
Lemma Get_Water_level_witness :
  let w := poke [(ComSta_u16Din_bitmap.[0], 65527)] w_zero in
  (Get_Water_level w).1 = D_L /\ Z.testbit (Get_Water_level w).1 3 = true.
Proof.
  split; [vm_compute; reflexivity|].
  pose proof (Get_Water_level_spec (poke [(ComSta_u16Din_bitmap.[0], 65527)] w_zero) 3
    ltac:(lia)) as H.
  destruct (Get_Water_level _) as [wl w']. destruct H as [_ H]. cbn [fst]. rewrite H.
  vm_compute. reflexivity.
Defined.
