(* ===== verification/EventRecord.v ===== *)
(** * usr/modules/event_record.c: the active-alarm chain and the log FIFOs

    The chain of active alarms is a singly linked list behind [head_node], whose nodes
    come from a memory pool of [ACL_TOTAL_NUM] blocks; the model keeps the nodes in a
    list and the number of free blocks in [mp_block_free].  Log records are the packed
    little-endian structures the source copies into the FIFOs.  Draining the FIFOs to
    the EEPROM rings is not part of this file. *)

From S2P Require Import Prelude Conf Fifo Machine SysStatus.

Inductive alarm_enum : Type := ALARM_TRIGER | ALARM_END.

(** ** Log FIFOs *)

Definition add_eventlog_fifo (event_id user_id former_data new_data : Z) : cmd :=
  LET now := «rtc_now» IN
  fun w => set_eventlog (fifo8_push (eventlog_fifo w)
    (le16 event_id ++ le32 now ++ le16 user_id ++ le16 former_data ++ le16 new_data)).2 w.

Definition add_alarmlog_fifo (id : Z) (flg : alarm_enum) (value : Z) : cmd :=
  LET now := «rtc_now» IN
  let '(t_trigger, t_end) :=
    match flg with ALARM_END => (0, now) | ALARM_TRIGER => (now, 0xFFFFFFFF) end in
  fun w => set_alarmlog (fifo8_push (alarmlog_fifo w)
    (le16 id ++ le32 t_trigger ++ le32 t_end ++ le16 value)).2 w.

(** ** The chain *)

Definition WORK_LIMIT_CATION : Z := 0x400.

(** Outcome of [rt_mp_init] on a pool that is large enough. *)
Definition chain_init : cmd :=
  mp_block_free ::= ACL_TOTAL_NUM;;
  (fun w => set_chain [] w);;
  status_total_cnt ::= 0;;
  status_major_cnt ::= 0;;
  status_critical_cnt ::= 0;;
  status_mioor_cnt ::= 0.

Definition level_of (n : alram_node) : Z := (u16 (alarm_id n .>> 8)) .& 3.

(** The three [uint8_t] counters of the walk over the chain. *)
Fixpoint count_nodes (l : list alram_node) (cnt : Z * Z * Z) : Z * Z * Z :=
  match l with
  | [] => cnt
  | n :: l' =>
      let '(critical_cnt, major_cnt, mioor_cnt) := cnt in
      count_nodes l'
        (if level_of n =? 0 then (u8 (critical_cnt + 1), major_cnt, mioor_cnt)
         else if level_of n =? 1 then (critical_cnt, u8 (major_cnt + 1), mioor_cnt)
         else (critical_cnt, major_cnt, u8 (mioor_cnt + 1)))
  end.

Definition calc_pwr_off : Z := 0.

Definition calc_alrarm_cnt : cmd :=
  LET cnt := count_nodes (chain here) (0, 0, 0) IN
  let '(critical_cnt, major_cnt, mioor_cnt) := cnt in
  LET critical_cnt := if nz («status_alarm_bitmap.[5]» .& WORK_LIMIT_CATION)
                      then u8 (critical_cnt + 1) else critical_cnt IN
  status_total_cnt ::= critical_cnt + major_cnt + mioor_cnt;;
  status_mioor_cnt ::= mioor_cnt;;
  status_pwr_off_alarm ::= calc_pwr_off;;
  IF 0 <? «status_total_cnt» THEN sys_set_remap_status WORK_MODE_STS_REG_NO ALARM_STUSE_BPOS 1
  ELSE sys_set_remap_status WORK_MODE_STS_REG_NO ALARM_STUSE_BPOS 0 END;;
  IF («status_major_cnt» <? major_cnt) || («status_critical_cnt» <? critical_cnt) THEN
    sys_set_remap_status WORK_MODE_STS_REG_NO ALARM_BEEP_BPOS 1
  END;;
  status_major_cnt ::= major_cnt;;
  status_critical_cnt ::= critical_cnt;;
  IF («status_major_cnt» =? 0) && («status_critical_cnt» =? 0) THEN
    sys_set_remap_status WORK_MODE_STS_REG_NO ALARM_BEEP_BPOS 0
  END.

Definition node_append (id value : Z) : act Z :=
  IF «mp_block_free» =? 0 THEN RETURN 0
  ELSE
    mp_block_free .--;;
    LET now := «rtc_now» IN
    (fun w => set_chain (AlarmNode now id value :: chain w) w);;
    calc_alrarm_cnt;;
    RETURN 1
  END.

(** The bounded search of [node_delete]: position of the node to unlink. *)
Fixpoint node_find (cnt : nat) (id : Z) (l : list alram_node) : option nat :=
  match cnt, l with
  | S cnt', n :: l' =>
      if alarm_id n =? id then Some 0%nat
      else match l' with [] => None | _ => S <$> node_find cnt' id l' end
  | _, _ => None
  end.

Definition node_delete (id : Z) : act Z :=
  LET l := chain here IN
  match l with
  | [] => RETURN 0
  | _ =>
    LET cnt := u8 «status_total_cnt» IN
    match node_find (Z.to_nat cnt) id l with
    | Some k =>
        (fun w => set_chain (delete k (chain w)) w);;
        mp_block_free .++;;
        calc_alrarm_cnt;;
        RETURN 1
    | None => RETURN 0
    end
  end.

(** [get_alarm_status]: the bytes of up to [len] nodes from position [start_num]; the
    outer [None] is a read through a null pointer. *)
Definition node_bytes (n : alram_node) : list Z :=
  [u8 (alarm_id n .>> 8); u8 (alarm_id n); u8 (trigger_time n .>> 24); u8 (trigger_time n .>> 16);
   u8 (trigger_time n .>> 8); u8 (trigger_time n); u8 (alarm_value n .>> 8); u8 (alarm_value n)].

Fixpoint walk_nodes (start_num : nat) (l : list alram_node) : option (list alram_node) :=
  match start_num with
  | O => Some l
  | S k => match l with [] => None | [_] => None | _ :: l' => walk_nodes k l' end
  end.

Fixpoint read_nodes (len : nat) (l : list alram_node) (read_len : Z) (acc : list Z)
  : option (Z * list Z) :=
  match len with
  | O => Some (read_len, acc)
  | S k =>
      match l with
      | [] => None
      | [n] => Some (u8 (read_len + 1), acc ++ node_bytes n)
      | n :: l' => read_nodes k l' (u8 (read_len + 1)) (acc ++ node_bytes n)
      end
  end.

Definition get_alarm_status (w : world) (start_num len : Z) : option (Z * list Z) :=
  if w⟪status_total_cnt⟫ <=? start_num then Some (0, [])
  else match walk_nodes (Z.to_nat start_num) (chain w) with
       | None => Some (0, [])
       | Some l => read_nodes (Z.to_nat len) l 0 []
       end.

(** ** Footprints *)

Definition cnt_fields : list field :=
  [status_total_cnt; status_mioor_cnt; status_pwr_off_alarm; status_major_cnt;
   status_critical_cnt; ComSta_u16Status_remap].

Lemma add_eventlog_fifo_foot a b c d : respc (unch [P_eventlog] []) (add_eventlog_fifo a b c d).
Proof. unfold add_eventlog_fifo. footprint. Qed.
Lemma add_alarmlog_fifo_foot i f v : respc (unch [P_alarmlog] []) (add_alarmlog_fifo i f v).
Proof. unfold add_alarmlog_fifo. destruct f; footprint. Qed.
#[export] Hint Resolve add_eventlog_fifo_foot add_alarmlog_fifo_foot : foot.
Lemma calc_alrarm_cnt_foot : respc (unch cnt_fields []) calc_alrarm_cnt.
Proof. unfold calc_alrarm_cnt. footprint. Qed.
#[export] Hint Resolve calc_alrarm_cnt_foot : foot.
Lemma node_append_foot i v : respa (unch (P_chain :: mp_block_free :: cnt_fields) []) (node_append i v).
Proof. unfold node_append. footprint. Qed.
Lemma node_delete_foot i : respa (unch (P_chain :: mp_block_free :: cnt_fields) []) (node_delete i).
Proof. unfold node_delete. footprint. Qed.
Lemma chain_init_foot : respc (unch (P_chain :: mp_block_free :: cnt_fields) []) chain_init.
Proof. unfold chain_init. footprint. Qed.
#[export] Hint Resolve node_append_foot node_delete_foot chain_init_foot : foot.

(** ** Counters *)

Definition with_level (k : Z) (l : list alram_node) : Z :=
  Z.of_nat (List.length (filter (fun n => level_of n = k) l)).
Definition minor_nodes (l : list alram_node) : Z :=
  Z.of_nat (List.length (filter (fun n => level_of n <> 0 /\ level_of n <> 1) l)).

Lemma count_nodes_spec l a b c :
  0 <= a -> 0 <= b -> 0 <= c -> a + b + c + Z.of_nat (List.length l) < 256 ->
  count_nodes l (a, b, c) = (a + with_level 0 l, b + with_level 1 l, c + minor_nodes l) /\
  with_level 0 l + with_level 1 l + minor_nodes l = Z.of_nat (List.length l).
Proof.
  unfold with_level, minor_nodes. revert a b c.
  induction l as [|n l IH]; intros a b c Ha Hb Hc Hs; cbn [count_nodes List.length] in *.
  { rewrite !filter_nil. cbn. split; [|done]. repeat apply (f_equal2 pair); lia. }
  rewrite !filter_cons.
  destruct (Z.eqb_spec (level_of n) 0) as [E0|E0]; [|destruct (Z.eqb_spec (level_of n) 1) as [E1|E1]];
    do 3 (destruct (decide _); try (exfalso; lia)); cbn [List.length]; rewrite u8_small by lia;
    [destruct (IH (a + 1) b c) as [-> ?] | destruct (IH a (b + 1) c) as [-> ?]
    | destruct (IH a b (c + 1)) as [-> ?]]; try lia; (split; [|lia]; repeat apply (f_equal2 pair); lia).
Qed.

(** Effect of the recount on the counters the display and the protocol read. *)
Lemma calc_alrarm_cnt_total w :
  (List.length (chain w) < 255)%nat ->
  Z.testbit (w⟪status_alarm_bitmap.[5]⟫) 10 = false ->
  let w' := calc_alrarm_cnt w in
  w'⟪status_total_cnt⟫ = Z.of_nat (List.length (chain w)) /\
  w'⟪status_critical_cnt⟫ = with_level 0 (chain w) /\
  w'⟪status_major_cnt⟫ = with_level 1 (chain w) /\
  w'⟪status_mioor_cnt⟫ = minor_nodes (chain w).
Proof.
  intros Hl Hb.
  destruct (count_nodes_spec (chain w) 0 0 0) as [Hc Hs]; try lia.
  assert (0 <= with_level 0 (chain w)) by (unfold with_level; lia).
  assert (0 <= with_level 1 (chain w)) by (unfold with_level; lia).
  assert (0 <= minor_nodes (chain w)) by (unfold minor_nodes; lia).
  unfold calc_alrarm_cnt, letc, here. rewrite Hc.
  change WORK_LIMIT_CATION with (1 .<< 10). rewrite land_pow2, Hb by lia.
  cbv zeta. split_and!; obs; rewrite u16_small; lia.
Qed.

(** ** The chain refines a list of at most [ACL_TOTAL_NUM] nodes *)

(** Every pool block is either free or in the chain, the published total is the length of
    the chain, and bit 10 of the sixth alarm word (a work-limit reminder no code sets) is 0. *)
Record chain_ok (w : world) : Prop := {
  ok_pool : w⟪mp_block_free⟫ + Z.of_nat (List.length (chain w)) = ACL_TOTAL_NUM;
  ok_total : w⟪status_total_cnt⟫ = Z.of_nat (List.length (chain w));
  ok_limit : Z.testbit (w⟪status_alarm_bitmap.[5]⟫) 10 = false
}.

(** Specification of deletion: unlink the first node with this id. *)
Fixpoint remove_first (id : Z) (l : list alram_node) : list alram_node :=
  match l with
  | [] => []
  | n :: l' => if alarm_id n =? id then l' else n :: remove_first id l'
  end.

Definition has_id (id : Z) (l : list alram_node) : bool := existsb (fun n => alarm_id n =? id) l.

Lemma node_find_spec cnt id l :
  (List.length l <= cnt)%nat ->
  match node_find cnt id l with
  | Some k => (k < List.length l)%nat /\ has_id id l = true /\ delete k l = remove_first id l
  | None => has_id id l = false
  end.
Proof.
  revert cnt. induction l as [|n l IH]; intros [|cnt] Hl; cbn [List.length] in *; try done; [lia|].
  cbn [node_find]. unfold has_id. cbn [existsb remove_first].
  destruct (alarm_id n =? id); cbn [orb].
  { split_and!; [lia | done | done]. }
  destruct l as [|m l]; [done|].
  specialize (IH cnt ltac:(cbn in *; lia)). fold (has_id id (m :: l)).
  destruct (node_find cnt id (m :: l)) as [k|]; cbn [fmap option_fmap option_map]; [|done].
  destruct IH as (? & ? & <-). split_and!; [cbn in *; lia | done | done].
Qed.

Lemma remove_first_none id l : has_id id l = false -> remove_first id l = l.
Proof.
  induction l as [|n l IH]; [done|]. unfold has_id. cbn. intros [-> ?]%orb_false_iff.
  by rewrite IH.
Qed.

Lemma chain_ok_recount w :
  w⟪mp_block_free⟫ + Z.of_nat (List.length (chain w)) = ACL_TOTAL_NUM ->
  Z.testbit (w⟪status_alarm_bitmap.[5]⟫) 10 = false ->
  chain_ok (calc_alrarm_cnt w) /\ chain (calc_alrarm_cnt w) = chain w.
Proof.
  intros Hp Hb. pose proof (rd_u16 w mp_block_free eq_refl) as Hr.
  destruct (calc_alrarm_cnt_total w) as (Ht & _); [lia | done |].
  split; [split|]; obs; done.
Qed.

Lemma node_append_ok w id v :
  chain_ok w -> (List.length (chain w) < 23)%nat ->
  (node_append id v w).1 = 1 /\ chain_ok (node_append id v w).2 /\
  chain (node_append id v w).2 = AlarmNode (w⟪rtc_now⟫) id v :: chain w.
Proof.
  intros [Hp Ht Hb] Hl. unfold node_append, cif.
  destruct (Z.eqb_spec (w⟪mp_block_free⟫) 0); [lia|].
  unfold seqc, letc, reta; cbn [fst snd]. split; [done|].
  set (w1 := assign mp_block_free _ w).
  destruct (chain_ok_recount (set_chain (AlarmNode (w1⟪rtc_now⟫) id v :: chain w1) w1)) as [H1 H2].
  - change (_ ⟪mp_block_free⟫) with (w1⟪mp_block_free⟫). cbn [chain set_chain List.length].
    subst w1. obs. cbn [chain assign wr set_mem]. pose proof (rd_u16 w mp_block_free eq_refl) as Hr.
    rewrite u16_small; lia.
  - change (_ ⟪status_alarm_bitmap.[5]⟫) with (w1⟪status_alarm_bitmap.[5]⟫). subst w1. by obs.
  - split; [done|]. rewrite H2. cbn [chain set_chain]. subst w1. by obs.
Qed.

(** A full pool refuses the node and changes nothing. *)
Lemma node_append_full w id v : w⟪mp_block_free⟫ = 0 -> node_append id v w = (0, w).
Proof. intros H. unfold node_append, cif. by rewrite H. Qed.

Lemma node_delete_ok w id :
  chain_ok w ->
  (node_delete id w).1 = (if has_id id (chain w) then 1 else 0) /\
  chain_ok (node_delete id w).2 /\
  chain (node_delete id w).2 = remove_first id (chain w).
Proof.
  intros Hok. pose proof Hok as [Hp Ht Hb]. pose proof (rd_u16 w mp_block_free eq_refl) as Hr.
  unfold node_delete, letc, here. destruct (chain w) as [|n l] eqn:E; [done|].
  rewrite <- E in *. rewrite u8_small, Ht, Nat2Z.id by lia.
  pose proof (node_find_spec (List.length (chain w)) id (chain w) ltac:(lia)) as Hf.
  destruct (node_find _ _ _) as [k|].
  2: { rewrite Hf, remove_first_none by done. done. }
  destruct Hf as (Hk & -> & Hdel). unfold seqc, reta; cbn [fst snd]. split; [done|].
  set (w1 := assign mp_block_free _ _).
  assert (chain w1 = remove_first id (chain w)) as Hc by (rewrite <- Hdel; done).
  destruct (chain_ok_recount w1) as [H1 H2].
  - rewrite Hc, <- Hdel, length_delete by (by apply lookup_lt_is_Some). subst w1. obs.
    rewrite u16_small; lia.
  - subst w1. obs. done.
  - split; [done|]. by rewrite H2.
Qed.

(** ** Reading the chain a page at a time *)

Definition page_bytes (l : list alram_node) : list Z := concat (node_bytes <$> l).

Lemma walk_nodes_spec k l :
  (k < List.length l)%nat -> walk_nodes k l = Some (drop k l).
Proof.
  revert l. induction k as [|k IH]; intros l Hk; [done|].
  destruct l as [|n [|m l]]; cbn in Hk; [lia | lia|]. cbn [walk_nodes drop].
  apply IH. cbn. lia.
Qed.

Lemma read_nodes_spec k l r acc :
  l <> [] -> 0 <= r -> r + Z.of_nat k < 256 ->
  read_nodes k l r acc =
    Some (r + Z.of_nat (List.length (take k l)), acc ++ page_bytes (take k l)).
Proof.
  unfold page_bytes. revert l r acc. induction k as [|k IH]; intros l r acc Hl Hr Hs.
  { cbn. rewrite app_nil_r, Z.add_0_r. done. }
  destruct l as [|n l]; [done|]. destruct l as [|m l].
  - cbn [read_nodes take]. rewrite take_nil, u8_small by lia.
    cbn [List.length fmap list_fmap concat]. by rewrite app_nil_r.
  - cbn [read_nodes]. rewrite u8_small, IH by (done || lia).
    cbn [take List.length fmap list_fmap concat]. rewrite <- app_assoc. do 2 f_equal. lia.
Qed.

(** A page of the active-alarm list.  With the chain well formed, [get_alarm_status]
    never follows a null pointer and returns exactly the nodes from position [start_num],
    at most [len] of them, newest first, eight bytes each; past the end it returns none. *)
Theorem get_alarm_status_page w start_num len :
  chain_ok w -> 0 <= start_num -> 0 <= len < 256 ->
  let page := take (Z.to_nat len) (drop (Z.to_nat start_num) (chain w)) in
  get_alarm_status w start_num len =
    Some (Z.of_nat (List.length page), page_bytes page).
Proof.
  intros [Hp Ht Hb] Hs Hl. cbv zeta. unfold get_alarm_status. rewrite Ht.
  destruct (Z.leb_spec (Z.of_nat (List.length (chain w))) start_num) as [Hge|Hlt].
  - rewrite drop_ge by lia. by rewrite take_nil.
  - rewrite walk_nodes_spec by lia. apply read_nodes_spec; [|lia..].
    intros E%(f_equal List.length). rewrite length_drop in E. cbn in E. lia.
Qed.

Lemma get_alarm_status_page_witness :
  let w := (node_append 7 1 (node_append 515 2 (chain_init w_zero)).2).2 in
  chain_ok w /\ get_alarm_status w 1 5 = Some (1, [2; 3; 0; 0; 0; 0; 0; 2]).
Proof.
  assert (chain_ok (node_append 7 1 (node_append 515 2 (chain_init w_zero)).2).2) as Hok
    by (split; vm_compute; reflexivity).
  split; [exact Hok|].
  rewrite (get_alarm_status_page _ 1 5 Hok) by lia. vm_compute. reflexivity.
Defined.

(** The chain of active alarms and its memory pool.  From a well-formed chain, an append
    with a block left links the new alarm in front and returns 1, an append with an empty
    pool returns 0 and changes nothing, and a delete unlinks the first node of that alarm,
    returns its block and reports whether there was one; the chain stays well formed: no
    block is lost and the published total is its length. *)
Theorem chain_operations w id v :
  chain_ok w ->
  ((0 < w⟪mp_block_free⟫ /\ (node_append id v w).1 = 1 /\
    chain (node_append id v w).2 = AlarmNode (w⟪rtc_now⟫) id v :: chain w) \/
   (w⟪mp_block_free⟫ = 0 /\ node_append id v w = (0, w))) /\
  chain_ok (node_append id v w).2 /\
  (node_delete id w).1 = (if has_id id (chain w) then 1 else 0) /\
  chain (node_delete id w).2 = remove_first id (chain w) /\
  chain_ok (node_delete id w).2.
Proof.
  intros Hok. destruct (node_delete_ok w id Hok) as (H1 & H2 & H3).
  pose proof (rd_u16 w mp_block_free eq_refl) as Hr. pose proof (ok_pool w Hok) as Hp.
  destruct (Z.eq_dec (w⟪mp_block_free⟫) 0) as [E|E].
  - rewrite node_append_full by done. split_and!; auto.
  - destruct (node_append_ok w id v Hok) as (A1 & A2 & A3); [lia|].
    split_and!; auto. left. split_and!; auto. lia.
Qed.

Lemma chain_operations_witness :
  let w := chain_init w_zero in
  chain_ok w /\ (node_append 515 2 w).1 = 1 /\ chain_ok (node_append 515 2 w).2.
Proof.
  assert (chain_ok (chain_init w_zero)) as Hok by (split; vm_compute; reflexivity).
  destruct (chain_operations (chain_init w_zero) 515 2 Hok) as (H1 & H2 & _).
  split_and!; [exact Hok | vm_compute; reflexivity | exact H2].
Defined.
