(* ===== verification/Eeprom.v ===== *)
(** * drivers/i2c_bsp.c and the triplicated registers of applications/global_var.c

    The EEPROM is a byte memory of 64 KiB written in pages of 64 bytes: a page write
    that runs past the end of its page wraps to the start of the same page, a read runs
    on sequentially.  The bus itself (start, stop, acknowledge, the mutex) is taken as
    working here; file EepromBus models it and proves that its transfers are these.  On top of it are the buffer write that splits a
    buffer into pages, and the configuration words kept in three copies, each copy
    followed by the exclusive-or of its words. *)

From S2P Require Import Prelude Conf Fifo Machine.

Abbreviation I2C2_EE_PageSize := 64.
Abbreviation EEPROM_NOERRO := 0.
Abbreviation STS_EE_ADDR := 0.
Abbreviation CONF_REG_EE1_ADDR := 512.
Abbreviation CONF_REG_EE2_ADDR := (CONF_REG_EE1_ADDR + 2 * (CONF_REG_MAP_NUM + 1)).
Abbreviation CONF_REG_EE3_ADDR := (CONF_REG_EE2_ADDR + 2 * (CONF_REG_MAP_NUM + 1)).
Abbreviation CONF_REG_FACT_ADDR := (CONF_REG_EE3_ADDR + 2 * (CONF_REG_MAP_NUM + 1)).
Abbreviation STS_REG_EE1_ADDR := (CONF_REG_FACT_ADDR + 2 * (CONF_REG_MAP_NUM + 1)).

(** ** The chip and the buffer transfers *)

Definition put_byte (a v : Z) (m : Z -> Z) : Z -> Z := fun b => if a =? b then v else m b.

(** The chip's address counter advances inside the page. *)
Definition page_next (a : Z) : Z :=
  I2C2_EE_PageSize * (a / I2C2_EE_PageSize) + (a + 1) mod I2C2_EE_PageSize.

Fixpoint page_write (a : Z) (l : list Z) (m : Z -> Z) : Z -> Z :=
  match l with
  | [] => m
  | b :: l' => page_write (page_next a) l' (put_byte a b m)
  end.

Definition WriteEEROMPage (write_buffer : list Z) (write_addr num_byte_write : Z) : act Z :=
  (fun w => set_ee (page_write write_addr (take (Z.to_nat num_byte_write) write_buffer) (ee w)) w);;
  RETURN EEPROM_NOERRO.

(** The loop [while (page_number--)] over whole pages. *)
Fixpoint write_pages (page_number : nat) (write_buffer : list Z) (write_addr : Z) : cmd :=
  match page_number with
  | O => skip
  | S n =>
      RUN (WriteEEROMPage write_buffer write_addr I2C2_EE_PageSize);;
      write_pages n (drop (Z.to_nat I2C2_EE_PageSize) write_buffer)
        (u16 (write_addr + I2C2_EE_PageSize))
  end.

Definition I2C_EE_BufWrite_bsp (write_buffer : list Z) (write_addr num_byte_write : Z) : act Z :=
  let byte_count := u8 (I2C2_EE_PageSize - write_addr mod I2C2_EE_PageSize) in
  let byte_count := if num_byte_write <=? byte_count then u8 num_byte_write else byte_count in
  CALL e := WriteEEROMPage write_buffer write_addr byte_count IN
  let num_byte_write := u16 (num_byte_write - byte_count) in
  if num_byte_write =? 0 then RETURN EEPROM_NOERRO
  else
    let write_addr := u16 (write_addr + byte_count) in
    let write_buffer := drop (Z.to_nat byte_count) write_buffer in
    let page_number := num_byte_write / I2C2_EE_PageSize in
    write_pages (Z.to_nat page_number) write_buffer write_addr;;
    let written := page_number * I2C2_EE_PageSize in
    let num_byte_write := u16 (num_byte_write - written) in
    if num_byte_write =? 0 then RETURN EEPROM_NOERRO
    else
      RUN (WriteEEROMPage (drop (Z.to_nat written) write_buffer)
             (u16 (write_addr + written)) num_byte_write);;
      RETURN EEPROM_NOERRO.

Definition I2C_EE_BufWrite := I2C_EE_BufWrite_bsp.

Definition read_bytes (m : Z -> Z) (a : Z) (n : nat) : list Z :=
  (fun k => u8 (m (u16 (a + Z.of_nat k)))) <$> seq 0 n.

(** Reading [num_byte_Read] bytes; a request for none still transfers one. *)
Definition I2C_EE_BufRead_bsp {w : cur} (read_addr num_byte_Read : Z) : list Z :=
  read_bytes (ee here) read_addr (S (Z.to_nat (num_byte_Read - 1))).

Definition I2C_EE_BufRead {w : cur} := @I2C_EE_BufRead_bsp w.

(** ** The buffer write is a flat write *)

Definition flat_write (a : Z) (l : list Z) (m : Z -> Z) : Z -> Z :=
  fun b => if (a <=? b) && (b <? a + Z.of_nat (List.length l))
           then nth (Z.to_nat (b - a)) l 0 else m b.

Lemma flat_write_nil a m b : flat_write a [] m b = m b.
Proof.
  unfold flat_write. case_match eqn:E; [|done].
  apply andb_true_iff in E as [?%Z.leb_le ?%Z.ltb_lt]. cbn in *. lia.
Qed.

Lemma flat_write_cons a v l m b :
  flat_write a (v :: l) m b = flat_write (a + 1) l (put_byte a v m) b.
Proof.
  unfold flat_write, put_byte. cbn [List.length].
  destruct (Z.leb_spec a b), (Z.ltb_spec b (a + Z.of_nat (S (List.length l)))),
    (Z.leb_spec (a + 1) b), (Z.ltb_spec b (a + 1 + Z.of_nat (List.length l))); cbn [andb];
    try lia; destruct (Z.eqb_spec a b); try lia; try done.
  - replace (Z.to_nat (b - a)) with (S (Z.to_nat (b - (a + 1)))) by lia. done.
  - subst. by rewrite Z.sub_diag.
Qed.

Lemma flat_write_ext a l m m' b : (forall x, m x = m' x) -> flat_write a l m b = flat_write a l m' b.
Proof. intros H. unfold flat_write. by rewrite H. Qed.

Lemma flat_write_app a l1 l2 m b :
  flat_write a (l1 ++ l2) m b =
  flat_write (a + Z.of_nat (List.length l1)) l2 (flat_write a l1 m) b.
Proof.
  revert a m. induction l1 as [|v l1 IH]; intros a m; cbn [app List.length].
  - rewrite Z.add_0_r. apply flat_write_ext. intros x. by rewrite flat_write_nil.
  - rewrite flat_write_cons, IH. replace (a + Z.of_nat (S (List.length l1)))
      with (a + 1 + Z.of_nat (List.length l1)) by lia.
    apply flat_write_ext. intros x. by rewrite flat_write_cons.
Qed.

(** A page write that stays inside its page is a flat write. *)
Lemma page_write_flat l a m b :
  0 <= a -> a mod I2C2_EE_PageSize + Z.of_nat (List.length l) <= I2C2_EE_PageSize ->
  page_write a l m b = flat_write a l m b.
Proof.
  revert a m. induction l as [|v l IH]; intros a m Ha Hl; cbn [page_write].
  { by rewrite flat_write_nil. }
  cbn [List.length] in Hl. rewrite flat_write_cons.
  destruct l as [|v' l']; [cbn [page_write]; by rewrite flat_write_nil|].
  cbn [List.length] in Hl.
  assert ((a + 1) mod 64 = a mod 64 + 1) as Hm.
  { rewrite <- Zplus_mod_idemp_l. apply Z.mod_small. pose proof (Z.mod_pos_bound a 64). lia. }
  assert (page_next a = a + 1) as ->.
  { unfold page_next. rewrite Hm. pose proof (Z.div_mod a 64). lia. }
  apply IH; [lia|]. rewrite Hm. cbn [List.length]. lia.
Qed.

Lemma write_page_flat l a n w b :
  0 <= a -> 0 <= n <= Z.of_nat (List.length l) -> a mod 64 + n <= 64 ->
  ee (WriteEEROMPage l a n w).2 b = flat_write a (take (Z.to_nat n) l) (ee w) b.
Proof. intros. cbn. rewrite page_write_flat; [done | lia |]. rewrite length_take. lia. Qed.

Lemma write_pages_flat n l a w b :
  0 <= a -> a mod 64 = 0 -> 64 * Z.of_nat n <= Z.of_nat (List.length l) ->
  a + 64 * Z.of_nat n < 65536 ->
  ee (write_pages n l a w) b = flat_write a (take (64 * n) l) (ee w) b.
Proof.
  revert l a w. induction n as [|n IH]; intros l a w Ha Hm Hl Hu; cbn [write_pages].
  { by rewrite Nat.mul_0_r, take_0, flat_write_nil. }
  unfold seqc, runc. rewrite u16_small by lia.
  assert ((a + 64) mod 64 = 0) as Hm' by (rewrite <- Zplus_mod_idemp_l, Hm; done).
  rewrite IH; [|lia | done | rewrite length_drop; lia | lia].
  replace (64 * S n)%nat with (64 + 64 * n)%nat by lia.
  rewrite <- take_take_drop, flat_write_app, length_take.
  replace (a + Z.of_nat (64 `min` List.length l)) with (a + 64) by lia.
  apply flat_write_ext. intros x. apply write_page_flat; lia.
Qed.

Lemma bufwrite_flat w l a n b :
  0 <= a -> n = Z.of_nat (List.length l) -> a + n < 65536 ->
  ee (I2C_EE_BufWrite l a n w).2 b = flat_write a l (ee w) b.
Proof.
  intros Ha Hn Hu. unfold I2C_EE_BufWrite, I2C_EE_BufWrite_bsp.
  pose proof (Z.mod_pos_bound a 64 ltac:(lia)) as Hma.
  rewrite (u8_small (64 - a mod 64)) by lia.
  set (bc := if n <=? 64 - a mod 64 then u8 n else 64 - a mod 64).
  assert (0 <= bc <= n /\ a mod 64 + bc <= 64 /\ (bc = n \/ a mod 64 + bc = 64)) as (Hbc & Hpg & Hor).
  { unfold bc. destruct (Z.leb_spec n (64 - a mod 64)); [rewrite u8_small|]; lia. }
  clearbody bc. unfold bindc. rewrite u16_small by lia.
  set (w1 := (WriteEEROMPage l a bc w).2).
  assert (forall x, ee w1 x = flat_write a (take (Z.to_nat bc) l) (ee w) x) as H1
    by (intros; apply write_page_flat; lia).
  destruct (Z.eqb_spec (n - bc) 0) as [E|E].
  { cbn [reta snd]. rewrite H1, take_ge by lia. done. }
  rewrite (u16_small (a + bc)) by lia.
  assert ((a + bc) mod 64 = 0) as Hal.
  { rewrite <- Zplus_mod_idemp_l. destruct Hor as [|Hor]; [lia | by rewrite Hor]. }
  set (l1 := drop (Z.to_nat bc) l). set (q := (n - bc) / 64).
  assert (0 <= q /\ 64 * q <= n - bc < 64 * q + 64) as Hq by (unfold q; Z.div_mod_to_equations; lia).
  assert (Z.of_nat (List.length l1) = n - bc) as Hl1 by (unfold l1; rewrite length_drop; lia).
  unfold seqc. set (w2 := write_pages _ _ _ w1).
  assert (forall x, ee w2 x = flat_write (a + bc) (take (Z.to_nat (q * 64)) l1) (ee w1) x) as H2.
  { intros x. unfold w2. rewrite write_pages_flat by lia. do 2 f_equal. lia. }
  assert (l = take (Z.to_nat bc) l ++ take (Z.to_nat (q * 64)) l1 ++ drop (Z.to_nat (q * 64)) l1) as Hsplit.
  { rewrite (take_drop (Z.to_nat (q * 64)) l1). unfold l1. by rewrite take_drop. }
  rewrite Hsplit, !flat_write_app, !length_take.
  replace (a + Z.of_nat (Z.to_nat bc `min` List.length l)) with (a + bc) by lia.
  replace (a + bc + Z.of_nat (Z.to_nat (q * 64) `min` List.length l1)) with (a + bc + q * 64) by lia.
  rewrite u16_small by lia.
  assert (forall x, ee w2 x = flat_write (a + bc) (take (Z.to_nat (q * 64)) l1)
    (flat_write a (take (Z.to_nat bc) l) (ee w)) x) as H3.
  { intros x. rewrite H2. by apply flat_write_ext. }
  destruct (Z.eqb_spec (n - bc - q * 64) 0) as [E2|E2].
  - cbn [reta snd]. rewrite H3, (drop_ge l1) by lia. by rewrite flat_write_nil.
  - unfold runc. rewrite (u16_small (a + bc + q * 64)) by lia. cbn [reta snd].
    rewrite write_page_flat; [|lia | rewrite length_drop; lia |].
    2: { rewrite <- Zplus_mod_idemp_l, Hal, Z.add_0_l, Z_mod_mult. lia. }
    rewrite take_ge by (rewrite length_drop; lia). by apply flat_write_ext.
Qed.

(** Writing a buffer to the EEPROM.  For any address and length inside the chip, the
    split into a head, whole pages and a tail stores exactly the bytes of the buffer at
    consecutive addresses and touches no other byte, although the chip wraps a page write
    at the page boundary. *)
Theorem I2C_EE_BufWrite_flat w l a n b :
  0 <= a -> n = Z.of_nat (List.length l) -> a + n < 65536 ->
  ee (I2C_EE_BufWrite l a n w).2 b = flat_write a l (ee w) b.
Proof. apply bufwrite_flat. Qed.

(** 100 bytes from address 60: a head of 4, one whole page, a tail of 32. *)
Lemma I2C_EE_BufWrite_flat_witness :
  let l := Z.of_nat <$> seq 0 100 in
  ee (I2C_EE_BufWrite l 60 100 w_zero).2 159 = flat_write 60 l (ee w_zero) 159 /\
  flat_write 60 l (ee w_zero) 159 = 99.
Proof.
  split; [|vm_compute; reflexivity].
  apply I2C_EE_BufWrite_flat; [lia | reflexivity | lia].
Defined.

(** ** Words and the three copies *)

(** The half-word at address [a]. *)
Definition ee_word (w : world) (a : Z) : Z := of_le16 (@I2C_EE_BufRead w a 2).

Definition eeprom_singel_write (base_addr reg_offset_addr wr_data rd_data : Z) : act Z :=
  LET cs_data := of_le16 (I2C_EE_BufRead (base_addr + (CONF_REG_MAP_NUM .<< 1)) 2) IN
  let ee_rd_cheksum := cs_data .^ rd_data .^ wr_data in
  CALL e1 := I2C_EE_BufWrite (le16 wr_data) (base_addr + (reg_offset_addr .<< 1)) 2 IN
  CALL e2 := I2C_EE_BufWrite (le16 ee_rd_cheksum) (base_addr + (CONF_REG_MAP_NUM .<< 1)) 2 IN
  RETURN (EEPROM_NOERRO + e1 + e2).

(** [*rd_data] is an in-out argument: when all three copies are zero it is not written. *)
Definition eeprom_compare_read (reg_offset_addr rd_data : Z) : act (Z * Z) :=
  LET rd_buf0 := of_le16 (I2C_EE_BufRead (CONF_REG_EE1_ADDR + (reg_offset_addr .<< 1)) 2) IN
  LET rd_buf1 := of_le16 (I2C_EE_BufRead (CONF_REG_EE2_ADDR + (reg_offset_addr .<< 1)) 2) IN
  LET rd_buf2 := of_le16 (I2C_EE_BufRead (CONF_REG_EE3_ADDR + (reg_offset_addr .<< 1)) 2) IN
  if (rd_buf0 =? rd_buf1) && (rd_buf2 =? rd_buf1) then
    RETURN (0, if nz rd_buf0 then rd_buf0 else rd_data)
  else if (rd_buf0 =? rd_buf1) || (rd_buf0 =? rd_buf2) || (rd_buf1 =? rd_buf2) then
    if rd_buf0 =? rd_buf1 then
      RUN (eeprom_singel_write CONF_REG_EE3_ADDR reg_offset_addr rd_buf0 rd_buf2);;
      RETURN (0, rd_buf0)
    else if rd_buf0 =? rd_buf2 then
      RUN (eeprom_singel_write CONF_REG_EE2_ADDR reg_offset_addr rd_buf2 rd_buf1);;
      RETURN (0, rd_buf2)
    else
      RUN (eeprom_singel_write CONF_REG_EE1_ADDR reg_offset_addr rd_buf1 rd_buf0);;
      RETURN (0, rd_buf1)
  else RETURN (1, 0x7fff).

(** [cs_data] is an uninitialised local when [eeprom_compare_read] is called; its
    indeterminate value is the object [stack_cs_data]. *)
Definition eeprom_tripple_write (reg_offset_addr wr_data rd_data : Z) : act Z :=
  LET cs0 := «stack_cs_data» IN
  CALL r := eeprom_compare_read CONF_REG_MAP_NUM cs0 IN
  if r.1 =? 0 then
    let ee_rd_cheksum := r.2 .^ rd_data .^ wr_data in
    CALL e1 := I2C_EE_BufWrite (le16 wr_data) (CONF_REG_EE1_ADDR + (reg_offset_addr .<< 1)) 2 IN
    CALL e2 := I2C_EE_BufWrite (le16 wr_data) (CONF_REG_EE2_ADDR + (reg_offset_addr .<< 1)) 2 IN
    CALL e3 := I2C_EE_BufWrite (le16 wr_data) (CONF_REG_EE3_ADDR + (reg_offset_addr .<< 1)) 2 IN
    CALL e4 := I2C_EE_BufWrite (le16 ee_rd_cheksum) (CONF_REG_EE1_ADDR + CONF_REG_MAP_NUM * 2) 2 IN
    CALL e5 := I2C_EE_BufWrite (le16 ee_rd_cheksum) (CONF_REG_EE2_ADDR + CONF_REG_MAP_NUM * 2) 2 IN
    CALL e6 := I2C_EE_BufWrite (le16 ee_rd_cheksum) (CONF_REG_EE3_ADDR + CONF_REG_MAP_NUM * 2) 2 IN
    RETURN (e1 + e2 + e3 + e4 + e5 + e6)
  else RETURN (-1).

(** ** Footprints *)

Lemma WriteEEROMPage_foot l a n : respa (unch [P_ee] []) (WriteEEROMPage l a n).
Proof. unfold WriteEEROMPage. footprint. Qed.
#[export] Hint Resolve WriteEEROMPage_foot : foot.
Lemma write_pages_foot n l a : respc (unch [P_ee] []) (write_pages n l a).
Proof. revert l a. induction n; intros; cbn [write_pages]; footprint. Qed.
#[export] Hint Resolve write_pages_foot : foot.
Lemma I2C_EE_BufWrite_foot l a n : respa (unch [P_ee] []) (I2C_EE_BufWrite l a n).
Proof. unfold I2C_EE_BufWrite, I2C_EE_BufWrite_bsp. footprint. Qed.
#[export] Hint Resolve I2C_EE_BufWrite_foot : foot.
Lemma eeprom_singel_write_foot b o v r : respa (unch [P_ee] []) (eeprom_singel_write b o v r).
Proof. unfold eeprom_singel_write. footprint. Qed.
#[export] Hint Resolve eeprom_singel_write_foot : foot.
Lemma eeprom_compare_read_foot o r : respa (unch [P_ee] []) (eeprom_compare_read o r).
Proof. unfold eeprom_compare_read. footprint. Qed.
#[export] Hint Resolve eeprom_compare_read_foot : foot.
Lemma eeprom_tripple_write_foot o v r : respa (unch [P_ee] []) (eeprom_tripple_write o v r).
Proof. unfold eeprom_tripple_write. footprint. Qed.
#[export] Hint Resolve eeprom_tripple_write_foot : foot.

(** ** Reading words back *)

Lemma ee_word_bytes w a :
  ee_word w a = u8 (ee w (u16 a)) + 256 * u8 (ee w (u16 (a + 1))).
Proof. unfold ee_word, of_le16. cbn -[u8 u16]. by rewrite Z.add_0_r. Qed.

Definition stw (a v : Z) (w : world) : world := (I2C_EE_BufWrite (le16 v) a 2 w).2.

Lemma u8_idemp v : u8 (u8 v) = u8 v.
Proof. apply u8_small, u8_range. Qed.

Lemma ee_word_stw a v w a' :
  0 <= a -> a + 2 < 65536 -> 0 <= a' -> a' + 2 < 65536 -> a' = a \/ a' + 2 <= a \/ a + 2 <= a' ->
  ee_word (stw a v w) a' = if a' =? a then u16 v else ee_word w a'.
Proof.
  intros Ha Hu Ha' Hu' Hc. rewrite !ee_word_bytes. unfold stw.
  rewrite !bufwrite_flat by (done || cbn; lia). rewrite !(u16_small a'), !(u16_small (a' + 1)) by lia.
  unfold flat_write. cbn [le16 List.length].
  destruct (Z.eqb_spec a' a) as [->|Hne].
  - destruct (Z.leb_spec a a), (Z.ltb_spec a (a + Z.of_nat 2)), (Z.leb_spec a (a + 1)),
      (Z.ltb_spec (a + 1) (a + Z.of_nat 2)); try lia. cbn [andb].
    rewrite Z.sub_diag. replace (Z.to_nat (a + 1 - a)) with 1%nat by lia.
    change (Z.to_nat 0) with 0%nat. unfold le16. cbn [nth]. rewrite !u8_idemp. apply (of_le16_le16 v).
  - destruct (Z.leb_spec a a'), (Z.ltb_spec a' (a + Z.of_nat 2)), (Z.leb_spec a (a' + 1)),
      (Z.ltb_spec (a' + 1) (a + Z.of_nat 2)); try lia; done.
Qed.

(** Word [i] of copy [k]; word [CONF_REG_MAP_NUM] is the copy's checksum. *)
Definition copy_addr (k i : Z) : Z := CONF_REG_EE1_ADDR + 872 * k + 2 * i.
Definition cw (w : world) (k i : Z) : Z := ee_word w (copy_addr k i).

Lemma cw_stw k i v w k' i' :
  0 <= k <= 3 -> 0 <= i <= 435 -> 0 <= k' <= 3 -> 0 <= i' <= 435 ->
  cw (stw (copy_addr k i) v w) k' i' = if (k' =? k) && (i' =? i) then u16 v else cw w k' i'.
Proof.
  intros. unfold cw. rewrite ee_word_stw by (unfold copy_addr; lia).
  destruct (Z.eqb_spec k' k) as [->|], (Z.eqb_spec i' i) as [->|]; cbn [andb].
  - by rewrite Z.eqb_refl.
  - destruct (Z.eqb_spec (copy_addr k i') (copy_addr k i)); [unfold copy_addr in *; lia | done].
  - destruct (Z.eqb_spec (copy_addr k' i) (copy_addr k i)); [unfold copy_addr in *; lia | done].
  - destruct (Z.eqb_spec (copy_addr k' i') (copy_addr k i)); [unfold copy_addr in *; lia | done].
Qed.

Lemma ee_word_range w a : 0 <= ee_word w a < 65536.
Proof.
  rewrite ee_word_bytes. pose proof (u8_range (ee w (u16 a))).
  pose proof (u8_range (ee w (u16 (a + 1)))). lia.
Qed.

Lemma u16_lxor a b : 0 <= a < 65536 -> 0 <= b < 65536 -> 0 <= a .^ b < 65536.
Proof.
  intros Ha Hb. apply (bits_bound _ 16); [lia|]. intros j Hj. rewrite Z.lxor_spec.
  rewrite <- (u16_small a Ha), <- (u16_small b Hb), !u16_testbit_high by lia. done.
Qed.

(** Storing a word in one copy with the checksum adjusted. *)
Lemma singel_write_stw k o v r w :
  0 <= k <= 2 -> 0 <= o <= 435 ->
  (eeprom_singel_write (copy_addr k 0) o v r w).2 =
  stw (copy_addr k 435) (cw w k 435 .^ r .^ v) (stw (copy_addr k o) v w).
Proof.
  intros Hk Ho. unfold eeprom_singel_write, letc, bindc, reta, stw, cw, ee_word. cbn [snd].
  rewrite !Z.shiftl_mul_pow2 by lia.
  replace (copy_addr k 0 + 435 * 2 ^ 1) with (copy_addr k 435) by (unfold copy_addr; lia).
  by replace (copy_addr k 0 + o * 2 ^ 1) with (copy_addr k o) by (unfold copy_addr; lia).
Qed.

Lemma compare_read_unfold o g w :
  eeprom_compare_read o g w =
  let x := cw w 0 o in let y := cw w 1 o in let z := cw w 2 o in
  if (x =? y) && (z =? y) then ((0, if nz x then x else g), w)
  else if (x =? y) || (x =? z) || (y =? z) then
    if x =? y then ((0, x), (eeprom_singel_write (copy_addr 2 0) o x z w).2)
    else if x =? z then ((0, z), (eeprom_singel_write (copy_addr 1 0) o z y w).2)
    else ((0, y), (eeprom_singel_write (copy_addr 0 0) o y x w).2)
  else ((1, 0x7fff), w).
Proof.
  unfold eeprom_compare_read, letc. rewrite Z.shiftl_mul_pow2 by lia. change (2 ^ 1) with 2.
  replace (CONF_REG_EE1_ADDR + o * 2) with (copy_addr 0 o) by (unfold copy_addr; lia).
  replace (CONF_REG_EE2_ADDR + o * 2) with (copy_addr 1 o) by (unfold copy_addr; lia).
  replace (CONF_REG_EE3_ADDR + o * 2) with (copy_addr 2 o) by (unfold copy_addr; lia).
  change CONF_REG_EE3_ADDR with (copy_addr 2 0). change CONF_REG_EE2_ADDR with (copy_addr 1 0).
  unfold cw, ee_word. cbv zeta.
  change CONF_REG_EE1_ADDR with (copy_addr 0 0).
  repeat case_match; done.
Qed.

(** ** Majority vote and repair *)

(** Value held by at least two of three copies. *)
Definition majority (x y z : Z) : option Z :=
  if x =? y then Some x else if x =? z then Some x else if y =? z then Some y else None.

Lemma cw_singel_write k o v r w k' i' :
  0 <= k <= 2 -> 0 <= o < 435 -> 0 <= k' <= 2 -> 0 <= i' < 435 -> 0 <= v < 65536 ->
  cw (eeprom_singel_write (copy_addr k 0) o v r w).2 k' i' =
  if (k' =? k) && (i' =? o) then v else cw w k' i'.
Proof.
  intros. rewrite singel_write_stw, !cw_stw by lia.
  destruct (Z.eqb_spec i' 435); [lia|]. rewrite andb_false_r.
  case_match; [by rewrite u16_small | done].
Qed.

(** The vote: [g] is what the caller's variable holds, read when all copies are zero. *)
Lemma compare_read_vote w o g v :
  0 <= o < CONF_REG_MAP_NUM -> majority (cw w 0 o) (cw w 1 o) (cw w 2 o) = Some v -> v <> 0 \/ g = 0 ->
  (eeprom_compare_read o g w).1 = (0, v) /\
  forall k i, 0 <= k <= 2 -> 0 <= i < CONF_REG_MAP_NUM ->
    cw (eeprom_compare_read o g w).2 k i = if i =? o then v else cw w k i.
Proof.
  intros Ho Hm Hv. rewrite compare_read_unfold. cbv zeta. unfold majority in Hm.
  pose proof (ee_word_range w (copy_addr 0 o)). pose proof (ee_word_range w (copy_addr 1 o)).
  pose proof (ee_word_range w (copy_addr 2 o)). fold (cw w 0 o) (cw w 1 o) (cw w 2 o) in *.
  destruct (Z.eqb_spec (cw w 0 o) (cw w 1 o)) as [E1|E1],
    (Z.eqb_spec (cw w 2 o) (cw w 1 o)) as [E2|E2],
    (Z.eqb_spec (cw w 0 o) (cw w 2 o)) as [E3|E3],
    (Z.eqb_spec (cw w 1 o) (cw w 2 o)) as [E4|E4]; cbn [andb orb]; try congruence;
    injection Hm as <-; cbn [fst snd];
    (split; [try done; unfold nz; destruct (Z.eqb_spec (cw w 0 o) 0); cbn [negb]; destruct Hv; congruence|]);
    intros k i Hk Hi; rewrite ?cw_singel_write by lia;
    destruct (Z.eqb_spec i o) as [->|]; rewrite ?andb_false_r, ?andb_true_r; try done;
    assert (k = 0 \/ k = 1 \/ k = 2) as [->|[->| ->]] by lia; cbn; congruence.
Qed.

(** Reading a configuration word.  When two of the three copies agree on a non-zero
    value, the read succeeds with that value and afterwards all three copies hold it, every
    other configuration word being unchanged in every copy; when all three differ the read
    fails with 0x7fff and changes nothing. *)
Theorem compare_read_majority w o g v :
  0 <= o < CONF_REG_MAP_NUM ->
  let x := cw w 0 o in let y := cw w 1 o in let z := cw w 2 o in
  (majority x y z = Some v -> v <> 0 ->
     (eeprom_compare_read o g w).1 = (0, v) /\
     forall k i, 0 <= k <= 2 -> 0 <= i < CONF_REG_MAP_NUM ->
       cw (eeprom_compare_read o g w).2 k i = if i =? o then v else cw w k i) /\
  (majority x y z = None -> eeprom_compare_read o g w = ((1, 0x7fff), w)).
Proof.
  intros Ho. cbv zeta. split; [intros Hm Hv; apply compare_read_vote; auto|].
  intros Hm. rewrite compare_read_unfold. cbv zeta. unfold majority in Hm. rewrite (Z.eqb_sym (cw w 2 o)).
  destruct (cw w 0 o =? cw w 1 o); [done|]. destruct (cw w 0 o =? cw w 2 o); [done|].
  by destruct (cw w 1 o =? cw w 2 o).
Qed.

(** A bit flipped in the third copy of register 40. *)
Lemma compare_read_majority_witness :
  let w := stw (copy_addr 2 40) 772 (stw (copy_addr 1 40) 260 (stw (copy_addr 0 40) 260 w_zero)) in
  (eeprom_compare_read 40 0 w).1 = (0, 260) /\ cw (eeprom_compare_read 40 0 w).2 2 40 = 260.
Proof.
  set (w := stw (copy_addr 2 40) 772 (stw (copy_addr 1 40) 260 (stw (copy_addr 0 40) 260 w_zero))).
  destruct (compare_read_majority w 40 0 260 ltac:(lia)) as [H _].
  destruct H as [H1 H2]; [vm_compute; reflexivity | lia |].
  split; [exact H1|]. rewrite (H2 2 40) by lia. reflexivity.
Defined.

(** ** The checksum of a copy *)

Definition xor_words (l : list Z) : Z := foldr Z.lxor 0 l.
Definition copy_words (w : world) (k : Z) : list Z := cw w k <$> seqZ 0 CONF_REG_MAP_NUM.
Definition checksum_ok (w : world) (k : Z) : Prop := cw w k CONF_REG_MAP_NUM = xor_words (copy_words w k).

Lemma xor_words_update (f g : Z -> Z) (a n o : Z) :
  a <= o < a + n -> (forall i, i <> o -> g i = f i) ->
  xor_words (g <$> seqZ a n) = xor_words (f <$> seqZ a n) .^ f o .^ g o.
Proof.
  intros Ho Hfg. remember (Z.to_nat n) as m eqn:Hm. revert a n Ho Hm.
  induction m as [|m IH]; intros a n Ho Hm; [lia|].
  rewrite seqZ_cons by lia. cbn [fmap list_fmap xor_words foldr].
  destruct (Z.eq_dec a o) as [->|Hne].
  - assert (g <$> seqZ (Z.succ o) (Z.pred n) = f <$> seqZ (Z.succ o) (Z.pred n)) as Heq.
    { apply list_fmap_ext. intros j x Hx%lookup_seqZ. apply Hfg. lia. }
    unfold xor_words in *. rewrite Heq. set (r := foldr _ _ _).
    rewrite (Z.lxor_comm (f o) r), Z.lxor_assoc, Z.lxor_assoc, <- (Z.lxor_assoc (f o)),
      Z.lxor_nilpotent, Z.lxor_0_l. apply Z.lxor_comm.
  - change (foldr Z.lxor 0 (g <$> seqZ (Z.succ a) (Z.pred n)))
      with (xor_words (g <$> seqZ (Z.succ a) (Z.pred n))).
    rewrite IH, Hfg by lia. unfold xor_words. by rewrite !Z.lxor_assoc.
Qed.

Lemma xor_words_ext (f g : Z -> Z) :
  (forall i, 0 <= i < CONF_REG_MAP_NUM -> f i = g i) ->
  xor_words (f <$> seqZ 0 CONF_REG_MAP_NUM) = xor_words (g <$> seqZ 0 CONF_REG_MAP_NUM).
Proof. intros H. f_equal. apply list_fmap_ext. intros j x Hx%lookup_seqZ. apply H. lia. Qed.

Lemma bufwrite_ret l a n w : (I2C_EE_BufWrite l a n w).1 = EEPROM_NOERRO.
Proof.
  unfold I2C_EE_BufWrite, I2C_EE_BufWrite_bsp, bindc.
  match goal with |- ((if ?b then _ else _) _).1 = _ => destruct b end; [done|].
  unfold seqc. by match goal with |- ((if ?b then _ else _) _).1 = _ => destruct b end.
Qed.

Lemma tripple_write_unfold o v r w :
  let cs := cw w 0 435 in
  cw w 1 435 = cs -> cw w 2 435 = cs -> cs <> 0 ->
  (eeprom_tripple_write o v r w).1 = 0 /\
  (eeprom_tripple_write o v r w).2 =
    w |> stw (copy_addr 0 o) v |> stw (copy_addr 1 o) v |> stw (copy_addr 2 o) v
      |> stw (copy_addr 0 435) (cs .^ r .^ v) |> stw (copy_addr 1 435) (cs .^ r .^ v)
      |> stw (copy_addr 2 435) (cs .^ r .^ v).
Proof.
  intros cs H1 H2 H0. unfold eeprom_tripple_write, letc, bindc. rewrite compare_read_unfold.
  cbv zeta. rewrite H1, H2. fold cs. rewrite Z.eqb_refl. cbn [andb fst snd Z.eqb].
  unfold nz. destruct (Z.eqb_spec cs 0) as [|_]; [done|]. cbn [negb fst snd].
  rewrite Z.shiftl_mul_pow2 by lia. change (2 ^ 1) with 2.
  replace (CONF_REG_EE1_ADDR + o * 2) with (copy_addr 0 o) by (unfold copy_addr; lia).
  replace (CONF_REG_EE2_ADDR + o * 2) with (copy_addr 1 o) by (unfold copy_addr; lia).
  replace (CONF_REG_EE3_ADDR + o * 2) with (copy_addr 2 o) by (unfold copy_addr; lia).
  unfold reta, stw. cbn [fst snd]. split; [|done]. by rewrite !bufwrite_ret.
Qed.

(** The words of copy [k] after a triple write: the new value at [o], the new checksum. *)
Lemma cw_tripple_write o v r w k i :
  let cs := cw w 0 435 in
  cw w 1 435 = cs -> cw w 2 435 = cs -> cs <> 0 ->
  0 <= o < 435 -> 0 <= k <= 2 -> 0 <= i <= 435 -> 0 <= v < 65536 -> 0 <= r < 65536 ->
  cw (eeprom_tripple_write o v r w).2 k i =
  if i =? 435 then cs .^ r .^ v else if i =? o then v else cw w k i.
Proof.
  intros cs H1 H2 H0 Ho Hk Hi Hv Hr. pose proof (ee_word_range w (copy_addr 0 435)).
  assert (0 <= cs .^ r .^ v < 65536) by (repeat apply u16_lxor; done).
  destruct (tripple_write_unfold o v r w H1 H2 H0) as [_ ->]. fold cs.
  rewrite !cw_stw, !u16_small by lia.
  assert (k = 0 \/ k = 1 \/ k = 2) as [->|[->| ->]] by lia; cbn [Z.eqb Pos.eqb andb];
    by destruct (i =? 435), (i =? o).
Qed.

Definition copies_agree (w : world) : Prop :=
  cw w 1 435 = cw w 0 435 /\ cw w 2 435 = cw w 0 435 /\ cw w 0 435 <> 0.

(** Writing a configuration word keeps every copy's checksum.  With three agreeing
    non-zero checksum words and [rd_data] the value stored before, all copies hold the new
    value at [o], keep every other word, and their checksums are again the exclusive-or of
    their words. *)
Theorem tripple_write_checksum w o v k :
  copies_agree w -> 0 <= o < CONF_REG_MAP_NUM -> 0 <= v < 65536 -> 0 <= k <= 2 ->
  checksum_ok w k ->
  let w' := (eeprom_tripple_write o v (cw w k o) w).2 in
  (eeprom_tripple_write o v (cw w k o) w).1 = 0 /\
  (forall i, 0 <= i < CONF_REG_MAP_NUM -> cw w' k i = if i =? o then v else cw w k i) /\
  checksum_ok w' k.
Proof.
  intros (H1 & H2 & H0) Ho Hv Hk Hc w'.
  pose proof (ee_word_range w (copy_addr k o)) as Hr. fold (cw w k o) in Hr.
  destruct (tripple_write_unfold o v (cw w k o) w H1 H2 H0) as [Hret _].
  assert (forall i, 0 <= i <= 435 -> cw w' k i =
    if i =? 435 then cw w 0 435 .^ cw w k o .^ v else if i =? o then v else cw w k i) as Hcw
    by (intros; by apply cw_tripple_write).
  split; [done|]. split.
  - intros i Hi. rewrite Hcw by lia. destruct (Z.eqb_spec i 435); [lia | done].
  - unfold checksum_ok, copy_words in *. rewrite Hcw by lia. cbn [Z.eqb Pos.eqb].
    assert (cw w k 435 = cw w 0 435) as Hk0.
    { assert (k = 0 \/ k = 1 \/ k = 2) as [->|[->| ->]] by lia; done. }
    rewrite <- Hk0, Hc.
    rewrite (xor_words_ext (cw w' k) (fun i => if i =? o then v else cw w k i)).
    2: { intros i Hi. rewrite Hcw by lia. destruct (Z.eqb_spec i 435); [lia | done]. }
    rewrite (xor_words_update (cw w k) (fun i => if i =? o then v else cw w k i) 0 435 o).
    + by rewrite Z.eqb_refl.
    + lia.
    + intros i Hi. by destruct (Z.eqb_spec i o).
Qed.

(** Three copies that hold 9 in register 7, zeros elsewhere, and the checksum 9. *)
Definition ee_sample : world :=
  set_ee (flat_write 512 (repeat 0 2616) (ee w_zero)) w_zero
  |> stw (copy_addr 0 435) 9 |> stw (copy_addr 1 435) 9 |> stw (copy_addr 2 435) 9
  |> stw (copy_addr 0 7) 9 |> stw (copy_addr 1 7) 9 |> stw (copy_addr 2 7) 9.

Lemma ee_sample_ok : copies_agree ee_sample /\ checksum_ok ee_sample 1.
Proof. split; [split_and!; vm_compute; congruence | vm_compute; reflexivity]. Qed.

Lemma tripple_write_checksum_witness :
  copies_agree ee_sample /\ checksum_ok ee_sample 1 /\
  checksum_ok (eeprom_tripple_write 36 1 (cw ee_sample 1 36) ee_sample).2 1.
Proof.
  destruct ee_sample_ok as [Ha Hc]. split_and!; [exact Ha | exact Hc |].
  destruct (tripple_write_checksum ee_sample 36 1 1 Ha) as (_ & _ & H); try lia; done.
Defined.
