(* ===== verification/EepromBus.v ===== *)
(** * The EEPROM on its wires: drivers/i2c_bsp.c down to the pins

    File Eeprom models the transfers of this driver as working memory accesses.  Here is the
    driver itself: every level it puts on the clock, data and write-protect pins, the wait for an
    acknowledge, the errors and the retries.  The chip at the other end is a memory with a page
    buffer that is programmed at the stop condition and that answers nothing while programming.
    The theorems show that the two levels agree, and what happens when the chip does not answer. *)

From S2P Require Import Prelude Conf Fifo TwoWire Machine Eeprom.

Abbreviation SLAVE_ADDR := 0xae.
Abbreviation I2CPAGEWriteDelay := 5.
Abbreviation EEPROM_BUSSERRO := 1.
Abbreviation EEPROM_MUXERRO := 2.

(** ** Waveforms *)

Section Waveforms.
Context {D : Type} `{!device D}.

Definition IIC_SCL (n : Z) : bus D -> bus D := set_scl (n =? 1).
Definition IIC_SDA (n : Z) : bus D -> bus D := set_sda (n =? 1).
Definition SDA_OUT : bus D -> bus D := set_dir true.
Definition SDA_IN : bus D -> bus D := set_dir false.
Definition READ_SDA (b : bus D) : bool := sda b.

Definition IIC_Start (b : bus D) : bus D :=
  b |> SDA_OUT |> IIC_SDA 1 |> IIC_SCL 1 |> IIC_SDA 0 |> IIC_SCL 0.

Definition IIC_Stop (b : bus D) : bus D :=
  b |> SDA_OUT |> IIC_SCL 0 |> IIC_SDA 0 |> IIC_SCL 1 |> IIC_SDA 1.

(** [while (READ_SDA())]: [left] is the number of further increments of [ucerrtime] up to 250. *)
Fixpoint wait_ack (left : nat) (b : bus D) : Z * bus D :=
  if READ_SDA b then
    match left with
    | O => (1, IIC_Stop b)
    | S left' => wait_ack left' b
    end
  else (0, IIC_SCL 0 b).

Definition IIC_Wait_Ack (b : bus D) : Z * bus D :=
  wait_ack 250 (b |> SDA_IN |> IIC_SDA 1 |> IIC_SCL 1).

Definition IIC_Ack (b : bus D) : bus D :=
  b |> IIC_SCL 0 |> SDA_OUT |> IIC_SDA 0 |> IIC_SCL 1 |> IIC_SCL 0.
Definition IIC_NAck (b : bus D) : bus D :=
  b |> IIC_SCL 0 |> SDA_OUT |> IIC_SDA 1 |> IIC_SCL 1 |> IIC_SCL 0.

Fixpoint send_bits (t : nat) (txd : Z) (b : bus D) : bus D :=
  match t with
  | O => b
  | S t' => send_bits t' (u8 (txd .<< 1)) (b |> IIC_SDA ((txd .& 0x80) .>> 7) |> IIC_SCL 1 |> IIC_SCL 0)
  end.

Definition IIC_Send_Byte (txd : Z) (b : bus D) : bus D := send_bits 8 txd (b |> SDA_OUT |> IIC_SCL 0).

Fixpoint read_loop (i : nat) (receive : Z) (b : bus D) : Z * bus D :=
  match i with
  | O => (receive, b)
  | S i' =>
      let b := b |> IIC_SCL 0 |> IIC_SCL 1 in
      let receive := u8 (receive .<< 1) in
      read_loop i' (if READ_SDA b then u8 (receive + 1) else receive) b
  end.

Definition IIC_Read_Byte (ack : Z) (b : bus D) : Z * bus D :=
  let '(receive, b) := read_loop 8 0 (SDA_IN b) in
  (receive, if ack =? 0 then IIC_NAck b else IIC_Ack b).

Definition I2c_write_byte (data : Z) (b : bus D) : Z * bus D :=
  let '(r, b) := IIC_Wait_Ack (IIC_Send_Byte data b) in
  (if r =? 0 then 1 else 0, b).

(** *** What the waveforms mean to the device *)

Lemma IIC_Start_idle d : IIC_Start (idle d) = Bus false false true (Recv 0 0) (dev_start d).
Proof. reflexivity. Qed.

Lemma IIC_Start_again odr out d :
  IIC_Start (Bus false odr out (Recv 0 0) d) = Bus false false true (Recv 0 0) (dev_start d).
Proof. by destruct odr, out. Qed.

Lemma IIC_Stop_idle d : IIC_Stop (idle d) = idle (dev_stop d).
Proof. reflexivity. Qed.

Lemma IIC_Stop_low odr out p d :
  p = Quiet \/ p = Recv 0 0 -> IIC_Stop (Bus false odr out p d) = idle (dev_stop d).
Proof. by intros [-> | ->]; destruct odr, out. Qed.

Lemma send_bits_clock t : forall x b, byte x -> send_bits t x b = clock_bits t x b.
Proof.
  induction t as [|t IH]; intros x b Hx; [done|]. cbn [send_bits clock_bits]. rewrite IH by apply u8_range.
  f_equal. unfold IIC_SDA. by rewrite (proj2 (high_bit x Hx)).
Qed.

Lemma IIC_Send_Byte_spec v odr out d :
  byte v -> exists odr',
  IIC_Send_Byte v (Bus false odr out (Recv 0 0) d) =
  let '(ack, d') := dev_byte d v in Bus false odr' true (if ack then AckOut false else Quiet) d'.
Proof.
  intros Hv. unfold IIC_Send_Byte.
  assert (E : IIC_SCL 0 (SDA_OUT (Bus false odr out (Recv 0 0) d)) = Bus false odr true (Recv 0 0) d) by done.
  rewrite E, send_bits_clock by done. by apply clock_byte.
Qed.

Lemma wait_ack_high left b : sda b = true -> wait_ack left b = (1, IIC_Stop b).
Proof. intros H. induction left as [|left IH]; cbn [wait_ack]; unfold READ_SDA; by rewrite H. Qed.

(** One byte to the device: the result is the device's acknowledge. *)
Lemma I2c_write_byte_spec v odr out d :
  byte v ->
  I2c_write_byte v (Bus false odr out (Recv 0 0) d) =
  let '(ack, d') := dev_byte d v in
  if ack then (1, ready true false d') else (0, idle (dev_stop d')).
Proof.
  intros Hv. unfold I2c_write_byte, IIC_Wait_Ack. destruct (IIC_Send_Byte_spec v odr out d Hv) as [o ->].
  destruct (dev_byte d v) as [ack d']. destruct ack.
  - assert (E : wait_ack 250 (IIC_SCL 1 (IIC_SDA 1 (SDA_IN (Bus false o true (AckOut false) d'))))
      = (0, fall (Bus true true false (AckOut true) d'))) by reflexivity.
    rewrite E. reflexivity.
  - rewrite wait_ack_high by done. by destruct o.
Qed.

(** One byte from the device; what follows depends on the master's acknowledge. *)
Definition take_bit (r : Z) (b : bool) : Z := if b then u8 (u8 (r .<< 1) + 1) else u8 (r .<< 1).

Lemma take_bits v : byte v -> foldl take_bit 0 (bits_of v) = v.
Proof.
  intros Hv. apply Z.eqb_eq. refine (bin_check_sound (fun v => foldl take_bit 0 (bits_of v) =? v) 8 0 v _ _); [vm_compute; reflexivity|].
  unfold byte in Hv. cbn. lia.
Qed.

Lemma IIC_Read_Byte_spec ack v odr out d :
  byte v ->
  IIC_Read_Byte ack (Bus false odr out (Send 0 v) d) =
  (v, if ack =? 0 then Bus false true true Quiet d else ready false true d).
Proof.
  intros Hv. unfold IIC_Read_Byte.
  assert (E : read_loop 8 0 (SDA_IN (Bus false odr out (Send 0 v) d)) =
    (foldl take_bit 0 (bits_of v), Bus true odr false (Send 7 v) d)) by reflexivity.
  rewrite E, take_bits by done. by destruct (ack =? 0), odr.
Qed.

End Waveforms.

(** ** The chip

    A serial EEPROM of 64 KiB with pages of 64 bytes: control byte, two address bytes, then
    either data for its page buffer or, after another start with the read bit, data from it.
    The stop condition programs the page buffer unless the write-protect pin is high; for
    [t_wc] ticks afterwards the chip does not acknowledge its control byte. *)

Inductive expect : Type := E_ctrl | E_hi | E_lo (hi : Z) | E_data | E_send | E_deaf.

Record chip : Type := Chip {
  c_mem : Z -> Z;
  c_ptr : Z;
  c_pos : expect;
  c_page : list Z;      (* the page buffer *)
  c_busy : Z;           (* ticks until programming ends *)
  c_wp : bool           (* the write-protect pin *)
}.

(** The programming time of the chip. *)
Class programming_time : Type := t_wc : Z.

Definition at_pos (p : expect) (c : chip) : chip := Chip (c_mem c) (c_ptr c) p (c_page c) (c_busy c) (c_wp c).

Definition chip_byte (c : chip) (v : Z) : bool * chip :=
  match c_pos c with
  | E_ctrl =>
      if 0 <? c_busy c then (false, at_pos E_deaf c)
      else if v =? 0xae then (true, at_pos E_hi c)
      else if v =? 0xaf then (true, at_pos E_send c)
      else (false, at_pos E_deaf c)
  | E_hi => (true, at_pos (E_lo v) c)
  | E_lo hi => (true, Chip (c_mem c) (256 * hi + v) E_data (c_page c) (c_busy c) (c_wp c))
  | E_data => (true, Chip (c_mem c) (c_ptr c) E_data (c_page c ++ [v]) (c_busy c) (c_wp c))
  | _ => (false, at_pos E_deaf c)
  end.

Definition chip_start (c : chip) : chip := Chip (c_mem c) (c_ptr c) E_ctrl [] (c_busy c) (c_wp c).

Definition chip_stop {T : programming_time} (c : chip) : chip :=
  match c_page c with
  | [] => at_pos E_deaf c
  | l => if c_wp c then Chip (c_mem c) (c_ptr c) E_deaf [] (c_busy c) (c_wp c)
         else Chip (page_write (c_ptr c) l (c_mem c)) (Nat.iter (length l) page_next (c_ptr c)) E_deaf [] t_wc false
  end.

Definition chip_next (c : chip) : Z * chip :=
  (u8 (c_mem c (c_ptr c)), Chip (c_mem c) (u16 (c_ptr c + 1)) (c_pos c) (c_page c) (c_busy c) (c_wp c)).

#[export] Instance eeprom_chip {T : programming_time} : device chip := {|
  dev_start := chip_start;
  dev_byte := chip_byte;
  dev_sends c := match c_pos c with E_send => true | _ => false end;
  dev_next := chip_next;
  dev_stop := chip_stop
|}.

(** ** Transfers *)

Section Transfers.
Context {T : programming_time}.

Definition WP_pin (v : bool) : bus chip -> bus chip :=
  set_dev (fun c => Chip (c_mem c) (c_ptr c) (c_pos c) (c_page c) (c_busy c) v).
Definition WP_Enable : bus chip -> bus chip := WP_pin false.
Definition WP_Diable : bus chip -> bus chip := WP_pin true.

Definition rt_thread_delay (ticks : Z) : bus chip -> bus chip :=
  set_dev (fun c => Chip (c_mem c) (c_ptr c) (c_pos c) (c_page c) (Z.max 0 (c_busy c - ticks)) (c_wp c)).

Definition page_failed (b : bus chip) : Z * bus chip := (EEPROM_BUSSERRO, b |> IIC_Stop |> WP_Diable).

(** The data bytes, up to the first that is not acknowledged. *)
Fixpoint write_data (l : list Z) (b : bus chip) : Z * bus chip :=
  match l with
  | [] => (EEPROM_NOERRO, b |> IIC_Stop |> WP_Diable)
  | v :: l' => let '(r, b) := I2c_write_byte v b in if r =? 0 then page_failed b else write_data l' b
  end.

Definition WriteEEROMPage (write_buffer : list Z) (write_addr num_byte_write : Z) (b : bus chip) : Z * bus chip :=
  let b := b |> WP_Enable |> IIC_Start in
  let '(r, b) := I2c_write_byte (SLAVE_ADDR .& 0xFE) b in
  if r =? 0 then page_failed b else
  let '(r, b) := I2c_write_byte (u8 (write_addr .>> 8)) b in
  if r =? 0 then page_failed b else
  let '(r, b) := I2c_write_byte (write_addr .& 0x00ff) b in
  if r =? 0 then page_failed b else
  write_data (take (Z.to_nat num_byte_write) write_buffer) b.

(** The attempts to write one page; when [cnt] reaches 0 the page is given up. *)
Fixpoint try_page (cnt : nat) (write_buffer : list Z) (write_addr : Z) (b : bus chip) : bus chip :=
  match cnt with
  | O => b
  | S cnt' =>
      let '(e, b) := WriteEEROMPage write_buffer write_addr I2C2_EE_PageSize b in
      if e =? EEPROM_NOERRO then b else try_page cnt' write_buffer write_addr (rt_thread_delay 1 b)
  end.

(** The loop [while (page_number--)] with [page] for its body. *)
Fixpoint page_loop (page : list Z -> Z -> bus chip -> bus chip) (page_number : nat) (write_buffer : list Z) (write_addr : Z) (b : bus chip) : bus chip :=
  match page_number with
  | O => b
  | S n =>
      page_loop page n (drop (Z.to_nat I2C2_EE_PageSize) write_buffer) (u16 (write_addr + I2C2_EE_PageSize))
        (page write_buffer write_addr b)
  end.

Definition write_pages : nat -> list Z -> Z -> bus chip -> bus chip := page_loop (try_page 10).

Definition I2C_EE_BufWrite_bsp (write_buffer : list Z) (write_addr num_byte_write : Z) (b : bus chip) : Z * bus chip :=
  let byte_count := u8 (I2C2_EE_PageSize - write_addr mod I2C2_EE_PageSize) in
  let byte_count := if num_byte_write <=? byte_count then u8 num_byte_write else byte_count in
  let '(e, b) := WriteEEROMPage write_buffer write_addr byte_count b in
  if negb (e =? EEPROM_NOERRO) then (EEPROM_BUSSERRO, b) else
  let num_byte_write := u16 (num_byte_write - byte_count) in
  if num_byte_write =? 0 then (EEPROM_NOERRO, rt_thread_delay I2CPAGEWriteDelay b) else
  let write_addr := u16 (write_addr + byte_count) in
  let write_buffer := drop (Z.to_nat byte_count) write_buffer in
  let page_number := num_byte_write / I2C2_EE_PageSize in
  let b := write_pages (Z.to_nat page_number) write_buffer write_addr b in
  let written := page_number * I2C2_EE_PageSize in
  let num_byte_write := u16 (num_byte_write - written) in
  let b := rt_thread_delay I2CPAGEWriteDelay b in
  if num_byte_write =? 0 then (EEPROM_NOERRO, b) else
  let '(e, b) := WriteEEROMPage (drop (Z.to_nat written) write_buffer) (u16 (write_addr + written)) num_byte_write b in
  if negb (e =? EEPROM_NOERRO) then (EEPROM_BUSSERRO, b) else
  (EEPROM_NOERRO, rt_thread_delay I2CPAGEWriteDelay b).

(** [taken]: whether the mutex was obtained within 50 ticks. *)
Definition I2C_EE_BufWrite (taken : bool) (write_buffer : list Z) (write_addr num_byte_write : Z) (b : bus chip) : Z * bus chip :=
  if taken then I2C_EE_BufWrite_bsp write_buffer write_addr num_byte_write b else (EEPROM_MUXERRO, b).

Definition read_failed (b : bus chip) : Z * list Z * bus chip := (EEPROM_BUSSERRO, [], b |> WP_Diable |> IIC_Stop).

Fixpoint read_data (len : nat) (b : bus chip) : list Z * bus chip :=
  match len with
  | O => ([], b)
  | S len' =>
      let '(v, b) := IIC_Read_Byte 1 b in
      let '(l, b) := read_data len' b in (v :: l, b)
  end.

(** The result, the bytes stored in [read_buffer], the bus. *)
Definition I2C_EE_BufRead_bsp (read_addr num_byte_Read : Z) (b : bus chip) : Z * list Z * bus chip :=
  let b := b |> WP_Enable |> IIC_Start in
  let '(r, b) := I2c_write_byte (SLAVE_ADDR .& 0xFE) b in
  if r =? 0 then read_failed b else
  let '(r, b) := I2c_write_byte (u8 (read_addr .>> 8)) b in
  if r =? 0 then read_failed b else
  let '(r, b) := I2c_write_byte (read_addr .& 0x00ff) b in
  if r =? 0 then read_failed b else
  let b := IIC_Start b in
  let '(r, b) := I2c_write_byte (SLAVE_ADDR .| 0x01) b in
  if r =? 0 then read_failed b else
  let b := WP_Diable b in
  let '(l, b) := read_data (Z.to_nat (num_byte_Read - 1)) b in
  let '(v, b) := IIC_Read_Byte 0 b in
  (EEPROM_NOERRO, l ++ [v], IIC_Stop b).

Definition I2C_EE_BufRead (taken : bool) (read_addr num_byte_read : Z) (b : bus chip) : Z * list Z * bus chip :=
  if taken then I2C_EE_BufRead_bsp read_addr num_byte_read b else (EEPROM_MUXERRO, [], b).

(** *** One page *)

(** The chip between transfers: not addressed, page buffer empty, write-protected. *)
Definition standby (m : Z -> Z) (p busy : Z) : chip := Chip m p E_deaf [] busy true.

(** The chip waits for a byte of a transfer it takes part in. *)
Definition listening (odr out : bool) (c : chip) : bus chip := Bus false odr out (Recv 0 0) c.

Lemma addr_bytes a : 0 <= a < 65536 -> byte (u8 (a .>> 8)) /\ byte (a .& 0x00ff) /\ 256 * u8 (a .>> 8) + (a .& 0x00ff) = a.
Proof.
  intros Ha. change 0x00ff with (Z.ones 8). rewrite Z.land_ones, Z.shiftr_div_pow2 by lia.
  change (2 ^ 8) with 256. unfold byte, u8. repeat split; Z.div_mod_to_equations; lia.
Qed.

Lemma begin_transfer c :
  IIC_Start (WP_Enable (idle c)) = listening false true (Chip (c_mem c) (c_ptr c) E_ctrl [] (c_busy c) false).
Proof. reflexivity. Qed.

Lemma write_ctrl odr out m p l busy wp :
  I2c_write_byte (SLAVE_ADDR .& 0xFE) (listening odr out (Chip m p E_ctrl l busy wp)) =
  if 0 <? busy then (0, idle (chip_stop (Chip m p E_deaf l busy wp)))
  else (1, listening true false (Chip m p E_hi l busy wp)).
Proof. unfold listening. rewrite I2c_write_byte_spec by done. cbn. by destruct (0 <? busy). Qed.

Lemma write_ctrl_read odr out m p wp :
  I2c_write_byte (SLAVE_ADDR .| 0x01) (listening odr out (Chip m p E_ctrl [] 0 wp)) =
  (1, ready true false (Chip m p E_send [] 0 wp)).
Proof. unfold listening. by rewrite I2c_write_byte_spec by done. Qed.

Lemma restart_transfer odr out m p pos busy wp :
  IIC_Start (listening odr out (Chip m p pos [] busy wp)) = listening false true (Chip m p E_ctrl [] busy wp).
Proof. unfold listening. by rewrite IIC_Start_again. Qed.

Lemma write_address odr out m p l busy wp a :
  0 <= a < 65536 ->
  I2c_write_byte (u8 (a .>> 8)) (listening odr out (Chip m p E_hi l busy wp)) =
    (1, listening true false (Chip m p (E_lo (u8 (a .>> 8))) l busy wp)) /\
  I2c_write_byte (a .& 0x00ff) (listening true false (Chip m p (E_lo (u8 (a .>> 8))) l busy wp)) =
    (1, listening true false (Chip m a E_data l busy wp)).
Proof.
  intros Ha. destruct (addr_bytes a Ha) as (H1 & H2 & H3). unfold listening.
  rewrite !I2c_write_byte_spec by done. cbn -[Z.mul Z.add Z.land u8]. by rewrite H3.
Qed.

Lemma write_data_spec l : forall odr out m p pg busy,
  bytes l ->
  write_data l (listening odr out (Chip m p E_data pg busy false)) =
  (EEPROM_NOERRO, WP_Diable (idle (chip_stop (Chip m p E_data (pg ++ l) busy false)))).
Proof.
  induction l as [|v l IH]; intros odr out m p pg busy Hl; cbn [write_data].
  - unfold listening. rewrite IIC_Stop_low by auto. by rewrite app_nil_r.
  - apply Forall_cons_1 in Hl as [Hv Hl]. unfold listening. rewrite I2c_write_byte_spec by done. cbn.
    fold (listening true false (Chip m p E_data (pg ++ [v]) busy false)). rewrite IH by done. by rewrite <- app_assoc.
Qed.

(** A page arrives in the chip's memory, wrapping inside its page; the chip is then busy. *)
Lemma WriteEEROMPage_idle l a n c :
  c_busy c = 0 -> bytes l -> 0 <= a < 65536 -> exists p' busy',
  WriteEEROMPage l a n (idle c) = (EEPROM_NOERRO, idle (standby (page_write a (take (Z.to_nat n) l) (c_mem c)) p' busy')) /\
  (busy' = 0 \/ busy' = t_wc).
Proof.
  intros Hb Hl Ha. unfold WriteEEROMPage. rewrite begin_transfer, Hb, write_ctrl.
  destruct (write_address true false (c_mem c) (c_ptr c) [] 0 false a Ha) as [E1 E2].
  change (0 <? 0) with false. cbv iota beta. rewrite E1. cbv iota beta. rewrite E2. cbv iota beta.
  change (1 =? 0) with false. cbv iota. rewrite write_data_spec by (by apply Forall_take). cbn [app].
  destruct (take (Z.to_nat n) l) as [|v l'] eqn:E; eexists _, _; (split; [reflexivity|]); auto.
Qed.

(** While it programs a page the chip refuses, nothing changes and the bus is free again. *)
Lemma WriteEEROMPage_busy l a n c :
  0 < c_busy c -> WriteEEROMPage l a n (idle c) = (EEPROM_BUSSERRO, idle (standby (c_mem c) (c_ptr c) (c_busy c))).
Proof.
  intros Hb. unfold WriteEEROMPage. rewrite begin_transfer, write_ctrl.
  destruct (Z.ltb_spec 0 (c_busy c)); [reflexivity|lia].
Qed.

(** *** Buffers *)

Lemma delay_standby n m p busy :
  rt_thread_delay n (idle (standby m p busy)) = idle (standby m p (Z.max 0 (busy - n))).
Proof. reflexivity. Qed.

(** The retries wait for the chip. *)
Lemma try_page_spec cnt : forall l a m p busy,
  bytes l -> 0 <= a < 65536 -> 0 <= busy < Z.of_nat cnt -> exists p' busy',
  try_page cnt l a (idle (standby m p busy)) = idle (standby (page_write a (take (Z.to_nat 64) l) m) p' busy') /\
  (busy' = 0 \/ busy' = t_wc).
Proof.
  induction cnt as [|cnt IH]; intros l a m p busy Hl Ha Hb; [lia|]. cbn [try_page].
  destruct (Z.eq_dec busy 0) as [->|].
  - destruct (WriteEEROMPage_idle l a 64 (standby m p 0)) as (p' & b' & E & Hb'); [done..|].
    rewrite E. cbn [standby c_mem]. exists p', b'. split; [reflexivity|exact Hb'].
  - rewrite WriteEEROMPage_busy by (cbn; lia). cbn [standby c_mem c_ptr c_busy].
    change (EEPROM_BUSSERRO =? EEPROM_NOERRO) with false. cbv iota. rewrite delay_standby. apply IH; [done..|lia].
Qed.

(** Reading: the chip sends on while the driver acknowledges. *)
Definition sending (c : chip) : Prop := c_pos c = E_send.

Lemma ready_sending odr out c :
  sending c ->
  ready odr out c = Bus false odr out (Send 0 (u8 (c_mem c (c_ptr c))))
    (Chip (c_mem c) (u16 (c_ptr c + 1)) E_send (c_page c) (c_busy c) (c_wp c)).
Proof. unfold sending, ready. cbn. intros ->. cbn. reflexivity. Qed.

Definition sent_from (c : chip) (p : Z) : chip := Chip (c_mem c) p E_send (c_page c) (c_busy c) (c_wp c).

Lemma read_data_spec n : forall odr out c,
  sending c -> 0 <= c_ptr c < 65536 -> exists odr' out',
  read_data n (ready odr out c) = (read_bytes (c_mem c) (c_ptr c) n, ready odr' out' (sent_from c (u16 (c_ptr c + Z.of_nat n)))).
Proof.
  induction n as [|n IH]; intros odr out c Hc Hp.
  - exists odr, out. cbn [read_data read_bytes seq fmap list_fmap]. rewrite Z.add_0_r, u16_small by done.
    destruct c; cbn in *. by rewrite Hc.
  - cbn [read_data]. rewrite ready_sending by done. rewrite IIC_Read_Byte_spec by apply u8_range.
    change (1 =? 0) with false. cbv iota beta. fold (sent_from c (u16 (c_ptr c + 1))).
    destruct (IH false true (sent_from c (u16 (c_ptr c + 1)))) as (o & u & E); [done|apply u16_range|].
    exists o, u. rewrite E. cbn [sent_from c_ptr c_mem c_page c_busy c_wp]. unfold read_bytes. cbn [seq fmap list_fmap].
    rewrite Z.add_0_r, (u16_small (c_ptr c)), <- fmap_S_seq, <- list_fmap_compose by done. apply pair_eq. split.
    + f_equal. apply list_fmap_ext. intros i x _. cbn [compose]. rewrite u16_add. do 3 f_equal. lia.
    + rewrite u16_add. by replace (c_ptr c + 1 + Z.of_nat n) with (c_ptr c + Z.of_nat (S n)) by lia.
Qed.

Lemma BufRead_spec a n c :
  c_busy c = 0 -> 0 <= a < 65536 -> exists p',
  I2C_EE_BufRead_bsp a n (idle c) =
  (EEPROM_NOERRO, read_bytes (c_mem c) a (S (Z.to_nat (n - 1))), idle (standby (c_mem c) p' 0)).
Proof.
  intros Hb Ha. unfold I2C_EE_BufRead_bsp. rewrite begin_transfer, Hb, write_ctrl.
  destruct (write_address true false (c_mem c) (c_ptr c) [] 0 false a Ha) as [E1 E2].
  change (0 <? 0) with false. cbv iota beta. rewrite E1. cbv iota beta. rewrite E2. cbv iota beta.
  change (1 =? 0) with false. cbv iota. rewrite restart_transfer, write_ctrl_read. cbv iota beta. change (1 =? 0) with false. cbv iota.
  assert (E0 : WP_Diable (ready true false (Chip (c_mem c) a E_send [] 0 false)) = ready true false (sent_from (Chip (c_mem c) a E_send [] 0 true) a)) by reflexivity.
  rewrite E0. destruct (read_data_spec (Z.to_nat (n - 1)) true false (sent_from (Chip (c_mem c) a E_send [] 0 true) a)) as (o & u & ->); [done|done|].
  rewrite ready_sending by done. cbn [sent_from c_mem c_ptr c_page c_busy c_wp]. rewrite IIC_Read_Byte_spec by apply u8_range.
  change (0 =? 0) with true. cbv iota beta. rewrite (IIC_Stop_low true true Quiet) by auto. eexists. unfold read_bytes.
  rewrite seq_S, fmap_app. reflexivity.
Qed.

Context (Ht : 0 <= t_wc <= 5).

Lemma page_loop_S page n l a b :
  page_loop page (S n) l a b = page_loop page n (drop (Z.to_nat 64) l) (u16 (a + 64)) (page l a b).
Proof. reflexivity. Qed.

Lemma ee_write_pages_S n l a w :
  Eeprom.write_pages (S n) l a w =
  Eeprom.write_pages n (drop (Z.to_nat 64) l) (u16 (a + 64)) (set_ee (page_write a (take (Z.to_nat 64) l) (ee w)) w).
Proof. reflexivity. Qed.

Lemma write_pages_spec n : forall l a p busy w,
  bytes l -> 0 <= a < 65536 -> 0 <= busy <= 5 -> exists p' busy',
  write_pages n l a (idle (standby (ee w) p busy)) = idle (standby (ee (Eeprom.write_pages n l a w)) p' busy') /\
  0 <= busy' <= 5.
Proof.
  induction n as [|n IH]; intros l a p busy w Hl Ha Hb; [by exists p, busy|].
  unfold write_pages in *. rewrite page_loop_S, ee_write_pages_S.
  destruct (try_page_spec 10 l a (ee w) p busy) as (p1 & b1 & -> & Hb1); [done..|lia|].
  apply (IH _ _ p1 b1 (set_ee (page_write a (take (Z.to_nat 64) l) (ee w)) w)); [by apply Forall_drop|apply u16_range|lia].
Qed.

Lemma first_page_count a n :
  0 <= a < 65536 -> 0 <= n < 65536 ->
  let byte_count := u8 (64 - a mod 64) in
  let byte_count := if n <=? byte_count then u8 n else byte_count in 0 <= byte_count <= n.
Proof.
  intros Ha Hn. pose proof (Z.mod_pos_bound a 64). unfold u8. rewrite (Z.mod_small (64 - _)) by lia.
  destruct (Z.leb_spec n (64 - a mod 64)); [|lia]. rewrite Z.mod_small by lia. lia.
Qed.

(** The driver on its pins does what the transfers of file Eeprom do to the memory, reports
    success, and leaves the bus free and the chip ready. *)
Lemma BufWrite_refines l a n c w :
  c_busy c = 0 -> c_mem c = ee w -> bytes l -> 0 <= a < 65536 -> 0 <= n < 65536 -> exists p',
  I2C_EE_BufWrite_bsp l a n (idle c) = (EEPROM_NOERRO, idle (standby (ee (Eeprom.I2C_EE_BufWrite_bsp l a n w).2) p' 0)).
Proof.
  intros Hb Hm Hl Ha Hn. unfold I2C_EE_BufWrite_bsp, Eeprom.I2C_EE_BufWrite_bsp.
  pose proof (first_page_count a n Ha Hn) as Hc. cbv zeta in Hc.
  set (k := if n <=? u8 (64 - a mod 64) then u8 n else u8 (64 - a mod 64)) in *. cbv zeta.
  destruct (WriteEEROMPage_idle l a k c) as (p1 & b1 & -> & Hb1); [done..|]. rewrite Hm. cbv iota beta.
  set (w1 := (Eeprom.WriteEEROMPage l a k w).2).
  change (page_write a (take (Z.to_nat k) l) (ee w)) with (ee w1). unfold bindc. fold w1.
  change (negb (EEPROM_NOERRO =? EEPROM_NOERRO)) with false. cbv iota.
  destruct (u16 (n - k) =? 0); [exists p1; rewrite delay_standby; do 3 f_equal; lia|].
  set (rest := u16 (n - k)). set (l1 := drop (Z.to_nat k) l). set (a1 := u16 (a + k)). set (pages := rest / 64).
  destruct (write_pages_spec (Z.to_nat pages) l1 a1 p1 b1 w1) as (p2 & b2 & -> & Hb2); [by apply Forall_drop|apply u16_range|lia|].
  set (w2 := Eeprom.write_pages (Z.to_nat pages) l1 a1 w1). rewrite delay_standby. unfold seqc. fold w2.
  replace (Z.max 0 (b2 - 5)) with 0 by lia.
  destruct (u16 (rest - pages * 64) =? 0); [by exists p2|].
  destruct (WriteEEROMPage_idle (drop (Z.to_nat (pages * 64)) l1) (u16 (a1 + pages * 64)) (u16 (rest - pages * 64)) (standby (ee w2) p2 0))
    as (p3 & b3 & -> & Hb3); [done|by apply Forall_drop, Forall_drop|apply u16_range|]. exists p3.
  change (negb (EEPROM_NOERRO =? EEPROM_NOERRO)) with false. cbv iota. rewrite delay_standby.
  replace (Z.max 0 (b3 - 5)) with 0 by lia. reflexivity.
Qed.

End Transfers.

(** ** Theorems *)

(** C10: The driver on its pins implements the transfers that the rest of the firmware relies on.
    With a chip that programs a page in at most 5 ticks and is not programming, a buffer
    write of any length and address makes the chip's memory what [Eeprom.I2C_EE_BufWrite] says,
    page by page with the retries, and a buffer read returns the bytes [Eeprom.I2C_EE_BufRead]
    says; both report success and leave the bus idle, the chip ready and write-protected. *)
Theorem eeprom_driver_refines {T : programming_time} c w :
  0 <= t_wc <= 5 -> c_busy c = 0 -> c_mem c = ee w ->
  (forall l a n, bytes l -> 0 <= a < 65536 -> 0 <= n < 65536 -> exists p,
     I2C_EE_BufWrite true l a n (idle c) =
     (EEPROM_NOERRO, idle (standby (ee (Eeprom.I2C_EE_BufWrite l a n w).2) p 0))) /\
  (forall a n, 0 <= a < 65536 -> 0 <= n < 65536 -> exists p,
     I2C_EE_BufRead true a n (idle c) =
     (EEPROM_NOERRO, @Eeprom.I2C_EE_BufRead w a n, idle (standby (ee w) p 0))).
Proof.
  intros Ht Hb Hm. split; [intros; by apply BufWrite_refines|].
  intros a n Ha Hn. destruct (BufRead_spec a n c) as [p E]; [done..|]. exists p.
  unfold I2C_EE_BufRead, Eeprom.I2C_EE_BufRead, Eeprom.I2C_EE_BufRead_bsp, here. by rewrite E, Hm.
Qed.

Definition blank : world := set_ee (fun _ => 0xFF) w_zero.

Lemma eeprom_driver_refines_witness :
  let T : programming_time := 5 in
  (I2C_EE_BufWrite true (seqZ 0 100) 60 100 (idle (standby (fun _ => 0xFF) 0 0))).1 = EEPROM_NOERRO /\
  exists p, I2C_EE_BufWrite true (seqZ 0 100) 60 100 (idle (standby (fun _ => 0xFF) 0 0)) =
    (EEPROM_NOERRO, idle (standby (ee (Eeprom.I2C_EE_BufWrite (seqZ 0 100) 60 100 blank).2) p 0)).
Proof.
  split; [vm_compute; reflexivity|].
  refine (proj1 (@eeprom_driver_refines 5 (standby (fun _ => 0xFF) 0 0) blank _ eq_refl eq_refl) (seqZ 0 100) 60 100 _ _ _);
    [unfold t_wc; lia| |lia|lia].
  apply Forall_forall. intros x Hx%list_elem_of_In%elem_of_seqZ. unfold byte. lia.
Defined.

Section Failures.
Context {T : programming_time}.

(** A chip that does not answer (it is programming a page) is noticed at the first byte: a
    write and a read both report a bus error, transfer nothing, change no byte of the memory and
    release the bus with the chip write-protected.  Without the mutex nothing happens at all. *)
Theorem eeprom_busy_refused c l a n :
  0 < c_busy c ->
  I2C_EE_BufWrite true l a n (idle c) = (EEPROM_BUSSERRO, idle (standby (c_mem c) (c_ptr c) (c_busy c))) /\
  I2C_EE_BufRead true a n (idle c) = (EEPROM_BUSSERRO, [], idle (standby (c_mem c) (c_ptr c) (c_busy c))) /\
  I2C_EE_BufWrite false l a n (idle c) = (EEPROM_MUXERRO, idle c) /\
  I2C_EE_BufRead false a n (idle c) = (EEPROM_MUXERRO, [], idle c).
Proof.
  intros Hb. split; [|split; [|done]].
  - unfold I2C_EE_BufWrite, I2C_EE_BufWrite_bsp. cbv zeta. by rewrite WriteEEROMPage_busy.
  - unfold I2C_EE_BufRead, I2C_EE_BufRead_bsp. rewrite begin_transfer, write_ctrl.
    destruct (Z.ltb_spec 0 (c_busy c)); [reflexivity|lia].
Qed.

(** A chip that stays busy through the ten attempts at a page. *)
Lemma try_page_gives_up cnt : forall l a m p busy,
  Z.of_nat cnt <= busy ->
  try_page cnt l a (idle (standby m p busy)) = idle (standby m p (busy - Z.of_nat cnt)).
Proof.
  induction cnt as [|cnt IH]; intros l a m p busy Hb; [cbn; by rewrite Z.sub_0_r|]. cbn [try_page].
  rewrite WriteEEROMPage_busy by (cbn; lia). cbn [standby c_mem c_ptr c_busy].
  change (EEPROM_BUSSERRO =? EEPROM_NOERRO) with false. cbv iota. rewrite delay_standby, IH by lia.
  do 2 f_equal. lia.
Qed.

(** The driver gives a page up after ten attempts but reports success: with a chip that needs
    ten ticks or more, the second of two pages is never written. *)
Lemma slow_chip_loses_page c l a :
  10 <= t_wc -> c_busy c = 0 -> bytes l -> length l = 128%nat -> 0 <= a < 65536 -> a mod 64 = 0 -> exists p busy,
  I2C_EE_BufWrite true l a 128 (idle c) = (EEPROM_NOERRO, idle (standby (page_write a (take 64 l) (c_mem c)) p busy)).
Proof.
  intros Ht Hb Hl Hn Ha Hm. unfold I2C_EE_BufWrite, I2C_EE_BufWrite_bsp. rewrite Hm. cbv zeta.
  change (u8 (64 - 0)) with 64. change (128 <=? 64) with false. cbv iota.
  unfold WriteEEROMPage at 1. rewrite begin_transfer, Hb, write_ctrl.
  destruct (write_address true false (c_mem c) (c_ptr c) [] 0 false a Ha) as [E1 E2].
  change (0 <? 0) with false. cbv iota beta. rewrite E1. cbv iota beta. rewrite E2. cbv iota beta.
  change (1 =? 0) with false. cbv iota. rewrite write_data_spec by (by apply Forall_take). cbn [app].
  change (Z.to_nat 64) with 64%nat. destruct (take 64 l) as [|v l'] eqn:E.
  { apply (f_equal length) in E. rewrite length_take, Hn in E. done. }
  cbn [chip_stop c_page c_wp c_mem c_ptr]. set (p1 := Nat.iter _ _ _).
  assert (W : WP_Diable (idle (Chip (page_write a (v :: l') (c_mem c)) p1 E_deaf [] t_wc false)) =
    idle (standby (page_write a (v :: l') (c_mem c)) p1 t_wc)) by reflexivity.
  rewrite W. change (negb (EEPROM_NOERRO =? EEPROM_NOERRO)) with false. cbv iota.
  change (u16 (128 - 64) =? 0) with false. cbv iota. change (Z.to_nat (u16 (128 - 64) / 64)) with 1%nat.
  unfold write_pages. rewrite page_loop_S, try_page_gives_up by lia. cbn [page_loop]. rewrite delay_standby.
  change (u16 (u16 (128 - 64) - u16 (128 - 64) / 64 * 64) =? 0) with true. cbv iota. by eexists _, _.
Qed.

End Failures.

Lemma eeprom_busy_refused_witness :
  let T : programming_time := 5 in
  0 < c_busy (standby (fun _ => 0xFF) 0 3) /\
  (I2C_EE_BufWrite true [1; 2] 0 2 (idle (standby (fun _ => 0xFF) 0 3))).1 = EEPROM_BUSSERRO.
Proof.
  intros T. split; [reflexivity|].
  rewrite (proj1 (eeprom_busy_refused (standby (fun _ => 0xFF) 0 3) [1; 2] 0 2 eq_refl)). reflexivity.
Defined.
