(* ===== verification/CycBuff.v ===== *)
(** * kits/cyc_buff.c: rings of records in the EEPROM

    A ring is a header of three half-words (start, end, count) followed by the slots; the
    control block in RAM ([cyc_buff_st]) repeats the header and keeps the geometry.  The
    instances are the cells [cb_*.[b]].  The specification is the list of the records, newest
    first ([log_holds]): adding a record conses it and cuts the list to the capacity, a query
    returns a page of it.  [add_n_cycbuff] has no caller and is left out. *)

From S2P Require Import Prelude Conf Fifo Machine SysStatus Eeprom.

#[local] Open Scope Z_scope.

Abbreviation PT_LEN := 6.

(** ** The ring *)

Definition init_cycbuff (b block_size depth eeprom_addr : Z) : act Z :=
  cb_block_size.[b] ::= block_size;;
  cb_base_addr.[b] ::= eeprom_addr;;
  cb_depth.[b] ::= depth - 1;;
  LET size := PT_LEN + block_size * depth IN
  cb_size.[b] ::= size;;
  RETURN size.

(** [I2C_EE_BufRead(&pt_inst, eeprom_buff_base_addr, sizeof(record_pt_st))]. *)
Definition load_pt (b : Z) : cmd :=
  LET l := I2C_EE_BufRead «cb_base_addr.[b]» PT_LEN IN
  cb_startpiont.[b] ::= of_le16 l;;
  cb_endpiont.[b] ::= of_le16 (drop 2 l);;
  cb_cnt.[b] ::= of_le16 (drop 4 l).

(** [I2C_EE_BufWrite(&pt_inst, eeprom_buff_base_addr, sizeof(record_pt_st))]. *)
Definition save_pt (b : Z) : act Z :=
  LET l := le16 «cb_startpiont.[b]» ++ le16 «cb_endpiont.[b]» ++ le16 «cb_cnt.[b]» IN
  LET a := «cb_base_addr.[b]» IN
  I2C_EE_BufWrite l a PT_LEN.

(** One more record: the pointers move on, at most [depth + 1] records count. *)
Definition advance_pt (b : Z) : cmd :=
  cb_cnt.[b].++;;
  IF «cb_depth.[b]» <? «cb_cnt.[b]» THEN
    cb_cnt.[b] ::= «cb_depth.[b]» + 1;;
    cb_startpiont.[b].++;;
    IF «cb_depth.[b]» <? «cb_startpiont.[b]» THEN cb_startpiont.[b] ::= 0 END
  END;;
  cb_endpiont.[b].++;;
  IF «cb_depth.[b]» <? «cb_endpiont.[b]» THEN cb_endpiont.[b] ::= 0 END.

Definition cacl_pt (b : Z) : act Z :=
  load_pt b;;
  advance_pt b;;
  RUN (save_pt b);;
  RETURN (u16 («cb_base_addr.[b]» + PT_LEN + «cb_endpiont.[b]» * «cb_block_size.[b]»)).

Definition add_cycbuff (b : Z) (buff_data : list Z) : cmd :=
  CALL data_addr := cacl_pt b IN
  LET n := «cb_block_size.[b]» IN
  RUN (I2C_EE_BufWrite buff_data data_addr n).

(** [while (cnt--)]: the records, concatenated in the caller's buffer. *)
Fixpoint read_back (b : Z) (cnt : nat) : act (list Z) :=
  match cnt with
  | O => RETURN []
  | S cnt' =>
      IF «cb_endpiont.[b]» =? 0xFFFF THEN cb_endpiont.[b] ::= «cb_depth.[b]» END;;
      LET data_addr := u16 («cb_base_addr.[b]» + PT_LEN + «cb_endpiont.[b]» * «cb_block_size.[b]») IN
      LET l := I2C_EE_BufRead data_addr «cb_block_size.[b]» IN
      cb_endpiont.[b].--;;
      CALL rest := read_back b cnt' IN
      RETURN (l ++ rest)
  end.

(** The number of records read and the records. *)
Definition quiry_cycbuff (b offset cnt : Z) : act (Z * list Z) :=
  LET n := «cb_cnt.[b]» IN
  if n <? offset then RETURN (0, [])
  else
    let cnt := if n - offset <? cnt then u8 (n - offset) else cnt in
    IF «cb_endpiont.[b]» <? offset THEN
      cb_endpiont.[b] ::= offset - «cb_endpiont.[b]»;;
      cb_endpiont.[b] ::= «cb_depth.[b]» + 1 - «cb_endpiont.[b]»
    ELSE
      cb_endpiont.[b] ::= «cb_endpiont.[b]» - offset
    END;;
    CALL data := read_back b (Z.to_nat cnt) IN
    RETURN (u8 cnt, data).

Definition clear_cycbuff_log (b : Z) : act Z :=
  cb_endpiont.[b] ::= 0;;
  cb_startpiont.[b] ::= 0;;
  cb_cnt.[b] ::= 0;;
  save_pt b.

(** ** EEPROM regions *)

Lemma bufread_length w a n : 0 < n -> Z.of_nat (length (@I2C_EE_BufRead w a n)) = n.
Proof. intros Hn. unfold I2C_EE_BufRead, I2C_EE_BufRead_bsp, read_bytes. rewrite length_fmap, length_seq. lia. Qed.

Lemma bufread_nth w a n k :
  0 <= k < n -> nth (Z.to_nat k) (@I2C_EE_BufRead w a n) 0 = u8 (ee w (u16 (a + k))).
Proof.
  intros Hk. unfold I2C_EE_BufRead, I2C_EE_BufRead_bsp, read_bytes, here. apply nth_lookup_Some.
  rewrite list_lookup_fmap, lookup_seq_lt by lia. cbn. by rewrite Z2Nat.id by lia.
Qed.

Lemma bufread_ext w w' a n :
  0 < n -> 0 <= a -> a + n < 65536 -> (forall b, a <= b < a + n -> ee w' b = ee w b) ->
  @I2C_EE_BufRead w' a n = @I2C_EE_BufRead w a n.
Proof.
  intros Hn Ha Hu H. apply (nth_ext _ _ 0 0).
  - pose proof (bufread_length w a n Hn). pose proof (bufread_length w' a n Hn). lia.
  - intros k Hk. pose proof (bufread_length w' a n Hn). rewrite <- (Nat2Z.id k), !bufread_nth by lia.
    by rewrite u16_small, H by lia.
Qed.

(** What was written is read back. *)
Lemma read_written w l a n :
  bytes l -> n = Z.of_nat (length l) -> 0 < n -> 0 <= a -> a + n < 65536 ->
  @I2C_EE_BufRead (I2C_EE_BufWrite l a n w).2 a n = l.
Proof.
  intros Hl Hn Hp Ha Hu. set (w' := (I2C_EE_BufWrite l a n w).2). pose proof (bufread_length w' a n Hp) as Hlen.
  apply (nth_ext _ _ 0 0); [lia|]. intros k Hk. rewrite <- (Nat2Z.id k), bufread_nth by lia.
  unfold w'. rewrite bufwrite_flat, u16_small by lia. unfold flat_write.
  rewrite (proj2 (Z.leb_le _ _)), (proj2 (Z.ltb_lt _ _)) by lia. cbn [andb].
  replace (a + Z.of_nat k - a) with (Z.of_nat k) by lia. rewrite Nat2Z.id. apply u8_small.
  pose proof (proj1 (List.Forall_forall _ _) Hl) as H. apply H, nth_In. lia.
Qed.

(** A region beside the one written is unchanged. *)
Lemma read_beside w l a n a' n' :
  n = Z.of_nat (length l) -> 0 <= a -> a + n < 65536 ->
  0 < n' -> 0 <= a' -> a' + n' < 65536 -> a' + n' <= a \/ a + n <= a' ->
  @I2C_EE_BufRead (I2C_EE_BufWrite l a n w).2 a' n' = @I2C_EE_BufRead w a' n'.
Proof.
  intros Hn Ha Hu Hn' Ha' Hu' Hd. apply bufread_ext; [lia..|]. intros b Hb. rewrite bufwrite_flat by lia.
  unfold flat_write. destruct (Z.leb_spec a b), (Z.ltb_spec b (a + Z.of_nat (length l))); cbn [andb]; try done. lia.
Qed.

(** ** The ring refines a list *)

Definition cb_fields : list field := [cb_startpiont; cb_endpiont; cb_cnt].

Lemma load_pt_foot b : respc (unch cb_fields []) (load_pt b).
Proof. unfold load_pt. footprint. Qed.
Lemma save_pt_foot b : respa (unch [P_ee] []) (save_pt b).
Proof. unfold save_pt. footprint. Qed.
#[export] Hint Resolve load_pt_foot save_pt_foot : foot.
Lemma advance_pt_foot b : respc (unch cb_fields []) (advance_pt b).
Proof. unfold advance_pt. footprint. Qed.
#[export] Hint Resolve advance_pt_foot : foot.
Lemma cacl_pt_foot b : respa (unch (P_ee :: cb_fields) []) (cacl_pt b).
Proof. unfold cacl_pt. footprint. Qed.
#[export] Hint Resolve cacl_pt_foot : foot.
Lemma add_cycbuff_foot b l : respc (unch (P_ee :: cb_fields) []) (add_cycbuff b l).
Proof. unfold add_cycbuff. footprint. Qed.
Lemma read_back_foot b n : respa (unch [cb_endpiont] []) (read_back b n).
Proof. induction n as [|n IH]; cbn [read_back]; footprint. Qed.
#[export] Hint Resolve add_cycbuff_foot read_back_foot : foot.
Lemma quiry_cycbuff_foot b o n : respa (unch [cb_endpiont] []) (quiry_cycbuff b o n).
Proof. unfold quiry_cycbuff. footprint. Qed.
Lemma clear_cycbuff_foot b : respa (unch (P_ee :: cb_fields) []) (clear_cycbuff_log b).
Proof. unfold clear_cycbuff_log. footprint. Qed.
#[export] Hint Resolve quiry_cycbuff_foot clear_cycbuff_foot : foot.

Lemma run_ret_value (c1 c2 : cmd) (a : act Z) (f : world -> Z) w :
  ((c1;; c2;; RUN a;; reta f) w).1 = f (a (c2 (c1 w))).2.
Proof. reflexivity. Qed.
Lemma run_ret_world (c1 c2 : cmd) (a : act Z) (f : world -> Z) w :
  ((c1;; c2;; RUN a;; reta f) w).2 = (a (c2 (c1 w))).2.
Proof. reflexivity. Qed.

Section ring.
Context (b base blk cap : Z).

(** The control block is initialised for [cap] records of [blk] bytes at [base]. *)
Definition geometry (w : world) : Prop :=
  w⟪cb_base_addr.[b]⟫ = base /\ w⟪cb_block_size.[b]⟫ = blk /\ w⟪cb_depth.[b]⟫ = cap - 1.
Definition slot (w : world) (j : Z) : list Z := @I2C_EE_BufRead w (base + PT_LEN + blk * j) blk.
Definition header (w : world) (s e c : Z) : Prop := @I2C_EE_BufRead w base PT_LEN = le16 s ++ le16 e ++ le16 c.

(** The ring whose newest record is in slot [e] holds [L], newest first. *)
Definition ring_at (w : world) (e : Z) (L : list (list Z)) : Prop :=
  0 <= e < cap /\ Z.of_nat (length L) <= cap /\ (exists s, header w s e (Z.of_nat (length L))) /\
  forall i r, L !! i = Some r -> slot w ((e - Z.of_nat i) mod cap) = r.
Definition log_holds (w : world) (L : list (list Z)) : Prop := geometry w /\ exists e, ring_at w e L.

Context (Hbase : 0 <= base) (Hblk : 0 < blk) (Hcap : 0 < cap < 65535) (Hend : base + PT_LEN + blk * cap < 65536).

Lemma geometry_unch F D w w' :
  unch F D w w' -> fin cb_base_addr F || fin cb_block_size F || fin cb_depth F = false -> geometry w -> geometry w'.
Proof.
  intros U H (G1 & G2 & G3). rewrite !orb_false_iff in H. destruct H as [[H1 H2] H3].
  by split_and!; rewrite (unch_rd F D w w').
Qed.

Lemma load_pt_header w s e c :
  geometry w -> header w s e c -> 0 <= e < 65536 -> 0 <= c < 65536 ->
  (load_pt b w)⟪cb_endpiont.[b]⟫ = e /\ (load_pt b w)⟪cb_cnt.[b]⟫ = c /\ ee (load_pt b w) = ee w.
Proof.
  intros (G1 & _) Hh He Hc. unfold load_pt, letc, seqc. rewrite G1. unfold header in Hh. rewrite Hh.
  split_and!; [| |done]; obs.
  - change (of_le16 _) with (of_le16 (le16 e)). rewrite of_le16_le16. by rewrite !u16_small by (rewrite ?u16_small; lia).
  - change (of_le16 _) with (of_le16 (le16 c)). rewrite of_le16_le16. by rewrite !u16_small by (rewrite ?u16_small; lia).
Qed.

Lemma save_pt_header w :
  geometry w -> let w' := (save_pt b w).2 in
  header w' (w⟪cb_startpiont.[b]⟫) (w⟪cb_endpiont.[b]⟫) (w⟪cb_cnt.[b]⟫) /\
  forall j, 0 <= j < cap -> slot w' j = slot w j.
Proof.
  intros (G1 & _). unfold save_pt, letc, header, slot. rewrite G1. cbv zeta. split.
  - apply read_written; [|done|lia..]. unfold le16, bytes, byte. cbn [app].
    repeat (apply List.Forall_cons; [apply u8_range|]). apply List.Forall_nil.
  - intros j Hj. apply read_beside; [done|nia..].
Qed.

Lemma advance_pt_spec w :
  w⟪cb_depth.[b]⟫ = cap - 1 -> 0 <= w⟪cb_endpiont.[b]⟫ < cap -> 0 <= w⟪cb_cnt.[b]⟫ <= cap ->
  (advance_pt b w)⟪cb_endpiont.[b]⟫ = (w⟪cb_endpiont.[b]⟫ + 1) mod cap /\
  (advance_pt b w)⟪cb_cnt.[b]⟫ = Z.min (w⟪cb_cnt.[b]⟫ + 1) cap.
Proof.
  intros Hd He Hc. unfold advance_pt, seqc, cif, skip. obs. rewrite Hd.
  rewrite (u16_small (w⟪cb_cnt.[b]⟫ + 1)) by lia.
  assert (Hm : (w⟪cb_endpiont.[b]⟫ + 1) mod cap = if cap - 1 <? w⟪cb_endpiont.[b]⟫ + 1 then 0 else w⟪cb_endpiont.[b]⟫ + 1).
  { destruct (Z.ltb_spec (cap - 1) (w⟪cb_endpiont.[b]⟫ + 1)).
    - replace (w⟪cb_endpiont.[b]⟫ + 1) with cap by lia. apply Z.mod_same. lia.
    - apply Z.mod_small. lia. }
  destruct (Z.ltb_spec (cap - 1) (w⟪cb_cnt.[b]⟫ + 1)); [destruct (cap - 1 <? u16 (w⟪cb_startpiont.[b]⟫ + 1))|]; obs; rewrite Hd, Hm;
    rewrite (u16_small (w⟪cb_endpiont.[b]⟫ + 1)) by lia;
    destruct (cap - 1 <? w⟪cb_endpiont.[b]⟫ + 1); obs; rewrite ?Hd, ?u16_small by lia; lia.
Qed.

(** The header that [cacl_pt] leaves. *)
Definition saved (w : world) : world := (save_pt b (advance_pt b (load_pt b w))).2.

Lemma cacl_pt_addr w :
  (cacl_pt b w).1 =
  u16 ((saved w)⟪cb_base_addr.[b]⟫ + PT_LEN + (saved w)⟪cb_endpiont.[b]⟫ * (saved w)⟪cb_block_size.[b]⟫).
Proof. unfold cacl_pt. rewrite run_ret_value. unfold saved. reflexivity. Qed.
Lemma cacl_pt_world w : (cacl_pt b w).2 = saved w.
Proof. unfold cacl_pt. rewrite run_ret_world. unfold saved. reflexivity. Qed.

(** From the pointers in RAM [w1] to the header in the EEPROM [w2]. *)
Lemma saved_pt w w1 w2 e c s :
  geometry w2 -> unch [P_ee] [] w1 w2 -> ee w1 = ee w -> 0 <= e < cap -> w1⟪cb_endpiont.[b]⟫ = e ->
  header w2 s e c -> (forall j, 0 <= j < cap -> slot w2 j = slot w1 j) ->
  u16 (w2⟪cb_base_addr.[b]⟫ + PT_LEN + w2⟪cb_endpiont.[b]⟫ * w2⟪cb_block_size.[b]⟫) = base + PT_LEN + blk * e /\
  (exists s', header w2 s' e c) /\ forall j, 0 <= j < cap -> slot w2 j = slot w j.
Proof.
  intros (G1 & G2 & _) U E1 He V Hh Hs. split_and!; [|by exists s|].
  - rewrite G1, G2. rewrite (unch_rd [P_ee] [] w1 w2), V by done. rewrite u16_small by nia. lia.
  - intros j Hj. rewrite Hs by done. apply bufread_ext; [lia|nia|nia|]. intros x _. by rewrite E1.
Qed.

Lemma cacl_pt_spec w s e c :
  geometry w -> header w s e c -> 0 <= e < cap -> 0 <= c <= cap ->
  let w' := (cacl_pt b w).2 in
  (cacl_pt b w).1 = base + PT_LEN + blk * ((e + 1) mod cap) /\
  (exists s', header w' s' ((e + 1) mod cap) (Z.min (c + 1) cap)) /\
  forall j, 0 <= j < cap -> slot w' j = slot w j.
Proof.
  intros HG Hh He Hc. destruct (load_pt_header w s e c) as (L1 & L2 & L3); [done..|lia|lia|].
  assert (HG0 : geometry (load_pt b w)) by (eapply geometry_unch; [apply load_pt_foot|done|done]).
  destruct (advance_pt_spec (load_pt b w)) as [V1 V2]; [apply HG0|lia|lia|].
  assert (HG1 : geometry (advance_pt b (load_pt b w))) by (eapply geometry_unch; [apply advance_pt_foot|done|done]).
  destruct (save_pt_header _ HG1) as [S1 S2]. rewrite V1, V2, L1, L2 in S1.
  cbv zeta. rewrite cacl_pt_addr, cacl_pt_world. unfold saved. eapply saved_pt; [|apply save_pt_foot| | | |exact S1|exact S2].
  - eapply geometry_unch; [apply save_pt_foot|done|done].
  - rewrite (unch_ee _ _ _ _ (advance_pt_foot b _)) by done. exact L3.
  - apply Z.mod_pos_bound. lia.
  - by rewrite V1, L1.
Qed.

(** Adding a record. *)
Lemma add_holds w L r :
  log_holds w L -> bytes r -> Z.of_nat (length r) = blk ->
  log_holds (add_cycbuff b r w) (take (Z.to_nat cap) (r :: L)).
Proof.
  intros (HG & e & He & HL & (s & Hh) & Hs) Hr Hlen. split.
  { eapply geometry_unch; [apply add_cycbuff_foot|done|done]. }
  destruct (cacl_pt_spec w s e (Z.of_nat (length L)) HG Hh He) as (C1 & (s' & C2) & C3); [lia|].
  pose proof (cacl_pt_foot b w) as U. pose proof (geometry_unch _ [] w _ U eq_refl HG) as (_ & G2 & _).
  pose proof (Z.mod_pos_bound (e + 1) cap ltac:(lia)) as Hm.
  unfold add_cycbuff, bindc, letc, runc. rewrite C1, G2. set (w1 := (cacl_pt b w).2) in *. clearbody w1.
  assert (Hlt : length (take (Z.to_nat cap) (r :: L)) = Z.to_nat (Z.min (Z.of_nat (length L) + 1) cap))
    by (rewrite length_take; cbn [length]; lia).
  exists ((e + 1) mod cap). split_and!; [lia|lia|lia| |].
  - exists s'. unfold header. rewrite Hlt, Z2Nat.id by lia. rewrite read_beside by nia. exact C2.
  - intros i x Hi. apply lookup_take_Some in Hi as [Hi Hic]. destruct i as [|i].
    + injection Hi as <-. rewrite Z.sub_0_r, Z.mod_mod by lia. apply read_written; [done|lia|lia|nia|nia].
    + cbn in Hi. rewrite <- (Hs i x Hi).
      replace (((e + 1) mod cap - Z.of_nat (S i)) mod cap) with ((e - Z.of_nat i) mod cap)
        by (rewrite Zminus_mod_idemp_l; f_equal; lia).
      pose proof (Z.mod_pos_bound (e - Z.of_nat i) cap ltac:(lia)) as Hj.
      rewrite <- C3 by lia. unfold slot.
      assert ((e - Z.of_nat i) mod cap <> (e + 1) mod cap).
      { intros E. apply (mod_add_ne (e - Z.of_nat i) 0 (Z.of_nat i + 1) cap); [lia..|].
        rewrite Z.add_0_r, E. f_equal. lia. }
      apply read_beside; [lia|nia..].
Qed.

(** Only the ring's own region of the EEPROM matters. *)
Lemma ring_at_ext w w' e L :
  (forall x, base <= x < base + PT_LEN + blk * cap -> ee w' x = ee w x) -> ring_at w e L -> ring_at w' e L.
Proof.
  intros He (He1 & HL & (s & Hh) & Hs). split_and!; [lia..| |].
  - exists s. unfold header. rewrite <- Hh. apply bufread_ext; [lia..|nia|]. intros x Hx. apply He. nia.
  - intros i r Hi. rewrite <- (Hs i r Hi). pose proof (Z.mod_pos_bound (e - Z.of_nat i) cap ltac:(lia)).
    apply bufread_ext; [lia|nia|nia|]. intros x Hx. apply He. nia.
Qed.

Lemma log_holds_ext w w' L :
  geometry w' -> (forall x, base <= x < base + PT_LEN + blk * cap -> ee w' x = ee w x) ->
  log_holds w L -> log_holds w' L.
Proof. intros HG He (_ & e & H). split; [done|]. exists e. by apply (ring_at_ext w). Qed.

Lemma clear_cycbuff_eq w :
  clear_cycbuff_log b w = save_pt b ((cb_cnt.[b] ::= 0) ((cb_startpiont.[b] ::= 0) ((cb_endpiont.[b] ::= 0) w))).
Proof. unfold clear_cycbuff_log, seqc. reflexivity. Qed.

Lemma save_pt_ret w : (save_pt b w).1 = EEPROM_NOERRO.
Proof. unfold save_pt, letc. apply bufwrite_ret. Qed.

Lemma clear_holds w :
  geometry w -> (clear_cycbuff_log b w).1 = EEPROM_NOERRO /\ log_holds (clear_cycbuff_log b w).2 [].
Proof.
  intros HG. split; [rewrite clear_cycbuff_eq; apply save_pt_ret|]. split.
  { eapply geometry_unch; [apply clear_cycbuff_foot|done|done]. }
  rewrite clear_cycbuff_eq. set (w1 := (cb_cnt.[b] ::= 0) _).
  assert (V : w1⟪cb_startpiont.[b]⟫ = 0 /\ w1⟪cb_endpiont.[b]⟫ = 0 /\ w1⟪cb_cnt.[b]⟫ = 0) by (unfold w1; split_and!; by obs).
  assert (HG1 : geometry w1) by (destruct HG as (? & ? & ?); unfold w1; split_and!; by obs). clearbody w1.
  destruct (save_pt_header w1 HG1) as [S1 _]. destruct V as (V1 & V2 & V3). rewrite V1, V2, V3 in S1.
  exists 0. split_and!; [lia|lia|cbn; lia|by exists 0|done].
Qed.

(** The cell [endpiont] stands for slot [e]; after slot 0 it holds 0xFFFF. *)
Definition points (w : world) (e : Z) : Prop :=
  w⟪cb_endpiont.[b]⟫ = e \/ (w⟪cb_endpiont.[b]⟫ = 0xFFFF /\ e = cap - 1).

Lemma read_back_step n w :
  let w1 := (IF «cb_endpiont.[b]» =? 0xFFFF THEN cb_endpiont.[b] ::= «cb_depth.[b]» END) w in
  let w2 := (cb_endpiont.[b].--) w1 in
  let l := @I2C_EE_BufRead w1 (u16 (w1⟪cb_base_addr.[b]⟫ + PT_LEN + w1⟪cb_endpiont.[b]⟫ * w1⟪cb_block_size.[b]⟫))
             (w1⟪cb_block_size.[b]⟫) in
  (read_back b (S n) w).1 = l ++ (read_back b n w2).1.
Proof. cbn [read_back]. unfold seqc, letc, bindc, reta. reflexivity. Qed.

Lemma read_back_spec n w e :
  geometry w -> 0 <= e < cap -> points w e ->
  (read_back b n w).1 = List.concat ((fun i => slot w ((e - Z.of_nat i) mod cap)) <$> seq 0 n).
Proof.
  revert w e. induction n as [|n IH]; intros w e HG He Hp; [done|]. rewrite read_back_step. cbv zeta.
  set (w1 := cif _ _ _ w). assert (U : unch [cb_endpiont] [] w w1).
  { unfold w1. generalize w. change (respc (unch [cb_endpiont] []) (IF «cb_endpiont.[b]» =? 0xFFFF THEN
      cb_endpiont.[b] ::= «cb_depth.[b]» END)). footprint. }
  assert (V : w1⟪cb_endpiont.[b]⟫ = e).
  { unfold w1, cif, skip. destruct HG as (_ & _ & G3). destruct Hp as [Hp|[Hp ->]]; rewrite Hp.
    - rewrite (proj2 (Z.eqb_neq _ _)) by lia. done.
    - rewrite Z.eqb_refl. obs. rewrite G3, u16_small; lia. }
  pose proof (geometry_unch _ _ _ _ U eq_refl HG) as HG1. pose proof (unch_ee _ _ _ _ U eq_refl) as E1. clearbody w1.
  rewrite (IH _ ((e - 1) mod cap)).
  2: { destruct HG1 as (? & ? & ?). split_and!; by obs. }
  2: { apply Z.mod_pos_bound. lia. }
  2: { unfold points. obs. rewrite V. destruct (Z.eq_dec e 0) as [->|].
       - right. split; [done|]. replace (0 - 1) with (cap - 1 + -1 * cap) by lia. rewrite Z.mod_add, Z.mod_small; lia.
       - left. rewrite u16_small, Z.mod_small; lia. }
  cbn [seq fmap list_fmap List.concat]. destruct HG1 as (G1 & G2 & _). rewrite G1, G2, V. f_equal.
  - rewrite Z.sub_0_r, (Z.mod_small e), u16_small by nia. unfold slot.
    replace (base + 6 + e * blk) with (base + PT_LEN + blk * e) by lia.
    apply bufread_ext; [lia|nia|nia|]. intros x _. by rewrite E1.
  - rewrite <- fmap_S_seq, <- list_fmap_compose. f_equal.
    apply list_fmap_ext. intros i k Hi. cbn. rewrite Zminus_mod_idemp_l.
    replace (e - 1 - Z.of_nat k) with (e - Z.of_nat (S k)) by lia.
    pose proof (Z.mod_pos_bound (e - Z.of_nat (S k)) cap ltac:(lia)).
    apply bufread_ext; [lia|nia|nia|]. intros x _. cbn. by rewrite E1.
Qed.

(** The records that a query returns. *)
Definition page (L : list (list Z)) (offset cnt : Z) : list (list Z) := take (Z.to_nat cnt) (drop (Z.to_nat offset) L).

Lemma concat_slots w e L o n :
  (forall i r, L !! i = Some r -> slot w ((e - Z.of_nat i) mod cap) = r) -> (o + n <= length L)%nat ->
  List.concat ((fun i => slot w ((e - Z.of_nat o - Z.of_nat i) mod cap)) <$> seq 0 n) = List.concat (take n (drop o L)).
Proof.
  intros Hs Hn. f_equal. apply list_eq. intros i. destruct (decide (i < n)%nat) as [Hi|Hi].
  - rewrite list_lookup_fmap, lookup_seq_lt, lookup_take_lt, lookup_drop by done. cbn [fmap option_fmap option_map].
    destruct (lookup_lt_is_Some_2 L (o + i)) as [r Hr]; [lia|]. rewrite Hr. f_equal. rewrite <- (Hs _ _ Hr).
    by replace (e - Z.of_nat o - Z.of_nat (0 + i)) with (e - Z.of_nat (o + i)) by lia.
  - rewrite !lookup_ge_None_2; [done|rewrite length_take; lia|rewrite length_fmap, length_seq; lia].
Qed.

Lemma quiry_eq w offset cnt :
  (w⟪cb_cnt.[b]⟫ <? offset) = false ->
  let n := w⟪cb_cnt.[b]⟫ in
  let m := if n - offset <? cnt then u8 (n - offset) else cnt in
  let w1 := (IF «cb_endpiont.[b]» <? offset THEN
      cb_endpiont.[b] ::= offset - «cb_endpiont.[b]»;;
      cb_endpiont.[b] ::= «cb_depth.[b]» + 1 - «cb_endpiont.[b]»
    ELSE
      cb_endpiont.[b] ::= «cb_endpiont.[b]» - offset
    END) w in
  (quiry_cycbuff b offset cnt w).1 = (u8 m, (read_back b (Z.to_nat m) w1).1).
Proof. intros H. unfold quiry_cycbuff, letc. rewrite H. unfold seqc, bindc, reta. reflexivity. Qed.

Lemma quiry_spec w e L offset cnt :
  geometry w -> ring_at w e L -> w⟪cb_endpiont.[b]⟫ = e -> w⟪cb_cnt.[b]⟫ = Z.of_nat (length L) ->
  0 <= offset -> 0 <= cnt < 256 ->
  (quiry_cycbuff b offset cnt w).1 =
  (Z.of_nat (length (page L offset cnt)), List.concat (page L offset cnt)).
Proof.
  intros HG (He & HL & _ & Hs) Ve Vc Ho Hc. unfold page. destruct (Z.ltb_spec (Z.of_nat (length L)) offset) as [Hlt|Hle].
  { unfold quiry_cycbuff, letc. rewrite Vc, (proj2 (Z.ltb_lt _ _)) by done. rewrite drop_ge, take_nil by lia. done. }
  rewrite quiry_eq by (rewrite Vc; apply Z.ltb_ge; lia). cbv zeta. rewrite Vc.
  set (n := if _ <? cnt then _ else cnt).
  assert (Hn : n = Z.min cnt (Z.of_nat (length L) - offset)).
  { unfold n. destruct (Z.ltb_spec (Z.of_nat (length L) - offset) cnt); [rewrite u8_small|]; lia. }
  set (w1 := cif _ _ _ w). assert (U : unch [cb_endpiont] [] w w1).
  { unfold w1. generalize w. change (respc (unch [cb_endpiont] []) (IF «cb_endpiont.[b]» <? offset THEN
      cb_endpiont.[b] ::= offset - «cb_endpiont.[b]»;; cb_endpiont.[b] ::= «cb_depth.[b]» + 1 - «cb_endpiont.[b]»
      ELSE cb_endpiont.[b] ::= «cb_endpiont.[b]» - offset END)). footprint. }
  assert (V : w1⟪cb_endpiont.[b]⟫ = (e - offset) mod cap).
  { unfold w1, cif, seqc. destruct HG as (_ & _ & G3). rewrite Ve. destruct (Z.ltb_spec e offset); obs; rewrite ?G3, ?Ve.
    - rewrite (u16_small (offset - e)) by lia. rewrite u16_small by lia.
      replace (e - offset) with (cap - (offset - e) + -1 * cap) by lia. rewrite Z.mod_add by lia.
      rewrite Z.mod_small; lia.
    - rewrite u16_small, Z.mod_small; lia. }
  pose proof (geometry_unch _ _ _ _ U eq_refl HG) as HG1. pose proof (unch_ee _ _ _ _ U eq_refl) as E1. clearbody w1.
  rewrite (read_back_spec (Z.to_nat n) w1 ((e - offset) mod cap)); [|done|apply Z.mod_pos_bound; lia|by left].
  assert (Ht : take (Z.to_nat cnt) (drop (Z.to_nat offset) L) = take (Z.to_nat n) (drop (Z.to_nat offset) L)).
  { destruct (Z.le_gt_cases cnt (Z.of_nat (length L) - offset)); [by replace n with cnt by lia|].
    rewrite !take_ge; [done|rewrite length_drop; lia..]. }
  rewrite Ht. f_equal; [rewrite length_take, length_drop, u8_small; lia|].
  rewrite <- (concat_slots w e L (Z.to_nat offset) (Z.to_nat n) Hs) by lia. f_equal. apply list_fmap_ext. intros i k _.
  rewrite Zminus_mod_idemp_l, Z2Nat.id by lia. pose proof (Z.mod_pos_bound (e - offset - Z.of_nat k) cap ltac:(lia)).
  apply bufread_ext; [lia|nia|nia|]. intros x _. by rewrite E1.
Qed.

(** A query from the EEPROM: the number of records read, the number in the log, the records. *)
Lemma log_query w L offset cnt :
  log_holds w L -> 0 <= offset -> 0 <= cnt < 256 ->
  let w1 := load_pt b w in
  (quiry_cycbuff b offset cnt w1).1 = (Z.of_nat (length (page L offset cnt)), List.concat (page L offset cnt)) /\
  w1⟪cb_cnt.[b]⟫ = Z.of_nat (length L) /\ log_holds (quiry_cycbuff b offset cnt w1).2 L.
Proof.
  intros (HG & e & He & HL & (s & Hh) & Hs) Ho Hc.
  destruct (load_pt_header w s e (Z.of_nat (length L))) as (L1 & L2 & L3); [done..|lia|lia|].
  assert (HG0 : geometry (load_pt b w)) by (eapply geometry_unch; [apply load_pt_foot|done|done]).
  assert (H0 : log_holds (load_pt b w) L).
  { apply (log_holds_ext w); [done|intros x _; by rewrite L3|]. split; [done|exists e]. split_and!; [lia..|by exists s|done]. }
  cbv zeta. set (w1 := load_pt b w) in *. clearbody w1. split_and!; [|done|].
  - apply (quiry_spec w1 e); [done| |done..]. apply (ring_at_ext w); [intros x _; by rewrite L3|].
    split_and!; [lia..|by exists s|done].
  - eapply (log_holds_ext w1); [|intros x _; by rewrite (unch_ee _ _ _ _ (quiry_cycbuff_foot b offset cnt w1) eq_refl)|done].
    eapply geometry_unch; [apply quiry_cycbuff_foot|done|done].
Qed.

End ring.
