(* ===== verification/Logs.v ===== *)
(** * The logs of usr/modules/event_record.c

    The log routines move the records of the FIFOs (file EventRecord) to two rings in the EEPROM
    (file CycBuff), high byte first, and keep the table of alarms that have begun and not
    ended. *)

From S2P Require Import Prelude Conf Fifo Machine SysStatus EventRecord Eeprom CycBuff.

#[local] Open Scope Z_scope.

Abbreviation EVENT_LOG := 0.
Abbreviation ALARM_LOG := 1.
Abbreviation EVE_MAX_CNT := 500.
Abbreviation ALARM_MAX_CNT := 500.
Abbreviation LOG_LEN := 12.
Abbreviation AlARM_TABLE_ADDR := 4250.
Abbreviation ALARM_REC_PT_ADDR := 15960.
Abbreviation EVENT_REC_PT_ADDR := 21966.
Abbreviation TABLE_LEN := 8.
Abbreviation USER_CPAD := 2.

(** ** Reading *)

(** The number of records read, the number in the log and the records. *)
Definition get_log (start_num cont : Z) (alarm : bool) : act (Z * Z * list Z) :=
  let b := if alarm then ALARM_LOG else EVENT_LOG in
  load_pt b;;
  LET total_cnt := «cb_cnt.[b]» IN
  CALL r := quiry_cycbuff b start_num (u8 cont) IN
  RETURN (r.1, total_cnt, r.2).

(** ** Events *)

Section heap.
(** [heap n] is what [rt_malloc(n)] returns. *)
Context (heap : Z -> option (list Z)).

Definition init_eventlog_fifo : cmd := fun w =>
  match fifo8_init heap LOG_LEN 64 with Some f => set_eventlog f w | None => w end.

Definition init_evnet_log : cmd :=
  init_eventlog_fifo;;
  RUN (init_cycbuff EVENT_LOG LOG_LEN EVE_MAX_CNT EVENT_REC_PT_ADDR);;
  LET level := «status_permission_level» IN
  add_eventlog_fifo 0xffff ((USER_CPAD .<< 8) .| level) 0 1.

Definition init_alarmlog_queue : cmd := fun w =>
  match fifo8_init heap LOG_LEN 30 with Some f => set_alarmlog f w | None => w end.

(** ** Alarms *)

(** A record of the alarm log. *)
Definition alarm_record (id trigger_time end_time value : Z) : list Z :=
  be16 id ++ be32 trigger_time ++ be32 end_time ++ be16 value.

(** The entry of the table as it lies in memory. *)
Definition table_bytes {w : cur} (i : Z) : list Z :=
  le32 «table_trigger_time.[i]» ++ le16 «table_alarm_value.[i]» ++ le16 «table_alarm_id.[i]».

Definition load_table : cmd :=
  LET l := I2C_EE_BufRead AlARM_TABLE_ADDR (TABLE_LEN * ACL_TOTAL_NUM) IN
  FOR i IN range ACL_TOTAL_NUM DO
    let e := drop (Z.to_nat (TABLE_LEN * i)) l in
    table_trigger_time.[i] ::= of_le32 e;;
    table_alarm_value.[i] ::= of_le16 (drop 4 e);;
    table_alarm_id.[i] ::= of_le16 (drop 6 e)
  END.

Definition save_table : act Z :=
  LET l := List.concat ((fun i => table_bytes i) <$> range ACL_TOTAL_NUM) IN
  I2C_EE_BufWrite l AlARM_TABLE_ADDR (TABLE_LEN * ACL_TOTAL_NUM).

Definition save_table_entry (i : Z) : cmd :=
  LET l := table_bytes i IN
  RUN (I2C_EE_BufWrite l (AlARM_TABLE_ADDR + TABLE_LEN * i) TABLE_LEN).

(** The alarms that were active when the power failed end now. *)
Definition init_aLarmlog_fifo : cmd :=
  init_alarmlog_queue;;
  RUN (init_cycbuff ALARM_LOG LOG_LEN ALARM_MAX_CNT ALARM_REC_PT_ADDR);;
  load_table;;
  LET time := «rtc_now» IN
  FOR i IN range ACL_TOTAL_NUM DO
    IF negb («table_trigger_time.[i]» =? 0xFFFFFFFF) THEN
      LET r := alarm_record «table_alarm_id.[i]» «table_trigger_time.[i]» time «table_alarm_value.[i]» IN
      add_cycbuff ALARM_LOG r
    END;;
    table_trigger_time.[i] ::= 0xFFFFFFFF;;
    table_alarm_value.[i] ::= 0xFFFF
  END;;
  RUN save_table.

Definition init_alarm_log : cmd := init_aLarmlog_fifo.
End heap.

(** An event as the FIFO holds it ([event_log_st]), rewritten high byte first. *)
Definition event_record (l : list Z) : list Z :=
  be16 (of_le16 l) ++ be32 (of_le32 (drop 2 l)) ++ be16 (of_le16 (drop 6 l)) ++
  be16 (of_le16 (drop 8 l)) ++ be16 (of_le16 (drop 10 l)).

Fixpoint drain_events (len : nat) : cmd :=
  match len with
  | O => skip
  | S len' =>
      (fun w => match fifo8_pop (eventlog_fifo w) with
                | (_, Some eventlog_inst, f) => add_cycbuff EVENT_LOG (event_record eventlog_inst) (set_eventlog f w)
                | (_, None, f) => set_eventlog f w
                end);;
      drain_events len'
  end.

Definition user_eventlog_add : cmd :=
  LET len := u8 (get_fifo8_length (eventlog_fifo here)) IN
  drain_events (Z.to_nat len).

(** The table has [ACL_TOTAL_NUM] entries and is indexed by the low byte of an alarm's number without a
    check: a record with a greater one is read and written past the table. *)
Class beyond_alarm_table : Type := beyond_entry : list Z -> cmd.

(** One record of the alarm FIFO ([alarm_log_st]: id, trigger time, end time, value). *)
Definition take_alarm {O : beyond_alarm_table} (l : list Z) : cmd :=
  let alarm_id := of_le16 l in
  let trigger_time := of_le32 (drop 2 l) in
  let end_time := of_le32 (drop 6 l) in
  let rev := of_le16 (drop 10 l) in
  let table_index := alarm_id .& 0x00FF in
  if ACL_TOTAL_NUM <=? table_index then beyond_entry l
  else if end_time =? 0xFFFFFFFF then
    table_trigger_time.[table_index] ::= trigger_time;;
    table_alarm_value.[table_index] ::= rev;;
    table_alarm_id.[table_index] ::= alarm_id;;
    save_table_entry table_index
  else
    IF negb («table_trigger_time.[table_index]» =? 0xFFFFFFFF) THEN
      LET r := alarm_record «table_alarm_id.[table_index]» «table_trigger_time.[table_index]» end_time
                 «table_alarm_value.[table_index]» IN
      add_cycbuff ALARM_LOG r
    END;;
    table_alarm_value.[table_index] ::= 0xFFFF;;
    table_trigger_time.[table_index] ::= 0xFFFFFFFF;;
    save_table_entry table_index.

Fixpoint drain_alarms {O : beyond_alarm_table} (len : nat) : cmd :=
  match len with
  | O => skip
  | S len' =>
      (fun w => match fifo8_pop (alarmlog_fifo w) with
                | (_, Some alarmlog_inst, f) => take_alarm alarmlog_inst (set_alarmlog f w)
                | (_, None, f) => set_alarmlog f w
                end);;
      drain_alarms len'
  end.

Definition user_alarmlog_add {O : beyond_alarm_table} : cmd :=
  LET len := u8 (get_fifo8_length (alarmlog_fifo here)) IN
  drain_alarms (Z.to_nat len).

(** [flag]: the event log, or the alarm log with its table. *)
Definition clear_log (event : bool) : act Z :=
  if event then
    CALL r := clear_cycbuff_log EVENT_LOG IN
    RETURN (if r =? EEPROM_NOERRO then 1 else 0)
  else
    CALL r1 := clear_cycbuff_log ALARM_LOG IN
    FOR i IN range ACL_TOTAL_NUM DO
      table_trigger_time.[i] ::= 0xFFFFFFFF;;
      table_alarm_value.[i] ::= 0xFFFF;;
      table_alarm_id.[i] ::= 0xFFFF
    END;;
    CALL r2 := save_table IN
    RETURN (if u8 (r1 + r2) =? 2 * EEPROM_NOERRO then 1 else 0).

(** ** The two logs refine lists *)

Module LogSpec.

Inductive op : Type := Add (r : list Z) | Clear | Query (start_num cont : Z).

(** The records, newest first; a call's result is its return value, the number of records in the
    log and the bytes copied to the caller. *)
Definition step (cap : Z) (o : op) (L : list (list Z)) : (Z * Z * list Z) * list (list Z) :=
  match o with
  | Add r => ((0, 0, []), take (Z.to_nat cap) (r :: L))
  | Clear => ((1, 0, []), [])
  | Query s c =>
      let p := take (Z.to_nat (u8 c)) (drop (Z.to_nat s) L) in
      ((Z.of_nat (length p), Z.of_nat (length L), List.concat p), L)
  end.

Fixpoint run (cap : Z) (os : list op) (L : list (list Z)) : list (Z * Z * list Z) :=
  match os with
  | [] => []
  | o :: os' => let (r, L') := step cap o L in r :: run cap os' L'
  end.

End LogSpec.

Definition log_of (alarm : bool) : Z := if alarm then ALARM_LOG else EVENT_LOG.
Definition base_of (alarm : bool) : Z := if alarm then ALARM_REC_PT_ADDR else EVENT_REC_PT_ADDR.

Definition log_exec (alarm : bool) (o : LogSpec.op) : act (Z * Z * list Z) :=
  match o with
  | LogSpec.Add r => add_cycbuff (log_of alarm) r;; RETURN (0, 0, [])
  | LogSpec.Clear => CALL r := clear_log (negb alarm) IN RETURN (r, 0, [])
  | LogSpec.Query s c => get_log s c alarm
  end.

Fixpoint log_exec_all (alarm : bool) (os : list LogSpec.op) (w : world) : list (Z * Z * list Z) :=
  match os with
  | [] => []
  | o :: os' => let (r, w') := log_exec alarm o w in r :: log_exec_all alarm os' w'
  end.

Definition log_op_ok (o : LogSpec.op) : Prop :=
  match o with
  | LogSpec.Add r => bytes r /\ length r = 12%nat
  | LogSpec.Clear => True
  | LogSpec.Query s c => 0 <= s
  end.

Abbreviation log_is alarm := (log_holds (log_of alarm) (base_of alarm) LOG_LEN 500).
Abbreviation log_geometry alarm := (geometry (log_of alarm) (base_of alarm) LOG_LEN 500).

Definition table_fields : list field := [table_trigger_time; table_alarm_value; table_alarm_id].
Lemma save_table_foot : respa (unch [P_ee] []) save_table.
Proof. unfold save_table. footprint. Qed.
#[export] Hint Resolve save_table_foot : foot.

Lemma save_table_ret w : (save_table w).1 = EEPROM_NOERRO.
Proof. unfold save_table, letc. apply bufwrite_ret. Qed.

(** The table does not overlap the logs. *)
Lemma save_table_beside w x : AlARM_TABLE_ADDR + 184 <= x -> ee (save_table w).2 x = ee w x.
Proof.
  intros Hx. unfold save_table, letc. rewrite bufwrite_flat; [|lia|reflexivity|lia]. unfold flat_write.
  change (Z.of_nat (length _)) with 184. destruct (Z.ltb_spec x (AlARM_TABLE_ADDR + 184)); [lia|]. by rewrite andb_false_r.
Qed.

Lemma get_log_spec alarm w L s c :
  log_is alarm w L -> 0 <= s ->
  (get_log s c alarm w).1 = (LogSpec.step 500 (LogSpec.Query s c) L).1 /\ log_is alarm (get_log s c alarm w).2 L.
Proof.
  intros H Hs. destruct (log_query (log_of alarm) (base_of alarm) LOG_LEN 500) with (w := w) (L := L) (offset := s) (cnt := u8 c)
    as (Q1 & Q2 & Q3); [destruct alarm; cbn; lia|lia|lia|destruct alarm; cbn; lia|done|done|apply u8_range|].
  unfold get_log, seqc, letc, bindc, reta. fold (log_of alarm). cbn [fst snd LogSpec.step]. split; [|exact Q3].
  rewrite Q1, Q2. reflexivity.
Qed.

Lemma clear_log_spec alarm w :
  log_geometry alarm w -> (clear_log (negb alarm) w).1 = 1 /\ log_is alarm (clear_log (negb alarm) w).2 [].
Proof.
  intros HG. destruct (clear_holds (log_of alarm) (base_of alarm) LOG_LEN 500) with (w := w) as [C1 C2];
    [destruct alarm; cbn; lia|lia|lia|destruct alarm; cbn; lia|done|].
  unfold clear_log. destruct alarm; cbn [negb log_of base_of] in *; unfold bindc.
  - rewrite C1. unfold seqc, bindc, reta. cbn [fst snd]. rewrite save_table_ret. split; [done|].
    set (w1 := (clear_cycbuff_log ALARM_LOG w).2) in *. clearbody w1.
    match goal with |- log_holds _ _ _ _ (save_table ?x).2 [] => set (w2 := x) end.
    assert (U : unch table_fields [] w1 w2).
    { unfold w2. generalize w1. change (respc (unch table_fields []) (FOR i IN range ACL_TOTAL_NUM DO
        table_trigger_time.[i] ::= 0xFFFFFFFF;; table_alarm_value.[i] ::= 0xFFFF;; table_alarm_id.[i] ::= 0xFFFF END)). footprint. }
    clearbody w2. apply (log_holds_ext ALARM_LOG ALARM_REC_PT_ADDR LOG_LEN 500) with (w := w1); [lia..| | |done].
    + eapply geometry_unch; [apply save_table_foot|done|]. eapply geometry_unch; [exact U|done|]. apply C2.
    + intros x Hx. rewrite save_table_beside by lia. by rewrite (unch_ee _ _ _ _ U).
  - rewrite C1. unfold reta. cbn [fst snd]. by split.
Qed.

Lemma log_exec_spec alarm o w L :
  log_is alarm w L -> log_op_ok o ->
  let (r, w') := log_exec alarm o w in
  r = (LogSpec.step 500 o L).1 /\ log_is alarm w' (LogSpec.step 500 o L).2.
Proof.
  intros H Ho. destruct o as [r| |s c]; cbn [log_exec log_op_ok] in *.
  - unfold seqc, reta. split; [done|]. cbn [LogSpec.step snd].
    apply add_holds; [destruct alarm; cbn; lia|lia|lia|destruct alarm; cbn; lia|done|apply Ho|lia].
  - unfold bindc, reta. destruct (clear_log_spec alarm w (proj1 H)) as [C1 C2]. by rewrite C1.
  - destruct (get_log_spec alarm w L s c H Ho) as [G1 G2]. destruct (get_log s c alarm w) as [r w']. cbn [fst snd] in *. by subst r.
Qed.

Lemma log_exec_all_spec alarm os w L :
  log_is alarm w L -> Forall log_op_ok os -> log_exec_all alarm os w = LogSpec.run 500 os L.
Proof.
  revert w L. induction os as [|o os IH]; intros w L H Ho; [done|]. inversion_clear Ho as [|? ? Ho1 Ho2].
  cbn [log_exec_all LogSpec.run]. pose proof (log_exec_spec alarm o w L H Ho1) as S.
  destruct (log_exec alarm o w) as [r w'], (LogSpec.step 500 o L) as [r' L']. cbn [fst snd] in S.
  destruct S as [-> S]. f_equal. by apply IH.
Qed.

Lemma init_cycbuff_geometry alarm w : log_geometry alarm (init_cycbuff (log_of alarm) LOG_LEN 500 (base_of alarm) w).2.
Proof.
  unfold init_cycbuff, seqc, letc, reta. cbn [snd]. split_and!; obs; [destruct alarm; reflexivity|reflexivity|reflexivity].
Qed.

(** C8: the logs in the EEPROM are lists.  After [init_cycbuff] and [clear_log], any sequence of
    added records, queries and clears of the event log, or of the alarm log, behaves as the list
    of the records, newest first, cut to the last 500: every query returns the number of records
    in the log, the records from the one asked for backwards, and how many there were; the ring
    wraps, its header is read back from the EEPROM on every call. *)
Theorem log_refines_list alarm os w0 :
  Forall log_op_ok os ->
  let w := (init_cycbuff (log_of alarm) LOG_LEN 500 (base_of alarm) w0).2 in
  log_exec_all alarm (LogSpec.Clear :: os) w = LogSpec.run 500 (LogSpec.Clear :: os) [].
Proof.
  intros Hos w. cbn [log_exec_all log_exec LogSpec.run LogSpec.step]. unfold bindc, reta.
  destruct (clear_log_spec alarm w (init_cycbuff_geometry alarm w0)) as [C1 C2]. rewrite C1. f_equal.
  by apply log_exec_all_spec.
Qed.

Lemma log_refines_list_witness :
  let r k := repeat k 12 in
  let os := [LogSpec.Add (r 1); LogSpec.Add (r 2); LogSpec.Add (r 3); LogSpec.Query 1 5] in
  exists rest, log_exec_all true (LogSpec.Clear :: os) (init_cycbuff (log_of true) LOG_LEN 500 (base_of true) w_zero).2 =
    rest ++ [(2, 3, r 2 ++ r 1)].
Proof.
  intros r os. exists [(1, 0, []); (0, 0, []); (0, 0, []); (0, 0, [])].
  refine (eq_trans (log_refines_list true os w_zero _) _); [|vm_compute; reflexivity].
  assert (forall k, 0 <= k < 256 -> bytes (r k) /\ length (r k) = 12%nat) as H.
  { intros k Hk. split; [|reflexivity]. repeat (apply List.Forall_cons; [exact Hk|]). apply List.Forall_nil. }
  repeat (apply List.Forall_cons; [first [apply H; lia|cbn; lia]|]). apply List.Forall_nil.
Defined.

(** ** Events reach the log *)

Lemma of_le32_le32 v : of_le32 (le32 v) = v mod 2 ^ 32.
Proof.
  unfold of_le32, of_le16, le32. cbn [nth drop]. rewrite !Z.shiftr_div_pow2 by lia. unfold u8.
  change (2 ^ 8) with 256. change (2 ^ 16) with 65536. change (2 ^ 24) with 16777216. change (2 ^ 32) with 4294967296.
  Z.div_mod_to_equations. lia.
Qed.

Lemma bytes_be16 v : bytes (be16 v).
Proof. repeat (apply List.Forall_cons; [apply u8_range|]). apply List.Forall_nil. Qed.
Lemma bytes_be32 v : bytes (be32 v).
Proof. repeat (apply List.Forall_cons; [apply u8_range|]). apply List.Forall_nil. Qed.
Lemma event_record_ok l : bytes (event_record l) /\ length (event_record l) = 12%nat.
Proof. split; [|done]. unfold event_record. repeat (apply Forall_app; split); first [apply bytes_be16|apply bytes_be32]. Qed.
Lemma alarm_record_ok i s e v : bytes (alarm_record i s e v) /\ length (alarm_record i s e v) = 12%nat.
Proof. split; [|done]. unfold alarm_record. repeat (apply Forall_app; split); first [apply bytes_be16|apply bytes_be32]. Qed.

Lemma log_is_frame alarm w w' L :
  unch [P_eventlog; P_alarmlog; table_trigger_time; table_alarm_value; table_alarm_id; rtc_now] [] w w' -> log_is alarm w L -> log_is alarm w' L.
Proof.
  intros U H. apply (log_holds_ext (log_of alarm) (base_of alarm) LOG_LEN 500) with (w := w); try lia; [destruct alarm; cbn; lia..| | |done].
  - eapply geometry_unch; [exact U|done|apply H].
  - intros x _. by rewrite (unch_ee _ _ _ _ U).
Qed.

Lemma log_is_add alarm w L r :
  log_is alarm w L -> bytes r /\ length r = 12%nat -> log_is alarm (add_cycbuff (log_of alarm) r w) (take 500 (r :: L)).
Proof. intros H [H1 H2]. apply add_holds; [destruct alarm; cbn; lia|lia|lia|destruct alarm; cbn; lia|done|done|lia]. Qed.

Lemma take_app_take {A} n (l k : list A) : take n (l ++ take n k) = take n (l ++ k).
Proof. rewrite !take_app. f_equal. rewrite take_take. f_equal. lia. Qed.

Lemma set_eventlog_unch f w : unch [P_eventlog] [] w (set_eventlog f w).
Proof. by apply (unch_set_eventlog [P_eventlog] [] (fun _ => f)). Qed.

(** The FIFO holds the blocks [q]. *)
Definition queue_is (f : fifo_cb) (q : list (list Z)) : Prop :=
  exists t, fifo_inv f t /\ block_size f = LOG_LEN /\ contents f t = q.

Lemma queue_length f q : queue_is f q -> get_fifo8_length f = Z.of_nat (length q).
Proof. intros (t & Hi & _ & <-). rewrite length_contents. unfold get_fifo8_length, get_fifo_length. destruct Hi. lia. Qed.

Lemma queue_pop f x q :
  queue_is f (x :: q) -> exists f', fifo8_pop f = (1, Some x, f') /\ queue_is f' q.
Proof.
  intros (t & Hi & Hb & Hc). pose proof (pop_spec f t Hi) as P. unfold fifo8_pop.
  destruct (fifo_pop f) as [[r d] f']. destruct P as (t' & Hi' & _ & Hb' & P). rewrite Hc in P. cbn [Spec.step] in P.
  injection P as -> -> P. exists f'. split; [done|]. exists t'. split_and!; [done|congruence|done].
Qed.

Lemma queue_push f q x :
  queue_is f q -> length x = 12%nat -> Z.of_nat (length q) < depth f ->
  queue_is (fifo8_push f x).2 (q ++ [x]) /\ depth (fifo8_push f x).2 = depth f.
Proof.
  intros (t & Hi & Hb & <-) Hx Hlt. pose proof (push_spec f t x Hi) as P. unfold fifo8_push.
  destruct (fifo_push f x) as [r f']. cbn [snd]. destruct P as (Hi' & Hd' & Hb' & P); [lia|]. cbn [Spec.step] in P.
  rewrite (proj2 (Z.eqb_neq _ _)) in P by lia. injection P as -> P. split; [|done]. exists t. split_and!; [done|congruence|done].
Qed.

Lemma drain_events_step n w r x f :
  fifo8_pop (eventlog_fifo w) = (r, Some x, f) ->
  drain_events (S n) w = drain_events n (add_cycbuff EVENT_LOG (event_record x) (set_eventlog f w)).
Proof. intros H. cbn [drain_events]. unfold seqc. by rewrite H. Qed.

Lemma drain_events_spec q w L :
  queue_is (eventlog_fifo w) q -> log_is false w L ->
  let w' := drain_events (length q) w in
  queue_is (eventlog_fifo w') [] /\ log_is false w' (take 500 (rev (event_record <$> q) ++ L)) /\
  unch (P_ee :: P_eventlog :: cb_fields) [] w w'.
Proof.
  revert w L. induction q as [|x q IH]; intros w L Hq HL; cbn [length].
  { cbn [drain_events]. unfold skip. cbn [fmap list_fmap rev app]. split_and!; [done| |reflexivity]. rewrite take_ge; [done|].
    destruct HL as (_ & e & _ & H & _). lia. }
  destruct (queue_pop _ _ _ Hq) as (f' & Hp & Hq'). cbv zeta. rewrite (drain_events_step _ _ _ _ _ Hp).
  assert (H1 : log_is false (set_eventlog f' w) L)
    by (apply (log_is_frame _ w); [eapply unch_weaken; [apply set_eventlog_unch|done|done]|done]).
  pose proof (log_is_add false _ _ _ H1 (event_record_ok x)) as H2.
  pose proof (add_cycbuff_foot EVENT_LOG (event_record x) (set_eventlog f' w)) as U2.
  set (w2 := add_cycbuff EVENT_LOG (event_record x) (set_eventlog f' w)) in *.
  destruct (IH w2 (take 500 (event_record x :: L))) as (I1 & I2 & I3).
  { rewrite (unch_elog _ _ _ _ U2) by done. exact Hq'. }
  { exact H2. }
  split_and!; [exact I1| |].
  - rewrite fmap_cons. cbn [rev]. rewrite <- app_assoc. cbn [app]. revert I2. generalize (drain_events (length q) w2). intros w3.
    by rewrite take_app_take.
  - etrans; [|exact I3]. transitivity (set_eventlog f' w); [eapply unch_weaken; [apply set_eventlog_unch|done|done]|].
    eapply unch_weaken; [exact U2|done|done].
Qed.

Lemma be16_u16 v : be16 (u16 v) = be16 v.
Proof.
  unfold be16. rewrite !Z.shiftr_div_pow2 by lia. unfold u8, u16. change (2 ^ 8) with 256.
  repeat (apply (f_equal2 cons); [Z.div_mod_to_equations; lia|]); done.
Qed.
Lemma be32_mod v : be32 (v mod 2 ^ 32) = be32 v.
Proof.
  unfold be32. rewrite !Z.shiftr_div_pow2 by lia. unfold u8.
  change (2 ^ 8) with 256. change (2 ^ 16) with 65536. change (2 ^ 24) with 16777216. change (2 ^ 32) with 4294967296.
  repeat (apply (f_equal2 cons); [Z.div_mod_to_equations; lia|]); done.
Qed.

(** Events that happen, each with the register, the user, the old and the new value. *)
Definition event : Type := Z * Z * Z * Z.
Definition happen (e : event) : cmd := let '(id, user, old, new) := e in add_eventlog_fifo id user old new.
Definition happen_all (es : list event) (w : world) : world := foldl (fun w e => happen e w) w es.

(** The line of the log for an event at time [now], high byte first. *)
Definition event_line (now : Z) (e : event) : list Z :=
  let '(id, user, old, new) := e in be16 id ++ be32 now ++ be16 user ++ be16 old ++ be16 new.
Definition event_block (now : Z) (e : event) : list Z :=
  let '(id, user, old, new) := e in le16 id ++ le32 now ++ le16 user ++ le16 old ++ le16 new.

Lemma event_record_block now e : event_record (event_block now e) = event_line now e.
Proof.
  destruct e as [[[id user] old] new]. unfold event_record, event_block, event_line.
  change (of_le16 (le16 id ++ _)) with (of_le16 (le16 id)).
  change (of_le32 (drop 2 _)) with (of_le32 (le32 now)).
  change (of_le16 (drop 6 _)) with (of_le16 (le16 user)).
  change (of_le16 (drop 8 _)) with (of_le16 (le16 old)).
  change (of_le16 (drop 10 _)) with (of_le16 (le16 new)).
  by rewrite !of_le16_le16, of_le32_le32, !be16_u16, be32_mod.
Qed.

Lemma happen_queue e w q :
  queue_is (eventlog_fifo w) q -> Z.of_nat (length q) < depth (eventlog_fifo w) ->
  queue_is (eventlog_fifo (happen e w)) (q ++ [event_block (w⟪rtc_now⟫) e]) /\
  depth (eventlog_fifo (happen e w)) = depth (eventlog_fifo w) /\ unch [P_eventlog] [] w (happen e w).
Proof.
  intros Hq Hd. destruct e as [[[id user] old] new]. cbn [happen].
  destruct (queue_push _ _ (event_block (w⟪rtc_now⟫) (id, user, old, new)) Hq eq_refl Hd) as [P1 P2].
  split_and!; [exact P1|exact P2|apply add_eventlog_fifo_foot].
Qed.

Lemma happen_all_queue es w q :
  queue_is (eventlog_fifo w) q -> Z.of_nat (length q + length es) <= depth (eventlog_fifo w) ->
  queue_is (eventlog_fifo (happen_all es w)) (q ++ (event_block (w⟪rtc_now⟫) <$> es)) /\ unch [P_eventlog] [] w (happen_all es w).
Proof.
  revert w q. induction es as [|e es IH]; intros w q Hq Hd; cbn [happen_all foldl].
  { cbn [fmap list_fmap]. rewrite app_nil_r. split; [done|reflexivity]. }
  destruct (happen_queue e w q Hq) as (H1 & H2 & H3); [cbn [length] in Hd; lia|].
  destruct (IH (happen e w) _ H1) as [I1 I2]; [rewrite H2, length_app; cbn [length] in *; lia|].
  rewrite (unch_rd _ _ _ _ rtc_now H3) in I1 by done. rewrite <- app_assoc in I1. split; [exact I1|by etrans].
Qed.

(** What happens reaches the log.  With an empty event FIFO and the log [L], up to 64 events
    and then [user_eventlog_add] leave the FIFO empty and the EEPROM log with a line per event,
    newest first, before [L], cut to 500; any page that [get_log] is then asked for is the page of
    that list. *)
Theorem events_reach_log w L es :
  queue_is (eventlog_fifo w) [] -> depth (eventlog_fifo w) = 64 -> log_is false w L -> (length es <= 64)%nat ->
  let w' := user_eventlog_add (happen_all es w) in
  let L' := take 500 (rev (event_line (w⟪rtc_now⟫) <$> es) ++ L) in
  get_fifo8_length (eventlog_fifo w') = 0 /\ log_is false w' L' /\
  forall s c, 0 <= s -> (get_log s c false w').1 = (LogSpec.step 500 (LogSpec.Query s c) L').1.
Proof.
  intros Hq Hd HL Hn w' L'. destruct (happen_all_queue es w [] Hq) as [Q U]; [rewrite Hd; cbn [length]; lia|].
  cbn [app] in Q. set (w1 := happen_all es w) in *. clearbody w1.
  assert (HL1 : log_is false w1 L) by (apply (log_is_frame _ w); [eapply unch_weaken; [exact U|done|done]|done]).
  destruct (drain_events_spec _ w1 L Q HL1) as (D1 & D2 & _).
  assert (E : w' = drain_events (length (event_block (w⟪rtc_now⟫) <$> es)) w1).
  { unfold w', user_eventlog_add, letc, here. rewrite (queue_length _ _ Q). rewrite u8_small by (rewrite length_fmap; lia).
    by rewrite Nat2Z.id. }
  rewrite <- E in D1, D2. rewrite <- list_fmap_compose in D2.
  assert (D3 : log_is false w' L').
  { unfold L'. erewrite list_fmap_ext; [exact D2|]. intros i e _. unfold compose. by rewrite event_record_block. }
  split_and!; [by apply (queue_length _ []) in D1|done|]. intros s c Hs. by apply (get_log_spec false w' L').
Qed.

Definition empty_queue (n : Z) : fifo_cb := FifoCb (repeat 0 (Z.to_nat (LOG_LEN * n))) 0 0 LOG_LEN n 0.
Lemma empty_queue_is n : 0 < n < 65536 -> queue_is (empty_queue n) [].
Proof.
  intros Hn. exists 0. split_and!; [|done|done]. split; cbn; try lia; [|rewrite Z.mod_0_l; lia].
  rewrite repeat_length. lia.
Qed.

(** A control block and a cleared log. *)
Definition fresh_log (alarm : bool) (w : world) : world :=
  (clear_log (negb alarm) (init_cycbuff (log_of alarm) LOG_LEN 500 (base_of alarm) w).2).2.
Lemma fresh_log_is alarm w : log_is alarm (fresh_log alarm w) [].
Proof. apply clear_log_spec, init_cycbuff_geometry. Qed.

Lemma events_reach_log_witness :
  let w := fresh_log false (set_eventlog (empty_queue 64) w_zero) in
  let w' := user_eventlog_add (happen_all [(22, 0x204, 30, 100); (23, 0x204, 5, 6)] w) in
  (get_log 0 10 false w').1 =
    (2, 2, [0; 23; 0; 0; 0; 0; 2; 4; 0; 5; 0; 6] ++ [0; 22; 0; 0; 0; 0; 2; 4; 0; 30; 0; 100]).
Proof.
  intros w w'. destruct (events_reach_log w [] [(22, 0x204, 30, 100); (23, 0x204, 5, 6)]) as (_ & _ & H).
  - assert (eventlog_fifo w = empty_queue 64) as -> by (vm_compute; reflexivity). apply empty_queue_is. lia.
  - vm_compute. reflexivity.
  - apply fresh_log_is.
  - cbn. lia.
  - assert (E : w⟪rtc_now⟫ = 0) by (vm_compute; reflexivity). rewrite E in H.
    unfold w'. rewrite H by lia. vm_compute. reflexivity.
Defined.

(** ** Alarms reach the log *)

(** The block that [add_alarmlog_fifo] queues. *)
Definition alarm_block (id t_begin t_end value : Z) : list Z := le16 id ++ le32 t_begin ++ le32 t_end ++ le16 value.

(** The table's index for an alarm. *)
Definition table_index (id : Z) : Z := id .& 0xFF.

Definition NEVER : Z := 0xFFFFFFFF.
Definition u32_ok (t : Z) : Prop := 0 <= t < 2 ^ 32.

(** An alarm that has its entry in the table. *)
Definition has_entry (id : Z) : Prop := 0 <= id < 65536 /\ table_index id < ACL_TOTAL_NUM.

Lemma table_index_range id : has_entry id -> 0 <= table_index id < ACL_TOTAL_NUM.
Proof.
  intros [_ H]. split; [|done]. unfold table_index. change 255 with (Z.ones 8). rewrite Z.land_ones by lia.
  apply Z.mod_pos_bound. lia.
Qed.

Lemma take_alarm_begin {O : beyond_alarm_table} id t v w :
  has_entry id -> u32_ok t -> 0 <= v < 65536 ->
  take_alarm (alarm_block id t NEVER v) w =
  save_table_entry (table_index id) ((table_alarm_id.[table_index id] ::= id) ((table_alarm_value.[table_index id] ::= v)
    ((table_trigger_time.[table_index id] ::= t) w))).
Proof.
  intros [Hi Hx] Ht Hv. unfold take_alarm, alarm_block, NEVER.
  change (of_le16 (le16 id ++ _)) with (of_le16 (le16 id)).
  change (of_le32 (drop 6 _)) with (of_le32 (le32 0xFFFFFFFF)).
  change (of_le32 (drop 2 _)) with (of_le32 (le32 t)).
  change (of_le16 (drop 10 _)) with (of_le16 (le16 v)).
  rewrite !of_le32_le32, !of_le16_le16, !u16_small, (Z.mod_small t) by done. fold (table_index id).
  rewrite (proj2 (Z.leb_gt _ _) Hx). change (4294967295 mod 2 ^ 32 =? 4294967295) with true. cbv iota. reflexivity.
Qed.

Lemma take_alarm_end {O : beyond_alarm_table} id t t' v w :
  has_entry id -> u32_ok t' -> t' <> NEVER ->
  let i := table_index id in
  take_alarm (alarm_block id t t' v) w =
  save_table_entry i ((table_trigger_time.[i] ::= 0xFFFFFFFF) ((table_alarm_value.[i] ::= 0xFFFF)
    ((IF negb («table_trigger_time.[i]» =? 0xFFFFFFFF) THEN
        LET r := alarm_record «table_alarm_id.[i]» «table_trigger_time.[i]» t' «table_alarm_value.[i]» IN
        add_cycbuff ALARM_LOG r END) w))).
Proof.
  intros [Hi Hx] Ht Hne. unfold take_alarm, alarm_block.
  change (of_le16 (le16 id ++ _)) with (of_le16 (le16 id)).
  change (of_le32 (drop 6 _)) with (of_le32 (le32 t')).
  rewrite of_le32_le32, of_le16_le16, u16_small, Z.mod_small by done. fold (table_index id).
  rewrite (proj2 (Z.leb_gt _ _) Hx).
  unfold NEVER in Hne. rewrite (proj2 (Z.eqb_neq _ _) Hne). reflexivity.
Qed.

Lemma save_entry_foot i : respc (unch [P_ee] []) (save_table_entry i).
Proof. unfold save_table_entry. footprint. Qed.
#[export] Hint Resolve save_entry_foot : foot.

Lemma save_entry_log i w L :
  0 <= i < 256 -> log_is true w L -> log_is true (save_table_entry i w) L.
Proof.
  intros Hi H. apply (log_holds_ext ALARM_LOG ALARM_REC_PT_ADDR LOG_LEN 500) with (w := w); [lia..| | |done].
  - eapply geometry_unch; [apply save_entry_foot|done|apply H].
  - intros x Hx. unfold save_table_entry, letc, runc. rewrite bufwrite_flat; [|lia|done|lia]. unfold flat_write.
    change (Z.of_nat (length (table_bytes i))) with 8.
    destruct (Z.ltb_spec x (AlARM_TABLE_ADDR + TABLE_LEN * i + 8)); [lia|]. by rewrite andb_false_r.
Qed.

(** The table's entry [i]. *)
Definition entry_is (w : world) (i t v id : Z) : Prop :=
  w⟪table_trigger_time.[i]⟫ = t /\ w⟪table_alarm_value.[i]⟫ = v /\ w⟪table_alarm_id.[i]⟫ = id.

Lemma entry_unch F D w w' i t v id :
  unch F D w w' -> fin table_trigger_time F || fin table_alarm_value F || fin table_alarm_id F = false ->
  entry_is w i t v id -> entry_is w' i t v id.
Proof.
  intros U H (E1 & E2 & E3). rewrite !orb_false_iff in H. destruct H as [[H1 H2] H3].
  by split_and!; rewrite (unch_rd F D w w').
Qed.

Lemma alarm_begins {O : beyond_alarm_table} id t v w L :
  has_entry id -> u32_ok t -> 0 <= v < 65536 -> log_is true w L ->
  let w' := take_alarm (alarm_block id t NEVER v) w in
  log_is true w' L /\ entry_is w' (table_index id) t v id /\
  forall j t' v' id', j <> table_index id -> entry_is w j t' v' id' -> entry_is w' j t' v' id'.
Proof.
  intros Hid Ht Hv HL. cbv zeta. rewrite take_alarm_begin by done. pose proof (table_index_range id Hid) as Hi.
  destruct Hid as [Hid _]. set (i := table_index id) in *.
  set (w1 := (table_alarm_id.[i] ::= id) _).
  assert (U1 : unch table_fields [] w w1).
  { unfold w1. generalize w. change (respc (unch table_fields [])
      (table_trigger_time.[i] ::= t;; table_alarm_value.[i] ::= v;; table_alarm_id.[i] ::= id)). footprint. }
  assert (V1 : entry_is w1 i t v id).
  { unfold w1. split_and!; obs; [by rewrite u32_small|by rewrite u16_small|by rewrite u16_small]. }
  split; [|split].
  - apply save_entry_log; [lia|]. apply (log_is_frame _ w); [eapply unch_weaken; [exact U1|done|done]|done].
  - eapply entry_unch; [apply save_entry_foot|done|done].
  - intros j t' v' id' Hj (E1 & E2 & E3). eapply entry_unch; [apply save_entry_foot|done|]. unfold w1.
    split_and!; rewrite !rd_assign_other by (intros [=]; lia); done.
Qed.

(** The end of an alarm whose entry is open, and of one whose entry is not. *)
Lemma alarm_ends {O : beyond_alarm_table} id t0 t' x w L :
  has_entry id -> u32_ok t' -> t' <> NEVER -> log_is true w L ->
  let i := table_index id in
  let w' := take_alarm (alarm_block id t0 t' x) w in
  let L' := if w⟪table_trigger_time.[i]⟫ =? NEVER then L
            else take 500 (alarm_record (w⟪table_alarm_id.[i]⟫) (w⟪table_trigger_time.[i]⟫) t' (w⟪table_alarm_value.[i]⟫) :: L) in
  log_is true w' L' /\ w'⟪table_trigger_time.[i]⟫ = NEVER /\
  forall j t v id', j <> i -> entry_is w j t v id' -> entry_is w' j t v id'.
Proof.
  intros Hid Ht' Htn' HL. cbv zeta. rewrite take_alarm_end by done. cbv zeta. pose proof (table_index_range id Hid) as Hi.
  set (i := table_index id) in *. set (w3 := (IF _ THEN _ END) w).
  assert (log_is true w3 (if w⟪table_trigger_time.[i]⟫ =? NEVER then L
    else take 500 (alarm_record (w⟪table_alarm_id.[i]⟫) (w⟪table_trigger_time.[i]⟫) t' (w⟪table_alarm_value.[i]⟫) :: L))) as L3.
  { unfold w3, cif, letc. change 4294967295 with NEVER. destruct (_ =? NEVER); cbn [negb]; [done|].
    exact (log_is_add true w L _ HL (alarm_record_ok _ _ _ _)). }
  assert (U3 : unch (P_ee :: cb_fields) [] w w3).
  { unfold w3. generalize w. change (respc (unch (P_ee :: cb_fields) [])
      (IF negb («table_trigger_time.[i]» =? 0xFFFFFFFF) THEN
        LET r := alarm_record «table_alarm_id.[i]» «table_trigger_time.[i]» t' «table_alarm_value.[i]» IN
        add_cycbuff ALARM_LOG r END)). footprint. }
  clearbody w3. split; [|split].
  - apply save_entry_log; [lia|]. apply (log_is_frame _ w3); [|done]. generalize w3.
    change (respc (unch [P_eventlog; P_alarmlog; table_trigger_time; table_alarm_value; table_alarm_id; rtc_now] [])
      (table_alarm_value.[i] ::= 0xFFFF;; table_trigger_time.[i] ::= 0xFFFFFFFF)). footprint.
  - rewrite (unch_rd _ _ _ _ _ (save_entry_foot i _)) by done. by obs.
  - intros j t v id' Hj E. eapply entry_unch; [apply save_entry_foot|done|].
    destruct (entry_unch _ _ _ _ _ _ _ _ U3 eq_refl E) as (E1 & E2 & E3).
    split_and!; rewrite !rd_assign_other by (intros [=]; lia); done.
Qed.

Lemma alarm_push id flg v w q :
  queue_is (alarmlog_fifo w) q -> Z.of_nat (length q) < depth (alarmlog_fifo w) ->
  let now := w⟪rtc_now⟫ in
  let w' := add_alarmlog_fifo id flg v w in
  queue_is (alarmlog_fifo w')
    (q ++ [match flg with ALARM_TRIGER => alarm_block id now NEVER v | ALARM_END => alarm_block id 0 now v end]) /\
  depth (alarmlog_fifo w') = depth (alarmlog_fifo w) /\ unch [P_alarmlog] [] w w'.
Proof.
  intros Hq Hd. cbv zeta. apply and_assoc. split; [|apply add_alarmlog_fifo_foot].
  destruct flg; unfold add_alarmlog_fifo, letc; cbn [set_alarmlog alarmlog_fifo]; by apply queue_push.
Qed.

Lemma drain_alarms_step {O : beyond_alarm_table} n w r x f :
  fifo8_pop (alarmlog_fifo w) = (r, Some x, f) ->
  drain_alarms (S n) w = drain_alarms n (take_alarm x (set_alarmlog f w)).
Proof. intros H. cbn [drain_alarms]. unfold seqc. by rewrite H. Qed.

(** *** The book of alarms: the open ones, each with time, value and number, and the lines of the log *)

Module AlarmBook.

Definition book : Type := (Z -> option (Z * Z * Z)) * list (list Z).

(** A record: number, time of the beginning, time of the end or [NEVER], value. *)
Definition step (B : book) (r : Z * Z * Z * Z) : book :=
  let '(id, t, t', v) := r in
  let '(open, L) := B in
  if t' =? NEVER then (fun i => if i =? table_index id then Some (t, v, id) else open i, L)
  else
    (fun i => if i =? table_index id then None else open i,
     match open (table_index id) with
     | Some (t0, v0, id0) => take 500 (alarm_record id0 t0 t' v0 :: L)
     | None => L
     end).

End AlarmBook.

Definition block_of (r : Z * Z * Z * Z) : list Z := let '(id, t, t', v) := r in alarm_block id t t' v.

Definition record_ok (r : Z * Z * Z * Z) : Prop :=
  let '(id, t, t', v) := r in
  has_entry id /\ u32_ok t /\ u32_ok t' /\ 0 <= v < 65536 /\ (t' = NEVER -> t <> NEVER).

Definition book_is (w : world) (B : AlarmBook.book) : Prop :=
  log_is true w B.2 /\
  forall i, 0 <= i < ACL_TOTAL_NUM ->
    match B.1 i with
    | Some (t, v, id) => t <> NEVER /\ entry_is w i t v id
    | None => w⟪table_trigger_time.[i]⟫ = NEVER
    end.

Lemma book_frame w w' B :
  unch [P_eventlog; P_alarmlog; rtc_now] [] w w' -> book_is w B -> book_is w' B.
Proof.
  intros U [HL HB]. split; [apply (log_is_frame _ w); [eapply unch_weaken; [exact U|done|done]|done]|].
  intros i Hi. specialize (HB i Hi). destruct (B.1 i) as [[[t v] id]|].
  - destruct HB as [Ht HE]. split; [done|]. by eapply entry_unch.
  - by rewrite (unch_rd _ _ _ _ _ U).
Qed.

Lemma take_alarm_book {O : beyond_alarm_table} r w B :
  record_ok r -> book_is w B -> book_is (take_alarm (block_of r) w) (AlarmBook.step B r).
Proof.
  destruct r as [[[id t] t'] v], B as [open L]. intros (Hid & Ht & Ht' & Hv & Hn) [HL HB]. cbn [fst snd block_of AlarmBook.step] in *.
  pose proof (table_index_range id Hid) as Hi.
  assert (Hall : forall w', (forall j t v id', j <> table_index id -> entry_is w j t v id' -> entry_is w' j t v id') ->
    forall j, 0 <= j < ACL_TOTAL_NUM -> j <> table_index id ->
      match open j with Some (t, v, id) => t <> NEVER /\ entry_is w' j t v id | None => w'⟪table_trigger_time.[j]⟫ = NEVER end).
  { intros w' K j Hj Hne. specialize (HB j Hj). destruct (open j) as [[[t1 v1] id1]|]; [split; [apply HB|by apply K, HB]|].
    destruct (K j _ _ _ Hne (conj eq_refl (conj eq_refl eq_refl))) as [-> _]. done. }
  destruct (Z.eqb_spec t' NEVER) as [->|Hne].
  - destruct (alarm_begins id t v w L Hid Ht Hv HL) as (A1 & A2 & A3). split; [done|]. cbn [fst]. intros j Hj.
    destruct (Z.eqb_spec j (table_index id)) as [->|Hjn]; [split; [by apply Hn|done]|by apply Hall].
  - destruct (alarm_ends id t t' v w L Hid Ht' Hne HL) as (A1 & A2 & A3). split.
    + cbn [snd]. specialize (HB (table_index id) Hi). destruct (open (table_index id)) as [[[t0 v0] id0]|].
      * destruct HB as [H0 (E1 & E2 & E3)]. rewrite E1, E2, E3, (proj2 (Z.eqb_neq _ _) H0) in A1. done.
      * rewrite HB, Z.eqb_refl in A1. done.
    + cbn [fst]. intros j Hj. destruct (Z.eqb_spec j (table_index id)) as [->|Hjn]; [done|by apply Hall].
Qed.

Lemma take_alarm_fifo {O : beyond_alarm_table} r w : record_ok r -> alarmlog_fifo (take_alarm (block_of r) w) = alarmlog_fifo w.
Proof.
  destruct r as [[[id t] t'] v]. intros (Hid & Ht & Ht' & Hv & Hn). cbn [block_of].
  assert (U : unch (P_ee :: cb_fields ++ table_fields) [] w (take_alarm (alarm_block id t t' v) w)); [|by rewrite (unch_alog _ _ _ _ U)].
  destruct (Z.eqb_spec t' NEVER) as [->|Hne].
  - rewrite take_alarm_begin by done. set (i := table_index id). generalize w. change (respc (unch (P_ee :: cb_fields ++ table_fields) [])
      (table_trigger_time.[i] ::= t;; table_alarm_value.[i] ::= v;; table_alarm_id.[i] ::= id;; save_table_entry i)). footprint.
  - rewrite take_alarm_end by done. cbv zeta. set (i := table_index id). generalize w.
    change (respc (unch (P_ee :: cb_fields ++ table_fields) [])
      (IF negb («table_trigger_time.[i]» =? 0xFFFFFFFF) THEN
        LET r := alarm_record «table_alarm_id.[i]» «table_trigger_time.[i]» t' «table_alarm_value.[i]» IN
        add_cycbuff ALARM_LOG r END;;
       table_alarm_value.[i] ::= 0xFFFF;; table_trigger_time.[i] ::= 0xFFFFFFFF;; save_table_entry i)). footprint.
Qed.

Lemma drain_alarms_book {O : beyond_alarm_table} rs : forall w B,
  Forall record_ok rs -> queue_is (alarmlog_fifo w) (block_of <$> rs) -> book_is w B ->
  let w' := drain_alarms (length rs) w in
  queue_is (alarmlog_fifo w') [] /\ book_is w' (foldl AlarmBook.step B rs).
Proof.
  induction rs as [|r rs IH]; intros w B Hok Hq HB; cbv zeta; [done|].
  apply Forall_cons_1 in Hok as [Hr Hok]. cbn [length fmap list_fmap foldl] in *.
  destruct (queue_pop _ _ _ Hq) as (f & F1 & F2). rewrite (drain_alarms_step _ _ _ _ _ F1).
  assert (U : unch [P_alarmlog] [] w (set_alarmlog f w)) by (by apply (unch_set_alarmlog _ [] (fun _ => f))).
  apply IH; [done|rewrite take_alarm_fifo by done; exact F2|].
  apply take_alarm_book; [done|]. apply (book_frame w); [eapply unch_weaken; [exact U|done|done]|done].
Qed.

(** Calls of [add_alarmlog_fifo]: the time, the alarm, begin or end, the value. *)
Definition alarm_call (c : Z * Z * alarm_enum * Z) : cmd :=
  let '(now, id, flg, v) := c in rtc_now ::= now;; add_alarmlog_fifo id flg v.
Definition alarm_calls (cs : list (Z * Z * alarm_enum * Z)) (w : world) : world := foldl (fun w c => alarm_call c w) w cs.
Definition record_of (c : Z * Z * alarm_enum * Z) : Z * Z * Z * Z :=
  let '(now, id, flg, v) := c in match flg with ALARM_TRIGER => (id, now, NEVER, v) | ALARM_END => (id, 0, now, v) end.
Definition call_ok (c : Z * Z * alarm_enum * Z) : Prop :=
  let '(now, id, flg, v) := c in has_entry id /\ u32_ok now /\ now <> NEVER /\ 0 <= v < 65536.

Lemma record_of_ok c : call_ok c -> record_ok (record_of c).
Proof.
  destruct c as [[[now id] flg] v]. intros (Hi & Ht & Hn & Hv). assert (u32_ok NEVER) by (unfold u32_ok, NEVER; lia).
  assert (u32_ok 0) by (unfold u32_ok; lia). destruct flg; cbn; auto.
Qed.

Lemma alarm_calls_queue cs : forall w rs,
  Forall call_ok cs -> queue_is (alarmlog_fifo w) (block_of <$> rs) -> Z.of_nat (length rs + length cs) <= depth (alarmlog_fifo w) ->
  queue_is (alarmlog_fifo (alarm_calls cs w)) (block_of <$> rs ++ (record_of <$> cs)) /\
  unch [P_eventlog; P_alarmlog; rtc_now] [] w (alarm_calls cs w).
Proof.
  induction cs as [|c cs IH]; intros w rs Hok Hq Hd; cbn [alarm_calls foldl fmap list_fmap length] in *.
  { rewrite app_nil_r. split; [done|reflexivity]. }
  apply Forall_cons_1 in Hok as [Hc Hok]. destruct c as [[[now id] flg] v]. destruct Hc as (Hi & Ht & Hn & Hv).
  set (w1 := (rtc_now ::= now) w).
  destruct (alarm_push id flg v w1 (block_of <$> rs)) as (P1 & P2 & P3);
    [exact Hq|rewrite length_fmap; change (depth (alarmlog_fifo w1)) with (depth (alarmlog_fifo w)); lia|].
  assert (N1 : w1⟪rtc_now⟫ = now) by (unfold w1; obs; by rewrite u32_small). rewrite N1 in P1.
  assert (alarm_call (now, id, flg, v) w = add_alarmlog_fifo id flg v w1) as E by done. rewrite E.
  assert (U1 : unch [P_eventlog; P_alarmlog; rtc_now] [] w w1) by (by apply (unch_assign _ [] rtc_now (fun _ => now))).
  destruct (IH (add_alarmlog_fifo id flg v w1) (rs ++ [record_of (now, id, flg, v)])) as [I1 I2]; [done| | |].
  - rewrite fmap_app. cbn [fmap list_fmap]. by destruct flg.
  - rewrite P2, length_app. change (depth (alarmlog_fifo w1)) with (depth (alarmlog_fifo w)). cbn [length]. lia.
  - rewrite <- app_assoc in I1. split; [exact I1|]. transitivity w1; [exact U1|].
    etrans; [|exact I2]. eapply unch_weaken; [exact P3|done|done].
Qed.

(** C22: the alarm log is a book.  Take the alarm FIFO with any records pending, the table with any alarms
    open and the EEPROM log with the lines [L]; then any calls with which alarms begin and end, as many as
    the FIFO has room for, each for an alarm that has an entry in the table; then a call of
    [user_alarmlog_add].  It leaves the FIFO empty, and table and log as [AlarmBook.step] says of these
    records in their order: an alarm that begins is open with its time and value; when an open alarm
    ends, one line with its number, both times and the value of its beginning is the newest of the log
    and the alarm is not open any more; an end without a beginning adds no line.  [get_log] then shows
    these lines. *)
Theorem alarm_reaches_log {O : beyond_alarm_table} w B rs cs :
  book_is w B -> queue_is (alarmlog_fifo w) (block_of <$> rs) -> Forall record_ok rs -> Forall call_ok cs ->
  Z.of_nat (length rs + length cs) <= depth (alarmlog_fifo w) <= 255 ->
  let w' := user_alarmlog_add (alarm_calls cs w) in
  let B' := foldl AlarmBook.step B (rs ++ (record_of <$> cs)) in
  queue_is (alarmlog_fifo w') [] /\ book_is w' B' /\
  forall s c, 0 <= s -> (get_log s c true w').1 = (LogSpec.step 500 (LogSpec.Query s c) B'.2).1.
Proof.
  intros HB Hq Hrs Hcs Hd w' B'. destruct (alarm_calls_queue cs w rs Hcs Hq) as [Q U]; [lia|].
  destruct (drain_alarms_book (rs ++ (record_of <$> cs)) (alarm_calls cs w) B) as [D1 D2].
  { apply Forall_app_2; [done|]. apply Forall_fmap. eapply List.Forall_impl; [|exact Hcs]. apply record_of_ok. }
  { exact Q. }
  { by apply (book_frame w). }
  assert (E : w' = drain_alarms (length (rs ++ (record_of <$> cs))) (alarm_calls cs w)).
  { unfold w', user_alarmlog_add, letc, here. rewrite (queue_length _ _ Q), length_fmap, length_app, length_fmap in *.
    rewrite u8_small by lia. by rewrite Nat2Z.id. }
  rewrite <- E in D1, D2. split; [done|]. split; [done|]. intros s c Hs. by apply (get_log_spec true w' B'.2), Hs; apply D2.
Qed.

(** Alarm 5 begins and ends, alarm 6 begins, alarm 7 only ends. *)
Lemma alarm_reaches_log_witness :
  let O : beyond_alarm_table := fun _ w => w in
  let w := fresh_log true (set_alarmlog (empty_queue 30) w_zero) in
  let cs := [(1000, 0x105, ALARM_TRIGER, 7); (1030, 6, ALARM_TRIGER, 1); (1060, 0x105, ALARM_END, 0); (1070, 7, ALARM_END, 0)] in
  (get_log 0 10 true (user_alarmlog_add (alarm_calls cs w))).1 = (1, 1, [1; 5; 0; 0; 3; 232; 0; 0; 4; 36; 0; 7]).
Proof.
  intros O w cs. destruct (alarm_reaches_log w (fun _ => None, []) [] cs) as (_ & _ & H).
  - split; [apply fresh_log_is|]. intros i Hi. cbn [fst].
    assert (forallb (fun i => w⟪table_trigger_time.[i]⟫ =? NEVER) (range ACL_TOTAL_NUM) = true) as Hall by (vm_compute; reflexivity).
    rewrite forallb_forall in Hall. apply Z.eqb_eq, Hall, list_elem_of_In, elem_of_range, Hi.
  - assert (alarmlog_fifo w = empty_queue 30) as -> by (vm_compute; reflexivity). apply empty_queue_is. lia.
  - constructor.
  - repeat constructor; vm_compute; try discriminate; reflexivity.
  - vm_compute. split; discriminate.
  - refine (eq_trans (H 0 10 _) _); [lia|vm_compute; reflexivity].
Defined.

(** ** Restart *)

(** An entry of the table in the EEPROM: time, value, number. *)
Definition stored_entry (w : world) (i : Z) : list Z := @I2C_EE_BufRead w (AlARM_TABLE_ADDR + TABLE_LEN * i) TABLE_LEN.

(** The line with which an entry is closed at time [now]. *)
Definition close_line (now t v id : Z) : option (list Z) :=
  if t =? NEVER then None else Some (alarm_record id t now v).
Definition close_stored (now : Z) (w : world) (i : Z) : option (list Z) :=
  let l := stored_entry w i in close_line now (of_le32 l) (of_le16 (drop 4 l)) (of_le16 (drop 6 l)).
Definition close_entry (now : Z) (w : world) (i : Z) : option (list Z) :=
  close_line now (w⟪table_trigger_time.[i]⟫) (w⟪table_alarm_value.[i]⟫) (w⟪table_alarm_id.[i]⟫).

(** Reading the table: the values of entry [i]. *)
Lemma table_slice w i n :
  0 <= i < ACL_TOTAL_NUM -> (n < 8)%nat ->
  nth n (drop (Z.to_nat (TABLE_LEN * i)) (@I2C_EE_BufRead w AlARM_TABLE_ADDR (TABLE_LEN * ACL_TOTAL_NUM))) 0 =
  nth n (stored_entry w i) 0.
Proof.
  intros Hi Hn. unfold stored_entry. rewrite nth_skipn.
  replace (Z.to_nat (TABLE_LEN * i) + n)%nat with (Z.to_nat (TABLE_LEN * i + Z.of_nat n)) by lia.
  rewrite bufread_nth by lia. rewrite <- (Nat2Z.id n) at 2. rewrite bufread_nth by lia. do 3 f_equal. lia.
Qed.

Lemma nth_drop_plus {A} (l : list A) n k d : nth k (drop n l) d = nth (n + k) l d.
Proof. apply nth_skipn. Qed.

Lemma table_words w i :
  0 <= i < ACL_TOTAL_NUM ->
  let e := drop (Z.to_nat (TABLE_LEN * i)) (@I2C_EE_BufRead w AlARM_TABLE_ADDR (TABLE_LEN * ACL_TOTAL_NUM)) in
  of_le32 e = of_le32 (stored_entry w i) /\ of_le16 (drop 4 e) = of_le16 (drop 4 (stored_entry w i)) /\
  of_le16 (drop 6 e) = of_le16 (drop 6 (stored_entry w i)).
Proof.
  intros Hi e. unfold of_le32, of_le16. rewrite !nth_drop_plus. cbn [Nat.add].
  split_and!; by rewrite ?(table_slice w i) by (done || lia).
Qed.

(** A loop in which only turn [i] writes [c]. *)
Lemma forc_writes l (body : Z -> cmd) i c v w :
  NoDup l -> i ∈ l -> (forall w', (body i w')⟪c⟫ = v) ->
  (forall j, j <> i -> respc (keep (fun w => w⟪c⟫)) (body j)) -> (forc l body w)⟪c⟫ = v.
Proof.
  intros Hnd Hi Hb Hk. revert w. induction l as [|j l IH]; intros w; [set_solver|]. inversion_clear Hnd as [|? ? Hj Hnd'].
  change (forc (j :: l) body w) with (forc l body (body j w)).
  destruct (decide (j = i)) as [->|Hne]; [|apply IH; set_solver].
  rewrite (keep_rd (forc l body)); [apply Hb|]. apply resp_for; [typeclasses eauto|].
  intros k Hkl. apply Hk. intros ->. done.
Qed.

Lemma of_le16_range w a n k : 0 <= k -> k + 1 < n -> 0 <= of_le16 (drop (Z.to_nat k) (@I2C_EE_BufRead w a n)) < 65536.
Proof.
  intros Hk Hn. unfold of_le16. rewrite !nth_drop_plus.
  replace (Z.to_nat k + 0)%nat with (Z.to_nat k) by lia. replace (Z.to_nat k + 1)%nat with (Z.to_nat (k + 1)) by lia.
  rewrite !bufread_nth by lia. pose proof (u8_range (ee w (u16 (a + k)))). pose proof (u8_range (ee w (u16 (a + (k + 1))))). lia.
Qed.

Lemma load_table_entry w i :
  0 <= i < ACL_TOTAL_NUM ->
  let l := stored_entry w i in entry_is (load_table w) i (of_le32 l) (of_le16 (drop 4 l)) (of_le16 (drop 6 l)).
Proof.
  intros Hi l. destruct (table_words w i Hi) as (T1 & T2 & T3).
  assert (Hr : 0 <= of_le32 l < 4294967296 /\ 0 <= of_le16 (drop 4 l) < 65536 /\ 0 <= of_le16 (drop 6 l) < 65536).
  { pose proof (of_le16_range w (AlARM_TABLE_ADDR + TABLE_LEN * i) TABLE_LEN 0 ltac:(lia) ltac:(lia)) as R0.
    pose proof (of_le16_range w (AlARM_TABLE_ADDR + TABLE_LEN * i) TABLE_LEN 2 ltac:(lia) ltac:(lia)) as R2.
    pose proof (of_le16_range w (AlARM_TABLE_ADDR + TABLE_LEN * i) TABLE_LEN 4 ltac:(lia) ltac:(lia)) as R4.
    pose proof (of_le16_range w (AlARM_TABLE_ADDR + TABLE_LEN * i) TABLE_LEN 6 ltac:(lia) ltac:(lia)) as R6.
    unfold of_le32. change (@I2C_EE_BufRead w (AlARM_TABLE_ADDR + TABLE_LEN * i) TABLE_LEN) with l in R0, R2, R4, R6.
    change (Z.to_nat 0) with 0%nat in R0. change (Z.to_nat 2) with 2%nat in R2. change (Z.to_nat 4) with 4%nat in R4.
    change (Z.to_nat 6) with 6%nat in R6. rewrite drop_0 in R0. lia. }
  unfold load_table, letc. split_and!; apply (forc_writes _ _ i); try (apply NoDup_seqZ); try (by apply elem_of_range).
  all: try (intros j Hj; unfold seqc; intros w'; unfold keep; obs; rewrite ?rd_assign_other; try done; congruence).
  - intros w'. unfold seqc. obs. rewrite T1, u32_small; [done|apply Hr].
  - intros w'. unfold seqc. obs. rewrite T2, u16_small; [done|apply Hr].
  - intros w'. unfold seqc. obs. rewrite T3, u16_small; [done|apply Hr].
Qed.

Definition option_list {A} (x : option A) : list A := match x with Some a => [a] | None => [] end.
Lemma omap_ext_in {A B} (f g : A -> option B) (l : list A) : (forall x, x ∈ l -> f x = g x) -> omap f l = omap g l.
Proof. induction l as [|x l IH]; intros H; [done|]. cbn. rewrite (H x), IH by set_solver. done. Qed.
Lemma omap_option_list {A B} (g : A -> option B) x (l : list A) : omap g (x :: l) = option_list (g x) ++ omap g l.
Proof. cbn. by destruct (g x). Qed.

(** Closing the entries [js], in order. *)
Definition close_loop (now : Z) (js : list Z) : cmd :=
  forc js (fun i =>
    IF negb («table_trigger_time.[i]» =? 0xFFFFFFFF) THEN
      LET r := alarm_record «table_alarm_id.[i]» «table_trigger_time.[i]» now «table_alarm_value.[i]» IN
      add_cycbuff ALARM_LOG r
    END;;
    table_trigger_time.[i] ::= 0xFFFFFFFF;;
    table_alarm_value.[i] ::= 0xFFFF).

Lemma close_one now i w L :
  log_is true w L ->
  let w' := close_loop now [i] w in
  log_is true w' (take 500 (option_list (close_entry now w i) ++ L)) /\
  w'⟪table_trigger_time.[i]⟫ = NEVER /\ forall j, j <> i -> close_entry now w' j = close_entry now w j /\
    w'⟪table_trigger_time.[j]⟫ = w⟪table_trigger_time.[j]⟫.
Proof.
  intros HL. unfold close_loop, forc. cbn [foldl]. unfold seqc.
  set (w1 := cif _ _ _ w).
  assert (H1 : log_is true w1 (take 500 (option_list (close_entry now w i) ++ L)) /\ unch (P_ee :: cb_fields) [] w w1).
  { unfold w1, cif, close_entry, close_line, NEVER. destruct (w⟪table_trigger_time.[i]⟫ =? 0xFFFFFFFF); cbn [negb option_list app].
    - split; [|reflexivity]. rewrite take_ge; [done|]. destruct HL as (_ & e & _ & H & _). lia.
    - unfold letc. split; [|apply add_cycbuff_foot]. apply (log_is_add true); [done|apply alarm_record_ok]. }
  destruct H1 as [H1 U1]. clearbody w1.
  set (w2 := (table_alarm_value.[i] ::= 0xFFFF) _).
  assert (U2 : unch table_fields [] w1 w2).
  { unfold w2. generalize w1. change (respc (unch table_fields []) (table_trigger_time.[i] ::= 0xFFFFFFFF;; table_alarm_value.[i] ::= 0xFFFF)).
    footprint. }
  assert (V : forall j, j <> i -> w2⟪table_trigger_time.[j]⟫ = w⟪table_trigger_time.[j]⟫ /\
    w2⟪table_alarm_value.[j]⟫ = w⟪table_alarm_value.[j]⟫ /\ w2⟪table_alarm_id.[j]⟫ = w⟪table_alarm_id.[j]⟫).
  { intros j Hj. unfold w2. split_and!; obs; rewrite ?rd_assign_other by congruence; by apply (unch_rd _ _ _ _ _ U1). }
  split_and!; [|unfold w2; by obs|].
  - apply (log_is_frame _ w1); [eapply unch_weaken; [exact U2|done|done]|done].
  - intros j Hj. destruct (V j Hj) as (V1 & V2 & V3). unfold close_entry. by rewrite V1, V2, V3.
Qed.

Lemma close_all now js w L :
  NoDup js -> log_is true w L ->
  let w' := close_loop now js w in
  log_is true w' (take 500 (rev (omap (close_entry now w) js) ++ L)) /\
  (forall j, j ∈ js -> w'⟪table_trigger_time.[j]⟫ = NEVER) /\
  (forall j, j ∉ js -> w'⟪table_trigger_time.[j]⟫ = w⟪table_trigger_time.[j]⟫).
Proof.
  revert w L. induction js as [|i js IH]; intros w L Hnd HL.
  { cbn. split_and!; [|set_solver|done]. rewrite take_ge; [done|]. destruct HL as (_ & e & _ & H & _). lia. }
  inversion_clear Hnd as [|? ? Hi Hnd']. destruct (close_one now i w L HL) as (C1 & C2 & C3).
  change (close_loop now (i :: js) w) with (close_loop now js (close_loop now [i] w)).
  set (w1 := close_loop now [i] w) in *. destruct (IH w1 _ Hnd' C1) as (I1 & I2 & I3). cbv zeta.
  split_and!.
  - revert I1. generalize (close_loop now js w1). intros w2 I1.
    assert (E : omap (close_entry now w1) js = omap (close_entry now w) js).
    { apply omap_ext_in. intros j Hj. apply C3. intros ->. done. }
    rewrite E, take_app_take in I1. replace (rev (omap (close_entry now w) (i :: js)) ++ L)
      with (rev (omap (close_entry now w) js) ++ option_list (close_entry now w i) ++ L); [done|].
    rewrite omap_option_list, rev_app_distr, <- app_assoc. do 2 f_equal. by destruct (close_entry now w i).
  - intros j [->|Hj]%elem_of_cons; [by rewrite I3|by apply I2].
  - intros j [Hji Hj]%not_elem_of_cons. rewrite I3 by done. by apply C3.
Qed.

Lemma nth_concat_8 (f : Z -> list Z) l i k :
  (forall j, length (f j) = 8%nat) -> (i < length l)%nat -> (k < 8)%nat ->
  nth (8 * i + k) (List.concat (f <$> l)) 0 = nth k (f (nth i l 0)) 0.
Proof.
  intros Hf. revert i. induction l as [|x l IH]; intros i Hi Hk; [cbn in Hi; lia|].
  rewrite fmap_cons. cbn [List.concat]. destruct i as [|i].
  - rewrite app_nth1 by (rewrite Hf; lia). done.
  - rewrite app_nth2 by (rewrite Hf; lia). rewrite Hf. cbn [nth]. rewrite <- IH by (cbn in Hi; lia). f_equal. lia.
Qed.

Lemma saved_entry w i : 0 <= i < ACL_TOTAL_NUM -> of_le32 (stored_entry (save_table w).2 i) = w⟪table_trigger_time.[i]⟫.
Proof.
  intros Hi.
  assert (H : forall k, (k < 8)%nat -> nth k (stored_entry (save_table w).2 i) 0 = u8 (nth k (@table_bytes w i) 0)).
  { intros k Hk. unfold stored_entry. rewrite <- (Nat2Z.id k) at 1. rewrite bufread_nth, u16_small by lia.
    unfold save_table, letc. rewrite bufwrite_flat; [|lia|reflexivity|lia]. unfold flat_write.
    change (Z.of_nat (length _)) with 184. rewrite (proj2 (Z.leb_le _ _)), (proj2 (Z.ltb_lt _ _)) by lia. cbn [andb]. f_equal.
    replace (Z.to_nat (AlARM_TABLE_ADDR + TABLE_LEN * i + Z.of_nat k - AlARM_TABLE_ADDR)) with (8 * Z.to_nat i + k)%nat by lia.
    rewrite nth_concat_8; [|done|unfold range; rewrite length_seqZ; lia|done]. do 2 f_equal.
    apply nth_lookup_Some. unfold range. rewrite lookup_seqZ. lia. }
  unfold of_le32, of_le16. rewrite !nth_drop_plus, !H by lia. unfold table_bytes. cbn [Nat.add nth le32 app].
  rewrite !u8_idemp. change (of_le32 (le32 (w⟪table_trigger_time.[i]⟫)) = w⟪table_trigger_time.[i]⟫).
  rewrite of_le32_le32. apply Z.mod_small. by apply rd_u32.
Qed.

Section restart.
Context (heap : Z -> option (list Z)).

Lemma queue_init_unch : respc (unch [P_alarmlog] []) (init_alarmlog_queue heap).
Proof.
  intros w. unfold init_alarmlog_queue. destruct (fifo8_init _ _ _) as [f|]; [|reflexivity].
  by apply (unch_set_alarmlog _ [] (fun _ => f)).
Qed.

Lemma init_cycbuff_foot b x y z : respa (unch [cb_block_size; cb_base_addr; cb_depth; cb_size] []) (init_cycbuff b x y z).
Proof. unfold init_cycbuff. footprint. Qed.

Lemma load_table_foot : respc (unch table_fields []) load_table.
Proof. unfold load_table. footprint. Qed.

(** C23: a restart closes the alarms that were active when the power failed.  Whatever the RAM
    holds, [init_alarm_log] adds to the log [L] in the EEPROM one line per entry of the stored
    table that is still open, with the stored number, beginning and value and the time of the
    restart as the end, and leaves every stored entry closed, so that no later restart repeats
    a line. *)
Theorem restart_closes_alarms w L :
  (exists e, ring_at ALARM_REC_PT_ADDR LOG_LEN 500 w e L) ->
  let now := w⟪rtc_now⟫ in
  let w' := init_alarm_log heap w in
  let L' := take 500 (rev (omap (close_stored now w) (range ACL_TOTAL_NUM)) ++ L) in
  log_is true w' L' /\ forall t i, 0 <= i < ACL_TOTAL_NUM -> close_stored t w' i = None.
Proof.
  intros [e He] now w' L'.
  pose proof (queue_init_unch w) as U1. set (w1 := init_alarmlog_queue heap w) in *.
  pose proof (init_cycbuff_foot ALARM_LOG LOG_LEN 500 ALARM_REC_PT_ADDR w1) as U2.
  pose proof (init_cycbuff_geometry true w1) as G2. cbn [log_of base_of] in G2.
  set (w2 := (init_cycbuff ALARM_LOG LOG_LEN 500 ALARM_REC_PT_ADDR w1).2) in *.
  assert (E2 : ee w2 = ee w) by (by rewrite (unch_ee _ _ _ _ U2), (unch_ee _ _ _ _ U1)).
  assert (R2 : w2⟪rtc_now⟫ = now) by (by rewrite (unch_rd _ _ _ _ _ U2), (unch_rd _ _ _ _ _ U1)).
  assert (H2 : log_is true w2 L).
  { split; [done|]. exists e. eapply (ring_at_ext ALARM_REC_PT_ADDR LOG_LEN 500) with (w := w); [lia..| |done].
    intros x _. by rewrite E2. }
  pose proof (load_table_foot w2) as U3. pose proof (load_table_entry w2) as T3. set (w3 := load_table w2) in *.
  assert (H3 : log_is true w3 L) by (apply (log_is_frame _ w2); [eapply unch_weaken; [exact U3|done|done]|done]).
  assert (R3 : w3⟪rtc_now⟫ = now) by (by rewrite (unch_rd _ _ _ _ _ U3)).
  assert (C3 : omap (close_entry now w3) (range ACL_TOTAL_NUM) = omap (close_stored now w) (range ACL_TOTAL_NUM)).
  { apply omap_ext_in. intros i Hi%elem_of_range. destruct (T3 i Hi) as (T1 & T2 & T4). unfold close_entry, close_stored.
    rewrite T1, T2, T4. unfold stored_entry, I2C_EE_BufRead, I2C_EE_BufRead_bsp, here. by rewrite E2. }
  destruct (close_all now (range ACL_TOTAL_NUM) w3 L (NoDup_seqZ _ _) H3) as (C4 & C5 & _). cbv zeta in C4, C5.
  assert (E : w' = (save_table (close_loop now (range ACL_TOTAL_NUM) w3)).2) by (by rewrite <- R3).
  set (w4 := close_loop _ _ w3) in *. clearbody w4. rewrite E, C3 in *. split.
  - apply (log_holds_ext ALARM_LOG ALARM_REC_PT_ADDR LOG_LEN 500) with (w := w4); [lia..| | |done].
    + eapply geometry_unch; [apply save_table_foot|done|apply C4].
    + intros x Hx. apply save_table_beside. lia.
  - intros t i Hi. unfold close_stored, close_line. rewrite saved_entry by done. rewrite C5 by (by apply elem_of_range).
    by rewrite Z.eqb_refl.
Qed.
End restart.

(** Alarm 5 begins at 1000; the power fails; the device restarts at 2000. *)
Definition power_fails (w : world) : world := set_ee (ee w) (poke [(rtc_now.[0], 2000)] w_zero).
Definition failing : world := @take_alarm (fun _ w => w) (alarm_block 0x105 1000 NEVER 7) (fresh_log true w_zero).

Lemma power_fails_ring w e L :
  ring_at ALARM_REC_PT_ADDR LOG_LEN 500 w e L -> ring_at ALARM_REC_PT_ADDR LOG_LEN 500 (power_fails w) e L.
Proof. apply ring_at_ext; [lia..|]. done. Qed.

Lemma failing_ring : exists e, ring_at ALARM_REC_PT_ADDR LOG_LEN 500 (power_fails failing) e [].
Proof.
  destruct (alarm_begins (O := fun _ w => w) 0x105 1000 7 (fresh_log true w_zero) []) as [(_ & e & Hr) _];
    [by vm_compute|unfold u32_ok; lia|lia|apply fresh_log_is|].
  exists e. apply power_fails_ring. exact Hr.
Qed.

Lemma restart_closes_alarms_witness :
  log_is true (init_alarm_log (fun _ => None) (power_fails failing)) [[1; 5; 0; 0; 3; 232; 0; 0; 7; 208; 0; 7]].
Proof.
  assert (E : [[1; 5; 0; 0; 3; 232; 0; 0; 7; 208; 0; 7]] =
    take 500 (rev (omap (close_stored ((power_fails failing)⟪rtc_now⟫) (power_fails failing)) (range ACL_TOTAL_NUM)) ++ []))
    by (vm_compute; reflexivity).
  rewrite E. exact (proj1 (restart_closes_alarms (fun _ => None) (power_fails failing) [] failing_ring)).
Defined.
