(* ===== verification/GlobalVar.v ===== *)
(** * applications/global_var.c: the configuration register map

    The table [conf_reg_map_inst] of the build [SYS_M_L28], with each register's object,
    range, default, permission and check function (usr/modules/reg_map_check.c), and the
    operations on it: validated writes that go to RAM, to the three EEPROM copies and to
    the event log, reads, and the reset of the run-time counters.  Many registers have no
    object ([reg_ptr == NULL]); the source stores through the null pointer all the same.
    Address 0 of the STM32F103 is an alias of the flash, which ignores the store: a read
    through [NULL] yields [flash_alias0], a store through it does nothing. *)

From S2P Require Import Prelude Conf Fifo Machine EventRecord Eeprom.

(** ** The table *)

Inductive reg_check : Type := StartTemp | StopTemp.

Record conf_reg_map_st : Type := Reg {
  id : Z; reg_ptr : option cell; min_ : Z; max_ : Z; dft : Z; permission : Z; rw : Z;
  chk_ptr : option reg_check
}.

Definition ptr (c : cell) : option cell := Some c.

Definition conf_reg_map_0 : list conf_reg_map_st := [
  Reg 0 None 0 3600 0 0 1 None;
  Reg 1 None 0 3600 0 0 1 None;
  Reg 2 (ptr general_surv_baudrate) 0 5 1 1 1 None;
  Reg 3 (ptr general_surv_addr) 1 128 1 1 1 None;
  Reg 4 (ptr general_diagnose_mode_en) 0 1 0 2 1 None;
  Reg 5 (ptr general_alarm_bypass_en) 0 1 0 3 1 None;
  Reg 6 (ptr general_testing_mode_en) 0 1 0 4 1 None;
  Reg 7 (ptr general_power_mode_mb_en) 0 1 1 3 1 None;
  Reg 8 (ptr dev_mask_din_bitmap_polarity.[0]) 0 65535 48859 3 1 None;
  Reg 9 (ptr dev_mask_din_bitmap_polarity.[1]) 0 65535 0 3 1 None;
  Reg 10 (ptr dev_mask_ain) 0 65535 32799 3 1 None;
  Reg 11 (ptr dev_mask_din.[0]) 0 65535 16255 3 1 None;
  Reg 12 (ptr dev_mask_din.[1]) 0 65535 0 3 1 None;
  Reg 13 (ptr dev_mask_aout) 0 63 1 3 1 None;
  Reg 14 (ptr dev_mask_mb_comp) 0 65535 1 3 1 None;
  Reg 15 (ptr dev_mask_dout.[0]) 0 65535 65535 3 1 None;
  Reg 16 (ptr dev_mask_dout.[1]) 0 65535 63 3 1 None;
  Reg 17 None 0 0 0 0 1 None;
  Reg 18 (ptr fan_mode) 0 8 0 1 1 None;
  Reg 19 None 0 3600 0 0 1 None;
  Reg 20 None 0 3600 0 0 1 None;
  Reg 21 None 0 3600 0 0 1 None;
  Reg 22 (ptr compressor_startup_delay) 0 600 0 2 1 None;
  Reg 23 (ptr compressor_stop_delay) 0 90 5 2 1 None;
  Reg 24 (ptr compressor_min_runtime) 60 600 180 2 1 None;
  Reg 25 (ptr compressor_min_stoptime) 60 600 180 2 1 None;
  Reg 26 (ptr compressor_startup_lowpress_shield) 60 600 120 2 1 None;
  Reg 27 (ptr ComPara_u16SN_Code.[0]) 0 65535 0 2 1 None;
  Reg 28 (ptr ComPara_u16SN_Code.[1]) 0 65535 0 2 1 None;
  Reg 29 (ptr ComPara_u16SN_Code.[2]) 0 65535 0 2 1 None;
  Reg 30 (ptr ComPara_u16SN_Code.[3]) 0 65535 0 2 1 None;
  Reg 31 None 0 3600 0 0 1 None;
  Reg 32 None 0 3600 0 0 1 None;
  Reg 33 None 0 3600 0 0 1 None;
  Reg 34 None 0 3600 0 0 1 None;
  Reg 35 (ptr ComPara_u16M_Type) 0 100 0 2 1 None;
  Reg 36 (ptr ComPara_u16Power_Mode) 0 1 1 2 1 None;
  Reg 37 (ptr ComPara_u16Start_Temp.[0]) 0 800 150 2 1 None;
  Reg 38 (ptr ComPara_u16Start_Humidity) 0 999 350 2 1 None;
  Reg 39 (ptr ComPara_u16Stop_Temp.[0]) 0 800 100 2 1 None;
  Reg 40 (ptr ComPara_u16Stop_Humidity) 0 999 300 2 1 None;
  Reg 41 (ptr ComPara_u16Start_Defrost_Temp) 0 65535 65506 2 1 None;
  Reg 42 (ptr ComPara_u16Stop_Defrost_Temp) 0 65535 60 2 1 None;
  Reg 43 (ptr ComPara_u16Sterilize_Time.[0]) 1 600 8 2 1 None;
  Reg 44 (ptr ComPara_u16Sterilize_Interval.[0]) 1 10000 60 2 1 None;
  Reg 45 (ptr ComPara_u16Water_Ctrl) 0 65535 8 2 1 None;
  Reg 46 (ptr ComPara_u16Water_Mode) 0 4 0 2 1 None;
  Reg 47 (ptr ComPara_u16Water_Flow) 0 65500 1000 2 1 None;
  Reg 48 (ptr ComPara_u16NormalWater_Temp) 0 400 230 2 1 None;
  Reg 49 (ptr ComPara_u16HotWater_Temp) 0 1000 500 2 1 None;
  Reg 50 (ptr ComPara_u16ExitWater_Mode) 0 2 0 2 1 None;
  Reg 51 (ptr ComPara_u16Disinfection_Mode) 0 1 0 2 1 None;
  Reg 52 (ptr ComPara_u16Sterilize_Mode) 0 3 3 2 1 None;
  Reg 53 (ptr ComPara_u16Sterilize_Time.[1]) 1 600 15 2 1 None;
  Reg 54 (ptr ComPara_u16Sterilize_Interval.[1]) 1 10000 60 2 1 None;
  Reg 55 (ptr ComPara_u16UV_Delay) 0 1000 5 2 1 None;
  Reg 56 (ptr ComPara_u16Reset) 0 255 0 2 1 None;
  Reg 57 (ptr ComPara_u16Test_Mode_Type) 0 255 0 2 1 None;
  Reg 58 (ptr ComPara_u16Manual_Test_En) 0 2 0 2 1 None;
  Reg 59 (ptr l_bitmap.[0,BITMAP_MANUAL]) 0 65535 0 1 1 None;
  Reg 60 (ptr ComPara_u16TPower_En) 0 1 0 2 1 None;
  Reg 61 (ptr ComPara_u16TPower_On) 0 65535 500 2 1 None;
  Reg 62 (ptr ComPara_u16TPower_Off) 0 65535 2300 2 1 None;
  Reg 63 (ptr alarm_alarm_param.[ACL_FILTER_OT]) 1 65000 4320 2 1 None;
  Reg 64 (ptr alarm_alarm_param.[ACL_E9]) 1 65000 240 2 1 None;
  Reg 65 (ptr alarm_alarm_param.[ACL_FILTER_ELEMENT_0_OT]) 1 65535 2500 2 1 None;
  Reg 66 (ptr ComPara_u16Clear_RT) 0 255 0 2 1 None;
  Reg 67 (ptr ComPara_u16Clear_ALARM) 0 255 0 2 1 None;
  Reg 68 (ptr ComPara_u16Set_Time.[0]) 0 65535 0 2 1 None;
  Reg 69 (ptr ComPara_u16Set_Time.[1]) 0 65535 0 2 1 None;
  Reg 70 (ptr ComPara_u16Start_Delay) 1 600 180 1 1 None;
  Reg 71 (ptr ComPara_u16Fan_Stop_Delay) 1 300 60 1 1 None;
  Reg 72 (ptr ComPara_u16Comp_Interval) 10 600 30 2 1 None;
  Reg 73 (ptr ComPara_u16WaterFlow) 0 65535 0 2 1 None;
  Reg 74 None 0 3600 0 0 1 None;
  Reg 75 (ptr general_ai_cali.[0]) 0 65535 0 2 1 None;
  Reg 76 (ptr general_ntc_cali.[0]) 0 65535 0 2 1 None;
  Reg 77 (ptr general_ntc_cali.[1]) 0 65535 0 2 1 None;
  Reg 78 (ptr general_ntc_cali.[2]) 0 65535 0 2 1 None;
  Reg 79 (ptr general_temp_sensor_cali_temp.[0]) 0 65535 0 2 1 None;
  Reg 80 (ptr general_temp_sensor_cali_hum.[0]) 0 65535 0 2 1 None;
  Reg 81 (ptr general_ntc_cali.[3]) 0 65535 0 2 1 None;
  Reg 82 (ptr ComPara_u16HotWater_Cali) 0 65535 0 2 1 None;
  Reg 83 (ptr l_ao_list.[AO_EC_FAN,BITMAP_MANUAL]) 0 100 0 0 1 None;
  Reg 84 (ptr fan_set_speed) 0 100 60 2 1 None;
  Reg 85 None 0 3600 0 2 1 None;
  Reg 86 (ptr ComPara_u16ColdWater_Mode) 0 2 0 2 1 None;
  Reg 87 (ptr ComPara_u16ColdWater_StartTemp) 50 400 150 2 1 (Some StartTemp);
  Reg 88 (ptr ComPara_u16ColdWater_StopTemp) 10 300 70 2 1 (Some StopTemp);
  Reg 89 (ptr ComPara_u16HeatFan_StartTemp) 0 1000 600 2 1 None;
  Reg 90 (ptr ComPara_u16HeatFan_StopTemp) 0 1000 400 2 1 None;
  Reg 91 (ptr ComPara_u16FILTER_ELEMENT_Type) 0 1 0 2 1 None;
  Reg 92 (ptr alarm_alarm_param.[ACL_FILTER_ELEMENT_1_OT]) 1 65535 2500 2 1 None;
  Reg 93 (ptr alarm_alarm_param.[ACL_FILTER_ELEMENT_2_OT]) 1 65535 2500 2 1 None;
  Reg 94 (ptr alarm_alarm_param.[ACL_FILTER_ELEMENT_3_OT]) 1 65535 2500 2 1 None;
  Reg 95 (ptr alarm_alarm_param.[ACL_FILTER_ELEMENT_4_OT]) 1 65535 2500 2 1 None;
  Reg 96 (ptr alarm_alarm_param.[ACL_UV1_OT]) 1 65535 30000 2 1 None;
  Reg 97 (ptr ComPara_u16Start_Temp.[1]) 0 800 380 2 1 None;
  Reg 98 (ptr ComPara_u16Stop_Temp.[1]) 0 800 400 2 1 None;
  Reg 99 (ptr Platform_Restart_Enable) 0 65535 32771 2 1 None;
  Reg 100 (ptr Platform_Restart_Delay) 1 65535 3075 2 1 None;
  Reg 101 (ptr Platform_Fixed_Report) 10 1000 60 2 1 None;
  Reg 102 (ptr Platform_Real_Report) 5 65535 300 2 1 None;
  Reg 103 (ptr ComPara_u16CloseFrist) 0 1 0 2 1 None;
  Reg 104 (ptr ComPara_u16CloseDelay) 0 10 0 2 1 None;
  Reg 105 (ptr Platform_Net_ERR) 0 1 0 2 1 None;
  Reg 106 (ptr ComPara_u16LN_Enable) 0 1 0 2 1 None;
  Reg 107 (ptr ComPara_u16LN_Mode) 0 1 0 2 1 None;
  Reg 108 (ptr ComPara_u16LN_Time.[0]) 0 2359 100 2 1 None;
  Reg 109 (ptr ComPara_u16LN_Time.[1]) 0 2359 100 2 1 None;
  Reg 110 (ptr ComPara_u16LN_Fan) 0 100 45 2 1 None;
  Reg 111 None 0 3600 0 0 1 None;
  Reg 112 (ptr ComPara_u16TestEV.[0]) 0 65535 5 2 1 None;
  Reg 113 (ptr ComPara_u16TestEV.[1]) 0 65535 5 2 1 None;
  Reg 114 None 0 3600 0 0 1 None;
  Reg 115 (ptr ComPara_u16Heater_PM25) 0 1 0 2 1 None;
  Reg 116 None 0 3600 0 0 1 None;
  Reg 117 None 0 3600 0 0 1 None;
  Reg 118 None 0 3600 0 0 1 None;
  Reg 119 None 0 3600 0 0 1 None;
  Reg 120 (ptr ComPara_u16Storage) 0 1 0 2 1 None;
  Reg 121 (ptr ComPara_u16StorageDealy.[0]) 1 10000 80 2 1 None;
  Reg 122 (ptr ComPara_u16StorageDealy.[1]) 1 10000 10 2 1 None;
  Reg 123 None 0 3600 0 0 1 None;
  Reg 124 None 0 3600 0 0 1 None;
  Reg 125 (ptr ComPara_u16TH_Interal) 0 1000 30 2 1 None;
  Reg 126 None 0 3600 0 0 1 None;
  Reg 127 None 0 3600 0 0 1 None;
  Reg 128 None 0 3600 0 0 1 None;
  Reg 129 None 0 3600 0 0 1 None;
  Reg 130 (ptr alarm_alarm_param.[ACL_E11]) 100 1500 1150 2 1 None;
  Reg 131 None 0 3600 0 0 1 None;
  Reg 132 None 0 3600 0 0 1 None;
  Reg 133 None 0 3600 0 0 1 None;
  Reg 134 None 0 3600 0 0 1 None;
  Reg 135 None 0 3600 0 0 1 None;
  Reg 136 None 0 3600 0 0 1 None;
  Reg 137 None 0 3600 0 0 1 None;
  Reg 138 None 0 3600 0 0 1 None;
  Reg 139 None 0 3600 0 0 1 None;
  Reg 140 None 0 3600 0 0 1 None;
  Reg 141 None 0 3600 0 0 1 None;
  Reg 142 None 0 3600 0 0 1 None;
  Reg 143 None 0 3600 0 0 1 None;
  Reg 144 None 0 3600 0 0 1 None
].

Definition conf_reg_map_1 : list conf_reg_map_st := [
  Reg 145 None 0 3600 0 0 1 None;
  Reg 146 None 0 3600 0 0 1 None;
  Reg 147 None 0 3600 0 0 1 None;
  Reg 148 None 0 3600 0 0 1 None;
  Reg 149 None 0 3600 0 0 1 None;
  Reg 150 None 0 3600 0 0 1 None;
  Reg 151 None 0 3600 0 0 1 None;
  Reg 152 None 0 3600 0 0 1 None;
  Reg 153 None 0 3600 0 0 1 None;
  Reg 154 None 0 3600 0 0 1 None;
  Reg 155 None 0 3600 0 0 1 None;
  Reg 156 None 0 3600 0 0 1 None;
  Reg 157 None 0 3600 0 0 1 None;
  Reg 158 None 0 3600 0 0 1 None;
  Reg 159 None 0 3600 0 0 1 None;
  Reg 160 None 0 3600 0 0 1 None;
  Reg 161 None 0 3600 0 0 1 None;
  Reg 162 None 0 3600 0 0 1 None;
  Reg 163 None 0 3600 0 0 1 None;
  Reg 164 None 0 3600 0 0 1 None;
  Reg 165 None 0 3600 0 0 1 None;
  Reg 166 None 0 3600 0 0 1 None;
  Reg 167 None 0 3600 0 0 1 None;
  Reg 168 None 0 3600 0 0 1 None;
  Reg 169 None 0 3600 0 0 1 None;
  Reg 170 None 0 3600 0 0 1 None;
  Reg 171 None 0 3600 0 0 1 None;
  Reg 172 None 0 3600 0 0 1 None;
  Reg 173 None 0 3600 0 0 1 None;
  Reg 174 None 0 3600 0 0 1 None;
  Reg 175 None 0 3600 0 0 1 None;
  Reg 176 None 0 3600 0 0 1 None;
  Reg 177 None 0 3600 0 0 1 None;
  Reg 178 None 0 3600 0 0 1 None;
  Reg 179 None 0 3600 0 0 1 None;
  Reg 180 None 0 3600 0 0 1 None;
  Reg 181 None 0 3600 0 0 1 None;
  Reg 182 None 0 3600 0 0 1 None;
  Reg 183 None 0 3600 0 0 1 None;
  Reg 184 None 0 3600 0 0 1 None;
  Reg 185 None 0 3600 0 0 1 None;
  Reg 186 None 0 3600 0 0 1 None;
  Reg 187 None 0 3600 0 0 1 None;
  Reg 188 None 0 3600 0 0 1 None;
  Reg 189 None 0 3600 0 0 1 None;
  Reg 190 None 0 3600 0 0 1 None;
  Reg 191 None 0 3600 0 0 1 None;
  Reg 192 None 0 3600 0 0 1 None;
  Reg 193 None 0 3600 0 0 1 None;
  Reg 194 None 0 3600 0 0 1 None;
  Reg 195 None 0 3600 0 0 1 None;
  Reg 196 None 0 3600 0 0 1 None;
  Reg 197 None 0 3600 0 0 1 None;
  Reg 198 None 0 3600 0 0 1 None;
  Reg 199 None 0 3600 0 0 1 None;
  Reg 200 None 0 3600 0 0 1 None;
  Reg 201 None 0 3600 0 0 1 None;
  Reg 202 None 0 3600 0 0 1 None;
  Reg 203 None 0 3600 0 0 1 None;
  Reg 204 None 0 3600 0 0 1 None;
  Reg 205 None 0 3600 0 0 1 None;
  Reg 206 None 0 3600 0 0 1 None;
  Reg 207 None 0 3600 0 0 1 None;
  Reg 208 None 0 3600 0 0 1 None;
  Reg 209 None 0 3600 0 0 1 None;
  Reg 210 None 0 3600 0 0 1 None;
  Reg 211 None 0 3600 0 0 1 None;
  Reg 212 None 0 3600 0 0 1 None;
  Reg 213 None 0 3600 0 0 1 None;
  Reg 214 None 0 3600 0 0 1 None;
  Reg 215 None 0 3600 0 0 1 None;
  Reg 216 None 0 3600 0 0 1 None;
  Reg 217 None 0 3600 0 0 1 None;
  Reg 218 None 0 3600 0 0 1 None;
  Reg 219 None 0 3600 0 0 1 None;
  Reg 220 None 0 3600 0 0 1 None;
  Reg 221 None 0 3600 0 0 1 None;
  Reg 222 None 0 3600 0 0 1 None;
  Reg 223 None 0 3600 0 0 1 None;
  Reg 224 None 0 3600 0 0 1 None;
  Reg 225 None 0 3600 0 0 1 None;
  Reg 226 None 0 3600 0 0 1 None;
  Reg 227 None 0 3600 0 0 1 None;
  Reg 228 None 0 3600 0 0 1 None;
  Reg 229 None 0 3600 0 0 1 None;
  Reg 230 None 0 3600 0 0 1 None;
  Reg 231 None 0 3600 0 0 1 None;
  Reg 232 None 0 3600 0 0 1 None;
  Reg 233 None 0 3600 0 0 1 None;
  Reg 234 None 0 3600 0 0 1 None;
  Reg 235 None 0 3600 0 0 1 None;
  Reg 236 None 0 3600 0 0 1 None;
  Reg 237 None 0 3600 0 0 1 None;
  Reg 238 None 0 3600 0 0 1 None;
  Reg 239 None 0 3600 0 0 1 None;
  Reg 240 None 0 3600 0 0 1 None;
  Reg 241 None 0 3600 0 0 1 None;
  Reg 242 None 0 3600 0 0 1 None;
  Reg 243 None 0 3600 0 0 1 None;
  Reg 244 None 0 3600 0 0 1 None;
  Reg 245 None 0 3600 0 0 1 None;
  Reg 246 None 0 3600 0 0 1 None;
  Reg 247 None 0 3600 0 0 1 None;
  Reg 248 None 0 3600 0 0 1 None;
  Reg 249 None 0 3600 0 0 1 None;
  Reg 250 None 0 3600 0 0 1 None;
  Reg 251 None 0 3600 0 0 1 None;
  Reg 252 None 0 3600 0 0 1 None;
  Reg 253 None 0 3600 0 0 1 None;
  Reg 254 None 0 3600 0 0 1 None;
  Reg 255 None 0 3600 0 0 1 None;
  Reg 256 None 0 3600 0 0 1 None;
  Reg 257 None 0 3600 0 0 1 None;
  Reg 258 None 0 3600 0 0 1 None;
  Reg 259 None 0 3600 0 0 1 None;
  Reg 260 None 0 3600 0 0 1 None;
  Reg 261 None 0 3600 0 0 1 None;
  Reg 262 None 0 3600 0 0 1 None;
  Reg 263 None 0 3600 0 0 1 None;
  Reg 264 None 0 3600 0 0 1 None;
  Reg 265 None 0 3600 0 0 1 None;
  Reg 266 None 0 3600 0 0 1 None;
  Reg 267 None 0 3600 0 0 1 None;
  Reg 268 None 0 3600 0 0 1 None;
  Reg 269 None 0 3600 0 0 1 None;
  Reg 270 None 0 3600 0 0 1 None;
  Reg 271 None 0 3600 0 0 1 None;
  Reg 272 None 0 3600 0 0 1 None;
  Reg 273 None 0 3600 0 0 1 None;
  Reg 274 None 0 3600 0 0 1 None;
  Reg 275 None 0 3600 0 0 1 None;
  Reg 276 None 0 3600 0 0 1 None;
  Reg 277 None 0 3600 0 0 1 None;
  Reg 278 None 0 3600 0 0 1 None;
  Reg 279 None 0 3600 0 0 1 None;
  Reg 280 None 0 3600 0 0 1 None;
  Reg 281 None 0 3600 0 0 1 None;
  Reg 282 None 0 3600 0 0 1 None;
  Reg 283 None 0 3600 0 0 1 None;
  Reg 284 None 0 3600 0 0 1 None;
  Reg 285 None 0 3600 0 0 1 None;
  Reg 286 None 0 3600 0 0 1 None;
  Reg 287 None 0 3600 0 0 1 None;
  Reg 288 None 0 3600 0 0 1 None;
  Reg 289 None 0 3600 0 0 1 None
].

Definition conf_reg_map_2 : list conf_reg_map_st := [
  Reg 290 None 0 3600 0 0 1 None;
  Reg 291 None 0 3600 0 0 1 None;
  Reg 292 None 0 3600 0 0 1 None;
  Reg 293 None 0 3600 0 0 1 None;
  Reg 294 None 0 3600 0 0 1 None;
  Reg 295 None 0 3600 0 0 1 None;
  Reg 296 None 0 3600 0 0 1 None;
  Reg 297 None 0 3600 0 0 1 None;
  Reg 298 None 0 3600 0 0 1 None;
  Reg 299 None 0 3600 0 0 1 None;
  Reg 300 None 0 3600 0 0 1 None;
  Reg 301 None 0 3600 0 0 1 None;
  Reg 302 None 0 3600 0 0 1 None;
  Reg 303 None 0 3600 0 0 1 None;
  Reg 304 None 0 3600 0 0 1 None;
  Reg 305 None 0 3600 0 0 1 None;
  Reg 306 None 0 3600 0 0 1 None;
  Reg 307 None 0 3600 0 0 1 None;
  Reg 308 None 0 3600 0 0 1 None;
  Reg 309 None 0 3600 0 0 1 None;
  Reg 310 None 0 3600 0 0 1 None;
  Reg 311 None 0 3600 0 0 1 None;
  Reg 312 None 0 3600 0 2 1 None;
  Reg 313 (ptr ComPara_u16Net_WifiSet) 0 65535 0 2 1 None;
  Reg 314 (ptr ComPara_u16Net_Sel) 0 65535 0 2 1 None;
  Reg 315 (ptr ComPara_u16Wifi_Name.[0]) 0 65535 0 2 1 None;
  Reg 316 (ptr ComPara_u16Wifi_Name.[1]) 0 65535 0 2 1 None;
  Reg 317 (ptr ComPara_u16Wifi_Name.[2]) 0 65535 0 2 1 None;
  Reg 318 (ptr ComPara_u16Wifi_Name.[3]) 0 65535 0 2 1 None;
  Reg 319 (ptr ComPara_u16Wifi_Name.[4]) 0 65535 0 2 1 None;
  Reg 320 (ptr ComPara_u16Wifi_Name.[5]) 0 65535 0 2 1 None;
  Reg 321 (ptr ComPara_u16Wifi_Name.[6]) 0 65535 0 2 1 None;
  Reg 322 (ptr ComPara_u16Wifi_Name.[7]) 0 65535 0 2 1 None;
  Reg 323 (ptr ComPara_u16Wifi_Name.[8]) 0 65535 0 2 1 None;
  Reg 324 (ptr ComPara_u16Wifi_Name.[9]) 0 65535 0 2 1 None;
  Reg 325 (ptr ComPara_u16Wifi_Password.[0]) 0 65535 0 2 1 None;
  Reg 326 (ptr ComPara_u16Wifi_Password.[1]) 0 65535 0 2 1 None;
  Reg 327 (ptr ComPara_u16Wifi_Password.[2]) 0 65535 0 2 1 None;
  Reg 328 (ptr ComPara_u16Wifi_Password.[3]) 0 65535 0 2 1 None;
  Reg 329 (ptr ComPara_u16Wifi_Password.[4]) 0 65535 0 2 1 None;
  Reg 330 (ptr ComPara_u16Wifi_Password.[5]) 0 65535 0 2 1 None;
  Reg 331 (ptr ComPara_u16Wifi_Password.[6]) 0 65535 0 2 1 None;
  Reg 332 (ptr ComPara_u16Wifi_Password.[7]) 0 65535 0 2 1 None;
  Reg 333 (ptr ComPara_u16Wifi_Password.[8]) 0 65535 0 2 1 None;
  Reg 334 (ptr ComPara_u16Wifi_Password.[9]) 0 65535 0 2 1 None;
  Reg 335 (ptr ComPara_device_info.[0]) 0 65535 0 2 1 None;
  Reg 336 (ptr ComPara_device_info.[1]) 0 65535 0 2 1 None;
  Reg 337 (ptr ComPara_device_info.[2]) 0 65535 0 2 1 None;
  Reg 338 (ptr ComPara_device_info.[3]) 0 65535 0 2 1 None;
  Reg 339 (ptr ComPara_device_info.[4]) 0 65535 0 2 1 None;
  Reg 340 (ptr ComPara_device_info.[5]) 0 65535 0 2 1 None;
  Reg 341 (ptr ComPara_device_info.[6]) 0 65535 0 2 1 None;
  Reg 342 (ptr ComPara_device_info.[7]) 0 65535 0 2 1 None;
  Reg 343 (ptr ComPara_device_info.[8]) 0 65535 0 2 1 None;
  Reg 344 (ptr ComPara_device_info.[9]) 0 65535 0 2 1 None;
  Reg 345 (ptr ComPara_device_info.[10]) 0 65535 0 2 1 None;
  Reg 346 (ptr ComPara_device_info.[11]) 0 65535 0 2 1 None;
  Reg 347 (ptr ComPara_device_info.[12]) 0 65535 0 2 1 None;
  Reg 348 (ptr ComPara_device_info.[13]) 0 65535 0 2 1 None;
  Reg 349 (ptr ComPara_device_info.[14]) 0 65535 0 2 1 None;
  Reg 350 (ptr ComPara_device_info.[15]) 0 65535 0 2 1 None;
  Reg 351 (ptr ComPara_device_info.[16]) 0 65535 0 2 1 None;
  Reg 352 (ptr ComPara_device_info.[17]) 0 65535 0 2 1 None;
  Reg 353 (ptr ComPara_device_info.[18]) 0 65535 0 2 1 None;
  Reg 354 (ptr ComPara_device_info.[19]) 0 65535 0 2 1 None;
  Reg 355 (ptr ComPara_device_info.[20]) 0 65535 0 2 1 None;
  Reg 356 (ptr ComPara_device_info.[21]) 0 65535 0 2 1 None;
  Reg 357 (ptr ComPara_device_info.[22]) 0 65535 0 2 1 None;
  Reg 358 (ptr ComPara_device_info.[23]) 0 65535 0 2 1 None;
  Reg 359 (ptr ComPara_device_info.[24]) 0 65535 0 2 1 None;
  Reg 360 (ptr ComPara_device_info.[25]) 0 65535 0 2 1 None;
  Reg 361 (ptr ComPara_device_info.[26]) 0 65535 0 2 1 None;
  Reg 362 (ptr ComPara_device_info.[27]) 0 65535 0 2 1 None;
  Reg 363 (ptr ComPara_device_info.[28]) 0 65535 0 2 1 None;
  Reg 364 (ptr ComPara_device_info.[29]) 0 65535 0 2 1 None;
  Reg 365 (ptr ComPara_device_info.[30]) 0 65535 0 2 1 None;
  Reg 366 (ptr ComPara_device_info.[31]) 0 65535 0 2 1 None;
  Reg 367 (ptr ComPara_device_info.[32]) 0 65535 0 2 1 None;
  Reg 368 (ptr ComPara_device_info.[33]) 0 65535 0 2 1 None;
  Reg 369 (ptr ComPara_device_info.[34]) 0 65535 0 2 1 None;
  Reg 370 (ptr ComPara_device_info.[35]) 0 65535 0 2 1 None;
  Reg 371 (ptr ComPara_device_info.[36]) 0 65535 0 2 1 None;
  Reg 372 (ptr ComPara_device_info.[37]) 0 65535 0 2 1 None;
  Reg 373 (ptr ComPara_device_info.[38]) 0 65535 0 2 1 None;
  Reg 374 (ptr ComPara_device_info.[39]) 0 65535 0 2 1 None;
  Reg 375 (ptr ComPara_device_info.[40]) 0 65535 0 2 1 None;
  Reg 376 (ptr ComPara_device_info.[41]) 0 65535 0 2 1 None;
  Reg 377 (ptr ComPara_device_info.[42]) 0 65535 0 2 1 None;
  Reg 378 (ptr ComPara_device_info.[43]) 0 65535 0 2 1 None;
  Reg 379 (ptr ComPara_device_info.[44]) 0 65535 0 2 1 None;
  Reg 380 (ptr ComPara_device_info.[45]) 0 65535 0 2 1 None;
  Reg 381 (ptr ComPara_device_info.[46]) 0 65535 0 2 1 None;
  Reg 382 (ptr ComPara_device_info.[47]) 0 65535 0 2 1 None;
  Reg 383 (ptr ComPara_device_info.[48]) 0 65535 0 2 1 None;
  Reg 384 (ptr ComPara_device_info.[49]) 0 65535 0 2 1 None;
  Reg 385 (ptr ComPara_device_info.[50]) 0 65535 0 2 1 None;
  Reg 386 (ptr ComPara_device_info.[51]) 0 65535 0 2 1 None;
  Reg 387 (ptr ComPara_device_info.[52]) 0 65535 0 2 1 None;
  Reg 388 (ptr ComPara_device_info.[53]) 0 65535 0 2 1 None;
  Reg 389 (ptr ComPara_device_info.[54]) 0 65535 0 2 1 None;
  Reg 390 (ptr ComPara_device_info.[55]) 0 65535 0 2 1 None;
  Reg 391 (ptr ComPara_device_info.[56]) 0 65535 0 2 1 None;
  Reg 392 (ptr ComPara_device_info.[57]) 0 65535 0 2 1 None;
  Reg 393 (ptr ComPara_device_info.[58]) 0 65535 0 2 1 None;
  Reg 394 (ptr ComPara_device_info.[59]) 0 65535 0 2 1 None;
  Reg 395 (ptr ComPara_device_info.[60]) 0 65535 0 2 1 None;
  Reg 396 (ptr ComPara_device_info.[61]) 0 65535 0 2 1 None;
  Reg 397 (ptr ComPara_device_info.[62]) 0 65535 0 2 1 None;
  Reg 398 (ptr ComPara_device_info.[63]) 0 65535 0 2 1 None;
  Reg 399 (ptr ComPara_device_info.[64]) 0 65535 0 2 1 None;
  Reg 400 (ptr ComPara_device_info.[65]) 0 65535 0 2 1 None;
  Reg 401 (ptr ComPara_device_info.[66]) 0 65535 0 2 1 None;
  Reg 402 (ptr ComPara_device_info.[67]) 0 65535 0 2 1 None;
  Reg 403 (ptr ComPara_device_info.[68]) 0 65535 0 2 1 None;
  Reg 404 (ptr ComPara_device_info.[69]) 0 65535 0 2 1 None;
  Reg 405 (ptr ComPara_device_info.[70]) 0 65535 0 2 1 None;
  Reg 406 (ptr ComPara_device_info.[71]) 0 65535 0 2 1 None;
  Reg 407 (ptr ComPara_device_info.[72]) 0 65535 0 2 1 None;
  Reg 408 (ptr ComPara_device_info.[73]) 0 65535 0 2 1 None;
  Reg 409 (ptr ComPara_device_info.[74]) 0 65535 0 2 1 None;
  Reg 410 (ptr ComPara_device_info.[75]) 0 65535 0 2 1 None;
  Reg 411 (ptr ComPara_device_info.[76]) 0 65535 0 2 1 None;
  Reg 412 (ptr ComPara_device_info.[77]) 0 65535 0 2 1 None;
  Reg 413 (ptr ComPara_device_info.[78]) 0 65535 0 2 1 None;
  Reg 414 (ptr ComPara_device_info.[79]) 0 65535 0 2 1 None;
  Reg 415 (ptr ComPara_device_info.[80]) 0 65535 0 2 1 None;
  Reg 416 (ptr ComPara_device_info.[81]) 0 65535 0 2 1 None;
  Reg 417 (ptr ComPara_device_info.[82]) 0 65535 0 2 1 None;
  Reg 418 (ptr ComPara_device_info.[83]) 0 65535 0 2 1 None;
  Reg 419 (ptr ComPara_device_info.[84]) 0 65535 0 2 1 None;
  Reg 420 (ptr ComPara_device_info.[85]) 0 65535 0 2 1 None;
  Reg 421 (ptr ComPara_device_info.[86]) 0 65535 0 2 1 None;
  Reg 422 (ptr ComPara_device_info.[87]) 0 65535 0 2 1 None;
  Reg 423 (ptr ComPara_device_info.[88]) 0 65535 0 2 1 None;
  Reg 424 (ptr ComPara_device_info.[89]) 0 65535 0 2 1 None;
  Reg 425 (ptr ComPara_device_info.[90]) 0 65535 0 2 1 None;
  Reg 426 (ptr ComPara_device_info.[91]) 0 65535 0 2 1 None;
  Reg 427 (ptr ComPara_device_info.[92]) 0 65535 0 2 1 None;
  Reg 428 (ptr ComPara_device_info.[93]) 0 65535 0 2 1 None;
  Reg 429 (ptr ComPara_device_info.[94]) 0 65535 0 2 1 None;
  Reg 430 (ptr ComPara_device_info.[95]) 0 65535 0 2 1 None;
  Reg 431 (ptr ComPara_device_info.[96]) 0 65535 0 2 1 None;
  Reg 432 (ptr ComPara_device_info.[97]) 0 65535 0 2 1 None;
  Reg 433 (ptr ComPara_device_info.[98]) 0 65535 0 2 1 None;
  Reg 434 (ptr ComPara_device_info.[99]) 0 65535 0 2 1 None
].

Definition conf_reg_map_inst : list conf_reg_map_st :=
  conf_reg_map_0 ++ conf_reg_map_1 ++ conf_reg_map_2.

Definition conf_reg (i : Z) : conf_reg_map_st :=
  nth (Z.to_nat i) conf_reg_map_inst (Reg 0 None 0 0 0 0 0 None).

(** ** Access through [reg_ptr] *)

(** The pointers are [uint16_t *]; one object (register 83) is an [int16_t]. *)
Definition deref {w : cur} (p : option cell) : Z :=
  match p with Some c => u16 «c» | None => «flash_alias0» end.

Definition store (p : option cell) (v : Z) : cmd :=
  match p with Some c => c ::= v | None => skip end.

(** usr/modules/reg_map_check.c. *)
Definition ColdWater_StartTemp_Chek {w : cur} (pram : Z) : Z :=
  if «ComPara_u16ColdWater_StopTemp» <? pram then 1 else 0.
Definition ColdWater_StopTemp_Chek {w : cur} (pram : Z) : Z :=
  if pram <? «ComPara_u16ColdWater_StartTemp» then 1 else 0.
Definition run_check {w : cur} (c : reg_check) (pram : Z) : Z :=
  match c with
  | StartTemp => ColdWater_StartTemp_Chek pram
  | StopTemp => ColdWater_StopTemp_Chek pram
  end.

(** ** Writing registers *)

Abbreviation CPAD_ERR_NOERR := 0.
Abbreviation CPAD_ERR_ADDR_OR := 1.
Abbreviation CPAD_ERR_DATA_OR := 2.
Abbreviation CPAD_ERR_PERM_OR := 3.
Abbreviation CPAD_ERR_WR_OR := 4.
Abbreviation CPAD_ERR_CONFLICT_OR := 5.
Abbreviation USER_DEFAULT := 0.
Abbreviation USER_MODEBUS_SLAVE := 1.

(** A validation loop: the first non-zero error code wins. *)
Fixpoint first_err (f : Z -> Z) (l : list Z) : Z :=
  match l with [] => CPAD_ERR_NOERR | i :: l' => if f i =? CPAD_ERR_NOERR then first_err f l' else f i end.

Definition perm_err (sys_permission reg_addr i : Z) : Z :=
  if sys_permission <? permission (conf_reg (reg_addr + i)) then CPAD_ERR_PERM_OR else CPAD_ERR_NOERR.
Definition rw_err (reg_addr i : Z) : Z :=
  if rw (conf_reg (reg_addr + i)) =? 1 then CPAD_ERR_NOERR else CPAD_ERR_WR_OR.
Definition data_err {w : cur} (wr_data : list Z) (reg_addr i : Z) : Z :=
  let r := conf_reg (reg_addr + i) in
  let d := nth (Z.to_nat i) wr_data 0 in
  if (max_ r <? d) || (d <? min_ r) then CPAD_ERR_DATA_OR
  else match chk_ptr r with
       | Some c => if run_check c d =? 0 then CPAD_ERR_CONFLICT_OR else CPAD_ERR_NOERR
       | None => CPAD_ERR_NOERR
       end.

(** The checks made before anything is written, in the order of the source. *)
Definition reg_map_err {w : cur} (reg_addr : Z) (wr_data : list Z) (wr_cnt User_ID : Z) : Z :=
  let sys_permission := if User_ID =? USER_MODEBUS_SLAVE then 3 else 4 in
  if CONF_REG_MAP_NUM <? reg_addr + wr_cnt then CPAD_ERR_ADDR_OR
  else
    let e1 := first_err (perm_err sys_permission reg_addr) (range wr_cnt) in
    if negb (e1 =? CPAD_ERR_NOERR) then e1 else
    let e2 := first_err (rw_err reg_addr) (range wr_cnt) in
    if negb (e2 =? CPAD_ERR_NOERR) then e2 else
    first_err (data_err wr_data reg_addr) (range wr_cnt).

(** The write loop; for the water mode and flow registers it returns after the first store. *)
Fixpoint reg_write_loop (reg_addr : Z) (wr_data : list Z) (User_ID : Z) (js : list Z) : cmd :=
  match js with
  | [] => skip
  | i :: js' =>
      let p := reg_ptr (conf_reg (reg_addr + i)) in
      LET ee_rd_data := deref p IN
      let ee_wr_data := nth (Z.to_nat i) wr_data 0 in
      store p ee_wr_data;;
      if (reg_addr =? EE_WATER_MODE) || (reg_addr =? EE_WATER_FLOW) then skip
      else
        RUN (eeprom_tripple_write (i + reg_addr) ee_wr_data ee_rd_data);;
        LET level := «status_permission_level» IN
        add_eventlog_fifo (i + reg_addr) ((User_ID .<< 8) .| level) ee_rd_data ee_wr_data;;
        reg_write_loop reg_addr wr_data User_ID js'
  end.

Definition reg_map_write (reg_addr : Z) (wr_data : list Z) (wr_cnt User_ID : Z) : act Z :=
  LET err_code := reg_map_err reg_addr wr_data wr_cnt User_ID IN
  if negb (err_code =? CPAD_ERR_NOERR) then RETURN err_code
  else
    reg_write_loop reg_addr wr_data User_ID (range wr_cnt);;
    RETURN CPAD_ERR_NOERR.

Definition write_reg_map (reg_addr data : Z) : act Z := reg_map_write reg_addr [data] 1 USER_DEFAULT.

Definition RAM_Write_Reg (reg_addr data u8Num : Z) : act Z :=
  reg_map_write reg_addr [data] u8Num USER_DEFAULT.

(** ** Run-time counters *)

Definition runtime_bytes {w : cur} : list Z :=
  concat ((fun i => le16 «ComSta_u16Runtime.[0, i]») <$> range DO_MAX_CNT) ++
  concat ((fun i => le16 «ComSta_u16Runtime.[1, i]») <$> range DO_MAX_CNT).
Definition cumulative_bytes {w : cur} : list Z :=
  concat ((fun i => le16 «ComSta_u16Cumulative_Water.[i]») <$> range 3).

Definition save_runtime : cmd :=
  LET b := runtime_bytes IN RUN (I2C_EE_BufWrite b STS_REG_EE1_ADDR 156).
Definition save_cumulative : cmd :=
  LET b := cumulative_bytes IN RUN (I2C_EE_BufWrite b (STS_REG_EE1_ADDR + 156) 6).

Definition reset_runtime (param : Z) : act Z :=
  if param =? 0xff then
    FOR i IN range DO_MAX_CNT DO
      ComSta_u16Runtime.[0, i] ::= 0;; ComSta_u16Runtime.[1, i] ::= 0
    END;;
    l_u32WaterFlow ::= 0;;
    FOR i IN range 3 DO ComSta_u16Cumulative_Water.[i] ::= 0 END;;
    save_cumulative;;
    save_runtime;;
    RETURN 1
  else if (0 <? param) && (param <=? DO_MAX_CNT) then
    ComSta_u16Runtime.[0, param - 1] ::= 0;;
    ComSta_u16Runtime.[1, param - 1] ::= 0;;
    save_runtime;;
    RETURN 1
  else RETURN 0.

(** ** Footprints *)

Lemma save_runtime_foot : respc (unch [P_ee] []) save_runtime.
Proof. unfold save_runtime. footprint. Qed.
Lemma save_cumulative_foot : respc (unch [P_ee] []) save_cumulative.
Proof. unfold save_cumulative. footprint. Qed.
#[export] Hint Resolve save_runtime_foot save_cumulative_foot : foot.
Lemma reset_runtime_foot p :
  respa (unch [P_ee; ComSta_u16Runtime; l_u32WaterFlow; ComSta_u16Cumulative_Water] []) (reset_runtime p).
Proof. unfold reset_runtime. footprint. Qed.
#[export] Hint Resolve reset_runtime_foot : foot.

Lemma store_foot F D p v :
  (forall c, p = Some c -> fin (fld c) F && negb (is_req c) = true) ->
  respc (unch F D) (store p v).
Proof.
  intros H. destruct p as [c|]; cbn [store]; [|apply resp_skip; typeclasses eauto].
  apply unch_assign_col. by apply H.
Qed.

Lemma write_loop_foot F D a d u js :
  fin P_ee F && fin P_eventlog F = true ->
  (forall i c, i ∈ js -> reg_ptr (conf_reg (a + i)) = Some c ->
     fin (fld c) F && negb (is_req c) = true) ->
  respc (unch F D) (reg_write_loop a d u js).
Proof.
  intros [He Hl]%andb_true_iff. induction js as [|i js IH]; intros Hp; cbn [reg_write_loop].
  { apply resp_skip; typeclasses eauto. }
  apply resp_let; intros old. apply resp_seq; [typeclasses eauto | |].
  { apply store_foot. intros c Hc. eapply Hp; [|exact Hc]. set_solver. }
  case_match; [apply resp_skip; typeclasses eauto|].
  repeat resp_step; try typeclasses eauto.
  - eapply resp_unch_weaken; [eauto with foot|]. cbn. by rewrite He.
  - eapply resp_unch_weaken; [eauto with foot|]. cbn. by rewrite Hl.
  - apply IH. intros j c Hj. apply Hp. set_solver.
Qed.

(** Writing one register from inside the firmware. *)
Lemma write_reg_map_foot a v c :
  reg_ptr (conf_reg a) = Some c -> feqb (fld c) l_bitmap = false ->
  respa (unch [fld c; P_ee; P_eventlog] []) (write_reg_map a v).
Proof.
  intros Hc Hb. unfold write_reg_map, reg_map_write. apply resp_let; intros e.
  case_match; [apply resp_ret; typeclasses eauto|].
  apply resp_seq; [typeclasses eauto | | apply resp_ret; typeclasses eauto].
  apply write_loop_foot.
  - unfold fin. cbn [existsb]. by rewrite !(orb_comm _ true) || (destruct (fld c); reflexivity).
  - intros i d Hi Hd. change (range 1) with [0] in Hi. apply list_elem_of_singleton in Hi as ->.
    rewrite Z.add_0_r, Hc in Hd. injection Hd as <-. unfold fin. cbn [existsb].
    assert (feqb (fld c) (fld c) = true) as -> by (by apply feqb_spec).
    unfold is_req. by rewrite Hb.
Qed.
Lemma RAM_Write_Reg_foot a v c :
  reg_ptr (conf_reg a) = Some c -> feqb (fld c) l_bitmap = false ->
  respa (unch [fld c; P_ee; P_eventlog] []) (RAM_Write_Reg a v 1).
Proof. apply write_reg_map_foot. Qed.

(** ** Facts about the table, by evaluation *)

Definition same_ptr (p q : option cell) : bool :=
  match p, q with Some c, Some d => cell_eqb c d | _, _ => false end.

Fixpoint distinct_ptrs (l : list conf_reg_map_st) : bool :=
  match l with
  | [] => true
  | r :: l' => forallb (fun q => negb (same_ptr (reg_ptr r) (reg_ptr q))) l' && distinct_ptrs l'
  end.

(** A value accepted for the register is a value of the object's type. *)
Definition range_fits (r : conf_reg_map_st) : bool :=
  match reg_ptr r with
  | Some c => (ity_min (fty (fld c)) <=? min_ r) && (max_ r <=? ity_max (fty (fld c)))
  | None => true
  end.

Lemma conf_reg_map_distinct : distinct_ptrs conf_reg_map_inst = true.
Proof. vm_compute. reflexivity. Qed.
Lemma conf_reg_map_fits : forallb range_fits conf_reg_map_inst = true.
Proof. vm_compute. reflexivity. Qed.
Lemma conf_reg_map_length : List.length conf_reg_map_inst = 435%nat.
Proof. vm_compute. reflexivity. Qed.

Lemma distinct_ptrs_nth l i j d c :
  distinct_ptrs l = true -> (i < j)%nat -> (j < List.length l)%nat ->
  reg_ptr (nth i l d) = Some c -> reg_ptr (nth j l d) <> Some c.
Proof.
  revert i j. induction l as [|r l IH]; intros i j Hd Hij Hj Hi; cbn in Hj; [lia|].
  cbn [distinct_ptrs] in Hd. apply andb_true_iff in Hd as [Hr Hd].
  destruct j as [|j]; [lia|]. destruct i as [|i]; cbn [nth] in *.
  - assert (In (nth j l d) l) as Hin by (apply nth_In; lia).
    rewrite forallb_forall in Hr. specialize (Hr _ Hin). rewrite Hi in Hr. intros Hjc. rewrite Hjc in Hr. cbn in Hr. by rewrite cell_eqb_refl in Hr.
  - apply (IH i j); auto; lia.
Qed.

(** No two registers of the map share an object. *)
Lemma conf_reg_inj i j c :
  0 <= i < CONF_REG_MAP_NUM -> 0 <= j < CONF_REG_MAP_NUM ->
  reg_ptr (conf_reg i) = Some c -> reg_ptr (conf_reg j) = Some c -> i = j.
Proof.
  intros Hi Hj Hic Hjc. unfold conf_reg in *.
  destruct (Z.lt_trichotomy i j) as [H|[H|H]]; [exfalso | done | exfalso].
  - eapply (distinct_ptrs_nth _ (Z.to_nat i) (Z.to_nat j)); eauto using conf_reg_map_distinct; [lia|].
    rewrite conf_reg_map_length. lia.
  - eapply (distinct_ptrs_nth _ (Z.to_nat j) (Z.to_nat i)); eauto using conf_reg_map_distinct; [lia|].
    rewrite conf_reg_map_length. lia.
Qed.

Lemma conf_reg_fits i c v :
  0 <= i < CONF_REG_MAP_NUM -> reg_ptr (conf_reg i) = Some c ->
  min_ (conf_reg i) <= v <= max_ (conf_reg i) -> cast (fty (fld c)) v = v.
Proof.
  intros Hi Hc Hv. pose proof conf_reg_map_fits as H. rewrite forallb_forall in H.
  specialize (H (conf_reg i)). unfold range_fits in H. rewrite Hc in H.
  destruct (proj1 (andb_true_iff _ _) (H ltac:(apply nth_In; rewrite conf_reg_map_length; lia)))
    as [?%Z.leb_le ?%Z.leb_le].
  apply cast_small. lia.
Qed.

(** ** Validation *)

Lemma first_err_none f l : first_err f l = CPAD_ERR_NOERR -> forall i, i ∈ l -> f i = CPAD_ERR_NOERR.
Proof.
  induction l as [|j l IH]; cbn [first_err]; intros H i Hi; [set_solver|].
  destruct (Z.eqb_spec (f j) 0); [|congruence].
  apply elem_of_cons in Hi as [->|Hi]; [done | auto].
Qed.

(** What a write that is accepted satisfied. *)
Definition reg_accepts (w : world) (a : Z) (d : list Z) (u i : Z) : Prop :=
  let r := conf_reg (a + i) in
  let v := nth (Z.to_nat i) d 0 in
  permission r <= (if u =? USER_MODEBUS_SLAVE then 3 else 4) /\ rw r = 1 /\
  min_ r <= v <= max_ r /\
  match chk_ptr r with Some c => @run_check w c v <> 0 | None => True end.

Lemma data_err_none w d a i : @data_err w d a i = CPAD_ERR_NOERR ->
  let r := conf_reg (a + i) in
  let v := nth (Z.to_nat i) d 0 in
  min_ r <= v <= max_ r /\ match chk_ptr r with Some c => @run_check w c v <> 0 | None => True end.
Proof.
  unfold data_err. cbv zeta. intros P3.
  destruct (Z.ltb_spec (max_ (conf_reg (a + i))) (nth (Z.to_nat i) d 0)); [done|].
  destruct (Z.ltb_spec (nth (Z.to_nat i) d 0) (min_ (conf_reg (a + i)))); [done|].
  cbn [orb] in P3. split; [done|]. destruct (chk_ptr _) as [c|]; [|done].
  by destruct (Z.eqb_spec (@run_check w c (nth (Z.to_nat i) d 0)) 0).
Qed.

Lemma reg_map_err_none w a d n u :
  @reg_map_err w a d n u = CPAD_ERR_NOERR ->
  a + n <= CONF_REG_MAP_NUM /\ forall i, 0 <= i < n -> reg_accepts w a d u i.
Proof.
  unfold reg_map_err. case_match eqn:E0; [done|]. apply Z.ltb_ge in E0.
  intros H. split; [lia|]. intros i Hi%elem_of_range.
  set (p := if u =? 1 then 3 else 4) in *.
  destruct (Z.eqb_spec (first_err (perm_err p a) (range n)) 0) as [E1|]; cbn [negb] in H; [|congruence].
  destruct (Z.eqb_spec (first_err (rw_err a) (range n)) 0) as [E2|]; cbn [negb] in H; [|congruence].
  pose proof (first_err_none _ _ E1 i Hi) as P1. pose proof (first_err_none _ _ E2 i Hi) as P2.
  pose proof (first_err_none _ _ H i Hi) as P3.
  unfold perm_err in P1. unfold rw_err in P2. apply data_err_none in P3 as [P3 P4].
  destruct (Z.ltb_spec p (permission (conf_reg (a + i)))); [done|].
  destruct (Z.eqb_spec (rw (conf_reg (a + i))) 1); [|done].
  unfold reg_accepts. fold p. split_and!; auto; tauto.
Qed.

Lemma reg_map_err_accepts w a d n u :
  a + n <= CONF_REG_MAP_NUM -> (forall i, 0 <= i < n -> reg_accepts w a d u i) -> @reg_map_err w a d n u = CPAD_ERR_NOERR.
Proof.
  intros Hle H. unfold reg_map_err. rewrite (proj2 (Z.ltb_ge _ _) Hle).
  assert (forall f, (forall i, 0 <= i < n -> f i = CPAD_ERR_NOERR) -> first_err f (range n) = CPAD_ERR_NOERR) as K.
  { intros f Hf. assert (forall i, i ∈ range n -> f i = CPAD_ERR_NOERR) as Hf' by (intros i ?%elem_of_range; auto). clear Hf.
    induction (range n) as [|i l IH]; [done|]. cbn [first_err]. rewrite Hf' by set_solver. apply IH. set_solver. }
  rewrite !K; [done|..]; intros i Hi; destruct (H i Hi) as (H1 & H2 & H3 & H4).
  - unfold data_err. destruct (Z.ltb_spec (max_ (conf_reg (a + i))) (nth (Z.to_nat i) d 0)); [lia|].
    destruct (Z.ltb_spec (nth (Z.to_nat i) d 0) (min_ (conf_reg (a + i)))); [lia|]. cbn [orb].
    destruct (chk_ptr _) as [c|]; [|done]. by rewrite (proj2 (Z.eqb_neq _ _) H4).
  - unfold rw_err. by rewrite H2.
  - unfold perm_err. by rewrite (proj2 (Z.ltb_ge _ _) H1).
Qed.

(** Why a write is refused: the address is checked first, then for all registers the permission, for all
    that they can be written, and last one register after the other the range and the consistency. *)
Definition refusal (w : world) (a : Z) (d : list Z) (n u e : Z) : Prop :=
  let r i := conf_reg (a + i) in
  let v i := nth (Z.to_nat i) d 0 in
  let permitted i := permission (r i) <= (if u =? USER_MODEBUS_SLAVE then 3 else 4) in
  let in_range i := min_ (r i) <= v i <= max_ (r i) in
  let consistent i := match chk_ptr (r i) with Some c => @run_check w c (v i) <> 0 | None => True end in
  let all (P : Z -> Prop) k := forall i, 0 <= i < k -> P i in
  (CONF_REG_MAP_NUM < a + n /\ e = CPAD_ERR_ADDR_OR) \/
  (a + n <= CONF_REG_MAP_NUM /\ exists i, 0 <= i < n /\
   ((~ permitted i /\ e = CPAD_ERR_PERM_OR) \/
    (all permitted n /\ rw (r i) <> 1 /\ e = CPAD_ERR_WR_OR) \/
    (all permitted n /\ all (fun i => rw (r i) = 1) n /\ all in_range i /\ all consistent i /\
     ((~ in_range i /\ e = CPAD_ERR_DATA_OR) \/ (in_range i /\ ~ consistent i /\ e = CPAD_ERR_CONFLICT_OR))))).

(** The first register a validation loop stops at. *)
Lemma first_err_stops f n : first_err f (range n) <> CPAD_ERR_NOERR ->
  exists i, 0 <= i < n /\ f i = first_err f (range n) /\ forall j, 0 <= j < i -> f j = CPAD_ERR_NOERR.
Proof.
  unfold range. assert (forall k m, first_err f (seqZ k m) <> CPAD_ERR_NOERR ->
    exists i, k <= i < k + m /\ f i = first_err f (seqZ k m) /\ forall j, k <= j < i -> f j = CPAD_ERR_NOERR) as K; [|apply K].
  intros k m. remember (Z.to_nat m) as j eqn:E. revert k m E. induction j as [|j IH]; intros k m E H.
  { rewrite seqZ_nil in H by lia. done. }
  rewrite seqZ_cons in * by lia. cbn [first_err] in *. destruct (Z.eqb_spec (f k) 0) as [E0|E0].
  - destruct (IH (Z.succ k) (Z.pred m)) as (i & Hi & Hf & Hj); [lia|done|]. exists i. split; [lia|]. split; [done|].
    intros l Hl. destruct (decide (l = k)) as [->|]; [done|]. apply Hj. lia.
  - exists k. split; [lia|]. split; [done|]. lia.
Qed.

Lemma reg_map_err_refusal w a d n u :
  @reg_map_err w a d n u <> CPAD_ERR_NOERR -> refusal w a d n u (@reg_map_err w a d n u).
Proof.
  unfold reg_map_err, refusal. destruct (Z.ltb_spec CONF_REG_MAP_NUM (a + n)) as [Ha|Ha]; [by left|]. intros H. right. split; [done|].
  set (p := if u =? 1 then 3 else 4) in *.
  assert (forall i, 0 <= i < n -> i ∈ range n) as R by (intros; by apply elem_of_range).
  assert (forall i, perm_err p a i = CPAD_ERR_NOERR -> permission (conf_reg (a + i)) <= p) as P.
  { intros i. unfold perm_err. by destruct (Z.ltb_spec p (permission (conf_reg (a + i)))). }
  assert (forall i, rw_err a i = CPAD_ERR_NOERR -> rw (conf_reg (a + i)) = 1) as W.
  { intros i. unfold rw_err. by destruct (Z.eqb_spec (rw (conf_reg (a + i))) 1). }
  destruct (Z.eqb_spec (first_err (perm_err p a) (range n)) 0) as [E1|E1]; cbn [negb] in *; cycle 1.
  { destruct (first_err_stops _ _ E1) as (i & Hi & Hf & _). exists i. split; [done|]. left. rewrite <- Hf in *.
    unfold perm_err in *. destruct (Z.ltb_spec p (permission (conf_reg (a + i)))); [|done]. split; [lia|done]. }
  destruct (Z.eqb_spec (first_err (rw_err a) (range n)) 0) as [E2|E2]; cbn [negb] in *; cycle 1.
  { destruct (first_err_stops _ _ E2) as (i & Hi & Hf & _). exists i. split; [done|]. right. left. rewrite <- Hf in *.
    split; [intros j Hj; eapply P, first_err_none, R; done|].
    unfold rw_err in *. by destruct (Z.eqb_spec (rw (conf_reg (a + i))) 1). }
  destruct (first_err_stops _ _ H) as (i & Hi & Hf & Hj). exists i. split; [done|]. right. right. rewrite <- Hf in *. clear Hf.
  split; [intros j ?; eapply P, first_err_none, R; done|]. split; [intros j ?; eapply W, first_err_none, R; done|].
  pose proof (data_err_none w d a) as D. split; [intros j Hlt; apply D, Hj, Hlt|]. split; [intros j Hlt; apply D, Hj, Hlt|].
  clear D Hj. unfold data_err in *. destruct (Z.ltb_spec (max_ (conf_reg (a + i))) (nth (Z.to_nat i) d 0)); [left; split; [lia|done]|].
  destruct (Z.ltb_spec (nth (Z.to_nat i) d 0) (min_ (conf_reg (a + i)))); [left; split; [lia|done]|]. cbn [orb] in *. right.
  destruct (chk_ptr _) as [c|]; [|done]. destruct (Z.eqb_spec (@run_check w c (nth (Z.to_nat i) d 0)) 0); [|done].
  split; [lia|]. split; [tauto|done].
Qed.

(** ** What an accepted write does *)

Definition plain_cell (c : cell) : bool :=
  negb (fin (fld c) [P_ee; P_eventlog; P_chain; P_alarmlog; P_uart] || is_req c).
Definition plain_ptr (r : conf_reg_map_st) : bool :=
  match reg_ptr r with Some c => plain_cell c | None => true end.

Lemma conf_reg_map_plain : forallb plain_ptr conf_reg_map_inst = true.
Proof. vm_compute. reflexivity. Qed.

Lemma conf_reg_plain i c :
  0 <= i < CONF_REG_MAP_NUM -> reg_ptr (conf_reg i) = Some c -> plain_cell c = true.
Proof.
  intros Hi Hc. pose proof conf_reg_map_plain as H. rewrite forallb_forall in H.
  specialize (H (conf_reg i)). unfold plain_ptr in H. rewrite Hc in H.
  apply H, nth_In. rewrite conf_reg_map_length. lia.
Qed.

Lemma keep_plain {X} (out : X -> world) F D k c :
  plain_cell c = true -> resp out (unch F D) k ->
  forallb (fun g => fin g [P_ee; P_eventlog; P_chain; P_alarmlog; P_uart]) F = true ->
  resp out (keep (fun w => w⟪c⟫)) k.
Proof.
  intros Hc Hk HF. apply negb_true_iff, orb_false_iff in Hc as [Hc Hr].
  eapply keep_rd_unch; [exact Hk|]. rewrite Hr, orb_false_r. by eapply fin_sub.
Qed.

(** Reading an object [c] that the loop does not address. *)
Lemma write_loop_keep a d u js c :
  plain_cell c = true -> (forall j, j ∈ js -> reg_ptr (conf_reg (a + j)) <> Some c) ->
  respc (keep (fun w => w⟪c⟫)) (reg_write_loop a d u js).
Proof.
  intros Hc. induction js as [|j js IH]; intros Hj; cbn [reg_write_loop].
  { apply resp_skip; typeclasses eauto. }
  apply resp_let; intros old. apply resp_seq; [typeclasses eauto | |].
  { assert (reg_ptr (conf_reg (a + j)) <> Some c) as Hne by (apply Hj; set_solver).
    destruct (reg_ptr _) as [c'|]; cbn [store]; [|apply resp_skip; typeclasses eauto].
    apply keep_rd_assign. destruct (cell_eqb c' c) eqn:E; [|exact E].
    apply cell_eqb_spec in E as ->. done. }
  case_match; [apply resp_skip; typeclasses eauto|].
  repeat resp_step; try typeclasses eauto.
  - eapply keep_plain; [done | eauto with foot | done].
  - eapply keep_plain; [done | eauto with foot | done].
  - apply IH. intros k Hk. apply Hj. set_solver.
Qed.

Lemma write_loop_stores a d u js w j c :
  (a =? EE_WATER_MODE) || (a =? EE_WATER_FLOW) = false ->
  NoDup js -> (forall k, k ∈ js -> 0 <= a + k < CONF_REG_MAP_NUM) -> j ∈ js ->
  reg_ptr (conf_reg (a + j)) = Some c ->
  (reg_write_loop a d u js w)⟪c⟫ = cast (fty (fld c)) (nth (Z.to_nat j) d 0).
Proof.
  intros Ha. revert w. induction js as [|k js IH]; intros w Hnd Hin Hj Hc; [set_solver|].
  inversion_clear Hnd as [|? ? Hk Hnd'].
  assert (plain_cell c = true) as Hpl by (eapply conf_reg_plain; [|exact Hc]; apply Hin, Hj).
  cbn [reg_write_loop]. unfold letc, seqc. rewrite Ha. cbv iota.
  destruct (decide (j = k)) as [->|Hne].
  - rewrite (keep_rd (reg_write_loop a d u js)).
    2: { apply write_loop_keep; [done|]. intros i Hi Hic. apply Hk.
         assert (a + k = a + i) by (eapply conf_reg_inj; eauto; apply Hin; set_solver).
         by replace k with i by lia. }
    rewrite Hc. cbn [store].
    erewrite (keep_rd (add_eventlog_fifo _ _ _ _)) by (eapply keep_plain; [done | eauto with foot | done]).
    erewrite (keep_rd (runc _))
      by (apply resp_run; eapply keep_plain; [done | eauto with foot | done]).
    apply rd_assign_same.
  - apply IH; [done | set_solver | set_solver | done].
Qed.

(** The water mode and flow registers: only the first of the registers is written. *)
Lemma water_write_loop a d u n w i c :
  (a =? EE_WATER_MODE) || (a =? EE_WATER_FLOW) = true -> 0 <= a -> a + n <= CONF_REG_MAP_NUM -> 0 <= i < n ->
  reg_ptr (conf_reg (a + i)) = Some c ->
  (reg_write_loop a d u (range n) w)⟪c⟫ = if i =? 0 then cast (fty (fld c)) (nth 0 d 0) else w⟪c⟫.
Proof.
  intros Hw Ha Hn Hi Hc. unfold range. rewrite seqZ_cons by lia. cbn [reg_write_loop]. unfold letc, seqc, skip. rewrite Hw. cbv iota.
  destruct (Z.eqb_spec i 0) as [->|Hne]; [rewrite Hc; cbn [store]; apply rd_assign_same|].
  destruct (reg_ptr (conf_reg (a + 0))) as [c0|] eqn:E0; cbn [store]; [|done].
  apply (keep_rd (c0 ::= nth 0 d 0)), keep_rd_assign. destruct (cell_eqb c0 c) eqn:E; [|done].
  apply cell_eqb_spec in E as ->. exfalso. assert (a + i = a + 0); [|lia]. eapply conf_reg_inj; [..|exact Hc|exact E0]; lia.
Qed.

(** C13: validated register writes.  A request is accepted exactly when its registers are in the table
    and each can be written by this user, at all, with this value, consistently with the other
    cold-water temperature.  A refused request changes nothing at all and reports the first check that
    fails ([refusal]).  An accepted one leaves in every named object exactly the value sent, except
    that a request that starts at the water mode or the water flow register stores its first value
    only and leaves the other objects as they were. *)
Theorem reg_map_write_correct w a d n u :
  0 <= a -> 0 <= n < 256 ->
  let (e, w') := reg_map_write a d n u w in
  (e = CPAD_ERR_NOERR <-> a + n <= CONF_REG_MAP_NUM /\ forall i, 0 <= i < n -> reg_accepts w a d u i) /\
  (e <> CPAD_ERR_NOERR -> w' = w /\ refusal w a d n u e) /\
  (e = CPAD_ERR_NOERR -> forall i c, 0 <= i < n -> reg_ptr (conf_reg (a + i)) = Some c ->
     w'⟪c⟫ = if ((a =? EE_WATER_MODE) || (a =? EE_WATER_FLOW)) && negb (i =? 0) then w⟪c⟫ else nth (Z.to_nat i) d 0).
Proof.
  intros Ha Hn. unfold reg_map_write, letc.
  destruct (Z.eqb_spec (@reg_map_err w a d n u) 0) as [E|E]; cbn [negb]; cbv zeta; unfold reta, seqc.
  2: { split_and!; [|intros _; split; [done|by apply reg_map_err_refusal]|done].
       split; [done|]. intros [Hle Hacc]. by apply reg_map_err_accepts. }
  pose proof (reg_map_err_none _ _ _ _ _ E) as [Hle Hacc]. split_and!; [done|done|]. intros _ i c Hi Hc.
  assert (cast (fty (fld c)) (nth (Z.to_nat i) d 0) = nth (Z.to_nat i) d 0) as Hfit.
  { apply (conf_reg_fits (a + i)); [lia | done |]. by destruct (Hacc i Hi) as (_ & _ & H & _). }
  destruct ((a =? EE_WATER_MODE) || (a =? EE_WATER_FLOW)) eqn:Hs; cbn [andb].
  - rewrite (water_write_loop a d u n w i c) by done. destruct (Z.eqb_spec i 0) as [->|]; [exact Hfit|done].
  - etrans; [|exact Hfit]. apply write_loop_stores; [done|apply NoDup_seqZ|intros k ?%elem_of_range; lia|by apply elem_of_range|done].
Qed.

(** Two adjacent registers (start-up and stop delay of the compressor). *)
Lemma reg_map_write_witness :
  (reg_map_write 22 [100; 30] 2 USER_DEFAULT w_zero).1 = CPAD_ERR_NOERR /\
  (reg_map_write 22 [100; 30] 2 USER_DEFAULT w_zero).2⟪compressor_stop_delay⟫ = 30.
Proof.
  pose proof (reg_map_write_correct w_zero 22 [100; 30] 2 USER_DEFAULT ltac:(lia) ltac:(lia)) as H.
  assert ((reg_map_write 22 [100; 30] 2 USER_DEFAULT w_zero).1 = 0) as E by (vm_compute; reflexivity).
  destruct (reg_map_write 22 [100; 30] 2 USER_DEFAULT w_zero) as [e w'].
  destruct H as (_ & _ & H). split; [exact E|].
  apply (H E 1 compressor_stop_delay); [lia|vm_compute; reflexivity].
Defined.

(** ** Registers changed in RAM first

    [reg_map_write] takes the value it removes from the checksum from RAM.  Code that sets
    the object and then calls [RAM_Write_Reg] or [write_reg_map] with the same value
    (Pwp_req_exe, Storage_exe, sys_get_pwr_signal) makes it remove the new value instead of
    the stored one. *)

Lemma write_one w a v :
  @reg_map_err w a [v] 1 USER_DEFAULT = CPAD_ERR_NOERR ->
  (a =? EE_WATER_MODE) || (a =? EE_WATER_FLOW) = false ->
  ee (RAM_Write_Reg a v 1 w).2 =
  ee (eeprom_tripple_write a v (@deref w (reg_ptr (conf_reg a))) (store (reg_ptr (conf_reg a)) v w)).2.
Proof.
  intros He Hs. unfold RAM_Write_Reg, reg_map_write, letc. rewrite He. cbn [negb Z.eqb].
  cbn [range seqZ]. unfold seqc, reta. cbn [snd].
  change (range 1) with [0]. cbn [reg_write_loop]. unfold letc, seqc, runc.
  rewrite Hs, Z.add_0_r. cbv iota. reflexivity.
Qed.

Lemma cw_ee w w' k i : ee w = ee w' -> cw w k i = cw w' k i.
Proof. intros H. unfold cw. rewrite !ee_word_bytes. by rewrite H. Qed.

Lemma lxor_cancel_r a b : a .^ b .^ b = a.
Proof. by rewrite Z.lxor_assoc, Z.lxor_nilpotent, Z.lxor_0_r. Qed.

(** The EEPROM checksum after a register was changed in RAM first.  If the object
    already holds the value [v] being written while the EEPROM holds another one, the write
    stores [v] in the copies but leaves the checksum word as it was, so the checksum no
    longer matches the words of the copy. *)
Theorem ram_first_stale_checksum w a v c :
  copies_agree w -> checksum_ok w 0 -> 0 <= a -> 0 <= v < 65536 ->
  @reg_map_err w a [v] 1 USER_DEFAULT = CPAD_ERR_NOERR ->
  (a =? EE_WATER_MODE) || (a =? EE_WATER_FLOW) = false ->
  reg_ptr (conf_reg a) = Some c -> w⟪c⟫ = v -> cw w 0 a <> v ->
  let w' := (RAM_Write_Reg a v 1 w).2 in
  cw w' 0 a = v /\ ~ checksum_ok w' 0.
Proof.
  intros (H1 & H2 & H0) Hck Ha Hv He Hs Hc Hrd Hne w'.
  destruct (reg_map_err_none w a [v] 1 USER_DEFAULT He) as [Hle _].
  assert (forall i, 0 <= i <= 435 -> cw w' 0 i =
    if i =? 435 then cw w 0 435 else if i =? a then v else cw w 0 i) as Hcw.
  { intros i Hi. rewrite (cw_ee w' _ 0 i (write_one w a v He Hs)), Hc. cbn [deref store].
    rewrite Hrd, (u16_small v), cw_tripple_write by (done || lia). rewrite !(cw_ee (_ w) w) by done.
    by rewrite lxor_cancel_r. }
  rewrite !Hcw by lia. rewrite Z.eqb_refl. split; [by destruct (Z.eqb_spec a 435); [lia|]|].
  unfold checksum_ok, copy_words in *. rewrite Hcw by lia. cbn [Z.eqb Pos.eqb]. rewrite Hck.
  rewrite (xor_words_ext (cw w' 0) (fun i => if i =? a then v else cw w 0 i)).
  2: { intros i Hi. rewrite Hcw by lia. destruct (Z.eqb_spec i 435); [lia | done]. }
  rewrite (xor_words_update (cw w 0) (fun i => if i =? a then v else cw w 0 i) 0 435 a).
  - rewrite Z.eqb_refl. intros E. apply Hne.
    rewrite Z.lxor_assoc, <- (Z.lxor_0_r (xor_words _)) in E at 1.
    apply (f_equal (Z.lxor (xor_words (cw w 0 <$> seqZ 0 435)))) in E.
    rewrite <- !Z.lxor_assoc, Z.lxor_nilpotent, !Z.lxor_0_l in E.
    symmetry in E. by apply Z.lxor_eq in E.
  - lia.
  - intros i Hi. by destruct (Z.eqb_spec i a).
Qed.

(** The end of a storage run: [u16Storage = 0; RAM_Write_Reg(EE_STORAGE, 0, 1)]. *)
Lemma ram_first_stale_checksum_witness :
  let w := stw (copy_addr 0 120) 1 (stw (copy_addr 0 7) 8 ee_sample) in
  copies_agree w /\ checksum_ok w 0 /\ ~ checksum_ok (RAM_Write_Reg EE_STORAGE 0 1 w).2 0.
Proof.
  set (w := stw (copy_addr 0 120) 1 (stw (copy_addr 0 7) 8 ee_sample)).
  assert (copies_agree w) as Ha by (split_and!; vm_compute; congruence).
  assert (checksum_ok w 0) as Hc by (vm_compute; reflexivity).
  split_and!; [exact Ha | exact Hc |].
  apply (ram_first_stale_checksum w EE_STORAGE 0 ComPara_u16Storage Ha Hc); try lia;
    try (vm_compute; reflexivity). vm_compute. congruence.
Defined.
