(* ===== verification/AlarmCalc.v ===== *)
(** * usr/modules/alarm_calc.c: the alarm engine

    Twenty-three alarms, each with a condition ([acl00] .. [acl22]) and a four-state machine
    with debouncing; [alarm_acl_exe] runs every machine once, keeps the alarm bitmap, the
    chain of active alarms and the alarm log in step with it, and then arbitrates which
    outputs the alarms force off.  An [alarm_acl_status_st *] is the index of the alarm in
    [alarm_inst.alarm_sts]. *)

From S2P Require Import Prelude Conf Fifo Machine SysStatus EventRecord.

Abbreviation ACL_ENMODE_DISABLE := 2.
Abbreviation ACL_ENMODE_OTHER := 3.
Abbreviation ACL_ENMODE_AUTO_RESET_ALARM := 4.
Abbreviation ACL_ENMODE_HAND_RESET_ALARM := 0.
Abbreviation ALARM_FSM_INACTIVE := 1.
Abbreviation ALARM_FSM_PREACTIVE := 2.
Abbreviation ALARM_FSM_ACTIVE := 3.
Abbreviation ALARM_FSM_POSTACTIVE := 4.
Abbreviation ALARM_ACL_CLEARED := 0.
Abbreviation ALARM_ACL_TRIGGERED := 1.
Abbreviation ALARM_ACL_HOLD := 2.
Abbreviation CRITICAL := 0.
Abbreviation MIOOR := 2.
Abbreviation DEV_TYPE_OTHER := 0x3c00.
Abbreviation IO_OPEN := 0.
Abbreviation IO_CLOSE := 1.
Abbreviation MAX_LOCK_CNT := 6.

(** ** Configuration and initial state *)

(** A row is [id, enable mask, reset mask, level, device type]. *)
Definition ACL_CONF : list (Z * Z * Z * Z * Z) :=
  let AUTO := ACL_ENMODE_AUTO_RESET_ALARM in let HAND := ACL_ENMODE_HAND_RESET_ALARM in
  [(0, ACL_ENMODE_OTHER, AUTO, CRITICAL, DEV_TYPE_OTHER);
   (1, ACL_ENMODE_OTHER, AUTO, CRITICAL, DEV_TYPE_OTHER);
   (2, ACL_ENMODE_OTHER, AUTO, CRITICAL, DEV_TYPE_OTHER);
   (3, ACL_ENMODE_OTHER, AUTO, CRITICAL, DEV_TYPE_OTHER);
   (4, ACL_ENMODE_OTHER, AUTO, CRITICAL, DEV_TYPE_OTHER);
   (5, ACL_ENMODE_OTHER, AUTO, CRITICAL, DEV_TYPE_OTHER);
   (6, ACL_ENMODE_OTHER, AUTO, CRITICAL, DEV_TYPE_OTHER);
   (7, ACL_ENMODE_OTHER, AUTO, CRITICAL, DEV_TYPE_OTHER);
   (8, ACL_ENMODE_OTHER, AUTO, CRITICAL, DEV_TYPE_OTHER);
   (9, ACL_ENMODE_OTHER, HAND, CRITICAL, DEV_TYPE_OTHER);
   (10, ACL_ENMODE_OTHER, HAND, CRITICAL, DEV_TYPE_OTHER);
   (11, ACL_ENMODE_OTHER, AUTO, CRITICAL, DEV_TYPE_OTHER);
   (12, ACL_ENMODE_OTHER, HAND, CRITICAL, DEV_TYPE_OTHER);
   (13, ACL_ENMODE_OTHER, AUTO, MIOOR, DEV_TYPE_OTHER);
   (14, ACL_ENMODE_OTHER, AUTO, MIOOR, DEV_TYPE_OTHER);
   (15, ACL_ENMODE_OTHER, AUTO, MIOOR, DEV_TYPE_OTHER);
   (16, ACL_ENMODE_OTHER, AUTO, MIOOR, DEV_TYPE_OTHER);
   (17, ACL_ENMODE_OTHER, AUTO, MIOOR, DEV_TYPE_OTHER);
   (18, ACL_ENMODE_OTHER, AUTO, MIOOR, DEV_TYPE_OTHER);
   (19, ACL_ENMODE_OTHER, AUTO, MIOOR, DEV_TYPE_OTHER);
   (20, ACL_ENMODE_OTHER, AUTO, CRITICAL, DEV_TYPE_OTHER);
   (21, ACL_ENMODE_OTHER, AUTO, CRITICAL, DEV_TYPE_OTHER);
   (22, ACL_ENMODE_OTHER, AUTO, CRITICAL, DEV_TYPE_OTHER)].

Definition acl_conf (i : Z) : Z * Z * Z * Z * Z := nth (Z.to_nat i) ACL_CONF (0, 0, 0, 0, 0).

Definition init_alarm : cmd :=
  FOR i IN range ACL_TOTAL_NUM DO
    let '(cid, en, rst, lvl, dev) := acl_conf i in
    acl_timeout.[i] ::= 0;;
    acl_state.[i] ::= ALARM_FSM_INACTIVE;;
    acl_id.[i] ::= cid;;
    acl_enable_mask.[i] ::= en;;
    acl_reset_mask.[i] ::= rst;;
    acl_alarm_level.[i] ::= lvl;;
    acl_dev_type.[i] ::= dev;;
    acl_alram_value.[i] ::= 0xffff
  END;;
  FOR i IN range MAX_LOCK_CNT DO
    lock_last_state.[i] ::= ALARM_FSM_INACTIVE;;
    lock_flag.[i] ::= 0;;
    lock_time.[i, 0] ::= 0xffffffff;;
    lock_time.[i, 1] ::= 0xffffffff;;
    lock_time.[i, 2] ::= 0xffffffff
  END;;
  cycle_flag.[0] ::= 0;;
  cycle_flag.[1] ::= 0;;
  cycle_compress_state.[0] ::= COMPRESSOR_FSM_STATE_IDLE;;
  cycle_compress_state.[1] ::= COMPRESSOR_FSM_STATE_IDLE;;
  FOR i IN range 10 DO
    cycle_start_time.[0, i] ::= 0xffffffff;;
    cycle_start_time.[1, i] ::= 0xffffffff
  END;;
  compress_high_flag.[0] ::= 0;;
  compress_high_flag.[1] ::= 0;;
  alarm_fan_timer ::= 0;;
  alarm_compressor1_timer ::= 0;;
  alarm_compressor2_timer ::= 0.

Definition alarm_acl_init : cmd :=
  chain_init;;
  init_alarm;;
  FOR i IN range ALARM_TOTAL_WORD DO general_alarm_remove_bitmap.[i] ::= 0 END.

(** ** Clearing requests *)

Definition clear_alarm : act Z :=
  FOR i IN range ALARM_TOTAL_WORD DO general_alarm_remove_bitmap.[i] ::= 0xffff END;;
  RETURN 1.

Definition get_alarm_remove_bitmap {w : cur} (id : Z) : Z :=
  if id <? ACL_TOTAL_NUM then
    if nz (get_bit «general_alarm_remove_bitmap.[byte_offset id]» (bit_offset id)) then 1 else 0
  else 0.

Definition clear_alarm_remove_bitmap (id : Z) : cmd :=
  if id <? ACL_TOTAL_NUM then
    let c := general_alarm_remove_bitmap.[byte_offset id] in c ::= clr_bit «c» (bit_offset id)
  else skip.

Definition acl_clear (p : Z) : act Z :=
  LET i := u8 «acl_id.[p]» IN
  IF (get_alarm_remove_bitmap i =? 1) && (ALARM_FSM_PREACTIVE <? «acl_state.[p]») THEN
    acl_state.[p] ::= ALARM_FSM_POSTACTIVE;;
    acl_timeout.[p] ::= 0;;
    clear_alarm_remove_bitmap i;;
    RETURN 1
  ELSE
    clear_alarm_remove_bitmap i;;
    RETURN 0
  END.

(** ** Alarm bitmap *)

Definition get_alarm_bitmap {w : cur} (id : Z) : Z :=
  if nz (get_bit «status_alarm_bitmap.[byte_offset id]» (bit_offset id)) then 1 else 0.

Definition alarm_status_bitmap_op (id option : Z) : cmd :=
  let c := status_alarm_bitmap.[byte_offset id] in
  if option =? 1 then c ::= set_bit «c» (bit_offset id) else c ::= clr_bit «c» (bit_offset id).

Definition alarm_Off {w : cur} : Z :=
  if nz (get_alarm_bitmap ACL_WATER_LEAK) || nz (get_alarm_bitmap ACL_SYS01_EXHAUST_HI) ||
     nz (get_alarm_bitmap ACL_SYS01_EXHAUST_HI_LOCK) then TRUE else FALSE.

Definition get_alarm_bitmap_op {w : cur} (bpos : Z) : Z :=
  if nz (get_bit «l_bitmap.[byte_offset bpos, BITMAP_ALARM]» (bit_offset bpos)) then 1 else 0.
Definition get_alarm_bitmap_mask {w : cur} (bpos : Z) : Z :=
  if nz (get_bit «l_bitmap.[byte_offset bpos, BITMAP_MASK]» (bit_offset bpos)) then 1 else 0.
Definition alarm_bitmap_op (bpos action : Z) : cmd := bitmap_op BITMAP_ALARM bpos action.
Definition alarm_bitmap_mask_op (bpos action : Z) : cmd := bitmap_op BITMAP_MASK bpos action.

(** ** Comparisons *)

Inductive Compare_type_st : Type := SML_MIN_TYPE | THR_MAX_TYPE | OUT_MIN_MAX_TYPE | IN_MIN_MAX_TYPE.

Definition io_calc (data refer : Z) : Z := if data =? refer then 1 else 0.

(** Arguments are [int16_t]. *)
Definition compare_calc (meter mn mx : Z) (type : Compare_type_st) : Z :=
  let meter := s16 meter in let mn := s16 mn in let mx := s16 mx in
  match type with
  | THR_MAX_TYPE => if mx <? meter then 1 else 0
  | SML_MIN_TYPE => if meter <? mn then 1 else 0
  | IN_MIN_MAX_TYPE => if (mn <? meter) && (meter <? mx) then 1 else 0
  | OUT_MIN_MAX_TYPE => if (meter <? mn) || (mx <? meter) then 1 else 0
  end.

(** ** The alarm conditions *)

(** A condition that first honours a clearing request. *)
Definition unless_cleared_do (p : Z) (onclear : cmd) (body : act Z) : act Z :=
  CALL c := acl_clear p IN
  if nz c then onclear;; RETURN ALARM_ACL_CLEARED else body.
Definition unless_cleared (p : Z) (body : act Z) : act Z := unless_cleared_do p skip body.

Definition acl00 (p : Z) : act Z := unless_cleared p (
  IF sys_get_remap_status WORK_MODE_STS_REG_NO OUTWATER_STS_BPOS =? TRUE THEN
    IF «ComSta_u16Cur_Water» <? 3 THEN acl00_u8Delay .++ ELSE acl00_u8Delay ::= 0 END
  ELSE acl00_u8Delay ::= 0 END;;
  RETURN (if 3 <? «acl00_u8Delay» then 1 else 0)).

Definition acl01 (p : Z) : act Z := unless_cleared p (
  CALL u16WL := Get_Water_level IN RETURN (if nz (u16WL .& D_U) then 1 else 0)).

Definition acl02 (p : Z) : act Z := unless_cleared p (
  CALL u16WL := Get_Water_level IN RETURN (if nz (u16WL .& S_U) then 1 else 0)).

(** The level switches contradict each other: one is reached and one below it is not. *)
Definition level_fault {w : cur} (u16WL : Z) : Z :=
  let on m := nz (u16WL .& m) in
  if nz («dev_mask_din.[0]» .& D_ML) then
    if on D_U && (negb (on D_M) || negb (on D_ML) || negb (on D_L)) then 1
    else if on D_M && (negb (on D_ML) || negb (on D_L)) then 2
    else if on D_ML && negb (on D_L) then 4
    else if on S_U && (negb (on S_M) || negb (on S_L)) then 8
    else if on S_M && negb (on S_L) then 0x10
    else if «ComSta_u16Ain.[AI_NTC4]» =? ABNORMAL_VALUE then 0x40
    else 0
  else
    if on D_U && (negb (on D_M) || negb (on D_L)) then 0x100
    else if on D_M && negb (on D_L) then 0x200
    else if on S_U && (negb (on S_M) || negb (on S_L)) then 0x400
    else if on S_M && negb (on S_L) then 0x800
    else 0.

Definition acl03 (p : Z) : act Z := unless_cleared p (
  CALL u16WL := Get_Water_level IN
  RETURN (if nz (level_fault u16WL) then ALARM_ACL_TRIGGERED else ALARM_ACL_CLEARED)).

Definition acl04 (p : Z) : act Z := unless_cleared p (
  RETURN (io_calc (sys_get_di_sts DI_OPEN_BPOS) IO_OPEN)).

Definition acl05 (p : Z) : act Z :=
  unless_cleared_do p (status_Alarm_COM_NTC_BIT.[ALARM_COM] ::= 0) (
    let u16mb_comp := 1 in
    CALL req := (IF negb («status_status_remap.[MBM_COM_STS_REG_NO]» =? u16mb_comp) THEN
                   status_Alarm_COM_NTC_BIT.[ALARM_COM] ::=
                     «status_status_remap.[MBM_COM_STS_REG_NO]» .^ u16mb_comp;;
                   RETURN 1
                 ELSE
                   status_Alarm_COM_NTC_BIT.[ALARM_COM] ::= 0;;
                   RETURN 0
                 END) IN
    acl_alram_value.[p] ::= «status_status_remap.[MBM_COM_STS_REG_NO]»;;
    RETURN req).

(** One temperature sensor: the status bit written and the value of [req] added.  The
    source tests sensor [ch] and writes the bit of sensor [bit] with [action]. *)
Definition ntc_check (ch bit action flag : Z) : act Z :=
  IF nz («dev_mask_ain» .& (1 .<< ch)) THEN
    IF nz (compare_calc «ComSta_u16Ain.[ch]» (-280) 1400 OUT_MIN_MAX_TYPE) THEN
      sys_set_remap_status SENSOR_STS_REG_NO bit action;;
      RETURN flag
    ELSE
      sys_set_remap_status SENSOR_STS_REG_NO bit 0;;
      RETURN 0
    END
  ELSE RETURN 0 END.

Definition acl06 (p : Z) : act Z := unless_cleared p (
  CALL r1 := ntc_check AI_NTC1 AI_NTC1 1 1 IN
  CALL r2 := ntc_check AI_NTC2 AI_NTC1 2 2 IN
  CALL r3 := ntc_check AI_NTC3 AI_NTC3 1 4 IN
  CALL r4 := ntc_check AI_NTC4 AI_NTC4 1 8 IN
  let req := r1 .| r2 .| r3 .| r4 in
  acl_alram_value.[p] ::= «status_status_remap.[SENSOR_STS_REG_NO]»;;
  let req := if nz req then 1 else 0 in
  RETURN (if nz («dev_mask_ain» .& 0x8000) then 0 else req)).

Definition acl07 (p : Z) : act Z := unless_cleared p (
  IF sys_get_pwr_sts =? 0 THEN RETURN ALARM_ACL_CLEARED
  ELSE IF sys_get_do_sts DO_FAN_BPOS =? 0 THEN RETURN ALARM_ACL_HOLD
  ELSE RETURN (io_calc (sys_get_di_sts DI_FAN01_OD_BPOS) IO_CLOSE) END END).

Definition acl08 (p : Z) : act Z := unless_cleared p (
  LET run_time := «ComSta_u16Runtime.[1, DO_UV1_BPOS]» IN
  LET mx := «alarm_alarm_param.[ACL_UV1_OT]» IN
  LET i := «acl_id.[p]» IN
  acl_alram_value.[i] ::= run_time;;
  RETURN (compare_calc run_time 0 mx THR_MAX_TYPE)).

Definition acl09 (p : Z) : act Z := unless_cleared p (
  IF «l_Pwp_Open» =? FALSE THEN RETURN ALARM_ACL_CLEARED
  ELSE RETURN (if «alarm_alarm_param.[ACL_E9]» <=? «l_Pwp_Open_Time» then 1 else 0) END).

Definition acl10 (p : Z) : act Z := unless_cleared p (
  RETURN (io_calc (sys_get_di_sts DI_WATER_LEAK_BPOS) IO_CLOSE)).

(** The entry of [alarm_lock] used by the exhaust temperature. *)
Abbreviation EXHAUST_LOCK := 4.

Definition acl11_body (Exhaust_Temp p : Z) : act Z :=
  IF Exhaust_Temp =? ABNORMAL_VALUE THEN RETURN ALARM_ACL_CLEARED
  ELSE
    LET param := «alarm_alarm_param.[ACL_E11]» IN
    let data := if param <? Exhaust_Temp then ALARM_ACL_TRIGGERED
                else if param - 50 <? Exhaust_Temp then ALARM_ACL_HOLD
                else ALARM_ACL_CLEARED in
    IF negb («lock_last_state.[EXHAUST_LOCK]» =? «acl_state.[p]») THEN
      IF («lock_last_state.[EXHAUST_LOCK]» =? ALARM_FSM_PREACTIVE) &&
         («acl_state.[p]» =? ALARM_FSM_ACTIVE) THEN
        lock_time.[EXHAUST_LOCK, 0] ::= «lock_time.[EXHAUST_LOCK, 1]»;;
        lock_time.[EXHAUST_LOCK, 1] ::= «lock_time.[EXHAUST_LOCK, 2]»;;
        lock_time.[EXHAUST_LOCK, 2] ::= «rt_tick»
      END;;
      lock_last_state.[EXHAUST_LOCK] ::= «acl_state.[p]»
    END;;
    RETURN data
  END.

Definition acl11 (p : Z) : act Z :=
  LET Exhaust_Temp := s16 «ComSta_u16Ain.[AI_NTC3]» IN
  unless_cleared p (acl11_body Exhaust_Temp p).

Definition alarm_lock (id : Z) : act Z :=
  if id =? ACL_SYS01_EXHAUST_HI_LOCK then
    let index := EXHAUST_LOCK in
    IF get_alarm_remove_bitmap id =? 1 THEN
      lock_time.[index, 0] ::= 0xffffffff;;
      lock_time.[index, 1] ::= 0xffffffff;;
      lock_time.[index, 2] ::= 0xffffffff;;
      lock_flag.[index] ::= 0
    END;;
    IF nz «lock_flag.[index]» THEN RETURN ALARM_ACL_TRIGGERED
    ELSE IF negb («lock_time.[index, 0]» =? 0xffffffff) THEN
      IF «lock_time.[index, 2]» <? «lock_time.[index, 0]» THEN
        LET u64Over_lock_time := «lock_time.[index, 2]» .| 0xffffffff IN
        IF u64Over_lock_time - «lock_time.[index, 0]» <=? 3600 * RT_MS THEN
          lock_flag.[index] ::= 1;; RETURN ALARM_ACL_TRIGGERED
        ELSE RETURN ALARM_ACL_CLEARED END
      ELSE
        IF «lock_time.[index, 2]» - «lock_time.[index, 0]» <=? 3600 * RT_MS THEN
          lock_flag.[index] ::= 1;; RETURN ALARM_ACL_TRIGGERED
        ELSE RETURN ALARM_ACL_CLEARED END
      END
    ELSE RETURN ALARM_ACL_CLEARED END END
  else RETURN ALARM_ACL_CLEARED.

Definition acl12 (p : Z) : act Z :=
  CALL req := alarm_lock ACL_SYS01_EXHAUST_HI_LOCK IN
  unless_cleared p (RETURN req).

(** The body shared by the filter life alarms [acl13] .. [acl16]. *)
Definition life_alarm (counter param p : Z) : act Z := unless_cleared p (
  LET run_time := «ComSta_u16Runtime.[1, counter]» IN
  LET mx := «alarm_alarm_param.[param]» IN
  LET i := «acl_id.[p]» IN
  acl_alram_value.[i] ::= run_time;;
  RETURN (if mx <=? run_time then 1 else 0)).

Definition acl13 := life_alarm DO_FILLTER_DUMMY_BPOS ACL_FILTER_OT.
Definition acl14 := life_alarm DO_FILLTER_ELEMENT_DUMMY_BPOS_0 ACL_FILTER_ELEMENT_0_OT.
Definition acl15 := life_alarm DO_FILLTER_ELEMENT_DUMMY_BPOS_1 ACL_FILTER_ELEMENT_1_OT.
Definition acl16 := life_alarm DO_FILLTER_ELEMENT_DUMMY_BPOS_2 ACL_FILTER_ELEMENT_2_OT.
Definition acl17 (p : Z) : act Z := RETURN ALARM_ACL_CLEARED.
Definition acl18 (p : Z) : act Z := RETURN ALARM_ACL_CLEARED.
Definition acl19 (p : Z) : act Z := RETURN ALARM_ACL_CLEARED.

Definition acl20 (p : Z) : act Z := unless_cleared p (
  RETURN (if nz «l_u8RSInteral_Neterr» then ALARM_ACL_TRIGGERED else ALARM_ACL_CLEARED)).

Definition acl21 (p : Z) : act Z := unless_cleared p (
  RETURN (io_calc (sys_get_di_sts DI_HI_PRESS1_BPOS) IO_CLOSE)).

Definition acl22 (p : Z) : act Z := RETURN ALARM_ACL_CLEARED.

(** The table of conditions. *)
Definition acl (i : Z) : Z -> act Z :=
  nth (Z.to_nat i)
    [acl00; acl01; acl02; acl03; acl04; acl05; acl06; acl07; acl08; acl09; acl10; acl11;
     acl12; acl13; acl14; acl15; acl16; acl17; acl18; acl19; acl20; acl21; acl22] acl22.

(** ** The alarm state machine *)

Definition Alarm_acl_delay {w : cur} (ACL_Num : Z) : Z :=
  if zin ACL_Num [ACL_E0; ACL_E1; ACL_E2; ACL_E3; ACL_E5; ACL_E6; ACL_E8; ACL_E9; ACL_E11; ACL_E12]
  then 5
  else if zin ACL_Num [ACL_E4; ACL_FAN01_OD; ACL_HI_PRESS1] then 3
  else if zin ACL_Num [ACL_WATER_LEAK; ACL_FILTER_OT; ACL_FILTER_ELEMENT_0_OT;
    ACL_FILTER_ELEMENT_1_OT; ACL_FILTER_ELEMENT_2_OT; ACL_FILTER_ELEMENT_3_OT;
    ACL_FILTER_ELEMENT_4_OT] then 10
  else if ACL_Num =? ACL_RS_NETERR then u16 ((«Platform_Restart_Delay» .& 0xFF) * 60 * 2)
  else 5.

(** [(enable_mode & enable_mask) == ACL_ENMODE_DISABLE]. *)
Definition acl_disabled {w : cur} (i : Z) : bool :=
  («alarm_enable_mode.[i]» .& «acl_enable_mask.[i]») =? ACL_ENMODE_DISABLE.

Definition log_id {w : cur} (i : Z) : Z :=
  u16 («acl_id.[i]» .| («acl_alarm_level.[i]» .<< 8) .| «acl_dev_type.[i]»).

Definition acl_inactive (i trig : Z) : cmd :=
  if trig =? ALARM_ACL_TRIGGERED then
    LET d := Alarm_acl_delay i IN
    acl_timeout.[i] ::= d;;
    acl_state.[i] ::= ALARM_FSM_PREACTIVE
  else if trig =? ALARM_ACL_HOLD then acl_state.[i] ::= ALARM_FSM_INACTIVE
  else skip.

(** The alarm becomes active: log, bitmap, chain. *)
Definition acl_raise (i lid : Z) : cmd :=
  acl_state.[i] ::= ALARM_FSM_ACTIVE;;
  LET v := «acl_alram_value.[i]» IN
  add_alarmlog_fifo lid ALARM_TRIGER v;;
  LET n := «acl_id.[i]» .& 0xff IN
  alarm_status_bitmap_op n 1;;
  RUN (node_append lid v).

Definition acl_preactive (i trig lid : Z) : cmd :=
  IF acl_disabled i THEN acl_state.[i] ::= ALARM_FSM_INACTIVE
  ELSE
    if trig =? ALARM_ACL_TRIGGERED then
      IF 0 <? «acl_timeout.[i]» THEN
        acl_timeout.[i] .--;;
        acl_state.[i] ::= ALARM_FSM_PREACTIVE
      ELSE acl_raise i lid END
    else if trig =? ALARM_ACL_HOLD then skip
    else
      acl_timeout.[i] ::= 0;;
      acl_state.[i] ::= ALARM_FSM_INACTIVE
  END.

Definition acl_active (i trig : Z) : cmd :=
  IF acl_disabled i THEN
    acl_timeout.[i] ::= 0;;
    acl_state.[i] ::= ALARM_FSM_POSTACTIVE
  ELSE
    if trig =? ALARM_ACL_TRIGGERED then
      acl_timeout.[i] ::= 0;;
      acl_state.[i] ::= ALARM_FSM_ACTIVE
    else if trig =? ALARM_ACL_CLEARED then
      IF («alarm_enable_mode.[i]» .& «acl_reset_mask.[i]») =? ACL_ENMODE_AUTO_RESET_ALARM THEN
        LET d := Alarm_acl_delay i IN
        acl_timeout.[i] ::= d;;
        acl_state.[i] ::= ALARM_FSM_POSTACTIVE
      ELSE acl_state.[i] ::= ALARM_FSM_ACTIVE END
    else skip
  END.

(** The alarm ends: log, bitmap, chain. *)
Definition acl_drop (i lid : Z) : cmd :=
  LET v := «acl_alram_value.[i]» IN
  add_alarmlog_fifo lid ALARM_END v;;
  alarm_status_bitmap_op i 0;;
  RUN (node_delete lid);;
  acl_state.[i] ::= ALARM_FSM_INACTIVE.

Definition acl_postactive (i trig lid : Z) : cmd :=
  IF acl_disabled i THEN
    LET v := «acl_alram_value.[i]» IN
    add_alarmlog_fifo lid ALARM_END v;;
    RUN (node_delete lid);;
    LET n := «acl_id.[i]» .& 0xff IN
    alarm_status_bitmap_op n 0;;
    acl_state.[i] ::= ALARM_FSM_INACTIVE;;
    acl_timeout.[i] ::= 0
  ELSE
    if trig =? ALARM_ACL_CLEARED then
      IF 0 <? «acl_timeout.[i]» THEN
        acl_timeout.[i] .--;;
        acl_state.[i] ::= ALARM_FSM_POSTACTIVE
      ELSE acl_drop i lid END
    else if trig =? ALARM_ACL_TRIGGERED then
      acl_timeout.[i] ::= 0;;
      acl_state.[i] ::= ALARM_FSM_ACTIVE
    else skip
  END.

(** The [switch] on the state. *)
Definition acl_switch (i trig lid c_state : Z) : cmd :=
  match c_state with
  | ALARM_FSM_INACTIVE => acl_inactive i trig
  | ALARM_FSM_PREACTIVE => acl_preactive i trig lid
  | ALARM_FSM_ACTIVE => acl_active i trig
  | ALARM_FSM_POSTACTIVE => acl_postactive i trig lid
  | _ => acl_state.[i] ::= ALARM_FSM_INACTIVE
  end.

(** The body of the loop over the alarms. *)
Definition acl_step (i : Z) : cmd :=
  alarm_enable_mode.[i] ::= ACL_ENMODE_AUTO_RESET_ALARM;;
  IF acl_disabled i && («acl_state.[i]» =? ALARM_FSM_INACTIVE) THEN skip
  ELSE
    CALL trig := acl i i IN
    LET c_state := «acl_state.[i]» IN
    LET lid := log_id i IN
    acl_switch i trig lid c_state
  END.

(** Two of the compressors' alarm inputs are compiled out: [compress2_alarm] stays 0. *)
Definition alarm_arbiration : cmd :=
  LET compress1_alarm := nz (get_alarm_bitmap ACL_HI_PRESS1) IN
  let compress2_alarm := false in
  LET close_dev := nz (get_alarm_bitmap ACL_E7) || nz (get_alarm_bitmap ACL_E9) IN
  (if close_dev || compress1_alarm then
     alarm_bitmap_op DO_COMP1_BPOS 0;; alarm_bitmap_mask_op DO_COMP1_BPOS 1
   else alarm_bitmap_op DO_COMP1_BPOS 1;; alarm_bitmap_mask_op DO_COMP1_BPOS 0);;
  (if close_dev || compress2_alarm then
     alarm_bitmap_op DO_COMP2_BPOS 0;; alarm_bitmap_mask_op DO_COMP2_BPOS 1
   else alarm_bitmap_op DO_COMP2_BPOS 1;; alarm_bitmap_mask_op DO_COMP2_BPOS 0);;
  (if close_dev then
     alarm_bitmap_op DO_FAN_BPOS 0;; alarm_bitmap_mask_op DO_FAN_BPOS 1
   else alarm_bitmap_op DO_FAN_BPOS 1;; alarm_bitmap_mask_op DO_FAN_BPOS 0).

(** One pass over all alarms, on every second call. *)
Definition alarm_pass : cmd :=
  FOR i IN range ACL_TOTAL_NUM DO acl_step i END;;
  ComSta_u16Alarm_bitmap.[0] ::= «status_alarm_bitmap.[0]»;;
  ComSta_u16Alarm_bitmap.[1] ::= «status_alarm_bitmap.[1]»;;
  alarm_arbiration.

Definition alarm_acl_exe : cmd :=
  alarm_acl_exe_u8CNT .++;;
  IF 0xFF <=? «alarm_acl_exe_u8CNT» THEN alarm_acl_exe_u8CNT ::= 0 END;;
  IF «alarm_acl_exe_u8CNT» mod 2 =? 0 THEN alarm_pass END.

(** ** Footprints *)

Definition acl_fields : list field :=
  [acl_state; acl_timeout; acl_alram_value; general_alarm_remove_bitmap; acl00_u8Delay;
   ComSta_u16WL; status_Alarm_COM_NTC_BIT; ComSta_u16Status_remap; lock_time; lock_flag;
   lock_last_state].

Lemma clear_alarm_remove_bitmap_foot i :
  respc (unch [general_alarm_remove_bitmap] []) (clear_alarm_remove_bitmap i).
Proof. unfold clear_alarm_remove_bitmap. footprint. Qed.
#[export] Hint Resolve clear_alarm_remove_bitmap_foot : foot.
Lemma acl_clear_foot p :
  respa (unch [acl_state; acl_timeout; general_alarm_remove_bitmap] []) (acl_clear p).
Proof. unfold acl_clear. footprint. Qed.
#[export] Hint Resolve acl_clear_foot : foot.
Lemma ntc_check_foot a b c d : respa (unch [ComSta_u16Status_remap] []) (ntc_check a b c d).
Proof. unfold ntc_check. footprint. Qed.
Lemma alarm_lock_foot i : respa (unch [lock_time; lock_flag] []) (alarm_lock i).
Proof. unfold alarm_lock. footprint. Qed.
Lemma alarm_status_bitmap_op_foot i o :
  respc (unch [status_alarm_bitmap] []) (alarm_status_bitmap_op i o).
Proof. unfold alarm_status_bitmap_op. footprint. Qed.
Lemma alarm_arbiration_foot : respc (unch [l_bitmap] []) alarm_arbiration.
Proof. unfold alarm_arbiration, alarm_bitmap_op, alarm_bitmap_mask_op. footprint. Qed.
#[export] Hint Resolve ntc_check_foot alarm_lock_foot alarm_status_bitmap_op_foot
  alarm_arbiration_foot : foot.

(** The conditions [acl00] .. [acl22] in one place, for case analysis on the alarm. *)
Lemma acl_cases (P : (Z -> act Z) -> Prop) i :
  Forall P [acl00; acl01; acl02; acl03; acl04; acl05; acl06; acl07; acl08; acl09; acl10; acl11;
     acl12; acl13; acl14; acl15; acl16; acl17; acl18; acl19; acl20; acl21; acl22] -> P acl22 ->
  P (acl i).
Proof.
  intros HF Hd. unfold acl. rewrite List.Forall_forall in HF.
  destruct (nth_in_or_default (Z.to_nat i) [acl00; acl01; acl02; acl03; acl04; acl05; acl06; acl07;
    acl08; acl09; acl10; acl11; acl12; acl13; acl14; acl15; acl16; acl17; acl18; acl19; acl20;
    acl21; acl22] acl22) as [H|H]; [by apply HF | by rewrite H].
Qed.

Ltac unfold_acls :=
  unfold acl00, acl01, acl02, acl03, acl04, acl05, acl06, acl07, acl08, acl09, acl10, acl11, acl11_body, acl12,
    acl13, acl14, acl15, acl16, acl17, acl18, acl19, acl20, acl21, acl22, life_alarm,
    unless_cleared, unless_cleared_do.

Lemma acl_foot i p : respa (unch acl_fields []) (acl i p).
Proof.
  apply (acl_cases (fun f => respa (unch acl_fields []) (f p))).
  - repeat first [apply Forall_nil_2 | apply Forall_cons_2]; unfold_acls; footprint.
  - unfold_acls; footprint.
Qed.
#[export] Hint Resolve acl_foot : foot.

(** ** Conditions and clearing requests *)

(** A clearing request for the alarm is pending and the alarm is active. *)
Definition clears (w : world) (p : Z) : bool :=
  (@get_alarm_remove_bitmap w (u8 (w⟪acl_id.[p]⟫)) =? 1) &&
  (ALARM_FSM_PREACTIVE <? w⟪acl_state.[p]⟫).

Lemma acl_clear_ret p w : (acl_clear p w).1 = if clears w p then 1 else 0.
Proof. unfold acl_clear, clears, letc, cif. by case_match. Qed.

Lemma acl_clear_state p w j :
  (acl_clear p w).2⟪acl_state.[j]⟫ =
    (if clears w p && (j =? p) then ALARM_FSM_POSTACTIVE else w⟪acl_state.[j]⟫) /\
  (acl_clear p w).2⟪acl_timeout.[j]⟫ =
    (if clears w p && (j =? p) then 0 else w⟪acl_timeout.[j]⟫).
Proof.
  unfold acl_clear, clears, letc, cif. case_match; unfold seqc, reta; cbn [snd andb]; [|split; by obs].
  destruct (Z.eqb_spec j p) as [->|Hne]; split; obs; done.
Qed.

(** Running a condition: a pending request ([h] tells whether the condition honours them)
    moves the alarm to POSTACTIVE with no delay and answers CLEARED; otherwise no alarm
    changes state. *)
Definition acl_obeys (h : bool) (f : Z -> act Z) : Prop := forall p w,
  (h && clears w p = true -> (f p w).1 = ALARM_ACL_CLEARED) /\
  forall j,
    (f p w).2⟪acl_state.[j]⟫ =
      (if h && clears w p && (j =? p) then ALARM_FSM_POSTACTIVE else w⟪acl_state.[j]⟫) /\
    (f p w).2⟪acl_timeout.[j]⟫ = (if h && clears w p && (j =? p) then 0 else w⟪acl_timeout.[j]⟫).

Lemma unless_cleared_obeys (g : Z -> cmd) (f : Z -> act Z) :
  (forall p j, respc (keep (fun w => w⟪acl_state.[j]⟫)) (g p)) ->
  (forall p j, respc (keep (fun w => w⟪acl_timeout.[j]⟫)) (g p)) ->
  (forall p j, respa (keep (fun w => w⟪acl_state.[j]⟫)) (f p)) ->
  (forall p j, respa (keep (fun w => w⟪acl_timeout.[j]⟫)) (f p)) ->
  acl_obeys true (fun p => unless_cleared_do p (g p) (f p)).
Proof.
  intros Hg1 Hg2 Hf1 Hf2 p w. unfold unless_cleared_do, bindc. rewrite acl_clear_ret. cbn [andb].
  pose proof (acl_clear_state p w) as Hs.
  destruct (clears w p); cbn [nz Z.eqb negb]; unfold seqc, reta; cbn [fst snd]; (split; [done|]);
    intros j; destruct (Hs j) as [Hs1 Hs2]; rewrite <- Hs1, <- Hs2.
  - split; [apply Hg1 | apply Hg2].
  - split; [apply Hf1 | apply Hf2].
Qed.

Definition honours (i : Z) : bool := negb (zin i [17; 18; 19; 22]).

Lemma acl_obeys_quiet : acl_obeys false (fun _ => RETURN ALARM_ACL_CLEARED).
Proof. intros p w. split; [done|]. intros j. by split. Qed.

Lemma acl11_obeys : acl_obeys true acl11.
Proof.
  intros p w. apply (unless_cleared_obeys (fun _ => skip) (acl11_body _)); intros;
    unfold acl11_body; keep_tac.
Qed.

Lemma acl12_obeys : acl_obeys true acl12.
Proof.
  intros p w. unfold acl12, bindc, unless_cleared.
  set (r := (alarm_lock _ w).1). set (w1 := (alarm_lock _ w).2).
  assert (forall c, fin (fld c) [lock_time; lock_flag] || is_req c = false -> w1⟪c⟫ = w⟪c⟫) as Hk.
  { intros c Hc. apply (keep_rda (alarm_lock ACL_SYS01_EXHAUST_HI_LOCK) w).
    eapply keep_rd_unch; [eauto with foot | done]. }
  assert (clears w1 p = clears w p) as Hcl.
  { unfold clears, get_alarm_remove_bitmap. by rewrite !Hk. }
  pose proof (unless_cleared_obeys (fun _ => skip) (fun _ => RETURN r)) as H.
  destruct (H ltac:(intros; keep_tac) ltac:(intros; keep_tac) ltac:(intros; keep_tac)
    ltac:(intros; keep_tac) p w1) as [H1 H2]. rewrite Hcl in *.
  split; [exact H1|]. intros j. destruct (H2 j) as [-> ->]. by rewrite !Hk.
Qed.

Lemma acl_obeys_all i : 0 <= i < ACL_TOTAL_NUM -> acl_obeys (honours i) (acl i).
Proof.
  intros Hi.
  assert (i = 0 \/ i = 1 \/ i = 2 \/ i = 3 \/ i = 4 \/ i = 5 \/ i = 6 \/ i = 7 \/ i = 8 \/ i = 9 \/
    i = 10 \/ i = 11 \/ i = 12 \/ i = 13 \/ i = 14 \/ i = 15 \/ i = 16 \/ i = 17 \/ i = 18 \/ i = 19 \/
    i = 20 \/ i = 21 \/ i = 22) as Hin by lia.
  destruct_or! Hin; subst i; cbn [honours zin existsb Z.eqb Pos.eqb orb negb];
  lazymatch goal with
  | |- acl_obeys false _ => exact acl_obeys_quiet
  | |- acl_obeys true (acl 11) => exact acl11_obeys
  | |- acl_obeys true (acl 12) => exact acl12_obeys
  | |- acl_obeys true (acl ?k) =>
      let t := eval cbv [acl Z.to_nat Pos.to_nat Pos.iter_op Nat.add nth acl00 acl01 acl02 acl03 acl04
        acl05 acl06 acl07 acl08 acl09 acl10 acl13 acl14 acl15 acl16 acl20 acl21 life_alarm
        unless_cleared] in (acl k) in
      change (acl_obeys true t); apply (unless_cleared_obeys (fun _ => _) (fun _ => _));
      intros; keep_tac
  end.
Qed.

(** ** Specification: the debounced alarm

    State and delay counter of one alarm; [clr] is a clearing request, [trig] the answer of
    the condition, [auto] tells whether the alarm resets by itself. *)

Definition fsm_step (delay : Z) (auto clr : bool) (trig : Z) (s : Z * Z) : Z * Z :=
  let '(st, t) := if clr then (ALARM_FSM_POSTACTIVE, 0) else s in
  match st with
  | ALARM_FSM_INACTIVE =>
      if trig =? ALARM_ACL_TRIGGERED then (ALARM_FSM_PREACTIVE, delay) else (st, t)
  | ALARM_FSM_PREACTIVE =>
      if trig =? ALARM_ACL_TRIGGERED then
        if 0 <? t then (ALARM_FSM_PREACTIVE, t - 1) else (ALARM_FSM_ACTIVE, t)
      else if trig =? ALARM_ACL_HOLD then (st, t) else (ALARM_FSM_INACTIVE, 0)
  | ALARM_FSM_ACTIVE =>
      if trig =? ALARM_ACL_TRIGGERED then (st, 0)
      else if (trig =? ALARM_ACL_CLEARED) && auto then (ALARM_FSM_POSTACTIVE, delay) else (st, t)
  | ALARM_FSM_POSTACTIVE =>
      if trig =? ALARM_ACL_CLEARED then
        if 0 <? t then (st, t - 1) else (ALARM_FSM_INACTIVE, t)
      else if trig =? ALARM_ACL_TRIGGERED then (ALARM_FSM_ACTIVE, 0) else (st, t)
  | _ => (ALARM_FSM_INACTIVE, t)
  end.

Definition acl_auto (i : Z) : bool := negb (zin i [ACL_E9; ACL_WATER_LEAK; ACL_E12]).
Definition acl_level (i : Z) : Z := if (13 <=? i) && (i <=? 19) then MIOOR else CRITICAL.

(** The id under which alarm [i] is logged and chained. *)
Definition alarm_log_id (i : Z) : Z := i .| (acl_level i .<< 8) .| DEV_TYPE_OTHER.

(** The constants [init_alarm] copied from [ACL_CONF] are in place. *)
Definition conf_ok (w : world) (i : Z) : Prop :=
  w⟪acl_id.[i]⟫ = i /\ w⟪acl_enable_mask.[i]⟫ = ACL_ENMODE_OTHER /\
  w⟪acl_reset_mask.[i]⟫ = (if acl_auto i then ACL_ENMODE_AUTO_RESET_ALARM else ACL_ENMODE_HAND_RESET_ALARM) /\
  w⟪acl_alarm_level.[i]⟫ = acl_level i /\ w⟪acl_dev_type.[i]⟫ = DEV_TYPE_OTHER.

Definition alarm_bit (w : world) (i : Z) : bool :=
  Z.testbit (w⟪status_alarm_bitmap.[byte_offset i]⟫) (bit_offset i).

Lemma get_alarm_bitmap_bit w i : @get_alarm_bitmap w i = Z.b2z (alarm_bit w i).
Proof.
  unfold get_alarm_bitmap, alarm_bit. pose proof (bit_offset_range i).
  rewrite nz_get_bit by lia. by destruct (Z.testbit _ _).
Qed.

Lemma alarm_bit_op i o w j :
  alarm_bit (alarm_status_bitmap_op i o w) j = if i =? j then o =? 1 else alarm_bit w j.
Proof.
  pose proof (bit_offset_range i). pose proof (bit_offset_range j).
  unfold alarm_bit, alarm_status_bitmap_op, assign.
  assert (forall v, (wr status_alarm_bitmap.[byte_offset i] v w)⟪status_alarm_bitmap.[byte_offset j]⟫ =
    if byte_offset i =? byte_offset j then u16 v else w⟪status_alarm_bitmap.[byte_offset j]⟫) as Hrd.
  { intros v. rewrite rd_wr. unfold cell_eqb; cbn -[Z.eqb]. rewrite Z.eqb_refl, andb_true_r.
    by destruct (byte_offset i =? byte_offset j). }
  destruct (Z.eqb_spec (byte_offset i) (byte_offset j)) as [E|E].
  - destruct (Z.eqb_spec i j) as [<-|Hne].
    + destruct (o =? 1); rewrite Hrd, u16_testbit by lia;
        [rewrite testbit_set_bit by lia | rewrite testbit_clr_bit by lia]; by rewrite Z.eqb_refl.
    + assert ((bit_offset j =? bit_offset i) = false) as Hb.
      { apply Z.eqb_neq. intros ?. apply Hne, byte_bit_inj; lia. }
      destruct (o =? 1); rewrite Hrd, u16_testbit, E by lia;
        [rewrite testbit_set_bit by lia | rewrite testbit_clr_bit by lia]; by rewrite Hb.
  - destruct (Z.eqb_spec i j) as [<-|Hne]; [done|]. destruct (o =? 1); by rewrite Hrd.
Qed.

Lemma keep_alarm_bit {X} (out : X -> world) F D k i :
  resp out (unch F D) k -> fin status_alarm_bitmap F = false ->
  resp out (keep (fun w => alarm_bit w i)) k.
Proof.
  intros H HF w. unfold keep, alarm_bit. by rewrite (unch_rd F D w (out (k w))).
Qed.

Lemma log_id_ok w i : 0 <= i < ACL_TOTAL_NUM -> conf_ok w i -> @log_id w i = alarm_log_id i.
Proof.
  intros Hi (H1 & H2 & H3 & H4 & H5). unfold log_id, alarm_log_id. rewrite H1, H4, H5.
  apply u16_small.
  pose proof (range_check (fun i => (0 <=? alarm_log_id i) && (alarm_log_id i <? 65536)) 23 i
    ltac:(vm_compute; reflexivity) Hi) as [?%Z.leb_le ?%Z.ltb_lt]%andb_true_iff.
  by split.
Qed.

Lemma alarm_log_id_inj i j :
  0 <= i < ACL_TOTAL_NUM -> 0 <= j < ACL_TOTAL_NUM -> alarm_log_id i = alarm_log_id j -> i = j.
Proof.
  intros Hi Hj E. apply (f_equal (fun z => z .& 255)) in E.
  assert (forall k, 0 <= k < 23 -> alarm_log_id k .& 255 = k) as H.
  { intros k Hk. apply Z.eqb_eq.
    by apply (range_check (fun k => (alarm_log_id k .& 255) =? k) 23 k). }
  rewrite !H in E by lia. done.
Qed.

(** ** One step of one alarm *)

(** The switch makes the alarm active, or ends it. *)
Definition raises (st t trig : Z) : bool :=
  (st =? ALARM_FSM_PREACTIVE) && (trig =? ALARM_ACL_TRIGGERED) && negb (0 <? t).
Definition drops (st t trig : Z) : bool :=
  (st =? ALARM_FSM_POSTACTIVE) && (trig =? ALARM_ACL_CLEARED) && negb (0 <? t).

(** The alarm is enabled and its constants are in place. *)
Definition ready (w : world) (i : Z) : Prop :=
  0 <= i < ACL_TOTAL_NUM /\ conf_ok w i /\ w⟪alarm_enable_mode.[i]⟫ = ACL_ENMODE_AUTO_RESET_ALARM.

Lemma ready_enabled w i : ready w i -> @acl_disabled w i = false.
Proof. intros (_ & (_ & H & _) & Hm). unfold acl_disabled. by rewrite H, Hm. Qed.

Lemma ready_auto w i :
  ready w i ->
  ((w⟪alarm_enable_mode.[i]⟫ .& w⟪acl_reset_mask.[i]⟫) =? ACL_ENMODE_AUTO_RESET_ALARM) = acl_auto i.
Proof. intros (_ & (_ & _ & H & _) & Hm). rewrite H, Hm. by destruct (acl_auto i). Qed.

Definition st_range (st : Z) : Prop := 1 <= st <= 4.

Lemma st_cases st : st_range st -> st = 1 \/ st = 2 \/ st = 3 \/ st = 4.
Proof. unfold st_range. lia. Qed.

Lemma delay_range w i : 0 <= @Alarm_acl_delay w i < 65536.
Proof. unfold Alarm_acl_delay. repeat case_match; try lia. apply u16_range. Qed.

(** Unfold the switch on a concrete state of an enabled alarm. *)
Ltac enter_switch :=
  unfold acl_switch, acl_inactive, acl_preactive, acl_active, acl_postactive, letc, cif;
  repeat match goal with H : ready _ _ |- _ => rewrite ?(ready_enabled _ _ H), ?(ready_auto _ _ H) end.

Lemma switch_raise w i trig lid :
  ready w i -> raises (w⟪acl_state.[i]⟫) (w⟪acl_timeout.[i]⟫) trig = true ->
  acl_switch i trig lid (w⟪acl_state.[i]⟫) w = acl_raise i lid w.
Proof.
  intros Hr [[E%Z.eqb_eq ->%Z.eqb_eq]%andb_true_iff Ht%negb_true_iff]%andb_true_iff. rewrite E.
  cbn [acl_switch]. unfold acl_preactive, cif at 1. rewrite (ready_enabled _ _ Hr).
  cbn [Z.eqb Pos.eqb]. unfold cif. by rewrite Ht.
Qed.

Lemma switch_drop w i trig lid :
  ready w i -> drops (w⟪acl_state.[i]⟫) (w⟪acl_timeout.[i]⟫) trig = true ->
  acl_switch i trig lid (w⟪acl_state.[i]⟫) w = acl_drop i lid w.
Proof.
  intros Hr [[E%Z.eqb_eq ->%Z.eqb_eq]%andb_true_iff Ht%negb_true_iff]%andb_true_iff. rewrite E.
  cbn [acl_switch]. unfold acl_postactive, cif at 1. rewrite (ready_enabled _ _ Hr).
  cbn [Z.eqb Pos.eqb]. unfold cif. by rewrite Ht.
Qed.

(** From [w] to [w'] only the state and counter of alarm [i] changed, to [s]. *)
Definition moves (w w' : world) (i : Z) (s : Z * Z) : Prop :=
  unch [acl_state; acl_timeout] [] w w' /\
  (forall j, j <> i -> w'⟪acl_state.[j]⟫ = w⟪acl_state.[j]⟫ /\ w'⟪acl_timeout.[j]⟫ = w⟪acl_timeout.[j]⟫) /\
  (w'⟪acl_state.[i]⟫, w'⟪acl_timeout.[i]⟫) = s.

Lemma moves_refl w i : moves w w i (w⟪acl_state.[i]⟫, w⟪acl_timeout.[i]⟫).
Proof. by split_and!. Qed.

Lemma moves_state w i b :
  0 <= b < 65536 -> moves w ((acl_state.[i] ::= b) w) i (b, w⟪acl_timeout.[i]⟫).
Proof.
  intros Hb. split_and!.
  - revert w. change (respc (unch [acl_state; acl_timeout] []) (acl_state.[i] ::= b)). footprint.
  - intros j Hj. split; by obs.
  - obs. by rewrite u16_small.
Qed.

Lemma moves_both w i a b :
  0 <= a < 65536 -> 0 <= b < 65536 ->
  moves w ((acl_timeout.[i] ::= a;; acl_state.[i] ::= b) w) i (b, a).
Proof.
  intros Ha Hb. split_and!.
  - revert w. change (respc (unch [acl_state; acl_timeout] []) (acl_timeout.[i] ::= a;; acl_state.[i] ::= b)).
    footprint.
  - intros j Hj. split; by obs.
  - obs. by rewrite !u16_small.
Qed.

(** Every other step only moves the alarm's own state and counter. *)
Lemma switch_quiet w i trig lid :
  ready w i -> st_range (w⟪acl_state.[i]⟫) ->
  raises (w⟪acl_state.[i]⟫) (w⟪acl_timeout.[i]⟫) trig = false ->
  drops (w⟪acl_state.[i]⟫) (w⟪acl_timeout.[i]⟫) trig = false ->
  moves w (acl_switch i trig lid (w⟪acl_state.[i]⟫) w) i
    (fsm_step (@Alarm_acl_delay w i) (acl_auto i) false trig (w⟪acl_state.[i]⟫, w⟪acl_timeout.[i]⟫)).
Proof.
  intros Hr Hs Hra Hdr. pose proof (rd_u16 w acl_timeout.[i] eq_refl) as Ht.
  pose proof (delay_range w i) as Hd. unfold raises, drops, fsm_step in *. cbv zeta.
  pose proof (moves_refl w i) as Hm0. pose proof (moves_state w i) as Hm1.
  pose proof (moves_both w i) as Hm2.
  destruct (st_cases _ Hs) as [E|[E|[E|E]]]; rewrite E in *; enter_switch;
    destruct (Z.eqb_spec trig 1) as [->|H1]; cbn [andb Z.eqb Pos.eqb] in *;
    try (destruct (Z.eqb_spec trig 2) as [->|H2]); cbn [andb Z.eqb Pos.eqb] in *;
    try (destruct (Z.eqb_spec trig 0) as [->|H3]); cbn [andb Z.eqb Pos.eqb] in *; try lia;
    try (destruct (Z.ltb_spec 0 (w⟪acl_timeout.[i]⟫)); cbn [negb] in *; try discriminate);
    rewrite ?(ready_auto _ _ Hr); try (destruct (acl_auto i); cbn [andb]);
    first [exact Hm0 | apply Hm2; lia | apply Hm1; lia].
Qed.

(** ** The alarm engine's invariant *)

Definition active (st : Z) : bool := ALARM_FSM_ACTIVE <=? st.

(** Alarm [i] is shown active in the bitmap, and listed in the chain, exactly while its
    state machine is ACTIVE or POSTACTIVE; no alarm is listed twice. *)
Record alarm_inv (w : world) : Prop := {
  inv_conf : forall i, 0 <= i < ACL_TOTAL_NUM -> conf_ok w i;
  inv_st : forall i, 0 <= i < ACL_TOTAL_NUM -> st_range (w⟪acl_state.[i]⟫);
  inv_bit : forall i, 0 <= i < ACL_TOTAL_NUM -> alarm_bit w i = active (w⟪acl_state.[i]⟫);
  inv_has : forall i, 0 <= i < ACL_TOTAL_NUM ->
    has_id (alarm_log_id i) (chain w) = active (w⟪acl_state.[i]⟫);
  inv_nodup : NoDup (alarm_id <$> chain w);
  inv_ids : forall n, n ∈ chain w -> exists i, 0 <= i < ACL_TOTAL_NUM /\ alarm_id n = alarm_log_id i;
  inv_chain : chain_ok w
}.

(** What the invariant reads, apart from the states. *)
Definition inv_fields : list field :=
  [acl_id; acl_enable_mask; acl_reset_mask; acl_alarm_level; acl_dev_type; status_alarm_bitmap;
   mp_block_free; status_total_cnt; P_chain].

Definition disjoint_from (G F : list field) : bool := forallb (fun f => negb (fin f F)) G.

Lemma disjoint_fin G F f : disjoint_from G F = true -> fin f G = true -> fin f F = false.
Proof.
  intros H (g & Hg & ->%feqb_spec)%existsb_exists.
  unfold disjoint_from in H. rewrite forallb_forall in H. by apply negb_true_iff, H.
Qed.

(** The invariant survives a step that leaves those alone and keeps each alarm's activity. *)
Lemma alarm_inv_step F w w' :
  unch F [] w w' -> disjoint_from inv_fields F = true ->
  (forall i, 0 <= i < ACL_TOTAL_NUM ->
    st_range (w'⟪acl_state.[i]⟫) /\ active (w'⟪acl_state.[i]⟫) = active (w⟪acl_state.[i]⟫)) ->
  alarm_inv w -> alarm_inv w'.
Proof.
  intros Hu HF Hs [I1 I2 I3 I4 I5 I6 [P1 P2 P3]].
  assert (forall c, fin (fld c) inv_fields = true -> w'⟪c⟫ = w⟪c⟫) as Hrd.
  { intros c Hc. eapply unch_rd; [done | by eapply disjoint_fin |].
    unfold is_req. destruct (feqb (fld c) l_bitmap) eqn:E; [|done].
    apply feqb_spec in E. rewrite E in Hc. done. }
  assert (chain w' = chain w) as Hc by (eapply unch_chain; [done | by eapply disjoint_fin]).
  split; rewrite ?Hc; try done.
  - intros i Hi. unfold conf_ok. rewrite !Hrd by done. by apply I1.
  - intros i Hi. by apply Hs.
  - intros i Hi. unfold alarm_bit. rewrite Hrd by done. destruct (Hs i Hi) as [_ ->]. by apply I3.
  - intros i Hi. destruct (Hs i Hi) as [_ ->]. by apply I4.
  - split; rewrite ?Hrd, ?Hc by done; done.
Qed.

(** A chain that lists other alarms only has room for one more. *)
Lemma chain_room w i :
  alarm_inv w -> 0 <= i < ACL_TOTAL_NUM -> active (w⟪acl_state.[i]⟫) = false ->
  (alarm_log_id i ∉ (alarm_id <$> chain w)) /\ (List.length (chain w) < 23)%nat.
Proof.
  intros Hv Hi Ha. pose proof (inv_has w Hv i Hi) as Hh. rewrite Ha in Hh.
  assert (alarm_log_id i ∉ (alarm_id <$> chain w)) as Hn.
  { intros (n & E & Hn)%list_elem_of_fmap. apply not_true_iff_false in Hh. apply Hh.
    apply existsb_exists. exists n. split; [by apply list_elem_of_In | by rewrite E, Z.eqb_refl]. }
  split; [done|].
  assert ((alarm_log_id i :: (alarm_id <$> chain w)) ⊆+ (alarm_log_id <$> range 23)) as Hsub.
  { apply NoDup_submseteq; [constructor; [done | apply Hv]|].
    intros x [->|(n & -> & Hx)%list_elem_of_fmap]%elem_of_cons.
    - apply list_elem_of_fmap_2. by apply elem_of_range.
    - destruct (inv_ids w Hv n Hx) as (k & Hk & ->). apply list_elem_of_fmap_2. by apply elem_of_range. }
  apply submseteq_length in Hsub. rewrite length_cons, !length_fmap in Hsub.
  change (List.length (range 23)) with 23%nat in Hsub. lia.
Qed.

(** What raising and ending alarm [i] do: log a record, set or clear the alarm's bit, link or
    unlink its node and recount. *)
Definition raise_fields : list field :=
  [acl_state; P_alarmlog; status_alarm_bitmap; P_chain; mp_block_free; status_total_cnt;
   status_mioor_cnt; status_pwr_off_alarm; status_major_cnt; status_critical_cnt;
   ComSta_u16Status_remap].

Lemma acl_raise_foot i lid : respc (unch raise_fields []) (acl_raise i lid).
Proof. unfold acl_raise. footprint. Qed.
Lemma acl_drop_foot i lid : respc (unch raise_fields []) (acl_drop i lid).
Proof. unfold acl_drop. footprint. Qed.
#[export] Hint Resolve acl_raise_foot acl_drop_foot : foot.

Lemma bitmap_op_limit i o w :
  0 <= i < ACL_TOTAL_NUM ->
  (alarm_status_bitmap_op i o w)⟪status_alarm_bitmap.[5]⟫ = w⟪status_alarm_bitmap.[5]⟫.
Proof.
  intros Hi. unfold alarm_status_bitmap_op. pose proof (byte_offset_div i).
  assert (byte_offset i < 5) by (Z.div_mod_to_equations; lia).
  case_match; obs; done.
Qed.

Lemma chain_ok_same w w' :
  chain w' = chain w -> w'⟪mp_block_free⟫ = w⟪mp_block_free⟫ ->
  w'⟪status_total_cnt⟫ = w⟪status_total_cnt⟫ ->
  w'⟪status_alarm_bitmap.[5]⟫ = w⟪status_alarm_bitmap.[5]⟫ -> chain_ok w -> chain_ok w'.
Proof. intros E1 E2 E3 E4 []. by split; rewrite ?E1, ?E2, ?E3, ?E4. Qed.

(** The state of the engine after alarm [i] became active. *)
Lemma acl_raise_effect w i :
  alarm_inv w -> 0 <= i < ACL_TOTAL_NUM -> active (w⟪acl_state.[i]⟫) = false ->
  let w' := acl_raise i (alarm_log_id i) w in
  (forall j, w'⟪acl_state.[j]⟫ = if j =? i then ALARM_FSM_ACTIVE else w⟪acl_state.[j]⟫) /\
  (forall j, alarm_bit w' j = if i =? j then true else alarm_bit w j) /\
  chain_ok w' /\
  exists n, alarm_id n = alarm_log_id i /\ chain w' = n :: chain w.
Proof.
  intros Hv Hi Ha. destruct (chain_room w i Hv Hi Ha) as [_ Hl].
  unfold acl_raise. cbv zeta. unfold seqc, letc, runc.
  set (w1 := assign _ _ w). set (w2 := add_alarmlog_fifo _ _ _ w1).
  assert (w2⟪acl_id.[i]⟫ .& 255 = i) as ->.
  { subst w2 w1. obs. destruct (inv_conf w Hv i Hi) as [-> _].
    apply Z.eqb_eq. by apply (range_check (fun k => (k .& 255) =? k) 23 i). }
  set (w3 := alarm_status_bitmap_op i 1 w2).
  assert (chain w3 = chain w) as Hc by (subst w3 w2 w1; by obs).
  destruct (node_append_ok w3 (alarm_log_id i) (w1⟪acl_alram_value.[i]⟫)) as (_ & Hok & Hch).
  - apply (chain_ok_same w); [done | | | | apply Hv]; subst w3 w2 w1; [by obs | by obs |].
    rewrite bitmap_op_limit by done. by obs.
  - by rewrite Hc.
  - split_and!; [| | done | eexists; split; [|rewrite Hch, Hc; reflexivity]; done].
    + intros j. obs. subst w3 w2 w1. obs. destruct (Z.eqb_spec j i) as [->|]; by obs.
    + intros j. rewrite (keep_alarm_bit _ _ [] _ j (node_append_foot (alarm_log_id i) _)) by done.
      subst w3. rewrite alarm_bit_op. cbn. destruct (i =? j); [done|]. subst w2 w1.
      unfold alarm_bit. by obs.
Qed.

(** The state of the engine after alarm [i] ended. *)
Lemma acl_drop_effect w i :
  alarm_inv w -> 0 <= i < ACL_TOTAL_NUM ->
  let w' := acl_drop i (alarm_log_id i) w in
  (forall j, w'⟪acl_state.[j]⟫ = if j =? i then ALARM_FSM_INACTIVE else w⟪acl_state.[j]⟫) /\
  (forall j, alarm_bit w' j = if i =? j then false else alarm_bit w j) /\
  chain_ok w' /\ chain w' = remove_first (alarm_log_id i) (chain w).
Proof.
  intros Hv Hi. unfold acl_drop. cbv zeta. unfold seqc, letc, runc.
  set (w1 := add_alarmlog_fifo _ _ _ w). set (w2 := alarm_status_bitmap_op i 0 w1).
  assert (chain w2 = chain w) as Hc by (subst w2 w1; by obs).
  destruct (node_delete_ok w2 (alarm_log_id i)) as (_ & Hok & Hch).
  { apply (chain_ok_same w); [done | | | | apply Hv]; subst w2 w1; [by obs | by obs |].
    rewrite bitmap_op_limit by done. by obs. }
  split_and!.
  - intros j. destruct (Z.eqb_spec j i) as [->|]; obs; [done|]. subst w2 w1. by obs.
  - intros j. unfold alarm_bit. obs. fold (alarm_bit w2 j). subst w2. rewrite alarm_bit_op. cbn.
    destruct (i =? j); [done|]. subst w1. unfold alarm_bit. by obs.
  - eapply chain_ok_same; [| | | | exact Hok]; by obs.
  - obs. by rewrite Hch, Hc.
Qed.

Lemma remove_first_has id j l :
  NoDup (alarm_id <$> l) -> has_id j (remove_first id l) = has_id j l && negb (id =? j).
Proof.
  induction l as [|n l IH]; [done|]. rewrite fmap_cons. intros [Hn Hl]%list.NoDup_cons.
  cbn [remove_first]. destruct (Z.eqb_spec (alarm_id n) id) as [<-|Hne].
  - unfold has_id at 2. cbn [existsb]. fold (has_id j l).
    destruct (Z.eqb_spec (alarm_id n) j) as [<-|Hj]; cbn [orb negb].
    + rewrite andb_false_r. apply not_true_iff_false. intros (m & Hm & E%Z.eqb_eq)%existsb_exists.
      apply Hn. rewrite <- E. apply list_elem_of_fmap_2. by apply list_elem_of_In.
    + by rewrite andb_true_r.
  - unfold has_id in *. cbn [existsb]. rewrite IH by done.
    destruct (Z.eqb_spec (alarm_id n) j) as [<-|]; cbn; [|done].
    rewrite (proj2 (Z.eqb_neq id (alarm_id n))) by lia. done.
Qed.

Lemma remove_first_sublist id l : sublist (remove_first id l) l.
Proof.
  induction l as [|n l IH]; [done|]. cbn. case_match; [by constructor | by constructor].
Qed.

(** Raising and ending keep the invariant. *)
Lemma acl_raise_inv w i :
  alarm_inv w -> 0 <= i < ACL_TOTAL_NUM -> active (w⟪acl_state.[i]⟫) = false ->
  alarm_inv (acl_raise i (alarm_log_id i) w).
Proof.
  intros Hv Hi Ha. destruct (chain_room w i Hv Hi Ha) as [Hn _].
  destruct (acl_raise_effect w i Hv Hi Ha) as (Hs & Hb & Hok & n & En & Hc).
  split; [| | | | | | done].
  - intros j Hj. unfold conf_ok. obs. by apply Hv.
  - intros j Hj. rewrite Hs. case_match; [done | by apply Hv].
  - intros j Hj. rewrite Hb, Hs, (Z.eqb_sym i j). destruct (j =? i); [done | by apply Hv].
  - intros j Hj. rewrite Hc, Hs. unfold has_id. cbn [existsb]. fold (has_id (alarm_log_id j) (chain w)).
    rewrite En. destruct (Z.eqb_spec j i) as [->|Hne]; [by rewrite Z.eqb_refl|].
    destruct (Z.eqb_spec (alarm_log_id i) (alarm_log_id j)) as [E|E].
    + apply alarm_log_id_inj in E; [lia | done..].
    + by apply Hv.
  - rewrite Hc, fmap_cons, En. constructor; [done | apply Hv].
  - rewrite Hc. intros m [->|Hm]%elem_of_cons; [by exists i | by apply Hv].
Qed.

Lemma acl_drop_inv w i :
  alarm_inv w -> 0 <= i < ACL_TOTAL_NUM -> alarm_inv (acl_drop i (alarm_log_id i) w).
Proof.
  intros Hv Hi. destruct (acl_drop_effect w i Hv Hi) as (Hs & Hb & Hok & Hc).
  pose proof (remove_first_sublist (alarm_log_id i) (chain w)) as Hsub.
  split; [| | | | | | done].
  - intros j Hj. unfold conf_ok. obs. by apply Hv.
  - intros j Hj. rewrite Hs. case_match; [done | by apply Hv].
  - intros j Hj. rewrite Hb, Hs, (Z.eqb_sym i j). destruct (j =? i); [done | by apply Hv].
  - intros j Hj. rewrite Hc, Hs, remove_first_has by apply Hv. rewrite (inv_has w Hv j Hj).
    destruct (Z.eqb_spec j i) as [->|Hne]; [by rewrite Z.eqb_refl, andb_false_r|].
    destruct (Z.eqb_spec (alarm_log_id i) (alarm_log_id j)) as [E|E]; [|by rewrite andb_true_r].
    apply alarm_log_id_inj in E; [lia | done..].
  - rewrite Hc. eapply sublist_NoDup; [apply Hv | by apply fmap_sublist].
  - rewrite Hc. intros m Hm. apply Hv. eapply elem_of_sublist; eauto.
Qed.

(** ** A pass refines one step of every debounced alarm *)

(** The state in which the condition of alarm [i] is evaluated, its answer, and whether a
    clearing request is honoured. *)
Definition step_env (i : Z) : cmd := alarm_enable_mode.[i] ::= ACL_ENMODE_AUTO_RESET_ALARM.
Definition step_trig (i : Z) (w : world) : Z := (acl i i (step_env i w)).1.
Definition step_clr (i : Z) (w : world) : bool := honours i && clears w i.

(** The world just before the switch. *)
Definition after_cond (i : Z) (w : world) : world := (acl i i (step_env i w)).2.

Lemma acl_step_switch w i :
  0 <= i < ACL_TOTAL_NUM -> conf_ok w i ->
  acl_step i w =
    acl_switch i (step_trig i w) (alarm_log_id i) ((after_cond i w)⟪acl_state.[i]⟫) (after_cond i w) /\
  ready (after_cond i w) i.
Proof.
  intros Hi Hc.
  assert (ready (step_env i w) i) as Hr0.
  { split; [done|]. split; unfold conf_ok, step_env; by obs. }
  assert (ready (after_cond i w) i) as Hr.
  { destruct Hr0 as (_ & H1 & H2). split; [done|].
    split; unfold conf_ok, after_cond in *; by obs. }
  split; [|done]. unfold acl_step, seqc, cif. fold (step_env i). fold (step_env i w).
  rewrite (ready_enabled _ _ Hr0). cbn [andb]. unfold bindc, letc.
  fold (step_trig i w). fold (after_cond i w). f_equal. apply log_id_ok; [done | apply Hr].
Qed.

(** What the condition does to the alarms' states and counters. *)
Lemma after_cond_state w i j :
  0 <= i < ACL_TOTAL_NUM ->
  (after_cond i w)⟪acl_state.[j]⟫ =
    (if step_clr i w && (j =? i) then ALARM_FSM_POSTACTIVE else w⟪acl_state.[j]⟫) /\
  (after_cond i w)⟪acl_timeout.[j]⟫ = (if step_clr i w && (j =? i) then 0 else w⟪acl_timeout.[j]⟫) /\
  (step_clr i w = true -> step_trig i w = ALARM_ACL_CLEARED /\ active (w⟪acl_state.[i]⟫) = true).
Proof.
  intros Hi. destruct (acl_obeys_all i Hi i (step_env i w)) as [H1 H2].
  assert (clears (step_env i w) i = clears w i) as Ec.
  { unfold clears, get_alarm_remove_bitmap, step_env. by obs. }
  rewrite Ec in *. fold (step_clr i w) in *. destruct (H2 j) as [H3 H4]. unfold after_cond.
  rewrite H3, H4. unfold step_env. obs. split_and!; [done.. |].
  intros Hcl. split; [by apply H1|]. unfold step_clr, clears in Hcl.
  apply andb_true_iff in Hcl as [_ Hcl]. apply andb_true_iff in Hcl as [_ Hcl%Z.ltb_lt].
  unfold active. apply Z.leb_le. lia.
Qed.

Definition step_fields : list field :=
  alarm_enable_mode :: acl_fields ++
  [P_alarmlog; status_alarm_bitmap; P_chain; mp_block_free; status_total_cnt;
   status_mioor_cnt; status_pwr_off_alarm; status_major_cnt; status_critical_cnt].

Lemma acl_switch_foot i trig lid st : respc (unch (acl_timeout :: raise_fields) []) (acl_switch i trig lid st).
Proof.
  unfold acl_switch, acl_inactive, acl_preactive, acl_active, acl_postactive. footprint.
Qed.
#[export] Hint Resolve acl_switch_foot : foot.
Lemma acl_step_foot i : respc (unch step_fields []) (acl_step i).
Proof. unfold acl_step. footprint. Qed.
#[export] Hint Resolve acl_step_foot : foot.

Lemma fsm_step_active delay auto trig st t :
  st_range st -> raises st t trig = false -> drops st t trig = false ->
  st_range (fsm_step delay auto false trig (st, t)).1 /\
  active (fsm_step delay auto false trig (st, t)).1 = active st.
Proof.
  intros Hs Hr Hd. unfold raises, drops, fsm_step, active in *.
  destruct (st_cases _ Hs) as [-> | [-> | [-> | ->]]]; cbn [andb Z.eqb Pos.eqb] in *;
    repeat case_match; split; (done || unfold st_range; cbn; lia).
Qed.

Lemma after_cond_inv w i : alarm_inv w -> 0 <= i < ACL_TOTAL_NUM -> alarm_inv (after_cond i w).
Proof.
  intros Hv Hi. apply (alarm_inv_step (alarm_enable_mode :: acl_fields) w); [|done| |done].
  - unfold after_cond. etransitivity; [|apply resp_unch_weaken with (F := acl_fields) (D := []); [apply acl_foot | done]].
    unfold step_env. revert w Hv. intros w _. revert w.
    change (respc (unch (alarm_enable_mode :: acl_fields) []) (alarm_enable_mode.[i] ::= 4)). footprint.
  - intros j Hj. destruct (after_cond_state w i j Hi) as (-> & _ & Hcl).
    pose proof (inv_st w Hv j Hj). destruct (step_clr i w); cbn [andb]; [|done].
    destruct (Z.eqb_spec j i) as [->|]; [|done]. by destruct Hcl as [_ ->].
Qed.

(** The step of alarm [i], seen from the state in which its condition has been evaluated. *)
Lemma acl_switch_ok v i trig :
  alarm_inv v -> ready v i ->
  let w' := acl_switch i trig (alarm_log_id i) (v⟪acl_state.[i]⟫) v in
  alarm_inv w' /\
  (forall j, j <> i -> w'⟪acl_state.[j]⟫ = v⟪acl_state.[j]⟫ /\ w'⟪acl_timeout.[j]⟫ = v⟪acl_timeout.[j]⟫) /\
  (w'⟪acl_state.[i]⟫, w'⟪acl_timeout.[i]⟫) =
    fsm_step (@Alarm_acl_delay v i) (acl_auto i) false trig (v⟪acl_state.[i]⟫, v⟪acl_timeout.[i]⟫).
Proof.
  intros Hv Hr. pose proof Hr as (Hi & _). pose proof (inv_st v Hv i Hi) as Hs. cbv zeta.
  destruct (raises (v⟪acl_state.[i]⟫) (v⟪acl_timeout.[i]⟫) trig) eqn:Era.
  { rewrite (switch_raise v i trig _ Hr Era).
    apply andb_true_iff in Era as [[E1%Z.eqb_eq E2%Z.eqb_eq]%andb_true_iff Ht%negb_true_iff].
    assert (active (v⟪acl_state.[i]⟫) = false) as Ha by (by rewrite E1).
    destruct (acl_raise_effect v i Hv Hi Ha) as (Hst & _). split; [by apply acl_raise_inv|].
    split; [intros j Hj; rewrite Hst; split; [by rewrite (proj2 (Z.eqb_neq j i)) | by obs]|].
    rewrite Hst, Z.eqb_refl, E1, E2. obs. unfold fsm_step. cbn [Z.eqb Pos.eqb]. by rewrite Ht. }
  destruct (drops (v⟪acl_state.[i]⟫) (v⟪acl_timeout.[i]⟫) trig) eqn:Edr.
  { rewrite (switch_drop v i trig _ Hr Edr).
    apply andb_true_iff in Edr as [[E1%Z.eqb_eq E2%Z.eqb_eq]%andb_true_iff Ht%negb_true_iff].
    destruct (acl_drop_effect v i Hv Hi) as (Hst & _). split; [by apply acl_drop_inv|].
    split; [intros j Hj; rewrite Hst; split; [by rewrite (proj2 (Z.eqb_neq j i)) | by obs]|].
    rewrite Hst, Z.eqb_refl, E1, E2. obs. unfold fsm_step. cbn [Z.eqb Pos.eqb]. by rewrite Ht. }
  destruct (switch_quiet v i trig (alarm_log_id i) Hr Hs Era Edr) as (Hu & Ho & Hown).
  split; [|done]. apply (alarm_inv_step _ v _ Hu); [done | | done].
  intros j Hj. destruct (decide (j = i)) as [->|Hne].
  - apply (f_equal fst) in Hown. cbn [fst] in Hown. rewrite Hown. by apply fsm_step_active.
  - destruct (Ho j Hne) as [-> _]. split; [by apply Hv | done].
Qed.

Lemma acl_step_ok w i :
  alarm_inv w -> 0 <= i < ACL_TOTAL_NUM ->
  alarm_inv (acl_step i w) /\
  (forall j, j <> i -> (acl_step i w)⟪acl_state.[j]⟫ = w⟪acl_state.[j]⟫ /\
                       (acl_step i w)⟪acl_timeout.[j]⟫ = w⟪acl_timeout.[j]⟫) /\
  ((acl_step i w)⟪acl_state.[i]⟫, (acl_step i w)⟪acl_timeout.[i]⟫) =
    fsm_step (@Alarm_acl_delay w i) (acl_auto i) (step_clr i w) (step_trig i w)
      (w⟪acl_state.[i]⟫, w⟪acl_timeout.[i]⟫).
Proof.
  intros Hv Hi. destruct (acl_step_switch w i Hi (inv_conf w Hv i Hi)) as [-> Hr].
  destruct (acl_switch_ok (after_cond i w) i (step_trig i w) (after_cond_inv w i Hv Hi) Hr) as (H1 & H2 & H3).
  split; [done|]. split.
  - intros j Hj. destruct (H2 j Hj) as [-> ->]. destruct (after_cond_state w i j Hi) as (-> & -> & _).
    by rewrite (proj2 (Z.eqb_neq j i)), andb_false_r.
  - rewrite H3. destruct (after_cond_state w i i Hi) as (-> & -> & _). rewrite Z.eqb_refl, andb_true_r.
    assert (@Alarm_acl_delay (after_cond i w) i = @Alarm_acl_delay w i) as ->.
    { unfold Alarm_acl_delay, after_cond, step_env. by obs. }
    by destruct (step_clr i w).
Qed.

(** The state of the pass when alarm [i]'s turn comes. *)
Definition turn (i : Z) : cmd := FOR j IN range i DO acl_step j END.

Definition pass_trig (i : Z) (w : world) : Z := step_trig i (turn i w).
Definition pass_clr (i : Z) (w : world) : bool := step_clr i (turn i w).

Lemma turn_succ i w : 0 <= i -> turn (i + 1) w = acl_step i (turn i w).
Proof.
  intros Hi. unfold turn, forc, range. rewrite seqZ_app by lia.
  by rewrite foldl_app, Z.add_0_l.
Qed.

Lemma turn_foot i : respc (unch step_fields []) (turn i).
Proof. unfold turn. footprint. Qed.
#[export] Hint Resolve turn_foot : foot.

Lemma turn_ok w n :
  alarm_inv w -> 0 <= n <= ACL_TOTAL_NUM ->
  alarm_inv (turn n w) /\
  forall i, 0 <= i < ACL_TOTAL_NUM ->
    ((turn n w)⟪acl_state.[i]⟫, (turn n w)⟪acl_timeout.[i]⟫) =
    if i <? n then
      fsm_step (@Alarm_acl_delay w i) (acl_auto i) (pass_clr i w) (pass_trig i w)
        (w⟪acl_state.[i]⟫, w⟪acl_timeout.[i]⟫)
    else (w⟪acl_state.[i]⟫, w⟪acl_timeout.[i]⟫).
Proof.
  intros Hv [Hn0 Hn]. revert Hn. pattern n. apply natlike_ind; [| |done].
  { intros _. split; [done|]. intros i Hi. by rewrite (proj2 (Z.ltb_ge i 0)) by lia. }
  clear n Hn0. intros n Hn0 IH Hn. destruct IH as [IHv IH]; [lia|]. rewrite <- Z.add_1_r, turn_succ by done.
  destruct (acl_step_ok (turn n w) n IHv) as (H1 & H2 & H3); [lia|]. split; [done|].
  intros i Hi. pose proof (IH i Hi) as Hin. destruct (decide (i = n)) as [->|Hne].
  - rewrite (proj2 (Z.ltb_lt n (n + 1))) by lia. rewrite (proj2 (Z.ltb_ge n n)) in Hin by lia.
    rewrite H3, Hin. f_equal. unfold Alarm_acl_delay. by obs.
  - destruct (H2 i Hne) as [-> ->]. rewrite Hin.
    destruct (Z.ltb_spec i n), (Z.ltb_spec i (n + 1)); (done || lia).
Qed.

Lemma alarm_pass_turn w :
  alarm_pass w =
  (ComSta_u16Alarm_bitmap.[0] ::= «status_alarm_bitmap.[0]»;;
   ComSta_u16Alarm_bitmap.[1] ::= «status_alarm_bitmap.[1]»;; alarm_arbiration) (turn 23 w).
Proof. unfold alarm_pass, turn, seqc. reflexivity. Qed.

(** Reasoning about passes goes through the lemmas above. *)
#[global] Opaque alarm_pass turn acl_step.

Lemma alarm_pass_ok w :
  alarm_inv w ->
  alarm_inv (alarm_pass w) /\
  forall i, 0 <= i < ACL_TOTAL_NUM ->
    ((alarm_pass w)⟪acl_state.[i]⟫, (alarm_pass w)⟪acl_timeout.[i]⟫) =
    fsm_step (@Alarm_acl_delay w i) (acl_auto i) (pass_clr i w) (pass_trig i w)
      (w⟪acl_state.[i]⟫, w⟪acl_timeout.[i]⟫).
Proof.
  intros Hv. destruct (turn_ok w 23 Hv ltac:(lia)) as [H1 H2].
  set (k := ComSta_u16Alarm_bitmap.[0] ::= «status_alarm_bitmap.[0]»;;
    ComSta_u16Alarm_bitmap.[1] ::= «status_alarm_bitmap.[1]»;; alarm_arbiration).
  assert (respc (unch [ComSta_u16Alarm_bitmap; l_bitmap] []) k) as Hk by (subst k; footprint).
  rewrite alarm_pass_turn. fold k.
  assert (forall c, fin (fld c) [ComSta_u16Alarm_bitmap; l_bitmap] || is_req c = false ->
    (k (turn 23 w))⟪c⟫ = (turn 23 w)⟪c⟫) as Hrd.
  { intros c Hc. eapply keep_rd, keep_rd_unch; done. }
  split.
  - apply (alarm_inv_step _ _ _ (Hk (turn 23 w))); [done | | done].
    intros i Hi. rewrite Hrd by done. split; [by apply H1 | done].
  - intros i Hi. rewrite !Hrd by done. rewrite H2 by done. by rewrite (proj2 (Z.ltb_lt i 23)) by lia.
Qed.

(** ** Arbitration: which outputs the alarms force off *)

(** Whether the alarms of a state force an output off, for the three outputs they decide on. *)
Definition alarm_forces (w : world) (d : Z) : option bool :=
  let dev := alarm_bit w ACL_E7 || alarm_bit w ACL_E9 in
  if d =? DO_COMP1_BPOS then Some (dev || alarm_bit w ACL_HI_PRESS1)
  else if (d =? DO_COMP2_BPOS) || (d =? DO_FAN_BPOS) then Some dev else None.

(** The alarm columns from [w] to [w'], when the alarms shown are those of [wa]. *)
Definition arbitrated (wa w w' : world) (d : Z) : Prop :=
  bmp_bit BITMAP_MASK w' d = match alarm_forces wa d with Some b => b | None => bmp_bit BITMAP_MASK w d end /\
  bmp_bit BITMAP_ALARM w' d = match alarm_forces wa d with Some b => negb b | None => bmp_bit BITMAP_ALARM w d end.

Lemma alarm_arbiration_bits w d : arbitrated w w (alarm_arbiration w) d.
Proof.
  unfold arbitrated, alarm_forces. cbv zeta. unfold alarm_arbiration, letc, alarm_bitmap_op, alarm_bitmap_mask_op.
  rewrite !get_alarm_bitmap_bit, !nz_b2z. unfold seqc.
  destruct (alarm_bit w ACL_E7 || alarm_bit w ACL_E9), (alarm_bit w ACL_HI_PRESS1); cbn [orb negb];
    rewrite !bmp_bit_op, (Z.eqb_sym d 0), (Z.eqb_sym d 1), (Z.eqb_sym d 3);
    destruct (Z.eqb_spec 0 d), (Z.eqb_spec 1 d), (Z.eqb_spec 3 d); (lia || done).
Qed.

Lemma alarm_pass_bits w d : arbitrated (alarm_pass w) w (alarm_pass w) d.
Proof.
  rewrite alarm_pass_turn. unfold seqc. set (w1 := (ComSta_u16Alarm_bitmap.[1] ::= _) _).
  assert (bmp_bit BITMAP_MASK w1 d = bmp_bit BITMAP_MASK w d /\
          bmp_bit BITMAP_ALARM w1 d = bmp_bit BITMAP_ALARM w d) as [E1 E2] by (subst w1; split; by obs).
  clearbody w1.
  assert (forall i, alarm_bit (alarm_arbiration w1) i = alarm_bit w1 i) as Hb.
  { intros i. by apply (keep_alarm_bit _ _ [] _ i alarm_arbiration_foot). }
  pose proof (alarm_arbiration_bits w1 d) as H. unfold arbitrated, alarm_forces in *. by rewrite !Hb, <- E1, <- E2.
Qed.

(** Arbitration of alarms.  After a pass, the fan, and both compressors, are forced off
    exactly while the fan-overload (E7) or purification-pump time-out (E9) alarm is shown,
    and compressor 1 also while its high-pressure alarm is; a forced output has its mask bit
    set and its alarm value 0, the others the opposite; no other output is touched. *)
Theorem alarm_pass_arbitration w :
  let w' := alarm_pass w in
  let dev := alarm_bit w' ACL_E7 || alarm_bit w' ACL_E9 in
  let forced d b := bmp_bit BITMAP_MASK w' d = b /\ bmp_bit BITMAP_ALARM w' d = negb b in
  forced DO_COMP1_BPOS (dev || alarm_bit w' ACL_HI_PRESS1) /\
  forced DO_COMP2_BPOS dev /\ forced DO_FAN_BPOS dev /\
  forall d, d <> DO_COMP1_BPOS -> d <> DO_COMP2_BPOS -> d <> DO_FAN_BPOS ->
    bmp_bit BITMAP_MASK w' d = bmp_bit BITMAP_MASK w d /\
    bmp_bit BITMAP_ALARM w' d = bmp_bit BITMAP_ALARM w d.
Proof.
  cbv zeta. pose proof (alarm_pass_bits w) as H.
  split; [apply (H DO_COMP1_BPOS)|]. split; [apply (H DO_COMP2_BPOS)|]. split; [apply (H DO_FAN_BPOS)|].
  intros d H0 H1 H3. specialize (H d). unfold arbitrated, alarm_forces in H.
  by rewrite !(proj2 (Z.eqb_neq _ _)) in H by done.
Qed.

(** ** Reachable states *)

(** What the alarm engine alone writes. *)
Definition engine_fields : list field := acl_state :: acl_timeout :: inv_fields.

(** The rest of the firmware runs: anything but the engine's own objects may change. *)
Definition engine_env (w w' : world) : Prop :=
  (forall c, fin (fld c) engine_fields = true -> w'⟪c⟫ = w⟪c⟫) /\ chain w' = chain w.

Lemma alarm_inv_env w w' : engine_env w w' -> alarm_inv w -> alarm_inv w'.
Proof.
  intros [Hrd Hc] [I1 I2 I3 I4 I5 I6 [P1 P2 P3]].
  split; rewrite ?Hc; try done.
  - intros i Hi. unfold conf_ok. rewrite !Hrd by done. by apply I1.
  - intros i Hi. rewrite Hrd by done. by apply I2.
  - intros i Hi. unfold alarm_bit. rewrite !Hrd by done. by apply I3.
  - intros i Hi. rewrite Hrd by done. by apply I4.
  - split; rewrite ?Hrd, ?Hc by done; done.
Qed.

Definition conf_okb (w : world) (i : Z) : bool :=
  (w⟪acl_id.[i]⟫ =? i) && (w⟪acl_enable_mask.[i]⟫ =? ACL_ENMODE_OTHER) &&
  (w⟪acl_reset_mask.[i]⟫ =? (if acl_auto i then ACL_ENMODE_AUTO_RESET_ALARM else ACL_ENMODE_HAND_RESET_ALARM)) &&
  (w⟪acl_alarm_level.[i]⟫ =? acl_level i) && (w⟪acl_dev_type.[i]⟫ =? DEV_TYPE_OTHER) &&
  (w⟪acl_state.[i]⟫ =? ALARM_FSM_INACTIVE).

Lemma conf_okb_spec w i :
  conf_okb w i = true -> conf_ok w i /\ w⟪acl_state.[i]⟫ = ALARM_FSM_INACTIVE.
Proof. unfold conf_okb, conf_ok. rewrite !andb_true_iff, !Z.eqb_eq. tauto. Qed.

Lemma init_alarm_conf w i :
  0 <= i < ACL_TOTAL_NUM ->
  conf_ok (alarm_acl_init w) i /\ (alarm_acl_init w)⟪acl_state.[i]⟫ = ALARM_FSM_INACTIVE.
Proof.
  intros Hi. apply conf_okb_spec, (range_check (conf_okb (alarm_acl_init w)) 23); [|done].
  vm_compute. reflexivity.
Qed.

Definition init_fields : list field :=
  [acl_timeout; acl_state; acl_id; acl_enable_mask; acl_reset_mask; acl_alarm_level;
   acl_dev_type; acl_alram_value; lock_last_state; lock_flag; lock_time; cycle_flag;
   cycle_compress_state; cycle_start_time; compress_high_flag; alarm_fan_timer;
   alarm_compressor1_timer; alarm_compressor2_timer; general_alarm_remove_bitmap].

(** After the chain, initialisation touches only the engine's tables. *)
Lemma alarm_acl_init_after : exists k,
  respc (unch init_fields []) k /\ forall w, alarm_acl_init w = k (chain_init w).
Proof.
  exists (init_alarm;; FOR i IN range ALARM_TOTAL_WORD DO general_alarm_remove_bitmap.[i] ::= 0 END).
  split; [|done]. unfold init_alarm. footprint.
Qed.

(** No alarm bit set: the bitmap as reset leaves it. *)
Definition no_alarm_bits (w : world) : Prop :=
  forall k, k ∈ [0; 1; 5] -> w⟪status_alarm_bitmap.[k]⟫ = 0.

Lemma alarm_acl_init_inv w : no_alarm_bits w -> alarm_inv (alarm_acl_init w).
Proof.
  intros Hb. destruct alarm_acl_init_after as (k & Hk & Ek).
  assert (forall c, fin (fld c) init_fields || is_req c = false ->
    (alarm_acl_init w)⟪c⟫ = (chain_init w)⟪c⟫) as Hrd.
  { intros c Hc. rewrite Ek. by eapply keep_rd, keep_rd_unch. }
  assert (chain (alarm_acl_init w) = []) as Hc.
  { rewrite Ek. exact (unch_chain _ _ _ _ (Hk _) eq_refl). }
  assert (forall n, n ∈ [0; 1; 5] -> (alarm_acl_init w)⟪status_alarm_bitmap.[n]⟫ = 0) as Hb'.
  { intros n Hn. rewrite Hrd by done. obs. by apply Hb. }
  split.
  - intros i Hi. by apply init_alarm_conf.
  - intros i Hi. destruct (init_alarm_conf w i Hi) as [_ ->]. done.
  - intros i Hi. destruct (init_alarm_conf w i Hi) as [_ ->]. unfold alarm_bit.
    rewrite Hb', Z.bits_0; [done|]. pose proof (byte_offset_div i).
    assert (byte_offset i = 0 \/ byte_offset i = 1) as [-> | ->] by (Z.div_mod_to_equations; lia); set_solver.
  - intros i Hi. destruct (init_alarm_conf w i Hi) as [_ ->]. by rewrite Hc.
  - rewrite Hc. constructor.
  - rewrite Hc. intros n Hn. by apply elem_of_nil in Hn.
  - split; rewrite ?Hc; [| |by rewrite Hb' by set_solver]; rewrite Hrd by done; reflexivity.
Qed.

Lemma alarm_acl_exe_inv w : alarm_inv w -> alarm_inv (alarm_acl_exe w).
Proof.
  intros Hv. unfold alarm_acl_exe, seqc. set (w1 := cif (fun w : cur => 255 <=? _) _ _ _).
  assert (alarm_inv w1) as Hv1.
  { apply (alarm_inv_env w); [|done]. subst w1. unfold cif.
    split; [intros c Hc | by case_match]. unfold assign.
    assert (feqb alarm_acl_exe_u8CNT (fld c) = false) as Hf.
    { apply not_true_iff_false. intros E%feqb_spec. by rewrite <- E in Hc. }
    case_match; unfold skip; by rewrite !rd_wr_fld. }
  unfold cif. case_match; [by apply alarm_pass_ok | done].
Qed.

(** States the engine can reach: initialisation, executions, and the rest of the firmware
    in between. *)
Inductive alarm_reach : world -> Prop :=
  | reach_init w : no_alarm_bits w -> alarm_reach (alarm_acl_init w)
  | reach_exe w : alarm_reach w -> alarm_reach (alarm_acl_exe w)
  | reach_env w w' : alarm_reach w -> engine_env w w' -> alarm_reach w'.

(** C2: the alarm engine's invariant.  In every reachable state, whatever the rest of the
    firmware does between executions, each alarm's machine is in one of its four states; the
    alarm's bit of the published bitmap is set, and its node is in the chain, exactly while
    the machine is ACTIVE or POSTACTIVE; no alarm is listed twice, nothing else is listed,
    and every node of the pool is accounted for. *)
Theorem alarm_reach_inv w : alarm_reach w -> alarm_inv w.
Proof.
  induction 1; eauto using alarm_acl_init_inv, alarm_acl_exe_inv, alarm_inv_env.
Qed.

Lemma alarm_reach_inv_witness :
  alarm_inv (Nat.iter 11 alarm_acl_exe (alarm_acl_init w_zero)) /\
  alarm_bit (Nat.iter 11 alarm_acl_exe (alarm_acl_init w_zero)) ACL_E4 = true.
Proof.
  split; [|vm_compute; reflexivity].
  apply alarm_reach_inv. cbn [Nat.iter nat_rect]. do 11 apply reach_exe. apply reach_init.
  intros k Hk. reflexivity.
Defined.

(** C3: one pass is one step of every debounced alarm.  From a state that satisfies the
    invariant, [alarm_pass] moves the machine and counter of each of the 23 alarms by
    exactly one step of the specification [fsm_step], on the answer its condition gave and
    the clearing request it honoured, with the alarm's own delay and reset mode. *)
Theorem alarm_pass_refines w i :
  alarm_inv w -> 0 <= i < ACL_TOTAL_NUM ->
  ((alarm_pass w)⟪acl_state.[i]⟫, (alarm_pass w)⟪acl_timeout.[i]⟫) =
    fsm_step (@Alarm_acl_delay w i) (acl_auto i) (pass_clr i w) (pass_trig i w)
      (w⟪acl_state.[i]⟫, w⟪acl_timeout.[i]⟫).
Proof. intros Hv Hi. by apply alarm_pass_ok. Qed.

Lemma alarm_pass_refines_witness :
  ((alarm_pass (alarm_acl_init w_zero))⟪acl_state.[4]⟫, (alarm_pass (alarm_acl_init w_zero))⟪acl_timeout.[4]⟫) =
  (ALARM_FSM_PREACTIVE, 3).
Proof.
  rewrite alarm_pass_refines; [vm_compute; reflexivity | | lia].
  apply alarm_acl_init_inv. intros k Hk. reflexivity.
Defined.

(** ** Debouncing and latching *)

(** [held i d a n w w']: [n] consecutive passes, with the rest of the firmware running in
    between, in which the condition of alarm [i] answers [a], no clearing request for it is
    honoured and its delay is [d]. *)
Inductive held (i d a : Z) : Z -> world -> world -> Prop :=
  | held_0 w : held i d a 0 w w
  | held_S n w w1 w2 :
      held i d a n w w1 -> engine_env w1 w2 ->
      @Alarm_acl_delay w2 i = d -> pass_trig i w2 = a -> pass_clr i w2 = false ->
      held i d a (n + 1) w (alarm_pass w2).

Lemma held_inv i d a n w w' : held i d a n w w' -> alarm_inv w -> alarm_inv w' /\ 0 <= n.
Proof.
  induction 1 as [|n w w1 w2 H IH He Hd Ht Hc]; intros Hv; [done|].
  destruct (IH Hv). split; [|lia]. by apply alarm_pass_ok, (alarm_inv_env w1).
Qed.

(** Each such pass is one specification step. *)
Lemma held_step i d a w1 w2 :
  0 <= i < ACL_TOTAL_NUM -> alarm_inv w1 -> engine_env w1 w2 ->
  @Alarm_acl_delay w2 i = d -> pass_trig i w2 = a -> pass_clr i w2 = false ->
  ((alarm_pass w2)⟪acl_state.[i]⟫, (alarm_pass w2)⟪acl_timeout.[i]⟫) =
    fsm_step d (acl_auto i) false a (w1⟪acl_state.[i]⟫, w1⟪acl_timeout.[i]⟫).
Proof.
  intros Hi Hv He <- <- <-. destruct (alarm_pass_ok w2 (alarm_inv_env _ _ He Hv)) as [_ ->]; [|done].
  destruct He as [He _]. by rewrite !He.
Qed.

(** Closed forms of the repeated step. *)
Definition rise (d n t : Z) : Z * Z :=
  if n =? 0 then (ALARM_FSM_INACTIVE, t)
  else if n <=? d + 1 then (ALARM_FSM_PREACTIVE, d + 1 - n) else (ALARM_FSM_ACTIVE, 0).
Definition fall (d n t : Z) : Z * Z :=
  if n =? 0 then (ALARM_FSM_ACTIVE, t)
  else if n <=? d + 1 then (ALARM_FSM_POSTACTIVE, d + 1 - n) else (ALARM_FSM_INACTIVE, 0).

Lemma rise_step d auto n t :
  0 <= d -> 0 <= n -> fsm_step d auto false ALARM_ACL_TRIGGERED (rise d n t) = rise d (n + 1) t.
Proof.
  intros Hd Hn. unfold rise. rewrite (proj2 (Z.eqb_neq (n + 1) 0)) by lia.
  destruct (Z.eqb_spec n 0) as [->|H0].
  { cbn [fsm_step Z.eqb Pos.eqb andb]. rewrite (proj2 (Z.leb_le (0 + 1) (d + 1))) by lia. f_equal. lia. }
  destruct (Z.leb_spec n (d + 1)); cbn [fsm_step Z.eqb Pos.eqb].
  - destruct (Z.ltb_spec 0 (d + 1 - n)), (Z.leb_spec (n + 1) (d + 1)); try lia; f_equal; lia.
  - by rewrite (proj2 (Z.leb_gt (n + 1) (d + 1))) by lia.
Qed.

Lemma fall_step d n t :
  0 <= d -> 0 <= n -> fsm_step d true false ALARM_ACL_CLEARED (fall d n t) = fall d (n + 1) t.
Proof.
  intros Hd Hn. unfold fall. rewrite (proj2 (Z.eqb_neq (n + 1) 0)) by lia.
  destruct (Z.eqb_spec n 0) as [->|H0].
  { cbn [fsm_step Z.eqb Pos.eqb andb]. rewrite (proj2 (Z.leb_le (0 + 1) (d + 1))) by lia. f_equal. lia. }
  destruct (Z.leb_spec n (d + 1)); cbn [fsm_step Z.eqb Pos.eqb andb].
  - destruct (Z.ltb_spec 0 (d + 1 - n)), (Z.leb_spec (n + 1) (d + 1)); try lia; f_equal; lia.
  - by rewrite (proj2 (Z.leb_gt (n + 1) (d + 1))) by lia.
Qed.

Lemma held_rise i d n w w' :
  0 <= i < ACL_TOTAL_NUM -> alarm_inv w -> 0 <= d -> w⟪acl_state.[i]⟫ = ALARM_FSM_INACTIVE ->
  held i d ALARM_ACL_TRIGGERED n w w' ->
  (w'⟪acl_state.[i]⟫, w'⟪acl_timeout.[i]⟫) = rise d n (w⟪acl_timeout.[i]⟫).
Proof.
  intros Hi Hv Hd Hs. induction 1 as [|n w w1 w2 H IH He Hdl Ht Hc]; [by rewrite Hs|].
  destruct (held_inv _ _ _ _ _ _ H Hv) as [Hv1 Hn].
  rewrite (held_step i d ALARM_ACL_TRIGGERED w1 w2), IH by done. by apply rise_step.
Qed.

Lemma held_fall i d n w w' :
  0 <= i < ACL_TOTAL_NUM -> alarm_inv w -> 0 <= d -> acl_auto i = true ->
  w⟪acl_state.[i]⟫ = ALARM_FSM_ACTIVE -> held i d ALARM_ACL_CLEARED n w w' ->
  (w'⟪acl_state.[i]⟫, w'⟪acl_timeout.[i]⟫) = fall d n (w⟪acl_timeout.[i]⟫).
Proof.
  intros Hi Hv Hd Ha Hs. induction 1 as [|n w w1 w2 H IH He Hdl Ht Hc]; [by rewrite Hs|].
  destruct (held_inv _ _ _ _ _ _ H Hv) as [Hv1 Hn].
  rewrite (held_step i d ALARM_ACL_CLEARED w1 w2), IH, Ha by done. by apply fall_step.
Qed.

(** C9: debouncing.  An alarm whose condition holds on every pass appears in the bitmap
    after exactly [delay + 2] passes, and one that resets by itself and whose condition is
    cleared on every pass disappears after exactly [delay + 2] passes: not earlier, and not
    later, however long the condition stays. *)
Theorem alarm_debounce i d n w w' :
  0 <= i < ACL_TOTAL_NUM -> alarm_inv w -> 0 <= d ->
  (w⟪acl_state.[i]⟫ = ALARM_FSM_INACTIVE -> held i d ALARM_ACL_TRIGGERED n w w' ->
   alarm_bit w' i = (d + 2 <=? n)) /\
  (w⟪acl_state.[i]⟫ = ALARM_FSM_ACTIVE -> acl_auto i = true -> held i d ALARM_ACL_CLEARED n w w' ->
   alarm_bit w' i = (n <? d + 2)).
Proof.
  intros Hi Hv Hd. split.
  - intros Hs H. destruct (held_inv _ _ _ _ _ _ H Hv) as [Hv1 Hn]. rewrite (inv_bit w' Hv1 i Hi).
    apply (held_rise i d n w w' Hi Hv Hd Hs), (f_equal fst) in H. cbn [fst] in H. rewrite H. unfold rise.
    destruct (Z.eqb_spec n 0), (Z.leb_spec n (d + 1)), (Z.leb_spec (d + 2) n); (done || lia).
  - intros Hs Ha H. destruct (held_inv _ _ _ _ _ _ H Hv) as [Hv1 Hn]. rewrite (inv_bit w' Hv1 i Hi).
    apply (held_fall i d n w w' Hi Hv Hd Ha Hs), (f_equal fst) in H. cbn [fst] in H. rewrite H. unfold fall.
    destruct (Z.eqb_spec n 0), (Z.leb_spec n (d + 1)), (Z.ltb_spec n (d + 2)); (done || lia).
Qed.

Lemma engine_env_refl w : engine_env w w.
Proof. by split. Qed.

Lemma engine_env_poke l w :
  forallb (fun p => negb (fin (fld p.1) engine_fields)) l = true -> engine_env w (poke l w).
Proof.
  induction l as [|[c v] l IH]; [intros _; apply engine_env_refl|].
  cbn [forallb fst]. intros [Hc%negb_true_iff Hl]%andb_true_iff. destruct (IH Hl) as [H1 H2].
  split; [|exact H2]. intros d Hd. change (poke ((c, v) :: l) w) with (wr c v (poke l w)).
  rewrite rd_wr_fld; [by apply H1|]. apply not_true_iff_false. intros E%feqb_spec. congruence.
Qed.

Lemma alarm_debounce_witness :
  alarm_bit (Nat.iter 5 alarm_pass (alarm_acl_init w_zero)) ACL_E4 = true /\
  alarm_bit (Nat.iter 4 alarm_pass (alarm_acl_init w_zero)) ACL_E4 = false.
Proof.
  assert (alarm_inv (alarm_acl_init w_zero)) as Hv.
  { apply alarm_acl_init_inv. intros k Hk. reflexivity. }
  set (W n := Nat.iter n alarm_pass (alarm_acl_init w_zero)).
  assert (forall n, (n < 5)%nat -> held 4 3 1 (Z.of_nat n) (W 0%nat) (W n) ->
    held 4 3 1 (Z.of_nat (S n)) (W 0%nat) (W (S n))) as Hstep.
  { intros n Hn H. rewrite Nat2Z.inj_succ, <- Z.add_1_r. change (W (S n)) with (alarm_pass (W n)).
    apply (held_S 4 3 1 (Z.of_nat n) (W 0%nat) (W n) (W n) H (engine_env_refl _));
      do 5 (destruct n as [|n]; [vm_compute; reflexivity|]); lia. }
  assert (held 4 3 1 0 (W 0%nat) (W 0%nat)) as H0 by apply held_0.
  pose proof (Hstep 3%nat ltac:(lia) (Hstep 2%nat ltac:(lia) (Hstep 1%nat ltac:(lia)
    (Hstep 0%nat ltac:(lia) H0)))) as H4.
  split.
  - destruct (alarm_debounce 4 3 5 (W 0%nat) (W 5%nat) ltac:(lia) Hv ltac:(lia)) as [H _].
    apply H; [vm_compute; reflexivity | exact (Hstep 4%nat ltac:(lia) H4)].
  - destruct (alarm_debounce 4 3 4 (W 0%nat) (W 4%nat) ltac:(lia) Hv ltac:(lia)) as [H _].
    apply H; [vm_compute; reflexivity | exact H4].
Defined.

(** Hand reset.  Once active, the pump time-out (E9), the water leak and the exhaust
    lock (E12) stay active, whatever their conditions answer, as long as no clearing request
    is honoured; a clearing request honoured in a pass ends any alarm within that pass. *)
Theorem alarm_hand_reset i w :
  0 <= i < ACL_TOTAL_NUM -> alarm_inv w -> w⟪acl_state.[i]⟫ = ALARM_FSM_ACTIVE ->
  (acl_auto i = false -> pass_clr i w = false ->
   (alarm_pass w)⟪acl_state.[i]⟫ = ALARM_FSM_ACTIVE /\ alarm_bit (alarm_pass w) i = true) /\
  (pass_clr i w = true ->
   (alarm_pass w)⟪acl_state.[i]⟫ = ALARM_FSM_INACTIVE /\ alarm_bit (alarm_pass w) i = false).
Proof.
  intros Hi Hv Hs. destruct (alarm_pass_ok w Hv) as [Hv' Hp]. specialize (Hp i Hi).
  rewrite Hs in Hp. rewrite (inv_bit _ Hv' i Hi). split.
  - intros Ha Hc. rewrite Ha, Hc in Hp. apply (f_equal fst) in Hp. cbn [fst] in Hp. rewrite Hp.
    cbn [fsm_step]. rewrite andb_false_r. by destruct (pass_trig i w =? 1).
  - intros Hc. rewrite Hc in Hp.
    destruct (after_cond_state (turn i w) i i Hi) as (_ & _ & [Htr _]); [exact Hc|].
    unfold pass_trig in Hp. rewrite Htr in Hp. apply (f_equal fst) in Hp. cbn [fst fsm_step Z.eqb Z.ltb Z.compare] in Hp.
    by rewrite Hp.
Qed.

(** A water leak has been reported for fourteen passes; then the floor is dry. *)
Definition w_leak : world :=
  Nat.iter 14 alarm_pass (poke [(ComSta_u16Din_bitmap.[0], 0x8000)] (alarm_acl_init w_zero)).
Definition w_dry : world := poke [(ComSta_u16Din_bitmap.[0], 0)] w_leak.
(** The operator acknowledges. *)
Definition w_ack : world :=
  poke [(general_alarm_remove_bitmap.[0], 0xffff); (general_alarm_remove_bitmap.[1], 0xffff)] w_dry.

Lemma w_leak_inv : alarm_inv w_leak.
Proof.
  unfold w_leak. set (w0 := poke _ _).
  assert (alarm_inv w0) as H0.
  { apply (alarm_inv_env (alarm_acl_init w_zero)); [by apply engine_env_poke|].
    apply alarm_acl_init_inv. intros k Hk. reflexivity. }
  clearbody w0. generalize 14%nat as n. induction n as [|n IH]; [done|]. cbn. by apply alarm_pass_ok.
Qed.

Lemma alarm_hand_reset_witness :
  alarm_bit (alarm_pass w_dry) ACL_WATER_LEAK = true /\
  alarm_bit (alarm_pass w_ack) ACL_WATER_LEAK = false.
Proof.
  assert (alarm_inv w_dry) as Hd by (eapply alarm_inv_env; [by apply engine_env_poke | apply w_leak_inv]).
  assert (alarm_inv w_ack) as Ha by (eapply alarm_inv_env; [by apply engine_env_poke | exact Hd]).
  split.
  - apply (alarm_hand_reset 10 w_dry ltac:(lia) Hd); vm_compute; reflexivity.
  - apply (alarm_hand_reset 10 w_ack ltac:(lia) Ha); vm_compute; reflexivity.
Defined.

(** ** The temperature-sensor status bits *)

Lemma ntc_check_bit ch bit action flag w b :
  0 <= bit < 16 -> 0 <= b < 16 ->
  remap_bit (ntc_check ch bit action flag w).2 SENSOR_STS_REG_NO b =
  if nz (w⟪dev_mask_ain⟫ .& (1 .<< ch)) && (bit =? b) then
    nz (compare_calc (w⟪ComSta_u16Ain.[ch]⟫) (-280) 1400 OUT_MIN_MAX_TYPE) && (action =? 1)
  else remap_bit w SENSOR_STS_REG_NO b.
Proof.
  intros Hbit Hb. unfold ntc_check, cif, seqc, reta.
  destruct (nz (w⟪dev_mask_ain⟫ .& _)); cbn [snd andb]; [|done].
  destruct (nz (compare_calc _ _ _ _)); cbn [snd andb]; rewrite remap_bit_set by done; rewrite Z.eqb_refl; cbn [andb];
    by destruct (bit =? b).
Qed.

(** A fault of the second temperature sensor is never recorded.  Evaluating alarm E6
    leaves the status bit of NTC2 as it was, whether or not that sensor is out of range;
    and with NTC2 fitted it always clears the status bit of NTC1, also when NTC1 is the
    faulty one. *)
Theorem acl06_ntc2_unrecorded p w :
  clears w p = false ->
  let w' := (acl06 p w).2 in
  remap_bit w' SENSOR_STS_REG_NO AI_NTC2 = remap_bit w SENSOR_STS_REG_NO AI_NTC2 /\
  (Z.testbit (w⟪dev_mask_ain⟫) AI_NTC2 = true -> remap_bit w' SENSOR_STS_REG_NO AI_NTC1 = false).
Proof.
  intros Hc. cbv zeta. unfold acl06, unless_cleared, unless_cleared_do, bindc.
  rewrite acl_clear_ret, Hc. cbn [nz Z.eqb negb]. unfold seqc, reta; cbn [snd].
  set (w0 := (acl_clear p w).2).
  assert (forall c, fin (fld c) [acl_state; acl_timeout; general_alarm_remove_bitmap] || is_req c = false ->
    w0⟪c⟫ = w⟪c⟫) as H0 by (intros c H; by eapply keep_rda, keep_rd_unch; [apply acl_clear_foot|]).
  assert (forall v e b, remap_bit (assign acl_alram_value.[p] e v) SENSOR_STS_REG_NO b =
    remap_bit v SENSOR_STS_REG_NO b) as Ha by (intros; unfold remap_bit; by obs).
  rewrite !Ha, !ntc_check_bit by lia. cbn [Z.eqb Pos.eqb]. rewrite !andb_false_r, !andb_true_r.
  assert (remap_bit w0 SENSOR_STS_REG_NO AI_NTC2 = remap_bit w SENSOR_STS_REG_NO AI_NTC2) as ->
    by (unfold remap_bit; by rewrite H0).
  split; [done|]. intros Hm. rewrite (keep_rda (ntc_check _ _ _ _)) by keep_tac.
  by rewrite H0, land_pow2, Hm by (done || lia).
Qed.

Lemma acl06_ntc2_unrecorded_witness :
  let w := poke [(dev_mask_ain.[0], 6); (ComSta_u16Ain.[AI_NTC1], 2000); (ComSta_u16Ain.[AI_NTC2], 2000)] w_zero in
  remap_bit (acl06 6 w).2 SENSOR_STS_REG_NO AI_NTC2 = false /\
  remap_bit (acl06 6 w).2 SENSOR_STS_REG_NO AI_NTC1 = false /\ (acl06 6 w).1 = 1.
Proof.
  cbv zeta. set (w := poke _ _).
  destruct (acl06_ntc2_unrecorded 6 w) as [H1 H2]; [vm_compute; reflexivity|].
  split_and!; [rewrite H1; vm_compute; reflexivity | apply H2; vm_compute; reflexivity | vm_compute; reflexivity].
Defined.
