(* ===== verification/Fan.v ===== *)
(** * usr/modules/req_execution.c, first part: output requests and the fan

    [req_bitmap_op] and [req_ao_op], through which every request is made; the fan's state
    machine, its signal, and the speed requested of the EC fan. *)

From S2P Require Import Prelude Conf Fifo Machine SysStatus EventRecord AlarmCalc.

(** kits/calc.c; the arguments and the result are [int16_t]. *)
Definition lim_min_max (mn mx data : Z) : Z :=
  let mn := s16 mn in let mx := s16 mx in let data := s16 data in
  if data <=? mn then mn else if mx <=? data then mx else data.

Definition req_bitmap_op (component_bpos action : Z) : cmd := bitmap_op BITMAP_REQ component_bpos action.

Definition req_ao_op (component_bpos value : Z) : cmd :=
  IF («ComPara_u16Manual_Test_En» =? 0) && («ComPara_u16Test_Mode_Type» =? 0) THEN
    match component_bpos with
    | AO_EC_FAN => l_ao_list.[component_bpos, BITMAP_REQ] ::= value
    | AO_EC_COMPRESSOR => l_ao_list.[component_bpos, BITMAP_REQ] ::= value
    | _ => l_ao_list.[component_bpos, BITMAP_REQ] ::= value
    end
  ELSE l_ao_list.[component_bpos, BITMAP_REQ] ::= value END.

Definition analog_step_follower {w : cur} (target dev_type : Z) : Z :=
  let target := s16 target in
  match dev_type with
  | AO_EC_FAN =>
      let current_output := «status_aout.[AO_EC_FAN]» in
      let delta := s16 (target - current_output) in
      if «fan_adjust_step» <? Z.abs delta then
        if 0 <? delta then s16 (current_output + «fan_adjust_step»)
        else s16 (current_output - «fan_adjust_step»)
      else if delta =? 0 then s16 current_output
      else s16 (current_output + delta)
  | _ => target
  end.

Definition Close_DIS_PWR (u8Type : Z) : cmd :=
  if nz u8Type then req_bitmap_op DO_PWR_CTRL_BPOS 1 else req_bitmap_op DO_PWR_CTRL_BPOS 0.

Definition Fan_Fsm_Out (Fan_Gear : Z) : cmd :=
  match Fan_Gear with
  | FAN_GEAR_START => req_bitmap_op DO_FAN_LOW_BPOS 1;; req_bitmap_op DO_F24_BPOS 1
  | FAN_GEAR_NO => req_bitmap_op DO_FAN_LOW_BPOS 0;; req_bitmap_op DO_F24_BPOS 0
  | _ => req_bitmap_op DO_FAN_LOW_BPOS 0;; req_bitmap_op DO_F24_BPOS 0
  end.

Abbreviation fan_state := l_l_fsm_state.[FAN_FSM_STATE].
Abbreviation fan_timeout := l_comp_timeout.[DO_FAN_BPOS].

(** The [switch] of [fan_fsm_exe]. *)
Definition fan_switch (state fan_signal : Z) : cmd :=
  match state with
  | FSM_FAN_IDLE =>
      (if fan_signal =? FAN_SIG_START then
         fan_state ::= FSM_FAN_INIT;;
         fan_timeout ::= «ComPara_u16Start_Delay»
       else
         fan_state ::= FSM_FAN_IDLE;;
         fan_timeout ::= «fan_timeout»);;
      l_Fan_Gear ::= FAN_GEAR_NO
  | FSM_FAN_INIT =>
      if negb (fan_signal =? FAN_SIG_START) then
        fan_state ::= FSM_FAN_IDLE;;
        l_Fan_Gear ::= FAN_GEAR_NO;;
        fan_timeout ::= «fan_timeout»
      else
        IF «fan_timeout» =? 0 THEN
          fan_state ::= FSM_FAN_START_UP;;
          fan_timeout ::= 0;;
          l_Fan_Gear ::= FAN_GEAR_START
        ELSE
          fan_state ::= FSM_FAN_INIT;;
          l_Fan_Gear ::= FAN_GEAR_NO
        END
  | FSM_FAN_START_UP =>
      IF «fan_timeout» =? 0 THEN fan_state ::= FSM_FAN_NORM ELSE fan_state ::= FSM_FAN_START_UP END;;
      l_Fan_Gear ::= FAN_GEAR_START;;
      fan_timeout ::= «fan_timeout»
  | FSM_FAN_NORM =>
      IF (fan_signal =? FAN_SIG_STOP) && («fan_timeout» =? 0) THEN
        fan_state ::= FSM_FAN_SHUT;;
        fan_timeout ::= «ComPara_u16Fan_Stop_Delay»
      ELSE
        fan_state ::= FSM_FAN_NORM;;
        fan_timeout ::= «fan_timeout»
      END;;
      l_Fan_Gear ::= FAN_GEAR_START
  | FSM_FAN_SHUT =>
      if fan_signal =? FAN_SIG_START then
        fan_state ::= FSM_FAN_NORM;;
        l_Fan_Gear ::= FAN_GEAR_START;;
        fan_timeout ::= «fan_timeout»
      else
        IF «fan_timeout» =? 0 THEN
          fan_state ::= FSM_FAN_IDLE;;
          l_Fan_Gear ::= FAN_GEAR_NO;;
          fan_timeout ::= «fan_timeout»
        ELSE
          fan_state ::= FSM_FAN_SHUT;;
          fan_timeout ::= «fan_timeout»
        END
  | _ =>
      fan_state ::= FSM_FAN_IDLE;;
      l_Fan_Gear ::= FAN_GEAR_NO;;
      fan_timeout ::= 0
  end.

Definition fan_fsm_exe (fan_signal : Z) : cmd :=
  IF nz (get_alarm_bitmap ACL_E7) THEN
    fan_state ::= FSM_FAN_IDLE;;
    l_Fan_Gear ::= FAN_GEAR_NO;;
    fan_timeout ::= 0
  END;;
  LET state := «fan_state» IN
  fan_switch state fan_signal;;
  IF negb (sys_get_pwr_sts =? 0) && negb («l_Fan_Gear» =? FAN_GEAR_NO) THEN
    l_Fan_Gear ::= FAN_GEAR_LOW
  END;;
  LET gear := «l_Fan_Gear» IN
  Fan_Fsm_Out gear.

(** In the modes that are neither FIX nor INV_COMP the two branches on the uninitialised
    [status_sense] are the same. *)
Definition fan_require {w : cur} (req_temp : Z) : Z :=
  let fan_mode := «fan_mode» in
  let u16Fan_Speed :=
    if nz «ComPara_u16LN_Mode» || nz «ComPara_u16LN_Enable» then «ComPara_u16LN_Fan» else «fan_set_speed» in
  if «l_Fan_Gear» =? FAN_GEAR_NO then 0
  else if «fan_type» =? FAN_TPYE_EC then
    let require :=
      if «fan_state» =? FSM_FAN_START_UP then u16Fan_Speed
      else if fan_mode =? FAM_MODE_INV_COMP then u16 (analog_step_follower req_temp AO_EC_FAN)
      else u16Fan_Speed in
    u16 (lim_min_max «fan_min_speed» «fan_max_speed» require)
  else u16Fan_Speed.

Definition ec_fan_output (req_temp req_hum fan_sig : Z) : cmd :=
  LET require := fan_require req_temp IN
  req_ao_op AO_EC_FAN require.

Definition fan_signal_gen {w : cur} : Z :=
  if (sys_get_pwr_sts =? 1) && («l_Fan_Close» =? 0) then FAN_SIG_START
  else if (sys_get_pwr_sts =? 0) || negb («l_Fan_Close» =? 0) then
    if («ComSta_u16Dout_bitmap.[0]» .& ((1 .<< DO_COMP1_BPOS) .| (1 .<< DO_COMP2_BPOS))) =? 0
    then FAN_SIG_STOP else FAN_SIG_IDLE
  else FAN_SIG_IDLE.

Definition fan_req_exe (target_req_temp target_req_hum : Z) : cmd :=
  LET fan_signal := fan_signal_gen IN
  fan_fsm_exe fan_signal;;
  ec_fan_output target_req_temp target_req_hum fan_signal.

(** ** Footprints *)

Lemma req_bitmap_op_foot b a : respc (unch [] [b]) (req_bitmap_op b a).
Proof. apply unch_bitmap_op. unfold zin. cbn [existsb]. by rewrite Z.eqb_refl. Qed.
Lemma req_ao_op_foot b v : respc (unch [l_ao_list] []) (req_ao_op b v).
Proof. unfold req_ao_op. footprint. Qed.
Lemma Close_DIS_PWR_foot t : respc (unch [] [DO_PWR_CTRL_BPOS]) (Close_DIS_PWR t).
Proof. unfold Close_DIS_PWR, req_bitmap_op. footprint. Qed.
Lemma Fan_Fsm_Out_foot g : respc (unch [] [DO_FAN_BPOS; DO_F24_BPOS]) (Fan_Fsm_Out g).
Proof. unfold Fan_Fsm_Out, req_bitmap_op. footprint. Qed.
#[export] Hint Resolve req_bitmap_op_foot req_ao_op_foot Close_DIS_PWR_foot Fan_Fsm_Out_foot : foot.
Lemma fan_switch_foot s f : respc (unch [l_l_fsm_state; l_comp_timeout; l_Fan_Gear] []) (fan_switch s f).
Proof. unfold fan_switch. footprint. Qed.
#[export] Hint Resolve fan_switch_foot : foot.
Definition fan_fields : list field := [l_l_fsm_state; l_comp_timeout; l_Fan_Gear; l_ao_list].
Lemma fan_fsm_exe_foot f :
  respc (unch [l_l_fsm_state; l_comp_timeout; l_Fan_Gear] [DO_FAN_BPOS; DO_F24_BPOS]) (fan_fsm_exe f).
Proof. unfold fan_fsm_exe. footprint. Qed.
#[export] Hint Resolve fan_fsm_exe_foot : foot.
Lemma ec_fan_output_foot a b c : respc (unch [l_ao_list] []) (ec_fan_output a b c).
Proof. unfold ec_fan_output. footprint. Qed.
#[export] Hint Resolve ec_fan_output_foot : foot.
Lemma fan_req_exe_foot a b : respc (unch fan_fields [DO_FAN_BPOS; DO_F24_BPOS]) (fan_req_exe a b).
Proof. unfold fan_req_exe. footprint. Qed.
#[export] Hint Resolve fan_req_exe_foot : foot.

(** ** The fan's state machine *)

Definition fan_running (w : world) : bool := FSM_FAN_START_UP <=? w⟪fan_state⟫.

(** The state is one of the five and the gear is engaged exactly in the running ones. *)
Record fan_inv (w : world) : Prop := {
  fan_inv_st : 0 <= w⟪fan_state⟫ <= FSM_FAN_SHUT;
  fan_inv_gear : w⟪l_Fan_Gear⟫ = if fan_running w then FAN_GEAR_LOW else FAN_GEAR_NO
}.

(** The next state: [e7] the fan-overload alarm, [expired] the delay has run out. *)
Definition fan_next (e7 expired : bool) (sig st : Z) : Z :=
  let '(st, expired) := if e7 then (FSM_FAN_IDLE, true) else (st, expired) in
  match st with
  | FSM_FAN_IDLE => if sig =? FAN_SIG_START then FSM_FAN_INIT else FSM_FAN_IDLE
  | FSM_FAN_INIT =>
      if sig =? FAN_SIG_START then if expired then FSM_FAN_START_UP else FSM_FAN_INIT else FSM_FAN_IDLE
  | FSM_FAN_START_UP => if expired then FSM_FAN_NORM else FSM_FAN_START_UP
  | FSM_FAN_NORM => if (sig =? FAN_SIG_STOP) && expired then FSM_FAN_SHUT else FSM_FAN_NORM
  | FSM_FAN_SHUT =>
      if sig =? FAN_SIG_START then FSM_FAN_NORM else if expired then FSM_FAN_IDLE else FSM_FAN_SHUT
  | _ => FSM_FAN_IDLE
  end.

Lemma fan_switch_spec w sig :
  fan_inv w ->
  let w' := fan_switch (w⟪fan_state⟫) sig w in
  w'⟪fan_state⟫ = fan_next false (w⟪fan_timeout⟫ =? 0) sig (w⟪fan_state⟫) /\ fan_inv w'.
Proof.
  intros [Hs Hg]. unfold fan_running in Hg. cbv zeta.
  assert (w⟪fan_state⟫ = 0 \/ w⟪fan_state⟫ = 1 \/ w⟪fan_state⟫ = 2 \/ w⟪fan_state⟫ = 3 \/ w⟪fan_state⟫ = 4)
    as Hst by lia.
  assert (forall w', 0 <= w'⟪fan_state⟫ <= 4 /\
    w'⟪l_Fan_Gear⟫ = (if FSM_FAN_START_UP <=? w'⟪fan_state⟫ then 1 else 0) -> fan_inv w') as Hi by (by intros w' []).
  destruct Hst as [E|[E|[E|[E|E]]]]; rewrite E in *; cbn [fan_switch fan_next Z.leb Z.compare Pos.compare Pos.compare_cont] in *;
    try destruct (sig =? FAN_SIG_START); cbn [negb];
    try (destruct (sig =? FAN_SIG_STOP)); cbn [andb];
    unfold cif, seqc; cbv beta; try (destruct (w⟪fan_timeout⟫ =? 0) eqn:Et); rewrite ?Et;
    (split; [obs; reflexivity || done | apply Hi; obs; rewrite ?E, ?Hg; rewrite ?u16_small by lia; split; [lia | reflexivity]]).
Qed.

(** The E7 branch only resets the machine. *)
Lemma fan_reset_spec w :
  fan_inv w ->
  let w1 := (IF nz (get_alarm_bitmap ACL_E7) THEN
    fan_state ::= FSM_FAN_IDLE;; l_Fan_Gear ::= FAN_GEAR_NO;; fan_timeout ::= 0 END) w in
  fan_inv w1 /\
  w1⟪fan_state⟫ = (if alarm_bit w ACL_E7 then FSM_FAN_IDLE else w⟪fan_state⟫) /\
  (w1⟪fan_timeout⟫ =? 0) = (alarm_bit w ACL_E7 || (w⟪fan_timeout⟫ =? 0)).
Proof.
  intros Hi. cbv zeta. unfold cif. rewrite get_alarm_bitmap_bit, nz_b2z.
  destruct (alarm_bit w ACL_E7); [|done].
  split; [split; unfold fan_running; by obs | split; by obs].
Qed.

Lemma Fan_Fsm_Out_gear g :
  Fan_Fsm_Out g =
  let a := if g =? FAN_GEAR_LOW then 1 else 0 in
  (req_bitmap_op DO_FAN_BPOS a;; req_bitmap_op DO_F24_BPOS a).
Proof. by destruct g as [|[p|p|]|p]. Qed.

Lemma fan_out_spec g w :
  req_bit (Fan_Fsm_Out g w) DO_FAN_BPOS = (g =? FAN_GEAR_LOW) /\
  req_bit (Fan_Fsm_Out g w) DO_F24_BPOS = (g =? FAN_GEAR_LOW).
Proof.
  rewrite Fan_Fsm_Out_gear. unfold req_bitmap_op, seqc. rewrite !bmp_bit_op.
  by destruct (g =? FAN_GEAR_LOW).
Qed.

Lemma fan_fsm_exe_ok w sig :
  fan_inv w ->
  let w' := fan_fsm_exe sig w in
  w'⟪fan_state⟫ = fan_next (alarm_bit w ACL_E7) (w⟪fan_timeout⟫ =? 0) sig (w⟪fan_state⟫) /\
  fan_inv w' /\
  req_bit w' DO_FAN_BPOS = fan_running w' /\ req_bit w' DO_F24_BPOS = fan_running w'.
Proof.
  intros Hi. cbv zeta. pose proof (fan_reset_spec w Hi) as (H1 & Hs1 & Ht1).
  set (w1 := (IF nz _ THEN _ END) w) in *.
  pose proof (fan_switch_spec w1 sig H1) as (Hs2 & H2). set (w2 := fan_switch _ _ w1) in *.
  set (w3 := (IF negb (sys_get_pwr_sts =? 0) && negb («l_Fan_Gear» =? FAN_GEAR_NO) THEN
    l_Fan_Gear ::= FAN_GEAR_LOW END) w2).
  assert (fan_fsm_exe sig w = Fan_Fsm_Out (w3⟪l_Fan_Gear⟫) w3) as -> by reflexivity.
  assert (w3⟪fan_state⟫ = w2⟪fan_state⟫ /\ w3⟪l_Fan_Gear⟫ = w2⟪l_Fan_Gear⟫) as [Hs3 Hg3].
  { subst w3. unfold cif. destruct (_ && _) eqn:E; [|done]. split; obs; [done|].
    apply andb_true_iff in E as [_ E%negb_true_iff]. destruct H2 as [_ Hg]. rewrite Hg in *.
    by destruct (fan_running w2). }
  clearbody w3. destruct (fan_out_spec (w3⟪l_Fan_Gear⟫) w3) as [Ho1 Ho2].
  assert (forall c, feqb (fld c) l_bitmap = false -> (Fan_Fsm_Out (w3⟪l_Fan_Gear⟫) w3)⟪c⟫ = w3⟪c⟫) as Hk.
  { intros c Hc. eapply keep_rd, keep_rd_unch; [apply Fan_Fsm_Out_foot|]. unfold is_req. by rewrite Hc. }
  set (w' := Fan_Fsm_Out _ w3) in *. rewrite Hg3 in Ho1, Ho2.
  assert (w2⟪fan_state⟫ = fan_next (alarm_bit w ACL_E7) (w⟪fan_timeout⟫ =? 0) sig (w⟪fan_state⟫)) as Hfin.
  { rewrite Hs2, Hs1, Ht1. by destruct (alarm_bit w ACL_E7). }
  destruct H2 as [Hr Hg]. unfold fan_running in *. rewrite Ho1, Ho2, !Hk, Hs3 by done.
  split; [done|]. split; [split; unfold fan_running; rewrite !Hk, ?Hg3, Hs3 by done; done|].
  rewrite Hg. by destruct (FSM_FAN_START_UP <=? w2⟪fan_state⟫).
Qed.

Lemma fan_output_keep w a b c d :
  let w' := ec_fan_output a b c w in
  w'⟪fan_state⟫ = w⟪fan_state⟫ /\ w'⟪l_Fan_Gear⟫ = w⟪l_Fan_Gear⟫ /\ req_bit w' d = req_bit w d.
Proof. cbv zeta. split_and!; [by obs.. |]. apply (unch_req _ _ _ _ (ec_fan_output_foot a b c w)). done. Qed.

Definition comp_out_on (w : world) : bool :=
  Z.testbit (w⟪ComSta_u16Dout_bitmap.[0]⟫) DO_COMP1_BPOS || Z.testbit (w⟪ComSta_u16Dout_bitmap.[0]⟫) DO_COMP2_BPOS.

(** The fan is told to stop only when both compressor outputs are off. *)
Lemma fan_signal_comp w : comp_out_on w = true -> @fan_signal_gen w <> FAN_SIG_STOP.
Proof.
  intros Hc. unfold fan_signal_gen. case_match; [done|]. case_match; [|done].
  assert ((w⟪ComSta_u16Dout_bitmap.[0]⟫ .& ((1 .<< DO_COMP1_BPOS) .| (1 .<< DO_COMP2_BPOS)) =? 0) = false) as ->;
    [|done].
  apply Z.eqb_neq. intros E. unfold comp_out_on in Hc. apply orb_true_iff in Hc as [Hc|Hc];
    [apply (f_equal (fun z => Z.testbit z 0)) in E | apply (f_equal (fun z => Z.testbit z 1)) in E];
    rewrite Z.land_spec, Hc in E; done.
Qed.

(** C26: the fan.  With the fan's machine in a legal state, one execution moves it by
    [fan_next] on the signal of this second, keeps it legal, and requests the fan and the
    24 V fan supply exactly in the running states.  The overload alarm E7 switches the
    request off at once, and while a compressor output is on and E7 is not shown, a fan in
    normal operation keeps running. *)
Theorem fan_req_exe_correct w t h :
  fan_inv w ->
  let w' := fan_req_exe t h w in
  fan_inv w' /\
  w'⟪fan_state⟫ =
    fan_next (alarm_bit w ACL_E7) (w⟪fan_timeout⟫ =? 0) (@fan_signal_gen w) (w⟪fan_state⟫) /\
  req_bit w' DO_FAN_BPOS = fan_running w' /\ req_bit w' DO_F24_BPOS = fan_running w' /\
  (alarm_bit w ACL_E7 = true -> req_bit w' DO_FAN_BPOS = false) /\
  (alarm_bit w ACL_E7 = false -> comp_out_on w = true -> w⟪fan_state⟫ = FSM_FAN_NORM ->
   req_bit w' DO_FAN_BPOS = true).
Proof.
  intros Hi. cbv zeta. set (sig := @fan_signal_gen w).
  assert (fan_req_exe t h w = ec_fan_output t h sig (fan_fsm_exe sig w)) as -> by reflexivity.
  destruct (fan_fsm_exe_ok w sig Hi) as (Hs & [Hr Hg] & Hb1 & Hb2). set (w1 := fan_fsm_exe sig w) in *.
  destruct (fan_output_keep w1 t h sig DO_FAN_BPOS) as (E1 & E2 & E3).
  destruct (fan_output_keep w1 t h sig DO_F24_BPOS) as (_ & _ & E4).
  set (w2 := ec_fan_output t h sig w1) in *. unfold fan_running in *.
  rewrite E1, E3, E4. split_and!; [split; unfold fan_running; by rewrite ?E1, ?E2 | done | done | done | |].
  - intros H7. rewrite Hb1, Hs, H7. cbn. by destruct (sig =? 1).
  - intros H7 Hc Hn. rewrite Hb1, Hs, H7, Hn. cbn [fan_next].
    by rewrite (proj2 (Z.eqb_neq sig 2) (fan_signal_comp w Hc)).
Qed.

Lemma fan_req_exe_witness :
  let w := poke [(fan_state, FSM_FAN_NORM); (scalar l_Fan_Gear, 1); (ComSta_u16Dout_bitmap.[0], 1)] w_zero in
  req_bit (fan_req_exe 0 0 w) DO_FAN_BPOS = true.
Proof.
  cbv zeta. set (w := poke _ _).
  destruct (fan_req_exe_correct w 0 0) as (_ & _ & _ & _ & _ & H).
  - split; vm_compute; [split; discriminate | reflexivity].
  - apply H; vm_compute; reflexivity.
Defined.

(** ** The fan speed *)

Lemma lim_min_max_spec mn mx d :
  s16 mn <= s16 mx -> lim_min_max mn mx d = Z.max (s16 mn) (Z.min (s16 mx) (s16 d)).
Proof.
  intros H. unfold lim_min_max.
  destruct (Z.leb_spec (s16 d) (s16 mn)), (Z.leb_spec (s16 mx) (s16 d)); lia.
Qed.

(** The requested fan speed.  Off, the request is 0; an EC fan that runs is asked for a
    speed within its configured limits, whatever the mode; and in the compressor-following
    mode the speed moves towards the target by at most the configured step and reaches it
    when it is that close. *)
Theorem fan_speed_limits w t :
  (w⟪l_Fan_Gear⟫ = FAN_GEAR_NO -> @fan_require w t = 0) /\
  (w⟪l_Fan_Gear⟫ <> FAN_GEAR_NO -> w⟪fan_type⟫ = FAN_TPYE_EC ->
   w⟪fan_min_speed⟫ <= w⟪fan_max_speed⟫ < 32768 ->
   w⟪fan_min_speed⟫ <= @fan_require w t <= w⟪fan_max_speed⟫) /\
  (0 <= t < 16384 -> w⟪status_aout.[AO_EC_FAN]⟫ < 16384 -> w⟪fan_adjust_step⟫ < 16384 ->
   let c := w⟪status_aout.[AO_EC_FAN]⟫ in let step := w⟪fan_adjust_step⟫ in
   @analog_step_follower w t AO_EC_FAN =
     if Z.abs (t - c) <=? step then t else if c <? t then c + step else c - step).
Proof.
  pose proof (rd_u16 w fan_min_speed eq_refl). pose proof (rd_u16 w fan_adjust_step eq_refl).
  pose proof (rd_u16 w status_aout.[0] eq_refl).
  assert (forall z, -32768 <= z < 32768 -> s16 z = z) as Hs.
  { intros z Hz. unfold s16. rewrite Z.mod_small; lia. }
  split_and!.
  - intros E. unfold fan_require. by rewrite E.
  - intros Hg Ht Hm. unfold fan_require. rewrite (proj2 (Z.eqb_neq _ _) Hg), Ht. cbn [Z.eqb Pos.eqb].
    rewrite lim_min_max_spec, !Hs by (rewrite ?Hs; lia). rewrite u16_small by lia. lia.
  - intros Ht Hc Hst. cbv zeta. unfold analog_step_follower. rewrite (Hs t), (Hs (t - _)) by lia.
    destruct (Z.ltb_spec (w⟪fan_adjust_step⟫) (Z.abs (t - w⟪status_aout.[0]⟫))),
      (Z.leb_spec (Z.abs (t - w⟪status_aout.[0]⟫)) (w⟪fan_adjust_step⟫)); try lia;
    destruct (Z.ltb_spec 0 (t - w⟪status_aout.[0]⟫)), (Z.ltb_spec (w⟪status_aout.[0]⟫) t); try lia;
    try destruct (Z.eqb_spec (t - w⟪status_aout.[0]⟫) 0); rewrite Hs; lia.
Qed.

Lemma fan_speed_limits_witness :
  let w := poke [(scalar l_Fan_Gear, 1); (scalar fan_type, 1); (scalar fan_min_speed, 30); (scalar fan_max_speed, 100);
    (scalar fan_set_speed, 5); (scalar fan_adjust_step, 10); (status_aout.[0], 40)] w_zero in
  30 <= @fan_require w 80 <= 100 /\ @analog_step_follower w 80 AO_EC_FAN = 50.
Proof.
  cbv zeta. set (w := poke _ _). destruct (fan_speed_limits w 80) as (_ & H1 & H2). split.
  - apply H1; vm_compute; [discriminate | reflexivity | split; [discriminate | reflexivity]].
  - rewrite H2; [reflexivity | lia | reflexivity | reflexivity].
Defined.
