(* ===== verification/Compressor.v ===== *)
(** * usr/modules/req_execution.c, second part: the two compressors

    The signals each compressor gets from the operating conditions, the alarm override, and
    the six-state machine that enforces start-up delays, spacing and minimum run time. *)

From S2P Require Import Prelude Conf Fifo Machine SysStatus EventRecord AlarmCalc Fan.

Abbreviation sig_state := l_l_fsm_state.[COMPRESS_SIG_FSM_STATE].

(** The compressor at output [d] is requested but an alarm forces it off. *)
Definition comp_alarm_flag {w : cur} (d : Z) : Z :=
  if («general_alarm_bypass_en» =? 0) && nz («l_bitmap.[0, BITMAP_REQ]» .& (1 .<< d)) &&
     negb (nz («l_bitmap.[0, BITMAP_ALARM]» .& (1 .<< d))) && nz («l_bitmap.[0, BITMAP_MASK]» .& (1 .<< d))
  then 1 else 0.

Definition defrost_sts {w : cur} (bpos : Z) : bool :=
  negb (sys_get_remap_status WORK_MODE_STS_REG_NO bpos =? 0).

(** The inner [switch]: two compressors fitted. *)
Definition two_compressors (state comp1_alarm_flag comp2_alarm_flag : Z) : act (Z * Z * Z) :=
  LET full := nz (get_alarm_bitmap ACL_E1) || nz (get_alarm_bitmap ACL_E2) IN
  LET d1 := defrost_sts DEFROST1_STS_BPOS IN
  LET d2 := defrost_sts DEFROST2_STS_BPOS IN
  let none := full || nz (comp1_alarm_flag .& comp2_alarm_flag) || (d1 && d2) in
  match state with
  | 0 =>
      (if none then sig_state ::= 0 else sig_state ::= 1);;
      RETURN (1, COMPRESSOR_SIG_OFF, COMPRESSOR_SIG_OFF)
  | 1 =>
      if none then
        sig_state ::= 0;; RETURN (1, COMPRESSOR_SIG_ON, COMPRESSOR_SIG_ON)
      else if (comp1_alarm_flag =? 1) || d1 then
        sig_state ::= 1;; RETURN (1, COMPRESSOR_SIG_OFF, COMPRESSOR_SIG_ON)
      else if (comp2_alarm_flag =? 1) || d2 then
        sig_state ::= 1;; RETURN (1, COMPRESSOR_SIG_ON, COMPRESSOR_SIG_OFF)
      else
        sig_state ::= 1;; RETURN (1, COMPRESSOR_SIG_ON, COMPRESSOR_SIG_ON)
  | _ =>
      sig_state ::= 0;; RETURN (1, COMPRESSOR_SIG_OFF, COMPRESSOR_SIG_OFF)
  end.

(** The result and the values written through [comp1_sig] and [comp2_sig]. *)
Definition compressor_signal_gen (req_temp req_hum : Z) : act (Z * Z * Z) :=
  LET comp1_alarm_flag := comp_alarm_flag DO_COMP1_BPOS IN
  LET comp2_alarm_flag := comp_alarm_flag DO_COMP2_BPOS IN
  LET compressor_count := devinfo_get_compressor_cnt IN
  IF sys_get_do_sts DO_FAN_BPOS =? 0 THEN
    sig_state ::= 0;; RETURN (0, COMPRESSOR_SIG_ERR, COMPRESSOR_SIG_ERR)
  ELSE IF (sys_get_pwr_sts =? 0) ||
          (negb («l_Comp_Close.[0]» =? 0) && negb («l_Comp_Close.[1]» =? 0)) THEN
    sig_state ::= 0;; RETURN (0, COMPRESSOR_SIG_OFF, COMPRESSOR_SIG_OFF)
  ELSE IF negb (sys_get_remap_status WORK_MODE_STS_REG_NO FAN_STS_BPOS =? 0) THEN
    if compressor_count =? 1 then
      LET full := nz (get_alarm_bitmap ACL_E1) || nz (get_alarm_bitmap ACL_E2) IN
      sig_state ::= 0;;
      RETURN (1, if full then COMPRESSOR_SIG_OFF else COMPRESSOR_SIG_ON, COMPRESSOR_SIG_OFF)
    else if compressor_count =? 2 then
      LET state := «sig_state» IN
      two_compressors state comp1_alarm_flag comp2_alarm_flag
    else
      sig_state ::= 0;; RETURN (1, COMPRESSOR_SIG_OFF, COMPRESSOR_SIG_OFF)
  ELSE
    sig_state ::= 0;; RETURN (1, COMPRESSOR_SIG_OFF, COMPRESSOR_SIG_OFF)
  END END END.

(** One half of [compressor_alarm_signal_gen]: compressor at output [d], machine [m]. *)
Definition comp_alarm_override (d m sig : Z) : act Z :=
  let st := l_l_fsm_state.[m] in
  IF (get_alarm_bitmap_mask d =? 1) && (get_alarm_bitmap_op d =? 0) THEN
    IF negb («st» =? COMPRESSOR_FSM_STATE_STOP) && negb («st» =? COMPRESSOR_FSM_STATE_IDLE) THEN
      st ::= COMPRESSOR_FSM_STATE_STOP
    END;;
    RETURN COMPRESSOR_SIG_OFF
  ELSE RETURN sig END.

Definition compressor_alarm_signal_gen (comp1_sig comp2_sig : Z) : act (Z * Z) :=
  CALL s1 := comp_alarm_override DO_COMP1_BPOS COMPRESS1_FSM_STATE comp1_sig IN
  CALL s2 := comp_alarm_override DO_COMP2_BPOS COMPRESS2_FSM_STATE comp2_sig IN
  RETURN (s1, s2).

(** The [switch] of [compressor_fsm] for the machine [st] with output [d]. *)
Definition compressor_switch (m d signal state : Z) : cmd :=
  let st := l_l_fsm_state.[m] in
  let tmo := l_comp_timeout.[d] in
  match state with
  | COMPRESSOR_FSM_STATE_IDLE =>
      IF (signal =? COMPRESSOR_SIG_ON) && («tmo» =? 0) THEN
        st ::= COMPRESSOR_FSM_STATE_INIT;;
        tmo ::= «compressor_startup_delay»;;
        req_bitmap_op d 0
      ELSE
        st ::= COMPRESSOR_FSM_STATE_IDLE;;
        tmo ::= «tmo»;;
        req_bitmap_op d 0
      END
  | COMPRESSOR_FSM_STATE_INIT =>
      if negb (signal =? COMPRESSOR_SIG_ON) then
        st ::= COMPRESSOR_FSM_STATE_IDLE;;
        tmo ::= 0;;
        req_bitmap_op d 0
      else
        IF (signal =? COMPRESSOR_SIG_ON) && («tmo» =? 0) THEN
          IF «l_comp_startup_interval» =? 0 THEN
            st ::= COMPRESSOR_FSM_STATE_STARTUP;;
            tmo ::= «compressor_startup_lowpress_shield»;;
            req_bitmap_op d 1;;
            l_comp_startup_interval ::= «ComPara_u16Comp_Interval»
          ELSE
            st ::= COMPRESSOR_FSM_STATE_INIT;;
            tmo ::= «tmo»;;
            req_bitmap_op d 0
          END
        ELSE
          st ::= COMPRESSOR_FSM_STATE_INIT;;
          tmo ::= «tmo»;;
          req_bitmap_op d 0
        END
  | COMPRESSOR_FSM_STATE_STARTUP =>
      if signal =? COMPRESSOR_SIG_ERR then st ::= COMPRESSOR_FSM_STATE_STOP
      else
        IF «tmo» =? 0 THEN
          st ::= COMPRESSOR_FSM_STATE_NORMAL;;
          tmo ::= (if «compressor_startup_lowpress_shield» <? «compressor_min_runtime»
                   then «compressor_min_runtime» - «compressor_startup_lowpress_shield» else 0);;
          req_bitmap_op d 1
        ELSE
          st ::= COMPRESSOR_FSM_STATE_STARTUP;;
          tmo ::= «tmo»;;
          req_bitmap_op d 1
        END
  | COMPRESSOR_FSM_STATE_NORMAL =>
      if signal =? COMPRESSOR_SIG_ERR then st ::= COMPRESSOR_FSM_STATE_STOP
      else
        IF (signal =? COMPRESSOR_SIG_OFF) && («tmo» =? 0) THEN
          st ::= COMPRESSOR_FSM_STATE_SHUTING;;
          tmo ::= «compressor_stop_delay»;;
          req_bitmap_op d 1
        ELSE
          st ::= COMPRESSOR_FSM_STATE_NORMAL;;
          tmo ::= «tmo»;;
          req_bitmap_op d 1
        END
  | COMPRESSOR_FSM_STATE_SHUTING =>
      if signal =? COMPRESSOR_SIG_ERR then st ::= COMPRESSOR_FSM_STATE_STOP
      else
        IF (signal =? COMPRESSOR_SIG_OFF) && («tmo» =? 0) THEN st ::= COMPRESSOR_FSM_STATE_STOP
        ELSE
          if signal =? COMPRESSOR_SIG_ON then
            st ::= COMPRESSOR_FSM_STATE_NORMAL;;
            tmo ::= 0;;
            req_bitmap_op d 1
          else
            st ::= COMPRESSOR_FSM_STATE_SHUTING;;
            tmo ::= «tmo»;;
            req_bitmap_op d 1
        END
  | COMPRESSOR_FSM_STATE_STOP =>
      IF «l_comp_stop_interval» =? 0 THEN
        st ::= COMPRESSOR_FSM_STATE_IDLE;;
        tmo ::= «ComPara_u16Start_Delay»;;
        req_bitmap_op d 0;;
        l_comp_stop_interval ::= «ComPara_u16Comp_Interval»
      ELSE st ::= COMPRESSOR_FSM_STATE_STOP END
  | _ => skip
  end.

Definition comp_machine (compressor_id : Z) : Z :=
  if compressor_id =? 0 then COMPRESS1_FSM_STATE else COMPRESS2_FSM_STATE.
Definition comp_do (compressor_id : Z) : Z :=
  if compressor_id =? 0 then DO_COMP1_BPOS else DO_COMP2_BPOS.

Definition compressor_fsm (compressor_id signal : Z) : cmd :=
  let m := comp_machine compressor_id in
  LET compress_fsm_state := «l_l_fsm_state.[m]» IN
  compressor_switch m (comp_do compressor_id) signal compress_fsm_state.

Definition compressor_req_exe (req_temp req_hum : Z) : cmd :=
  CALL g := compressor_signal_gen req_temp req_hum IN
  let '(_, s1, s2) := g in
  CALL s := compressor_alarm_signal_gen s1 s2 IN
  compressor_fsm 0 s.1;;
  compressor_fsm 1 s.2.

(** ** Footprints *)

Lemma two_compressors_foot s a b : respa (unch [l_l_fsm_state] []) (two_compressors s a b).
Proof. unfold two_compressors. footprint. Qed.
#[export] Hint Resolve two_compressors_foot : foot.
Lemma compressor_signal_gen_foot t h : respa (unch [l_l_fsm_state] []) (compressor_signal_gen t h).
Proof. unfold compressor_signal_gen. footprint. Qed.
Lemma compressor_alarm_signal_gen_foot a b :
  respa (unch [l_l_fsm_state] []) (compressor_alarm_signal_gen a b).
Proof. unfold compressor_alarm_signal_gen, comp_alarm_override. footprint. Qed.
#[export] Hint Resolve compressor_signal_gen_foot compressor_alarm_signal_gen_foot : foot.
Definition comp_fields : list field :=
  [l_l_fsm_state; l_comp_timeout; l_comp_startup_interval; l_comp_stop_interval].
Lemma compressor_fsm_foot i s :
  respc (unch comp_fields [DO_COMP1_BPOS; DO_COMP2_BPOS]) (compressor_fsm i s).
Proof.
  unfold compressor_fsm, compressor_switch, comp_do, req_bitmap_op.
  destruct (i =? 0); footprint.
Qed.
#[export] Hint Resolve compressor_fsm_foot : foot.
Lemma compressor_req_exe_foot t h :
  respc (unch comp_fields [DO_COMP1_BPOS; DO_COMP2_BPOS]) (compressor_req_exe t h).
Proof. unfold compressor_req_exe. footprint. Qed.
#[export] Hint Resolve compressor_req_exe_foot : foot.

(** ** One machine *)

Definition comp_st (w : world) (c : Z) : Z := w⟪l_l_fsm_state.[comp_machine c]⟫.
Definition comp_tmo (w : world) (c : Z) : Z := w⟪l_comp_timeout.[comp_do c]⟫.
Definition comp_bit (w : world) (c : Z) : bool := req_bit w (comp_do c).

(** The machine is in one of its six states, a compressor that waits is not requested, and
    one that starts, runs or shuts down is. *)
Definition comp_ok (w : world) (c : Z) : Prop :=
  0 <= comp_st w c <= COMPRESSOR_FSM_STATE_STOP /\
  (comp_st w c <= COMPRESSOR_FSM_STATE_INIT -> comp_bit w c = false) /\
  (COMPRESSOR_FSM_STATE_STARTUP <= comp_st w c <= COMPRESSOR_FSM_STATE_SHUTING -> comp_bit w c = true).

Definition comp_same (w w' : world) (c : Z) : Prop :=
  comp_st w' c = comp_st w c /\ comp_tmo w' c = comp_tmo w c /\ comp_bit w' c = comp_bit w c.

(** What one execution of a machine may do to the request and to the two spacing timers. *)
Inductive comp_event (w w' : world) (c signal : Z) : Prop :=
  | ev_quiet :
      comp_bit w' c = comp_bit w c ->
      w'⟪l_comp_startup_interval⟫ = w⟪l_comp_startup_interval⟫ ->
      w'⟪l_comp_stop_interval⟫ = w⟪l_comp_stop_interval⟫ -> comp_event w w' c signal
  | ev_start :
      comp_st w c = COMPRESSOR_FSM_STATE_INIT -> signal = COMPRESSOR_SIG_ON -> comp_tmo w c = 0 ->
      w⟪l_comp_startup_interval⟫ = 0 -> comp_bit w' c = true ->
      w'⟪l_comp_startup_interval⟫ = w⟪ComPara_u16Comp_Interval⟫ ->
      w'⟪l_comp_stop_interval⟫ = w⟪l_comp_stop_interval⟫ -> comp_event w w' c signal
  | ev_stop :
      comp_st w c = COMPRESSOR_FSM_STATE_STOP -> w⟪l_comp_stop_interval⟫ = 0 -> comp_bit w' c = false ->
      w'⟪l_comp_stop_interval⟫ = w⟪ComPara_u16Comp_Interval⟫ ->
      w'⟪l_comp_startup_interval⟫ = w⟪l_comp_startup_interval⟫ -> comp_event w w' c signal.

Lemma u16_rd w c : fty (fld c) = U16 -> u16 (w⟪c⟫) = w⟪c⟫.
Proof. intros H. apply u16_small. by apply rd_u16. Qed.

Lemma compressor_switch_same d m signal state w c :
  m <> comp_machine c -> d <> comp_do c -> comp_same w (compressor_switch m d signal state w) c.
Proof.
  intros Hm Hd. unfold comp_same, comp_st, comp_tmo, comp_bit.
  split_and!.
  - apply (keep_rd (compressor_switch m d signal state)). unfold compressor_switch, req_bitmap_op. keep_tac.
  - apply (keep_rd (compressor_switch m d signal state)). unfold compressor_switch, req_bitmap_op. keep_tac.
  - apply (keep_bmp (compressor_switch m d signal state)). unfold compressor_switch, req_bitmap_op. keep_tac.
Qed.

Ltac comp_read :=
  unfold comp_ok, comp_st, comp_tmo, comp_bit, req_bitmap_op in *; obs; rewrite ?Z.eqb_refl; cbn [andb nz Z.eqb negb];
  rewrite ?u16_rd by reflexivity.

Lemma compressor_fsm_ok c signal w :
  comp_ok w c ->
  comp_ok (compressor_fsm c signal w) c /\ comp_event w (compressor_fsm c signal w) c signal.
Proof.
  intros (Hs & Hlo & Hhi). unfold compressor_fsm, letc. fold (comp_st w c).
  assert (comp_st w c = 0 \/ comp_st w c = 1 \/ comp_st w c = 2 \/ comp_st w c = 3 \/ comp_st w c = 4 \/
    comp_st w c = 5) as Hst by lia.
  destruct Hst as [E|[E|[E|[E|[E|E]]]]]; rewrite E; cbn [compressor_switch]; rewrite E in Hs, Hlo, Hhi;
    unfold cif; repeat (case_match; cbv beta);
    repeat match goal with
    | H : _ && _ = true |- _ => apply andb_true_iff in H as [? ?]
    | H : (_ =? _) = true |- _ => apply Z.eqb_eq in H
    | H : negb _ = false |- _ => apply negb_false_iff in H
    end.
  all: try (assert (comp_bit w c = false) as Hb by (apply Hlo; lia));
    try (assert (comp_bit w c = true) as Hb by (apply Hhi; lia)); clear Hs Hlo Hhi.
  all: split; [comp_read; repeat split; intros; try lia; try (rewrite u16_small in * by lia; lia)
    | first [apply ev_quiet; comp_read; congruence | apply ev_start; comp_read; congruence
            | apply ev_stop; comp_read; congruence]].
Qed.

(** ** The signals *)

(** Compressors may run: fan output on, unit powered, not both closed, fan declared running. *)
Definition comp_permit (w : world) : bool :=
  negb (@sys_get_do_sts w DO_FAN_BPOS =? 0) && negb (@sys_get_pwr_sts w =? 0) &&
  ((w⟪l_Comp_Close.[0]⟫ =? 0) || (w⟪l_Comp_Close.[1]⟫ =? 0)) &&
  remap_bit w WORK_MODE_STS_REG_NO FAN_STS_BPOS.

(** An alarm forces output [d] off. *)
Definition forced_off (w : world) (d : Z) : bool := bmp_bit BITMAP_MASK w d && negb (bmp_bit BITMAP_ALARM w d).

Lemma two_compressors_sig s a b w :
  let '(_, s1, s2) := (two_compressors s a b w).1 in
  s1 <> COMPRESSOR_SIG_ERR /\ s2 <> COMPRESSOR_SIG_ERR.
Proof.
  unfold two_compressors, letc. set (x := nz _ || nz _). set (y := defrost_sts _). set (z := defrost_sts _).
  destruct s as [|[p|p|]|p]; unfold seqc, reta; cbn [fst]; repeat case_match; simplify_eq/=; done.
Qed.

Lemma signal_gen_spec t h w :
  let '(_, s1, s2) := (compressor_signal_gen t h w).1 in
  (s1 = COMPRESSOR_SIG_ERR <-> @sys_get_do_sts w DO_FAN_BPOS = 0) /\
  (s2 = COMPRESSOR_SIG_ERR <-> @sys_get_do_sts w DO_FAN_BPOS = 0) /\
  (s1 = COMPRESSOR_SIG_ON \/ s2 = COMPRESSOR_SIG_ON -> comp_permit w = true).
Proof.
  unfold compressor_signal_gen, comp_permit, letc, cif.
  change (@devinfo_get_compressor_cnt w) with 2. cbn [Z.eqb Pos.eqb].
  destruct (Z.eqb_spec (@sys_get_do_sts w DO_FAN_BPOS) 0) as [E|E].
  { cbn. rewrite E. split_and!; try done. intros []; done. }
  destruct (@sys_get_pwr_sts w =? 0); cbn [orb negb andb].
  { cbn. split_and!; try done. intros []; done. }
  destruct (w⟪l_Comp_Close.[0]⟫ =? 0), (w⟪l_Comp_Close.[1]⟫ =? 0); cbn [negb andb orb];
    try (cbn; split_and!; try done; intros []; done);
    rewrite sys_get_remap_status_bit by lia;
    destruct (remap_bit w WORK_MODE_STS_REG_NO FAN_STS_BPOS); cbn [Z.b2z Z.eqb negb];
    try (cbn; split_and!; try done; intros []; done);
    match goal with |- context [two_compressors ?s ?a ?b w] => pose proof (two_compressors_sig s a b w) as H end;
    destruct (two_compressors _ _ _ w).1 as [[? s1] s2]; destruct H; split_and!; try done; intros; done.
Qed.

Lemma signal_gen_keep t h w c :
  comp_same w (compressor_signal_gen t h w).2 c /\
  forall d, fin (fld d) [l_l_fsm_state] || is_req d = false ->
    (compressor_signal_gen t h w).2⟪d⟫ = w⟪d⟫.
Proof.
  split; [|intros d Hd; eapply keep_rda, keep_rd_unch; [apply compressor_signal_gen_foot | done]].
  unfold comp_same, comp_st, comp_tmo, comp_bit. split_and!; [|by obs|by obs].
  apply (keep_rda (compressor_signal_gen t h)). unfold comp_machine.
  unfold compressor_signal_gen, two_compressors. destruct (c =? 0); keep_tac.
Qed.

(** ** The alarm override *)

Lemma alarm_mask_bits w d :
  (@get_alarm_bitmap_mask w d =? 1) && (@get_alarm_bitmap_op w d =? 0) = forced_off w d.
Proof.
  unfold get_alarm_bitmap_mask, get_alarm_bitmap_op, forced_off, bmp_bit. pose proof (bit_offset_range d).
  rewrite !nz_get_bit by lia. by destruct (Z.testbit _ _), (Z.testbit _ _).
Qed.

(** A forced compressor gets OFF and a machine that was under way is sent to STOP; the rest
    is untouched. *)
Lemma override_spec c sig w :
  let r := comp_alarm_override (comp_do c) (comp_machine c) sig w in
  r.1 = (if forced_off w (comp_do c) then COMPRESSOR_SIG_OFF else sig) /\
  comp_st r.2 c = (if forced_off w (comp_do c) && negb (comp_st w c =? COMPRESSOR_FSM_STATE_IDLE)
                   then COMPRESSOR_FSM_STATE_STOP else comp_st w c) /\
  (forall d, d <> l_l_fsm_state.[comp_machine c] -> r.2⟪d⟫ = w⟪d⟫) /\
  (forall col d, bmp_bit col r.2 d = bmp_bit col w d).
Proof.
  cbv zeta. unfold comp_alarm_override, cif, comp_st. rewrite alarm_mask_bits.
  destruct (forced_off w (comp_do c)); cbn [andb]; [|done].
  unfold seqc, reta; cbn [fst snd].
  assert (forall e d, d <> l_l_fsm_state.[comp_machine c] ->
    (assign l_l_fsm_state.[comp_machine c] e w)⟪d⟫ = w⟪d⟫) as Hk.
  { intros e d Hd. unfold assign. rewrite rd_wr. case_match eqn:E; [|done].
    by apply cell_eqb_spec in E. }
  destruct (Z.eqb_spec (w⟪l_l_fsm_state.[comp_machine c]⟫) 5), (Z.eqb_spec (w⟪l_l_fsm_state.[comp_machine c]⟫) 0);
    cbn [andb negb]; unfold skip; try lia; split_and!; try done; intros; first [by apply Hk | by obs].
Qed.

Lemma override_ok c sig w :
  comp_ok w c -> comp_ok (comp_alarm_override (comp_do c) (comp_machine c) sig w).2 c.
Proof.
  intros (H1 & H2 & H3). destruct (override_spec c sig w) as (_ & Hst & _ & Hb).
  unfold comp_ok, comp_bit in *. rewrite Hst, Hb.
  destruct (forced_off w (comp_do c)); cbn [andb]; [|done].
  destruct (Z.eqb_spec (comp_st w c) 0) as [E|E]; cbn [negb]; [rewrite E in *; split_and!; auto; lia|].
  split_and!; lia.
Qed.

Lemma override_same c c' sig w :
  comp_machine c <> comp_machine c' ->
  comp_same w (comp_alarm_override (comp_do c) (comp_machine c) sig w).2 c'.
Proof.
  intros Hm. destruct (override_spec c sig w) as (_ & _ & Hk & Hb).
  unfold comp_same, comp_st, comp_tmo, comp_bit. rewrite Hb, !Hk; [done|done|].
  intros [= E]. done.
Qed.

(** ** The whole execution *)

(** The state of the machines just before they run, and the signals they get. *)
Definition comp_inputs (t h : Z) : act (Z * Z) :=
  CALL g := compressor_signal_gen t h IN compressor_alarm_signal_gen g.1.2 g.2.

Lemma compressor_req_exe_eq t h w :
  compressor_req_exe t h w =
  compressor_fsm 1 (comp_inputs t h w).1.2 (compressor_fsm 0 (comp_inputs t h w).1.1 (comp_inputs t h w).2).
Proof.
  unfold compressor_req_exe, comp_inputs, bindc. by destruct (compressor_signal_gen t h w).1 as [[? ?] ?].
Qed.

Definition comp_sig (t h : Z) (w : world) (c : Z) : Z :=
  if c =? 0 then (comp_inputs t h w).1.1 else (comp_inputs t h w).1.2.

(** Before the machines run: a forced machine under way is in STOP, everything else is as it
    was; a compressor gets ON only if it is permitted and not forced off, and ERR exactly
    when the fan output is off and it is not forced. *)
Lemma comp_inputs_spec t h w c :
  c = 0 \/ c = 1 ->
  let v := (comp_inputs t h w).2 in
  let forced := forced_off w (comp_do c) in
  comp_st v c = (if forced && negb (comp_st w c =? 0) then COMPRESSOR_FSM_STATE_STOP else comp_st w c) /\
  comp_tmo v c = comp_tmo w c /\ comp_bit v c = comp_bit w c /\
  (forall d, feqb (fld d) l_l_fsm_state || is_req d = false -> v⟪d⟫ = w⟪d⟫) /\
  (comp_sig t h w c = COMPRESSOR_SIG_ON -> comp_permit w = true /\ forced = false) /\
  (comp_sig t h w c = COMPRESSOR_SIG_ERR <-> @sys_get_do_sts w DO_FAN_BPOS = 0 /\ forced = false).
Proof.
  intros Hc. cbv zeta. unfold comp_sig, comp_inputs, bindc.
  pose proof (signal_gen_spec t h w) as Hsig. pose proof (signal_gen_keep t h w) as Hk.
  set (w1 := (compressor_signal_gen t h w).2) in *.
  destruct (compressor_signal_gen t h w).1 as [[r s1] s2]. cbn [fst snd].
  unfold compressor_alarm_signal_gen, bindc, reta. cbn [fst snd].
  pose proof (override_spec 0 s1 w1) as (A1 & A2 & A3 & A4).
  pose proof (override_same 0 1 s1 w1 ltac:(done)) as (C1 & C2 & C3).
  change (comp_alarm_override (comp_do 0) (comp_machine 0)) with (comp_alarm_override 0 2) in *.
  set (w2 := (comp_alarm_override 0 2 s1 w1).2) in *.
  pose proof (override_spec 1 s2 w2) as (B1 & B2 & B3 & B4).
  pose proof (override_same 1 0 s2 w2 ltac:(done)) as (D1 & D2 & D3).
  change (comp_alarm_override (comp_do 1) (comp_machine 1)) with (comp_alarm_override 1 3) in *.
  set (w3 := (comp_alarm_override 1 3 s2 w2).2) in *.
  assert (forall d, forced_off w2 d = forced_off w d) as F2.
  { intros d. unfold forced_off. rewrite !A4. unfold bmp_bit. f_equal; [|f_equal]; f_equal; by apply (proj2 (Hk 0)). }
  assert (forall d, forced_off w1 d = forced_off w d) as F1.
  { intros d. unfold forced_off, bmp_bit. f_equal; [|f_equal]; f_equal; by apply (proj2 (Hk 0)). }
  rewrite F1 in A1, A2. rewrite F2 in B1, B2. rewrite A1, B1.
  assert (forall d, feqb (fld d) l_l_fsm_state || is_req d = false -> w3⟪d⟫ = w⟪d⟫) as Hrd.
  { intros d Hd. apply orb_false_iff in Hd as [Hf Hr]. rewrite B3, A3; [apply (proj2 (Hk 0)); unfold fin; cbn [existsb]; by rewrite Hf, Hr| |];
      intros ->; discriminate. }
  destruct Hsig as (E1 & E2 & Eon).
  destruct (proj1 (Hk 0)) as (K1 & K2 & K3), (proj1 (Hk 1)) as (L1 & L2 & L3).
  destruct Hc as [-> | ->]; cbn [Z.eqb].
  - change (comp_do 0) with 0 in *. split_and!; [by rewrite D1, A2, K1 | | | done | |].
    + unfold comp_tmo in *. by rewrite D2, A3, K2.
    + unfold comp_bit in *. by rewrite D3, A4, K3.
    + intros Hs. destruct (forced_off w 0); [done|]. split; [apply Eon; by left | done].
    + destruct (forced_off w 0); [by split; [|intros []]|]. rewrite E1. by split; [|intros []].
  - change (comp_do 1) with 1 in *. split_and!; [by rewrite B2, C1, L1 | | | done | |].
    + unfold comp_tmo in *. by rewrite B3, C2, L2.
    + unfold comp_bit in *. by rewrite B4, C3, L3.
    + intros Hs. destruct (forced_off w 1); [done|]. split; [apply Eon; by right | done].
    + destruct (forced_off w 1); [by split; [|intros []]|]. rewrite E2. by split; [|intros []].
Qed.

Lemma comp_inputs_ok t h w c : c = 0 \/ c = 1 -> comp_ok w c -> comp_ok (comp_inputs t h w).2 c.
Proof.
  intros Hc (H1 & H2 & H3). destruct (comp_inputs_spec t h w c Hc) as (E1 & _ & E3 & _).
  unfold comp_ok. rewrite E1, E3.
  destruct (forced_off w (comp_do c)); cbn [andb]; [|done].
  destruct (Z.eqb_spec (comp_st w c) 0); cbn [negb]; split_and!; auto; lia.
Qed.

Lemma compressor_fsm_same c c' s w :
  c = 0 \/ c = 1 -> c' = 1 - c -> comp_same w (compressor_fsm c s w) c'.
Proof. intros [-> | ->] ->; apply compressor_switch_same; done. Qed.

Lemma comp_ok_same w w' c : comp_same w w' c -> comp_ok w c -> comp_ok w' c.
Proof. intros (E1 & _ & E3) H. unfold comp_ok. by rewrite E1, E3. Qed.

Definition comp_starts (w w' : world) (c : Z) : Prop := comp_bit w c = false /\ comp_bit w' c = true.
Definition comp_stops (w w' : world) (c : Z) : Prop := comp_bit w c = true /\ comp_bit w' c = false.

(** The three stages of an execution, with the events of both machines. *)
Lemma comp_exe_events t h w :
  comp_ok w 0 -> comp_ok w 1 ->
  exists v v', v = (comp_inputs t h w).2 /\
    comp_event v v' 0 (comp_sig t h w 0) /\ comp_same v v' 1 /\
    comp_event v' (compressor_req_exe t h w) 1 (comp_sig t h w 1) /\
    comp_same v' (compressor_req_exe t h w) 0 /\
    v'⟪ComPara_u16Comp_Interval⟫ = w⟪ComPara_u16Comp_Interval⟫ /\
    comp_ok (compressor_req_exe t h w) 0 /\ comp_ok (compressor_req_exe t h w) 1.
Proof.
  intros H0 H1. rewrite compressor_req_exe_eq.
  pose proof (comp_inputs_ok t h w 0 ltac:(lia) H0) as O0.
  pose proof (comp_inputs_ok t h w 1 ltac:(lia) H1) as O1.
  destruct (comp_inputs_spec t h w 0 ltac:(lia)) as (_ & _ & _ & Hrd & _).
  unfold comp_sig. cbn [Z.eqb]. set (v := (comp_inputs t h w).2) in *.
  destruct (compressor_fsm_ok 0 (comp_inputs t h w).1.1 v O0) as [Ok0 Ev0].
  pose proof (compressor_fsm_same 0 1 (comp_inputs t h w).1.1 v ltac:(lia) eq_refl) as Sm1.
  set (v' := compressor_fsm 0 _ v) in *.
  destruct (compressor_fsm_ok 1 (comp_inputs t h w).1.2 v' (comp_ok_same _ _ _ Sm1 O1)) as [Ok1 Ev1].
  pose proof (compressor_fsm_same 1 0 (comp_inputs t h w).1.2 v' ltac:(lia) eq_refl) as Sm0.
  exists v, v'. split_and!; try done.
  - subst v'. obs. by apply Hrd.
  - by eapply comp_ok_same.
Qed.

(** What a start or a stop of one machine says about the state before the execution. *)
Lemma comp_start_cond t h w c :
  c = 0 \/ c = 1 -> comp_st (comp_inputs t h w).2 c = COMPRESSOR_FSM_STATE_INIT ->
  comp_sig t h w c = COMPRESSOR_SIG_ON -> comp_tmo (comp_inputs t h w).2 c = 0 ->
  comp_permit w = true /\ forced_off w (comp_do c) = false /\
  comp_st w c = COMPRESSOR_FSM_STATE_INIT /\ comp_tmo w c = 0.
Proof.
  intros Hc Hs Hon Ht. destruct (comp_inputs_spec t h w c Hc) as (E1 & E2 & _ & _ & E5 & _).
  destruct (E5 Hon) as [? Hf]. rewrite Hf in E1. cbn [andb] in E1. split_and!; congruence.
Qed.

(** C4: compressor control.  One execution keeps both machines consistent with their
    requests.  A compressor is switched on only from INIT, after its start-up delay and the
    common start interval have run out, with the fan output on, the unit powered, the fan
    declared running and no alarm forcing it off.  It is switched off only when the common
    stop interval has run out, from STOP or because an alarm forces it off.  With an
    interval configured the two compressors never start, and never stop, together. *)
Theorem compressor_req_exe_safe w t h :
  comp_ok w 0 -> comp_ok w 1 ->
  let w' := compressor_req_exe t h w in
  comp_ok w' 0 /\ comp_ok w' 1 /\
  (forall c, c = 0 \/ c = 1 ->
     (comp_starts w w' c ->
        comp_permit w = true /\ forced_off w (comp_do c) = false /\
        comp_st w c = COMPRESSOR_FSM_STATE_INIT /\ comp_tmo w c = 0 /\ w⟪l_comp_startup_interval⟫ = 0) /\
     (comp_stops w w' c ->
        w⟪l_comp_stop_interval⟫ = 0 /\
        (comp_st w c = COMPRESSOR_FSM_STATE_STOP \/ forced_off w (comp_do c) = true))) /\
  (w⟪ComPara_u16Comp_Interval⟫ <> 0 ->
     ~ (comp_starts w w' 0 /\ comp_starts w w' 1) /\ ~ (comp_stops w w' 0 /\ comp_stops w w' 1)).
Proof.
  intros H0 H1. cbv zeta. destruct (comp_exe_events t h w H0 H1) as (v & v' & Ev & E0 & S1 & E1 & S0 & Hiv & O0 & O1).
  set (w' := compressor_req_exe t h w) in *. split; [done|]. split; [done|].
  destruct (comp_inputs_spec t h w 0 ltac:(lia)) as (I1 & I2 & I3 & Hrd & _).
  destruct (comp_inputs_spec t h w 1 ltac:(lia)) as (J1 & J2 & J3 & _ & _).
  pose proof (comp_start_cond t h w 0 ltac:(lia)) as Hc0. pose proof (comp_start_cond t h w 1 ltac:(lia)) as Hc1.
  rewrite <- Ev in *.
  pose proof (Hrd l_comp_startup_interval eq_refl) as Hsi. pose proof (Hrd l_comp_stop_interval eq_refl) as Hpi.
  pose proof (Hrd ComPara_u16Comp_Interval eq_refl) as Hci.
  destruct S1 as (S11 & S12 & S13), S0 as (_ & _ & S03). unfold comp_starts, comp_stops in *.
  assert (forall b x, (if b && negb (x =? 0) then COMPRESSOR_FSM_STATE_STOP else x) = COMPRESSOR_FSM_STATE_STOP ->
    x = COMPRESSOR_FSM_STATE_STOP \/ b = true) as Hst.
  { intros [|] x; auto. }
  split; [intros c [-> | ->]; split; intros [Hb Hb'] | intros Hne; split; intros [[Ha Ha'] [Hb Hb']]];
    destruct E0 as [Q1 Q2 Q3|Q1 Q2 Q3 Q4 Q5 Q6 Q7|Q1 Q2 Q3 Q4 Q5], E1 as [P1 P2 P3|P1 P2 P3 P4 P5 P6 P7|P1 P2 P3 P4 P5];
    try (exfalso; congruence);
    first [destruct (Hc0 Q1 Q2 Q3) as (? & ? & ? & ?); split_and!; congruence
          |destruct (Hc1 ltac:(congruence) P2 ltac:(congruence)) as (? & ? & ? & ?); split_and!; congruence
          |split; [congruence | apply Hst; congruence]].
Qed.

Lemma compressor_req_exe_safe_witness :
  let w := poke [(l_l_fsm_state.[2], 1); (l_l_fsm_state.[3], 1); (l_l_fsm_state.[1], 1);
    (ComSta_u16Dout_bitmap.[0], 8); (ComSta_u16Status_remap.[0], 0x41); (scalar ComPara_u16Comp_Interval, 5)] w_zero in
  let w' := compressor_req_exe 0 0 w in
  comp_starts w w' 0 /\ ~ comp_starts w w' 1.
Proof.
  cbv zeta. set (w := poke _ _).
  assert (forall c, c = 0 \/ c = 1 -> comp_ok w c) as Hok.
  { intros c [-> | ->]; (split; [|split]); vm_compute; first [split; discriminate | by intros _ | intros [? _]; done]. }
  destruct (compressor_req_exe_safe w 0 0 (Hok 0 ltac:(lia)) (Hok 1 ltac:(lia))) as (_ & _ & _ & H).
  assert (comp_starts w (compressor_req_exe 0 0 w) 0) as H0 by (split; vm_compute; reflexivity).
  split; [exact H0|]. destruct H as [H _]; [vm_compute; discriminate|]. intros H1. by apply H.
Defined.

(** ** Minimum run time *)

(** The machine's step, for a machine that is under way and gets no ERR. *)
Lemma compressor_fsm_run c s w :
  s <> COMPRESSOR_SIG_ERR ->
  (comp_st w c = COMPRESSOR_FSM_STATE_STARTUP ->
     if comp_tmo w c =? 0 then
       comp_st (compressor_fsm c s w) c = COMPRESSOR_FSM_STATE_NORMAL /\
       comp_tmo (compressor_fsm c s w) c =
         Z.max 0 (w⟪compressor_min_runtime⟫ - w⟪compressor_startup_lowpress_shield⟫)
     else comp_st (compressor_fsm c s w) c = COMPRESSOR_FSM_STATE_STARTUP /\
          comp_tmo (compressor_fsm c s w) c = comp_tmo w c) /\
  (comp_st w c = COMPRESSOR_FSM_STATE_NORMAL -> comp_tmo w c <> 0 ->
     comp_st (compressor_fsm c s w) c = COMPRESSOR_FSM_STATE_NORMAL /\
     comp_tmo (compressor_fsm c s w) c = comp_tmo w c).
Proof.
  intros He%Z.eqb_neq. unfold compressor_fsm, letc. fold (comp_st w c). split.
  - intros ->. cbn [compressor_switch]. rewrite He. unfold cif. fold (comp_tmo w c).
    destruct (comp_tmo w c =? 0) eqn:E; split; comp_read; try done.
    pose proof (rd_u16 w compressor_min_runtime eq_refl). pose proof (rd_u16 w compressor_startup_lowpress_shield eq_refl).
    destruct (Z.ltb_spec (w⟪compressor_startup_lowpress_shield⟫) (w⟪compressor_min_runtime⟫)); rewrite u16_small; lia.
  - intros -> Ht%Z.eqb_neq. cbn [compressor_switch]. rewrite He. unfold cif. fold (comp_tmo w c). rewrite Ht, andb_false_r.
    split; comp_read; done.
Qed.

(** Seconds a compressor under way still has to run, as its machine knows them. *)
Definition run_left (w : world) (c : Z) : Z :=
  if comp_st w c =? COMPRESSOR_FSM_STATE_STARTUP then
    comp_tmo w c + Z.max 0 (w⟪compressor_min_runtime⟫ - w⟪compressor_startup_lowpress_shield⟫)
  else if comp_st w c =? COMPRESSOR_FSM_STATE_NORMAL then comp_tmo w c else 0.

(** [run c n w w']: executions of the compressors interleaved with the rest of the firmware,
    while [n] seconds pass; the fan output stays on and no alarm forces the compressor off.
    In a second the common cool-down takes one off the compressor's timer. *)
Inductive run (c : Z) : Z -> world -> world -> Prop :=
  | run_0 w : run c 0 w w
  | run_exe n w v t h :
      run c n w v -> @sys_get_do_sts v DO_FAN_BPOS <> 0 -> forced_off v (comp_do c) = false ->
      run c n w (compressor_req_exe t h v)
  | run_tick n w v v' :
      run c n w v -> comp_st v' c = comp_st v c -> comp_bit v' c = comp_bit v c ->
      comp_tmo v' c = Z.max 0 (comp_tmo v c - 1) ->
      v'⟪compressor_min_runtime⟫ = v⟪compressor_min_runtime⟫ ->
      v'⟪compressor_startup_lowpress_shield⟫ = v⟪compressor_startup_lowpress_shield⟫ ->
      run c (n + 1) w v'
  | run_env n w v v' :
      run c n w v -> comp_same v v' c ->
      v'⟪compressor_min_runtime⟫ = v⟪compressor_min_runtime⟫ ->
      v'⟪compressor_startup_lowpress_shield⟫ = v⟪compressor_startup_lowpress_shield⟫ ->
      run c n w v'.

(** An execution of a healthy compressor is one step of its own machine. *)
Lemma exe_own t h w c :
  c = 0 \/ c = 1 -> forced_off w (comp_do c) = false -> @sys_get_do_sts w DO_FAN_BPOS <> 0 ->
  exists v s, s <> COMPRESSOR_SIG_ERR /\ comp_same w v c /\
    v⟪compressor_min_runtime⟫ = w⟪compressor_min_runtime⟫ /\
    v⟪compressor_startup_lowpress_shield⟫ = w⟪compressor_startup_lowpress_shield⟫ /\
    comp_same (compressor_fsm c s v) (compressor_req_exe t h w) c.
Proof.
  intros Hc Hf Hfan. rewrite compressor_req_exe_eq.
  destruct (comp_inputs_spec t h w c Hc) as (I1 & I2 & I3 & Hrd & _ & Herr). rewrite Hf in I1. cbn [andb] in I1.
  assert (comp_sig t h w c <> COMPRESSOR_SIG_ERR) as Hne by (intros [? _]%Herr; done).
  set (v := (comp_inputs t h w).2) in *.
  destruct Hc as [-> | ->]; unfold comp_sig in Hne; cbn [Z.eqb] in Hne.
  - exists v, (comp_inputs t h w).1.1. split_and!; try done; try (by apply Hrd).
    apply (compressor_fsm_same 1 0); [lia | done].
  - exists (compressor_fsm 0 (comp_inputs t h w).1.1 v), (comp_inputs t h w).1.2.
    destruct (compressor_fsm_same 0 1 (comp_inputs t h w).1.1 v) as (A & B & C); [lia | done |].
    split_and!; try done; [split_and!; congruence | obs; by apply Hrd | obs; by apply Hrd].
Qed.

Definition under_way (w : world) (c : Z) : Prop :=
  comp_ok w c /\ (comp_st w c = COMPRESSOR_FSM_STATE_STARTUP \/ comp_st w c = COMPRESSOR_FSM_STATE_NORMAL).

Lemma run_left_eq w w' c :
  comp_st w' c = comp_st w c -> w'⟪compressor_min_runtime⟫ = w⟪compressor_min_runtime⟫ ->
  w'⟪compressor_startup_lowpress_shield⟫ = w⟪compressor_startup_lowpress_shield⟫ ->
  (comp_tmo w' c = comp_tmo w c -> run_left w' c = run_left w c) /\
  (comp_tmo w' c = Z.max 0 (comp_tmo w c - 1) -> run_left w c <= run_left w' c + 1).
Proof.
  intros E1 E2 E3. pose proof (rd_u16 w l_comp_timeout.[comp_do c] eq_refl) as Hr. fold (comp_tmo w c) in Hr.
  unfold run_left. rewrite E1, E2, E3. split; intros ->; [done|]. repeat case_match; lia.
Qed.

Lemma comp_tmo_nonneg w c : 0 <= comp_tmo w c.
Proof. unfold comp_tmo. pose proof (rd_u16 w l_comp_timeout.[comp_do c] eq_refl). lia. Qed.

(** An execution takes no run time away from a compressor that has some left. *)
Lemma exe_run_left t h w c :
  c = 0 \/ c = 1 -> forced_off w (comp_do c) = false -> @sys_get_do_sts w DO_FAN_BPOS <> 0 ->
  under_way w c -> 0 < run_left w c ->
  under_way (compressor_req_exe t h w) c /\ run_left (compressor_req_exe t h w) c = run_left w c.
Proof.
  intros Hc Hf Hfan [Hok Hst] Hl.
  destruct (exe_own t h w c Hc Hf Hfan) as (v & s & Hs & Sv & M1 & M2 & Sw).
  set (w' := compressor_req_exe t h w) in *. pose proof Sv as (V1 & V2 & V3). pose proof Sw as (W1 & W2 & W3).
  destruct (compressor_fsm_ok c s v (comp_ok_same _ _ _ Sv Hok)) as [Ok' _].
  pose proof (comp_ok_same _ _ _ Sw Ok') as Okw'.
  destruct (compressor_fsm_run c s v Hs) as [R1 R2]. rewrite V1, V2, M1, M2 in *.
  assert (forall d, fin (fld d) comp_fields || is_req d = false -> w'⟪d⟫ = w⟪d⟫) as Hk.
  { intros d Hd. eapply keep_rd, keep_rd_unch; [apply compressor_req_exe_foot | done]. }
  unfold under_way, run_left in *. rewrite !Hk, W1, W2 by done.
  destruct Hst as [E|E]; rewrite E in *; cbn [Z.eqb Pos.eqb] in *.
  - specialize (R1 eq_refl). destruct (Z.eqb_spec (comp_tmo w c) 0) as [Et|Et]; destruct R1 as [-> ->]; cbn [Z.eqb Pos.eqb].
    + split; [by split; [|right] | lia].
    + split; [by split; [|left] | done].
  - destruct (R2 eq_refl ltac:(lia)) as [-> ->]. cbn [Z.eqb Pos.eqb]. split; [by split; [|right] | done].
Qed.

Lemma run_keeps c n w w' :
  c = 0 \/ c = 1 -> under_way w c -> run c n w w' ->
  0 <= n /\ (n < run_left w c -> under_way w' c /\ run_left w c <= run_left w' c + n).
Proof.
  intros Hc Hu. induction 1 as [|n w v t h H IH Hfan Hf|n w v v' H IH E1 E2 E3 E4 E5|n w v v' H IH (E1 & E2 & E3) E4 E5].
  - split; [lia|]. intros _. split; [done | lia].
  - destruct (IH Hu) as [Hn Hi]. split; [done|]. intros Hlt. destruct (Hi Hlt) as [U L].
    destruct (exe_run_left t h v c Hc Hf Hfan U) as [U' L']; [lia|]. split; [done | lia].
  - destruct (IH Hu) as [Hn Hi]. split; [lia|]. intros Hlt. destruct Hi as [[U1 U2] L]; [lia|].
    destruct (run_left_eq v v' c E1 E4 E5) as [_ Hle]. specialize (Hle E3).
    split; [|lia]. split; [unfold comp_ok in *; by rewrite E1, E2 | by rewrite E1].
  - destruct (IH Hu) as [Hn Hi]. split; [done|]. intros Hlt. destruct Hi as [[U1 U2] L]; [done|].
    destruct (run_left_eq v v' c E1 E4 E5) as [Hle _]. specialize (Hle E2).
    split; [|lia]. split; [unfold comp_ok in *; by rewrite E1, E3 | by rewrite E1].
Qed.

(** C25: minimum run time.  A compressor that has just been started stays requested until the
    longer of the configured minimum run time and the low-pressure shield time has passed,
    however the signals change, unless the fan output goes off or an alarm forces it off. *)
Theorem compressor_min_run_time c n w w' :
  c = 0 \/ c = 1 -> comp_ok w c ->
  comp_st w c = COMPRESSOR_FSM_STATE_STARTUP ->
  comp_tmo w c = w⟪compressor_startup_lowpress_shield⟫ ->
  run c n w w' ->
  n < Z.max (w⟪compressor_min_runtime⟫) (w⟪compressor_startup_lowpress_shield⟫) ->
  comp_bit w' c = true.
Proof.
  intros Hc Hok Hs Ht Hr Hn. assert (under_way w c) as Hu by (split; [done | by left]).
  destruct (run_keeps c n w w' Hc Hu Hr) as [_ H]. destruct H as [[(_ & _ & Hb) Hst] _].
  - unfold run_left. rewrite Hs, Ht. cbn [Z.eqb Pos.eqb]. lia.
  - apply Hb. lia.
Qed.

Lemma compressor_min_run_time_witness :
  let w := poke [(l_l_fsm_state.[2], 2); (l_comp_timeout.[0], 3); (l_bitmap.[0, 0], 1);
    (ComSta_u16Dout_bitmap.[0], 8); (scalar compressor_min_runtime, 9);
    (scalar compressor_startup_lowpress_shield, 3)] w_zero in
  comp_bit (compressor_req_exe 0 0 (poke [(l_comp_timeout.[0], 2)] (compressor_req_exe 0 0 w))) 0 = true.
Proof.
  cbv zeta. set (w := poke _ w_zero).
  apply (compressor_min_run_time 0 1 w).
  - lia.
  - split; [|split]; vm_compute; first [split; discriminate | by intros | intros []; done].
  - vm_compute; reflexivity.
  - vm_compute; reflexivity.
  - apply run_exe; [| vm_compute; discriminate | vm_compute; reflexivity].
    eapply (run_tick 0 0 w (compressor_req_exe 0 0 w)); [| vm_compute; reflexivity ..].
    apply run_exe; [apply run_0 | vm_compute; discriminate | vm_compute; reflexivity].
  - vm_compute; reflexivity.
Defined.
