(* ===== verification/WaterMake.v ===== *)
(** * usr/modules/req_execution.c, third part: making and keeping water

    What stops the air-water machine ([Sys_Fan_CP_WL]), the purification pump, the ultraviolet
    lamps and the circulation that sterilises the tank, defrosting, cold water and the heater
    fan. *)

From S2P Require Import Prelude Conf Fifo Machine SysStatus EventRecord Eeprom GlobalVar AlarmCalc Fan.

Definition Exit_Water {w : cur} : Z :=
  if «ComPara_u16ExitWater_Mode» =? WATER_EXIT then WATER_EXIT
  else if «ComPara_u16ExitWater_Mode» =? WATER_FILL then WATER_FILL
  else WATER_AIR.

Definition External_Water_exe (u8Type : Z) : cmd :=
  IF negb (Exit_Water =? WATER_AIR) THEN
    if u8Type =? TRUE then req_bitmap_op DO_FV_BPOS 1
    else
      IF (Exit_Water =? WATER_EXIT) && («ComPara_u16Disinfection_Mode» =? 0) THEN
        req_bitmap_op DO_FV_BPOS 0
      END
  ELSE req_bitmap_op DO_FV_BPOS 0 END.

(** ** When to stop making water *)

(** [Fan_Close |= m; Comp_Close[0] |= m; Comp_Close[1] |= m] and the converse. *)
Definition close_set (m : Z) : cmd :=
  l_Fan_Close .|= m;; l_Comp_Close.[0] .|= m;; l_Comp_Close.[1] .|= m.
Definition close_clr (m : Z) : cmd :=
  l_Fan_Close .&= (.~ m);; l_Comp_Close.[0] .&= (.~ m);; l_Comp_Close.[1] .&= (.~ m).

(** The water level decides bit [FC_WL]; the result is [Test]. *)
Definition close_by_level (u16WL Test : Z) : act Z :=
  if nz (u16WL .& S_U) || nz (u16WL .& D_U) || nz (u16WL .& D_M) then
    FCW_u8WL_Start ::= FALSE;;
    IF ((«l_Cold_Water» =? TRUE) && («ComPara_u16ColdWater_Mode» =? NORMAL_ICE)) &&
       ((u16WL .& S_U) =? 0) && ((u16WL .& D_U) =? 0) THEN
      close_clr FC_WL;; RETURN (Test .| 0x02)
    ELSE
      close_set FC_WL;; RETURN (Test .| 0x04)
    END
  else
    CALL Test := (IF nz «ComPara_u16LN_Enable» THEN
                    l_Water_Full ::= FALSE;; RETURN Test
                  ELSE IF nz «ComPara_u16LN_Mode» THEN
                    if nz (u16WL .& D_ML) then
                      IF «FCW_u8WL_Start» =? TRUE THEN
                        l_Water_Full ::= FALSE;; RETURN (Test .| 0x08)
                      ELSE IF «l_Cold_Water» =? TRUE THEN
                        l_Water_Full ::= FALSE;; RETURN (Test .| 0x08)
                      ELSE
                        l_Water_Full ::= TRUE;; RETURN (Test .| 0x10)
                      END END
                    else
                      l_Water_Full ::= FALSE;; FCW_u8WL_Start ::= TRUE;; RETURN (Test .| 0x40)
                  ELSE
                    l_Water_Full ::= FALSE;; FCW_u8WL_Start ::= TRUE;; RETURN (Test .| 0x80)
                  END END) IN
    IF «l_Water_Full» =? TRUE THEN close_set FC_WL;; RETURN (Test .| 0x20)
    ELSE close_clr FC_WL;; RETURN Test END.

(** Temperature and humidity, checked once per interval, decide bit [FC_TH]. *)
Definition close_by_climate (Test : Z) : act Z :=
  FCW_u8Offset_CNT .++;;
  IF CF_DELAY <=? «FCW_u8Offset_CNT» THEN FCW_u8Offset_CNT ::= CF_DELAY END;;
  IF («l_TH_Check_Interval» =? 0) && (CF_DELAY <=? «FCW_u8Offset_CNT») THEN
    l_TH_Check_Interval ::= «ComPara_u16TH_Interal» * 60;;
    IF «FCW_u8FCP_Start» =? 0 THEN
      IF («ComPara_u16Start_Temp.[0]» <? «ComSta_u16TH_Temp.[0]») &&
         («ComSta_u16TH_Temp.[0]» <? «ComPara_u16Start_Temp.[1]») &&
         («ComPara_u16Start_Humidity» <? «ComSta_u16TH_Hum.[0]») THEN
        close_clr FC_TH;; FCW_u8FCP_Start ::= 1;; RETURN (Test .| 0x100)
      ELSE
        close_set FC_TH;; RETURN (Test .| 0x200)
      END
    ELSE
      IF («ComSta_u16TH_Temp.[0]» <? «ComPara_u16Stop_Temp.[0]») ||
         («ComPara_u16Stop_Temp.[1]» <=? «ComSta_u16TH_Temp.[0]») ||
         («ComSta_u16TH_Hum.[0]» <? «ComPara_u16Stop_Humidity») THEN
        close_set FC_TH;; FCW_u8FCP_Start ::= 0;; RETURN (Test .| 0x400)
      ELSE RETURN Test END
    END
  ELSE RETURN Test END.

(** The other reasons; defrosting makes the climate check due at once. *)
Definition power_time : act Z :=
  IF sys_get_pwr_sts =? 1 THEN l_PowerOn_Time .++;; RETURN 1
  ELSE l_PowerOn_Time ::= 0;; RETURN 0 END.
Definition close_external (Test : Z) : act Z :=
  IF negb (Exit_Water =? WATER_AIR) THEN close_set FC_WS;; RETURN (Test .| 0x800)
  ELSE close_clr FC_WS;; RETURN (Test .| 0x1000) END.
Definition close_defrost (Test : Z) : act Z :=
  IF negb (sys_get_remap_status WORK_MODE_STS_REG_NO DEFROST1_STS_BPOS =? 0) ||
     negb (sys_get_remap_status WORK_MODE_STS_REG_NO DEFROST2_STS_BPOS =? 0) THEN
    l_TH_Check_Interval ::= 0;; FCW_u8FCP_Start ::= 0;; RETURN (Test .| 0x2000)
  ELSE RETURN Test END.
Definition close_alarm (Test : Z) : act Z :=
  IF alarm_Off =? TRUE THEN close_set FC_AL;; RETURN (Test .| 0x4000)
  ELSE close_clr FC_AL;; RETURN (Test .| 0x8000) END.

Definition Sys_Fan_CP_WL : cmd :=
  FCW_u8WL_Start ::= «FCW_u8WL_Start»;;
  CALL Test := power_time IN
  CALL u16WL := Get_Water_level IN
  CALL Test := close_by_level u16WL Test IN
  CALL Test := close_by_climate Test IN
  CALL Test := close_external Test IN
  CALL Test := close_defrost Test IN
  CALL Test := close_alarm Test IN
  ComSta_REQ_TEST.[2] ::= Test.

(** ** The purification pump *)

(** External water: the pump stays off; the inlet fills the tank up to its middle level. *)
Definition pwp_external (u16WL : Z) : cmd :=
  req_bitmap_op DO_PWP_BPOS 0;;
  req_bitmap_op DO_EV1_BPOS 0;;
  IF ((Exit_Water =? WATER_EXIT) && nz «ComPara_u16Disinfection_Mode») || (Exit_Water =? WATER_FILL) THEN
    IF negb (Exit_Water =? WATER_EXIT) THEN ComPara_u16Disinfection_Mode ::= 0 END;;
    if nz (u16WL .& D_M) then
      req_bitmap_op DO_EV1_BPOS 0;;
      req_bitmap_op DO_FV_BPOS 0;;
      ComPara_u16ExitWater_Mode ::= 0;;
      LET v := «ComPara_u16ExitWater_Mode» IN
      RUN (RAM_Write_Reg EE_EXITWATER v 1)
    else
      req_bitmap_op DO_EV1_BPOS 1;;
      req_bitmap_op DO_FV_BPOS 1
  END.

Definition pwp_want (u16WL : Z) : cmd :=
  if nz (u16WL .& S_M) || nz (u16WL .& S_U) then l_Pwp_Open ::= TRUE
  else
    IF nz (get_alarm_bitmap ACL_E4) && nz («ComPara_u16Water_Ctrl» .& OPEN_PWP) THEN l_Pwp_Open ::= TRUE
    ELSE l_Pwp_Open ::= FALSE END.

Definition pwp_source (u16WL : Z) : cmd :=
  pwp_want u16WL;;
  IF nz (get_alarm_bitmap ACL_E9) THEN
    l_Pwp_Open ::= FALSE;;
    Pwp_u8PWP_S ::= FALSE
  END;;
  IF «l_OutWater_Flag» =? WATER_NORMAL_ICE THEN l_Pwp_Open ::= FALSE END;;
  IF («l_Pwp_Open» =? TRUE) || («Pwp_u8PWP_S» =? TRUE) THEN
    req_bitmap_op DO_PWP_BPOS 1;;
    req_bitmap_op DO_EV1_BPOS 1;;
    Pwp_u8PWP_S ::= TRUE;;
    (if ((u16WL .& S_M) =? 0) && ((u16WL .& S_L) =? 0) then
       Pwp_u8PWP_S ::= FALSE;;
       req_bitmap_op DO_PWP_BPOS 0;;
       req_bitmap_op DO_EV1_BPOS 0
     else skip);;
    l_Pwp_Open ::= «Pwp_u8PWP_S»
  ELSE
    req_bitmap_op DO_PWP_BPOS 0;;
    req_bitmap_op DO_EV1_BPOS 0
  END.

Definition Pwp_req_exe : cmd :=
  IF «l_u8Storage_Status» =? TRUE THEN skip
  ELSE
    CALL u16WL := Get_Water_level IN
    IF negb (Exit_Water =? WATER_AIR) THEN pwp_external u16WL
    ELSE
      req_bitmap_op DO_FV_BPOS 0;;
      ComPara_u16Disinfection_Mode ::= 0;;
      pwp_source u16WL
    END
  END.

(** ** Ultraviolet lamps *)

(** Both lamps, as [u16Sterilize_Mode] selects them. *)
Definition uv_lamps (action : Z) : cmd :=
  IF «ComPara_u16Sterilize_Mode» =? 1 THEN req_bitmap_op DO_UV1_BPOS action
  ELSE IF «ComPara_u16Sterilize_Mode» =? 2 THEN req_bitmap_op DO_UV24_BPOS action
  ELSE IF «ComPara_u16Sterilize_Mode» =? 3 THEN
    req_bitmap_op DO_UV1_BPOS action;; req_bitmap_op DO_UV24_BPOS action
  ELSE req_bitmap_op DO_UV1_BPOS action END END END.

Definition uv_lock_led : cmd :=
  IF negb (nz («ComPara_u16Water_Ctrl» .& HMI_KEY)) THEN req_bitmap_op DO_LED_LOCK_BPOS 1 END.

Definition UV_req_exe (u8Type u8Delay : Z) : cmd :=
  if u8Type =? TRUE then
    l_u16UV_Delay ::= «ComPara_u16UV_Delay» * 60;;
    uv_lamps 1;;
    uv_lock_led
  else
    IF «ComPara_u16UV_Delay» =? 999 THEN skip
    ELSE
      (if u8Delay =? FALSE then l_u16UV_Delay ::= 0 else skip);;
      IF nz «l_u16UV_Delay» THEN skip
      ELSE uv_lamps 0;; uv_lock_led END
    END.

(** ** Sterilisation: circulating the drinking tank under the lamp *)

Abbreviation STR_Interval := Str_u32Sterilize_Interval.[0].
Abbreviation STR_Time := Str_u16Sterilize_Time.[0].

(** With the pump-first closing order the valve waits for the closing delay. *)
Definition sterilize_circulate : cmd :=
  IF («ComPara_u16Sterilize_Interval.[0]» * 60 * 2 <=? «STR_Interval») && («l_Pwp_Open» =? FALSE) THEN
    STR_Time .++;;
    l_Sterilize ::= TRUE;;
    req_bitmap_op DO_P2_BPOS 1;;
    req_bitmap_op DO_EV1_BPOS 1;;
    IF negb («ComPara_u16CloseFrist» =? PUMP_FIRET) THEN req_bitmap_op DO_EV2_BPOS 0
    ELSE IF «l_u8CloseDelay» =? 0 THEN req_bitmap_op DO_EV2_BPOS 0 END END;;
    IF «ComPara_u16ColdWater_Mode» =? BD_ICE THEN
      req_bitmap_op DO_EV3_BPOS 0;;
      req_bitmap_op DO_EV4_BPOS 0
    END
  ELSE
    IF («l_u8CloseDelay» =? 0) && («l_u16BD_Time» =? 0) THEN req_bitmap_op DO_P2_BPOS 0 END;;
    l_Sterilize ::= FALSE
  END.

Definition sterilize_finish : cmd :=
  IF «l_OutWater_Flag» =? WATER_NORMAL_ICE THEN
    req_bitmap_op DO_P2_BPOS 0;;
    req_bitmap_op DO_EV1_BPOS 0
  ELSE IF «ComPara_u16Sterilize_Time.[0]» * 60 * 2 <=? «STR_Time» THEN
    STR_Interval ::= 0;;
    STR_Time ::= 0;;
    l_Sterilize ::= FALSE;;
    IF «ComPara_u16CloseFrist» =? PUMP_FIRET THEN req_bitmap_op DO_P2_BPOS 0
    ELSE IF «l_u8CloseDelay» =? 0 THEN req_bitmap_op DO_P2_BPOS 0 END END;;
    req_bitmap_op DO_EV1_BPOS 0
  END END.

Definition Sterilize_req_exe : cmd :=
  IF nz (get_alarm_bitmap ACL_E4) THEN
    UV_req_exe FALSE FALSE;;
    req_bitmap_op DO_WP_BPOS 0;;
    req_bitmap_op DO_EV2_BPOS 0
  ELSE IF negb (Exit_Water =? WATER_AIR) THEN
    req_bitmap_op DO_PWP_BPOS 0;;
    req_bitmap_op DO_WP_BPOS 0
  ELSE
    STR_Interval .++;;
    CALL u16WL := Get_Water_level IN
    if (u16WL .& D_L) =? 0 then req_bitmap_op DO_WP_BPOS 0
    else
      IF «l_u8Storage_Status» =? TRUE THEN
        req_bitmap_op DO_P2_BPOS 0;;
        req_bitmap_op DO_EV1_BPOS 0;;
        STR_Interval ::= 0;;
        STR_Time ::= 0
      ELSE
        sterilize_circulate;;
        sterilize_finish;;
        IF «l_Sterilize» =? FALSE THEN UV_req_exe FALSE TRUE ELSE UV_req_exe TRUE TRUE END
      END
  END END.

(** ** Defrosting *)

(** The hysteresis of one evaporator, sensor [ch], status bit [bpos]. *)
Definition defrost_one (ch bpos : Z) : cmd :=
  IF s16 «ComSta_u16Ain.[ch]» <? s16 «ComPara_u16Start_Defrost_Temp» THEN
    sys_set_remap_status WORK_MODE_STS_REG_NO bpos 1
  ELSE IF s16 «ComPara_u16Stop_Defrost_Temp» <? s16 «ComSta_u16Ain.[ch]» THEN
    sys_set_remap_status WORK_MODE_STS_REG_NO bpos 0
  END END.

Definition Defrost_req_exe : cmd :=
  IF negb (Exit_Water =? WATER_AIR) THEN skip
  ELSE
    defrost_one AI_NTC1 DEFROST1_STS_BPOS;;
    defrost_one AI_NTC2 DEFROST2_STS_BPOS
  END.

(** ** Cold water *)

Definition cold_restart_delay : cmd :=
  l_Cold_Delay.[0] ::= COLD_START_DELAY;;
  l_Cold_Delay.[1] ::= COLD_FV_DELAY.

(** Whether the tank is to be cooled: [Cold_Water] and the static [u8Coldwater]. *)
Definition cold_decide (u16WL u16Temp : Z) : act Z :=
  LET i16Water_Temp := s16 «ComSta_u16Ain.[AI_NTC4]» IN
  if nz (u16WL .& D_L) && nz (u16WL .& D_ML) && negb (i16Water_Temp =? ABNORMAL_VALUE) then
    IF «ComPara_u16ColdWater_StartTemp» <? i16Water_Temp THEN
      l_Cold_Water ::= TRUE;;
      IF «Cold_u8Coldwater» =? FALSE THEN Cold_u8Coldwater ::= TRUE;; cold_restart_delay END;;
      RETURN (u16Temp .| 0x02 .| 0x04)
    ELSE IF i16Water_Temp <? «ComPara_u16ColdWater_StopTemp» THEN
      IF «Cold_u8Coldwater» =? TRUE THEN Cold_u8Coldwater ::= FALSE;; cold_restart_delay END;;
      RETURN (u16Temp .| 0x02 .| 0x08)
    ELSE IF «Cold_u8Coldwater» =? TRUE THEN
      l_Cold_Water ::= TRUE;;
      RETURN (u16Temp .| 0x02 .| 0x10)
    ELSE RETURN (u16Temp .| 0x02) END END END
  else
    IF «Cold_u8Coldwater» =? TRUE THEN Cold_u8Coldwater ::= FALSE;; cold_restart_delay END;;
    RETURN (u16Temp .| 0x20).

(** The two valves, in opposite orders for opening and closing. *)
Definition cold_valves (u16Temp : Z) : act Z :=
  IF «l_Cold_Water» =? TRUE THEN
    IF «l_Cold_Delay.[0]» =? 0 THEN
      req_bitmap_op DO_CV_BPOS 1;;
      IF nz «l_Cold_Delay.[1]» THEN l_Cold_Delay.[1] .-- ELSE req_bitmap_op DO_WV_BPOS 1 END
    END;;
    RETURN (u16Temp .| 0x40)
  ELSE
    IF «l_Cold_Delay.[0]» =? 0 THEN
      req_bitmap_op DO_WV_BPOS 0;;
      IF nz «l_Cold_Delay.[1]» THEN l_Cold_Delay.[1] .-- ELSE req_bitmap_op DO_CV_BPOS 0 END
    END;;
    RETURN (u16Temp .| 0x80)
  END.

Definition Cold_Water_exe : cmd :=
  IF negb (Exit_Water =? WATER_AIR) THEN skip
  ELSE IF negb (nz («dev_mask_din.[0]» .& D_ML)) THEN skip
  ELSE
    l_Cold_Water ::= FALSE;;
    CALL u16WL := Get_Water_level IN
    CALL u16Temp := (IF «ComPara_u16ColdWater_Mode» =? NORMAL_ICE THEN
                       CALL t := cold_decide u16WL 0x01 IN cold_valves t
                     ELSE
                       req_bitmap_op DO_WV_BPOS 0;;
                       req_bitmap_op DO_CV_BPOS 0;;
                       RETURN 0x8000
                     END) IN
    ComSta_REQ_TEST.[3] ::= u16Temp
  END END.

(** ** The heater fan; no caller: the call in [req_execution] is commented out *)

Definition Heat_Fan_exe : cmd :=
  IF «ComPara_u16ColdWater_Mode» =? BD_ICE THEN skip
  ELSE IF negb (Exit_Water =? WATER_AIR) THEN skip
  ELSE
    LET i16Heat_Temp := s16 «ComSta_u16Ain.[AI_NTC3]» IN
    IF («ComPara_u16Water_Ctrl» .& TWO_COLD) =? 0 THEN
      IF (i16Heat_Temp =? ABNORMAL_VALUE) || («ComPara_u16HeatFan_StartTemp» <? i16Heat_Temp) THEN
        HeatFan_u8Heatfan ::= TRUE;;
        req_bitmap_op DO_HEAT_FAN_BPOS 1
      ELSE IF i16Heat_Temp <? «ComPara_u16HeatFan_StopTemp» THEN
        HeatFan_u8Heatfan ::= FALSE;;
        req_bitmap_op DO_HEAT_FAN_BPOS 0
      ELSE IF «HeatFan_u8Heatfan» =? TRUE THEN req_bitmap_op DO_HEAT_FAN_BPOS 1 END END END
    END
  END END.

(** ** Footprints *)

Ltac foot_unfold := unfold close_set, close_clr, cold_restart_delay, uv_lock_led.

Lemma External_Water_exe_foot t : respc (unch [] [DO_FV_BPOS]) (External_Water_exe t).
Proof. unfold External_Water_exe. foot_unfold. footprint. Qed.
#[export] Hint Resolve External_Water_exe_foot : foot.

Definition close_fields : list field :=
  [l_Fan_Close; l_Comp_Close; FCW_u8WL_Start; FCW_u8Offset_CNT; FCW_u8FCP_Start; l_Water_Full;
   l_TH_Check_Interval].
Lemma close_by_level_foot a b :
  respa (unch [l_Fan_Close; l_Comp_Close; FCW_u8WL_Start; l_Water_Full] []) (close_by_level a b).
Proof. unfold close_by_level. foot_unfold. footprint. Qed.
Lemma close_by_climate_foot a :
  respa (unch [l_Fan_Close; l_Comp_Close; FCW_u8Offset_CNT; FCW_u8FCP_Start; l_TH_Check_Interval] [])
    (close_by_climate a).
Proof. unfold close_by_climate. foot_unfold. footprint. Qed.
#[export] Hint Resolve close_by_level_foot close_by_climate_foot : foot.
Lemma power_time_foot : respa (unch [l_PowerOn_Time] []) power_time.
Proof. unfold power_time. footprint. Qed.
Lemma close_external_foot t : respa (unch [l_Fan_Close; l_Comp_Close] []) (close_external t).
Proof. unfold close_external. foot_unfold. footprint. Qed.
Lemma close_defrost_foot t : respa (unch [l_TH_Check_Interval; FCW_u8FCP_Start] []) (close_defrost t).
Proof. unfold close_defrost. footprint. Qed.
Lemma close_alarm_foot t : respa (unch [l_Fan_Close; l_Comp_Close] []) (close_alarm t).
Proof. unfold close_alarm. foot_unfold. footprint. Qed.
#[export] Hint Resolve power_time_foot close_external_foot close_defrost_foot close_alarm_foot : foot.
Lemma Sys_Fan_CP_WL_foot :
  respc (unch (l_PowerOn_Time :: ComSta_u16WL :: ComSta_REQ_TEST :: close_fields) []) Sys_Fan_CP_WL.
Proof. unfold Sys_Fan_CP_WL, power_time, close_external, close_defrost, close_alarm. foot_unfold. footprint. Qed.
#[export] Hint Resolve Sys_Fan_CP_WL_foot : foot.

Lemma uv_lamps_foot a : respc (unch [] [DO_UV1_BPOS; DO_UV24_BPOS]) (uv_lamps a).
Proof. unfold uv_lamps. foot_unfold. footprint. Qed.
#[export] Hint Resolve uv_lamps_foot : foot.
Lemma UV_req_exe_foot a b :
  respc (unch [l_u16UV_Delay] [DO_UV1_BPOS; DO_UV24_BPOS; DO_LED_LOCK_BPOS]) (UV_req_exe a b).
Proof. unfold UV_req_exe. foot_unfold. footprint. Qed.
#[export] Hint Resolve UV_req_exe_foot : foot.

Definition sterilize_do : list Z :=
  [DO_UV1_BPOS; DO_UV24_BPOS; DO_LED_LOCK_BPOS; DO_WP_BPOS; DO_EV1_BPOS; DO_EV2_BPOS; DO_EV4_BPOS; DO_PWP_BPOS].
Lemma sterilize_circulate_foot :
  respc (unch [Str_u16Sterilize_Time; l_Sterilize] sterilize_do) sterilize_circulate.
Proof. unfold sterilize_circulate. foot_unfold. footprint. Qed.
Lemma sterilize_finish_foot :
  respc (unch [Str_u32Sterilize_Interval; Str_u16Sterilize_Time; l_Sterilize] sterilize_do) sterilize_finish.
Proof. unfold sterilize_finish. foot_unfold. footprint. Qed.
#[export] Hint Resolve sterilize_circulate_foot sterilize_finish_foot : foot.
Lemma Sterilize_req_exe_foot :
  respc (unch [Str_u32Sterilize_Interval; Str_u16Sterilize_Time; l_Sterilize; l_u16UV_Delay; ComSta_u16WL]
    sterilize_do) Sterilize_req_exe.
Proof. unfold Sterilize_req_exe. foot_unfold. footprint. Qed.
#[export] Hint Resolve Sterilize_req_exe_foot : foot.

Lemma Defrost_req_exe_foot : respc (unch [ComSta_u16Status_remap] []) Defrost_req_exe.
Proof. unfold Defrost_req_exe, defrost_one. footprint. Qed.
Lemma cold_decide_foot a b : respa (unch [l_Cold_Water; Cold_u8Coldwater; l_Cold_Delay] []) (cold_decide a b).
Proof. unfold cold_decide. foot_unfold. footprint. Qed.
Lemma cold_valves_foot a : respa (unch [l_Cold_Delay] [DO_CV_BPOS; DO_WV_BPOS]) (cold_valves a).
Proof. unfold cold_valves. foot_unfold. footprint. Qed.
#[export] Hint Resolve Defrost_req_exe_foot cold_decide_foot cold_valves_foot : foot.
Lemma Cold_Water_exe_foot :
  respc (unch [l_Cold_Water; Cold_u8Coldwater; l_Cold_Delay; ComSta_u16WL; ComSta_REQ_TEST]
    [DO_CV_BPOS; DO_WV_BPOS]) Cold_Water_exe.
Proof. unfold Cold_Water_exe. foot_unfold. footprint. Qed.
#[export] Hint Resolve Cold_Water_exe_foot : foot.

Definition pwp_do : list Z := [DO_PWP_BPOS; DO_EV1_BPOS; DO_FV_BPOS].
Lemma write_exitwater_foot v :
  respa (unch [ComPara_u16ExitWater_Mode; P_ee; P_eventlog] []) (RAM_Write_Reg EE_EXITWATER v 1).
Proof. by apply (RAM_Write_Reg_foot _ _ (scalar ComPara_u16ExitWater_Mode)). Qed.
#[export] Hint Resolve write_exitwater_foot : foot.
Lemma Pwp_req_exe_foot :
  respc (unch [ComPara_u16Disinfection_Mode; ComPara_u16ExitWater_Mode; P_ee; P_eventlog; l_Pwp_Open;
    Pwp_u8PWP_S; ComSta_u16WL] pwp_do) Pwp_req_exe.
Proof. unfold Pwp_req_exe, pwp_external, pwp_source, pwp_want. footprint. Qed.
#[export] Hint Resolve Pwp_req_exe_foot : foot.

(** ** Why water making is stopped *)

(** Bit [k] of the three close words: fan, first and second compressor. *)
Definition close_bit (w : world) (k : Z) : bool * bool * bool :=
  (Z.testbit (w⟪l_Fan_Close⟫) k, Z.testbit (w⟪l_Comp_Close.[0]⟫) k, Z.testbit (w⟪l_Comp_Close.[1]⟫) k).
Definition all3 (b : bool) : bool * bool * bool := (b, b, b).

Lemma close_bit_set j w k :
  0 <= j < 8 -> 0 <= k < 8 ->
  close_bit (close_set (2 ^ j) w) k = (if k =? j then all3 true else close_bit w k) /\
  close_bit (close_clr (2 ^ j) w) k = (if k =? j then all3 false else close_bit w k).
Proof.
  intros Hj Hk. unfold close_bit, close_set, close_clr. split; obs; rewrite !u8_testbit by done.
  - rewrite !Z.lor_spec, !Z.pow2_bits_eqb, (Z.eqb_sym j k) by lia.
    destruct (k =? j); [by rewrite !orb_true_r | by rewrite !orb_false_r].
  - rewrite !Z.land_spec, !Z.lnot_spec, !Z.pow2_bits_eqb, (Z.eqb_sym j k) by lia.
    destruct (k =? j); cbn [negb]; [by rewrite !andb_false_r | by rewrite !andb_true_r].
Qed.

Lemma close_bit_unch F D w w' k :
  unch F D w w' -> fin l_Fan_Close F || fin l_Comp_Close F = false -> close_bit w' k = close_bit w k.
Proof.
  intros H [H1 H2]%orb_false_iff. unfold close_bit. by rewrite !(unch_rd F D w w').
Qed.

Lemma close_bit_assign c e w k :
  negb (feqb (fld c) l_Fan_Close) && negb (feqb (fld c) l_Comp_Close) = true ->
  close_bit (assign c e w) k = close_bit w k.
Proof.
  intros [H1%negb_true_iff H2%negb_true_iff]%andb_true_iff. unfold close_bit, assign. by rewrite !rd_wr_fld.
Qed.

(** The tank is full enough to stop: the drinking tank's middle or upper switch or the
    source tank's upper switch, unless the tank is only above its middle level and cold
    water is being made; below that, only in low-noise mode. *)
Definition level_closes (w : world) : bool :=
  let l := @water_level_value w in
  if nz (l .& S_U) || nz (l .& D_U) || nz (l .& D_M) then
    negb ((w⟪l_Cold_Water⟫ =? TRUE) && (w⟪ComPara_u16ColdWater_Mode⟫ =? NORMAL_ICE) &&
          ((l .& S_U) =? 0) && ((l .& D_U) =? 0))
  else
    negb (nz (w⟪ComPara_u16LN_Enable⟫)) && nz (w⟪ComPara_u16LN_Mode⟫) && nz (l .& D_ML) &&
    negb (w⟪FCW_u8WL_Start⟫ =? TRUE) && negb (w⟪l_Cold_Water⟫ =? TRUE).

Lemma close_by_level_bit t w k :
  0 <= k < 8 ->
  close_bit (close_by_level (@water_level_value w) t w).2 k =
    if k =? 0 then all3 (level_closes w) else close_bit w k.
Proof.
  intros Hk. unfold close_by_level, level_closes. cbv zeta. set (l := @water_level_value w).
  pose proof (fun w => close_bit_set 0 w k ltac:(lia) Hk) as Hset. change (2 ^ 0) with FC_WL in Hset.
  destruct (nz (l .& S_U) || nz (l .& D_U) || nz (l .& D_M)).
  - unfold seqc at 1, cif. rewrite !(keep_rd (FCW_u8WL_Start ::= FALSE)) by keep_tac.
    destruct (_ && _); unfold seqc, reta; cbn [snd negb];
      rewrite ?(proj1 (Hset _)), ?(proj2 (Hset _)); by rewrite close_bit_assign.
  - unfold bindc. set (r := cif _ _ _ w).
    assert (close_bit r.2 k = close_bit w k /\
      r.2⟪l_Water_Full⟫ = Z.b2z (negb (nz (w⟪ComPara_u16LN_Enable⟫)) && nz (w⟪ComPara_u16LN_Mode⟫) &&
        nz (l .& D_ML) && negb (w⟪FCW_u8WL_Start⟫ =? TRUE) && negb (w⟪l_Cold_Water⟫ =? TRUE))) as [Hc Hf].
    { subst r. unfold cif. destruct (nz (w⟪ComPara_u16LN_Enable⟫)), (nz (w⟪ComPara_u16LN_Mode⟫)), (nz (l .& D_ML)),
        (w⟪FCW_u8WL_Start⟫ =? TRUE), (w⟪l_Cold_Water⟫ =? TRUE);
      unfold seqc, reta; cbn [snd andb negb Z.b2z]; (split; [by rewrite ?close_bit_assign | by obs]). }
    clearbody r. unfold cif. rewrite Hf.
    destruct (_ && _ && _ && _ && _); cbn [Z.b2z]; [change (1 =? TRUE) with true | change (0 =? TRUE) with false];
      unfold seqc, reta; cbn [snd]; rewrite ?(proj1 (Hset _)), ?(proj2 (Hset _)); by rewrite Hc.
Qed.

(** A climate check is due once its interval has run out, a minute after start at the
    earliest; it starts and stops water making with hysteresis. *)
Definition climate_due (w : world) : bool :=
  (w⟪l_TH_Check_Interval⟫ =? 0) && (CF_DELAY <=? Z.min CF_DELAY (u8 (w⟪FCW_u8Offset_CNT⟫ + 1))).
Definition climate_starts (w : world) : bool :=
  (w⟪ComPara_u16Start_Temp.[0]⟫ <? w⟪ComSta_u16TH_Temp.[0]⟫) &&
  (w⟪ComSta_u16TH_Temp.[0]⟫ <? w⟪ComPara_u16Start_Temp.[1]⟫) &&
  (w⟪ComPara_u16Start_Humidity⟫ <? w⟪ComSta_u16TH_Hum.[0]⟫).
Definition climate_stops (w : world) : bool :=
  (w⟪ComSta_u16TH_Temp.[0]⟫ <? w⟪ComPara_u16Stop_Temp.[0]⟫) ||
  (w⟪ComPara_u16Stop_Temp.[1]⟫ <=? w⟪ComSta_u16TH_Temp.[0]⟫) ||
  (w⟪ComSta_u16TH_Hum.[0]⟫ <? w⟪ComPara_u16Stop_Humidity⟫).
Definition climate_closes (w : world) : option bool :=
  if climate_due w then
    if w⟪FCW_u8FCP_Start⟫ =? 0 then Some (negb (climate_starts w))
    else if climate_stops w then Some true else None
  else None.

Lemma close_by_climate_bit t w k :
  0 <= k < 8 ->
  close_bit (close_by_climate t w).2 k =
    match climate_closes w with
    | Some b => if k =? 2 then all3 b else close_bit w k
    | None => close_bit w k
    end.
Proof.
  intros Hk. pose proof (fun w => close_bit_set 2 w k ltac:(lia) Hk) as Hset. change (2 ^ 2) with FC_TH in Hset.
  unfold close_by_climate, climate_closes, climate_due, climate_starts, climate_stops.
  unfold seqc at 1. set (w1 := FCW_u8Offset_CNT .++ w). unfold seqc at 1. set (w2 := cif _ _ skip w1).
  assert (w2⟪FCW_u8Offset_CNT⟫ = Z.min CF_DELAY (u8 (w⟪FCW_u8Offset_CNT⟫ + 1))) as Ho.
  { subst w2. unfold cif, skip. assert (w1⟪FCW_u8Offset_CNT⟫ = u8 (w⟪FCW_u8Offset_CNT⟫ + 1)) as E by (subst w1; by obs).
    rewrite E. destruct (Z.leb_spec CF_DELAY (u8 (w⟪FCW_u8Offset_CNT⟫ + 1))); [obs; by rewrite Z.min_l|].
    rewrite E. lia. }
  assert (forall c, feqb (fld c) FCW_u8Offset_CNT = false -> w2⟪c⟫ = w⟪c⟫) as Hrd.
  { intros c Hc. subst w2 w1. unfold cif, skip, assign. assert (feqb FCW_u8Offset_CNT (fld c) = false) as Hc'.
    { apply not_true_iff_false. intros E%feqb_spec. rewrite <- E in Hc. done. }
    destruct (CF_DELAY <=? _); rewrite !rd_wr_fld by exact Hc'; done. }
  assert (close_bit w2 k = close_bit w k) as Hcb by (unfold close_bit; by rewrite !Hrd).
  clearbody w2. clear w1. unfold cif at 1. rewrite Ho, Hrd by done.
  destruct (_ && (CF_DELAY <=? _)); [|exact Hcb].
  unfold seqc at 1, cif. set (w3 := (l_TH_Check_Interval ::= _) w2).
  assert (forall c, feqb l_TH_Check_Interval (fld c) = false -> w3⟪c⟫ = w2⟪c⟫) as Hrd3 by (intros; by apply rd_wr_fld).
  assert (close_bit w3 k = close_bit w k) as Hcb3 by (rewrite <- Hcb; unfold close_bit; by rewrite !Hrd3).
  rewrite !Hrd3, !Hrd by done. clearbody w3.
  destruct (w⟪FCW_u8FCP_Start⟫ =? 0).
  - destruct (_ && _ && _); unfold seqc, reta; cbn [snd negb]; rewrite ?close_bit_assign by done;
      rewrite ?(proj1 (Hset _)), ?(proj2 (Hset _)); by rewrite Hcb3.
  - destruct (_ || _ || _); unfold seqc, reta; cbn [snd]; rewrite ?close_bit_assign by done;
      rewrite ?(proj1 (Hset _)); by rewrite Hcb3.
Qed.

(** Setting or clearing one reason. *)
Lemma close_if_bit (b : world -> bool) j (x y : world -> Z) w k :
  0 <= j < 8 -> 0 <= k < 8 ->
  close_bit (cif b (close_set (2 ^ j);; reta x) (close_clr (2 ^ j);; reta y) w).2 k =
    if k =? j then all3 (b w) else close_bit w k.
Proof.
  intros Hj Hk. destruct (close_bit_set j w k Hj Hk) as [H1 H2]. unfold cif.
  destruct (b w); unfold seqc, reta; cbn [snd]; [by rewrite H1 | by rewrite H2].
Qed.

Lemma close_bit_keep {A} (a : act A) F D w k :
  respa (unch F D) a -> fin l_Fan_Close F || fin l_Comp_Close F = false -> close_bit (a w).2 k = close_bit w k.
Proof. intros H HF. exact (close_bit_unch F D w _ k (H w) HF). Qed.

Definition alarm_stops (w : world) : bool :=
  alarm_bit w ACL_WATER_LEAK || alarm_bit w ACL_SYS01_EXHAUST_HI || alarm_bit w ACL_SYS01_EXHAUST_HI_LOCK.

Lemma alarm_Off_bits w : (@alarm_Off w =? TRUE) = alarm_stops w.
Proof.
  unfold alarm_Off, alarm_stops. rewrite !get_alarm_bitmap_bit, !nz_b2z.
  by destruct (_ || _ || _).
Qed.

(** Why water making is stopped.  After [Sys_Fan_CP_WL] the fan and both compressors have
    the same reasons: the tank level exactly when [level_closes] holds, external water
    exactly when it is selected, the alarms exactly while a leak, the exhaust temperature or
    its lock is shown; the climate reason changes only when a check is due, and then with
    the start limits while stopped and the stop limits while running. *)
Theorem Sys_Fan_CP_WL_reasons w :
  let w' := Sys_Fan_CP_WL w in
  close_bit w' 0 = all3 (level_closes w) /\
  close_bit w' 2 = match climate_closes w with Some b => all3 b | None => close_bit w 2 end /\
  close_bit w' 3 = all3 (negb (@Exit_Water w =? WATER_AIR)) /\
  close_bit w' 7 = all3 (alarm_stops w).
Proof.
  cbv zeta. unfold Sys_Fan_CP_WL, seqc, bindc. set (w0 := (FCW_u8WL_Start ::= _) w).
  assert (forall c, w0⟪c⟫ = w⟪c⟫) as Hr0 by (intros c; apply rd_wr_self). clearbody w0.
  set (v := (Get_Water_level (power_time w0).2).2).
  assert (forall c, fin (fld c) [l_PowerOn_Time; ComSta_u16WL] || is_req c = false -> v⟪c⟫ = w⟪c⟫) as Hrd.
  { intros c Hc. rewrite <- Hr0. apply orb_false_iff in Hc as [Hc Hq]. cbn in Hc.
    apply orb_false_iff in Hc as [Hc1 [Hc2 _]%orb_false_iff].
    subst v. rewrite (keep_rda Get_Water_level), (keep_rda power_time); [done | |];
      (eapply keep_rd_unch; [eauto with foot|]); rewrite Hq; unfold fin; cbn; by rewrite ?Hc1, ?Hc2. }
  assert ((Get_Water_level (power_time w0).2).1 = @water_level_value v) as ->.
  { change (@water_level_value (power_time w0).2 = @water_level_value v). subst v.
    unfold water_level_value, level_sense, sys_get_di_sts. by obs. }
  clearbody v.
  assert (forall k, close_bit v k = close_bit w k) as Hcv by (intros k; unfold close_bit; by rewrite !Hrd).
  assert (level_closes v = level_closes w) as Hlv.
  { unfold level_closes, water_level_value, level_sense, sys_get_di_sts. by rewrite !Hrd. }
  set (t0 := (power_time w0).1).
  set (r1 := close_by_level _ t0 v). set (r2 := close_by_climate r1.1 r1.2).
  set (r3 := close_external r2.1 r2.2). set (r4 := close_defrost r3.1 r3.2).
  assert (climate_closes r1.2 = climate_closes w) as Hcl.
  { unfold climate_closes, climate_due, climate_starts, climate_stops. subst r1. obs. by rewrite !Hrd. }
  assert (forall k, 0 <= k < 8 -> close_bit ((ComSta_REQ_TEST.[2] ::= (close_alarm r4.1 r4.2).1) (close_alarm r4.1 r4.2).2) k =
    if k =? 7 then all3 (@alarm_Off r4.2 =? TRUE) else
    if k =? 3 then all3 (negb (@Exit_Water r2.2 =? WATER_AIR)) else
    match climate_closes w with Some b => if k =? 2 then all3 b else close_bit r1.2 k | None => close_bit r1.2 k end) as Hk.
  { intros k Hk. rewrite close_bit_assign by done. unfold close_alarm. change FC_AL with (2 ^ 7).
    rewrite close_if_bit by lia. destruct (k =? 7); [done|].
    subst r4. rewrite (close_bit_keep (close_defrost _) _ _ _ _ (close_defrost_foot _)) by done.
    subst r3. unfold close_external. change FC_WS with (2 ^ 3). rewrite close_if_bit by lia.
    destruct (k =? 3); [done|]. subst r2. by rewrite close_by_climate_bit, Hcl. }
  assert (forall k, 0 <= k < 8 -> close_bit r1.2 k = if k =? 0 then all3 (level_closes w) else close_bit w k) as H1.
  { intros k Hk'. subst r1. by rewrite close_by_level_bit, Hlv, Hcv. }
  rewrite !Hk by lia. cbn [Z.eqb Pos.eqb]. rewrite !H1 by lia. cbn [Z.eqb Pos.eqb].
  split_and!; [by destruct (climate_closes w) | done | |].
  - subst r2 r1. unfold Exit_Water. obs. by rewrite !Hrd.
  - rewrite alarm_Off_bits. unfold alarm_stops, alarm_bit. subst r4 r3 r2 r1. obs. by rewrite !Hrd.
Qed.

(** ** The purification pump *)

(** The pump is wanted: source water at the middle level or above (or, if configured, while
    the lid is open), or a run under way; not after a time-out, and a run ends when the
    source tank is empty.  While normal water is dispensed no run starts. *)
Definition pwp_run (w : world) : bool :=
  let l := @water_level_value w in
  let e9 := alarm_bit w ACL_E9 in
  let want := nz (l .& S_M) || nz (l .& S_U) ||
              (alarm_bit w ACL_E4 && nz (w⟪ComPara_u16Water_Ctrl⟫ .& OPEN_PWP)) in
  let start := want && negb e9 && negb (w⟪l_OutWater_Flag⟫ =? WATER_NORMAL_ICE) in
  let under_way := (w⟪Pwp_u8PWP_S⟫ =? TRUE) && negb e9 in
  (start || under_way) && negb (((l .& S_M) =? 0) && ((l .& S_L) =? 0)).

(** Evaluate the comparisons of constants. *)
Ltac const_cmp :=
  repeat match goal with
  | |- context [?a =? ?b] =>
      let r := eval vm_compute in (a =? b) in
      lazymatch r with true => change (a =? b) with true | false => change (a =? b) with false end
  end; cbn [andb orb negb].

Lemma pwp_source_spec w d :
  d = DO_PWP_BPOS \/ d = DO_EV1_BPOS -> req_bit (pwp_source (@water_level_value w) w) d = pwp_run w.
Proof.
  intros Hd. unfold pwp_source, pwp_run. set (l := @water_level_value w). cbv zeta.
  set (want := nz (l .& S_M) || nz (l .& S_U) || (alarm_bit w ACL_E4 && nz (w⟪ComPara_u16Water_Ctrl⟫ .& OPEN_PWP))).
  set (empty := ((l .& S_M) =? 0) && ((l .& S_L) =? 0)). clearbody empty.
  assert (pwp_want l w = (l_Pwp_Open ::= Z.b2z want) w) as Hw.
  { subst want. unfold pwp_want. destruct (nz (l .& S_M) || nz (l .& S_U)); [done|]. cbn [orb]. unfold cif.
    rewrite get_alarm_bitmap_bit, nz_b2z. by destruct (_ && _). }
  clearbody want. unfold seqc at 1. rewrite Hw. clear Hw l. unfold seqc, cif. rewrite get_alarm_bitmap_bit, nz_b2z.
  assert (alarm_bit ((l_Pwp_Open ::= Z.b2z want) w) ACL_E9 = alarm_bit w ACL_E9) as -> by (unfold alarm_bit; by obs).
  destruct want, (alarm_bit w ACL_E9); cbn [Z.b2z andb orb negb]; unfold skip; obs;
    destruct (w⟪l_OutWater_Flag⟫ =? WATER_NORMAL_ICE), (w⟪Pwp_u8PWP_S⟫ =? TRUE) eqn:Es; cbn [andb orb negb]; obs;
    rewrite ?Es; const_cmp; destruct empty; unfold req_bitmap_op; destruct Hd as [-> | ->]; obs; done.
Qed.

Lemma pwp_external_pump l w : req_bit (pwp_external l w) DO_PWP_BPOS = false.
Proof.
  unfold pwp_external. set (k := cif _ _ skip).
  assert (respc (keep (fun w => req_bit w DO_PWP_BPOS)) k) as Hk by (subst k; keep_tac).
  unfold seqc. rewrite (Hk _ : req_bit _ _ = _). unfold req_bitmap_op. obs. done.
Qed.

(** The purification pump.  Outside storage, the pump is requested exactly when water is
    taken from the air and [pwp_run] holds: so never with an empty source tank, never after
    its time-out alarm E9, and whenever the source tank has reached its middle level, no
    time-out is shown and no water is being dispensed; with air water the inlet valve EV1
    follows the pump.  During storage this function leaves both alone. *)
Theorem Pwp_req_exe_spec w :
  let w' := Pwp_req_exe w in
  (w⟪l_u8Storage_Status⟫ = TRUE -> w' = w) /\
  (w⟪l_u8Storage_Status⟫ <> TRUE ->
     req_bit w' DO_PWP_BPOS = (@Exit_Water w =? WATER_AIR) && pwp_run w /\
     (@Exit_Water w = WATER_AIR -> req_bit w' DO_EV1_BPOS = pwp_run w)).
Proof.
  cbv zeta. unfold Pwp_req_exe, cif. split; [by intros -> |].
  intros Hs. apply Z.eqb_neq in Hs. rewrite Hs. unfold bindc. set (v := (Get_Water_level w).2).
  change (Get_Water_level w).1 with (@water_level_value w).
  assert (forall c, fin (fld c) [ComSta_u16WL] || is_req c = false -> v⟪c⟫ = w⟪c⟫) as Hv.
  { intros c Hc. eapply keep_rda, keep_rd_unch; [apply Get_Water_level_foot | done]. }
  assert (@Exit_Water v = @Exit_Water w) as -> by (unfold Exit_Water; by rewrite !Hv).
  destruct (Z.eqb_spec (@Exit_Water w) WATER_AIR) as [E|E]; cbn [negb andb].
  2: { split; [apply pwp_external_pump | done]. }
  unfold seqc. set (u := (ComPara_u16Disinfection_Mode ::= 0) _).
  assert (@water_level_value w = @water_level_value u) as Hl.
  { subst u. unfold water_level_value, level_sense, sys_get_di_sts. obs. by rewrite !Hv. }
  assert (pwp_run u = pwp_run w) as Hr.
  { unfold pwp_run. rewrite <- Hl. subst u. unfold alarm_bit. obs. by rewrite !Hv. }
  rewrite Hl, !pwp_source_spec, Hr by auto. done.
Qed.

Lemma Pwp_req_exe_witness :
  let w := poke [(ComSta_u16Din_bitmap.[0], 0x3c)] w_zero in
  req_bit (Pwp_req_exe w) DO_PWP_BPOS = true /\
  req_bit (Pwp_req_exe (poke [(status_alarm_bitmap.[0], 512)] w)) DO_PWP_BPOS = false.
Proof.
  cbv zeta. split.
  - destruct (Pwp_req_exe_spec (poke [(ComSta_u16Din_bitmap.[0], 0x3c)] w_zero)) as [_ H].
    destruct H as [-> _]; [vm_compute; discriminate | vm_compute; reflexivity].
  - destruct (Pwp_req_exe_spec (poke [(status_alarm_bitmap.[0], 512)] (poke [(ComSta_u16Din_bitmap.[0], 0x3c)] w_zero))) as [_ H].
    destruct H as [-> _]; [vm_compute; discriminate | vm_compute; reflexivity].
Defined.

(** ** Ultraviolet lamps and sterilisation *)

(** The lamps [u16Sterilize_Mode] selects. *)
Definition lamp_selected (w : world) (d : Z) : bool :=
  let m := w⟪ComPara_u16Sterilize_Mode⟫ in
  if d =? DO_UV1_BPOS then negb (m =? 2) else if d =? DO_UV24_BPOS then (m =? 2) || (m =? 3) else false.

Lemma uv_lamps_bit a w d :
  req_bit (uv_lamps a w) d = if lamp_selected w d then nz a else req_bit w d.
Proof.
  unfold uv_lamps, lamp_selected, cif. cbv zeta. rewrite (Z.eqb_sym d DO_UV1_BPOS), (Z.eqb_sym d DO_UV24_BPOS).
  generalize (w⟪ComPara_u16Sterilize_Mode⟫) as m. intros m.
  destruct (Z.eqb_spec m 1), (Z.eqb_spec m 2), (Z.eqb_spec m 3); try lia;
    unfold seqc, req_bitmap_op; rewrite !bmp_bit_op; cbn [negb orb];
    destruct (Z.eqb_spec DO_UV1_BPOS d), (Z.eqb_spec DO_UV24_BPOS d); (lia || done).
Qed.

Lemma UV_off_bit w d :
  (d =? DO_LED_LOCK_BPOS) = false ->
  req_bit (UV_req_exe FALSE FALSE w) d =
    if (w⟪ComPara_u16UV_Delay⟫ =? 999) then req_bit w d
    else if lamp_selected w d then false else req_bit w d.
Proof.
  intros Hd. unfold UV_req_exe. cbn [Z.eqb FALSE TRUE]. unfold cif at 1.
  destruct (w⟪ComPara_u16UV_Delay⟫ =? 999); [done|]. unfold seqc at 1, cif at 1.
  assert (((l_u16UV_Delay ::= 0) w)⟪l_u16UV_Delay⟫ = 0) as -> by (by obs). cbn [nz Z.eqb negb].
  unfold seqc, uv_lock_led, cif. set (v := uv_lamps 0 _).
  assert (req_bit v d = if lamp_selected w d then false else req_bit w d) as Hv.
  { subst v. rewrite uv_lamps_bit. unfold lamp_selected. by obs. }
  destruct (negb _); [|exact Hv]. unfold req_bitmap_op. rewrite bmp_bit_op, (Z.eqb_sym DO_LED_LOCK_BPOS d), Hd. exact Hv.
Qed.

Lemma sterilize_lid w :
  alarm_bit w ACL_E4 = true ->
  Sterilize_req_exe w =
    bitmap_op BITMAP_REQ DO_EV2_BPOS 0 (bitmap_op BITMAP_REQ DO_WP_BPOS 0 (UV_req_exe FALSE FALSE w)).
Proof. intros H4. unfold Sterilize_req_exe, cif at 1. by rewrite get_alarm_bitmap_bit, nz_b2z, H4. Qed.

(** Opening the lid.  While the lid alarm E4 is shown, sterilisation switches the
    circulation pump and the outlet valve off, and every selected lamp too, unless the lamp
    delay is configured as 999 ("always on"): then the lamps stay as they are, also with
    the lid open. *)
Theorem lid_open_stops_sterilising w :
  alarm_bit w ACL_E4 = true ->
  let w' := Sterilize_req_exe w in
  req_bit w' DO_WP_BPOS = false /\ req_bit w' DO_EV2_BPOS = false /\
  forall d, d = DO_UV1_BPOS \/ d = DO_UV24_BPOS ->
    req_bit w' d = if w⟪ComPara_u16UV_Delay⟫ =? 999 then req_bit w d
                   else if lamp_selected w d then false else req_bit w d.
Proof.
  intros H4. cbv zeta. rewrite (sterilize_lid w H4), !bmp_bit_op. split; [done|]. split; [done|]. intros d Hd.
  rewrite !bmp_bit_op, UV_off_bit by (destruct Hd as [-> | ->]; done). by destruct Hd as [-> | ->].
Qed.

Lemma lid_open_witness :
  let w := poke [(status_alarm_bitmap.[0], 16); (l_bitmap.[0, 0], 0x1180)] w_zero in
  req_bit (Sterilize_req_exe w) DO_WP_BPOS = false /\ req_bit (Sterilize_req_exe w) DO_UV1_BPOS = false.
Proof.
  cbv zeta. set (w := poke _ _).
  destruct (lid_open_stops_sterilising w) as (H1 & _ & H3); [vm_compute; reflexivity|].
  split; [exact H1|]. rewrite (H3 DO_UV1_BPOS) by auto. vm_compute. reflexivity.
Defined.

(** A sterilisation time of more than 546 minutes is never reached.  The elapsed time is
    counted in half seconds in a 16-bit object, which wraps to 0 before it gets to the
    configured time (the register accepts up to 600): the end-of-cycle step then does
    nothing, however long the cycle has run. *)
Theorem sterilize_time_unreachable w :
  547 <= w⟪ComPara_u16Sterilize_Time.[0]⟫ -> w⟪l_OutWater_Flag⟫ <> WATER_NORMAL_ICE ->
  sterilize_finish w = w.
Proof.
  intros Ht Hf%Z.eqb_neq. unfold sterilize_finish, cif, skip. rewrite Hf.
  pose proof (rd_u16 w STR_Time eq_refl).
  destruct (Z.leb_spec (w⟪ComPara_u16Sterilize_Time.[0]⟫ * 60 * 2) (w⟪STR_Time⟫)); [lia | done].
Qed.

Lemma sterilize_time_witness :
  let w := poke [(ComPara_u16Sterilize_Time.[0], 600); (STR_Time, 65535)] w_zero in
  sterilize_finish w = w /\
  exists a, reg_ptr (conf_reg a) = Some ComPara_u16Sterilize_Time.[0] /\ min_ (conf_reg a) <= 600 <= max_ (conf_reg a).
Proof.
  cbv zeta. set (w := poke _ _). split; [apply sterilize_time_unreachable; vm_compute; discriminate|].
  exists 43. vm_compute. split; [reflexivity | split; discriminate].
Defined.

(** ** Cold water and defrosting *)

Definition cold_ordered (w : world) : Prop := req_bit w DO_WV_BPOS = true -> req_bit w DO_CV_BPOS = true.

Lemma cold_valves_ordered t w : cold_ordered w -> cold_ordered (cold_valves t w).2.
Proof.
  intros Ho. unfold cold_ordered, cold_valves, cif, seqc, reta in *. unfold req_bitmap_op, skip.
  repeat case_match; cbn [snd]; obs; try done; auto.
Qed.

Lemma cold_ordered_keep F D w w' :
  unch F D w w' -> zin DO_WV_BPOS D || zin DO_CV_BPOS D = false -> cold_ordered w -> cold_ordered w'.
Proof.
  intros H [H1 H2]%orb_false_iff Ho. unfold cold_ordered. by rewrite !(unch_req _ _ _ _ H).
Qed.

(** The order of the cold-water valves.  [Cold_Water_exe] keeps the water valve WV
    closed unless the circulation valve CV is open: CV opens first and closes last. *)
Theorem cold_water_valve_order w : cold_ordered w -> cold_ordered (Cold_Water_exe w).
Proof.
  intros Ho. unfold Cold_Water_exe, cif. do 2 (case_match; [done|]). unfold seqc at 1, bindc.
  set (v := (Get_Water_level _).2).
  assert (cold_ordered v) as Hv.
  { eapply (cold_ordered_keep [ComSta_u16WL; l_Cold_Water] []); [| done | exact Ho].
    subst v. etransitivity; [|apply (resp_unch_weaken _ _ _ [ComSta_u16WL; l_Cold_Water] [] _ Get_Water_level_foot); done].
    by apply unch_assign. }
  clearbody v. apply (cold_ordered_keep [ComSta_REQ_TEST] [] (if v⟪ComPara_u16ColdWater_Mode⟫ =? NORMAL_ICE
    then cold_valves (cold_decide (Get_Water_level ((l_Cold_Water ::= FALSE) w)).1 1 v).1
      (cold_decide (Get_Water_level ((l_Cold_Water ::= FALSE) w)).1 1 v).2
    else ((req_bitmap_op DO_WV_BPOS 0;; req_bitmap_op DO_CV_BPOS 0;; RETURN 0x8000) v)).2);
    [by apply unch_assign | done |].
  case_match.
  - apply cold_valves_ordered. eapply cold_ordered_keep; [apply (cold_decide_foot _ _ v) | done | done].
  - unfold cold_ordered, seqc, reta, req_bitmap_op. cbn [snd]. by obs.
Qed.

Lemma cold_water_valve_order_witness :
  let w := poke [(dev_mask_din.[0], 0x40); (ComSta_u16Ain.[4], 200); (scalar Cold_u8Coldwater, 1);
    (scalar ComPara_u16ColdWater_Mode, 1)] w_zero in
  cold_ordered (Cold_Water_exe w) /\ req_bit (Cold_Water_exe w) DO_WV_BPOS = true.
Proof.
  cbv zeta. split; [|vm_compute; reflexivity]. apply cold_water_valve_order. intros H. vm_compute in H. discriminate.
Defined.
