(* ===== verification/WaterOut.v ===== *)
(** * usr/modules/req_execution.c, fourth part: dispensing water

    The keys and the child lock, the flow meter, the frame sent to the instant heater
    (drivers/usart_bsp.c), opening and closing pump and valves, and [WaterOut_req_exe], which
    decides every half second whether water runs. *)

From S2P Require Import Prelude Conf Fifo Machine SysStatus EventRecord Eeprom GlobalVar AlarmCalc Fan WaterMake.

(** ** binary32 products

    [(float)n * f] for an integer [n] of at most 24 bits and a constant [f = m / 2 ^ e] with a
    24-bit significand [m]: the product is rounded to 24 significant bits, ties to even, and
    truncated by the conversion to an integer. *)

Definition rne24 (z : Z) : Z :=
  let k := Z.max 0 (Z.log2 z + 1 - 24) in
  let q := z / 2 ^ k in
  let r := z mod 2 ^ k in
  let up := if 2 * r =? 2 ^ k then Z.odd q else 2 ^ k <? 2 * r in
  (if up then q + 1 else q) * 2 ^ k.

Definition f32_mul_trunc (n m e : Z) : Z := Z.sgn n * (rne24 (Z.abs n * m) / 2 ^ e).

(** Converting a floating value outside [0 .. 65535] to [uint16_t] is undefined in C; the value
    it gives is a parameter. *)
Class f2u_undefined : Type := f2u16_out : Z -> Z.
Definition f2u16 {U : f2u_undefined} (z : Z) : Z := if (0 <=? z) && (z <? 65536) then z else f2u16_out z.

(** L300_FACTOR .. L2000_FACTOR and HEAT_FACTOR_500MS as significand and exponent. *)
Definition PluseCalc_Water {U : f2u_undefined} (PluseCnt : Z) : Z :=
  let fWflow :=
    if PluseCnt <? 570 then f32_mul_trunc PluseCnt 13589545 25
    else if PluseCnt <? 1250 then f32_mul_trunc PluseCnt 13421773 25
    else if PluseCnt <? 2750 then f32_mul_trunc PluseCnt 12201612 25
    else if PluseCnt <? 4350 then f32_mul_trunc PluseCnt 11570494 25
    else if PluseCnt <? 5450 then f32_mul_trunc PluseCnt 12313553 25
    else f32_mul_trunc PluseCnt 12313553 25 in
  u16 (f2u16 fWflow).

Definition heat_flow_500ms {U : f2u_undefined} (n : Z) : Z := f2u16 (f32_mul_trunc n 8738133 21).

(** ** drivers/pwm_bsp.c: the pulse counter *)

Definition Read_Pluse_Cnt {w : cur} : Z := «TIM1_CNT».
(** The result is the value written through the pointer. *)
Definition Clear_Pluse_Cnt : act Z := TIM1_CNT ::= 0;; RETURN 0.

(** ** drivers/usart_bsp.c: frames to the heater *)

Abbreviation HEATWRITE_NUM := 18.
Abbreviation HEAT_WRITEPARA := 0.
Abbreviation HEAT_READPARA := 1.
Abbreviation UART_HEAT := 0.
Abbreviation SEND_Over := 5.

(** [UART_Send] with a non-empty buffer. *)
Definition UART_Send (u8Buf : list Z) : act Z :=
  (fun w => set_uart (rev u8Buf ++ uart_tx w) w);; RETURN 1.

Definition heat_frame (u8OC u8Temp u16WL : Z) : list Z :=
  let head := [0xAA; 0x01; u8 u8OC; u8 u8Temp; u8 (u16WL .>> 8); u8 u16WL] in
  let body := head ++ repeat 0 11 in
  let u16Sum := foldl (fun s i => u16 (s + nth (Z.to_nat i) body 0)) 0 (seqZ 1 (HEATWRITE_NUM - 2)) in
  body ++ [u8 (u16Sum .>> 8); u8 u16Sum].

Definition Heat_Send (u8Type u8OC u8Temp u16WL : Z) : act Z :=
  IF nz «ComPara_u16Heater_PM25» THEN RETURN 1
  ELSE
    if u8Type =? HEAT_READPARA then UART_Send [0xA5]
    else UART_Send (heat_frame u8OC u8Temp u16WL)
  END.

(** ** Keys and child lock *)

(** The heating key counts only while the child lock is open. *)
Definition heat_key : cmd :=
  IF nz «l_ChildLock_Key» THEN
    IF sys_get_di_sts DI_Heat_BPOS =? 1 THEN
      l_OutWater_Key .|= WATER_HEAT;;
      l_OutWater_Delay.[1] ::= WATER_MAXTIME
    ELSE
      l_OutWater_Key .&= (.~ WATER_HEAT);;
      l_OutWater_Delay.[1] ::= 0
    END
  ELSE
    IF sys_get_di_sts DI_Heat_BPOS =? 1 THEN skip
    ELSE
      l_OutWater_Key .&= (.~ WATER_HEAT);;
      l_OutWater_Delay.[1] ::= 0
    END
  END.

Definition WaterOut_Key : cmd :=
  IF sys_get_di_sts DI_Cold_1_BPOS =? 1 THEN
    l_OutWater_Key .|= WATER_NORMAL_ICE;;
    l_OutWater_Delay.[0] ::= WATER_MAXTIME
  ELSE
    l_OutWater_Key .&= (.~ WATER_NORMAL_ICE);;
    l_OutWater_Delay.[0] ::= 0
  END;;
  IF (sys_get_di_sts DI_Cold_2_BPOS =? 1) && nz («ComPara_u16Water_Ctrl» .& TWO_COLD) THEN
    l_OutWater_Key .|= WATER_ICE;;
    l_OutWater_Delay.[2] ::= WATER_MAXTIME
  ELSE
    l_OutWater_Key .&= (.~ WATER_ICE);;
    l_OutWater_Delay.[2] ::= 0
  END;;
  IF ChildKey_Cnt <=? «l_ChildLock_Cnt.[0]» THEN
    l_ChildLock_Cnt.[0] ::= 0;;
    l_ChildLock_Key ::= 1;;
    l_ChildLock_Cnt.[1] ::= ChildKey_Lose
  END;;
  heat_key;;
  IF nz «l_ChildLock_Cnt.[1]» THEN req_bitmap_op DO_LED_LOCK_BPOS 1
  ELSE
    req_bitmap_op DO_LED_LOCK_BPOS 0;;
    l_ChildLock_Key ::= 0
  END.

(** ** Closing *)

(** The part of [WaterOut_Close(1, ..)] that depends on the water; the result is [u8CloseWP]. *)
Definition close_outlet (u8Water : Z) : act Z :=
  if u8Water =? WATER_NORMAL_ICE then
    IF nz «ComPara_u16CloseDelay» THEN
      l_u8CloseDelay ::= «ComPara_u16CloseDelay»;;
      IF «ComPara_u16CloseFrist» =? PUMP_FIRET THEN RETURN TRUE
      ELSE req_bitmap_op DO_EV2_BPOS 0;; RETURN FALSE END
    ELSE req_bitmap_op DO_EV2_BPOS 0;; RETURN TRUE END
  else if u8Water =? WATER_HEAT then
    req_bitmap_op DO_HWP_BPOS 0;;
    IF negb («ComPara_u16CloseFrist» =? PUMP_FIRET) THEN req_bitmap_op DO_EV2_BPOS 0
    ELSE IF «l_u8CloseDelay» =? 0 THEN req_bitmap_op DO_EV2_BPOS 0 END END;;
    RETURN FALSE
  else if u8Water =? WATER_ICE then
    IF «ComPara_u16ColdWater_Mode» =? BD_ICE THEN
      CALL c := (IF «ComPara_u16CloseFrist» =? PUMP_FIRET THEN RETURN TRUE
                 ELSE IF «l_u8CloseDelay» =? 0 THEN RETURN TRUE ELSE RETURN FALSE END END) IN
      req_bitmap_op DO_EV3_BPOS 0;;
      RETURN c
    ELSE RETURN FALSE END
  else RETURN FALSE.

(** After an opening ([OutWater_OK] is not idle; the background thread makes it idle again). *)
Definition close_first (u8Water : Z) : act Z :=
  l_OutWater_OK ::= WATER_OUT;;
  IF nz «ComSta_u16Cur_Water» THEN
    ComSta_u16Last_Water ::= «ComSta_u16Cur_Water»;;
    ComSta_u16Cur_Water ::= 0;;
    ComPara_u16Water_Mode ::= 0;;
    ComPara_u16Water_Flow ::= 0
  END;;
  close_outlet u8Water.

(** The closing delay: the second of pump and valve follows when it has run out. *)
Definition close_delayed : act Z :=
  IF nz «l_u8CloseDelay» THEN
    l_u8CloseDelay .--;;
    IF nz «ComPara_u16CloseDelay» && («l_u8CloseDelay» =? 0) THEN
      l_u8CloseDelay ::= 0;;
      IF «ComPara_u16CloseFrist» =? PUMP_FIRET THEN req_bitmap_op DO_EV2_BPOS 0;; RETURN FALSE
      ELSE RETURN TRUE END
    ELSE RETURN FALSE END
  ELSE RETURN FALSE END.

(** The closing frame to the heater, sent at most [CLOSEHEAT_MAX] times. *)
Definition heat_close_frame (mark : Z) : cmd :=
  ComSta_REQ_TEST.[1] .|= mark;;
  Close_u8CloseNum .++;;
  LET flow := «ComPara_u16Water_Flow» IN
  RUN (Heat_Send HEAT_WRITEPARA CLOSE_HEAT 0 flow).

Definition WaterOut_Close (u8Type u8Water : Z) : act Z :=
  match u8Type with
  | 0 => Close_u8CloseNum ::= 0;; RETURN FALSE
  | 1 =>
      l_comp_timeout.[DO_EV2_BPOS] ::= 0;;
      l_OutWater_Flag ::= WATER_NO;;
      External_Water_exe FALSE;;
      IF «l_Sterilize» =? FALSE THEN UV_req_exe FALSE TRUE END;;
      CALL u8CloseWP := (IF nz «l_OutWater_OK» THEN close_first u8Water ELSE close_delayed END) IN
      IF (u8CloseWP =? TRUE) && («l_Sterilize» =? FALSE) THEN req_bitmap_op DO_WP_BPOS 0 END;;
      (if u8Water =? WATER_HEAT then
         l_HeatWater_Time ::= 0;;
         l_HeatWater_Flow ::= 0;;
         IF «Close_u8CloseNum» <? CLOSEHEAT_MAX THEN heat_close_frame 0x1000 END
       else skip);;
      RETURN FALSE
  | 2 =>
      if u8Water =? WATER_HEAT then
        IF «Close_u8CloseNum» <? CLOSEHEAT_MAX THEN heat_close_frame 0x2000;; RETURN FALSE
        ELSE RETURN TRUE END
      else RETURN FALSE
  | _ => RETURN FALSE
  end.

(** The three calls with which the source closes everything. *)
Definition close_all : cmd :=
  RUN (WaterOut_Close 1 WATER_NORMAL_ICE);;
  RUN (WaterOut_Close 1 WATER_HEAT);;
  RUN (WaterOut_Close 1 WATER_ICE).

Definition WaterOut_level : act Z :=
  CALL u16WL := Get_Water_level IN
  IF negb (Exit_Water =? WATER_AIR) THEN RETURN TRUE
  ELSE RETURN (if nz (u16WL .& D_L) then TRUE else FALSE) END.

(** ** Dispensing *)

Definition mark (m : Z) : cmd := ComSta_REQ_TEST.[1] .|= m.

(** Hot water is asked for, and normal or cold water. *)
Definition heat_wanted {w : cur} : bool :=
  ((«ComPara_u16Water_Mode» =? WATER_HEAT) && nz «ComPara_u16Water_Flow») || nz («l_OutWater_Key» .& WATER_HEAT).
Definition normal_wanted {w : cur} : bool :=
  ((«ComPara_u16Water_Mode» =? WATER_NORMAL_ICE) && nz «ComPara_u16Water_Flow») ||
  nz («l_OutWater_Key» .& WATER_NORMAL_ICE).
Definition ice_wanted {w : cur} : bool :=
  ((«ComPara_u16Water_Mode» =? WATER_ICE) && nz «ComPara_u16Water_Flow») || nz («l_OutWater_Key» .& WATER_ICE).
Definition cold_wanted {w : cur} : bool :=
  ((((«ComPara_u16Water_Mode» =? WATER_NORMAL_ICE) || («ComPara_u16Water_Mode» =? WATER_ICE)) &&
    nz «ComPara_u16Water_Flow») ||
   nz («l_OutWater_Key» .& WATER_NORMAL_ICE)) || nz («l_OutWater_Key» .& WATER_ICE).

(** The requested amount has been dispensed (checked for orders from the display only). *)
Definition amount_reached {w : cur} : bool :=
  ((«ComPara_u16Water_Flow» <=? «ComSta_u16Cur_Water») && nz «ComSta_u16Cur_Water») &&
  negb (nz («ComPara_u16Water_Ctrl» .& HMI_KEY)).

Definition note_last_water : cmd :=
  IF nz «ComSta_u16Cur_Water» THEN ComSta_u16Last_Water ::= «ComSta_u16Cur_Water» END.

(** The flow meter: pulses since the opening, and the amount they stand for. *)
Definition read_flow {U : f2u_undefined} : cmd :=
  LET c := Read_Pluse_Cnt IN
  CALL u16Pls_Cnt := (IF negb («l_OutWater_OK» =? WATER_READ) THEN Clear_Pluse_Cnt ELSE RETURN c END) IN
  ComSta_u16Pluse_CNT ::= u16Pls_Cnt;;
  ComSta_u16Cur_Water ::= PluseCalc_Water u16Pls_Cnt;;
  note_last_water.

(** Instant heater: the amount it reports, or an estimate from the time it has run. *)
Definition heater_progress {U : f2u_undefined} : cmd :=
  IF «l_OutWater_OK» =? WATER_READ THEN
    mark 0x40;;
    IF «l_HeatWater_st» =? HEAT_OUTWATER THEN
      mark 0x80;;
      ComSta_u16Cur_Water ::= «l_HeatWater_Flow»;;
      note_last_water;;
      l_OutWater_Flag ::= WATER_HEAT
    ELSE
      mark 0x100;;
      l_HeatWater_Time .++;;
      IF nz «l_HeatWater_Time» THEN
        RUN (WaterOut_Close 0 WATER_HEAT);;
        l_HeatWater_Flow ::= heat_flow_500ms («l_HeatWater_Time» - 2);;
        ComSta_u16Cur_Water ::= «l_HeatWater_Flow»;;
        note_last_water;;
        l_OutWater_Flag ::= WATER_HEAT
      END
    END
  END.

(** The temperature asked of the heater, an [uint8_t]. *)
Definition heater_temp {w : cur} : Z :=
  if «ComPara_u16Water_Mode» =? WATER_NORMAL_ICE then u8 («ComPara_u16NormalWater_Temp» / 10)
  else u8 (Z.quot (s16 «ComPara_u16HotWater_Temp» + s16 «ComPara_u16HotWater_Cali») 10).

(** Three opening frames, then a read frame, then opening frames up to [WRITEHEAT_MAX]. *)
Definition heater_command : cmd :=
  l_OutWater_Flag ::= WATER_HEAT;;
  IF («l_OutWater_OK» =? HEATER_SEND) && (3 <=? «Out_u8HeatNum») THEN
    mark 0x400;;
    l_OutWater_OK ::= WATER_READ;;
    CALL r := Heat_Send HEAT_READPARA 0 0 0 IN
    if nz r then
      g_ComStat.[UART_HEAT] ::= SEND_Over;;
      ComSta_TEST ::= 0
    else skip
  ELSE IF «Out_u8HeatNum» <? WRITEHEAT_MAX THEN
    mark 0x800;;
    Out_u8HeatNum .++;;
    l_OutWater_OK ::= HEATER_SEND;;
    l_HeatWater_st ::= HEAT_NO;;
    LET u8Temp := heater_temp IN
    IF nz («l_OutWater_Key» .& WATER_HEAT) THEN ComPara_u16Water_Flow ::= 5000 END;;
    LET flow := «ComPara_u16Water_Flow» IN
    CALL r := Heat_Send HEAT_WRITEPARA OPEN_HEAT u8Temp flow IN
    (if nz r then l_OutWater_Flag ::= WATER_HEAT else skip);;
    l_comp_timeout.[DO_RH1_BPOS] ::= RH_DEALY
  END END.

(** Hot water from the instant heater; the result is true when the source returns at once. *)
Definition instant_heat {U : f2u_undefined} : act bool :=
  RUN (WaterOut_Close 0 WATER_HEAT);;
  mark 0x20;;
  heater_progress;;
  IF amount_reached THEN
    RUN (WaterOut_Close 1 WATER_HEAT);;
    RETURN false
  ELSE IF («Out_u8HeatFirst» <? 3) && (45 <=? «ComSta_u16Cur_Water») THEN
    RUN (WaterOut_Close 2 WATER_HEAT);;
    Out_u8HeatFirst .++;;
    RETURN true
  ELSE
    mark 0x200;;
    IF (nz «ComPara_u16Water_Mode» && nz «ComPara_u16Water_Flow») || nz («l_OutWater_Key» .& WATER_HEAT) THEN
      heater_command
    END;;
    RETURN false
  END END.

(** Hot water from the heated pot. *)
Definition pot_heat {U : f2u_undefined} : cmd :=
  read_flow;;
  IF («ComPara_u16Water_Mode» =? WATER_HEAT) || nz («l_OutWater_Key» .& WATER_HEAT) THEN
    IF amount_reached THEN RUN (WaterOut_Close 1 WATER_HEAT)
    ELSE
      l_OutWater_OK ::= WATER_READ;;
      req_bitmap_op DO_HWP_BPOS 1;;
      l_comp_timeout.[DO_RH1_BPOS] ::= RH_DEALY;;
      l_OutWater_Flag ::= WATER_HEATPOT
    END
  END.

(** The valves of the cold circuit. *)
Definition open_valves : cmd :=
  IF «ComPara_u16ColdWater_Mode» =? BD_ICE THEN
    IF normal_wanted THEN
      req_bitmap_op DO_EV2_BPOS 1;;
      req_bitmap_op DO_EV3_BPOS 0;;
      req_bitmap_op DO_EV4_BPOS 0
    ELSE IF ice_wanted THEN
      req_bitmap_op DO_EV2_BPOS 0;;
      req_bitmap_op DO_EV3_BPOS 1;;
      req_bitmap_op DO_EV4_BPOS 0
    END END
  ELSE
    IF normal_wanted THEN req_bitmap_op DO_EV2_BPOS 1 END
  END.

Definition cold_open : cmd :=
  mark 0x8000;;
  External_Water_exe TRUE;;
  IF negb (Exit_Water =? WATER_AIR) THEN req_bitmap_op DO_WP_BPOS 0
  ELSE
    req_bitmap_op DO_WP_BPOS 1;;
    req_bitmap_op DO_PWP_BPOS 0
  END;;
  req_bitmap_op DO_EV1_BPOS 0;;
  open_valves;;
  UV_req_exe TRUE TRUE;;
  l_OutWater_OK ::= WATER_READ;;
  l_comp_timeout.[DO_RH1_BPOS] ::= RH_DEALY;;
  l_OutWater_Flag ::= WATER_NORMAL_ICE.

Definition cold_out {U : f2u_undefined} : cmd :=
  l_comp_timeout.[DO_EV2_BPOS] .++;;
  read_flow;;
  IF amount_reached THEN RUN (WaterOut_Close 1 WATER_NORMAL_ICE) ELSE cold_open END.

Definition heat_out {U : f2u_undefined} : act bool :=
  mark 0x10;;
  l_comp_timeout.[DO_EV2_BPOS] .++;;
  IF negb (nz («ComPara_u16Water_Ctrl» .& HEART_POT)) THEN instant_heat
  ELSE pot_heat;; RETURN false END.

Definition max_time_close : cmd :=
  IF WATER_MAXTIME <=? «l_comp_timeout.[DO_EV2_BPOS]» THEN close_all END.

Definition dispense {U : f2u_undefined} : cmd :=
  IF nz (get_alarm_bitmap ACL_E4) THEN
    mark 0x4000;;
    close_all
  ELSE
    CALL returned := (IF heat_wanted THEN heat_out
                      ELSE IF cold_wanted THEN cold_out;; RETURN false
                      ELSE close_all;; RETURN false END END) IN
    if returned then skip else max_time_close
  END.

Definition stop_heater : cmd :=
  Out_u8HeatNum ::= 0;;
  l_HeatWater_st ::= HEAT_NO;;
  l_HeatWater_Flow ::= 0.

(** Dispensing by keys, and by order from the display. *)
Definition key_dispense {U : f2u_undefined} : cmd :=
  mark 0x01;;
  WaterOut_Key;;
  CALL stop := (IF negb (nz «l_OutWater_Key») THEN RETURN true
                ELSE CALL l := WaterOut_level IN RETURN (l =? FALSE) END) IN
  if stop then
    mark 0x02;;
    stop_heater;;
    close_all
  else dispense.

Definition order_dispense {U : f2u_undefined} : cmd :=
  CALL stop := (IF negb (nz «ComPara_u16Water_Mode») && negb (nz «ComPara_u16Water_Flow») THEN RETURN true
                ELSE CALL l := WaterOut_level IN RETURN (l =? FALSE) END) IN
  if stop then
    mark 0x04;;
    CALL l := WaterOut_level IN
    (if l =? FALSE then
       mark 0x08;;
       ComPara_u16Water_Mode ::= 0;;
       ComPara_u16Water_Flow ::= 0
     else skip);;
    stop_heater;;
    close_all
  else dispense.

Definition WaterOut_req_exe {U : f2u_undefined} : cmd :=
  ComSta_REQ_TEST.[1] ::= 0;;
  req_bitmap_op DO_RH1_BPOS 1;;
  IF «l_u8Storage_Status» =? TRUE THEN skip
  ELSE IF nz («ComPara_u16Water_Ctrl» .& HMI_KEY) THEN key_dispense ELSE order_dispense END END.

(** ** Footprints *)

Lemma UART_Send_foot b : respa (unch [P_uart] []) (UART_Send b).
Proof. unfold UART_Send. footprint. Qed.
#[export] Hint Resolve UART_Send_foot : foot.
Lemma Heat_Send_foot a b c d : respa (unch [P_uart] []) (Heat_Send a b c d).
Proof. unfold Heat_Send. footprint. Qed.
#[export] Hint Resolve Heat_Send_foot : foot.

Definition key_fields : list field := [l_OutWater_Key; l_OutWater_Delay; l_ChildLock_Cnt; l_ChildLock_Key].
Lemma WaterOut_Key_foot : respc (unch key_fields [DO_LED_LOCK_BPOS]) WaterOut_Key.
Proof. unfold WaterOut_Key, heat_key. footprint. Qed.
#[export] Hint Resolve WaterOut_Key_foot : foot.

Definition outlet_do : list Z :=
  [DO_WP_BPOS; DO_EV2_BPOS; DO_EV3_BPOS; DO_HWP_BPOS; DO_FV_BPOS; DO_UV1_BPOS; DO_LED_LOCK_BPOS].
Definition close_out_fields : list field :=
  [l_comp_timeout; l_OutWater_Flag; l_u16UV_Delay; l_OutWater_OK; ComSta_u16Last_Water; ComSta_u16Cur_Water;
   ComPara_u16Water_Mode; ComPara_u16Water_Flow; l_u8CloseDelay; l_HeatWater_Time; l_HeatWater_Flow;
   ComSta_REQ_TEST; Close_u8CloseNum; P_uart].
Lemma WaterOut_Close_foot t x : respa (unch close_out_fields outlet_do) (WaterOut_Close t x).
Proof.
  unfold WaterOut_Close, close_first, close_outlet, close_delayed, heat_close_frame. footprint.
Qed.
#[export] Hint Resolve WaterOut_Close_foot : foot.
Lemma close_all_foot : respc (unch close_out_fields outlet_do) close_all.
Proof. unfold close_all. footprint. Qed.
#[export] Hint Resolve close_all_foot : foot.
Lemma WaterOut_level_foot : respa (unch [ComSta_u16WL] []) WaterOut_level.
Proof. unfold WaterOut_level. footprint. Qed.
#[export] Hint Resolve WaterOut_level_foot : foot.

Definition dispense_fields : list field :=
  [ComSta_u16Pluse_CNT; TIM1_CNT; l_HeatWater_st; Out_u8HeatNum; Out_u8HeatFirst; g_ComStat; ComSta_TEST] ++
  close_out_fields.
Definition dispense_do : list Z := [DO_PWP_BPOS; DO_EV1_BPOS; DO_EV4_BPOS] ++ outlet_do.
Lemma read_flow_foot {U : f2u_undefined} :
  respc (unch [ComSta_u16Pluse_CNT; TIM1_CNT; ComSta_u16Cur_Water; ComSta_u16Last_Water] []) read_flow.
Proof. unfold read_flow, note_last_water, Clear_Pluse_Cnt. footprint. Qed.
#[export] Hint Resolve read_flow_foot : foot.
Lemma heater_progress_foot {U : f2u_undefined} : respc (unch dispense_fields dispense_do) heater_progress.
Proof. unfold heater_progress, note_last_water, mark. footprint. Qed.
Lemma heater_command_foot : respc (unch dispense_fields []) heater_command.
Proof. unfold heater_command, mark. footprint. Qed.
#[export] Hint Resolve heater_progress_foot heater_command_foot : foot.
Lemma heat_out_foot {U : f2u_undefined} : respa (unch dispense_fields dispense_do) heat_out.
Proof. unfold heat_out, instant_heat, pot_heat, mark. footprint. Qed.
Lemma cold_open_foot : respc (unch dispense_fields dispense_do) cold_open.
Proof. unfold cold_open, open_valves, mark. footprint. Qed.
#[export] Hint Resolve heat_out_foot cold_open_foot : foot.
Lemma dispense_foot {U : f2u_undefined} : respc (unch dispense_fields dispense_do) dispense.
Proof. unfold dispense, cold_out, max_time_close, mark. footprint. Qed.
#[export] Hint Resolve dispense_foot : foot.
Lemma WaterOut_req_exe_foot {U : f2u_undefined} :
  respc (unch (ComSta_u16WL :: key_fields ++ dispense_fields) (DO_RH1_BPOS :: dispense_do)) WaterOut_req_exe.
Proof. unfold WaterOut_req_exe, key_dispense, order_dispense, stop_heater, mark. footprint. Qed.
#[export] Hint Resolve WaterOut_req_exe_foot : foot.

(** ** Nothing opens without permission *)

(** The outlet pump, the outlet valve and the hot-water pump. *)
Definition outlets : list Z := [DO_WP_BPOS; DO_EV2_BPOS; DO_HWP_BPOS].

(** No outlet is opened on the way from [w] to [w']. *)
Definition no_opening (w w' : world) : Prop :=
  forall d, zin d outlets = true -> req_bit w' d = true -> req_bit w d = true.

#[global] Instance no_opening_preorder : PreOrder no_opening.
Proof. split; [by intros w d | intros w1 w2 w3 H1 H2 d Hd H; eauto]. Qed.

Lemma no_opening_off d : respc no_opening (req_bitmap_op d 0).
Proof.
  intros w d' _. unfold req_bitmap_op. rewrite bmp_bit_op. by destruct (_ && _).
Qed.
Lemma no_opening_unch {X} (out : X -> world) F D k :
  resp out (unch F D) k -> forallb (fun d => negb (zin d D)) outlets = true -> resp out no_opening k.
Proof.
  intros H HD w d Hd. rewrite (unch_req _ _ _ _ (H w)); [done|].
  apply existsb_exists in Hd as (e & He & ->%Z.eqb_eq). rewrite forallb_forall in HD. by apply negb_true_iff, HD.
Qed.
Lemma no_opening_assign c e : feqb (fld c) l_bitmap = false -> respc no_opening (assign c e).
Proof. intros H w d _. unfold bmp_bit, assign. by rewrite rd_wr_fld. Qed.

Ltac opening_leaf :=
  first [apply no_opening_off
        | apply no_opening_assign; vm_compute; reflexivity
        | eapply no_opening_unch; [solve [eauto 2 with foot] | vm_compute; reflexivity]].
Ltac opening := repeat first [progress cbv beta zeta | resp_step; try typeclasses eauto | opening_leaf].

Lemma WaterOut_Close_no_opening t x : respa no_opening (WaterOut_Close t x).
Proof. unfold WaterOut_Close, close_first, close_outlet, close_delayed, heat_close_frame. opening. Qed.
Lemma close_all_no_opening : respc no_opening close_all.
Proof.
  unfold close_all. repeat (resp_step; try typeclasses eauto); apply WaterOut_Close_no_opening.
Qed.

(** ** Keys *)

Definition pressed (w : world) (di : Z) : bool := @sys_get_di_sts w di =? 1.
(** The child lock is open: released by the counter of key strokes, or still open. *)
Definition unlocked (w : world) : bool := (ChildKey_Cnt <=? w⟪l_ChildLock_Cnt.[0]⟫) || nz (w⟪l_ChildLock_Key⟫).

(** Bit [k] of the keys after they have been read. *)
Definition key_bit (w : world) (k : Z) : bool :=
  if k =? 0 then pressed w DI_Cold_1_BPOS
  else if k =? 2 then pressed w DI_Cold_2_BPOS && nz (w⟪ComPara_u16Water_Ctrl⟫ .& TWO_COLD)
  else if k =? 1 then pressed w DI_Heat_BPOS && (unlocked w || Z.testbit (w⟪l_OutWater_Key⟫) 1)
  else Z.testbit (w⟪l_OutWater_Key⟫) k.

(** One key: its bit follows [b], the other bits stay. *)
Definition one_key (b : world -> bool) (j i : Z) : cmd :=
  cif b (l_OutWater_Key .|= 2 ^ j;; l_OutWater_Delay.[i] ::= WATER_MAXTIME)
        (l_OutWater_Key .&= (.~ (2 ^ j));; l_OutWater_Delay.[i] ::= 0).

Lemma one_key_spec b j i w k :
  0 <= j < 8 -> 0 <= k < 8 ->
  Z.testbit ((one_key b j i w)⟪l_OutWater_Key⟫) k = if k =? j then b w else Z.testbit (w⟪l_OutWater_Key⟫) k.
Proof.
  intros Hj Hk. unfold one_key, cif. destruct (b w); obs; rewrite u8_testbit by done.
  - rewrite Z.lor_spec, Z.pow2_bits_eqb, (Z.eqb_sym j k) by lia.
    destruct (k =? j); [apply orb_true_r | apply orb_false_r].
  - rewrite Z.land_spec, Z.lnot_spec, Z.pow2_bits_eqb, (Z.eqb_sym j k) by lia.
    destruct (k =? j); [apply andb_false_r | apply andb_true_r].
Qed.

Lemma one_key_foot b j i : respc (unch [l_OutWater_Key; l_OutWater_Delay] []) (one_key b j i).
Proof. unfold one_key. footprint. Qed.
#[export] Hint Resolve one_key_foot : foot.

Lemma heat_key_spec w k :
  0 <= k < 8 ->
  Z.testbit ((heat_key w)⟪l_OutWater_Key⟫) k =
    if k =? 1 then pressed w DI_Heat_BPOS && (nz (w⟪l_ChildLock_Key⟫) || Z.testbit (w⟪l_OutWater_Key⟫) 1)
    else Z.testbit (w⟪l_OutWater_Key⟫) k.
Proof.
  intros Hk. unfold heat_key, cif, pressed. pose proof (one_key_spec (fun w => pressed w DI_Heat_BPOS) 1 1 w k) as H.
  pose proof (one_key_spec (fun _ => false) 1 1 w k ltac:(lia) Hk) as H0.
  unfold one_key, cif, pressed in H, H0. change (2 ^ 1) with WATER_HEAT in *.
  destruct (nz (w⟪l_ChildLock_Key⟫)); cbn [orb].
  - rewrite H by lia. destruct (k =? 1); [by rewrite andb_true_r | done].
  - destruct (@sys_get_di_sts w DI_Heat_BPOS =? 1); cbn [andb].
    + unfold skip. destruct (Z.eqb_spec k 1) as [->|]; done.
    + exact H0.
Qed.

Lemma WaterOut_Key_bits w k :
  0 <= k < 8 -> Z.testbit ((WaterOut_Key w)⟪l_OutWater_Key⟫) k = key_bit w k.
Proof.
  intros Hk. unfold WaterOut_Key.
  change (IF sys_get_di_sts DI_Cold_1_BPOS =? 1 THEN l_OutWater_Key .|= WATER_NORMAL_ICE;; l_OutWater_Delay.[0] ::= WATER_MAXTIME
    ELSE l_OutWater_Key .&= (.~ WATER_NORMAL_ICE);; l_OutWater_Delay.[0] ::= 0 END)
    with (one_key (fun w => pressed w DI_Cold_1_BPOS) 0 0).
  change (IF (sys_get_di_sts DI_Cold_2_BPOS =? 1) && nz («ComPara_u16Water_Ctrl» .& TWO_COLD) THEN
    l_OutWater_Key .|= WATER_ICE;; l_OutWater_Delay.[2] ::= WATER_MAXTIME
    ELSE l_OutWater_Key .&= (.~ WATER_ICE);; l_OutWater_Delay.[2] ::= 0 END)
    with (one_key (fun w => pressed w DI_Cold_2_BPOS && nz (w⟪ComPara_u16Water_Ctrl⟫ .& TWO_COLD)) 2 2).
  unfold seqc. set (w1 := one_key _ 0 0 w). set (w2 := one_key _ 2 2 w1). set (w3 := cif _ _ skip w2).
  assert (forall v, ((IF nz «l_ChildLock_Cnt.[1]» THEN req_bitmap_op DO_LED_LOCK_BPOS 1
    ELSE (fun w => (l_ChildLock_Key ::= 0) (req_bitmap_op DO_LED_LOCK_BPOS 0 w)) END) v)⟪l_OutWater_Key⟫ = v⟪l_OutWater_Key⟫) as Hlast.
  { intros v. unfold cif. case_match; by obs. }
  rewrite Hlast, heat_key_spec by done.
  assert (w3⟪l_OutWater_Key⟫ = w2⟪l_OutWater_Key⟫ /\ nz (w3⟪l_ChildLock_Key⟫) = unlocked w /\
    forall c, fld c = ComSta_u16Din_bitmap -> w3⟪c⟫ = w⟪c⟫) as (E3 & Eu & Ed).
  { subst w3. unfold cif, unlocked. assert (w2⟪l_ChildLock_Cnt.[0]⟫ = w⟪l_ChildLock_Cnt.[0]⟫) as -> by (subst w2 w1; by obs).
    destruct (_ <=? _); unfold skip; (split; [by obs|]); (split; [obs; subst w2 w1; by obs|]);
      intros [f i j] [= ->]; obs; subst w2 w1; by obs. }
  rewrite E3, Eu.
  assert (pressed w3 DI_Heat_BPOS = pressed w DI_Heat_BPOS) as -> by (unfold pressed, sys_get_di_sts; by rewrite Ed).
  assert (forall k, 0 <= k < 8 -> Z.testbit (w2⟪l_OutWater_Key⟫) k =
    if k =? 2 then pressed w DI_Cold_2_BPOS && nz (w⟪ComPara_u16Water_Ctrl⟫ .& TWO_COLD)
    else if k =? 0 then pressed w DI_Cold_1_BPOS else Z.testbit (w⟪l_OutWater_Key⟫) k) as H2.
  { intros k' Hk'. subst w2. rewrite one_key_spec by lia. subst w1. rewrite one_key_spec by lia.
    unfold pressed, sys_get_di_sts. by obs. }
  rewrite !H2 by lia. unfold key_bit. cbn [Z.eqb Pos.eqb].
  destruct (Z.eqb_spec k 0), (Z.eqb_spec k 1), (Z.eqb_spec k 2); (lia || done).
Qed.

(** The dispensing keys and the child lock.  After the keys have been read, the bits for
    normal and cold water follow their keys (the second cold key only if two cold outlets
    are configured); the bit for hot water is set only while its key is pressed, and becomes
    set only with the child lock open. *)
Theorem WaterOut_Key_spec w k :
  0 <= k < 8 -> Z.testbit ((WaterOut_Key w)⟪l_OutWater_Key⟫) k = key_bit w k.
Proof. apply WaterOut_Key_bits. Qed.

Lemma WaterOut_Key_witness :
  let w := poke [(ComSta_u16Din_bitmap.[0], 0x600)] w_zero in
  Z.testbit ((WaterOut_Key w)⟪l_OutWater_Key⟫) 0 = true /\ Z.testbit ((WaterOut_Key w)⟪l_OutWater_Key⟫) 1 = false /\
  Z.testbit ((WaterOut_Key (poke [(l_ChildLock_Cnt.[0], 1)] w))⟪l_OutWater_Key⟫) 1 = true.
Proof. cbv zeta. rewrite !WaterOut_Key_spec by lia. vm_compute. split_and!; reflexivity. Defined.

(** ** Permission *)

(** Somebody asks for water: a key, or an order from the display. *)
Definition ordered (w : world) : bool :=
  if nz (w⟪ComPara_u16Water_Ctrl⟫ .& HMI_KEY) then nz ((WaterOut_Key w)⟪l_OutWater_Key⟫)
  else nz (w⟪ComPara_u16Water_Mode⟫) || nz (w⟪ComPara_u16Water_Flow⟫).

(** There is water: external water, or the drinking tank above its lowest switch. *)
Definition has_water (w : world) : bool :=
  negb (@Exit_Water w =? WATER_AIR) || nz (@water_level_value w .& D_L).

Definition may_dispense (w : world) : bool :=
  negb (w⟪l_u8Storage_Status⟫ =? TRUE) && negb (alarm_bit w ACL_E4) && ordered w && has_water w.

Lemma water_level_ext v w :
  (forall c, fld c = ComSta_u16Din_bitmap \/ fld c = dev_mask_din -> v⟪c⟫ = w⟪c⟫) ->
  @water_level_value v = @water_level_value w.
Proof. intros H. unfold water_level_value, level_sense, sys_get_di_sts. by rewrite !H by auto. Qed.

Lemma WaterOut_level_ret w : ((WaterOut_level w).1 =? FALSE) = negb (has_water w).
Proof.
  unfold WaterOut_level, bindc, cif, has_water. change (Get_Water_level w).1 with (@water_level_value w).
  assert (@Exit_Water (Get_Water_level w).2 = @Exit_Water w) as -> by (unfold Exit_Water; by obs).
  destruct (@Exit_Water w =? WATER_AIR); cbn [negb orb]; [|done]. unfold reta. cbn [fst].
  by destruct (nz (@water_level_value w .& D_L)).
Qed.

(** The keys as they would be read depend only on the inputs and the key objects. *)
Lemma WaterOut_Key_ext v w :
  (forall c, fin (fld c) [ComSta_u16Din_bitmap; ComPara_u16Water_Ctrl; l_ChildLock_Cnt; l_ChildLock_Key; l_OutWater_Key] = true ->
     v⟪c⟫ = w⟪c⟫) ->
  (WaterOut_Key v)⟪l_OutWater_Key⟫ = (WaterOut_Key w)⟪l_OutWater_Key⟫.
Proof.
  intros H. pose proof (rd_u8 (WaterOut_Key v) l_OutWater_Key eq_refl) as Hv.
  pose proof (rd_u8 (WaterOut_Key w) l_OutWater_Key eq_refl) as Hw.
  rewrite <- (u8_small _ Hv), <- (u8_small _ Hw). unfold u8. change 256 with (2 ^ 8).
  apply Z.bits_inj'. intros k Hk. destruct (Z.lt_ge_cases k 8).
  - rewrite !Z.mod_pow2_bits_low, !WaterOut_Key_bits by lia.
    unfold key_bit, pressed, unlocked, sys_get_di_sts. by rewrite !H.
  - by rewrite !Z.mod_pow2_bits_high by lia.
Qed.

Lemma WaterOut_Close_flag x w : (WaterOut_Close 1 x w).2⟪l_OutWater_Flag⟫ = WATER_NO.
Proof.
  unfold WaterOut_Close. unfold seqc at 1. set (v1 := assign _ _ w). unfold seqc at 1.
  set (v2 := (l_OutWater_Flag ::= WATER_NO) v1).
  assert (v2⟪l_OutWater_Flag⟫ = WATER_NO) as E by (subst v2; by obs). clearbody v2.
  etransitivity; [|exact E]. apply (keep_rda (seqc (External_Water_exe FALSE) _)).
  unfold close_first, close_outlet, close_delayed, heat_close_frame. keep_tac.
Qed.

Lemma close_all_flag w : (close_all w)⟪l_OutWater_Flag⟫ = WATER_NO.
Proof. unfold close_all, seqc, runc. apply WaterOut_Close_flag. Qed.

(** The branches that do not dispense. *)
Definition closing (k : cmd) : Prop := respc no_opening k /\ forall w, (k w)⟪l_OutWater_Flag⟫ = WATER_NO.

Lemma closing_close_all : closing close_all.
Proof. split; [apply close_all_no_opening | apply close_all_flag]. Qed.
Lemma closing_seq c k : respc no_opening c -> closing k -> closing (c;; k).
Proof. intros Hc [H1 H2]. split; [by apply resp_seq; [typeclasses eauto|..] | intros w; apply H2]. Qed.

Lemma closing_bind {A} (a : act A) k : respa no_opening a -> (forall x, closing (k x)) -> closing (bindc a k).
Proof.
  intros Ha Hk. split; [apply resp_bind; [typeclasses eauto | done | apply Hk] | intros w; apply Hk].
Qed.

Lemma dispense_lid {U : f2u_undefined} w :
  alarm_bit w ACL_E4 = true -> no_opening w (dispense w) /\ (dispense w)⟪l_OutWater_Flag⟫ = WATER_NO.
Proof.
  intros H4. unfold dispense, cif. rewrite get_alarm_bitmap_bit, nz_b2z, H4.
  assert (closing (mark 0x4000;; close_all)) as [H1 H2].
  { apply closing_seq; [unfold mark; opening | apply closing_close_all]. }
  split; [apply H1 | apply H2].
Qed.

Lemma req_prefix_spec w :
  let w1 := req_bitmap_op DO_RH1_BPOS 1 ((ComSta_REQ_TEST.[1] ::= 0) w) in
  no_opening w w1 /\
  forall c, feqb (fld c) ComSta_REQ_TEST || feqb (fld c) l_bitmap = false -> w1⟪c⟫ = w⟪c⟫.
Proof.
  cbv zeta. split.
  - intros d Hd. unfold req_bitmap_op. rewrite bmp_bit_op.
    assert ((DO_RH1_BPOS =? d) = false) as ->.
    { apply Z.eqb_neq. intros <-. done. }
    rewrite andb_false_r. unfold bmp_bit. by obs.
  - intros c [H1 H2]%orb_false_iff. rewrite (keep_rd (req_bitmap_op DO_RH1_BPOS 1)).
    + apply rd_wr_fld. cbn. apply not_true_iff_false. intros E%feqb_spec. rewrite <- E in H1. done.
    + eapply keep_rd_unch; [apply req_bitmap_op_foot|]. unfold is_req. by rewrite H2.
Qed.

(** After the measurement of the level, and after the keys. *)
Lemma level_keep w c : fin (fld c) [ComSta_u16WL] || is_req c = false -> (WaterOut_level w).2⟪c⟫ = w⟪c⟫.
Proof. intros Hc. eapply keep_rda, keep_rd_unch; [apply WaterOut_level_foot | done]. Qed.
Lemma level_no_opening w : no_opening w (WaterOut_level w).2.
Proof. exact (no_opening_unch _ _ _ _ WaterOut_level_foot eq_refl w). Qed.
Lemma keys_keep w c : fin (fld c) key_fields || is_req c = false -> (WaterOut_Key w)⟪c⟫ = w⟪c⟫.
Proof. intros Hc. eapply keep_rd, keep_rd_unch; [apply WaterOut_Key_foot | done]. Qed.

Definition closed_end (w w' : world) : Prop := no_opening w w' /\ w'⟪l_OutWater_Flag⟫ = WATER_NO.

Lemma closed_end_trans w w1 w2 : no_opening w w1 -> closed_end w1 w2 -> closed_end w w2.
Proof. intros H [H1 H2]. split; [by etransitivity | done]. Qed.

(** The lid, checked in a state reached without touching the alarms. *)
Lemma dispense_blocked {U : f2u_undefined} w v :
  (forall c, fld c = status_alarm_bitmap -> v⟪c⟫ = w⟪c⟫) ->
  alarm_bit w ACL_E4 = true -> closed_end v (dispense v).
Proof. intros H H4. apply dispense_lid. unfold alarm_bit. by rewrite H. Qed.

Lemma has_water_ext v w :
  (forall c, fin (fld c) [ComPara_u16ExitWater_Mode; ComSta_u16Din_bitmap; dev_mask_din] = true -> v⟪c⟫ = w⟪c⟫) ->
  has_water v = has_water w.
Proof.
  intros H. unfold has_water, Exit_Water. rewrite (water_level_ext v w), !H; [done | done.. |].
  intros [f i j] [E|E]; apply H; cbn in E; by subst.
Qed.

Lemma closing_stop1 : closing (mark 0x02;; stop_heater;; close_all).
Proof.
  apply closing_seq; [unfold mark; opening|]. apply closing_seq; [unfold stop_heater; opening | apply closing_close_all].
Qed.
Lemma closing_stop2 : closing (mark 0x04;; CALL l := WaterOut_level IN
  (if l =? FALSE then mark 0x08;; ComPara_u16Water_Mode ::= 0;; ComPara_u16Water_Flow ::= 0 else skip);;
  stop_heater;; close_all).
Proof.
  apply closing_seq; [unfold mark; opening|]. apply closing_bind; [opening_leaf | intros l].
  apply closing_seq; [unfold mark; opening|]. apply closing_seq; [unfold stop_heater; opening | apply closing_close_all].
Qed.

Lemma key_dispense_closed {U : f2u_undefined} w :
  negb (alarm_bit w ACL_E4) && nz ((WaterOut_Key w)⟪l_OutWater_Key⟫) && has_water w = false ->
  closed_end w (key_dispense w).
Proof.
  intros Hm. unfold key_dispense, seqc at 1. set (w1 := mark 1 w).
  assert (forall c, feqb (fld c) ComSta_REQ_TEST = false -> w1⟪c⟫ = w⟪c⟫) as H1.
  { intros c Hc. apply rd_wr_fld. cbn. apply not_true_iff_false. intros E%feqb_spec. rewrite <- E in Hc. done. }
  apply (closed_end_trans w w1); [exact (no_opening_assign ComSta_REQ_TEST.[1] _ eq_refl w)|].
  assert ((WaterOut_Key w1)⟪l_OutWater_Key⟫ = (WaterOut_Key w)⟪l_OutWater_Key⟫) as Hk.
  { apply WaterOut_Key_ext. intros [f i j] Hf. apply H1. destruct f; done. }
  clearbody w1. unfold seqc at 1. set (w2 := WaterOut_Key w1) in *.
  apply (closed_end_trans w1 w2); [exact (no_opening_unch _ _ _ _ WaterOut_Key_foot eq_refl w1)|].
  assert (forall c, feqb (fld c) ComSta_REQ_TEST = false -> fin (fld c) key_fields || is_req c = false -> w2⟪c⟫ = w⟪c⟫) as H2.
  { intros c Hc Hf. subst w2. by rewrite keys_keep, H1. }
  clearbody w2. unfold bindc, cif. rewrite Hk.
  destruct (nz ((WaterOut_Key w)⟪l_OutWater_Key⟫)); cbn [negb].
  2: { destruct closing_stop1 as [A B]. split; [apply A | apply B]. }
  unfold reta. cbn [fst snd]. rewrite WaterOut_level_ret.
  assert (has_water w2 = has_water w) as Hw. { apply has_water_ext. intros [f i j] Hf. apply H2; destruct f; done. }
  rewrite Hw. apply (closed_end_trans w2 _ _ (level_no_opening w2)).
  destruct (has_water w); cbn [negb].
  - apply (dispense_blocked w).
    + intros [f i j] Hf. cbn in Hf. subst f. by rewrite level_keep, H2.
    + by destruct (alarm_bit w ACL_E4).
  - destruct closing_stop1 as [A B]. split; [apply A | apply B].
Qed.

Lemma order_dispense_closed {U : f2u_undefined} w :
  negb (alarm_bit w ACL_E4) && (nz (w⟪ComPara_u16Water_Mode⟫) || nz (w⟪ComPara_u16Water_Flow⟫)) && has_water w = false ->
  closed_end w (order_dispense w).
Proof.
  intros Hm. unfold order_dispense, bindc at 1, cif. rewrite <- negb_orb.
  destruct (nz (w⟪ComPara_u16Water_Mode⟫) || nz (w⟪ComPara_u16Water_Flow⟫)); cbn [negb].
  2: { destruct closing_stop2 as [A B]. split; [apply A | apply B]. }
  unfold bindc at 1 3, reta. cbn [fst snd]. rewrite WaterOut_level_ret.
  apply (closed_end_trans w _ _ (level_no_opening w)). destruct (has_water w); cbn [negb].
  - apply (dispense_blocked w).
    + intros [f i j] Hf. cbn in Hf. subst f. by rewrite level_keep.
    + by destruct (alarm_bit w ACL_E4).
  - destruct closing_stop2 as [A B]. split; [apply A | apply B].
Qed.

Lemma outlets_closed {U : f2u_undefined} w :
  may_dispense w = false ->
  no_opening w (WaterOut_req_exe w) /\
  (w⟪l_u8Storage_Status⟫ <> TRUE -> (WaterOut_req_exe w)⟪l_OutWater_Flag⟫ = WATER_NO).
Proof.
  intros Hm. destruct (req_prefix_spec w) as [Hno Hrd].
  set (w1 := req_bitmap_op DO_RH1_BPOS 1 _) in *.
  assert (WaterOut_req_exe w = (IF «l_u8Storage_Status» =? TRUE THEN skip
    ELSE IF nz («ComPara_u16Water_Ctrl» .& HMI_KEY) THEN key_dispense ELSE order_dispense END END) w1) as -> by done.
  clearbody w1. unfold cif. rewrite !Hrd by done. unfold may_dispense, ordered in Hm.
  destruct (Z.eqb_spec (w⟪l_u8Storage_Status⟫) TRUE) as [Es|Es]; [by split|]. cbn [negb andb] in Hm.
  assert (alarm_bit w1 ACL_E4 = alarm_bit w ACL_E4) as Ha by (unfold alarm_bit; by rewrite Hrd).
  assert (has_water w1 = has_water w) as Hw.
  { apply has_water_ext. intros [f i j] Hf. apply Hrd. destruct f; done. }
  destruct (nz (w⟪ComPara_u16Water_Ctrl⟫ .& HMI_KEY)).
  - destruct (key_dispense_closed w1) as [H1 H2]; [|split; [by etransitivity | done]].
    rewrite Ha, Hw, (WaterOut_Key_ext w1 w); [done|]. intros [f i j] Hf. apply Hrd. destruct f; done.
  - destruct (order_dispense_closed w1) as [H1 H2]; [|split; [by etransitivity | done]].
    by rewrite Ha, Hw, !Hrd.
Qed.

(** C12: nothing opens without permission.  Outside storage, if the lid alarm E4 is shown, or
    nobody asks for water, or the drinking tank is below its lowest switch and no external
    water is selected, then an execution opens none of the outlet pump, the outlet valve
    and the hot-water pump, and leaves dispensing closed; during storage it opens none of
    them either. *)
Theorem outlet_needs_permission {U : f2u_undefined} w :
  may_dispense w = false ->
  no_opening w (WaterOut_req_exe w) /\
  (w⟪l_u8Storage_Status⟫ <> TRUE -> (WaterOut_req_exe w)⟪l_OutWater_Flag⟫ = WATER_NO).
Proof. apply outlets_closed. Qed.

Lemma outlet_needs_permission_witness :
  let U : f2u_undefined := fun _ => 0 in
  let w := poke [(status_alarm_bitmap.[0], 16); (scalar ComPara_u16Water_Ctrl, 2); (ComSta_u16Din_bitmap.[0], 0x200)] w_zero in
  no_opening w (WaterOut_req_exe w) /\ may_dispense (poke [(status_alarm_bitmap.[0], 0)] w) = true.
Proof.
  cbv zeta. split; [|vm_compute; reflexivity].
  apply outlet_needs_permission. vm_compute. reflexivity.
Defined.

(** ** The flow meter *)

(** The same amount computed exactly: [n * 81 / 200], [2 n / 5], [4 n / 11], [10 n / 29] and
    [40 n / 109] ml for [n] pulses. *)
Definition flow_exact (n : Z) : Z :=
  if n <? 570 then 81 * n / 200 else if n <? 1250 then 2 * n / 5 else if n <? 2750 then 4 * n / 11
  else if n <? 4350 then 10 * n / 29 else 40 * n / 109.

Definition flow_agrees (n : Z) : bool :=
  let f := if n <? 570 then f32_mul_trunc n 13589545 25 else if n <? 1250 then f32_mul_trunc n 13421773 25
           else if n <? 2750 then f32_mul_trunc n 12201612 25 else if n <? 4350 then f32_mul_trunc n 11570494 25
           else f32_mul_trunc n 12313553 25 in
  (f =? flow_exact n) && (0 <=? f) && (f <? 24051).

Lemma flow_agrees_all : bin_check flow_agrees 16 0 = true.
Proof. vm_compute. reflexivity. Qed.

(** The flow calculation.  For every pulse count, the single-precision computation gives
    exactly the rounded-down exact amount, and the conversion to an integer is never out of
    range.  The amount is not monotone: at the limits of its bands it falls (1250 pulses
    count as less water than 1249), so an order of 500 ml, named L500 at 1250 pulses, ends
    only at 1375. *)
Theorem PluseCalc_Water_exact {U : f2u_undefined} n :
  0 <= n < 65536 ->
  PluseCalc_Water n = flow_exact n /\ 0 <= PluseCalc_Water n <= 24050 /\
  PluseCalc_Water 1249 = 499 /\ PluseCalc_Water 1250 = 454 /\ PluseCalc_Water 1374 = 499 /\
  PluseCalc_Water 1375 = 500.
Proof.
  intros Hn. pose proof (bin_check_sound flow_agrees 16 0 n flow_agrees_all ltac:(lia)) as H.
  unfold flow_agrees in H. cbv zeta in H. rewrite !andb_true_iff, Z.eqb_eq, Z.leb_le, Z.ltb_lt in H.
  assert (PluseCalc_Water n = flow_exact n /\ 0 <= PluseCalc_Water n <= 24050) as H0.
  { unfold PluseCalc_Water. cbv zeta. destruct (n <? 570), (n <? 1250), (n <? 2750), (n <? 4350), (n <? 5450);
      destruct H as [[H1 H2] H3]; rewrite H1 in *; unfold f2u16;
      rewrite (proj2 (Z.leb_le _ _) H2), (proj2 (Z.ltb_lt (flow_exact n) 65536)) by lia; cbn [andb];
      rewrite u16_small; lia. }
  split_and!; try apply H0; vm_compute; reflexivity.
Qed.

Lemma PluseCalc_Water_witness :
  let U : f2u_undefined := fun _ => 0 in PluseCalc_Water 1000 = 400.
Proof. cbv zeta. destruct (@PluseCalc_Water_exact (fun _ => 0) 1000) as [-> _]; [lia | reflexivity]. Defined.

(** ** The heater frame *)

(** The frame to the heater.  It has 19 bytes, starts with 0xAA and the address, carries
    command, temperature and amount, and its last two bytes are the sum of bytes 1 to 16,
    high byte first; so the amount can be read back. *)
Theorem heat_frame_format oc temp wl :
  0 <= oc < 256 -> 0 <= temp < 256 -> 0 <= wl < 65536 ->
  let f := heat_frame oc temp wl in
  List.length f = 19%nat /\ take 4 f = [0xAA; 0x01; oc; temp] /\
  256 * nth 4 f 0 + nth 5 f 0 = wl /\
  256 * nth 17 f 0 + nth 18 f 0 = foldl Z.add 0 (take 16 (drop 1 f)) /\
  Forall (fun b => 0 <= b < 256) f.
Proof.
  intros Ho Ht Hw. unfold heat_frame. rewrite (u8_small oc), (u8_small temp) by lia.
  assert (256 * u8 (wl .>> 8) + u8 wl = wl) as Hwl.
  { rewrite Z.shiftr_div_pow2 by lia. unfold u8. change (2 ^ 8) with 256. Z.div_mod_to_equations. lia. }
  pose proof (u8_range (wl .>> 8)) as H1. pose proof (u8_range wl) as H2. revert H1 H2 Hwl.
  generalize (u8 (wl .>> 8)) (u8 wl). intros hi lo H1 H2 Hwl.
  change (seqZ 1 (HEATWRITE_NUM - 2)) with [1; 2; 3; 4; 5; 6; 7; 8; 9; 10; 11; 12; 13; 14; 15; 16].
  cbn [foldl nth app repeat]. cbv zeta.
  change (Z.to_nat 1) with 1%nat; change (Z.to_nat 2) with 2%nat; change (Z.to_nat 3) with 3%nat;
  change (Z.to_nat 4) with 4%nat; change (Z.to_nat 5) with 5%nat; change (Z.to_nat 6) with 6%nat;
  change (Z.to_nat 7) with 7%nat; change (Z.to_nat 8) with 8%nat; change (Z.to_nat 9) with 9%nat;
  change (Z.to_nat 10) with 10%nat; change (Z.to_nat 11) with 11%nat; change (Z.to_nat 12) with 12%nat;
  change (Z.to_nat 13) with 13%nat; change (Z.to_nat 14) with 14%nat; change (Z.to_nat 15) with 15%nat;
  change (Z.to_nat 16) with 16%nat.
  cbn [nth take drop List.length foldl]. rewrite !Z.add_0_r.
  rewrite !u16_idem, !u16_add, (u16_small (0 + 1)), (u16_small (0 + 1 + oc + temp)), u16_small by lia.
  set (s := 0 + 1 + oc + temp + hi + lo).
  assert (256 * u8 (s .>> 8) + u8 s = s) as Hs.
  { rewrite Z.shiftr_div_pow2 by lia. unfold u8. change (2 ^ 8) with 256. Z.div_mod_to_equations. lia. }
  split_and!; try done; try lia.
  pose proof (u8_range (s .>> 8)). pose proof (u8_range s).
  repeat (constructor; [lia|]). constructor.
Qed.

Lemma heat_frame_witness : 256 * nth 4 (heat_frame OPEN_HEAT 85 5000) 0 + nth 5 (heat_frame OPEN_HEAT 85 5000) 0 = 5000.
Proof. destruct (heat_frame_format OPEN_HEAT 85 5000) as (_ & _ & H & _); [lia..|]. exact H. Defined.
