(* ===== verification/HeaterLink.v ===== *)
(** * The receiving half of drivers/usart_bsp.c, and zph01_opt.c

    The heater answers with frames of 18 bytes on USART 1: its address, its state, 14 bytes of
    data and a sum of 16 bits.  The receive interrupt assembles them byte by byte
    ([HeatPortSerialReceiveFSM]); [Comm_Service], called every millisecond, takes a complete
    frame over and times an incomplete one out.  On machines with a dust sensor instead of the
    heater the same interrupt collects the frames of the ZPH01. *)

From S2P Require Import Prelude Conf Fifo Machine SysStatus EventRecord Eeprom GlobalVar AlarmCalc Fan Compressor WaterMake WaterOut.

#[local] Open Scope Z_scope.

Abbreviation HEAT_CLOSE := 0.
Abbreviation HEAT_OPEN := 1.
Abbreviation PROTOCOL_STACK_IDLE := 0.
Abbreviation PROTOCOL_STACK_CK := 1.
Abbreviation PROTOCOL_STACK_RCV := 2.
Abbreviation PROTOCOL_STACK_CS := 3.
Abbreviation PROTOCOL_STACK_END := 4.
Abbreviation RECV_Wait := 0.
Abbreviation RECV_Going := 1.
Abbreviation RECV_Over := 2.
Abbreviation SEND_Wait := 3.
Abbreviation SEND_Going := 4.
Abbreviation INIT_Apply := 6.
Abbreviation PROTOCOL_FRAME_MaxLen := 20.
Abbreviation PROTOCOL_FRAME_ByteGap := 250.

Definition clear_combuff (port : Z) : cmd :=
  FOR i IN range PROTOCOL_FRAME_MaxLen DO g_ComBuff.[port, i] ::= 0 END.

Definition Usart1_Var_Init (port : Z) : cmd :=
  g_ComStat.[port] ::= INIT_Apply;;
  g_ComGap.[port] ::= 0;;
  Protocol_StatckStatus.[port] ::= PROTOCOL_STACK_IDLE;;
  clear_combuff port.

Definition AnalyseProtocol (port : Z) : act Z :=
  l_HeatWater_st ::= «g_ComBuff.[port, 1]»;;
  l_HeatWater_Flow ::= «g_ComBuff.[port, 3]»;;
  l_HeatWater_Flow ::= («l_HeatWater_Flow» .<< 8) .| «g_ComBuff.[port, 4]»;;
  RETURN 1.

Definition Comm_Service : cmd :=
  let port := UART_HEAT in
  g_ComGap.[port].++;;
  LET st := «g_ComStat.[port]» IN
  if st =? RECV_Wait then skip
  else if st =? RECV_Going then
    IF PROTOCOL_FRAME_ByteGap <? «g_ComGap.[port]» THEN g_ComStat.[port] ::= INIT_Apply END
  else if st =? RECV_Over then
    RUN (AnalyseProtocol port);;
    clear_combuff port;;
    g_ComStat.[port] ::= SEND_Wait
  else if st =? SEND_Wait then
    g_ComGap.[port] ::= 0;;
    g_ComStat.[port] ::= SEND_Going
  else if st =? SEND_Going then
    IF «g_ComGap.[port]» <? 100 THEN skip ELSE g_ComStat.[port] ::= RECV_Wait END
  else g_ComStat.[port] ::= RECV_Wait.

(** [g_ComBuff[port][(Protocol[port].DataCount)++] = RXDByte]. *)
Definition com_put (port RXDByte : Z) : cmd :=
  LET n := «Protocol_DataCount.[port]» IN
  g_ComBuff.[port, n] ::= RXDByte;;
  Protocol_DataCount.[port].++.

Definition rx_idle_byte (port RXDByte : Z) : cmd :=
  if RXDByte =? 0x01 then
    g_ComStat.[port] ::= RECV_Going;;
    g_ComBuff.[port, 0] ::= RXDByte;;
    u16FrameCheckSum ::= RXDByte;;
    Protocol_DataCount.[port] ::= 1;;
    Protocol_StatckStatus.[port].++;;
    ComSta_TEST .|= 0x02;;
    ComSta_TEST4 ::= «u16FrameCheckSum»
  else skip.

Definition rx_ck_byte (port RXDByte : Z) : cmd :=
  (if (RXDByte =? HEAT_OPEN) || (RXDByte =? HEAT_CLOSE) then
     u16FrameCheckSum ::= «u16FrameCheckSum» + RXDByte;;
     com_put port RXDByte;;
     u8FrameDataLength ::= 14;;
     Protocol_StatckStatus.[port].++;;
     ComSta_TEST .|= 0x04
   else
     Protocol_StatckStatus.[port] ::= PROTOCOL_STACK_IDLE;;
     g_ComStat.[port] ::= INIT_Apply);;
  ComSta_TEST5 ::= «u16FrameCheckSum».

Definition rx_rcv_byte (port RXDByte : Z) : cmd :=
  u16FrameCheckSum ::= «u16FrameCheckSum» + RXDByte;;
  com_put port RXDByte;;
  u8FrameDataLength.--;;
  IF «u8FrameDataLength» =? 0 THEN
    ComSta_TEST6 ::= «u16FrameCheckSum»;;
    u8FrameDataLength ::= 2;;
    Protocol_StatckStatus.[port].++
  END;;
  ComSta_TEST .|= 0x08.

(** The frame is complete: its sum decides. *)
Definition rx_check (port : Z) : cmd :=
  ComSta_TEST .|= 0x10;;
  LET u16CheckSum := u16 («g_ComBuff.[port, 16]» .<< 8) .| «g_ComBuff.[port, 17]» IN
  ComSta_TEST2 ::= «u16FrameCheckSum»;;
  ComSta_TEST3 ::= u16CheckSum;;
  IF u16CheckSum =? «u16FrameCheckSum» THEN
    ComSta_TEST .|= 0x20;;
    Protocol_StatckStatus.[port] ::= PROTOCOL_STACK_IDLE;;
    g_ComStat.[port] ::= RECV_Over
  ELSE
    ComSta_TEST .|= 0x40;;
    Protocol_StatckStatus.[port] ::= PROTOCOL_STACK_IDLE;;
    g_ComStat.[port] ::= INIT_Apply
  END.

Definition rx_cs_byte (port RXDByte : Z) : cmd :=
  com_put port RXDByte;;
  u8FrameDataLength.--;;
  IF «u8FrameDataLength» =? 0 THEN rx_check port END.

Definition HeatPortSerialReceiveFSM (port RXDByte : Z) : cmd :=
  ComSta_TEST .|= 0x01;;
  g_ComGap.[port] ::= 0;;
  LET st := «Protocol_StatckStatus.[port]» IN
  if st =? PROTOCOL_STACK_IDLE then rx_idle_byte port RXDByte
  else if st =? PROTOCOL_STACK_CK then rx_ck_byte port RXDByte
  else if st =? PROTOCOL_STACK_RCV then rx_rcv_byte port RXDByte
  else if st =? PROTOCOL_STACK_CS then rx_cs_byte port RXDByte
  else if st =? PROTOCOL_STACK_END then skip
  else
    Protocol_StatckStatus.[port] ::= PROTOCOL_STACK_IDLE;;
    g_ComStat.[port] ::= INIT_Apply.

(** ** The dust sensor *)

(** The sum of bytes 1 to [ln - 2], negated. *)
Definition FucCheckSum {w : cur} (ln : Z) : Z :=
  let tempq := foldl (fun s j => u8 (s + «zph_rx_buffer.[j + 1]»)) 0 (range (ln - 2)) in
  u8 (Z.lnot tempq + 1).

Definition clear_rx_buffer : cmd := FOR i IN range 10 DO zph_rx_buffer.[i] ::= 0 END.

(** After nine bytes the sum decides. *)
Definition zph_finish : cmd :=
  IF «zph_count» =? 9 THEN
    IF «zph_rx_buffer.[8]» =? FucCheckSum 9 THEN
      ComSta_u16PM25 ::= «zph_rx_buffer.[3]» * 100 + «zph_rx_buffer.[4]»
    END;;
    zph_count ::= 0;;
    clear_rx_buffer
  END.

Definition zph01ReceiveData (data : Z) : cmd :=
  LET count := «zph_count» IN
  (if ((count =? 0) && (data =? 0xff)) || ((count =? 1) && (data =? 0x18)) || ((1 <? count) && (count <? 9)) then
     zph_rx_buffer.[count] ::= data;;
     zph_count.++
   else
     zph_count ::= 0;;
     clear_rx_buffer);;
  zph_finish.

(** [data]: the byte in the data register when the receive flag is set. *)
Definition USART1_IRQHandler (rxne : bool) (data : Z) : cmd :=
  if rxne then
    IF nz «ComPara_u16Heater_PM25» THEN zph01ReceiveData data
    ELSE HeatPortSerialReceiveFSM UART_HEAT data END
  else skip.

(** ** A frame of the heater *)

(** The part of the state that the receiver's control depends on. *)
Definition rx_state (w : world) (st dc fdl sum : Z) : Prop :=
  w⟪Protocol_StatckStatus.[UART_HEAT]⟫ = st /\ w⟪Protocol_DataCount.[UART_HEAT]⟫ = dc /\
  w⟪u8FrameDataLength⟫ = fdl /\ w⟪u16FrameCheckSum⟫ = sum.

Definition combuf_is (w : world) (l : list Z) : Prop :=
  forall i x, l !! i = Some x -> w⟪g_ComBuff.[UART_HEAT, Z.of_nat i]⟫ = x.

Definition byte_sum (l : list Z) : Z := foldr Z.add 0 l.

(** A frame as the heater sends it. *)
Definition heater_frame (f : list Z) : Prop :=
  bytes f /\ length f = 18%nat /\ nth 0 f 0 = 1 /\ (nth 1 f 0 = HEAT_OPEN \/ nth 1 f 0 = HEAT_CLOSE).
Definition sum_ok (f : list Z) : bool := 256 * nth 16 f 0 + nth 17 f 0 =? byte_sum (take 16 f).

(** The first [n] bytes of [f] have been received. *)
Definition received (w : world) (f : list Z) (n : nat) : Prop :=
  combuf_is w (take n f) /\
  rx_state w (if (n <? 2)%nat then PROTOCOL_STACK_CK else if (n <? 16)%nat then PROTOCOL_STACK_RCV else PROTOCOL_STACK_CS)
    (Z.of_nat n) (if (n <? 16)%nat then if (n <? 2)%nat then w⟪u8FrameDataLength⟫ else 16 - Z.of_nat n else 18 - Z.of_nat n)
    (byte_sum (take (Nat.min n 16) f)).

Lemma byte_sum_app l k : byte_sum (l ++ k) = byte_sum l + byte_sum k.
Proof. induction l as [|x l IH]; [done|]. cbn [byte_sum foldr app] in *. fold (byte_sum (l ++ k)) (byte_sum l). lia. Qed.

Lemma byte_sum_range l : bytes l -> 0 <= byte_sum l <= 255 * Z.of_nat (length l).
Proof.
  induction 1 as [|x l Hx Hl IH]; [cbn; lia|]. cbn [byte_sum foldr length]. fold (byte_sum l). unfold byte in Hx. lia.
Qed.

Lemma take_snoc {A} (l : list A) n x : l !! n = Some x -> take (S n) l = take n l ++ [x].
Proof. apply take_S_r. Qed.

(** One byte more in the buffer. *)
Lemma combuf_snoc w w' l x :
  combuf_is w l -> (forall i, (i < length l)%nat -> w'⟪g_ComBuff.[UART_HEAT, Z.of_nat i]⟫ = w⟪g_ComBuff.[UART_HEAT, Z.of_nat i]⟫) ->
  w'⟪g_ComBuff.[UART_HEAT, Z.of_nat (length l)]⟫ = x -> combuf_is w' (l ++ [x]).
Proof.
  intros Hl Hk Hx i y Hi. destruct (decide (i < length l)%nat) as [Hlt|Hge].
  - rewrite lookup_app_l in Hi by done. rewrite Hk by done. by apply Hl.
  - rewrite lookup_app_r in Hi by lia. apply list_lookup_singleton_Some in Hi as [Hi <-].
    by replace i with (length l) by lia.
Qed.

Lemma rd_combuf p i j v w :
  (wr g_ComBuff.[p, i] v w)⟪g_ComBuff.[p, j]⟫ = if i =? j then u8 v else w⟪g_ComBuff.[p, j]⟫.
Proof.
  destruct (Z.eqb_spec i j) as [->|Hne]; [by rewrite rd_wr_same|]. apply rd_wr_ix. by right.
Qed.

(** Byte [b] went to position [n] of the buffer, and nowhere else. *)
Definition puts (w w' : world) (n b : Z) : Prop :=
  forall i, w'⟪g_ComBuff.[UART_HEAT, i]⟫ = if n =? i then u8 b else w⟪g_ComBuff.[UART_HEAT, i]⟫.

Lemma puts_keep w1 w2 w3 n b :
  puts w1 w2 n b -> (forall i, w3⟪g_ComBuff.[UART_HEAT, i]⟫ = w2⟪g_ComBuff.[UART_HEAT, i]⟫) -> puts w1 w3 n b.
Proof. intros H K i. by rewrite K. Qed.

Lemma com_put_puts w b : puts w (com_put UART_HEAT b w) (w⟪Protocol_DataCount.[UART_HEAT]⟫) b.
Proof. intros i. unfold com_put, letc, seqc. obs. unfold assign. apply rd_combuf. Qed.

Lemma com_put_count w b : (com_put UART_HEAT b w)⟪Protocol_DataCount.[UART_HEAT]⟫ = u8 (w⟪Protocol_DataCount.[UART_HEAT]⟫ + 1).
Proof. unfold com_put, letc, seqc. by obs. Qed.

Lemma com_put_foot p b : respc (unch [g_ComBuff; Protocol_DataCount] []) (com_put p b).
Proof. unfold com_put. footprint. Qed.
#[export] Hint Resolve com_put_foot : foot.

(** The bytes of the four states. *)
Lemma idle_step w :
  let w' := rx_idle_byte UART_HEAT 1 w in
  w⟪Protocol_StatckStatus.[UART_HEAT]⟫ = PROTOCOL_STACK_IDLE ->
  puts w w' 0 1 /\ rx_state w' PROTOCOL_STACK_CK 1 (w⟪u8FrameDataLength⟫) 1.
Proof.
  intros w' H. unfold w', rx_idle_byte. cbn [Z.eqb Pos.eqb]. unfold seqc. split.
  - intros i. obs. unfold assign. rewrite rd_combuf. by obs.
  - split_and!; obs; try done. by rewrite H.
Qed.

Lemma ck_step w b sum fdl :
  b = HEAT_OPEN \/ b = HEAT_CLOSE -> 0 <= sum < 65000 ->
  rx_state w PROTOCOL_STACK_CK 1 fdl sum ->
  let w' := rx_ck_byte UART_HEAT b w in
  puts w w' 1 b /\ rx_state w' PROTOCOL_STACK_RCV 2 14 (sum + b).
Proof.
  intros Hb Hs (S1 & S2 & S3 & S4) w'. unfold w', rx_ck_byte.
  assert ((b =? HEAT_OPEN) || (b =? HEAT_CLOSE) = true) as -> by (destruct Hb as [-> | ->]; done).
  unfold seqc. split.
  - pose proof (com_put_puts ((u16FrameCheckSum ::= «u16FrameCheckSum» + b) w) b) as P. revert P. obs. rewrite S2. intros P i.
    obs. rewrite P. by obs.
  - split_and!; obs; rewrite ?com_put_count; obs; rewrite ?S1, ?S2, ?S4; try done.
    apply u16_small. destruct Hb as [-> | ->]; lia.
Qed.

Lemma rcv_step w b dc fdl sum :
  byte b -> 0 <= sum < 65000 -> 0 <= dc < 255 -> 1 <= fdl < 256 ->
  rx_state w PROTOCOL_STACK_RCV dc fdl sum ->
  let w' := rx_rcv_byte UART_HEAT b w in
  puts w w' dc b /\
  rx_state w' (if fdl =? 1 then PROTOCOL_STACK_CS else PROTOCOL_STACK_RCV) (dc + 1) (if fdl =? 1 then 2 else fdl - 1) (sum + b).
Proof.
  intros Hb Hs Hd Hf (S1 & S2 & S3 & S4) w'. unfold byte in Hb. unfold w', rx_rcv_byte, seqc, cif, skip. obs. rewrite S3, (u8_small (fdl - 1)) by lia.
  assert ((fdl - 1 =? 0) = (fdl =? 1)) as -> by (destruct (Z.eqb_spec fdl 1), (Z.eqb_spec (fdl - 1) 0); lia).
  split.
  - pose proof (com_put_puts ((u16FrameCheckSum ::= «u16FrameCheckSum» + b) w) b) as P. revert P. obs. rewrite S2. intros P i.
    destruct (fdl =? 1); obs; rewrite P; by obs.
  - destruct (fdl =? 1); split_and!; obs; rewrite ?com_put_count; obs; rewrite ?S1, ?S2, ?S3, ?S4; rewrite ?u8_small, ?u16_small by lia; done.
Qed.

Lemma rx_check_spec w :
  let w' := rx_check UART_HEAT w in
  w'⟪Protocol_StatckStatus.[UART_HEAT]⟫ = PROTOCOL_STACK_IDLE /\
  w'⟪g_ComStat.[UART_HEAT]⟫ =
    (if u16 (w'⟪g_ComBuff.[UART_HEAT, 16]⟫ .<< 8) .| w'⟪g_ComBuff.[UART_HEAT, 17]⟫ =? w⟪u16FrameCheckSum⟫
     then RECV_Over else INIT_Apply) /\
  forall i, w'⟪g_ComBuff.[UART_HEAT, i]⟫ = w⟪g_ComBuff.[UART_HEAT, i]⟫.
Proof.
  cbv zeta. assert (K : forall i, (rx_check UART_HEAT w)⟪g_ComBuff.[UART_HEAT, i]⟫ = w⟪g_ComBuff.[UART_HEAT, i]⟫).
  { intros i. unfold rx_check, seqc, letc, cif. obs. case_match; by obs. }
  rewrite !K. split_and!; [..|done]; unfold rx_check, seqc, letc, cif; obs; case_match; by obs.
Qed.

Lemma cs_step w b dc fdl sum :
  0 <= dc < 255 -> 1 <= fdl < 256 -> rx_state w PROTOCOL_STACK_CS dc fdl sum ->
  let w' := rx_cs_byte UART_HEAT b w in
  puts w w' dc b /\
  if fdl =? 1 then
    w'⟪Protocol_StatckStatus.[UART_HEAT]⟫ = PROTOCOL_STACK_IDLE /\
    w'⟪g_ComStat.[UART_HEAT]⟫ =
      if u16 (w'⟪g_ComBuff.[UART_HEAT, 16]⟫ .<< 8) .| w'⟪g_ComBuff.[UART_HEAT, 17]⟫ =? sum then RECV_Over else INIT_Apply
  else rx_state w' PROTOCOL_STACK_CS (dc + 1) (fdl - 1) sum /\ w'⟪g_ComStat.[UART_HEAT]⟫ = w⟪g_ComStat.[UART_HEAT]⟫.
Proof.
  intros Hd Hf (S1 & S2 & S3 & S4) w'.
  pose proof (com_put_puts w b) as P. rewrite S2 in P. pose proof (com_put_count w b) as C. rewrite S2, u8_small in C by lia.
  pose proof (com_put_foot UART_HEAT b w) as U. unfold w', rx_cs_byte, seqc. clear w'. set (w1 := com_put UART_HEAT b w) in *.
  assert (R : w1⟪Protocol_StatckStatus.[UART_HEAT]⟫ = PROTOCOL_STACK_CS /\ w1⟪u8FrameDataLength⟫ = fdl /\ w1⟪u16FrameCheckSum⟫ = sum /\
    w1⟪g_ComStat.[UART_HEAT]⟫ = w⟪g_ComStat.[UART_HEAT]⟫).
  { rewrite <- S1, <- S3, <- S4. split_and!; by apply (unch_rd _ _ _ _ _ U). }
  destruct R as (R1 & R2 & R3 & R4). clearbody w1.
  unfold cif. set (w2 := u8FrameDataLength.-- w1).
  assert (V2 : w2⟪u8FrameDataLength⟫ = fdl - 1 /\ w2⟪Protocol_StatckStatus.[UART_HEAT]⟫ = PROTOCOL_STACK_CS /\
    w2⟪Protocol_DataCount.[UART_HEAT]⟫ = dc + 1 /\ w2⟪u16FrameCheckSum⟫ = sum /\
    w2⟪g_ComStat.[UART_HEAT]⟫ = w⟪g_ComStat.[UART_HEAT]⟫ /\ puts w w2 dc b).
  { unfold w2. split_and!; [..|apply (puts_keep _ w1); [done|]; intros i; by obs]; obs; try done. rewrite R2, u8_small; lia. }
  clearbody w2. destruct V2 as (V1 & V2 & V3 & V4 & V5 & V6). rewrite V1.
  assert ((fdl - 1 =? 0) = (fdl =? 1)) as -> by (destruct (Z.eqb_spec fdl 1), (Z.eqb_spec (fdl - 1) 0); lia).
  destruct (Z.eqb_spec fdl 1) as [->|].
  - rewrite <- V4. destruct (rx_check_spec w2) as (C1 & C2 & C3). split_and!; [by apply (puts_keep _ w2)|done|done].
  - unfold skip. split; [done|]. split; [|done]. by split_and!.
Qed.

Lemma fsm_eq b w :
  exists w0, HeatPortSerialReceiveFSM UART_HEAT b w =
    (let st := w⟪Protocol_StatckStatus.[UART_HEAT]⟫ in
     if st =? PROTOCOL_STACK_IDLE then rx_idle_byte UART_HEAT b w0
     else if st =? PROTOCOL_STACK_CK then rx_ck_byte UART_HEAT b w0
     else if st =? PROTOCOL_STACK_RCV then rx_rcv_byte UART_HEAT b w0
     else if st =? PROTOCOL_STACK_CS then rx_cs_byte UART_HEAT b w0
     else if st =? PROTOCOL_STACK_END then w0
     else (g_ComStat.[UART_HEAT] ::= INIT_Apply) ((Protocol_StatckStatus.[UART_HEAT] ::= PROTOCOL_STACK_IDLE) w0)) /\
    unch [ComSta_TEST; g_ComGap] [] w w0.
Proof.
  exists ((ComSta_TEST .|= 0x01;; g_ComGap.[UART_HEAT] ::= 0) w). split.
  - unfold HeatPortSerialReceiveFSM, seqc, letc. obs. cbv zeta. repeat case_match; reflexivity.
  - revert w. change (respc (unch [ComSta_TEST; g_ComGap] []) (ComSta_TEST .|= 0x01;; g_ComGap.[UART_HEAT] ::= 0)). footprint.
Qed.

Definition bytes_in (l : list Z) (w : world) : world := foldl (fun w b => HeatPortSerialReceiveFSM UART_HEAT b w) w l.

Lemma rx_state_unch w w' st dc fdl sum : unch [ComSta_TEST; g_ComGap] [] w w' -> rx_state w st dc fdl sum -> rx_state w' st dc fdl sum.
Proof. intros U (S1 & S2 & S3 & S4). split_and!; by rewrite (unch_rd _ _ _ _ _ U). Qed.

Lemma puts_unch w w0 w' n b : unch [ComSta_TEST; g_ComGap] [] w w0 -> puts w0 w' n b -> puts w w' n b.
Proof. intros U H i. rewrite H. by rewrite (unch_rd _ _ _ _ _ U). Qed.

Lemma combuf_puts w w' l b : combuf_is w l -> puts w w' (Z.of_nat (length l)) b -> byte b -> combuf_is w' (l ++ [b]).
Proof.
  intros Hl Hp Hb. apply (combuf_snoc w); [done| |].
  - intros i Hi. rewrite Hp. by rewrite (proj2 (Z.eqb_neq _ _)) by lia.
  - rewrite Hp, Z.eqb_refl. by apply u8_small.
Qed.

(** All but the last byte. *)
Lemma received_step f w n b :
  heater_frame f -> received w f n -> (1 <= n < 17)%nat -> f !! n = Some b ->
  received (HeatPortSerialReceiveFSM UART_HEAT b w) f (S n).
Proof.
  intros (Hf & Hl & H0 & H1) [Hb Hs] Hn Hx. destruct (fsm_eq b w) as (w0 & -> & U). cbv zeta. rewrite (proj1 Hs).
  assert (Hby : byte b) by (by eapply Forall_lookup_1).
  pose proof (byte_sum_range (take (Nat.min n 16) f) ltac:(by apply Forall_take)) as Hr. rewrite length_take in Hr.
  apply (rx_state_unch w w0) in Hs; [|done].
  assert (Hlt : length (take n f) = n) by (rewrite length_take; lia).
  unfold received. rewrite (take_snoc f n b Hx).
  destruct (Nat.ltb_spec n 2); [|destruct (Nat.ltb_spec n 16)].
  - assert (n = 1%nat) as -> by lia. cbn [Nat.ltb Nat.leb] in *. change (1 =? 0) with false. change (1 =? 1) with true. cbv iota.
    assert (b = HEAT_OPEN \/ b = HEAT_CLOSE) as Hoc by (rewrite (nth_lookup_Some f 1 0 b Hx) in H1; exact H1).
    edestruct (ck_step w0 b) as [P Q]; [exact Hoc| |exact Hs|]; [lia|].
    split; [apply (combuf_puts w); [done|rewrite Hlt; by apply (puts_unch _ w0)|done]|].
    change (Nat.min 2 16) with 2%nat. rewrite (take_snoc f 1 b Hx), byte_sum_app. cbn [byte_sum foldr]. rewrite Z.add_0_r. exact Q.
  - change (2 =? 0) with false. change (2 =? 1) with false. change (2 =? 2) with true. cbv iota.
    edestruct (rcv_step w0 b) as [P Q]; [exact Hby| | | |exact Hs|]; [lia|lia|lia|].
    split; [apply (combuf_puts w); [done|rewrite Hlt; by apply (puts_unch _ w0)|done]|].
    replace (Nat.min (S n) 16) with (S n) by lia. replace (Nat.min n 16) with n in Q by lia.
    rewrite (take_snoc f n b Hx), byte_sum_app. cbn [byte_sum foldr]. rewrite Z.add_0_r.
    rewrite (proj2 (Nat.ltb_ge (S n) 2)) by lia. replace (Z.of_nat (S n)) with (Z.of_nat n + 1) by lia.
    destruct (Nat.ltb_spec (S n) 16), (Z.eqb_spec (16 - Z.of_nat n) 1); try lia; [|by replace (18 - (Z.of_nat n + 1)) with 2 by lia].
    by replace (16 - (Z.of_nat n + 1)) with (16 - Z.of_nat n - 1) by lia.
  - change (3 =? 0) with false. change (3 =? 1) with false. change (3 =? 2) with false. change (3 =? 3) with true. cbv iota.
    edestruct (cs_step w0 b) as [P Q]; [| |exact Hs|]; [lia|lia|]. rewrite (proj2 (Z.eqb_neq (18 - Z.of_nat n) 1)) in Q by lia.
    split; [apply (combuf_puts w); [done|rewrite Hlt; by apply (puts_unch _ w0)|done]|].
    replace (Nat.min (S n) 16) with 16%nat by lia. replace (Nat.min n 16) with 16%nat in Q by lia.
    rewrite (proj2 (Nat.ltb_ge (S n) 2)), (proj2 (Nat.ltb_ge (S n) 16)) by lia.
    replace (Z.of_nat (S n)) with (Z.of_nat n + 1) by lia. replace (18 - (Z.of_nat n + 1)) with (18 - Z.of_nat n - 1) by lia. apply Q.
Qed.

Definition rx_fields : list field :=
  [ComSta_TEST; ComSta_TEST2; ComSta_TEST3; ComSta_TEST4; ComSta_TEST5; ComSta_TEST6; g_ComGap; g_ComStat; g_ComBuff;
   Protocol_StatckStatus; Protocol_DataCount; u8FrameDataLength; u16FrameCheckSum].

Lemma fsm_foot p b : respc (unch rx_fields []) (HeatPortSerialReceiveFSM p b).
Proof.
  unfold HeatPortSerialReceiveFSM, rx_idle_byte, rx_ck_byte, rx_rcv_byte, rx_cs_byte, rx_check.
  repeat (case_match || resp_step); try typeclasses eauto; footprint.
Qed.
#[export] Hint Resolve fsm_foot : foot.

Lemma bytes_in_foot l w : unch rx_fields [] w (bytes_in l w).
Proof. revert w. induction l as [|b l IH]; intros w; [reflexivity|]. etrans; [apply fsm_foot|apply IH]. Qed.

Lemma received_first f w :
  heater_frame f -> w⟪Protocol_StatckStatus.[UART_HEAT]⟫ = PROTOCOL_STACK_IDLE ->
  received (HeatPortSerialReceiveFSM UART_HEAT 1 w) f 1.
Proof.
  intros (Hf & Hl & H0 & _) Hi. destruct (fsm_eq 1 w) as (w0 & -> & U). cbv zeta. rewrite Hi. cbn [Z.eqb].
  destruct (idle_step w0) as [P S]; [by rewrite (unch_rd _ _ _ _ _ U)|].
  destruct f as [|x f]; [done|]. cbn [nth] in H0. subst x. split.
  - change (take 1 (1 :: f)) with ([] ++ [1] : list Z). apply (combuf_puts w0); [done|done|unfold byte; lia].
  - cbn [Nat.ltb Nat.leb Nat.min take byte_sum foldr]. destruct S as (S1 & S2 & S3 & S4). by split_and!.
Qed.

Lemma received_rest f w n m :
  heater_frame f -> received w f n -> (1 <= n)%nat -> (n + m = 17)%nat -> received (bytes_in (take m (drop n f)) w) f 17.
Proof.
  intros Hf. pose proof Hf as (_ & Hl & _). revert n w. induction m as [|m IH]; intros n w Hr Hn Hm.
  { cbn [take bytes_in foldl]. by replace 17%nat with n by lia. }
  destruct (lookup_lt_is_Some_2 f n) as [b Hb]; [lia|]. rewrite (drop_S _ _ _ Hb). cbn [take bytes_in foldl].
  apply (IH (S n)); [|lia..]. apply received_step; [done|done|lia|done].
Qed.

Lemma bytes_in_app l k w : bytes_in (l ++ k) w = bytes_in k (bytes_in l w).
Proof. apply foldl_app. Qed.

Lemma sum_word hi lo : byte hi -> byte lo -> u16 (hi .<< 8) .| lo = 256 * hi + lo.
Proof.
  unfold byte. intros Hh Hlo. rewrite u16_small by (rewrite Z.shiftl_mul_pow2 by lia; change (2 ^ 8) with 256; lia).
  rewrite Z.lor_comm, lor_bytes by lia. lia.
Qed.

(** The whole frame. *)
Lemma frame_assembled f w :
  heater_frame f -> w⟪Protocol_StatckStatus.[UART_HEAT]⟫ = PROTOCOL_STACK_IDLE ->
  let w' := bytes_in f w in
  combuf_is w' f /\ w'⟪Protocol_StatckStatus.[UART_HEAT]⟫ = PROTOCOL_STACK_IDLE /\
  w'⟪g_ComStat.[UART_HEAT]⟫ = if sum_ok f then RECV_Over else INIT_Apply.
Proof.
  intros Hf Hi. pose proof Hf as (Hby & Hl & H0 & _).
  destruct (lookup_lt_is_Some_2 f 17) as [b Hb]; [lia|].
  assert (E : f = 1 :: take 16 (drop 1 f) ++ [b]).
  { destruct f as [|x f]; [done|]. cbn [nth] in H0. subst x. cbn [drop skipn]. f_equal. cbn in Hb.
    rewrite <- (take_drop 16 f) at 1. f_equal. rewrite (drop_S _ _ _ Hb), drop_ge; [done|]. cbn [length] in Hl. lia. }
  assert (Ew : bytes_in f w = HeatPortSerialReceiveFSM UART_HEAT b
    (bytes_in (take 16 (drop 1 f)) (HeatPortSerialReceiveFSM UART_HEAT 1 w))).
  { transitivity (bytes_in (1 :: take 16 (drop 1 f) ++ [b]) w); [by rewrite <- E|].
    change (bytes_in (1 :: ?l) w) with (bytes_in l (HeatPortSerialReceiveFSM UART_HEAT 1 w)). by rewrite bytes_in_app. }
  cbv zeta. rewrite Ew. clear E Ew. pose proof (received_rest f _ 1 16 Hf (received_first f w Hf Hi) ltac:(lia) ltac:(lia)) as R.
  set (w1 := bytes_in (take 16 (drop 1 f)) _) in *. clearbody w1. destruct R as [R1 R2].
  destruct (fsm_eq b w1) as (w0 & -> & U). cbv zeta. rewrite (proj1 R2). cbn [Nat.ltb Nat.leb Z.eqb Pos.eqb].
  apply (rx_state_unch w1 w0) in R2; [|done]. cbn [Nat.ltb Nat.leb Nat.min Z.of_nat] in R2.
  edestruct (cs_step w0 b) as [P Q]; [| |exact R2|]; [lia|lia|]. change (18 - 17 =? 1) with true in Q. destruct Q as [Q1 Q2].
  assert (C : combuf_is (rx_cs_byte UART_HEAT b w0) f).
  { rewrite <- (firstn_all f), Hl, (take_snoc f 17 b Hb). apply (combuf_puts w1); [done| |by eapply Forall_lookup_1].
    rewrite length_take, Hl. by apply (puts_unch _ w0). }
  split_and!; [done|done|]. rewrite Q2. destruct (lookup_lt_is_Some_2 f 16) as [a Ha]; [lia|].
  change (16 : Z) with (Z.of_nat 16). change (17 : Z) with (Z.of_nat 17). rewrite (C _ _ Ha), (C _ _ Hb).
  rewrite sum_word by (by eapply Forall_lookup_1). unfold sum_ok. by rewrite (nth_lookup_Some f 16 0 a Ha), (nth_lookup_Some f 17 0 b Hb).
Qed.

Lemma clear_combuff_foot p : respc (unch [g_ComBuff] []) (clear_combuff p).
Proof. unfold clear_combuff. footprint. Qed.
Lemma AnalyseProtocol_foot p : respa (unch [l_HeatWater_st; l_HeatWater_Flow] []) (AnalyseProtocol p).
Proof. unfold AnalyseProtocol. footprint. Qed.
#[export] Hint Resolve clear_combuff_foot AnalyseProtocol_foot : foot.

(** What the service makes of a complete frame, and of one that was refused. *)
Lemma service_over w f :
  combuf_is w f -> bytes f -> length f = 18%nat -> w⟪g_ComStat.[UART_HEAT]⟫ = RECV_Over ->
  let w' := Comm_Service w in
  w'⟪l_HeatWater_st⟫ = nth 1 f 0 /\ w'⟪l_HeatWater_Flow⟫ = 256 * nth 3 f 0 + nth 4 f 0 /\ w'⟪g_ComStat.[UART_HEAT]⟫ = SEND_Wait.
Proof.
  intros Hb Hby Hl Hs. cbv zeta. unfold Comm_Service, seqc, letc. obs. rewrite Hs. cbn [Z.eqb Pos.eqb].
  destruct (lookup_lt_is_Some_2 f 1) as [x1 H1]; [lia|]. destruct (lookup_lt_is_Some_2 f 3) as [x3 H3]; [lia|].
  destruct (lookup_lt_is_Some_2 f 4) as [x4 H4]; [lia|].
  assert (Hx : byte x1 /\ byte x3 /\ byte x4) by (split_and!; by eapply Forall_lookup_1). unfold byte in Hx.
  rewrite (nth_lookup_Some f 1 0 x1 H1), (nth_lookup_Some f 3 0 x3 H3), (nth_lookup_Some f 4 0 x4 H4).
  pose proof (Hb 1%nat x1 H1 : w⟪g_ComBuff.[UART_HEAT, 1]⟫ = x1) as B1.
  pose proof (Hb 3%nat x3 H3 : w⟪g_ComBuff.[UART_HEAT, 3]⟫ = x3) as B3.
  pose proof (Hb 4%nat x4 H4 : w⟪g_ComBuff.[UART_HEAT, 4]⟫ = x4) as B4.
  split_and!; unfold runc, AnalyseProtocol, seqc, reta; cbn [snd]; obs; [|obs|done].
  - rewrite B1. apply u8_small. lia.
  - rewrite B3, B4, (u16_small x3) by lia. rewrite Z.lor_comm, lor_bytes by lia. rewrite u16_small; lia.
Qed.

(** C28: the heater's frames.  From an idle receiver, the 18 bytes of a frame (address 1, state 0
    or 1, 14 bytes of data, sum) bring the receiver back to idle; if the sum is that of the first
    16 bytes the next service publishes the heater's state and its flow, high byte first; if it
    is any other the frame is dropped and both keep their values. *)
Theorem heater_frame_received f w :
  heater_frame f -> w⟪Protocol_StatckStatus.[UART_HEAT]⟫ = PROTOCOL_STACK_IDLE ->
  let w1 := bytes_in f w in
  let w2 := Comm_Service w1 in
  w1⟪Protocol_StatckStatus.[UART_HEAT]⟫ = PROTOCOL_STACK_IDLE /\
  if sum_ok f then
    w2⟪l_HeatWater_st⟫ = nth 1 f 0 /\ w2⟪l_HeatWater_Flow⟫ = 256 * nth 3 f 0 + nth 4 f 0 /\ w2⟪g_ComStat.[UART_HEAT]⟫ = SEND_Wait
  else
    w2⟪l_HeatWater_st⟫ = w⟪l_HeatWater_st⟫ /\ w2⟪l_HeatWater_Flow⟫ = w⟪l_HeatWater_Flow⟫ /\ w2⟪g_ComStat.[UART_HEAT]⟫ = RECV_Wait.
Proof.
  intros Hf Hi w1 w2. destruct (frame_assembled f w Hf Hi) as (A1 & A2 & A3). fold w1 in A1, A2, A3. split; [done|].
  destruct Hf as (Hby & Hl & _). destruct (sum_ok f); [by apply service_over|].
  pose proof (bytes_in_foot f w) as U. fold w1 in U. unfold w2, Comm_Service, seqc, letc. obs. rewrite A3. cbn [Z.eqb Pos.eqb].
  split_and!; obs; [by apply (unch_rd _ _ _ _ _ U)..|done].
Qed.

Lemma heater_frame_received_witness :
  let f := [1; 1; 60; 2; 44; 0; 0; 0; 0; 0; 0; 0; 0; 0; 0; 0; 0; 108] in
  let w2 := Comm_Service (bytes_in f (Usart1_Var_Init UART_HEAT w_zero)) in
  w2⟪l_HeatWater_st⟫ = 1 /\ w2⟪l_HeatWater_Flow⟫ = 556.
Proof.
  intros f w2. destruct (heater_frame_received f (Usart1_Var_Init UART_HEAT w_zero)) as (_ & H1 & H2 & _).
  - split; [|split; [reflexivity|split; [reflexivity|left; reflexivity]]].
    repeat (apply List.Forall_cons; [unfold byte; lia|]). apply List.Forall_nil.
  - vm_compute. reflexivity.
  - split; [exact H1|exact H2].
Defined.

(** ** The buffer's bounds *)

Inductive uart_event : Type := Rx (b : Z) | Service.
Definition uart_step (e : uart_event) : cmd :=
  match e with Rx b => HeatPortSerialReceiveFSM UART_HEAT b | Service => Comm_Service end.
Definition uart_run (es : list uart_event) (w : world) : world := foldl (fun w e => uart_step e w) w es.
Definition event_ok (e : uart_event) : Prop := match e with Rx b => byte b | Service => True end.

(** Where the receiver can be: the count of bytes stored and of bytes to come fit together. *)
Definition heat_inv (w : world) : Prop :=
  exists st dc fdl sum, rx_state w st dc fdl sum /\
  (st = PROTOCOL_STACK_IDLE \/
   (st = PROTOCOL_STACK_CK /\ dc = 1 /\ 0 <= sum <= 255) \/
   (st = PROTOCOL_STACK_RCV /\ 1 <= fdl /\ 2 <= dc /\ dc + fdl = 16 /\ 0 <= sum <= 255 * dc) \/
   (st = PROTOCOL_STACK_CS /\ 1 <= fdl <= 2 /\ dc + fdl = 18)).

(** The cells beside the buffer. *)
Definition beside_same (w w' : world) : Prop :=
  forall i, ~ 0 <= i < PROTOCOL_FRAME_MaxLen -> w'⟪g_ComBuff.[UART_HEAT, i]⟫ = w⟪g_ComBuff.[UART_HEAT, i]⟫.

Lemma puts_beside w w' n b : 0 <= n < PROTOCOL_FRAME_MaxLen -> puts w w' n b -> beside_same w w'.
Proof. intros Hn H i Hi. rewrite H. by rewrite (proj2 (Z.eqb_neq _ _)) by lia. Qed.

Lemma beside_unch F D w w' : unch F D w w' -> fin g_ComBuff F = false -> beside_same w w'.
Proof. intros U HF i _. by apply (unch_rd _ _ _ _ _ U). Qed.

Lemma rx_state_exists w : exists st dc fdl sum, rx_state w st dc fdl sum.
Proof. do 4 eexists. by split_and!. Qed.

Lemma heat_inv_idle w : w⟪Protocol_StatckStatus.[UART_HEAT]⟫ = PROTOCOL_STACK_IDLE -> heat_inv w.
Proof. intros H. destruct (rx_state_exists w) as (st & dc & fdl & sum & R). exists st, dc, fdl, sum. split; [done|]. left. by rewrite <- H, (proj1 R). Qed.

Lemma ck_other w b :
  (b =? HEAT_OPEN) || (b =? HEAT_CLOSE) = false ->
  let w' := rx_ck_byte UART_HEAT b w in
  w'⟪Protocol_StatckStatus.[UART_HEAT]⟫ = PROTOCOL_STACK_IDLE /\ beside_same w w'.
Proof.
  intros Hb w'. unfold w', rx_ck_byte. rewrite Hb. unfold seqc. split; [by obs|]. intros i _. by obs.
Qed.

Lemma byte_step_inv w b : heat_inv w -> byte b -> let w' := uart_step (Rx b) w in heat_inv w' /\ beside_same w w'.
Proof.
  intros (st & dc & fdl & sum & R & Hc) Hb. cbn [uart_step]. destruct (fsm_eq b w) as (w0 & -> & U).
  pose proof (rx_state_unch w w0 _ _ _ _ U R) as R0. rewrite (proj1 R). cbv zeta.
  assert (B0 : forall w', beside_same w0 w' -> beside_same w w').
  { intros w' H i Hi. rewrite H by done. by apply (unch_rd _ _ _ _ _ U). }
  clear U. destruct Hc as [->|[(-> & -> & Hs)|[(-> & Hf & Hd & Hdf & Hs)|(-> & Hf & Hdf)]]]; cbn [Z.eqb Pos.eqb].
  - destruct (Z.eqb_spec b 1) as [->|Hne].
    + destruct (idle_step w0 (proj1 R0)) as [P Q]. split; [|apply B0, (puts_beside _ _ 0 1); [lia|done]].
      do 4 eexists. split; [exact Q|]. right. left. lia.
    + unfold rx_idle_byte. rewrite (proj2 (Z.eqb_neq _ _) Hne). unfold skip. split; [apply heat_inv_idle, R0|by apply B0; intros i _].
  - destruct ((b =? HEAT_OPEN) || (b =? HEAT_CLOSE)) eqn:E.
    + assert (Hoc : b = HEAT_OPEN \/ b = HEAT_CLOSE) by (apply orb_true_iff in E as [?%Z.eqb_eq|?%Z.eqb_eq]; auto).
      destruct (ck_step w0 b sum fdl Hoc ltac:(lia) R0) as [P Q].
      split; [|apply B0, (puts_beside _ _ 1 b); [lia|done]]. do 4 eexists. split; [exact Q|]. right. right. left.
      split_and!; lia.
    + destruct (ck_other w0 b E) as [P Q]. split; [by apply heat_inv_idle|by apply B0].
  - destruct (rcv_step w0 b dc fdl sum Hb ltac:(lia) ltac:(lia) ltac:(lia) R0) as [P Q].
    split; [|apply B0, (puts_beside _ _ dc b); [lia|done]]. do 4 eexists. split; [exact Q|]. unfold byte in Hb.
    destruct (Z.eqb_spec fdl 1); [right; right; right|right; right; left]; split_and!; lia.
  - destruct (cs_step w0 b dc fdl sum ltac:(lia) ltac:(lia) R0) as [P Q].
    split; [|apply B0, (puts_beside _ _ dc b); [lia|done]].
    destruct (Z.eqb_spec fdl 1); [apply heat_inv_idle, Q|]. do 4 eexists. split; [apply Q|]. right. right. right. lia.
Qed.

Lemma clear_beside w : beside_same w (clear_combuff UART_HEAT w).
Proof.
  intros i Hi. change ((clear_combuff UART_HEAT w)⟪g_ComBuff.[UART_HEAT, i]⟫ = w⟪g_ComBuff.[UART_HEAT, i]⟫).
  apply (keep_rd (clear_combuff UART_HEAT)). unfold clear_combuff. apply resp_for; [typeclasses eauto|].
  intros j Hj%elem_of_range. intros w'. unfold keep, assign. rewrite rd_combuf. by rewrite (proj2 (Z.eqb_neq _ _)) by lia.
Qed.

Lemma service_foot : respc (unch [g_ComGap; g_ComStat; g_ComBuff; l_HeatWater_st; l_HeatWater_Flow] []) Comm_Service.
Proof. unfold Comm_Service. footprint. Qed.

Lemma service_inv w : heat_inv w -> heat_inv (Comm_Service w) /\ beside_same w (Comm_Service w).
Proof.
  intros (st & dc & fdl & sum & (R1 & R2 & R3 & R4) & Hc). pose proof (service_foot w) as U. split.
  - exists st, dc, fdl, sum. split; [|done]. split_and!; by rewrite (unch_rd _ _ _ _ _ U).
  - unfold Comm_Service, seqc, letc. obs. set (s := w⟪g_ComStat.[UART_HEAT]⟫).
    destruct (s =? RECV_Wait); [intros i _; unfold skip; by obs|].
    destruct (s =? RECV_Going); [intros i _; unfold cif, skip; case_match; by obs|].
    destruct (s =? RECV_Over).
    { intros i Hi. obs. rewrite clear_beside by done. unfold runc. by obs. }
    destruct (s =? SEND_Wait); [intros i _; by obs|].
    destruct (s =? SEND_Going); [intros i _; unfold cif, skip; case_match; by obs|]. intros i _. by obs.
Qed.

(** C40: the receive buffer is never overrun.  From initialisation, for every sequence of received
    bytes and of calls of the service, however they interleave, the count of stored bytes and of
    bytes to come always fit together (so at most 18 bytes are stored before the receiver is idle
    again) and no cell beside the 20 bytes of the buffer is ever written. *)
Theorem heater_buffer_bounded es w0 :
  Forall event_ok es ->
  let w := Usart1_Var_Init UART_HEAT w0 in
  heat_inv (uart_run es w) /\ beside_same w (uart_run es w).
Proof.
  intros Hes w. assert (Hi : heat_inv w).
  { apply heat_inv_idle. unfold w, Usart1_Var_Init, seqc. by obs. }
  clearbody w. revert w Hi. induction Hes as [|e es He Hes IH]; intros w Hi; [done|].
  cbn [uart_run foldl]. assert (S : heat_inv (uart_step e w) /\ beside_same w (uart_step e w)).
  { destruct e as [b|]; [by apply byte_step_inv|by apply service_inv]. }
  destruct (IH _ (proj1 S)) as [I1 I2]. split; [exact I1|]. intros i Hn. rewrite I2 by done. by apply S.
Qed.

Lemma heater_buffer_bounded_witness :
  let es := [Rx 7; Rx 1; Rx 1; Rx 255; Service; Rx 255] in
  heat_inv (uart_run es (Usart1_Var_Init UART_HEAT w_zero)).
Proof.
  intros es. apply (heater_buffer_bounded es w_zero).
  repeat (apply List.Forall_cons; [first [exact I|cbn; unfold byte; lia]|]). apply List.Forall_nil.
Defined.

(** The time-out does not bring the receiver back to idle: after a truncated frame and any pause
    the next, complete, frame is not recognised. *)
Lemma truncated_frame_spoils_next :
  let f := [1; 1; 60; 2; 44; 0; 0; 0; 0; 0; 0; 0; 0; 0; 0; 0; 0; 108] in
  let pause := repeat Service 255 in
  let w := uart_run (map Rx (take 5 f) ++ pause ++ map Rx f ++ [Service]) (Usart1_Var_Init UART_HEAT w_zero) in
  sum_ok f = true /\ w⟪l_HeatWater_st⟫ = 0 /\ w⟪l_HeatWater_Flow⟫ = 0.
Proof. vm_compute. split_and!; reflexivity. Qed.

(** ** A frame of the dust sensor *)

Definition zph_has (w : world) (l : list Z) : Prop :=
  w⟪zph_count⟫ = Z.of_nat (length l) /\ forall i x, l !! i = Some x -> w⟪zph_rx_buffer.[Z.of_nat i]⟫ = x.

(** The header the receiver insists on. *)
Definition zph_next_ok (n : nat) (b : Z) : Prop := (n = 0%nat -> b = 0xff) /\ (n = 1%nat -> b = 0x18).

Definition zph_store (w : world) (b : Z) : world := (zph_rx_buffer.[w⟪zph_count⟫] ::= b;; zph_count.++) w.

Lemma zph_store_has w l b : zph_has w l -> (length l < 9)%nat -> byte b -> zph_has (zph_store w b) (l ++ [b]).
Proof.
  intros [Hc Hl] Hn Hb. unfold zph_store, seqc. split.
  - obs. rewrite Hc, length_app, u8_small; cbn [length]; lia.
  - intros i x Hi. obs. rewrite Hc. destruct (decide (i < length l)%nat) as [Hlt|Hge].
    + rewrite lookup_app_l in Hi by done. rewrite rd_assign_other; [by apply Hl|]. intros [= E]. lia.
    + rewrite lookup_app_r in Hi by lia. apply list_lookup_singleton_Some in Hi as [Hi <-].
      replace i with (length l) by lia. rewrite rd_assign_same. by apply u8_small.
Qed.

Lemma zph_accepts w l b :
  zph_has w l -> (length l < 9)%nat -> zph_next_ok (length l) b ->
  let c := w⟪zph_count⟫ in
  ((c =? 0) && (b =? 0xff)) || ((c =? 1) && (b =? 0x18)) || ((1 <? c) && (c <? 9)) = true.
Proof.
  intros [Hc _] Hn [H0 H1]. cbv zeta. rewrite Hc.
  destruct (Z.eqb_spec (Z.of_nat (length l)) 0) as [E|E]; [rewrite H0 by lia; done|].
  destruct (Z.eqb_spec (Z.of_nat (length l)) 1) as [E'|E']; [rewrite H1 by lia; done|].
  rewrite (proj2 (Z.ltb_lt 1 _)), (proj2 (Z.ltb_lt _ 9)) by lia. cbn. done.
Qed.

Lemma zph_eq w l b :
  zph_has w l -> (length l < 9)%nat -> zph_next_ok (length l) b -> zph01ReceiveData b w = zph_finish (zph_store w b).
Proof.
  intros Hl Hn Hok. unfold zph01ReceiveData, letc. rewrite (zph_accepts w l b) by done. reflexivity.
Qed.

Lemma zph_byte w l b :
  zph_has w l -> (length l < 8)%nat -> zph_next_ok (length l) b -> byte b ->
  zph01ReceiveData b w = zph_store w b.
Proof.
  intros Hl Hn Hok Hb. rewrite (zph_eq w l) by (done || lia).
  pose proof (zph_store_has w l b Hl ltac:(lia) Hb) as [Hc _].
  unfold zph_finish, cif. rewrite Hc, length_app. cbn [length]. rewrite (proj2 (Z.eqb_neq _ _)) by lia. done.
Qed.

Lemma clear_rx_foot : respc (unch [zph_rx_buffer] []) clear_rx_buffer.
Proof. unfold clear_rx_buffer. footprint. Qed.
#[export] Hint Resolve clear_rx_foot : foot.

Lemma zph_sum w l : zph_has w l -> length l = 9%nat -> @FucCheckSum w 9 = u8 (- byte_sum (take 7 (drop 1 l))).
Proof.
  intros [_ Hl] Hn. unfold FucCheckSum. change (range (9 - 2)) with [0; 1; 2; 3; 4; 5; 6].
  do 10 (destruct l as [|? l]; try done). cbn [take drop byte_sum foldr foldl skipn].
  pose proof (Hl 1%nat _ eq_refl : w⟪zph_rx_buffer.[0 + 1]⟫ = _) as ->.
  pose proof (Hl 2%nat _ eq_refl : w⟪zph_rx_buffer.[1 + 1]⟫ = _) as ->.
  pose proof (Hl 3%nat _ eq_refl : w⟪zph_rx_buffer.[2 + 1]⟫ = _) as ->.
  pose proof (Hl 4%nat _ eq_refl : w⟪zph_rx_buffer.[3 + 1]⟫ = _) as ->.
  pose proof (Hl 5%nat _ eq_refl : w⟪zph_rx_buffer.[4 + 1]⟫ = _) as ->.
  pose proof (Hl 6%nat _ eq_refl : w⟪zph_rx_buffer.[5 + 1]⟫ = _) as ->.
  pose proof (Hl 7%nat _ eq_refl : w⟪zph_rx_buffer.[6 + 1]⟫ = _) as ->.
  unfold u8, Z.lnot. Z.div_mod_to_equations. lia.
Qed.

Lemma zph_last w l b :
  zph_has w l -> length l = 8%nat -> byte b -> bytes l ->
  let w' := zph01ReceiveData b w in
  w'⟪zph_count⟫ = 0 /\
  w'⟪ComSta_u16PM25⟫ = if b =? u8 (- byte_sum (take 7 (drop 1 l))) then 100 * nth 3 l 0 + nth 4 l 0 else w⟪ComSta_u16PM25⟫.
Proof.
  intros Hl Hn Hb Hby. cbv zeta. rewrite (zph_eq w l) by (done || lia || (split; lia)).
  pose proof (zph_store_has w l b Hl ltac:(lia) Hb) as H. pose proof (zph_sum _ _ H ltac:(rewrite length_app; cbn; lia)) as Hs.
  assert (Hp : (zph_store w b)⟪ComSta_u16PM25⟫ = w⟪ComSta_u16PM25⟫) by (unfold zph_store, seqc; by obs).
  rewrite drop_app_le, take_app_le in Hs by (rewrite ?length_drop; lia).
  set (w1 := zph_store w b) in *. clearbody w1. destruct H as [Hc Hx]. unfold zph_finish, cif, seqc.
  rewrite Hc, length_app, Hn. change (Z.of_nat (8 + length [b]) =? 9) with true. cbv iota.
  pose proof (Hx 8%nat b ltac:(rewrite lookup_app_r, Hn by lia; done) : w1⟪zph_rx_buffer.[8]⟫ = b) as ->. rewrite Hs.
  destruct (lookup_lt_is_Some_2 l 3) as [x3 H3]; [lia|]. destruct (lookup_lt_is_Some_2 l 4) as [x4 H4]; [lia|].
  pose proof (Hx 3%nat x3 ltac:(by rewrite lookup_app_l by lia) : w1⟪zph_rx_buffer.[3]⟫ = x3) as B3.
  pose proof (Hx 4%nat x4 ltac:(by rewrite lookup_app_l by lia) : w1⟪zph_rx_buffer.[4]⟫ = x4) as B4.
  assert (byte x3 /\ byte x4) as [Y3 Y4] by (split; by eapply Forall_lookup_1). unfold byte in Y3, Y4.
  rewrite (nth_lookup_Some l 3 0 x3 H3), (nth_lookup_Some l 4 0 x4 H4).
  destruct (b =? _); unfold skip; split; obs; try done. rewrite B3, B4, u16_small; lia.
Qed.

Definition dust_in (l : list Z) (w : world) : world := foldl (fun w b => zph01ReceiveData b w) w l.
Lemma dust_in_snoc l b w : dust_in (l ++ [b]) w = zph01ReceiveData b (dust_in l w).
Proof. unfold dust_in. by rewrite foldl_app. Qed.

(** A whole frame: 0xff, 0x18, six bytes and the negated sum; concentration is bytes 3 and 4. *)
Lemma dust_frame_received f w :
  bytes f -> length f = 9%nat -> nth 0 f 0 = 0xff -> nth 1 f 0 = 0x18 -> w⟪zph_count⟫ = 0 ->
  let w' := dust_in f w in
  w'⟪zph_count⟫ = 0 /\
  w'⟪ComSta_u16PM25⟫ =
    if nth 8 f 0 =? u8 (- byte_sum (take 7 (drop 1 f))) then 100 * nth 3 f 0 + nth 4 f 0 else w⟪ComSta_u16PM25⟫.
Proof.
  intros Hby Hl H0 H1 Hc.
  assert (G : forall n, (n <= 8)%nat -> let v := dust_in (take n f) w in
    zph_has v (take n f) /\ v⟪ComSta_u16PM25⟫ = w⟪ComSta_u16PM25⟫).
  { induction n as [|n IH]; intros Hn; [by split|]. destruct (IH ltac:(lia)) as [I1 I2]. cbv zeta in *.
    destruct (lookup_lt_is_Some_2 f n) as [b Hb]; [lia|]. rewrite (take_snoc f n b Hb), dust_in_snoc.
    set (v := dust_in (take n f) w) in *. clearbody v. assert (Hn' : length (take n f) = n) by (rewrite length_take; lia).
    assert (Hby' : byte b) by (by eapply Forall_lookup_1).
    rewrite (zph_byte v (take n f)); [|done|lia| |done].
    - split; [apply zph_store_has; [done|lia|done]|]. rewrite <- I2. unfold zph_store, seqc. by obs.
    - rewrite Hn'. split; intros ->; [rewrite <- H0|rewrite <- H1]; symmetry; by apply nth_lookup_Some. }
  destruct (G 8%nat ltac:(lia)) as [G1 G2]. destruct (lookup_lt_is_Some_2 f 8) as [b Hb]; [lia|].
  assert (Ed : dust_in f w = zph01ReceiveData b (dust_in (take 8 f) w)).
  { rewrite <- dust_in_snoc, <- (take_snoc f 8 b Hb). by rewrite take_ge by lia. }
  cbv zeta. rewrite Ed. clear Ed.
  set (v := dust_in (take 8 f) w) in *. clearbody v.
  destruct (zph_last v (take 8 f) b G1) as [Z1 Z2];
    [rewrite length_take; lia|by eapply Forall_lookup_1|by apply Forall_take|]. cbv zeta in Z1, Z2.
  split; [done|]. rewrite Z2, G2. rewrite (nth_lookup_Some f 8 0 b Hb).
  do 10 (destruct f as [|? f]; try done).
Qed.
