(* ===== verification/Storage.v ===== *)
(** * usr/modules/req_execution.c, fifth part: storage, restart, and the whole execution

    Emptying the machine for storage, restarting the display when it or the network is
    silent, and [req_execution], which runs every half second. *)

From S2P Require Import Prelude Conf Fifo Machine SysStatus EventRecord Eeprom GlobalVar AlarmCalc Fan Compressor WaterMake WaterOut.

Definition Sys_Get_Storage_Signal {w : cur} : Z := if «ComPara_u16Storage» =? 1 then TRUE else FALSE.

Abbreviation storage_fsm := l_u8Storage_Fsm.
Abbreviation ev1_time := l_comp_timeout.[DO_EV1_BPOS].
Abbreviation p2_time := l_comp_timeout.[DO_P2_BPOS].

Definition storage_abort : cmd :=
  storage_fsm ::= WATER_STROGE_IDLE;;
  l_u8Storage_Status ::= FALSE.

(** The stages 3 and stop of the [switch]. *)
Definition reset_filters : cmd :=
  RUN (reset_runtime DO_FILLTER_ELEMENT_DUMMY_BPOS_0);;
  RUN (reset_runtime DO_FILLTER_ELEMENT_DUMMY_BPOS_1);;
  RUN (reset_runtime DO_FILLTER_ELEMENT_DUMMY_BPOS_2);;
  RUN (reset_runtime DO_FILLTER_ELEMENT_DUMMY_BPOS_3).
Definition clear_request : cmd :=
  ComPara_u16Storage ::= 0;;
  LET v := «ComPara_u16Storage» IN
  RUN (RAM_Write_Reg EE_STORAGE v 1).

(** The [switch] of [Storage_exe]. *)
Definition storage_switch (u8Storage_Fsm u16WL : Z) : cmd :=
  match u8Storage_Fsm with
  | WATER_STROGE_IDLE =>
      IF («l_u8Storage_Status» =? TRUE) &&
         ((sys_get_remap_status WORK_MODE_STS_REG_NO FAN_STS_BPOS =? 0) &&
          (sys_get_remap_status WORK_MODE_STS_REG_NO COOLING_STS_BPOS =? 0)) THEN
        ev1_time ::= «ComPara_u16StorageDealy.[1]»;;
        storage_fsm ::= WATER_STROGE_1
      END
  | WATER_STROGE_1 =>
      IF «l_u8Storage_Status» =? TRUE THEN
        if nz (u16WL .& S_L) then
          req_bitmap_op DO_P1_BPOS 1;;
          req_bitmap_op DO_EV1_BPOS 1;;
          ev1_time ::= «ComPara_u16StorageDealy.[1]»
        else
          IF nz «ev1_time» THEN
            req_bitmap_op DO_P1_BPOS 1;;
            req_bitmap_op DO_EV1_BPOS 1
          ELSE
            req_bitmap_op DO_P1_BPOS 0;;
            req_bitmap_op DO_EV1_BPOS 0;;
            p2_time ::= «ComPara_u16StorageDealy.[0]»;;
            storage_fsm ::= WATER_STROGE_2
          END
      ELSE
        req_bitmap_op DO_P1_BPOS 0;;
        req_bitmap_op DO_EV1_BPOS 0;;
        storage_abort
      END
  | WATER_STROGE_2 =>
      IF «l_u8Storage_Status» =? TRUE THEN
        if nz (u16WL .& D_L) then
          req_bitmap_op DO_EV2_BPOS 1;;
          req_bitmap_op DO_P2_BPOS 1;;
          p2_time ::= «ComPara_u16StorageDealy.[0]»
        else
          IF nz «p2_time» THEN
            req_bitmap_op DO_EV2_BPOS 1;;
            req_bitmap_op DO_P2_BPOS 1
          ELSE
            req_bitmap_op DO_EV2_BPOS 0;;
            req_bitmap_op DO_P2_BPOS 0;;
            storage_fsm ::= WATER_STROGE_3
          END
      ELSE
        req_bitmap_op DO_EV2_BPOS 0;;
        req_bitmap_op DO_P2_BPOS 0;;
        storage_abort
      END
  | WATER_STROGE_3 =>
      IF «l_u8Storage_Status» =? TRUE THEN
        reset_filters;;
        storage_fsm ::= WATER_STROGE_STOP
      ELSE storage_abort END
  | WATER_STROGE_STOP =>
      clear_request;;
      storage_abort
  | _ => storage_abort
  end.

Definition Storage_exe : cmd :=
  CALL u16WL := Get_Water_level IN
  LET u8Storage_Fsm := «storage_fsm» IN
  IF Sys_Get_Storage_Signal =? TRUE THEN l_u8Storage_Status ::= TRUE
  ELSE l_u8Storage_Status ::= FALSE END;;
  storage_switch u8Storage_Fsm u16WL.

(** ** Restarting the display *)

Definition Close_DIS_Enable {w : cur} : Z :=
  if nz («Platform_Restart_Enable» .& 0x8000) && nz (sys_get_di_sts DI_HI_PRESS2_BPOS) then TRUE else FALSE.

Abbreviation rs_off := RS_u8CloseTime.[0].
Abbreviation rs_count := RS_u8CloseTime.[1].
Abbreviation uart_timeout := l_u16Uart_Timeout.[1].

(** Silence of the display and network errors are counted; either reaching the hold time
    asks for a restart. *)
Definition restart_watch (u16HoldTime : Z) : cmd :=
  uart_timeout .++;;
  IF u16HoldTime <=? «uart_timeout» THEN
    uart_timeout ::= u16HoldTime;;
    RS_u8Restart .|= 0x01
  END;;
  IF negb («Platform_Net_ERR» =? 0) THEN
    RS_u16NeterrDelay .++;;
    IF u16HoldTime <=? «RS_u16NeterrDelay» THEN
      RS_u16NeterrDelay ::= u16HoldTime;;
      RS_u8Restart .|= 0x03
    END
  END;;
  l_u8RSInteral_Neterr ::= FALSE.

(** The power of the display goes off for [CLOSE_TIME] executions. *)
Definition restart_power : cmd :=
  IF nz «RS_u8Restart» THEN
    rs_off .++;;
    IF «rs_off» <=? CLOSE_TIME THEN Close_DIS_PWR 1
    ELSE
      rs_off ::= 0;;
      rs_count .++;;
      uart_timeout ::= 0;;
      RS_u16NeterrDelay ::= 0;;
      Platform_Net_ERR ::= 0;;
      RS_u8Restart ::= 0
    END
  ELSE Close_DIS_PWR 0 END.

(** Restarting is not allowed. *)
Definition restart_disabled : cmd :=
  rs_count ::= 0;;
  RS_u32RSInteral ::= 0;;
  uart_timeout ::= 0;;
  RS_u16NeterrDelay ::= 0;;
  RS_u8Restart ::= 0;;
  l_u8RSInteral_Neterr ::= FALSE;;
  Close_DIS_PWR 0.

(** The allowed number of restarts is used up: wait for the interval. *)
Definition restart_exhausted (u32InteralTime : Z) : cmd :=
  RS_u32RSInteral .++;;
  IF u32InteralTime <=? «RS_u32RSInteral» THEN
    RS_u32RSInteral ::= 0;;
    rs_count ::= 0
  END;;
  l_u8RSInteral_Neterr ::= TRUE;;
  uart_timeout ::= 0;;
  RS_u16NeterrDelay ::= 0;;
  RS_u8Restart ::= 0;;
  Close_DIS_PWR 0.

Definition Restart_DIS_exe : cmd :=
  LET u16MaxTimes := «Platform_Restart_Enable» .& 0x0FFF IN
  LET u32InteralTime := («Platform_Restart_Delay» .>> 8) * 3600 * 2 IN
  LET u16HoldTime := u16 ((«Platform_Restart_Delay» .& 0xFF) * 60 * 2) IN
  IF Close_DIS_Enable =? FALSE THEN restart_disabled
  ELSE IF u16MaxTimes <=? «rs_count» THEN restart_exhausted u32InteralTime
  ELSE
    restart_watch u16HoldTime;;
    restart_power
  END END.

(** ** The execution of all requests *)

Definition req_execution {U : f2u_undefined} (target_req_temp target_req_hum : Z) : cmd :=
  Sys_Fan_CP_WL;;
  fan_req_exe target_req_temp target_req_hum;;
  compressor_req_exe target_req_temp target_req_hum;;
  Pwp_req_exe;;
  Cold_Water_exe;;
  Sterilize_req_exe;;
  WaterOut_req_exe;;
  Defrost_req_exe;;
  Storage_exe;;
  Restart_DIS_exe.

(** ** Footprints *)

Lemma write_storage_foot v :
  respa (unch [ComPara_u16Storage; P_ee; P_eventlog] []) (RAM_Write_Reg EE_STORAGE v 1).
Proof. by apply (RAM_Write_Reg_foot _ _ (scalar ComPara_u16Storage)). Qed.
#[export] Hint Resolve write_storage_foot : foot.

Definition reset_fields : list field :=
  [P_ee; ComSta_u16Runtime; l_u32WaterFlow; ComSta_u16Cumulative_Water].
Lemma reset_filters_foot : respc (unch reset_fields []) reset_filters.
Proof. unfold reset_filters. footprint. Qed.
Lemma clear_request_foot : respc (unch [ComPara_u16Storage; P_ee; P_eventlog] []) clear_request.
Proof. unfold clear_request. footprint. Qed.
#[export] Hint Resolve reset_filters_foot clear_request_foot : foot.

Definition storage_do : list Z := [DO_PWP_BPOS; DO_EV1_BPOS; DO_WP_BPOS; DO_EV2_BPOS].
Definition storage_fields : list field :=
  [ComSta_u16WL; l_u8Storage_Status; l_u8Storage_Fsm; l_comp_timeout; ComPara_u16Storage; P_ee; P_eventlog;
   ComSta_u16Runtime; l_u32WaterFlow; ComSta_u16Cumulative_Water].
Lemma storage_switch_foot s l : respc (unch storage_fields storage_do) (storage_switch s l).
Proof. unfold storage_switch, storage_abort. footprint. Qed.
#[export] Hint Resolve storage_switch_foot : foot.
Lemma Storage_exe_foot : respc (unch storage_fields storage_do) Storage_exe.
Proof. unfold Storage_exe. footprint. Qed.
#[export] Hint Resolve Storage_exe_foot : foot.
Definition restart_fields : list field :=
  [RS_u8CloseTime; RS_u32RSInteral; l_u16Uart_Timeout; RS_u16NeterrDelay; RS_u8Restart; l_u8RSInteral_Neterr;
   Platform_Net_ERR].
Lemma Restart_DIS_exe_foot : respc (unch restart_fields [DO_PWR_CTRL_BPOS]) Restart_DIS_exe.
Proof. unfold Restart_DIS_exe, restart_disabled, restart_exhausted, restart_watch, restart_power. footprint. Qed.
#[export] Hint Resolve Restart_DIS_exe_foot : foot.

#[global] Opaque reset_filters clear_request.

(** ** Storage *)

Definition storage_sig (w : world) : bool := w⟪ComPara_u16Storage⟫ =? 1.
(** Neither fan nor cooling is declared running. *)
Definition storage_ready (w : world) : bool :=
  negb (remap_bit w WORK_MODE_STS_REG_NO FAN_STS_BPOS) && negb (remap_bit w WORK_MODE_STS_REG_NO COOLING_STS_BPOS).
(** The tank still empties: its lowest switch is reached, or the run-on time has not expired. *)
Definition source_empties (w : world) : bool := nz (@water_level_value w .& S_L) || nz (w⟪ev1_time⟫).
Definition drink_empties (w : world) : bool := nz (@water_level_value w .& D_L) || nz (w⟪p2_time⟫).

Definition storage_next (w : world) : Z :=
  match w⟪storage_fsm⟫ with
  | WATER_STROGE_IDLE => if storage_sig w && storage_ready w then WATER_STROGE_1 else WATER_STROGE_IDLE
  | WATER_STROGE_1 =>
      if storage_sig w then if source_empties w then WATER_STROGE_1 else WATER_STROGE_2 else WATER_STROGE_IDLE
  | WATER_STROGE_2 =>
      if storage_sig w then if drink_empties w then WATER_STROGE_2 else WATER_STROGE_3 else WATER_STROGE_IDLE
  | WATER_STROGE_3 => if storage_sig w then WATER_STROGE_STOP else WATER_STROGE_IDLE
  | _ => WATER_STROGE_IDLE
  end.

(** The outputs: the purification pump with its valve in the first stage, the outlet pump with
    its valve in the second, as they were otherwise. *)
Definition storage_out (w : world) (d : Z) : bool :=
  if (w⟪storage_fsm⟫ =? WATER_STROGE_1) && ((d =? DO_P1_BPOS) || (d =? DO_EV1_BPOS)) then
    storage_sig w && source_empties w
  else if (w⟪storage_fsm⟫ =? WATER_STROGE_2) && ((d =? DO_P2_BPOS) || (d =? DO_EV2_BPOS)) then
    storage_sig w && drink_empties w
  else req_bit w d.

(** The state in which the switch runs. *)
Lemma storage_entry w :
  exists v, Storage_exe w = storage_switch (w⟪storage_fsm⟫) (@water_level_value w) v /\
    v⟪l_u8Storage_Status⟫ = (if storage_sig w then TRUE else FALSE) /\
    (forall c, fin (fld c) [ComSta_u16WL; l_u8Storage_Status] || is_req c = false -> v⟪c⟫ = w⟪c⟫) /\
    forall d, req_bit v d = req_bit w d.
Proof.
  set (w1 := (Get_Water_level w).2).
  assert (forall c, fin (fld c) [ComSta_u16WL] || is_req c = false -> w1⟪c⟫ = w⟪c⟫) as H1.
  { intros c Hc. eapply keep_rda, keep_rd_unch; [apply Get_Water_level_foot | done]. }
  assert (forall d, req_bit w1 d = req_bit w d) as Hb.
  { intros d. apply (unch_req _ _ _ _ (Get_Water_level_foot w)). done. }
  exists ((l_u8Storage_Status ::= (if storage_sig w then TRUE else FALSE)) w1). split_and!.
  - unfold Storage_exe, bindc, letc, seqc. fold w1.
    unfold cif, Sys_Get_Storage_Signal, storage_sig. rewrite !H1 by done. by destruct (_ =? 1).
  - obs. by destruct (storage_sig w).
  - intros c Hc. apply orb_false_iff in Hc as [Hc Hr]. cbn in Hc. apply orb_false_iff in Hc as [Hc1 [Hc2 _]%orb_false_iff].
    unfold assign. rewrite rd_wr_fld; [apply H1; unfold fin; cbn; by rewrite Hc1, Hr|].
    cbn. apply not_true_iff_false. intros E%feqb_spec. rewrite <- E in Hc2. done.
  - intros d. rewrite <- Hb. unfold bmp_bit. by obs.
Qed.

Lemma storage_st_cases (s : Z) (P : Z -> Prop) :
  P 0 -> P 1 -> P 2 -> P 3 -> P 9 -> (s <> 0 -> s <> 1 -> s <> 2 -> s <> 3 -> s <> 9 -> P s) -> P s.
Proof.
  intros. destruct (Z.eq_dec s 0) as [-> |]; [done|]. destruct (Z.eq_dec s 1) as [-> |]; [done|].
  destruct (Z.eq_dec s 2) as [-> |]; [done|]. destruct (Z.eq_dec s 3) as [-> |]; [done|].
  destruct (Z.eq_dec s 9) as [-> |]; auto.
Qed.

Lemma storage_other s l w :
  s <> 0 -> s <> 1 -> s <> 2 -> s <> 3 -> s <> 9 -> storage_switch s l w = storage_abort w.
Proof. intros. unfold storage_switch. repeat case_match; done || lia. Qed.

Lemma storage_spec w :
  let w' := Storage_exe w in
  w'⟪storage_fsm⟫ = storage_next w /\
  (forall d, req_bit w' d = storage_out w d) /\
  (w⟪storage_fsm⟫ = WATER_STROGE_STOP -> w'⟪l_u8Storage_Status⟫ = FALSE) /\
  (storage_sig w = false -> w'⟪l_u8Storage_Status⟫ = FALSE).
Proof.
  cbv zeta. destruct (storage_entry w) as (v & -> & Hst & Hrd & Hbit).
  unfold storage_next, storage_out. set (s := w⟪storage_fsm⟫).
  assert ((v⟪l_u8Storage_Status⟫ =? TRUE) = storage_sig w) as Hsig by (rewrite Hst; by destruct (storage_sig w)).
  assert (v⟪ev1_time⟫ = w⟪ev1_time⟫ /\ v⟪p2_time⟫ = w⟪p2_time⟫) as [H1 H2] by (split; by apply Hrd).
  assert ((@sys_get_remap_status v WORK_MODE_STS_REG_NO FAN_STS_BPOS =? 0) &&
    (@sys_get_remap_status v WORK_MODE_STS_REG_NO COOLING_STS_BPOS =? 0) = storage_ready w) as Hrdy.
  { rewrite !sys_get_remap_status_bit by lia. unfold storage_ready, remap_bit. rewrite !Hrd by done.
    by destruct (Z.testbit _ _), (Z.testbit _ _). }
  assert (v⟪storage_fsm⟫ = s) as Hs by (by apply Hrd). clearbody s.
  revert Hs. apply (storage_st_cases s).
  6: { intros N0 N1 N2 N3 N9 Hs. rewrite storage_other by done. unfold storage_abort.
       rewrite (proj2 (Z.eqb_neq s 1) N1), (proj2 (Z.eqb_neq s 2) N2). cbn [andb]. split_and!; [|intros d; obs; apply Hbit | intros; by obs..].
       obs. repeat case_match; done || lia. }
  all: intros Hs; cbn [storage_switch].
  - unfold cif. rewrite Hsig, Hrdy. cbn [andb Z.eqb]. unfold skip.
    destruct (storage_sig w) eqn:Esig, (storage_ready w); cbn [andb]; (split_and!; [by obs | intros d; obs; apply Hbit | done |]);
      intros; try done; obs; by rewrite Hst.
  - unfold cif. rewrite Hsig. unfold source_empties. cbn [andb Z.eqb Pos.eqb].
    destruct (storage_sig w) eqn:Esig; cbn [andb]; [destruct (nz (@water_level_value w .& S_L)); cbn [orb]; cbv beta;
      [|rewrite H1; destruct (nz (w⟪ev1_time⟫))]|];
      unfold storage_abort, req_bitmap_op; (split_and!; [by obs | | done | intros; try done; by obs]);
      intros d; obs; rewrite ?Hbit, (Z.eqb_sym d 10), (Z.eqb_sym d 11); 
      by destruct (10 =? d), (11 =? d).
  - unfold cif. rewrite Hsig. unfold drink_empties. cbn [andb Z.eqb Pos.eqb].
    destruct (storage_sig w) eqn:Esig; cbn [andb]; [destruct (nz (@water_level_value w .& D_L)); cbn [orb]; cbv beta;
      [|rewrite H2; destruct (nz (w⟪p2_time⟫))]|];
      unfold storage_abort, req_bitmap_op; (split_and!; [by obs | | done | intros; try done; by obs]);
      intros d; obs; rewrite ?Hbit, (Z.eqb_sym d 8), (Z.eqb_sym d 12); 
      by destruct (8 =? d), (12 =? d).
  - unfold cif. rewrite Hsig. cbn [andb Z.eqb Pos.eqb].
    destruct (storage_sig w) eqn:Esig; unfold storage_abort; (split_and!; [by obs | intros d; obs; apply Hbit | done |]);
      intros; try done; by obs.
  - cbn [andb Z.eqb Pos.eqb]. unfold storage_abort. split_and!; [by obs | intros d; obs; apply Hbit | intros; by obs..].
Qed.

(** The storage procedure.  One execution moves the machine along
    idle - empty the source tank - empty the drinking tank - reset the filters - stop - idle,
    each tank until its lowest switch and the run-on time say so, back to idle when the
    request is withdrawn, and requests exactly the pump and valve of the stage under way, so
    a withdrawn request leaves nothing open; at the stop the request itself is cleared and
    storage mode ends. *)
Theorem Storage_exe_spec w :
  let w' := Storage_exe w in
  w'⟪storage_fsm⟫ = storage_next w /\
  (forall d, req_bit w' d = storage_out w d) /\
  (w⟪storage_fsm⟫ = WATER_STROGE_STOP -> w'⟪l_u8Storage_Status⟫ = FALSE) /\
  (storage_sig w = false -> w'⟪l_u8Storage_Status⟫ = FALSE).
Proof. apply storage_spec. Qed.

Lemma reset_runtime_one p w k i :
  1 <= p <= DO_MAX_CNT -> k = 0 \/ k = 1 ->
  (reset_runtime p w).2⟪ComSta_u16Runtime.[k, i]⟫ = if i =? p - 1 then 0 else w⟪ComSta_u16Runtime.[k, i]⟫.
Proof.
  intros Hp Hk. unfold reset_runtime.
  rewrite (proj2 (Z.eqb_neq p 0xff)), (proj2 (Z.ltb_lt 0 p)), (proj2 (Z.leb_le p DO_MAX_CNT)) by lia.
  cbn [andb]. unfold seqc, reta, assign. cbn [snd]. rewrite (keep_rd save_runtime) by keep_tac.
  rewrite !rd_wr. unfold cell_eqb. cbn [fld ix jx]. rewrite (Z.eqb_sym i).
  destruct Hk as [-> | ->], (p - 1 =? i); done.
Qed.

(** The filters reset at the end of storage.  [reset_runtime] numbers its counters from 1
    and the stage passes output positions, which start from 0: the counters cleared are
    those of the air filter and of the filter elements 0, 1 and 2, and the counter of filter
    element 3, which the stage names, keeps its value with all the others. *)
Theorem storage_resets_previous_filter w k i :
  (k = 0 \/ k = 1) ->
  (reset_filters w)⟪ComSta_u16Runtime.[k, i]⟫ =
    if (DO_FILLTER_DUMMY_BPOS <=? i) && (i <? DO_FILLTER_ELEMENT_DUMMY_BPOS_3) then 0
    else w⟪ComSta_u16Runtime.[k, i]⟫.
Proof.
  intros Hk. with_strategy transparent [reset_filters] unfold reset_filters, seqc, runc.
  rewrite !reset_runtime_one by lia. destruct (Z.leb_spec DO_FILLTER_DUMMY_BPOS i), (Z.ltb_spec i DO_FILLTER_ELEMENT_DUMMY_BPOS_3); cbn [andb];
    repeat case_match; (done || lia).
Qed.

(** The counters named are at 100 hours; the air filter's is cleared in place of the last. *)
Lemma storage_resets_witness :
  let w := poke [(ComSta_u16Runtime.[1, DO_FILLTER_DUMMY_BPOS], 100);
                 (ComSta_u16Runtime.[1, DO_FILLTER_ELEMENT_DUMMY_BPOS_3], 100)] w_zero in
  (reset_filters w)⟪ComSta_u16Runtime.[1, DO_FILLTER_DUMMY_BPOS]⟫ = 0 /\
  (reset_filters w)⟪ComSta_u16Runtime.[1, DO_FILLTER_ELEMENT_DUMMY_BPOS_3]⟫ = 100.
Proof.
  cbv zeta. set (w := poke _ _). split.
  - rewrite (storage_resets_previous_filter w 1 _ (or_intror eq_refl)). reflexivity.
  - rewrite (storage_resets_previous_filter w 1 _ (or_intror eq_refl)). vm_compute. reflexivity.
Defined.


(** ** The lid interlock over a whole execution *)

(** The lid alarm and the storage stage, from one step to the next. *)
Definition lid_fields : list field := [status_alarm_bitmap; l_u8Storage_Fsm].
Definition other_fields : list field := filter (fun f => negb (fin f lid_fields)) all_fields.
Definition all_do : list Z := range 32.
Definition same_lid (w w' : world) : Prop :=
  alarm_bit w' ACL_E4 = alarm_bit w ACL_E4 /\ w'⟪storage_fsm⟫ = w⟪storage_fsm⟫.

Lemma same_lid_foot k w : respc (unch other_fields all_do) k -> same_lid w (k w).
Proof. intros H. split; [unfold alarm_bit|]; by rewrite (unch_rd _ _ _ _ _ (H w)). Qed.

(** The steps of [req_execution] before sterilisation. *)
Lemma first_steps_foot t h :
  respc (unch other_fields all_do)
    (Sys_Fan_CP_WL;; fan_req_exe t h;; compressor_req_exe t h;; Pwp_req_exe;; Cold_Water_exe).
Proof. footprint. Qed.

Lemma storage_keeps_outlets w d :
  w⟪storage_fsm⟫ <> WATER_STROGE_2 -> d = DO_WP_BPOS \/ d = DO_EV2_BPOS ->
  req_bit (Storage_exe w) d = req_bit w d.
Proof.
  intros Hs%Z.eqb_neq Hd. destruct (storage_spec w) as (_ & -> & _). unfold storage_out. rewrite Hs.
  destruct Hd as [-> | ->]; cbn [Z.eqb Pos.eqb orb andb]; by rewrite andb_false_r.
Qed.

Lemma req_execution_steps {U : f2u_undefined} t h w :
  req_execution t h w = Restart_DIS_exe (Storage_exe (Defrost_req_exe (WaterOut_req_exe (Sterilize_req_exe
    ((Sys_Fan_CP_WL;; fan_req_exe t h;; compressor_req_exe t h;; Pwp_req_exe;; Cold_Water_exe) w))))).
Proof. unfold req_execution, seqc. reflexivity. Qed.

Lemma lid_closes {U : f2u_undefined} t h w d :
  alarm_bit w ACL_E4 = true -> w⟪storage_fsm⟫ <> WATER_STROGE_2 -> d = DO_WP_BPOS \/ d = DO_EV2_BPOS ->
  req_bit (req_execution t h w) d = false.
Proof.
  intros H4 Hs Hd. rewrite req_execution_steps.
  destruct (same_lid_foot _ w (first_steps_foot t h)) as [Ha Hf]. set (w1 := (Sys_Fan_CP_WL;; _) w) in *.
  destruct (same_lid_foot Sterilize_req_exe w1) as [Ha2 Hf2]; [footprint|].
  assert (req_bit (Sterilize_req_exe w1) d = false) as Hd2.
  { rewrite sterilize_lid by congruence. rewrite !bmp_bit_op. by destruct Hd as [-> | ->]. }
  set (w2 := Sterilize_req_exe w1) in *. clearbody w2.
  assert (may_dispense w2 = false) as Hm by (unfold may_dispense; rewrite Ha2, Ha, H4; by destruct (negb _)).
  destruct (outlets_closed w2 Hm) as [Hno _].
  destruct (same_lid_foot WaterOut_req_exe w2) as [_ Hf3]; [footprint|].
  assert (req_bit (WaterOut_req_exe w2) d = false) as Hd3.
  { apply not_true_is_false. intros E. rewrite (Hno d) in Hd2; [done | by destruct Hd as [-> | ->] | done]. }
  set (w3 := WaterOut_req_exe w2) in *. clearbody w3.
  destruct (same_lid_foot Defrost_req_exe w3) as [_ Hf4]; [footprint|].
  rewrite (unch_req _ _ _ _ (Restart_DIS_exe_foot _)) by (by destruct Hd as [-> | ->]).
  rewrite storage_keeps_outlets by (congruence || done).
  by rewrite (unch_req _ _ _ _ (Defrost_req_exe_foot _)).
Qed.

(** C5: the lid interlock.  While the lid alarm E4 is shown, a whole execution of requests,
    in whatever state the components are, ends with the outlet pump and the outlet valve
    not requested, except in the second stage of storage, which empties the drinking tank
    without looking at the lid. *)
Theorem lid_interlock {U : f2u_undefined} t h w d :
  alarm_bit w ACL_E4 = true -> w⟪storage_fsm⟫ <> WATER_STROGE_2 -> d = DO_WP_BPOS \/ d = DO_EV2_BPOS ->
  req_bit (req_execution t h w) d = false.
Proof. apply lid_closes. Qed.

(** With the lid open nothing pours although a key is held; in the second stage of storage
    the same lid does not stop the pump. *)
Lemma lid_interlock_witness :
  let U : f2u_undefined := fun _ => 0 in
  let w := poke [(status_alarm_bitmap.[0], 16); (scalar ComPara_u16Water_Ctrl, 2); (ComSta_u16Din_bitmap.[0], 0x200)] w_zero in
  req_bit (req_execution 250 500 w) DO_WP_BPOS = false /\
  req_bit (req_execution 250 500 (poke [(scalar storage_fsm, WATER_STROGE_2); (scalar ComPara_u16Storage, 1)] w)) DO_WP_BPOS = true.
Proof.
  cbv zeta. set (w := poke _ _). split.
  - apply (lid_interlock (U := fun _ => 0) 250 500 w DO_WP_BPOS); [vm_compute; reflexivity | vm_compute; discriminate | by left].
  - vm_compute. reflexivity.
Defined.

(** ** Restarting the display *)

Definition restart_enabled (w : world) : bool :=
  Z.testbit (w⟪Platform_Restart_Enable⟫) 15 && (@sys_get_di_sts w DI_HI_PRESS2_BPOS =? 1).
Definition restart_max (w : world) : Z := w⟪Platform_Restart_Enable⟫ .& 0x0FFF.
Definition restart_hold (w : world) : Z := (w⟪Platform_Restart_Delay⟫ .& 0xFF) * 120.
(** A restart is under way, or the display or the network have been silent long enough. *)
Definition restart_pending (w : world) : bool :=
  nz (w⟪RS_u8Restart⟫) || (restart_hold w <=? u16 (w⟪uart_timeout⟫ + 1)) ||
  (nz (w⟪Platform_Net_ERR⟫) && (restart_hold w <=? u16 (w⟪RS_u16NeterrDelay⟫ + 1))).

Lemma nz_u8_odd a m : Z.testbit m 0 = true -> nz (u8 (a .| m)) = true.
Proof.
  intros Hm. apply negb_true_iff, Z.eqb_neq. intros E. apply (f_equal (fun z => Z.testbit z 0)) in E.
  by rewrite u8_testbit, Z.lor_spec, Hm, orb_true_r in E by lia.
Qed.

Lemma restart_watch_spec w :
  nz ((restart_watch (restart_hold w) w)⟪RS_u8Restart⟫) = restart_pending w.
Proof.
  unfold restart_watch, restart_pending, seqc, cif, skip.
  change (nz (w⟪Platform_Net_ERR⟫)) with (negb (w⟪Platform_Net_ERR⟫ =? 0)).
  rewrite (rd_assign_same uart_timeout). cbn [fty fld cast scalar].
  destruct (restart_hold w <=? _); obs; destruct (w⟪Platform_Net_ERR⟫ =? 0); cbn [negb andb];
    obs; try (destruct (restart_hold w <=? _)); obs; rewrite ?(nz_u8_odd _ 1), ?(nz_u8_odd _ 3), ?orb_true_r, ?orb_false_r by done; try done.
Qed.

Lemma restart_power_spec w :
  w⟪rs_off⟫ <= CLOSE_TIME ->
  let w' := restart_power w in
  let due := nz (w⟪RS_u8Restart⟫) in
  let last := CLOSE_TIME <=? w⟪rs_off⟫ in
  w'⟪rs_off⟫ = (if due then if last then 0 else w⟪rs_off⟫ + 1 else w⟪rs_off⟫) /\
  w'⟪rs_count⟫ = (if due && last then u8 (w⟪rs_count⟫ + 1) else w⟪rs_count⟫) /\
  req_bit w' DO_PWR_CTRL_BPOS = (if due && last then req_bit w DO_PWR_CTRL_BPOS else due).
Proof.
  intros Ho. cbv zeta. pose proof (rd_u8 w rs_off eq_refl) as Hr.
  unfold restart_power, cif, seqc, Close_DIS_PWR, req_bitmap_op. cbn [nz Z.eqb negb].
  rewrite rd_assign_same. cbn [fty fld cast]. rewrite u8_small by lia.
  destruct (nz (w⟪RS_u8Restart⟫)); cbn [andb]; [|split_and!; by obs].
  destruct (Z.leb_spec (w⟪rs_off⟫ + 1) CLOSE_TIME), (Z.leb_spec CLOSE_TIME (w⟪rs_off⟫)); try lia;
    split_and!; obs; rewrite ?u8_small by lia; done.
Qed.

Lemma restart_hold_u16 w : u16 ((w⟪Platform_Restart_Delay⟫ .& 0xFF) * 60 * 2) = restart_hold w.
Proof.
  unfold restart_hold. change 0xFF with (Z.ones 8). rewrite Z.land_ones by lia.
  pose proof (Z.mod_pos_bound (w⟪Platform_Restart_Delay⟫) (2 ^ 8)). rewrite u16_small by lia. lia.
Qed.

Lemma Restart_DIS_cases w :
  Restart_DIS_exe w =
    if negb (restart_enabled w) then restart_disabled w
    else if restart_max w <=? w⟪rs_count⟫ then restart_exhausted ((w⟪Platform_Restart_Delay⟫ .>> 8) * 3600 * 2) w
    else restart_power (restart_watch (restart_hold w) w).
Proof.
  assert ((@Close_DIS_Enable w =? FALSE) = negb (restart_enabled w)) as He.
  { unfold Close_DIS_Enable, restart_enabled. change 0x8000 with (1 .<< 15). rewrite land_pow2 by lia.
    rewrite sys_get_di_sts_bit. by destruct (Z.testbit _ 15), (Z.testbit _ _). }
  unfold Restart_DIS_exe, letc, cif, seqc. by rewrite He, restart_hold_u16.
Qed.

(** No cut, no new restart, the switch-off time untouched; the network error as given. *)
Definition restart_idle (e : Z) (w w' : world) : Prop :=
  w'⟪rs_off⟫ = w⟪rs_off⟫ /\ w'⟪rs_count⟫ <= w⟪rs_count⟫ /\ req_bit w' DO_PWR_CTRL_BPOS = false /\
  w'⟪l_u8RSInteral_Neterr⟫ = e.

Lemma restart_disabled_idle w : restart_idle FALSE w (restart_disabled w).
Proof.
  pose proof (rd_u8 w rs_count eq_refl).
  unfold restart_disabled, Close_DIS_PWR, req_bitmap_op. cbn [nz Z.eqb negb]. split_and!; obs; change (u8 0) with 0; (done || lia).
Qed.
Lemma restart_exhausted_idle i w : restart_idle TRUE w (restart_exhausted i w).
Proof.
  pose proof (rd_u8 w rs_count eq_refl).
  unfold restart_exhausted, Close_DIS_PWR, req_bitmap_op, seqc, cif, skip. cbn [nz Z.eqb negb].
  destruct (i <=? _); split_and!; obs; change (u8 0) with 0; (done || lia).
Qed.

(** Restarting the display.  From a state in which the switch-off time has not run over
    (5 executions), an execution keeps it so; the display supply is cut exactly while a
    restart is pending, allowed and not exhausted, and is left as it was on the execution
    that ends the cut; the number of restarts never passes the configured maximum, and the
    network error is reported exactly when that maximum is reached.  The number is counted
    in 8 bits: a maximum of 256 or more is never reached, so restarts never stop. *)
Theorem Restart_DIS_exe_spec w :
  w⟪rs_off⟫ <= CLOSE_TIME ->
  let w' := Restart_DIS_exe w in
  let on := restart_enabled w && (w⟪rs_count⟫ <? restart_max w) in
  w'⟪rs_off⟫ <= CLOSE_TIME /\
  req_bit w' DO_PWR_CTRL_BPOS =
    (if on && restart_pending w && (CLOSE_TIME <=? w⟪rs_off⟫) then req_bit w DO_PWR_CTRL_BPOS
     else on && restart_pending w) /\
  w'⟪rs_count⟫ <= Z.max (w⟪rs_count⟫) (restart_max w) /\
  w'⟪l_u8RSInteral_Neterr⟫ = (if restart_enabled w && (restart_max w <=? w⟪rs_count⟫) then TRUE else FALSE) /\
  (256 <= restart_max w -> w'⟪l_u8RSInteral_Neterr⟫ = FALSE).
Proof.
  intros Ho. cbv zeta. rewrite Restart_DIS_cases.
  pose proof (rd_u8 w rs_count eq_refl) as Hc. pose proof (restart_watch_spec w) as Hp.
  destruct (restart_enabled w); cbn [negb andb].
  2: { destruct (restart_disabled_idle w) as (-> & H1 & -> & ->). split_and!; done || lia. }
  destruct (Z.leb_spec (restart_max w) (w⟪rs_count⟫)), (Z.ltb_spec (w⟪rs_count⟫) (restart_max w)); try lia; cbn [andb].
  { destruct (restart_exhausted_idle ((w⟪Platform_Restart_Delay⟫ .>> 8) * 3600 * 2) w) as (-> & H1 & -> & ->).
    split_and!; done || lia. }
  set (v := restart_watch (restart_hold w) w) in *.
  assert (v⟪rs_off⟫ = w⟪rs_off⟫ /\ v⟪rs_count⟫ = w⟪rs_count⟫ /\ req_bit v DO_PWR_CTRL_BPOS = req_bit w DO_PWR_CTRL_BPOS /\
    v⟪l_u8RSInteral_Neterr⟫ = FALSE) as (Eo & Ec & Eb & En).
  { subst v. unfold restart_watch. split_and!; by obs. }
  assert ((restart_power v)⟪l_u8RSInteral_Neterr⟫ = FALSE) as ->.
  { rewrite (keep_rd restart_power v); [done|]. unfold restart_power. keep_tac. }
  destruct (restart_power_spec v) as (-> & -> & ->); [lia|]. rewrite Eo, Ec, Eb, Hp. clear -Ho Hc H0.
  destruct (restart_pending w), (Z.leb_spec CLOSE_TIME (w⟪rs_off⟫)); cbn [andb]; split_and!; try done; try lia.
  assert (u8 (w⟪rs_count⟫ + 1) <= w⟪rs_count⟫ + 1) by (apply Z.mod_le; lia). lia.
Qed.

(** A maximum of 3 is kept and reported; with a maximum of 256 the restart goes on. *)
Lemma Restart_DIS_exe_witness :
  let w m n := poke [(scalar Platform_Restart_Enable, 0x8000 + m); (rs_count, n); (ComSta_u16Din_bitmap.[0], 256);
                     (scalar RS_u8Restart, 1); (rs_off, 2)] w_zero in
  (Restart_DIS_exe (w 3 3))⟪l_u8RSInteral_Neterr⟫ = TRUE /\
  req_bit (Restart_DIS_exe (w 256 255)) DO_PWR_CTRL_BPOS = true.
Proof.
  cbv zeta. split.
  - destruct (Restart_DIS_exe_spec (poke [(scalar Platform_Restart_Enable, 0x8000 + 3); (rs_count, 3);
      (ComSta_u16Din_bitmap.[0], 256); (scalar RS_u8Restart, 1); (rs_off, 2)] w_zero)) as (_ & _ & _ & -> & _).
    + vm_compute. discriminate.
    + vm_compute. reflexivity.
  - destruct (Restart_DIS_exe_spec (poke [(scalar Platform_Restart_Enable, 0x8000 + 256); (rs_count, 255);
      (ComSta_u16Din_bitmap.[0], 256); (scalar RS_u8Restart, 1); (rs_off, 2)] w_zero)) as (_ & -> & _).
    + vm_compute. discriminate.
    + vm_compute. reflexivity.
Defined.
