(* ===== verification/Dio.v ===== *)
(** * drivers/dio_bsp.c: digital inputs and outputs

    The input pins are sampled every 10 ms into a ring of 50 samples ([stimer_di_timeout]);
    twice a second the samples are reduced to a debounced bitmap ([di_reg_update]), which
    [di_sts_update] masks and publishes.  Output pins are written by number.  A pin is the
    cell [gpio_in] or [gpio_out] of its row in [in_pin_map_inst] or [out_pin_map_inst]; the
    selector pins SLE1 and SLE2 are [gpio_in] 16 and 17. *)

From S2P Require Import Prelude Conf Fifo Machine SysStatus.

Abbreviation DI_MAX_CNT := 16.
Abbreviation DI_BUF_DEPTH := 50.
Abbreviation DIN_WORD2 := 16.
Abbreviation Pin_Map_Out := 21.
Abbreviation Bit_RESET := 0.
Abbreviation Bit_SET := 1.

(** ** Remapping of bits between boards *)

Inductive Rep_Type : Type := Rep_DI | Rep_DO | Rep_AI | Rep_AO | Rep_other.

Record Bit_remap_st : Type := Remap { u8M3_Bit : Z; u8M1_Bit : Z }.

Definition id_table (n : Z) : list Bit_remap_st := (fun i => Remap i i) <$> range n.
Definition DI_remap_table : list Bit_remap_st := id_table 16.
Definition DO_remap_table : list Bit_remap_st := id_table 21.
Definition AI_remap_table : list Bit_remap_st := id_table 14.
Definition AO_remap_table : list Bit_remap_st := id_table 4.

Definition remap_bits (u32IN_Bit Rep_Dir : Z) (table : list Bit_remap_st) : Z :=
  foldl (fun u32Rep_bit r =>
    if nz Rep_Dir then
      if nz ((u32IN_Bit .>> u8M1_Bit r) .& 1) then u32Rep_bit .| (1 .<< u8M3_Bit r) else u32Rep_bit
    else
      if nz ((u32IN_Bit .>> u8M3_Bit r) .& 1) then u32Rep_bit .| (1 .<< u8M1_Bit r) else u32Rep_bit) 0 table.

Definition remap_number (u32IN_Bit Rep_Dir : Z) (table : list Bit_remap_st) : Z :=
  foldl (fun u32Rep_bit r =>
    if nz Rep_Dir then if u32IN_Bit =? u8M1_Bit r then u8M3_Bit r else u32Rep_bit
    else if u32IN_Bit =? u8M3_Bit r then u8M1_Bit r else u32Rep_bit) 0 table.

Definition Sts_Remap (u32IN_Bit : Z) (t : Rep_Type) (Rep_Dir : Z) : Z :=
  match t with
  | Rep_DI => remap_bits u32IN_Bit Rep_Dir DI_remap_table
  | Rep_DO => remap_bits u32IN_Bit Rep_Dir DO_remap_table
  | Rep_AI => remap_number u32IN_Bit Rep_Dir AI_remap_table
  | Rep_AO => remap_number u32IN_Bit Rep_Dir AO_remap_table
  | Rep_other => 0
  end.

(** ** Outputs *)

Definition do_set (pin_id value : Z) : act Z :=
  if (pin_id <=? Pin_Map_Out) && (0 <? pin_id) then
    gpio_out.[pin_id - 1] ::= value;;
    RETURN 1
  else RETURN 0.

Definition do_set_all : cmd := FOR i IN seqZ 1 Pin_Map_Out DO RUN (do_set i Bit_SET) END.
Definition do_reset_all : cmd := FOR i IN seqZ 1 Pin_Map_Out DO RUN (do_set i Bit_RESET) END.

(** [channel_id] is a [uint16_t] that [do_set] takes as an [int16_t]. *)
Definition dio_set_do (channel_id data : Z) : cmd := RUN (do_set (s16 channel_id) data).

Definition led_toggle : cmd :=
  IF «led_flag» =? 0 THEN
    RUN (do_set Pin_Map_Out Bit_RESET);;
    led_flag ::= 1
  ELSE
    RUN (do_set Pin_Map_Out Bit_SET);;
    led_flag ::= 0
  END.

(** ** Inputs *)

Definition GPIO_ReadInputDataBit {w : cur} (pin : Z) : Z := if nz «gpio_in.[pin]» then 1 else 0.

Definition di_read {w : cur} : Z :=
  foldl (fun read_bitmap i =>
    let read_bitmap := read_bitmap .| GPIO_ReadInputDataBit (DI_MAX_CNT - 1 - i) in
    if i <? DI_MAX_CNT - 1 then u32 (read_bitmap .<< 1) else read_bitmap) 0 (range DI_MAX_CNT).

Definition stimer_di_timeout : cmd :=
  IF DI_BUF_DEPTH <=? «stimer_count» THEN stimer_count ::= «stimer_count» mod DI_BUF_DEPTH END;;
  LET pBuf := di_read IN
  LET count := «stimer_count» IN
  din_reg_array.[0, count] ::= pBuf;;
  din_reg_array.[1, count] ::= pBuf .>> 16;;
  stimer_count .++.

Definition dio_reg_init : cmd :=
  din_bitmap.[0] ::= 0;;
  din_bitmap.[1] ::= 0;;
  FOR i IN range DI_BUF_DEPTH DO
    din_reg_array.[0, i] ::= 0;;
    din_reg_array.[1, i] ::= 0
  END.

(** [di_reg[i]]: the number of samples in which input [i] reads 1. *)
Definition di_reg {w : cur} (i : Z) : Z :=
  foldl (fun n j =>
    u16 (n + (if i <? DIN_WORD2 then («din_reg_array.[0, j]» .>> i) .& 1
              else («din_reg_array.[1, j]» .>> (i - DIN_WORD2)) .& 1))) 0 (range DI_BUF_DEPTH).

Definition di_threshold : Z := DI_BUF_DEPTH - (DI_BUF_DEPTH .>> 2).

Definition di_data {w : cur} : Z * Z :=
  foldl (fun d i =>
    if i <? DIN_WORD2 then
      if nz («dev_mask_din_pusl» .& (1 .<< i)) then d
      else if di_reg i <? di_threshold then (u16 (d.1 .| (1 .<< i)), d.2)
      else (u16 (d.1 .& (.~ (1 .<< i))), d.2)
    else if di_reg i <? di_threshold then (d.1, u16 (d.2 .| (1 .<< (i - DIN_WORD2))))
    else (d.1, u16 (d.2 .& (.~ (1 .<< (i - DIN_WORD2)))))) (0, 0) (range DI_MAX_CNT).

Definition di_reg_update : cmd :=
  LET d := di_data IN
  din_bitmap.[0] ::= d.1;;
  din_bitmap.[1] ::= d.2.

Definition di_sts_update : cmd :=
  LET mask0 := «dev_mask_din.[0]» IN
  LET mask1 := «dev_mask_din.[1]» IN
  LET pol0 := «dev_mask_din_bitmap_polarity.[0]» IN
  LET pol1 := «dev_mask_din_bitmap_polarity.[1]» IN
  din_bitmap.[0] ::= .~ («din_bitmap.[0]» .^ pol0);;
  din_bitmap.[1] ::= .~ («din_bitmap.[1]» .^ pol1);;
  status_din_bitmap.[0] ::= mask0 .& «din_bitmap.[0]»;;
  status_din_bitmap.[1] .&= 0xFF;;
  status_din_bitmap.[1] .|= ((mask1 .& «din_bitmap.[1]») .<< 8);;
  ComSta_u16Din_bitmap.[0] ::= mask0 .& «din_bitmap.[0]».

Definition GetSEL : act Z :=
  LET u8Ret := (if negb (nz (GPIO_ReadInputDataBit 17)) then 2 else 0) .|
               (if negb (nz (GPIO_ReadInputDataBit 16)) then 1 else 0) IN
  l_SEL_Jump ::= u8Ret;;
  RETURN u8Ret.

(** ** Footprints *)

Lemma do_set_foot p v : respa (unch [gpio_out] []) (do_set p v).
Proof. unfold do_set. footprint. Qed.
#[export] Hint Resolve do_set_foot : foot.
Lemma dio_set_do_foot c v : respc (unch [gpio_out] []) (dio_set_do c v).
Proof. unfold dio_set_do. footprint. Qed.
#[export] Hint Resolve dio_set_do_foot : foot.

(** ** Bits of a fold *)

Lemma lor_fold_bits (f : Z -> bool) (l : list Z) a j :
  0 <= j -> Forall (fun i => 0 <= i) l ->
  Z.testbit (foldl (fun a i => if f i then a .| (1 .<< i) else a) a l) j =
  Z.testbit a j || existsb (fun i => (i =? j) && f i) l.
Proof.
  intros Hj Hl. revert a. induction Hl as [|i l Hi Hl IH]; intros a; cbn [foldl existsb]; [by rewrite orb_false_r|].
  rewrite IH. destruct (f i); rewrite ?andb_true_r, ?andb_false_r; [|done].
  rewrite Z.lor_spec, testbit_1_shift, (Z.eqb_sym j i) by done. by rewrite orb_assoc.
Qed.

Lemma existsb_range (f : Z -> bool) n j :
  existsb (fun i => (i =? j) && f i) (range n) = (0 <=? j) && (j <? n) && f j.
Proof.
  apply eq_true_iff_eq. rewrite existsb_exists, !andb_true_iff, Z.leb_le, Z.ltb_lt. split.
  - intros (i & Hi & [->%Z.eqb_eq Hf]%andb_true_iff). rewrite <- list_elem_of_In, elem_of_range in Hi. done.
  - intros [Hj Hf]. exists j. split; [by apply list_elem_of_In, elem_of_range | by rewrite Z.eqb_refl].
Qed.

Lemma range_nonneg n : Forall (fun i => 0 <= i) (range n).
Proof. apply Forall_forall. intros i Hi. rewrite <- list_elem_of_In, elem_of_range in Hi. lia. Qed.

(** The remapping of outputs keeps the 21 bits that have a pin and drops the others. *)
Lemma Sts_Remap_DO b j : 0 <= j -> Z.testbit (Sts_Remap b Rep_DO 0) j = (j <? 21) && Z.testbit b j.
Proof.
  intros Hj. cbn [Sts_Remap]. unfold remap_bits, DO_remap_table, id_table.
  assert (forall l a, foldl (fun u r => if nz 0 then if nz ((b .>> u8M1_Bit r) .& 1) then u .| (1 .<< u8M3_Bit r) else u
      else if nz ((b .>> u8M3_Bit r) .& 1) then u .| (1 .<< u8M1_Bit r) else u) a ((fun i => Remap i i) <$> l) =
    foldl (fun a i => if nz (get_bit b i) then a .| (1 .<< i) else a) a l) as ->.
  { induction l as [|i l IH]; intros a; [done|]. cbn [fmap list_fmap foldl nz Z.eqb negb u8M3_Bit u8M1_Bit]. apply IH. }
  rewrite lor_fold_bits, existsb_range, Z.bits_0 by (done || apply range_nonneg).
  rewrite nz_get_bit by done. by rewrite (proj2 (Z.leb_le 0 j)) by done.
Qed.

(** ** From the pins to the published inputs *)

Definition pin_high (w : world) (i : Z) : bool := nz (w⟪gpio_in.[i]⟫).
(** Samples of input [i] that read 1. *)
Definition ones (w : world) (i : Z) : Z :=
  Z.of_nat (length (filter (fun j => Z.testbit (w⟪din_reg_array.[0, j]⟫) i = true) (range DI_BUF_DEPTH))).
Definition is_pulse (w : world) (i : Z) : bool := Z.testbit (w⟪dev_mask_din_pusl⟫) i.
Definition di_published (w : world) (i : Z) : bool := Z.testbit (w⟪ComSta_u16Din_bitmap.[0]⟫) i.

Lemma shift_in b a j :
  0 <= j < 32 ->
  Z.testbit (u32 ((a .| Z.b2z b) .<< 1)) j =
  if j =? 0 then false else if j =? 1 then Z.testbit a 0 || b else Z.testbit a (j - 1).
Proof.
  intros Hj. unfold u32. change 4294967296 with (2 ^ 32). rewrite Z.mod_pow2_bits_low by lia.
  destruct (Z.eqb_spec j 0) as [->|]; [by rewrite Z.shiftl_spec_low by lia|].
  rewrite Z.shiftl_spec, Z.lor_spec by lia. destruct (Z.eqb_spec j 1) as [->|]; [by destruct b|].
  assert (Z.testbit (Z.b2z b) (j - 1) = false) as -> by (destruct b; [apply (Z.pow2_bits_false 0); lia | apply Z.bits_0]).
  apply orb_false_r.
Qed.

Lemma range_S (k : nat) : range (Z.of_nat (S k)) = range (Z.of_nat k) ++ [Z.of_nat k].
Proof. unfold range. rewrite seqZ_S. by rewrite Z.add_0_l. Qed.

Lemma gpio_b2z w k : @GPIO_ReadInputDataBit w k = Z.b2z (pin_high w k).
Proof. unfold GPIO_ReadInputDataBit, pin_high. by case_match. Qed.

(** After [k] pins the last [k] of them are in the bits 1 to [k]. *)
Lemma di_read_prefix w (k : nat) j :
  Z.of_nat k < DI_MAX_CNT -> 0 <= j < 32 ->
  Z.testbit (foldl (fun read_bitmap i =>
    let read_bitmap := read_bitmap .| @GPIO_ReadInputDataBit w (DI_MAX_CNT - 1 - i) in
    if i <? DI_MAX_CNT - 1 then u32 (read_bitmap .<< 1) else read_bitmap) 0 (range (Z.of_nat k))) j =
  (1 <=? j) && (j <=? Z.of_nat k) && pin_high w (DI_MAX_CNT - 1 - Z.of_nat k + j).
Proof.
  revert j. induction k as [|k IH]; intros j Hk Hj.
  - cbn [foldl]. change (range (Z.of_nat 0)) with (@nil Z). cbn [foldl]. rewrite Z.bits_0.
    destruct (Z.leb_spec 1 j), (Z.leb_spec j (Z.of_nat 0)); (done || lia).
  - rewrite range_S, foldl_app. cbn [foldl]. cbv zeta. rewrite (proj2 (Z.ltb_lt (Z.of_nat k) (DI_MAX_CNT - 1))) by lia.
    rewrite gpio_b2z, shift_in by done.
    destruct (Z.eqb_spec j 0) as [->|]; [done|]. destruct (Z.eqb_spec j 1) as [->|].
    + rewrite IH by lia. cbn [andb orb Z.leb Z.compare]. replace (Z.of_nat (S k)) with (Z.of_nat k + 1) by lia.
      destruct (Z.leb_spec 1 (Z.of_nat k + 1)); [|lia]. change (1 <=? 1) with true. cbn [andb]. f_equal. lia.
    + rewrite IH by lia. destruct (Z.leb_spec 1 (j - 1)), (Z.leb_spec 1 j), (Z.leb_spec (j - 1) (Z.of_nat k)), (Z.leb_spec j (Z.of_nat (S k)));
        try lia; cbn [andb]; try done. f_equal. lia.
Qed.

Lemma di_read_bits w i : 0 <= i < DI_MAX_CNT -> Z.testbit (@di_read w) i = pin_high w i.
Proof.
  intros Hi. unfold di_read. change (range DI_MAX_CNT) with (range (Z.of_nat (S 15))). rewrite range_S, foldl_app.
  cbn [foldl]. cbv zeta. change (Z.of_nat 15 <? DI_MAX_CNT - 1) with false. cbv iota.
  rewrite gpio_b2z, Z.lor_spec, di_read_prefix by lia. change (DI_MAX_CNT - 1 - Z.of_nat 15) with 0. rewrite Z.add_0_l.
  destruct (Z.eqb_spec i 0) as [->|]; [by destruct (pin_high w 0)|].
  assert (Z.testbit (Z.b2z (pin_high w 0)) i = false) as ->.
  { destruct (pin_high w 0); [apply (Z.pow2_bits_false 0); lia | apply Z.bits_0]. }
  rewrite orb_false_r. destruct (Z.leb_spec 1 i), (Z.leb_spec i (Z.of_nat 15)); (done || lia).
Qed.

Lemma count_fold (f : Z -> bool) (l : list Z) n :
  0 <= n -> n + Z.of_nat (length l) < 65536 ->
  foldl (fun n j => u16 (n + Z.b2z (f j))) n l = n + Z.of_nat (length (filter (fun j => f j = true) l)).
Proof.
  revert n. induction l as [|j l IH]; intros n Hn Hl; cbn [foldl]; [cbn; lia|]. cbn [length] in Hl.
  rewrite u16_small by (destruct (f j); cbn [Z.b2z]; lia).
  rewrite IH by (destruct (f j); cbn [Z.b2z]; lia).
  destruct (f j) eqn:E; [rewrite filter_cons_True by done | rewrite filter_cons_False by congruence];
    cbn [length Z.b2z]; lia.
Qed.

Lemma foldl_eq {A B} (f g : A -> B -> A) a l : (forall a b, f a b = g a b) -> foldl f a l = foldl g a l.
Proof. intros H. revert a. induction l as [|b l IH]; intros a; cbn [foldl]; [done|]. by rewrite H, IH. Qed.

Lemma di_reg_ones w i : 0 <= i < DI_MAX_CNT -> @di_reg w i = ones w i.
Proof.
  intros Hi. unfold di_reg, ones. rewrite (proj2 (Z.ltb_lt i DIN_WORD2)) by lia.
  rewrite <- (Z.add_0_l (Z.of_nat _)).
  rewrite <- (count_fold (fun j => Z.testbit (w⟪din_reg_array.[0, j]⟫) i)) by (done || (vm_compute; reflexivity)).
  apply foldl_eq. intros n j. f_equal. f_equal. apply get_bit_b2z. lia.
Qed.

(** The debounced value of an input: fewer than 38 of the 50 samples read 1. *)
Definition debounced (w : world) (i : Z) : bool := negb (is_pulse w i) && (ones w i <? di_threshold).

Lemma di_data_bits w (l : list Z) d j :
  Forall (fun i => 0 <= i < DI_MAX_CNT) l -> 0 <= j < DI_MAX_CNT ->
  Z.testbit (foldl (fun d i =>
    if i <? DIN_WORD2 then
      if nz (w⟪dev_mask_din_pusl⟫ .& (1 .<< i)) then d
      else if @di_reg w i <? di_threshold then (u16 (d.1 .| (1 .<< i)), d.2)
      else (u16 (d.1 .& (.~ (1 .<< i))), d.2)
    else if @di_reg w i <? di_threshold then (d.1, u16 (d.2 .| (1 .<< (i - DIN_WORD2))))
    else (d.1, u16 (d.2 .& (.~ (1 .<< (i - DIN_WORD2)))))) d l).1 j =
  if zin j l && negb (is_pulse w j) then ones w j <? di_threshold else Z.testbit d.1 j.
Proof.
  intros Hl Hj. revert d. induction Hl as [|i l Hi Hl IH]; intros d; [done|]. cbn [foldl].
  rewrite IH. rewrite (proj2 (Z.ltb_lt i DIN_WORD2)) by lia. rewrite land_pow2, di_reg_ones by lia.
  change (zin j (i :: l)) with ((j =? i) || zin j l). destruct (zin j l && negb (is_pulse w j)) eqn:E.
  { apply andb_true_iff in E as [-> ->]. by rewrite orb_true_r. }
  fold (is_pulse w i). destruct (Z.eqb_spec j i) as [->|Hne]; cbn [orb andb].
  - destruct (is_pulse w i); cbn [negb]; [done|]. destruct (ones w i <? di_threshold); cbn [fst].
    + fold (set_bit d.1 i). rewrite u16_testbit, testbit_set_bit by lia. by rewrite Z.eqb_refl.
    + fold (clr_bit d.1 i). rewrite u16_testbit, testbit_clr_bit by lia. by rewrite Z.eqb_refl.
  - rewrite E. destruct (is_pulse w i); [done|]. apply Z.eqb_neq in Hne.
    destruct (ones w i <? di_threshold); cbn [fst].
    + fold (set_bit d.1 i). rewrite u16_testbit, testbit_set_bit by lia. by rewrite Hne.
    + fold (clr_bit d.1 i). rewrite u16_testbit, testbit_clr_bit by lia. by rewrite Hne.
Qed.

Lemma zin_range j n : zin j (range n) = (0 <=? j) && (j <? n).
Proof.
  unfold zin. rewrite <- (andb_true_r (_ && _)), <- (existsb_range (fun _ => true)).
  induction (range n) as [|i l IH]; [done|]. cbn [existsb]. rewrite IH, andb_true_r. by rewrite (Z.eqb_sym j i).
Qed.

Lemma di_reg_update_bits w j :
  0 <= j < DI_MAX_CNT -> Z.testbit ((di_reg_update w)⟪din_bitmap.[0]⟫) j = debounced w j.
Proof.
  intros Hj. unfold di_reg_update, letc, seqc. rewrite (keep_rd (din_bitmap.[1] ::= _)) by keep_tac.
  rewrite rd_assign_same. cbn [fty fld cast]. rewrite u16_testbit by lia. unfold di_data.
  rewrite di_data_bits; [|apply Forall_forall; intros i Hi; rewrite <- list_elem_of_In, elem_of_range in Hi; lia | done].
  rewrite zin_range. rewrite (proj2 (Z.leb_le 0 j)), (proj2 (Z.ltb_lt j DI_MAX_CNT)) by lia. cbn [andb fst].
  unfold debounced. rewrite Z.bits_0. by case_match.
Qed.

Definition enabled (w : world) (i : Z) : bool := Z.testbit (w⟪dev_mask_din.[0]⟫) i.
Definition polarity (w : world) (i : Z) : bool := Z.testbit (w⟪dev_mask_din_bitmap_polarity.[0]⟫) i.

Lemma di_sts_update_bits w j :
  0 <= j < DI_MAX_CNT ->
  let b := negb (xorb (Z.testbit (w⟪din_bitmap.[0]⟫) j) (polarity w j)) in
  Z.testbit ((di_sts_update w)⟪din_bitmap.[0]⟫) j = b /\ di_published (di_sts_update w) j = enabled w j && b.
Proof.
  intros Hj. cbv zeta. unfold di_sts_update, letc, di_published, enabled, polarity. split.
  - obs. rewrite u16_testbit, Z.lnot_spec, Z.lxor_spec by lia. done.
  - obs. rewrite u16_testbit, Z.land_spec, u16_testbit, Z.lnot_spec, Z.lxor_spec by lia. done.
Qed.

(** The slot the next sample goes to. *)
Definition next_slot (w : world) : Z :=
  if DI_BUF_DEPTH <=? w⟪stimer_count⟫ then w⟪stimer_count⟫ mod DI_BUF_DEPTH else w⟪stimer_count⟫.

Lemma next_slot_range w : 0 <= next_slot w < DI_BUF_DEPTH.
Proof.
  unfold next_slot. pose proof (rd_u16 w stimer_count eq_refl). pose proof (Z.mod_pos_bound (w⟪stimer_count⟫) DI_BUF_DEPTH).
  destruct (Z.leb_spec DI_BUF_DEPTH (w⟪stimer_count⟫)); lia.
Qed.

Lemma stimer_sample w i j :
  0 <= i < DI_MAX_CNT ->
  Z.testbit ((stimer_di_timeout w)⟪din_reg_array.[0, j]⟫) i =
    (if j =? next_slot w then pin_high w i else Z.testbit (w⟪din_reg_array.[0, j]⟫) i) /\
  (stimer_di_timeout w)⟪stimer_count⟫ = next_slot w + 1.
Proof.
  intros Hi. pose proof (next_slot_range w) as Hs. unfold stimer_di_timeout, seqc, letc.
  set (w1 := (IF _ THEN _ END) w).
  assert (w1⟪stimer_count⟫ = next_slot w) as E1.
  { subst w1. unfold cif, next_slot, skip. destruct (DI_BUF_DEPTH <=? _); [|done]. obs.
    apply u16_small. pose proof (Z.mod_pos_bound (w⟪stimer_count⟫) DI_BUF_DEPTH). lia. }
  assert (forall c, fin (fld c) [stimer_count] || is_req c = false -> w1⟪c⟫ = w⟪c⟫) as Hrd.
  { intros c Hc. apply (keep_rd (IF _ THEN _ END)). apply (keep_rd_unch _ [stimer_count] []); [footprint | done]. }
  clearbody w1. rewrite !E1. split.
  - rewrite (keep_rd (stimer_count .++)) by keep_tac. unfold assign. rewrite rd_wr_ix by lia.
    rewrite rd_wr. unfold cell_eqb. cbn [fld ix jx]. rewrite (Z.eqb_sym j).
    destruct (next_slot w =? j) eqn:E; cbn -[Z.testbit u16 rd di_read].
    + rewrite u16_testbit, di_read_bits by lia. unfold pin_high. by rewrite Hrd.
    + by rewrite Hrd.
  - obs. rewrite E1. apply u16_small. lia.
Qed.

(** C38: digital inputs.  A timer tick stores the sixteen pins in the next slot of the ring of
    50 samples and in no other; an update followed by a publication makes input [i] read 1
    exactly when it is enabled and its debounced value (fewer than 38 of the 50 samples at
    1, never for a pulse input) equals its configured polarity. *)
Theorem di_inputs w i :
  0 <= i < DI_MAX_CNT ->
  (forall j, Z.testbit ((stimer_di_timeout w)⟪din_reg_array.[0, j]⟫) i =
     if j =? next_slot w then pin_high w i else Z.testbit (w⟪din_reg_array.[0, j]⟫) i) /\
  0 <= next_slot w < DI_BUF_DEPTH /\ (stimer_di_timeout w)⟪stimer_count⟫ = next_slot w + 1 /\
  di_published (di_sts_update (di_reg_update w)) i = enabled w i && Bool.eqb (debounced w i) (polarity w i).
Proof.
  intros Hi. split_and!; [intros j; by apply stimer_sample | apply next_slot_range.. | by apply (stimer_sample w i 0) |].
  destruct (di_sts_update_bits (di_reg_update w) i Hi) as [_ ->].
  rewrite di_reg_update_bits by done.
  assert (forall c, fin (fld c) [din_bitmap] || is_req c = false -> (di_reg_update w)⟪c⟫ = w⟪c⟫) as Hrd.
  { intros c Hc. apply (keep_rd di_reg_update). apply (keep_rd_unch _ [din_bitmap] []); [unfold di_reg_update; footprint | done]. }
  unfold enabled, polarity. rewrite !Hrd by done.
  by destruct (debounced w i), (Z.testbit (w⟪dev_mask_din_bitmap_polarity.[0]⟫) i).
Qed.

(** All samples of pin 0 at 0 and polarity 1: the input reads 1. *)
Lemma di_inputs_witness :
  let w := poke [(dev_mask_din.[0], 1); (dev_mask_din_bitmap_polarity.[0], 1)] w_zero in
  di_published (di_sts_update (di_reg_update w)) 0 = true.
Proof.
  cbv zeta. set (w := poke _ _). destruct (di_inputs w 0) as (_ & _ & _ & ->); [lia|]. vm_compute. reflexivity.
Defined.

(** Publishing twice.  [di_sts_update] leaves its result in the driver's bitmap, so a second
    publication without an update in between inverts the published value of every enabled
    input whose polarity bit is 0; the two run in threads that are not synchronised. *)
Theorem di_sts_update_twice w i :
  0 <= i < DI_MAX_CNT -> enabled w i = true ->
  di_published (di_sts_update (di_sts_update w)) i =
    xorb (di_published (di_sts_update w) i) (negb (polarity w i)).
Proof.
  intros Hi He. destruct (di_sts_update_bits w i Hi) as [H1 ->].
  destruct (di_sts_update_bits (di_sts_update w) i Hi) as [_ ->]. rewrite H1.
  assert (forall c, fin (fld c) [din_bitmap; status_din_bitmap; ComSta_u16Din_bitmap] || is_req c = false ->
    (di_sts_update w)⟪c⟫ = w⟪c⟫) as Hrd.
  { intros c Hc. apply (keep_rd di_sts_update). apply (keep_rd_unch _ [din_bitmap; status_din_bitmap; ComSta_u16Din_bitmap] []); [unfold di_sts_update; footprint | done]. }
  unfold enabled, polarity in *. rewrite !Hrd, He by done.
  by destruct (Z.testbit (w⟪din_bitmap.[0]⟫) i), (Z.testbit (w⟪dev_mask_din_bitmap_polarity.[0]⟫) i).
Qed.

Lemma di_sts_update_twice_witness :
  let w := poke [(dev_mask_din.[0], 1)] w_zero in
  di_published (di_sts_update w) 0 = true /\ di_published (di_sts_update (di_sts_update w)) 0 = false.
Proof.
  cbv zeta. set (w := poke _ _). split; [vm_compute; reflexivity|].
  rewrite (di_sts_update_twice w 0 ltac:(lia) eq_refl). vm_compute. reflexivity.
Defined.
