(* ===== verification/Daq.v ===== *)
(** * Analog inputs and the air sensor: usr/modules/daq.c, drivers/TH_Sensor_Bsp.c

    The ADC words become temperatures by a search in a table ([calc_ntc]) and a UV level by
    floating-point arithmetic ([Calc_UV_ai], computed with the IEEE double operations of the
    Standard Library); [ai_sts_update] publishes them.  The air sensor sends five bytes over
    one wire: [Read_Sensor] decodes the samples of the wire, [AM_Sensor_update] averages the
    readings and reports a lost sensor.  Samples of the wire are a list: [AM_SDA_READ] takes
    the next one; [None] means that the recording ended first. *)

From S2P Require Import Prelude Calc Conf Fifo Machine SysStatus AlarmCalc Dio.
From Stdlib Require Import Floats.SpecFloat.

#[local] Open Scope Z_scope.

(** ** Temperatures *)

Abbreviation NTC_TEMP_SCALE := 191.
Abbreviation NTC_TEMP_OFFSET := 39.
Abbreviation NTC_TEMP_DT := 15.
Abbreviation K_FACTOR_UV := 44.
Abbreviation AI_SENSOR1 := 0.
Abbreviation AI_MAX_CNT := 5.
Abbreviation MAX_ADBUFEVERY := 20.

Definition ntc_lookup_tab : list Z :=
  [193; 204; 215; 227; 239; 252; 265; 279; 294; 309; 324; 340; 357; 375; 393; 411; 431; 451; 471;
   492; 514; 537; 560; 584; 609; 635; 661; 687; 715; 743; 772; 801; 831; 862; 893; 925; 957; 991;
   1024; 1058; 1093; 1128; 1164; 1200; 1236; 1273; 1310; 1348; 1386; 1424; 1463; 1501; 1540;
   1579; 1618; 1657; 1697; 1736; 1775; 1815; 1854; 1893; 1932; 1971; 2010; 2048; 2087; 2125;
   2163; 2200; 2238; 2274; 2311; 2347; 2383; 2418; 2453; 2488; 2522; 2556; 2589; 2622; 2654;
   2685; 2717; 2747; 2777; 2807; 2836; 2865; 2893; 2921; 2948; 2974; 3000; 3026; 3051; 3075;
   3099; 3123; 3146; 3168; 3190; 3212; 3233; 3253; 3273; 3293; 3312; 3331; 3349; 3367; 3384;
   3401; 3418; 3434; 3450; 3465; 3481; 3495; 3510; 3524; 3537; 3551; 3564; 3576; 3588; 3600;
   3612; 3624; 3635; 3646; 3656; 3667; 3677; 3686; 3696; 3705; 3714; 3723; 3732; 3740; 3748;
   3756; 3764; 3772; 3779; 3786; 3793; 3800; 3807; 3813; 3820; 3826; 3832; 3838; 3844; 3849;
   3855; 3860; 3865; 3870; 3875; 3880; 3884; 3889; 3893; 3898; 3902; 3906; 3910; 3914; 3918;
   3922; 3925; 3929; 3932; 3936; 3939; 3942; 3945; 3949; 3952; 3954; 3957; 3960; 3963; 3966;
   3968; 3971; 3973].

(** The half-word in flash before the table, which [ntc_lookup_tab[-1]] reads. *)
Class flash_before_tab : Type := word_before_tab : Z.

Definition tab_at {B : flash_before_tab} (i : Z) : Z :=
  if i =? -1 then word_before_tab else at_ ntc_lookup_tab i.

(** [index] of the source, with the fuel for nine rounds of the search. *)
Definition ntc_index (adc_value : Z) : option Z :=
  bin_search 9 ntc_lookup_tab (NTC_TEMP_SCALE - 1) adc_value.

Definition calc_ntc {B : flash_before_tab} (adc_value adjust : Z) : option Z :=
  let adc_value := u16 (4096 - adc_value) in
  index ← ntc_index adc_value;
  if index <? 0 then Some ABNORMAL_VALUE
  else
    let offset := u16 (Z.quot ((adc_value - tab_at (index - 1)) * 10) (tab_at index - tab_at (index - 1))) in
    Some (s16 ((index - NTC_TEMP_OFFSET) * 10 + offset + adjust - NTC_TEMP_DT)).

(** ** The UV level, in [double] *)

Definition d_mul := SFmul 53 1024.
Definition d_div := SFdiv 53 1024.
Definition d_sub := SFsub 53 1024.
Definition d_add := SFadd 53 1024.
Definition d_of (z : Z) : spec_float := binary_normalize 53 1024 z 0 false.
(** The literal [3.3]. *)
Definition d_3_3 : spec_float := S754_finite false 7430939385161318 (-51).

(** Conversion to an integer truncates. *)
Definition d_trunc (x : spec_float) : Z :=
  match x with
  | S754_finite s m e =>
      let a := if 0 <=? e then Zpos m * 2 ^ e else Zpos m / 2 ^ (- e) in if s then - a else a
  | _ => 0
  end.

Definition Calc_UV_ai (adc_value k_factor cali : Z) : Z :=
  let x := d_mul (d_mul (d_mul d_3_3 (d_of adc_value)) (d_of 100)) (d_of 4) in
  let x := d_sub (d_div x (d_of (4096 * 5))) (d_of 2) in
  let x := d_div (d_mul (d_mul x (d_of 1000)) (d_of 10)) (d_of k_factor) in
  let ret_val := d_trunc (d_add x (d_of cali)) in
  let ret_val := if ret_val <=? 0 then ABNORMAL_VALUE else ret_val in
  s16 ret_val.

(** ** Smoothing: the mean of the middle 16 of 20 samples *)

Definition adc_samples (ptrADCbuf : list Z) (index : Z) : list Z :=
  (fun i => u16 (at_ ptrADCbuf (i * AI_MAX_CNT + index))) <$> seqZ 0 MAX_ADBUFEVERY.

(** The value stored in [ptrADCval[index]]. *)
Definition ADCValProcess (ptrADCbuf : list Z) (index : Z) : option Z :=
  ADC_Tmp ← quick 20 (adc_samples ptrADCbuf index) 0 19;
  let ADC_VOL_ave := foldl (fun s i => u16 (s + at_ ADC_Tmp i)) 0 (seqZ 2 16) in
  Some (u16 (ADC_VOL_ave .>> 4)).

(** ** [ai_sts_update] *)

Definition ai_sts_update {B : flash_before_tab} : cmd :=
  LET ain_mask_bitmap := «dev_mask_ain» IN
  LET u16ADCRemapValue := (fun i => «ADC1ConvertedValue.[i]») IN
  (FOR i IN seqZ AI_NTC1 4 DO
    ComSta_u16Ain.[i] ::=
      (if nz ((ain_mask_bitmap .>> i) .& 1)
       then default 0 (calc_ntc (u16ADCRemapValue i) (s16 «general_ntc_cali.[i - AI_NTC1]»)) else 0)
  END);;
  IF nz (ain_mask_bitmap .& (1 .<< AI_SENSOR1)) THEN
    ComSta_u16Ain.[AI_SENSOR1] ::=
      Calc_UV_ai (u16ADCRemapValue AI_SENSOR1) K_FACTOR_UV (s16 «general_ai_cali.[AI_SENSOR1]»)
  END.

(** ** The air sensor's wire *)

(** [while (AM_SDA_READ != level) if (++j >= limit) break;]: the rest of the samples and [j]. *)
Fixpoint wait_level (level : bool) (limit : Z) (line : list bool) (j : Z) : option (list bool * Z) :=
  match line with
  | [] => None
  | s :: line =>
      if Bool.eqb s level then Some (line, j)
      else let j := u16 (j + 1) in
           if limit <=? j then Some (line, j) else wait_level level limit line j
  end.

Definition sample_line (line : list bool) : option (bool * list bool) :=
  match line with [] => None | s :: line => Some (s, line) end.

(** One bit: wait for the high level, sample 30 us later, wait for the low level. *)
Definition read_bit (line : list bool) (j : Z) : option (bool * list bool * Z) :=
  '(line, j) ← wait_level true 5000 line j;
  '(bit, line) ← sample_line line;
  '(line, j) ← wait_level false 5000 line 0;
  Some (bit, line, j).

Fixpoint read_bits (n : nat) (data : Z) (line : list bool) (j : Z) : option (Z * list bool * Z) :=
  match n with
  | O => Some (data, line, j)
  | S n =>
      '(bit, line, j) ← read_bit line j;
      read_bits n (u8 (data .<< 1) .| Z.b2z bit) line j
  end.

(** [j] is not initialised by the source: its value on entry is the last argument. *)
Definition Read_SensorData (line : list bool) (j : Z) : option (Z * list bool) :=
  '(data, line, _) ← read_bits 8 0 line j; Some (data, line).

(** The values [u16TH_Buff] gets from five bytes with a correct sum. *)
Definition decode_air (Humi_H Humi_L Temp_H Temp_L : Z) : Z * Z :=
  let u16Humi := u16 (Humi_L .| (Humi_H .<< 8)) in
  let i16Temprature :=
    if nz (Temp_H .& 0x80) then s16 (0 - ((Temp_L .& 0x7F) .| (Temp_H .<< 8)))
    else s16 (Temp_L .| (Temp_H .<< 8)) in
  let u16Humi := if 999 <? u16Humi then 999 else u16Humi in
  let i16Temprature := if 800 <? i16Temprature then 800 else i16Temprature in
  let i16Temprature := if i16Temprature <? -400 then -400 else i16Temprature in
  (u16 i16Temprature, u16Humi).

(** The answer flag and, when the sum is right, the temperature and humidity stored. *)
Definition Read_Sensor (j0 : Z) (line : list bool) : option (Z * option (Z * Z)) :=
  '(s, line) ← sample_line line;
  if (s : bool) then Some (0, None)
  else
    '(line, _) ← wait_level true 500 line 0;
    '(line, _) ← wait_level false 800 line 0;
    '(Humi_H, line) ← Read_SensorData line j0;
    '(Humi_L, line) ← Read_SensorData line j0;
    '(Temp_H, line) ← Read_SensorData line j0;
    '(Temp_L, line) ← Read_SensorData line j0;
    '(Temp_CAL, line) ← Read_SensorData line j0;
    let temp := u8 (Humi_H + Humi_L + Temp_H + Temp_L) in
    if Temp_CAL =? temp then Some (0x0F, Some (decode_air Humi_H Humi_L Temp_H Temp_L))
    else Some (0x17, None).

(** ** Averaging *)

Abbreviation TH_AVE_NUM := 5.
Abbreviation JUMP_OFFSET := 30.
Abbreviation ERROR_CNT_MAX := 20.

(** Sum and number of the samples that are not 0. *)
Definition ave_sum {w : cur} (f : field) : Z :=
  foldl (fun s k => if nz «f.[0, k]» then u16 (s + «f.[0, k]») else s) 0 (range TH_AVE_NUM).
Definition ave_cnt {w : cur} (f : field) : Z :=
  foldl (fun n k => if nz «f.[0, k]» then u8 (n + 1) else n) 0 (range TH_AVE_NUM).

(** A reading enters the ring of samples when both values are in 1..999. *)
Definition store_sample (t h : Z) : cmd :=
  IF (t <=? 999) && (nz t && nz h) THEN
    IF h <=? 999 THEN
      AM_u8TH_CNT.[0].++;;
      IF 0xFF <=? «AM_u8TH_CNT.[0]» THEN AM_u8TH_CNT.[0] ::= 0 END;;
      LET j := «AM_u8TH_CNT.[0]» mod TH_AVE_NUM IN
      AM_u16TH_Ave_Temp.[0, j] ::= t;;
      AM_u16TH_Ave_Hum.[0, j] ::= h
    END
  END.

(** The division by a count of 0, undefined in C, gives 0 as on the Cortex-M3. *)
Definition publish_air : cmd :=
  ComSta_u16TH_Temp.[0] ::= Z.quot (ave_sum AM_u16TH_Ave_Temp) (ave_cnt AM_u16TH_Ave_Temp)
                            + s16 «general_temp_sensor_cali_temp.[0]»;;
  ComSta_u16TH_Hum.[0] ::= Z.quot (ave_sum AM_u16TH_Ave_Hum) (ave_cnt AM_u16TH_Ave_Hum)
                           + s16 «general_temp_sensor_cali_hum.[0]».

Definition am_tick : cmd :=
  AM_u8CNT.++;;
  IF 0xFF <=? «AM_u8CNT» THEN AM_u8CNT ::= 0 END.

(** [Read_Sensor] stores what it decoded in [u16TH_Sensor], which was cleared before. *)
Definition am_read (decoded : option (Z * Z)) : cmd :=
  AM_u8Offset_CNT.++;;
  IF JUMP_OFFSET <=? «AM_u8Offset_CNT» THEN AM_u8Offset_CNT ::= JUMP_OFFSET END;;
  u16TH_Sensor.[0] ::= 0;;
  u16TH_Sensor.[1] ::= 0;;
  match decoded with
  | Some (t, h) => u16TH_Sensor.[0] ::= t;; u16TH_Sensor.[1] ::= h
  | None => skip
  end.

(** The values taken into [u16TH_Buff]. *)
Definition am_take (flag : Z) : act (Z * Z) :=
  IF nz flag THEN
    IF («u16TH_Sensor.[0]» =? 0) && («u16TH_Sensor.[0]» =? 0) THEN
      AM_u8Err_CNT.[0].++;; RETURN (0, 0)
    ELSE
      AM_u8Err_CNT.[0] ::= 0;;
      status_status_remap.[MBM_COM_STS_REG_NO] .|= 1;;
      RETURN («u16TH_Sensor.[0]», «u16TH_Sensor.[1]»)
    END
  ELSE AM_u8Err_CNT.[0].++;; RETURN (0, 0) END.

Definition am_judge (buff : Z * Z) : cmd :=
  IF ERROR_CNT_MAX <? «AM_u8Err_CNT.[0]» THEN
    ComSta_u16TH_Temp.[0] ::= 285;;
    ComSta_u16TH_Hum.[0] ::= 567;;
    status_status_remap.[MBM_COM_STS_REG_NO] .&= .~ 1;;
    AM_u8Offset_CNT ::= 0
  ELSE IF «AM_u8Err_CNT.[0]» =? 0 THEN
    store_sample buff.1 buff.2;;
    publish_air
  END END.

(** [reading] is what [Read_Sensor] returned: the flag and the values stored, if any. *)
Definition AM_Sensor_update (reading : Z * option (Z * Z)) : act Z :=
  am_tick;;
  IF nz («AM_u8CNT» mod 6) THEN RETURN 0
  ELSE
    am_read reading.2;;
    CALL buff := am_take reading.1 IN
    am_judge buff;;
    RETURN reading.1
  END.

(** One round of the acquisition thread. *)
Definition daq_gvar_update {B : flash_before_tab} (reading : Z * option (Z * Z)) : cmd :=
  ai_sts_update;; di_sts_update;; RUN (AM_Sensor_update reading).

(** ** Temperatures: the theorems *)

(** The offset the code adds, extrapolating from the interval [a..b] left of the one that
    holds [v], and the offset of the interpolation inside [b..c]. *)
Definition ntc_offset (a b v : Z) : Z := Z.quot ((v - a) * 10) (b - a).
Definition ntc_exact (b c v : Z) : Z := 10 + Z.quot ((v - b) * 10) (c - b).

(** The temperatures they give before calibration, in tenths of a degree. *)
Definition ntc_raw (adc : Z) : Z :=
  let v := 4096 - adc in
  let i := default 0 (ntc_index v) in
  (i - NTC_TEMP_OFFSET) * 10 + ntc_offset (at_ ntc_lookup_tab (i - 1)) (at_ ntc_lookup_tab i) v - NTC_TEMP_DT.

Definition ntc_interpolated (adc : Z) : Z :=
  let v := 4096 - adc in
  let i := default 0 (ntc_index v) in
  (i - NTC_TEMP_OFFSET) * 10 + ntc_exact (at_ ntc_lookup_tab i) (at_ ntc_lookup_tab (i + 1)) v - NTC_TEMP_DT.

(** Both offsets at every value of every interval, checked by evaluation. *)
Definition offset_okb (a b c v : Z) : bool :=
  let o := ntc_offset a b v in
  (a <? b) && (10 <=? o) && (o <=? 20) && (Z.abs (o - ntc_exact b c v) <=? 4).

Fixpoint offsets_okb (tab : list Z) : bool :=
  match tab with
  | a :: ((b :: c :: _) as t) => forallb (offset_okb a b c) (seqZ b (c - b)) && offsets_okb t
  | _ => true
  end.

Lemma offsets_ok tab n v :
  offsets_okb tab = true -> (S (S n) < length tab)%nat -> nth (S n) tab 0 <= v < nth (S (S n)) tab 0 ->
  offset_okb (nth n tab 0) (nth (S n) tab 0) (nth (S (S n)) tab 0) v = true.
Proof.
  revert n. induction tab as [|a [|b [|c t]] IH]; intros n H Hn Hv; [cbn in Hn; lia..|].
  cbn [offsets_okb] in H. apply andb_true_iff in H as [H1 H2].
  destruct n as [|n].
  - rewrite forallb_forall in H1. apply H1, list_elem_of_In, elem_of_seqZ. cbn [nth] in *. lia.
  - apply (IH n H2); [cbn [length] in *; lia|exact Hv].
Qed.

Lemma ntc_sorted : sorted_between ntc_lookup_tab 0 190.
Proof. by apply (ascending_sorted ntc_lookup_tab). Qed.

Lemma ntc_index_spec v :
  exists i, ntc_index v = Some i /\
    if (193 <=? v) && (v <? 3971)
    then 0 <= i /\ i + 1 < 190 /\ at_ ntc_lookup_tab i <= v < at_ ntc_lookup_tab (i + 1) else i = -1.
Proof.
  apply (bin_search_spec 8 ntc_lookup_tab 190 v); [lia|unfold alen; cbn; lia|cbn; lia|apply ntc_sorted].
Qed.

(** From 126 to 3892 the interval found is not the first, and the offsets are as checked. *)
Lemma ntc_inside adc :
  126 <= adc <= 3892 ->
  exists i, ntc_index (4096 - adc) = Some i /\ 1 <= i < 189 /\
    at_ ntc_lookup_tab (i - 1) < at_ ntc_lookup_tab i <= 4096 - adc /\ 4096 - adc < at_ ntc_lookup_tab (i + 1) /\
    10 <= ntc_offset (at_ ntc_lookup_tab (i - 1)) (at_ ntc_lookup_tab i) (4096 - adc) <= 20 /\
    Z.abs (ntc_raw adc - ntc_interpolated adc) <= 4.
Proof.
  intros H. unfold ntc_raw, ntc_interpolated.
  destruct (ntc_index_spec (4096 - adc)) as (i & Ei & Hi).
  replace ((193 <=? 4096 - adc) && (4096 - adc <? 3971)) with true in Hi by lia.
  destruct Hi as (H0 & H1 & Hv). exists i. rewrite Ei. cbn [default from_option id].
  assert (1 <= i).
  { destruct (Z.eq_dec i 0) as [->|]; [|lia].
    change (at_ ntc_lookup_tab (0 + 1)) with 204 in Hv. lia. }
  assert (Hok : offset_okb (at_ ntc_lookup_tab (i - 1)) (at_ ntc_lookup_tab i) (at_ ntc_lookup_tab (i + 1)) (4096 - adc) = true).
  { unfold at_ in *. replace (Z.to_nat i) with (S (Z.to_nat (i - 1))) in * by lia.
    replace (Z.to_nat (i + 1)) with (S (S (Z.to_nat (i - 1)))) in * by lia.
    apply offsets_ok; [vm_compute; reflexivity|cbn [length ntc_lookup_tab]; lia|done]. }
  unfold offset_okb in Hok. to_prop. repeat split; try done; lia.
Qed.

Lemma ntc_raw_eq adc i :
  ntc_index (4096 - adc) = Some i ->
  ntc_raw adc = (i - NTC_TEMP_OFFSET) * 10
    + ntc_offset (at_ ntc_lookup_tab (i - 1)) (at_ ntc_lookup_tab i) (4096 - adc) - NTC_TEMP_DT.
Proof. intros E. unfold ntc_raw. by rewrite E. Qed.

Lemma calc_ntc_eq {B : flash_before_tab} adc adjust :
  126 <= adc <= 3892 -> calc_ntc adc adjust = Some (s16 (ntc_raw adc + adjust)).
Proof.
  intros H. destruct (ntc_inside adc H) as (i & Ei & Hi & Ht & _ & Hoff & _).
  rewrite (ntc_raw_eq adc i Ei). unfold calc_ntc. rewrite u16_small by lia. rewrite Ei. cbn [mbind option_bind].
  destruct (Z.ltb_spec i 0); [lia|]. unfold tab_at.
  destruct (Z.eqb_spec (i - 1) (-1)); [lia|]. destruct (Z.eqb_spec i (-1)); [lia|].
  fold (ntc_offset (at_ ntc_lookup_tab (i - 1)) (at_ ntc_lookup_tab i) (4096 - adc)).
  set (q := ntc_offset _ _ _) in *. rewrite (u16_small q) by lia. do 2 f_equal. lia.
Qed.

Lemma calc_ntc_abnormal {B : flash_before_tab} adc adjust :
  0 <= adc <= 125 \/ 3904 <= adc < 4096 -> calc_ntc adc adjust = Some ABNORMAL_VALUE.
Proof.
  intros H. unfold calc_ntc. rewrite u16_small by lia.
  destruct (ntc_index_spec (4096 - adc)) as (i & -> & Hi).
  replace ((193 <=? 4096 - adc) && (4096 - adc <? 3971)) with false in Hi by lia. by subst i.
Qed.

Lemma ntc_raw_antitone a b : 126 <= a <= b -> b <= 3892 -> ntc_raw b <= ntc_raw a.
Proof.
  intros Ha Hb.
  destruct (ntc_inside a) as (i & Ei & Hi & Hta & Hta' & Hoa & _); [lia|].
  destruct (ntc_inside b) as (j & Ej & Hj & Htb & Htb' & Hob & _); [lia|].
  rewrite (ntc_raw_eq a i Ei), (ntc_raw_eq b j Ej).
  destruct (Z.lt_trichotomy j i) as [|[->|Hij]]; [lia| |].
  - enough (ntc_offset (at_ ntc_lookup_tab (i - 1)) (at_ ntc_lookup_tab i) (4096 - b)
      <= ntc_offset (at_ ntc_lookup_tab (i - 1)) (at_ ntc_lookup_tab i) (4096 - a)) by lia.
    unfold ntc_offset. apply Z.quot_le_mono; lia.
  - assert (at_ ntc_lookup_tab (i + 1) <= at_ ntc_lookup_tab j) by (apply ntc_sorted; lia). lia.
Qed.

(** For every 12-bit ADC value, [calc_ntc] reports the abnormal value exactly at the two
    ends (a broken or shorted sensor, 0..125 and 3904..4095), and from 126 to 3892 a temperature
    between -38.5 and 149.5 degrees plus the calibration, never more than 0.4 degrees from the
    interpolation of the table, and falling as the ADC value rises.  The eleven values between
    depend on the flash word before the table. *)
Theorem calc_ntc_correct {B : flash_before_tab} :
  exists t : Z -> Z,
    (forall adc adjust, 0 <= adc <= 125 \/ 3904 <= adc < 4096 -> calc_ntc adc adjust = Some ABNORMAL_VALUE) /\
    (forall adc adjust, 126 <= adc <= 3892 ->
       calc_ntc adc adjust = Some (s16 (t adc + adjust)) /\ -385 <= t adc <= 1495 /\
       Z.abs (t adc - ntc_interpolated adc) <= 4) /\
    (forall a b, 126 <= a <= b -> b <= 3892 -> t b <= t a).
Proof.
  exists ntc_raw. split; [intros; by apply calc_ntc_abnormal|]. split; [|exact ntc_raw_antitone].
  intros adc adjust H. split; [by apply calc_ntc_eq|].
  destruct (ntc_inside adc H) as (i & Ei & ? & ? & ? & ? & ?). split; [|done]. rewrite (ntc_raw_eq adc i Ei). lia.
Qed.

(** ** UV *)

(** With no calibration, the level grows with the ADC value until the 16-bit result wraps
    around: the upper half of the range is reported as negative. *)
Lemma Calc_UV_ai_wraps :
  Calc_UV_ai 31 K_FACTOR_UV 0 = ABNORMAL_VALUE /\ Calc_UV_ai 32 K_FACTOR_UV 0 = 14 /\
  Calc_UV_ai 2267 K_FACTOR_UV 0 = 32753 /\ Calc_UV_ai 2268 K_FACTOR_UV 0 = -32768 /\
  Calc_UV_ai 4095 K_FACTOR_UV 0 = -6006.
Proof. vm_compute. repeat split. Qed.

(** ** Smoothing *)

Lemma at_bounds (a : list Z) lo hi i :
  Forall (fun x => lo <= x <= hi) a -> 0 <= i < alen a -> lo <= at_ a i <= hi.
Proof.
  intros H Hi. unfold at_, alen in *. destruct (nth_lookup_or_length a (Z.to_nat i) 0) as [E|E]; [|lia].
  exact (Forall_lookup_1 _ _ _ _ H E).
Qed.

Lemma sum_u16 (g : Z -> Z) n s i0 :
  0 <= s -> (forall i, i0 <= i < i0 + Z.of_nat n -> 0 <= g i <= 4095) -> s + 4095 * Z.of_nat n < 65536 ->
  foldl (fun s i => u16 (s + g i)) s (seqZ i0 (Z.of_nat n)) = foldl (fun s i => s + g i) s (seqZ i0 (Z.of_nat n)).
Proof.
  revert s i0. induction n as [|n IH]; intros s i0 Hs Hg Hb; [done|].
  rewrite seqZ_cons by lia. cbn [foldl]. replace (Z.pred (Z.of_nat (S n))) with (Z.of_nat n) by lia.
  pose proof (Hg i0 ltac:(lia)). rewrite u16_small by lia. apply IH; [lia| |lia].
  intros i Hi. apply Hg. lia.
Qed.

Lemma sum_bounds (g : Z -> Z) lo hi n s i0 :
  (forall i, i0 <= i < i0 + Z.of_nat n -> lo <= g i <= hi) ->
  s + lo * Z.of_nat n <= foldl (fun s i => s + g i) s (seqZ i0 (Z.of_nat n)) <= s + hi * Z.of_nat n.
Proof.
  revert s i0. induction n as [|n IH]; intros s i0 Hg; [change (seqZ i0 (Z.of_nat 0)) with (@nil Z); cbn [foldl]; lia|].
  rewrite seqZ_cons by lia. cbn [foldl]. replace (Z.pred (Z.of_nat (S n))) with (Z.of_nat n) by lia.
  pose proof (Hg i0 ltac:(lia)). specialize (IH (s + g i0) (Z.succ i0)).
  assert (forall i, Z.succ i0 <= i < Z.succ i0 + Z.of_nat n -> lo <= g i <= hi) as Hg'
    by (intros i Hi; apply Hg; lia).
  specialize (IH Hg'). lia.
Qed.

(** [ADCValProcess] on 12-bit samples always gives a value: the sum cannot overflow, and
    the result is the mean of the middle 16 of the 20 samples of the channel in sorted order,
    so it lies between the third smallest and the third largest of them. *)
Theorem ADCValProcess_trimmed buf index :
  (forall i, 0 <= i < 20 -> 0 <= at_ buf (i * AI_MAX_CNT + index) <= 4095) ->
  exists b, b ≡ₚ adc_samples buf index /\
    (forall p q, 0 <= p <= q -> q <= 19 -> at_ b p <= at_ b q) /\
    let r := foldl (fun s i => s + at_ b i) 0 (seqZ 2 16) / 16 in
    ADCValProcess buf index = Some r /\ at_ b 2 <= r <= at_ b 17.
Proof.
  intros Hs.
  assert (Hall : Forall (fun x => 0 <= x <= 4095) (adc_samples buf index)).
  { apply Forall_fmap, Forall_forall. intros i Hi%list_elem_of_In%elem_of_seqZ. cbn.
    specialize (Hs i ltac:(lia)). rewrite u16_small by lia. lia. }
  assert (Hlen : alen (adc_samples buf index) = 20) by (unfold alen, adc_samples; by rewrite length_fmap, length_seqZ).
  assert (Hw : words (adc_samples buf index)) by (refine (List.Forall_impl _ _ Hall); cbn; lia).
  unfold ADCValProcess.
  destruct (quick_slice (adc_samples buf index) ltac:(lia) 20 (adc_samples buf index) 0 19)
    as (b & -> & Hp & Hsort); [done|done|lia..|]. cbn [mbind option_bind].
  pose proof (slice_perm_len _ _ _ _ Hp) as Hl. apply slice_perm_perm in Hp as Hperm.
  assert (Hb : forall i, 0 <= i < 20 -> 0 <= at_ b i <= 4095).
  { intros i Hi. apply at_bounds; [by rewrite Hperm|lia]. }
  exists b. split; [done|]. split; [exact Hsort|]. cbn zeta.
  rewrite (sum_u16 (at_ b) 16) by (try lia; intros; apply Hb; lia).
  pose proof (sum_bounds (at_ b) (at_ b 2) (at_ b 17) 16 0 2) as Hsum.
  change (Z.of_nat 16) with 16 in *. set (S := foldl _ 0 (seqZ 2 16)) in *.
  assert (0 + at_ b 2 * 16 <= S <= 0 + at_ b 17 * 16) as HS.
  { apply Hsum. intros i Hi. split; apply Hsort; lia. }
  pose proof (Hb 2 ltac:(lia)). pose proof (Hb 17 ltac:(lia)).
  rewrite Z.shiftr_div_pow2 by lia. change (2 ^ 4) with 16.
  rewrite u16_small by (Z.div_mod_to_equations; lia). split; [done|]. Z.div_mod_to_equations. lia.
Qed.

Definition ramp : list Z := (fun i => (i * 37) mod 100) <$> seqZ 0 100.

Lemma ADCValProcess_trimmed_witness :
  ADCValProcess ramp 3 = Some 48 /\
  exists b, b ≡ₚ adc_samples ramp 3 /\
    (forall p q, 0 <= p <= q -> q <= 19 -> at_ b p <= at_ b q) /\
    let r := foldl (fun s i => s + at_ b i) 0 (seqZ 2 16) / 16 in
    ADCValProcess ramp 3 = Some r /\ at_ b 2 <= r <= at_ b 17.
Proof.
  split; [vm_compute; reflexivity|]. apply (ADCValProcess_trimmed ramp 3).
  intros i Hi. enough ((0 <=? at_ ramp (i * 5 + 3)) && (at_ ramp (i * 5 + 3) <=? 4095) = true) by lia.
  apply (range_check (fun i => (0 <=? at_ ramp (i * 5 + 3)) && (at_ ramp (i * 5 + 3) <=? 4095)) 20); [reflexivity|lia].
Defined.

(** ** Publishing, and the alarm of a broken sensor *)

Lemma ai_sts_update_foot {B : flash_before_tab} : respc (unch [ComSta_u16Ain] []) ai_sts_update.
Proof. unfold ai_sts_update. footprint. Qed.
#[export] Hint Resolve ai_sts_update_foot : foot.

(** Each temperature channel holds its converted value, or 0 when it is masked. *)
Lemma ai_sts_update_ntc {B : flash_before_tab} w ch :
  1 <= ch <= 4 ->
  (ai_sts_update w)⟪ComSta_u16Ain.[ch]⟫ =
  u16 (if nz ((w⟪dev_mask_ain⟫ .>> ch) .& 1)
       then default 0 (calc_ntc (w⟪ADC1ConvertedValue.[ch]⟫) (s16 (w⟪general_ntc_cali.[ch - 1]⟫))) else 0).
Proof.
  intros Hch. unfold ai_sts_update, letc, seqc.
  set (body := fun i => assign _ _). set (tail := cif _ _ _).
  assert (Ht : forall v, (tail v)⟪ComSta_u16Ain.[ch]⟫ = v⟪ComSta_u16Ain.[ch]⟫).
  { intros v. unfold tail, cif. case_match; [|done]. unfold assign. rewrite rd_wr_ix by lia. done. }
  rewrite Ht. change (seqZ 1 4) with [1; 2; 3; 4]. unfold forc. cbn [foldl].
  assert (Hb : forall i v, i <> ch -> (body i v)⟪ComSta_u16Ain.[ch]⟫ = v⟪ComSta_u16Ain.[ch]⟫).
  { intros i v Hi. unfold body, assign. rewrite rd_wr_ix by lia. done. }
  assert (Hc : forall i v c, fld c <> ComSta_u16Ain -> (body i v)⟪c⟫ = v⟪c⟫).
  { intros i v c Hi. unfold body, assign. apply rd_wr_fld. cbn [fld].
    destruct (feqb ComSta_u16Ain (fld c)) eqn:E; [|done]. apply feqb_spec in E. congruence. }
  assert (ch = 1 \/ ch = 2 \/ ch = 3 \/ ch = 4) as [->|[->|[->| ->]]] by lia.
  all: rewrite ?Hb by lia; unfold body at 1, assign; rewrite rd_wr_same; cbn [fld fty cast].
  all: by rewrite ?Hc by done.
Qed.

Lemma ntc_check_ret ch bit action flag w :
  (ntc_check ch bit action flag w).1 =
  if nz (w⟪dev_mask_ain⟫ .& (1 .<< ch)) && nz (compare_calc (w⟪ComSta_u16Ain.[ch]⟫) (-280) 1400 OUT_MIN_MAX_TYPE)
  then flag else 0.
Proof.
  unfold ntc_check, cif, seqc, reta. destruct (nz (w⟪dev_mask_ain⟫ .& _)); cbn [andb fst]; [|done].
  by destruct (nz (compare_calc _ _ _ _)).
Qed.

(** Alarm E6 is raised when a channel that is fitted is out of range. *)
Lemma acl06_ret p w :
  clears w p = false -> Z.testbit (w⟪dev_mask_ain⟫) 15 = false ->
  forall ch, 1 <= ch <= 4 -> Z.testbit (w⟪dev_mask_ain⟫) ch = true ->
  nz (compare_calc (w⟪ComSta_u16Ain.[ch]⟫) (-280) 1400 OUT_MIN_MAX_TYPE) = true -> (acl06 p w).1 = 1.
Proof.
  intros Hc H15 ch Hch Hm Hout. unfold acl06, unless_cleared, unless_cleared_do, bindc.
  rewrite acl_clear_ret, Hc. cbn [nz Z.eqb negb]. unfold seqc, reta; cbn [fst].
  rewrite !ntc_check_ret. rewrite !(keep_rda (ntc_check _ _ _ _)) by keep_tac.
  set (w0 := (acl_clear p w).2).
  assert (forall c, fin (fld c) [acl_state; acl_timeout; general_alarm_remove_bitmap] || is_req c = false ->
    w0⟪c⟫ = w⟪c⟫) as H0 by (intros c H; by eapply keep_rda, keep_rd_unch; [apply acl_clear_foot|]).
  rewrite !(keep_rd (assign _ _)) by keep_tac. rewrite !(keep_rda (ntc_check _ _ _ _)) by keep_tac.
  rewrite !H0 by done. change 0x8000 with (1 .<< 15). rewrite (land_pow2 _ 15), H15 by lia.
  assert (E : forall x, (if nz x then 1 else 0) = 1 <-> x <> 0).
  { intros x. unfold nz. destruct (Z.eqb_spec x 0); cbn; lia. }
  apply E. rewrite !Z.lor_eq_0_iff. rewrite <- land_pow2 in Hm by lia.
  assert (ch = 1 \/ ch = 2 \/ ch = 3 \/ ch = 4) as [->|[->|[->| ->]]] by lia;
    rewrite Hm, Hout; cbn [andb]; intros [[[? ?] ?] ?]; lia.
Qed.

(** A broken or shorted temperature sensor is noticed: after a round of sampling, a fitted
    channel whose ADC value is at an end of the range makes the condition of alarm E6 true
    (unless the alarm is being cleared or its master bit is masked). *)
Theorem broken_ntc_raises_alarm {B : flash_before_tab} w ch p :
  1 <= ch <= 4 -> Z.testbit (w⟪dev_mask_ain⟫) ch = true -> Z.testbit (w⟪dev_mask_ain⟫) 15 = false ->
  clears w p = false ->
  w⟪ADC1ConvertedValue.[ch]⟫ <= 125 \/ 3904 <= w⟪ADC1ConvertedValue.[ch]⟫ < 4096 ->
  (acl06 p (ai_sts_update w)).1 = 1.
Proof.
  intros Hch Hm H15 Hc Hadc.
  assert (Hr : forall c, fld c <> ComSta_u16Ain -> is_req c = false -> (ai_sts_update w)⟪c⟫ = w⟪c⟫).
  { intros c Hf Hq. apply (unch_rd [ComSta_u16Ain] [] w); [apply ai_sts_update_foot| |done].
    unfold fin; cbn [existsb]. destruct (feqb (fld c) ComSta_u16Ain) eqn:E; [|done]. apply feqb_spec in E. congruence. }
  apply (acl06_ret p (ai_sts_update w)) with (ch := ch); rewrite ?Hr by done; try done.
  - unfold clears, get_alarm_remove_bitmap in *. rewrite !Hr by done. done.
  - rewrite ai_sts_update_ntc by done.
    pose proof (get_bit_b2z (w⟪dev_mask_ain⟫) ch ltac:(lia)) as Hb. unfold get_bit in Hb. rewrite Hb, Hm.
    pose proof (rd_u16 w ADC1ConvertedValue.[ch] eq_refl).
    rewrite calc_ntc_abnormal by lia. reflexivity.
Qed.

Lemma broken_ntc_raises_alarm_witness :
  let B : flash_before_tab := 0 in
  let w := poke [(dev_mask_ain.[0], 0x1E); (ADC1ConvertedValue.[2], 4090)] w_zero in
  (ai_sts_update w)⟪ComSta_u16Ain.[2]⟫ = ABNORMAL_VALUE /\ (acl06 6 (ai_sts_update w)).1 = 1.
Proof.
  cbv zeta. set (w := poke _ _). split; [vm_compute; reflexivity|].
  apply (@broken_ntc_raises_alarm 0 w 2 6); [lia|vm_compute; reflexivity..|right; vm_compute; split; congruence].
Defined.

(** ** The wire of the air sensor

    A bit on the wire: [l] low samples, a high one that ends the wait, the sample after 30 us,
    and for a 1 another [k] high samples until the line falls. *)

Definition bit_wave (b : bool) (l k : nat) : list bool :=
  repeat false l ++ [true; b] ++ repeat true (if b then k else 0%nat) ++ [false].

Record timed_bit : Type := TimedBit { tb_bit : bool; tb_low : nat; tb_high : nat }.

Definition wave (bits : list timed_bit) : list bool :=
  List.concat ((fun t => bit_wave (tb_bit t) (tb_low t) (tb_high t)) <$> bits).

(** Levels last less than 2500 samples. *)
Definition timely (bits : list timed_bit) : Prop :=
  Forall (fun t => Z.of_nat (tb_low t) < 2500 /\ Z.of_nat (tb_high t) < 2500) bits.

(** The bits of a byte, the most significant first. *)
Definition byte_bits (x : Z) : list bool := Z.testbit x <$> [7; 6; 5; 4; 3; 2; 1; 0].

Definition carries (x : Z) (bits : list timed_bit) : Prop :=
  0 <= x < 256 /\ timely bits /\ tb_bit <$> bits = byte_bits x.

Lemma wait_level_run level limit n rest j :
  0 <= j -> j + Z.of_nat n < limit -> limit < 65536 ->
  wait_level level limit (repeat (negb level) n ++ level :: rest) j = Some (rest, j + Z.of_nat n).
Proof.
  revert j. induction n as [|n IH]; intros j Hj Hn Hl; cbn [repeat app wait_level].
  - rewrite eqb_reflx. do 2 f_equal. lia.
  - rewrite eqb_negb1, u16_small by lia. destruct (Z.leb_spec limit (j + 1)); [lia|].
    rewrite IH by lia. do 2 f_equal. lia.
Qed.

Lemma read_bit_wave b l k rest j :
  0 <= j < 2500 -> Z.of_nat l < 2500 -> Z.of_nat k < 2500 ->
  exists j', read_bit (bit_wave b l k ++ rest) j = Some (b, rest, j') /\ 0 <= j' < 2500.
Proof.
  intros Hj Hl Hk. unfold read_bit, bit_wave. rewrite <- !app_assoc. cbn [app].
  rewrite (wait_level_run true 5000) by lia. cbn [mbind option_bind sample_line].
  rewrite (wait_level_run false 5000) by (destruct b; lia). cbn [mbind option_bind].
  eexists. split; [reflexivity|]. destruct b; lia.
Qed.

Lemma read_bits_wave bits data rest j :
  0 <= j < 2500 -> timely bits ->
  exists j', read_bits (length bits) data (wave bits ++ rest) j =
    Some (foldl (fun d b => u8 (d .<< 1) .| Z.b2z b) data (tb_bit <$> bits), rest, j').
Proof.
  intros Hj Ht. revert data j Hj. induction Ht as [|[b l k] bits [Hl Hk] Ht IH]; intros data j Hj; [by exists j|].
  cbn [tb_low tb_high] in *. cbn [length read_bits]. unfold wave. cbn [fmap list_fmap List.concat].
  rewrite <- app_assoc. destruct (read_bit_wave b l k (wave bits ++ rest) j) as (j' & E & Hj'); [done..|].
  cbn [tb_bit tb_low tb_high]. unfold wave in E. rewrite E. cbn [mbind option_bind]. apply IH. done.
Qed.

Lemma byte_bits_value x :
  0 <= x < 256 -> foldl (fun d b => u8 (d .<< 1) .| Z.b2z b) 0 (byte_bits x) = x.
Proof.
  intros H. apply Z.eqb_eq.
  by apply (range_check (fun x => foldl (fun d b => u8 (d .<< 1) .| Z.b2z b) 0 (byte_bits x) =? x) 256).
Qed.

Lemma Read_SensorData_wave x bits rest j :
  0 <= j < 2500 -> carries x bits -> Read_SensorData (wave bits ++ rest) j = Some (x, rest).
Proof.
  intros Hj (Hx & Ht & Hb). unfold Read_SensorData.
  assert (length bits = 8%nat) as Hl by (apply (f_equal length) in Hb; by rewrite length_fmap in Hb).
  destruct (read_bits_wave bits 0 rest j Hj Ht) as (j' & E). rewrite Hl in E. rewrite E.
  cbn [mbind option_bind]. by rewrite Hb, byte_bits_value.
Qed.

(** A whole answer of the sensor: it pulls the line low, then high, then sends five bytes. *)
Definition answer_wave (l0 k0 : nat) (b1 b2 b3 b4 b5 : list timed_bit) (rest : list bool) : list bool :=
  false :: repeat false l0 ++ true :: repeat true k0 ++ false ::
  wave b1 ++ wave b2 ++ wave b3 ++ wave b4 ++ wave b5 ++ rest.

Lemma decode_air_positive hh hl th tl :
  0 <= hh < 256 -> 0 <= hl < 256 -> 0 <= th < 128 -> 0 <= tl < 256 ->
  decode_air hh hl th tl = (Z.min 800 (256 * th + tl), Z.min 999 (256 * hh + hl)).
Proof.
  intros. unfold decode_air. change 0x80 with (1 .<< 7). rewrite land_pow2 by lia.
  assert (Z.testbit th 7 = false) as ->.
  { destruct (Z.eq_dec th 0) as [->|]; [done|]. apply Z.bits_above_log2; [lia|]. apply Z.log2_lt_pow2; [lia|]. change (2 ^ 7) with 128. lia. }
  rewrite !lor_bytes by done. rewrite (u16_small (hl + 256 * hh)), (s16_small (tl + 256 * th)) by lia.
  destruct (Z.ltb_spec 999 (hl + 256 * hh)), (Z.ltb_spec 800 (tl + 256 * th)).
  all: match goal with |- context[if ?c then -400 else ?x] =>
    replace (if c then -400 else x) with x by (case_match; lia) end.
  all: f_equal; rewrite ?u16_small; lia.
Qed.

(** The temperature stored for the bytes of the sensor, in tenths of a degree.  From the high byte 128 on
    the sensor means a magnitude below zero, which the code takes for a two's complement. *)
Definition air_temperature (th tl : Z) : Z :=
  if th <? 128 then Z.min 800 (256 * th + tl)
  else if (th =? 128) && (tl mod 128 =? 0) then u16 (-400)
  else Z.min 800 (65536 - (256 * th + tl mod 128)).

Lemma decode_air_spec hh hl th tl :
  0 <= hh < 256 -> 0 <= hl < 256 -> 0 <= th < 256 -> 0 <= tl < 256 ->
  decode_air hh hl th tl = (air_temperature th tl, Z.min 999 (256 * hh + hl)).
Proof.
  intros Hhh Hhl Hth Htl. rewrite (surjective_pairing (decode_air hh hl th tl)). f_equal.
  - destruct (Z.ltb_spec th 128) as [Hs|Hs]; [by rewrite decode_air_positive by lia; unfold air_temperature; rewrite (proj2 (Z.ltb_lt _ _) Hs)|].
    unfold decode_air, air_temperature. rewrite (proj2 (Z.ltb_ge _ _) Hs). cbn [fst].
    change (th .& 0x80) with (th .& (1 .<< 7)). rewrite land_pow2 by lia.
    assert (Z.testbit th 7 = true) as -> by (apply Z.b2z_inj; rewrite Z.testbit_spec' by lia; change (2 ^ 7) with 128; cbn; Z.div_mod_to_equations; lia).
    change (tl .& 0x7F) with (tl .& Z.ones 7). rewrite Z.land_ones by lia. change (2 ^ 7) with 128.
    pose proof (Z.mod_pos_bound tl 128 ltac:(lia)). rewrite lor_bytes by lia.
    assert (s16 (0 - (tl mod 128 + 256 * th)) = if tl mod 128 + 256 * th =? 32768 then -32768 else 65536 - (tl mod 128 + 256 * th)) as ->
      by (destruct (Z.eqb_spec (tl mod 128 + 256 * th) 32768); cast_lia).
    replace ((th =? 128) && (tl mod 128 =? 0)) with (tl mod 128 + 256 * th =? 32768) by lia.
    destruct (Z.eqb_spec (tl mod 128 + 256 * th) 32768); [reflexivity|].
    destruct (Z.ltb_spec 800 (65536 - (tl mod 128 + 256 * th))); cbv iota; [change (800 <? -400) with false; cbv iota; rewrite u16_small by lia; lia|].
    rewrite (proj2 (Z.ltb_ge _ (-400))) by lia. rewrite u16_small by lia. lia.
  - change (decode_air hh hl th tl).2 with (decode_air hh hl 0 0).2. by rewrite decode_air_positive by lia.
Qed.

(** The sensor sends a negative temperature as a sign bit and a magnitude, but the code
    masks the sign out of the wrong byte: every temperature from -40.0 to -0.1 degrees is
    stored as 80.0 degrees, except -12.8, which is stored as -40.0. *)
Lemma negative_temperature_misread m :
  1 <= m <= 400 -> air_temperature (128 + m / 256) (m mod 256) = if m =? 128 then u16 (-400) else 800.
Proof.
  intros Hm. unfold air_temperature.
  assert (m / 256 = 0 /\ m mod 256 = m /\ m < 256 \/ m / 256 = 1 /\ m mod 256 = m - 256 /\ 256 <= m) as [(-> & -> & ?)|(-> & -> & ?)]
    by (Z.div_mod_to_equations; lia).
  - change (128 + 0 <? 128) with false. change (128 + 0 =? 128) with true. cbn [andb]. cbv iota.
    pose proof (Z.mod_pos_bound m 128 ltac:(lia)). destruct (Z.eqb_spec (m mod 128) 0), (Z.eqb_spec m 128); try lia.
    + Z.div_mod_to_equations. lia.
    + subst. done.
  - change (128 + 1 <? 128) with false. change (128 + 1 =? 128) with false. cbn [andb]. cbv iota.
    pose proof (Z.mod_pos_bound (m - 256) 128 ltac:(lia)). destruct (Z.eqb_spec m 128); lia.
Qed.

(** C37: Reading the air sensor.  For any timing of the wire within the limits, an answer whose fifth byte
    is the sum of the first four gives flag 0x0F, the humidity sent, capped at 99.9 percent, and, for a
    temperature that is not negative, the temperature sent, capped at 80.0 degrees; a temperature below
    zero is not decoded: from -0.1 to -40.0 degrees 80.0 is stored, and -40.0 for -12.8.  An answer with
    another fifth byte gives flag 0x17 and stores nothing. *)
Theorem Read_Sensor_decodes j0 l0 k0 hh hl th tl cs b1 b2 b3 b4 b5 rest :
  0 <= j0 < 2500 -> Z.of_nat l0 < 500 -> Z.of_nat k0 < 800 ->
  carries hh b1 -> carries hl b2 -> carries th b3 -> carries tl b4 -> carries cs b5 ->
  Read_Sensor j0 (answer_wave l0 k0 b1 b2 b3 b4 b5 rest) =
    Some (if cs =? u8 (hh + hl + th + tl) then (0x0F, Some (air_temperature th tl, Z.min 999 (256 * hh + hl))) else (0x17, None)) /\
  (th < 128 -> air_temperature th tl = Z.min 800 (256 * th + tl)) /\
  (forall m, 1 <= m <= 400 -> th = 128 + m / 256 -> tl = m mod 256 ->
     air_temperature th tl = if m =? 128 then u16 (-400) else 800).
Proof.
  intros Hj Hl Hk C1 C2 C3 C4 C5. split; [|split].
  - unfold Read_Sensor, answer_wave. cbn [sample_line mbind option_bind].
    rewrite (wait_level_run true 500) by lia. cbn [mbind option_bind].
    rewrite (wait_level_run false 800) by lia. cbn [mbind option_bind].
    do 5 (erewrite Read_SensorData_wave by eassumption; cbn [mbind option_bind]).
    destruct C1, C2, C3, C4. rewrite decode_air_spec by done. by case_match.
  - intros Ht. unfold air_temperature. by rewrite (proj2 (Z.ltb_lt _ _) Ht).
  - intros m Hm -> ->. by apply negative_temperature_misread.
Qed.

Definition plain_bits (x : Z) : list timed_bit := (fun b => TimedBit b 5 7) <$> byte_bits x.

Lemma plain_bits_carry x : 0 <= x < 256 -> carries x (plain_bits x).
Proof.
  intros Hx. split; [done|]. split; [|done]. unfold timely, plain_bits, byte_bits.
  repeat (apply List.Forall_cons; [cbn; lia|]). apply List.Forall_nil.
Qed.

Lemma Read_Sensor_decodes_witness :
  Read_Sensor 17 (answer_wave 8 9 (plain_bits 2) (plain_bits 100) (plain_bits 1) (plain_bits 5) (plain_bits 108) [])
    = Some (0x0F, Some (261, 612)).
Proof.
  destruct (Read_Sensor_decodes 17 8 9 2 100 1 5 108 (plain_bits 2) (plain_bits 100) (plain_bits 1)
    (plain_bits 5) (plain_bits 108) []) as [H1 _]; [lia|lia|lia|apply plain_bits_carry; lia..|].
  exact H1.
Defined.

(** ** A lost sensor *)

(** The next value of the call counter; a reading is taken at multiples of six. *)
Definition am_next (c : Z) : Z := if 255 <=? u8 (c + 1) then 0 else u8 (c + 1).

Definition am_bit (w : world) : bool := Z.testbit (w⟪status_status_remap.[MBM_COM_STS_REG_NO]⟫) 0.

Lemma am_tick_foot : respc (unch [AM_u8CNT] []) am_tick.
Proof. unfold am_tick. footprint. Qed.
Lemma am_read_foot d : respc (unch [AM_u8Offset_CNT; u16TH_Sensor] []) (am_read d).
Proof. unfold am_read. footprint. Qed.
Lemma am_take_foot f : respa (unch [AM_u8Err_CNT; status_status_remap] []) (am_take f).
Proof. unfold am_take. footprint. Qed.
Lemma store_sample_foot t h : respc (unch [AM_u8TH_CNT; AM_u16TH_Ave_Temp; AM_u16TH_Ave_Hum] []) (store_sample t h).
Proof. unfold store_sample. footprint. Qed.
Lemma publish_air_foot : respc (unch [ComSta_u16TH_Temp; ComSta_u16TH_Hum] []) publish_air.
Proof. unfold publish_air. footprint. Qed.
#[export] Hint Resolve am_tick_foot am_read_foot am_take_foot store_sample_foot publish_air_foot : foot.
Lemma am_judge_foot b :
  respc (unch [ComSta_u16TH_Temp; ComSta_u16TH_Hum; status_status_remap; AM_u8Offset_CNT; AM_u8TH_CNT;
               AM_u16TH_Ave_Temp; AM_u16TH_Ave_Hum] []) (am_judge b).
Proof. unfold am_judge. footprint. Qed.
#[export] Hint Resolve am_judge_foot : foot.
Lemma AM_Sensor_update_foot r :
  respa (unch [AM_u8CNT; u16TH_Sensor; AM_u8Err_CNT; ComSta_u16TH_Temp; ComSta_u16TH_Hum; status_status_remap;
               AM_u8Offset_CNT; AM_u8TH_CNT; AM_u16TH_Ave_Temp; AM_u16TH_Ave_Hum] []) (AM_Sensor_update r).
Proof. unfold AM_Sensor_update. footprint. Qed.
#[export] Hint Resolve AM_Sensor_update_foot : foot.

Lemma am_tick_cnt w : (am_tick w)⟪AM_u8CNT⟫ = am_next (w⟪AM_u8CNT⟫).
Proof.
  unfold am_tick, am_next, seqc, cif. rewrite rd_assign_same. cbn [fty fld scalar cast].
  case_match; unfold skip; by rewrite rd_assign_same.
Qed.

(** A failed reading counts as an error, whatever the flag. *)
Lemma am_take_failed f w :
  w⟪u16TH_Sensor.[0]⟫ = 0 -> am_take f w = ((0, 0), (AM_u8Err_CNT.[0].++) w).
Proof. intros H. unfold am_take, cif. rewrite H. cbn [Z.eqb andb]. by case_match. Qed.

Lemma am_judge_bit b w :
  am_bit (am_judge b w) = if ERROR_CNT_MAX <? w⟪AM_u8Err_CNT.[0]⟫ then false else am_bit w.
Proof.
  unfold am_judge, cif, am_bit. case_match.
  - obs. rewrite u16_testbit, Z.land_spec by lia. by rewrite andb_false_r.
  - case_match; by obs.
Qed.

(** One call with a failed reading. *)
Lemma am_failed_call r w :
  r.2 = None ->
  let w' := (AM_Sensor_update r w).2 in
  let e' := u8 (w⟪AM_u8Err_CNT.[0]⟫ + 1) in
  w'⟪AM_u8CNT⟫ = am_next (w⟪AM_u8CNT⟫) /\
  if nz (am_next (w⟪AM_u8CNT⟫) mod 6)
  then w'⟪AM_u8Err_CNT.[0]⟫ = w⟪AM_u8Err_CNT.[0]⟫ /\ am_bit w' = am_bit w
  else w'⟪AM_u8Err_CNT.[0]⟫ = e' /\ am_bit w' = if ERROR_CNT_MAX <? e' then false else am_bit w.
Proof.
  destruct r as [flag v]. cbn [snd]. intros ->. unfold AM_Sensor_update, seqc, cif.
  rewrite am_tick_cnt. destruct (nz _); unfold reta, bindc; cbn [fst snd].
  - split; [apply am_tick_cnt|]. unfold am_bit. by obs.
  - rewrite am_take_failed by (unfold am_read, seqc, skip; obs; done). cbn [fst snd].
    split; [obs; apply am_tick_cnt|]. rewrite am_judge_bit. unfold am_bit. by obs.
Qed.

(** The number of calls until the next reading, and an upper bound of the calls until the
    error count passes its limit. *)
Definition am_wait (c : Z) : Z := if c <? 252 then 6 - c mod 6 else Z.max 1 (255 - c).
Definition am_calls_left (c e : Z) : Z := 6 * (ERROR_CNT_MAX - e) + am_wait c.

Definition am_calls (rs : list (Z * option (Z * Z))) (w : world) : world :=
  foldl (fun w r => (AM_Sensor_update r w).2) w rs.

Lemma am_wait_step c :
  0 <= c <= 255 ->
  1 <= am_wait c <= 6 /\ (nz (am_next c mod 6) = true -> am_wait (am_next c) = am_wait c - 1).
Proof.
  intros Hc. set (P c := (1 <=? am_wait c) && (am_wait c <=? 6) &&
    implb (nz (am_next c mod 6)) (am_wait (am_next c) =? am_wait c - 1)).
  assert (P c = true) as H by (apply (range_check P 256); [vm_compute; reflexivity|lia]).
  unfold P in H. to_prop. split; [lia|]. intros E. rewrite E in *. cbn in *. lia.
Qed.

(** Once the sensor is reported lost, failed readings keep it so. *)
Lemma am_lost_stays rs w : Forall (fun r => r.2 = None) rs -> am_bit w = false -> am_bit (am_calls rs w) = false.
Proof.
  intros H. revert w. induction H as [|r rs Hr H IH]; intros w Hb; [done|].
  cbn. apply IH. destruct (am_failed_call r w Hr) as [_ Hc]. repeat case_match; destruct Hc as [_ ->]; done.
Qed.

Lemma am_lost rs w :
  Forall (fun r => r.2 = None) rs -> w⟪AM_u8Err_CNT.[0]⟫ <= ERROR_CNT_MAX ->
  am_calls_left (w⟪AM_u8CNT⟫) (w⟪AM_u8Err_CNT.[0]⟫) <= Z.of_nat (length rs) -> am_bit (am_calls rs w) = false.
Proof.
  intros H. revert w. induction H as [|r rs Hr H IH]; intros w He Hl.
  { pose proof (rd_u8 w AM_u8CNT eq_refl). destruct (am_wait_step (w⟪AM_u8CNT⟫)); [lia|].
    unfold am_calls_left in Hl. cbn [length] in Hl. lia. }
  cbn [length] in Hl. change (am_calls (r :: rs) w) with (am_calls rs (AM_Sensor_update r w).2).
  pose proof (rd_u8 w AM_u8CNT eq_refl) as Hc0. pose proof (rd_u8 w AM_u8Err_CNT.[0] eq_refl) as He0.
  destruct (am_wait_step (w⟪AM_u8CNT⟫)) as [Hw1 Hw2]; [lia|].
  destruct (am_failed_call r w Hr) as [Ec Hc]. unfold am_calls_left in *.
  destruct (nz (am_next _ mod 6)) eqn:Em.
  - destruct Hc as [Ee _]. apply IH; [lia|]. rewrite Ec, Ee, Hw2 by done. lia.
  - rewrite (u8_small (w⟪AM_u8Err_CNT.[0]⟫ + 1)) in Hc by lia. destruct Hc as [Ee Eb].
    destruct (Z.ltb_spec ERROR_CNT_MAX (w⟪AM_u8Err_CNT.[0]⟫ + 1)); [by apply am_lost_stays|].
    apply IH; [lia|]. rewrite Ec, Ee.
    destruct (am_wait_step (am_next (w⟪AM_u8CNT⟫))) as [Hw3 _]; [|lia].
    unfold am_next. case_match; [lia|]. pose proof (u8_range (w⟪AM_u8CNT⟫ + 1)). lia.
Qed.

(** A lost air sensor is noticed in bounded time: after at most 126 rounds of the
    acquisition thread in which every reading fails, the communication bit that alarm E5
    tests is clear, and it stays clear while readings fail. *)
Theorem lost_air_sensor_noticed rs w :
  Forall (fun r => r.2 = None) rs -> w⟪AM_u8Err_CNT.[0]⟫ <= ERROR_CNT_MAX -> 126 <= Z.of_nat (length rs) ->
  Z.testbit ((am_calls rs w)⟪status_status_remap.[MBM_COM_STS_REG_NO]⟫) 0 = false.
Proof.
  intros H He Hl. apply (am_lost rs w H He).
  pose proof (rd_u8 w AM_u8CNT eq_refl). pose proof (rd_u8 w AM_u8Err_CNT.[0] eq_refl).
  destruct (am_wait_step (w⟪AM_u8CNT⟫)); [lia|]. unfold am_calls_left. lia.
Qed.

Lemma lost_air_sensor_noticed_witness :
  let w := poke [(status_status_remap.[MBM_COM_STS_REG_NO], 1)] w_zero in
  Z.testbit (w⟪status_status_remap.[MBM_COM_STS_REG_NO]⟫) 0 = true /\
  Z.testbit ((am_calls (repeat (0x17, None) 126) w)⟪status_status_remap.[MBM_COM_STS_REG_NO]⟫) 0 = false.
Proof.
  split; [reflexivity|].
  apply lost_air_sensor_noticed; [|vm_compute; congruence|rewrite repeat_length; lia].
  apply List.Forall_forall. intros r ->%repeat_spec. done.
Defined.

(** ** The published average *)

(** The ring holds complete samples: both values in 1..999, or both 0. *)
Definition air_ring (w : world) : Prop :=
  forall k, 0 <= k < TH_AVE_NUM ->
    w⟪AM_u16TH_Ave_Temp.[0, k]⟫ <= 999 /\ w⟪AM_u16TH_Ave_Hum.[0, k]⟫ <= 999 /\
    (w⟪AM_u16TH_Ave_Temp.[0, k]⟫ = 0 <-> w⟪AM_u16TH_Ave_Hum.[0, k]⟫ = 0).

Definition good_sample (t h : Z) : bool := (1 <=? t) && (t <=? 999) && (1 <=? h) && (h <=? 999).

Definition ring_slot (w : world) : Z := am_next (w⟪AM_u8TH_CNT.[0]⟫) mod TH_AVE_NUM.

Lemma store_sample_eq t h w :
  0 <= t -> 0 <= h ->
  store_sample t h w =
  if good_sample t h then
    let w1 := (AM_u8TH_CNT.[0].++;; IF 0xFF <=? «AM_u8TH_CNT.[0]» THEN AM_u8TH_CNT.[0] ::= 0 END) w in
    wr AM_u16TH_Ave_Hum.[0, ring_slot w] h (wr AM_u16TH_Ave_Temp.[0, ring_slot w] t w1)
  else w.
Proof.
  intros Ht Hh. unfold store_sample, good_sample, cif at 1, nz, skip.
  destruct (Z.leb_spec t 999), (Z.leb_spec 1 t), (Z.eqb_spec t 0), (Z.eqb_spec h 0), (Z.leb_spec 1 h);
    cbn [andb negb]; try lia; try done.
  unfold cif at 1. destruct (h <=? 999); [|done]. unfold seqc, letc, ring_slot, am_next. cbv zeta.
  set (w1 := cif _ _ _ _).
  assert (w1⟪AM_u8TH_CNT.[0]⟫ = if 255 <=? u8 (w⟪AM_u8TH_CNT.[0]⟫ + 1) then 0 else u8 (w⟪AM_u8TH_CNT.[0]⟫ + 1)) as ->;
    [|done].
  unfold w1, cif. rewrite rd_assign_same. cbn [fty fld scalar cast].
  case_match; unfold skip; by rewrite rd_assign_same.
Qed.

Lemma ring_slot_range w : 0 <= ring_slot w < TH_AVE_NUM.
Proof. apply Z.mod_pos_bound. lia. Qed.

(** What a stored sample leaves in the ring. *)
Lemma store_sample_ring t h w k :
  0 <= t -> 0 <= h ->
  let w' := store_sample t h w in
  let new := good_sample t h && (k =? ring_slot w) in
  w'⟪AM_u16TH_Ave_Temp.[0, k]⟫ = (if new then t else w⟪AM_u16TH_Ave_Temp.[0, k]⟫) /\
  w'⟪AM_u16TH_Ave_Hum.[0, k]⟫ = (if new then h else w⟪AM_u16TH_Ave_Hum.[0, k]⟫).
Proof.
  intros Ht Hh. cbv zeta. rewrite store_sample_eq by done. destruct (good_sample t h) eqn:G; [|done].
  unfold good_sample in G. to_prop. cbv zeta. set (w1 := (_ ;; _) w).
  assert (O : forall f, f <> AM_u8TH_CNT -> w1⟪f.[0, k]⟫ = w⟪f.[0, k]⟫).
  { intros f Hf. unfold w1, seqc, cif, skip. case_match; rewrite ?rd_assign_other by (intros [=]; done); done. }
  clearbody w1. cbn [andb]. destruct (Z.eqb_spec k (ring_slot w)) as [->|Hne].
  - rewrite rd_wr_fld by done. rewrite !rd_wr_same. split; apply u16_small; lia.
  - split; rewrite !rd_wr_ix by lia; by apply O.
Qed.

Lemma store_sample_inv t h w : 0 <= t -> 0 <= h -> air_ring w -> air_ring (store_sample t h w).
Proof.
  intros Ht Hh Hr k Hk. destruct (store_sample_ring t h w k Ht Hh) as [-> ->].
  destruct (good_sample t h && (k =? ring_slot w)) eqn:E; [|by apply Hr].
  unfold good_sample in E. to_prop. lia.
Qed.

Lemma air_ring_ext w w' :
  (forall k, w'⟪AM_u16TH_Ave_Temp.[0, k]⟫ = w⟪AM_u16TH_Ave_Temp.[0, k]⟫ /\
             w'⟪AM_u16TH_Ave_Hum.[0, k]⟫ = w⟪AM_u16TH_Ave_Hum.[0, k]⟫) -> air_ring w -> air_ring w'.
Proof. intros E H k Hk. destruct (E k) as [-> ->]. by apply H. Qed.

Lemma am_take_range f w : 0 <= (am_take f w).1.1 /\ 0 <= (am_take f w).1.2.
Proof.
  unfold am_take, cif, seqc, reta. pose proof (rd_u16 w u16TH_Sensor.[0] eq_refl).
  repeat case_match; cbn [fst snd]; try lia.
  match goal with |- 0 <= ?v⟪_⟫ /\ _ => pose proof (rd_u16 v u16TH_Sensor.[0] eq_refl);
    pose proof (rd_u16 v u16TH_Sensor.[1] eq_refl) end. lia.
Qed.

Lemma AM_Sensor_update_ring r w : air_ring w -> air_ring (AM_Sensor_update r w).2.
Proof.
  intros H. unfold AM_Sensor_update, seqc, cif, reta, bindc.
  destruct (nz _); cbn [fst snd].
  - eapply air_ring_ext; [|exact H]. intros k. by obs.
  - destruct (am_take_range r.1 (am_read r.2 (am_tick w))) as [Hb1 Hb2].
    set (b := (am_take _ _).1) in *.
    assert (H1 : air_ring (am_take r.1 (am_read r.2 (am_tick w))).2)
      by (eapply air_ring_ext; [|exact H]; intros k; by obs).
    unfold am_judge, cif. case_match.
    + eapply air_ring_ext; [|exact H1]. intros k. by obs.
    + case_match; [|done]. unfold seqc. eapply air_ring_ext; [|apply (store_sample_inv b.1 b.2); done].
      intros k. by obs.
Qed.

Lemma sum_step s v : 0 <= s + v < 65536 -> (if nz v then u16 (s + v) else s) = s + v.
Proof. intros H. unfold nz. destruct (Z.eqb_spec v 0); cbn [negb]; [lia|by apply u16_small]. Qed.
Lemma cnt_step n v : 0 <= n < 255 -> (if nz v then u8 (n + 1) else n) = n + Z.b2z (nz v).
Proof. intros H. destruct (nz v); cbn [Z.b2z]; [apply u8_small|]; lia. Qed.
Lemma cnt_bounds v : 0 <= v <= 999 -> Z.b2z (nz v) <= v <= 999 * Z.b2z (nz v) /\ 0 <= Z.b2z (nz v) <= 1.
Proof. intros H. unfold nz. destruct (Z.eqb_spec v 0); cbn; lia. Qed.

(** The mean of the samples that are not 0 is between any bounds of them. *)
Lemma ave_bounds w f :
  fty f = U16 -> (forall k, 0 <= k < TH_AVE_NUM -> w⟪f.[0, k]⟫ <= 999) ->
  (exists k, 0 <= k < TH_AVE_NUM /\ 1 <= w⟪f.[0, k]⟫) ->
  1 <= Z.quot (@ave_sum w f) (@ave_cnt w f) <= 999.
Proof.
  intros Hf Hhi (k & Hk & Hpos). unfold ave_sum, ave_cnt. change (range TH_AVE_NUM) with [0; 1; 2; 3; 4]. cbn [foldl].
  assert (Hb : forall k, 0 <= k < TH_AVE_NUM -> 0 <= w⟪f.[0, k]⟫ <= 999).
  { intros i Hi. split; [apply (rd_u16 w f.[0, i] Hf)|by apply Hhi]. }
  pose proof (Hb 0 ltac:(lia)) as B0. pose proof (Hb 1 ltac:(lia)) as B1. pose proof (Hb 2 ltac:(lia)) as B2.
  pose proof (Hb 3 ltac:(lia)) as B3. pose proof (Hb 4 ltac:(lia)) as B4.
  assert (Hp : 1 <= w⟪f.[0, 0]⟫ + w⟪f.[0, 1]⟫ + w⟪f.[0, 2]⟫ + w⟪f.[0, 3]⟫ + w⟪f.[0, 4]⟫).
  { assert (k = 0 \/ k = 1 \/ k = 2 \/ k = 3 \/ k = 4) as [->|[->|[->|[->| ->]]]] by lia; lia. }
  revert B0 B1 B2 B3 B4 Hp. clear.
  generalize (w⟪f.[0, 0]⟫) (w⟪f.[0, 1]⟫) (w⟪f.[0, 2]⟫) (w⟪f.[0, 3]⟫) (w⟪f.[0, 4]⟫). intros v0 v1 v2 v3 v4 **.
  rewrite (sum_step 0 v0), (sum_step _ v1), (sum_step _ v2), (sum_step _ v3), (sum_step _ v4) by lia.
  apply cnt_bounds in B0, B1, B2, B3, B4.
  rewrite (cnt_step 0 v0), (cnt_step _ v1), (cnt_step _ v2), (cnt_step _ v3), (cnt_step _ v4) by lia.
  split; [apply Z.quot_le_lower_bound|apply Z.quot_le_upper_bound]; lia.
Qed.

Lemma ave_after_assign w c e f :
  fld c <> f -> @ave_sum (assign c e w) f = @ave_sum w f /\ @ave_cnt (assign c e w) f = @ave_cnt w f.
Proof.
  intros H. unfold ave_sum, ave_cnt. change (range TH_AVE_NUM) with [0; 1; 2; 3; 4]. cbn [foldl].
  by rewrite !rd_assign_other by (intros ->; done).
Qed.

(** With a complete sample in a consistent ring and no calibration, both means are in 1..999. *)
Lemma publish_air_bounds w k :
  air_ring w -> 0 <= k < TH_AVE_NUM -> 1 <= w⟪AM_u16TH_Ave_Temp.[0, k]⟫ -> 1 <= w⟪AM_u16TH_Ave_Hum.[0, k]⟫ ->
  w⟪general_temp_sensor_cali_temp.[0]⟫ = 0 -> w⟪general_temp_sensor_cali_hum.[0]⟫ = 0 ->
  let w' := publish_air w in
  1 <= w'⟪ComSta_u16TH_Temp.[0]⟫ <= 999 /\ 1 <= w'⟪ComSta_u16TH_Hum.[0]⟫ <= 999.
Proof.
  intros Hr Hk Ht Hh Ct Ch. unfold publish_air. obs.
  match goal with |- context [@ave_sum (assign ?c ?e w) ?f] =>
    destruct (ave_after_assign w c e f) as [-> ->]; [done|] end.
  rewrite Ct, Ch. change (s16 0) with 0. rewrite !Z.add_0_r.
  assert (T : 1 <= Z.quot (@ave_sum w AM_u16TH_Ave_Temp) (@ave_cnt w AM_u16TH_Ave_Temp) <= 999)
    by (apply ave_bounds; [done|intros; by apply Hr|by exists k]).
  assert (U : 1 <= Z.quot (@ave_sum w AM_u16TH_Ave_Hum) (@ave_cnt w AM_u16TH_Ave_Hum) <= 999)
    by (apply ave_bounds; [done|intros; by apply Hr|by exists k]).
  rewrite !u16_small by lia. done.
Qed.

(** A stored good sample is published. *)
Lemma am_judge_good t h w :
  w⟪AM_u8Err_CNT.[0]⟫ = 0 -> 1 <= t <= 999 -> 1 <= h <= 999 -> air_ring w ->
  w⟪general_temp_sensor_cali_temp.[0]⟫ = 0 -> w⟪general_temp_sensor_cali_hum.[0]⟫ = 0 ->
  let w' := am_judge (t, h) w in
  1 <= w'⟪ComSta_u16TH_Temp.[0]⟫ <= 999 /\ 1 <= w'⟪ComSta_u16TH_Hum.[0]⟫ <= 999.
Proof.
  intros He Ht Hh Hr Ct Ch. unfold am_judge, cif. rewrite He. cbn [Z.ltb Z.compare Z.eqb fst snd]. unfold seqc.
  assert (G : good_sample t h = true) by (unfold good_sample; lia).
  destruct (store_sample_ring t h w (ring_slot w)) as [N1 N2]; [lia..|].
  rewrite G, Z.eqb_refl in N1, N2. cbn [andb] in N1, N2.
  apply (publish_air_bounds _ (ring_slot w)).
  - apply store_sample_inv; [lia..|done].
  - apply ring_slot_range.
  - rewrite N1. lia.
  - rewrite N2. lia.
  - by obs.
  - by obs.
Qed.

(** Taking a decoded reading. *)
Lemma am_take_good flag t h w :
  flag <> 0 -> 1 <= t <= 999 -> 1 <= h <= 999 ->
  let a := am_take flag (am_read (Some (t, h)) w) in
  a.1 = (t, h) /\ a.2⟪AM_u8Err_CNT.[0]⟫ = 0 /\ am_bit a.2 = true.
Proof.
  intros Hf Ht Hh. set (w1 := am_read _ _).
  assert (S : w1⟪u16TH_Sensor.[0]⟫ = t /\ w1⟪u16TH_Sensor.[1]⟫ = h).
  { unfold w1, am_read, seqc. rewrite rd_assign_other by done. rewrite !rd_assign_same.
    split; apply u16_small; lia. }
  clearbody w1. destruct S as [S1 S2]. unfold am_take, cif. rewrite S1. unfold nz.
  destruct (Z.eqb_spec flag 0); [done|]. destruct (Z.eqb_spec t 0); [lia|]. cbn [negb andb]. unfold seqc, reta.
  cbn [fst snd]. obs. split; [by rewrite S1, S2|]. split; [done|].
  unfold am_bit. rewrite rd_assign_same. cbn [fty fld cast]. rewrite u16_testbit, Z.lor_spec by lia. by rewrite orb_true_r.
Qed.

(** A good reading of the air sensor (both values in 1..999) at a sampling call with a
    consistent ring of samples reports the sensor as present, clears the error count, and, with
    no calibration, publishes a temperature and a humidity that are means of stored samples
    and so in 1..999; the ring stays consistent. *)
Theorem air_reading_published flag t h w :
  flag <> 0 -> 1 <= t <= 999 -> 1 <= h <= 999 -> air_ring w ->
  am_next (w⟪AM_u8CNT⟫) mod 6 = 0 ->
  w⟪general_temp_sensor_cali_temp.[0]⟫ = 0 -> w⟪general_temp_sensor_cali_hum.[0]⟫ = 0 ->
  let w' := (AM_Sensor_update (flag, Some (t, h)) w).2 in
  Z.testbit (w'⟪status_status_remap.[MBM_COM_STS_REG_NO]⟫) 0 = true /\ w'⟪AM_u8Err_CNT.[0]⟫ = 0 /\
  1 <= w'⟪ComSta_u16TH_Temp.[0]⟫ <= 999 /\ 1 <= w'⟪ComSta_u16TH_Hum.[0]⟫ <= 999 /\ air_ring w'.
Proof.
  intros Hf Ht Hh Hr Hm Ct Ch. cbv zeta.
  pose proof (AM_Sensor_update_ring (flag, Some (t, h)) w Hr) as Hr'. revert Hr'.
  unfold AM_Sensor_update, seqc, cif. rewrite am_tick_cnt, Hm. cbn [nz Z.eqb negb].
  unfold bindc, reta; cbn [fst snd]. intros Hr'.
  destruct (am_take_good flag t h (am_tick w) Hf Ht Hh) as (E1 & E2 & E3). rewrite E1 in *.
  change (Z.testbit (?x⟪status_status_remap.[MBM_COM_STS_REG_NO]⟫) 0) with (am_bit x).
  split; [rewrite am_judge_bit, E2; exact E3|]. split; [obs; exact E2|].
  split_and!; [..|exact Hr'].
  all: eapply am_judge_good; [exact E2|done|done| |by obs|by obs].
  all: eapply air_ring_ext; [|exact Hr]; intros k; by obs.
Qed.

Lemma air_reading_published_witness :
  let w := poke [(AM_u8CNT.[0], 5)] w_zero in
  let w' := (AM_Sensor_update (0x0F, Some (231, 450)) w).2 in
  w'⟪ComSta_u16TH_Temp.[0]⟫ = 231 /\ w'⟪ComSta_u16TH_Hum.[0]⟫ = 450 /\
  Z.testbit (w'⟪status_status_remap.[MBM_COM_STS_REG_NO]⟫) 0 = true /\ air_ring w'.
Proof.
  cbv zeta. set (w := poke _ _).
  destruct (air_reading_published 0x0F 231 450 w) as (H1 & _ & _ & _ & H2); [lia|lia|lia| |vm_compute; reflexivity..|].
  - intros k Hk. unfold w. cbn [poke foldr fst snd]. rewrite !rd_wr_fld by done. rewrite !rd_w_zero. lia.
  - split_and!; [vm_compute; reflexivity|vm_compute; reflexivity|exact H1|exact H2].
Defined.
