(* ===== verification/OutputCtrl.v ===== *)
(** * usr/modules/output_ctrl.c: from requests to pins

    [oc_update] arbitrates the columns of the output bitmap (request, alarm value, alarm mask,
    manual) into the final one, drives the pins that changed, and does the same for the
    analog output.  [pwm_set_ao] is drivers/pwm_bsp.c, [authen_expire_set] and
    [authen_expire_cd] are of usr/modules/authentication.c.  The pulse width of channel [c] is the cell [pwm_duty.[c]]. *)

From S2P Require Import Prelude Conf Fifo Machine SysStatus Dio.

Abbreviation AO_CHAN_MAX_NUM := 1.
Abbreviation AUTHEN_EXPIRE_TIME := 600.

(** ** Drivers *)

Definition pwm_conf (channel duty_cycle : Z) : act Z :=
  if 100 <? duty_cycle then RETURN 0
  else if (channel =? 0) || (AO_CHAN_MAX_NUM <? channel) then RETURN 0
  else if channel =? 1 then
    pwm_duty.[channel] ::= duty_cycle * 10;;
    RETURN 1
  else RETURN 0.

Definition pwm_set_ao (channel ao_data : Z) : act Z :=
  if AO_CHAN_MAX_NUM <? channel then RETURN 0
  else if 100 <? ao_data then RETURN 0
  else
    RUN (pwm_conf channel (100 - ao_data));;
    RETURN 1.

Definition authen_expire_set : cmd := l_authen_cd ::= AUTHEN_EXPIRE_TIME.

Definition authen_expire_cd : cmd :=
  IF 0 <? «l_authen_cd» THEN
    l_authen_cd .--;;
    IF «l_authen_cd» =? 0 THEN status_permission_level ::= 0
    ELSE status_permission_level ::= «status_permission_level» END
  ELSE status_permission_level ::= 0 END.

(** ** Digital outputs *)

Definition word32 (lo hi : Z) : Z := lo .| (hi .<< 16).

(** The pins that changed. *)
Definition drive_pins (xor_bitmap new_bitmap : Z) : cmd :=
  FOR i IN range 32 DO
    if negb ((xor_bitmap .>> i) .& 1 =? 0) then
      if negb ((new_bitmap .>> i) .& 1 =? 0) then dio_set_do (i + 1) Bit_SET
      else dio_set_do (i + 1) Bit_RESET
    else skip
  END.

Definition oc_do_update (new_bitmap : Z) : cmd :=
  LET old_bitmap := word32 «status_dout_bitmap.[0]» «status_dout_bitmap.[1]» IN
  let old_bitmap := Sts_Remap old_bitmap Rep_DO 0 in
  let new_bitmap := Sts_Remap new_bitmap Rep_DO 0 in
  let xor_bitmap := new_bitmap .^ old_bitmap in
  (if negb (xor_bitmap =? 0) then
     drive_pins xor_bitmap new_bitmap;;
     status_dout_bitmap.[0] ::= new_bitmap;;
     status_dout_bitmap.[1] ::= new_bitmap .>> 16;;
     ComSta_u16Dout_bitmap.[0] ::= «status_dout_bitmap.[0]»;;
     ComSta_u16Dout_bitmap.[1] ::= «status_dout_bitmap.[1]»
   else skip);;
  authen_expire_cd.

(** One word of the arbitration. *)
Definition oc_word (u8i : Z) : cmd :=
  LET alarm_bitmap := «l_bitmap.[u8i, BITMAP_ALARM]» IN
  LET bitmap_mask := «l_bitmap.[u8i, BITMAP_MASK]» IN
  LET cat_bitmap := «l_bitmap.[u8i, BITMAP_REQ]» IN
  LET automatic := («ComPara_u16Manual_Test_En» =? 0) && («ComPara_u16Test_Mode_Type» =? 0) IN
  (if automatic then l_bitmap.[u8i, BITMAP_MANUAL] ::= «l_bitmap.[u8i, BITMAP_FINAL]» else skip);;
  LET target_bitmap := if automatic then cat_bitmap else «l_bitmap.[u8i, BITMAP_MANUAL]» IN
  LET bitmap_mask_reg := if «general_alarm_bypass_en» =? 0 then bitmap_mask else 0 IN
  let sys_bitmap := u16 ((target_bitmap .& (.~ bitmap_mask_reg)) .| (alarm_bitmap .& bitmap_mask_reg)) in
  LET final_bitmap := if «ComPara_u16Test_Mode_Type» =? 0 then sys_bitmap else «l_bitmap.[u8i, BITMAP_MANUAL]» IN
  l_bitmap.[u8i, BITMAP_FINAL] ::= final_bitmap .& «dev_mask_dout.[u8i]».

Definition oc_arbitration : act Z :=
  FOR u8i IN range 2 DO oc_word u8i END;;
  RETURN word32 «l_bitmap.[0, BITMAP_FINAL]» «l_bitmap.[1, BITMAP_FINAL]».

(** ** Analog outputs *)

Definition manual_ao_op (component_bpos value : Z) : cmd := l_ao_list.[component_bpos, BITMAP_MANUAL] ::= s16 value.
Definition final_ao_op (component_bpos value : Z) : cmd := l_ao_list.[component_bpos, BITMAP_FINAL] ::= s16 value.

Definition oc_ao_arbitration : cmd :=
  IF («ComPara_u16Manual_Test_En» =? 0) && («ComPara_u16Test_Mode_Type» =? 0) THEN
    FOR i IN range AO_REAL_CNT DO
      LET v := «status_aout.[i]» IN manual_ao_op i v;;
      LET v := «l_ao_list.[i, BITMAP_REQ]» IN final_ao_op i v
    END
  ELSE
    FOR i IN range AO_REAL_CNT DO
      LET v := «l_ao_list.[i, BITMAP_MANUAL]» IN final_ao_op i v
    END
  END.

Definition oc_ao_update : cmd :=
  FOR i IN range AO_REAL_CNT DO
    IF nz («dev_mask_aout» .& (1 .<< i)) THEN
      IF negb («ComSta_u16AO.[i]» =? «l_ao_list.[i, BITMAP_FINAL]») THEN
        ComSta_u16AO.[i] ::= «l_ao_list.[i, BITMAP_FINAL]»;;
        LET v := «ComSta_u16AO.[i]» IN RUN (pwm_set_ao (i + 1) v)
      END
    ELSE
      IF negb («ComSta_u16AO.[i]» =? 0) THEN
        ComSta_u16AO.[i] ::= 0;;
        RUN (pwm_set_ao (i + 1) 0)
      END
    END
  END.

Definition oc_update : cmd :=
  CALL final_bitmap := oc_arbitration IN
  oc_do_update final_bitmap;;
  oc_ao_arbitration;;
  oc_ao_update.

(** ** Footprints *)

Lemma pwm_set_ao_foot c v : respa (unch [pwm_duty] []) (pwm_set_ao c v).
Proof. unfold pwm_set_ao, pwm_conf. footprint. Qed.
Lemma authen_expire_cd_foot : respc (unch [l_authen_cd; status_permission_level] []) authen_expire_cd.
Proof. unfold authen_expire_cd. footprint. Qed.
Lemma drive_pins_foot x n : respc (unch [gpio_out] []) (drive_pins x n).
Proof. unfold drive_pins. footprint. Qed.
#[export] Hint Resolve pwm_set_ao_foot authen_expire_cd_foot drive_pins_foot : foot.
Lemma oc_ao_arbitration_foot : respc (unch [l_ao_list] []) oc_ao_arbitration.
Proof. unfold oc_ao_arbitration, manual_ao_op, final_ao_op. footprint. Qed.
Lemma oc_ao_update_foot : respc (unch [ComSta_u16AO; pwm_duty] []) oc_ao_update.
Proof. unfold oc_ao_update. footprint. Qed.
Definition do_update_fields : list field :=
  [gpio_out; status_dout_bitmap; ComSta_u16Dout_bitmap; l_authen_cd; status_permission_level].
Lemma oc_do_update_foot b : respc (unch do_update_fields []) (oc_do_update b).
Proof. unfold oc_do_update. footprint. Qed.
#[export] Hint Resolve oc_ao_arbitration_foot oc_ao_update_foot oc_do_update_foot : foot.

(** ** Arbitration *)

Definition automatic (w : world) : bool :=
  (w⟪ComPara_u16Manual_Test_En⟫ =? 0) && (w⟪ComPara_u16Test_Mode_Type⟫ =? 0).
(** An alarm decides about output [d]. *)
Definition masked (w : world) (d : Z) : bool := (w⟪general_alarm_bypass_en⟫ =? 0) && bmp_bit BITMAP_MASK w d.
Definition do_enabled (w : world) (d : Z) : bool := Z.testbit (w⟪dev_mask_dout.[byte_offset d]⟫) (bit_offset d).

(** What output [d] must be: the manual value in test mode; otherwise the alarm value when an
    alarm decides, the request in automatic mode and the manual value in manual mode; and
    off unless the output is enabled. *)
Definition final_on (w : world) (d : Z) : bool :=
  do_enabled w d &&
  (if w⟪ComPara_u16Test_Mode_Type⟫ =? 0 then
     if masked w d then bmp_bit BITMAP_ALARM w d
     else if automatic w then req_bit w d else bmp_bit BITMAP_MANUAL w d
   else bmp_bit BITMAP_MANUAL w d).

Definition final_word (w : world) (i : Z) : Z :=
  let target := if automatic w then w⟪l_bitmap.[i, BITMAP_REQ]⟫ else w⟪l_bitmap.[i, BITMAP_MANUAL]⟫ in
  let m := if w⟪general_alarm_bypass_en⟫ =? 0 then w⟪l_bitmap.[i, BITMAP_MASK]⟫ else 0 in
  let sys := u16 ((target .& (.~ m)) .| (w⟪l_bitmap.[i, BITMAP_ALARM]⟫ .& m)) in
  u16 ((if w⟪ComPara_u16Test_Mode_Type⟫ =? 0 then sys else w⟪l_bitmap.[i, BITMAP_MANUAL]⟫) .& w⟪dev_mask_dout.[i]⟫).

Lemma oc_word_keep i w c :
  feqb (fld c) l_bitmap && (ix c =? i) && (jx c =? BITMAP_MANUAL) = false ->
  feqb (fld c) l_bitmap && (ix c =? i) && (jx c =? BITMAP_FINAL) = false ->
  (oc_word i w)⟪c⟫ = w⟪c⟫.
Proof.
  intros H1 H2. unfold oc_word, letc, seqc. cbv zeta. unfold assign at 1.
  rewrite rd_wr. unfold cell_eqb at 1. cbn [fld ix jx].
  assert (forall j, feqb l_bitmap (fld c) && (i =? ix c) && (j =? jx c) =
    feqb (fld c) l_bitmap && (ix c =? i) && (jx c =? j)) as Hs.
  { intros j. unfold feqb. by rewrite Pos.eqb_sym, (Z.eqb_sym i), (Z.eqb_sym j). }
  rewrite Hs, H2. case_match; [|done]. unfold assign. rewrite rd_wr. unfold cell_eqb. cbn [fld ix jx]. by rewrite Hs, H1.
Qed.

Lemma oc_word_final i w : (oc_word i w)⟪l_bitmap.[i, BITMAP_FINAL]⟫ = final_word w i.
Proof.
  unfold oc_word, letc, seqc. cbv zeta. fold (automatic w). rewrite rd_assign_same. cbn [fty fld cast].
  unfold final_word. destruct (automatic w) eqn:Ea; unfold skip; [|done].
  assert (forall c, feqb (fld c) l_bitmap = false ->
    ((l_bitmap.[i, BITMAP_MANUAL] ::= «l_bitmap.[i, BITMAP_FINAL]») w)⟪c⟫ = w⟪c⟫) as Hrd.
  { intros c Hc. unfold assign. apply rd_wr_fld. unfold feqb in *. by rewrite Pos.eqb_sym. }
  rewrite !Hrd by done. unfold automatic in Ea. apply andb_true_iff in Ea as [_ ->]. done.
Qed.

Lemma final_word_ext i v w :
  (forall c, feqb (fld c) l_bitmap && (ix c =? 1 - i) = false -> v⟪c⟫ = w⟪c⟫) -> i = 0 \/ i = 1 -> final_word v i = final_word w i.
Proof. intros H [-> | ->]; unfold final_word, automatic; by rewrite !H. Qed.

Lemma byte_bit_split d : 0 <= d < 32 -> byte_offset d = (if d <? 16 then 0 else 1) /\ bit_offset d = (if d <? 16 then d else d - 16).
Proof.
  intros Hd. rewrite byte_offset_div, bit_offset_mod. destruct (Z.ltb_spec d 16); Z.div_mod_to_equations; lia.
Qed.

Lemma word32_testbit lo hi d :
  0 <= lo < 65536 -> 0 <= d < 32 ->
  Z.testbit (word32 lo hi) d = Z.testbit (if byte_offset d =? 0 then lo else hi) (bit_offset d).
Proof.
  intros Hl Hd. destruct (byte_bit_split d Hd) as [-> ->]. unfold word32. rewrite Z.lor_spec, Z.shiftl_spec by lia.
  destruct (Z.ltb_spec d 16); cbn [Z.eqb].
  - rewrite (Z.testbit_neg_r hi) by lia. apply orb_false_r.
  - assert (Z.testbit lo d = false) as ->; [|done].
    rewrite <- (u16_small lo Hl). apply u16_testbit_high. lia.
Qed.

Lemma final_word_bit w d :
  0 <= d < 32 -> Z.testbit (final_word w (byte_offset d)) (bit_offset d) = final_on w d.
Proof.
  intros Hd. pose proof (bit_offset_range d). unfold final_word, final_on, masked, do_enabled, bmp_bit.
  cbv zeta. rewrite u16_testbit, Z.land_spec, andb_comm by lia. f_equal.
  destruct (w⟪ComPara_u16Test_Mode_Type⟫ =? 0); [|done].
  rewrite u16_testbit, Z.lor_spec, !Z.land_spec, Z.lnot_spec by lia.
  destruct (automatic w), (w⟪general_alarm_bypass_en⟫ =? 0); cbn [andb];
    rewrite ?Z.bits_0; cbn [negb]; rewrite ?andb_true_r, ?andb_false_r, ?orb_false_r; try done;
    by destruct (Z.testbit (w⟪l_bitmap.[byte_offset d, BITMAP_MASK]⟫) _); rewrite ?andb_true_r, ?andb_false_r, ?orb_false_r.
Qed.

Lemma oc_arbitration_bits w d :
  0 <= d < 32 -> Z.testbit (oc_arbitration w).1 d = final_on w d.
Proof.
  intros Hd. unfold oc_arbitration, seqc, reta, forc. change (range 2) with [0; 1]. cbn [foldl fst].
  assert ((oc_word 1 (oc_word 0 w))⟪l_bitmap.[0, BITMAP_FINAL]⟫ = final_word w 0) as ->.
  { rewrite oc_word_keep by done. apply oc_word_final. }
  assert ((oc_word 1 (oc_word 0 w))⟪l_bitmap.[1, BITMAP_FINAL]⟫ = final_word w 1) as ->.
  { rewrite oc_word_final. apply final_word_ext; [|by right]. intros c Hc. change (1 - 1) with 0 in Hc. apply oc_word_keep; by rewrite Hc. }
  rewrite word32_testbit by (done || apply u16_range). rewrite <- final_word_bit by done.
  destruct (byte_bit_split d Hd) as [-> _]. by destruct (d <? 16).
Qed.

(** What the arbitration leaves alone. *)
Lemma oc_arbitration_keep w c :
  feqb (fld c) l_bitmap = false \/ (jx c <> BITMAP_MANUAL /\ jx c <> BITMAP_FINAL) -> (oc_arbitration w).2⟪c⟫ = w⟪c⟫.
Proof.
  intros Hc. unfold oc_arbitration, seqc, reta, forc. change (range 2) with [0; 1]. cbn [foldl snd].
  assert (forall i v, (oc_word i v)⟪c⟫ = v⟪c⟫) as H; [|by rewrite !H].
  intros i v. destruct Hc as [Hc | [H1%Z.eqb_neq H2%Z.eqb_neq]].
  - apply oc_word_keep; by rewrite Hc.
  - apply oc_word_keep; rewrite ?H1, ?H2; apply andb_false_r.
Qed.

(** ** Pins *)

Definition pin_on (w : world) (d : Z) : bool := nz (w⟪gpio_out.[d]⟫).
Definition dout_bit (w : world) (d : Z) : bool := Z.testbit (w⟪status_dout_bitmap.[byte_offset d]⟫) (bit_offset d).
Definition sts_bit (w : world) (d : Z) : bool := Z.testbit (w⟪ComSta_u16Dout_bitmap.[byte_offset d]⟫) (bit_offset d).

(** The 20 outputs, their pins and the published status word agree. *)
Definition out_inv (w : world) : Prop :=
  forall d, 0 <= d < 20 -> pin_on w d = dout_bit w d /\ sts_bit w d = dout_bit w d.

Lemma dio_set_do_pin i v w d :
  0 <= i < 32 -> 0 <= d < 21 -> v = 0 \/ v = 1 -> pin_on (dio_set_do (i + 1) v w) d = if i =? d then nz v else pin_on w d.
Proof.
  intros Hi Hd Hv. unfold dio_set_do, do_set, runc.
  assert (s16 (i + 1) = i + 1) as -> by (unfold s16; rewrite Z.mod_small; lia).
  rewrite (proj2 (Z.ltb_lt 0 (i + 1))), andb_true_r by lia. unfold pin_on.
  destruct (Z.leb_spec (i + 1) Pin_Map_Out); unfold seqc, reta, assign; cbn [snd].
  - rewrite rd_wr. unfold cell_eqb. cbn [fld ix jx]. replace (i + 1 - 1) with i by lia.
    destruct (Z.eqb_spec i d); cbn; [by destruct Hv as [-> | ->] | done].
  - destruct (Z.eqb_spec i d); [lia | done].
Qed.

Lemma drive_pins_spec x n w d :
  0 <= d < 21 -> pin_on (drive_pins x n w) d = if Z.testbit x d then Z.testbit n d else pin_on w d.
Proof.
  intros Hd. unfold drive_pins, forc.
  assert (forall l w, Forall (fun i => 0 <= i < 32) l ->
    pin_on (foldl (fun w i => (if negb ((x .>> i) .& 1 =? 0) then
      if negb ((n .>> i) .& 1 =? 0) then dio_set_do (i + 1) Bit_SET else dio_set_do (i + 1) Bit_RESET else skip) w) w l) d =
    if zin d l && Z.testbit x d then Z.testbit n d else pin_on w d) as H.
  { intros l v Hl. revert v. induction Hl as [|i l Hi Hl IH]; intros v; [done|]. cbn [foldl]. rewrite IH.
    change (zin d (i :: l)) with ((d =? i) || zin d l). rewrite (Z.eqb_sym d i).
    destruct (zin d l && Z.testbit x d) eqn:E; [by apply andb_true_iff in E as [-> ->]; rewrite orb_true_r|].
    fold (nz ((x .>> i) .& 1)) (nz ((n .>> i) .& 1)) (get_bit x i) (get_bit n i). rewrite !nz_get_bit by lia.
    assert ((i =? d) || zin d l && Z.testbit x d = (i =? d)) as E2 by (rewrite E; apply orb_false_r).
    destruct (Z.eqb_spec i d) as [->|Hne]; cbn [orb].
    - destruct (Z.testbit x d); [|done]. cbn [andb].
      destruct (Z.testbit n d); rewrite dio_set_do_pin by lia; by rewrite Z.eqb_refl.
    - rewrite E. apply Z.eqb_neq in Hne. destruct (Z.testbit x i); [|done].
      destruct (Z.testbit n i); rewrite dio_set_do_pin by lia; by rewrite Hne. }
  rewrite H; [|apply Forall_forall; intros i Hi; rewrite <- list_elem_of_In, elem_of_range in Hi; lia].
  rewrite zin_range. by rewrite (proj2 (Z.leb_le 0 d)), (proj2 (Z.ltb_lt d 32)) by lia.
Qed.

Lemma out_bits_ext v w d :
  (forall c, fld c = gpio_out \/ fld c = status_dout_bitmap \/ fld c = ComSta_u16Dout_bitmap -> v⟪c⟫ = w⟪c⟫) ->
  pin_on v d = pin_on w d /\ dout_bit v d = dout_bit w d /\ sts_bit v d = sts_bit w d.
Proof. intros H. unfold pin_on, dout_bit, sts_bit. by rewrite !H by auto. Qed.

Lemma out_bits_foot F D v w d :
  unch F D w v -> negb (fin gpio_out F) && negb (fin status_dout_bitmap F) && negb (fin ComSta_u16Dout_bitmap F) = true ->
  pin_on v d = pin_on w d /\ dout_bit v d = dout_bit w d /\ sts_bit v d = sts_bit w d.
Proof.
  intros H [[H1%negb_true_iff H2%negb_true_iff]%andb_true_iff H3%negb_true_iff]%andb_true_iff.
  apply out_bits_ext. intros [f i j] Hf. cbn [fld] in Hf.
  apply (unch_rd _ _ _ _ _ H); destruct Hf as [-> | [-> | ->]]; done.
Qed.

(** The words stored for a new bitmap, bit by bit. *)
Lemma store_word_bit n d :
  0 <= d < 32 -> Z.testbit (u16 (if byte_offset d =? 0 then n else n .>> 16)) (bit_offset d) = Z.testbit n d.
Proof.
  intros Hd. rewrite u16_testbit by (apply bit_offset_range). destruct (byte_bit_split d Hd) as [-> ->].
  destruct (Z.ltb_spec d 16); cbn [Z.eqb]; [done|]. rewrite Z.shiftr_spec by lia. f_equal. lia.
Qed.

Definition store_words (n : Z) : cmd :=
  status_dout_bitmap.[0] ::= n;;
  status_dout_bitmap.[1] ::= n .>> 16;;
  ComSta_u16Dout_bitmap.[0] ::= «status_dout_bitmap.[0]»;;
  ComSta_u16Dout_bitmap.[1] ::= «status_dout_bitmap.[1]».

Lemma store_words_bits n w d :
  0 <= d < 32 -> pin_on (store_words n w) d = pin_on w d /\
  dout_bit (store_words n w) d = Z.testbit n d /\ sts_bit (store_words n w) d = Z.testbit n d.
Proof.
  intros Hd. unfold pin_on, dout_bit, sts_bit, store_words. rewrite <- (store_word_bit n d) by done.
  destruct (byte_bit_split d Hd) as [-> _]. destruct (d <? 16); cbn [Z.eqb]; obs; by rewrite ?u16_idem.
Qed.

Lemma oc_do_update_eq b w :
  let new := Sts_Remap b Rep_DO 0 in
  let x := new .^ Sts_Remap (word32 (w⟪status_dout_bitmap.[0]⟫) (w⟪status_dout_bitmap.[1]⟫)) Rep_DO 0 in
  oc_do_update b w = authen_expire_cd (if x =? 0 then w else store_words new (drive_pins x new w)).
Proof. cbv zeta. unfold oc_do_update, letc. cbv beta zeta. unfold seqc at 1. by destruct (_ .^ _ =? 0). Qed.

Lemma oc_do_update_spec b w :
  out_inv w -> out_inv (oc_do_update b w) /\ forall d, 0 <= d < 20 -> dout_bit (oc_do_update b w) d = Z.testbit b d.
Proof.
  intros Hv. rewrite oc_do_update_eq. set (new := Sts_Remap b Rep_DO 0). set (old := Sts_Remap _ Rep_DO 0).
  assert (forall d, 0 <= d < 20 -> Z.testbit new d = Z.testbit b d /\ Z.testbit old d = dout_bit w d) as Hb.
  { intros d Hd. subst old new. rewrite !Sts_Remap_DO by lia. rewrite (proj2 (Z.ltb_lt d 21)) by lia. split; [done|].
    cbn [andb]. rewrite word32_testbit by (lia || apply (rd_u16 w); done). unfold dout_bit.
    destruct (byte_bit_split d) as [-> _]; [lia|]. by destruct (d <? 16). }
  set (v := if _ =? 0 then _ else _).
  assert (forall d, 0 <= d < 20 -> pin_on v d = Z.testbit b d /\ dout_bit v d = Z.testbit b d /\ sts_bit v d = Z.testbit b d) as Hbit.
  { intros d Hd. destruct (Hb d Hd) as [H1 H2]. destruct (Hv d Hd) as [H3 H4].
    subst v. destruct (Z.eqb_spec (new .^ old) 0) as [E%Z.lxor_eq|E].
    - rewrite H3, H4, <- H2, <- E, H1. done.
    - destruct (store_words_bits new (drive_pins (new .^ old) new w) d) as (-> & -> & ->); [lia|].
      rewrite drive_pins_spec, Z.lxor_spec, H1, H2, H3 by lia. by destruct (Z.testbit b d), (dout_bit w d). }
  pose proof (fun d => out_bits_foot _ _ _ _ d (authen_expire_cd_foot v) eq_refl) as Ha.
  split; intros d Hr; destruct (Ha d) as (H1 & H2 & H3), (Hbit d Hr) as (H4 & H5 & H6); [split|]; congruence.
Qed.

Lemma oc_update_ok w :
  out_inv w ->
  out_inv (oc_update w) /\ forall d, 0 <= d < 20 -> pin_on (oc_update w) d = final_on w d.
Proof.
  intros Hv. unfold oc_update, bindc, seqc. set (b := (oc_arbitration w).1). set (w1 := (oc_arbitration w).2).
  assert (out_inv w1) as Hv1.
  { intros d Hd. destruct (out_bits_ext w1 w d) as (-> & -> & ->); [|by apply Hv].
    intros [f i j] Hf. apply oc_arbitration_keep. left. by destruct Hf as [-> | [-> | ->]]. }
  destruct (oc_do_update_spec b w1 Hv1) as [Hv2 Hd2]. set (w2 := oc_do_update b w1) in *.
  assert (forall d, let w3 := oc_ao_update (oc_ao_arbitration w2) in pin_on w3 d = pin_on w2 d /\ dout_bit w3 d = dout_bit w2 d /\
    sts_bit w3 d = sts_bit w2 d) as H3.
  { intros d w3. subst w3. destruct (out_bits_foot _ _ _ _ d (oc_ao_update_foot (oc_ao_arbitration w2)) eq_refl) as (-> & -> & ->).
    by apply (out_bits_foot _ _ _ _ _ (oc_ao_arbitration_foot w2)). }
  split; intros d Hd; destruct (H3 d) as (E1 & E2 & E3), (Hv2 d Hd) as [E4 E5]; [split; congruence|]. rewrite E1, E4, Hd2 by done. apply oc_arbitration_bits. lia.
Qed.

(** C16: digital outputs.  If the 20 output pins, the output register and the published status
    agree, an update keeps them in agreement and drives every output to the value the
    arbitration prescribes: the manual value in test mode, otherwise the alarm value where
    an alarm decides and alarms are not bypassed, otherwise the request (or the manual
    value in manual mode), and off where the output is not enabled. *)
Theorem oc_update_outputs w :
  out_inv w ->
  out_inv (oc_update w) /\ forall d, 0 <= d < 20 -> pin_on (oc_update w) d = final_on w d.
Proof. apply oc_update_ok. Qed.

(** The pump is requested, alarms force the fan off: pin 8 goes on, pin 3 off. *)
Lemma oc_update_outputs_witness :
  let w := poke [(l_bitmap.[0, BITMAP_REQ], 0x108); (l_bitmap.[0, BITMAP_MASK], 8); (dev_mask_dout.[0], 0xffff);
                 (status_dout_bitmap.[0], 8); (ComSta_u16Dout_bitmap.[0], 8); (gpio_out.[3], 1)] w_zero in
  pin_on (oc_update w) DO_WP_BPOS = true /\ pin_on (oc_update w) DO_FAN_BPOS = false.
Proof.
  cbv zeta. set (w := poke _ _).
  assert (out_inv w) as Hv.
  { intros d Hd. pose proof (range_check (fun d => Bool.eqb (pin_on w d) (dout_bit w d) && Bool.eqb (sts_bit w d) (dout_bit w d))
      20 d) as H. apply andb_true_iff in H as [?%eqb_prop ?%eqb_prop]; [done | vm_compute; reflexivity | done]. }
  destruct (oc_update_outputs w Hv) as [_ H]. split; rewrite H by lia; vm_compute; reflexivity.
Defined.

(** ** The fan speed *)

(** The pulse width is the one of the published speed; speeds above 100 have none. *)
Definition ao_inv (w : world) : Prop :=
  w⟪ComSta_u16AO.[0]⟫ <= 100 -> w⟪pwm_duty.[1]⟫ = (100 - w⟪ComSta_u16AO.[0]⟫) * 10.

Definition ao_wanted (w : world) : Z :=
  if automatic w then w⟪l_ao_list.[0, BITMAP_REQ]⟫ else w⟪l_ao_list.[0, BITMAP_MANUAL]⟫.

Lemma pwm_set_ao_duty v w :
  0 <= v -> (pwm_set_ao 1 v w).2⟪pwm_duty.[1]⟫ = if v <=? 100 then (100 - v) * 10 else w⟪pwm_duty.[1]⟫.
Proof.
  intros Hv. unfold pwm_set_ao. change (AO_CHAN_MAX_NUM <? 1) with false. cbv iota.
  destruct (Z.ltb_spec 100 v), (Z.leb_spec v 100); try lia; [done|].
  unfold seqc, reta, runc, pwm_conf. cbn [snd]. destruct (Z.ltb_spec 100 (100 - v)); [lia|].
  change ((1 =? 0) || (AO_CHAN_MAX_NUM <? 1)) with false. change (1 =? 1) with true. cbv iota.
  unfold seqc, reta. cbn [snd]. obs. apply u16_small. lia.
Qed.

Lemma s16_rd w c : fty (fld c) = S16 -> s16 (w⟪c⟫) = w⟪c⟫.
Proof. intros H. pose proof (rd_cast w c) as E. by rewrite H in E. Qed.

Lemma oc_ao_arbitration_final w : (oc_ao_arbitration w)⟪l_ao_list.[0, BITMAP_FINAL]⟫ = ao_wanted w.
Proof.
  unfold oc_ao_arbitration, cif. fold (automatic w). unfold ao_wanted, forc. change (range AO_REAL_CNT) with [0].
  destruct (automatic w); cbn [foldl]; unfold letc, seqc, final_ao_op, manual_ao_op; rewrite rd_assign_same;
    cbn [fty fld cast]; rewrite !s16_rd by done; [by obs | done].
Qed.

Lemma oc_ao_update_spec w :
  ao_inv w ->
  ao_inv (oc_ao_update w) /\
  (oc_ao_update w)⟪ComSta_u16AO.[0]⟫ = if Z.testbit (w⟪dev_mask_aout⟫) 0 then u16 (w⟪l_ao_list.[0, BITMAP_FINAL]⟫) else 0.
Proof.
  intros Hi. pose proof (rd_u16 w ComSta_u16AO.[0] eq_refl) as Hr.
  unfold oc_ao_update, forc. change (range AO_REAL_CNT) with [0]. cbn [foldl].
  unfold cif, letc, seqc, runc, skip, ao_inv. change (0 + 1) with 1. rewrite !land_pow2 by lia.
  destruct (Z.testbit (w⟪dev_mask_aout⟫) 0).
  - destruct (Z.eqb_spec (w⟪ComSta_u16AO.[0]⟫) (w⟪l_ao_list.[0, BITMAP_FINAL]⟫)) as [E|E]; cbn [negb].
    + rewrite <- E, u16_small by lia. done.
    + set (w1 := (ComSta_u16AO.[0] ::= _) w). pose proof (rd_u16 w1 ComSta_u16AO.[0] eq_refl) as H1.
      assert ((pwm_set_ao 1 (w1⟪ComSta_u16AO.[0]⟫) w1).2⟪ComSta_u16AO.[0]⟫ = w1⟪ComSta_u16AO.[0]⟫) as -> by (by obs).
      rewrite pwm_set_ao_duty by lia. split; [|subst w1; by obs].
      intros Hl. by rewrite (proj2 (Z.leb_le _ _) Hl).
  - destruct (Z.eqb_spec (w⟪ComSta_u16AO.[0]⟫) 0) as [E|E]; cbn [negb]; [by split|].
    set (w1 := (ComSta_u16AO.[0] ::= 0) w).
    assert ((pwm_set_ao 1 0 w1).2⟪ComSta_u16AO.[0]⟫ = 0) as -> by (subst w1; by obs).
    rewrite pwm_set_ao_duty by lia. done.
Qed.

(** The fan speed.  If the pulse width matches the published speed, an update keeps it so
    and publishes the requested speed (the manual one outside automatic mode), or 0 when the
    output is not enabled: a speed between 0 and 100 always reaches the timer, inverted and
    scaled to its period of 1000. *)
Theorem oc_update_speed w :
  ao_inv w ->
  ao_inv (oc_update w) /\
  (oc_update w)⟪ComSta_u16AO.[0]⟫ = (if Z.testbit (w⟪dev_mask_aout⟫) 0 then u16 (ao_wanted w) else 0) /\
  (Z.testbit (w⟪dev_mask_aout⟫) 0 = true -> 0 <= ao_wanted w <= 100 ->
   (oc_update w)⟪pwm_duty.[1]⟫ = (100 - ao_wanted w) * 10).
Proof.
  intros Hi. unfold oc_update, bindc, seqc. set (b := (oc_arbitration w).1). set (w1 := (oc_arbitration w).2).
  assert (forall c, fin (fld c) (l_bitmap :: do_update_fields) || is_req c = false -> (oc_do_update b w1)⟪c⟫ = w⟪c⟫) as Hrd.
  { intros c Hc. cbn [fin existsb] in Hc. rewrite <- orb_assoc in Hc. apply orb_false_iff in Hc as [H1 H2].
    rewrite (keep_rd (oc_do_update b)) by (eapply keep_rd_unch; [apply oc_do_update_foot | exact H2]).
    apply oc_arbitration_keep. by left. }
  set (w2 := oc_do_update b w1) in *. clearbody w2.
  set (w3 := oc_ao_arbitration w2).
  assert (forall c, fin (fld c) (l_bitmap :: l_ao_list :: do_update_fields) || is_req c = false -> w3⟪c⟫ = w⟪c⟫) as Hrd3.
  { intros c Hc. subst w3. assert (fin (fld c) [l_ao_list] || is_req c = false /\
      fin (fld c) (l_bitmap :: do_update_fields) || is_req c = false) as [H1 H2].
    { revert Hc. unfold fin. cbn [existsb]. rewrite !orb_false_iff. tauto. }
    rewrite (keep_rd oc_ao_arbitration) by (eapply keep_rd_unch; [apply oc_ao_arbitration_foot | exact H1]). by apply Hrd. }
  assert (w3⟪l_ao_list.[0, BITMAP_FINAL]⟫ = ao_wanted w) as Hf.
  { subst w3. rewrite oc_ao_arbitration_final. unfold ao_wanted, automatic. by rewrite !Hrd. }
  assert (ao_inv w3) as Hi3 by (unfold ao_inv; by rewrite !Hrd3).
  destruct (oc_ao_update_spec w3 Hi3) as [H1 H2]. rewrite Hf, Hrd3 in H2 by done. split_and!; [done..|].
  intros Ho Hw. rewrite Ho, u16_small in H2 by lia. rewrite <- H2. apply H1. lia.
Qed.

Lemma oc_update_speed_witness :
  let w := poke [(scalar dev_mask_aout, 1); (l_ao_list.[0, BITMAP_REQ], 70); (pwm_duty.[1], 1000)] w_zero in
  (oc_update w)⟪pwm_duty.[1]⟫ = 300.
Proof.
  cbv zeta. set (w := poke _ _).
  destruct (oc_update_speed w) as (_ & _ & ->); [intros _; vm_compute; reflexivity | vm_compute; reflexivity..
    | split; vm_compute; discriminate].
Defined.
