(* ===== verification/Background.v ===== *)
(** * usr/threads/bkg_thread.c and sys_status.c: what runs once a second

    The countdown of the timers ([sys_comp_cooldown]), the run-time and flow accounting
    ([run_time_process]), the power schedule and the status bits ([sys_running_mode_update]),
    the debug time-out, the clock setting and the production test modes.  [background] is
    the loop body of [bkg_thread_entry]; the temperature and humidity it also copies
    ([temp_hum_calc]) and the watchdog are read by nothing modelled. *)

From S2P Require Import Prelude Conf Fifo Machine SysStatus EventRecord Eeprom GlobalVar AlarmCalc Fan Compressor WaterMake WaterOut Storage Dio OutputCtrl.

Abbreviation DO_MASK1 := 0xFFFF.
Abbreviation DO_MASK2 := 0x3F.
Abbreviation DO_POWER_CTR_ONLY := 0.
Abbreviation DEBUG_TIMEOUT_NA := 0xffff.
Abbreviation DEBUG_OFF_FLAG := 123.

(** ** Timers *)

(** [if (t > 0) t--; else t = 0;] *)
Definition count_down (c : cell) : cmd :=
  IF 0 <? «c» THEN c .-- ELSE c ::= 0 END.
(** [if (t) t--;] *)
Definition count_down_if (c : cell) : cmd := IF nz «c» THEN c .-- END.

Definition sys_comp_cooldown : cmd :=
  FOR i IN range DO_MAX_CNT DO count_down l_comp_timeout.[i] END;;
  count_down l_comp_startup_interval;;
  count_down l_comp_stop_interval;;
  IF 0 <? «l_TH_Check_Delay» THEN
    l_TH_Check_Delay .--;;
    l_TH_Check_Interval ::= 0
  ELSE l_TH_Check_Delay ::= 0 END;;
  count_down l_TH_Check_Interval;;
  count_down l_Set_Systime_Delay;;
  IF sys_get_di_sts DI_Child_BPOS =? 1 THEN l_ChildLock_Cnt.[0] .++
  ELSE l_ChildLock_Cnt.[0] ::= 0 END;;
  count_down l_ChildLock_Cnt.[1];;
  count_down l_OutWater_Delay.[0];;
  count_down l_OutWater_Delay.[1];;
  count_down_if l_u16BD_Time;;
  count_down_if l_u16BD_FAN_Delay;;
  IF «l_Pwp_Open» =? FALSE THEN l_Pwp_Open_Time ::= 0 ELSE l_Pwp_Open_Time .++ END;;
  count_down_if l_u16UV_Delay;;
  count_down_if l_Cold_Delay.[0].

(** ** Accounting *)

Definition time_calc (sec h : cell) : cmd :=
  LET second := «sec» IN
  LET hour := «h» IN
  if 3600 <=? (second .& 0x0fff) then
    h ::= hour + 1;;
    sec ::= 0
  else skip.

Definition Flow_calc (u16ML u16L : cell) : cmd :=
  LET ML := «u16ML» IN
  LET L := «u16L» IN
  if 1000 <=? ML then
    u16L ::= L + ML / 1000;;
    u16ML ::= ML mod 1000
  else skip.

Abbreviation rt_sec i := ComSta_u16Runtime.[0, i].
Abbreviation rt_hour i := ComSta_u16Runtime.[1, i].

(** One more second of counter [i]. *)
Definition run_second (i : Z) : cmd := (rt_sec i) .++;; time_calc (rt_sec i) (rt_hour i).

Definition filter_elements : list Z := seqZ DO_FILLTER_ELEMENT_DUMMY_BPOS_0 6.

(** The amount dispensed last is added to the totals in ml, l and m3. *)
Definition add_cumulative : cmd :=
  ComSta_u16Cumulative_Water.[2] ::= «ComSta_u16Cumulative_Water.[2]» + «ComSta_u16Last_Water»;;
  Flow_calc ComSta_u16Cumulative_Water.[2] ComSta_u16Cumulative_Water.[0];;
  Flow_calc ComSta_u16Cumulative_Water.[0] ComSta_u16Cumulative_Water.[1].

Definition count_one (i : Z) : cmd :=
  if 16 <=? i then IF negb (Z.eqb («status_dout_bitmap.[1]» .& (1 .<< (i - 16))) 0) THEN run_second i END
  else IF negb (Z.eqb («status_dout_bitmap.[0]» .& (1 .<< i)) 0) THEN run_second i END.

Definition count_outputs : cmd := FOR i IN range DO_FILLTER_DUMMY_BPOS DO count_one i END.

Definition count_air_filter : cmd :=
  IF negb (Z.eqb («status_dout_bitmap.[0]» .& (1 .<< DO_FAN_BPOS)) 0) THEN run_second DO_FILLTER_DUMMY_BPOS END.

(** The filter elements count seconds of dispensing or millilitres, by type. *)
Definition element_flow (i : Z) : cmd :=
  (rt_sec i) ::= «rt_sec i» + «ComSta_u16Last_Water»;;
  Flow_calc (rt_sec i) (rt_hour i).

Definition count_elements : cmd :=
  IF negb («ComPara_u16FILTER_ELEMENT_Type» =? 0) THEN
    IF sys_get_remap_status WORK_MODE_STS_REG_NO OUTWATER_STS_BPOS =? TRUE THEN
      FOR i IN filter_elements DO run_second i END
    END;;
    IF «l_OutWater_OK» =? WATER_OUT THEN
      l_OutWater_OK ::= HEATER_IDLE;;
      add_cumulative
    END
  ELSE
    IF «l_OutWater_OK» =? WATER_OUT THEN
      l_OutWater_OK ::= HEATER_IDLE;;
      FOR i IN filter_elements DO element_flow i END;;
      add_cumulative
    END
  END.

Definition save_counters : cmd :=
  run_u16Sec .++;;
  IF «run_u16Sec» mod FIXED_SAVETIME =? 0 THEN
    run_u16Sec ::= 0;;
    save_runtime;;
    save_cumulative
  END.

Definition run_time_process : cmd :=
  count_outputs;;
  count_air_filter;;
  count_elements;;
  save_counters.

(** ** Power schedule and status bits *)

(** The scheduled switching: at the minute [at_] the mode becomes [mode]. *)
Definition scheduled_power (at_ : cell) (mode : Z) : cmd :=
  IF nz «ComPara_u16TPower_En» && negb («ComPara_u16TPower_On» =? «ComPara_u16TPower_Off») THEN
    LET u16TPower := «at_» IN
    LET u16Systime := u16 («ComSta_Sys_Time_Hour» .<< 8) .| «ComSta_Sys_Time_Min» IN
    (if u16Systime =? u16TPower then
       ComPara_u16Power_Mode ::= mode;;
       LET v := «ComPara_u16Power_Mode» IN RUN (write_reg_map POWER_ON_ADDR v)
     else skip)
  END.

Definition sys_get_pwr_signal : act Z :=
  IF «ComPara_u16Power_Mode» =? 0 THEN
    scheduled_power ComPara_u16TPower_On 1;;
    RETURN 0
  ELSE
    scheduled_power ComPara_u16TPower_Off 0;;
    RETURN (if Sys_Get_Storage_Signal =? TRUE then 0 else 1)
  END.

Definition set_work_status (bpos : Z) (b : world -> bool) : cmd :=
  cif b (sys_set_remap_status WORK_MODE_STS_REG_NO bpos 1) (sys_set_remap_status WORK_MODE_STS_REG_NO bpos 0).

Definition sys_running_mode_update : cmd :=
  CALL pwr := sys_get_pwr_signal IN
  set_work_status PWR_STS_BPOS (fun _ => pwr =? 1);;
  set_work_status FAN_STS_BPOS (fun w : cur => sys_get_do_sts DO_FAN_BPOS =? 1);;
  set_work_status COOLING_STS_BPOS (fun w : cur => (sys_get_do_sts DO_COMP1_BPOS =? 1) || (sys_get_do_sts DO_COMP2_BPOS =? 1));;
  set_work_status OUTWATER_STS_BPOS (fun w : cur => nz «l_OutWater_Flag»);;
  set_work_status EXITWATER_STS_BPOS (fun w : cur => sys_get_do_sts DO_FV_BPOS =? 1).

(** ** Debugging, clock, power loss *)

Definition sys_debug_timeout : cmd :=
  IF «l_debug_tiemout» =? DEBUG_TIMEOUT_NA THEN skip
  ELSE IF 0 <? «l_debug_tiemout» THEN l_debug_tiemout .--
  ELSE
    l_debug_flag ::= DEBUG_OFF_FLAG;;
    l_debug_tiemout ::= 0
  END END.

(** [device]: whether the kernel finds the clock device. *)
Definition Set_Systime (device : bool) : act Z :=
  IF «l_Set_Systime_Delay» =? 0 THEN l_Set_Systime_Flag ::= 0 END;;
  IF «l_Set_Systime_Flag» =? 3 THEN
    LET now := («ComPara_u16Set_Time.[1]» .<< 16) .| «ComPara_u16Set_Time.[0]» IN
    if device then
      rtc_now ::= now;;
      RETURN 1
    else RETURN 0
  ELSE RETURN 0 END.

(** drivers/rtc_bsp.c: hours and minutes of local time, eight hours ahead of the clock; the
    date and the seconds are read by nothing modelled. *)
Definition Rtc_sts_update : cmd :=
  LET now := u32 («rtc_now» + 28800) IN
  ComSta_Sys_Time_Hour ::= now mod 86400 / 3600;;
  ComSta_Sys_Time_Min ::= now mod 3600 / 60.

Definition power_loss_delay : cmd :=
  LET delay := «power_loss_delay_delay» IN
  power_loss_delay_delay .++;;
  if 30 <? delay then
    power_loss_delay_delay ::= 11;;
    sys_option_di_sts DI_POWER_LOSS_BPOS 0
  else skip.

(** ** Production test modes *)

Abbreviation TEST_MODE_ENABLE := 2.
Abbreviation TEST_UNABLE := 0.
Abbreviation TEST_PRPDUCE_WATER := 1.
Abbreviation TEST_PURIFICATION := 2.
Abbreviation TEST_NORMAL_WATER := 3.
Abbreviation TEST_HEAT_WATER := 4.
Abbreviation TEST_PRPDUCE_COLDWATER := 5.
Abbreviation TEST_TANK := 6.
Abbreviation TEST_OUTWATER := 7.
Abbreviation TEST_UV := 8.
Abbreviation TEST_Relay := 0x3C.
Abbreviation TEST_ALL_OUT := 0x5A.
Abbreviation TEST_TIME := 1.
Abbreviation TEST_CICLE := 15.
Abbreviation TEST_UV1_OPEN := 300.
Abbreviation TEST_UV1_CLOSE := 3300.
Abbreviation manual0 := l_bitmap.[0, BITMAP_MANUAL].
Abbreviation manual1 := l_bitmap.[1, BITMAP_MANUAL].

(** Everything enabled, or nothing but the outputs. *)
Definition test_masks (m mb : Z) : cmd :=
  dev_mask_ain ::= m;;
  dev_mask_din.[0] ::= m;;
  dev_mask_din.[1] ::= m;;
  dev_mask_aout ::= m;;
  dev_mask_mb_comp ::= mb;;
  dev_mask_dout.[0] ::= DO_MASK1;;
  dev_mask_dout.[1] ::= DO_MASK2.

Definition test_ao (v : Z) : cmd := FOR i IN range AO_MAX_CNT DO l_ao_list.[i, BITMAP_MANUAL] ::= v END.

Definition bpos_word (l : list Z) : Z := foldr (fun b w => (1 .<< b) .| w) 0 l.

Definition water_word : list Z := [DO_COMP1_BPOS; DO_COMP2_BPOS; DO_FAN_BPOS].
Definition cold_word : list Z := [DO_COMP1_BPOS; DO_COMP2_BPOS; DO_FAN_BPOS; DO_WV_BPOS; DO_CV_BPOS].

(** The lamps of the purification test, by sterilisation mode. *)
Definition purify_word (mode : Z) : Z :=
  if mode =? 1 then bpos_word [DO_WP_BPOS; DO_DWP_BPOS; DO_UV1_BPOS]
  else if mode =? 2 then bpos_word [DO_WP_BPOS; DO_DWP_BPOS; DO_UV24_BPOS]
  else if mode =? 3 then bpos_word [DO_WP_BPOS; DO_DWP_BPOS; DO_UV1_BPOS; DO_UV24_BPOS]
  else bpos_word [DO_WP_BPOS; DO_DWP_BPOS; DO_UV1_BPOS].

Definition test_purify : cmd :=
  test_masks 0xffff 1;;
  manual1 ::= DO_POWER_CTR_ONLY;;
  TM_u32Sterilize_Interval ::= «ComPara_u16Sterilize_Interval.[0]» * 60;;
  IF «ComPara_u16Sterilize_Interval.[0]» * 60 <=? «TM_u32Sterilize_Interval» THEN
    TM_u16Sterilize_Time .++;;
    manual0 ::= purify_word «ComPara_u16Sterilize_Mode»
  END;;
  IF «ComPara_u16Sterilize_Time.[0]» * 60 <=? «TM_u16Sterilize_Time» THEN
    TM_u32Sterilize_Interval ::= 0;;
    TM_u16Sterilize_Time ::= 0;;
    manual0 ::= 0
  END.

Definition close_heater : cmd :=
  LET u8Temp := u8 («ComPara_u16NormalWater_Temp» / 10) IN
  LET flow := «ComPara_u16Water_Flow» IN
  RUN (Heat_Send HEAT_WRITEPARA CLOSE_HEAT u8Temp flow).

Definition test_relay : cmd :=
  TM_u8Test.[0] .++;;
  IF TEST_TIME <? «TM_u8Test.[0]» THEN
    IF TEST_TIME * 2 <? «TM_u8Test.[0]» THEN TM_u8Test.[0] ::= 0 END;;
    test_masks 0xffff 1;;
    manual0 ::= DO_MASK1;;
    TM_u8Test.[1] .++;;
    IF TEST_CICLE * 2 <? «TM_u8Test.[1]» THEN TM_u8Test.[1] ::= 0 END;;
    IF TEST_CICLE <? «TM_u8Test.[1]» THEN manual0 .&= (.~ (1 .<< DO_FAN_BPOS)) END;;
    manual1 ::= DO_MASK2;;
    test_ao 50
  ELSE
    test_masks 0 0;;
    manual1 ::= 0;;
    manual0 ::= 0;;
    IF «TM_u8Test.[1]» <=? TEST_CICLE THEN manual0 .|= (1 .<< DO_FAN_BPOS) END;;
    test_ao 0;;
    close_heater;;
    TM_u32Sterilize_Interval ::= 0;;
    TM_u16Sterilize_Time ::= 0
  END.

(** The outlet valve is closed for [open_] seconds and open for [close_] seconds. *)
Definition test_valve (open_ close_ : world -> Z) : cmd :=
  TM_u16Test_UV.[2] .++;;
  IF open_ here + close_ here <? «TM_u16Test_UV.[2]» THEN TM_u16Test_UV.[2] ::= 0 END;;
  dev_mask_dout.[0] ::= DO_MASK1;;
  dev_mask_dout.[1] ::= DO_MASK2;;
  manual0 ::= 1 .<< DO_EV2_BPOS;;
  manual1 ::= DO_POWER_CTR_ONLY;;
  IF open_ here <? «TM_u16Test_UV.[2]» THEN
    manual0 ::= 0;;
    manual0 .|= (1 .<< DO_EV2_BPOS)
  ELSE manual0 .&= (.~ (1 .<< DO_EV2_BPOS)) END.

Definition test_leave : cmd :=
  TM_u8Test.[0] ::= 0;;
  TM_u8Test.[1] ::= 0;;
  ComPara_u16Test_Mode_Type ::= TEST_UNABLE;;
  test_masks 0 0;;
  manual1 ::= DO_POWER_CTR_ONLY;;
  manual0 ::= 0;;
  test_ao 0;;
  close_heater;;
  TM_u32Sterilize_Interval ::= 0;;
  TM_u16Sterilize_Time ::= 0.

Definition test_switch (mode : Z) : cmd :=
  match mode with
  | TEST_ALL_OUT =>
      dev_mask_ain ::= 0xffff;;
      dev_mask_din_bitmap_polarity.[0] ::= 0xffff;;
      dev_mask_din_bitmap_polarity.[1] ::= 0xffff;;
      test_masks 0xffff 1;;
      manual0 ::= DO_MASK1;;
      manual1 ::= DO_MASK2;;
      test_ao 50
  | TEST_PRPDUCE_WATER =>
      test_masks 0xffff 1;;
      manual1 ::= 0;;
      manual1 ::= DO_POWER_CTR_ONLY;;
      manual0 ::= bpos_word water_word;;
      manual0 .|= (1 .<< DO_F24_BPOS);;
      l_ao_list.[AO_EC_FAN, BITMAP_MANUAL] ::= 50
  | TEST_PURIFICATION => test_purify
  | TEST_NORMAL_WATER =>
      test_masks 0xffff 1;;
      manual1 ::= DO_POWER_CTR_ONLY;;
      manual0 ::= bpos_word [DO_UV1_BPOS; DO_WP_BPOS; DO_EV2_BPOS; DO_PWP_BPOS]
  | TEST_TANK =>
      test_masks 0xffff 1;;
      manual1 ::= DO_POWER_CTR_ONLY;;
      manual0 ::= bpos_word [DO_WP_BPOS; DO_EV2_BPOS; DO_PWP_BPOS]
  | TEST_HEAT_WATER =>
      test_masks 0xffff 1;;
      manual1 ::= DO_POWER_CTR_ONLY;;
      manual0 ::= bpos_word [DO_RH1_BPOS; DO_HWP_BPOS];;
      LET u8Temp := u8 («ComPara_u16HotWater_Temp» / 10) IN
      RUN (Heat_Send HEAT_WRITEPARA OPEN_HEAT u8Temp 1000)
  | TEST_PRPDUCE_COLDWATER =>
      test_masks 0xffff 1;;
      manual1 ::= DO_POWER_CTR_ONLY;;
      manual0 ::= bpos_word cold_word;;
      manual0 .|= (1 .<< DO_F24_BPOS);;
      l_ao_list.[AO_EC_FAN, BITMAP_MANUAL] ::= 80
  | TEST_Relay => test_relay
  | TEST_UV => test_valve (fun _ => TEST_UV1_OPEN) (fun _ => TEST_UV1_CLOSE)
  | TEST_OUTWATER =>
      test_valve (fun w => w⟪ComPara_u16TestEV.[0]⟫) (fun w => w⟪ComPara_u16TestEV.[1]⟫)
  | _ => test_leave
  end.

Definition test_mode_init_data : cmd :=
  IF negb («ComPara_u16Manual_Test_En» =? TEST_MODE_ENABLE) THEN
    ComPara_u16Test_Mode_Type ::= TEST_UNABLE
  ELSE
    LET mode := «ComPara_u16Test_Mode_Type» IN
    test_switch mode
  END.

(** ** One turn of the thread *)

Definition background (device : bool) : cmd :=
  led_toggle;;
  sys_comp_cooldown;;
  run_time_process;;
  sys_running_mode_update;;
  sys_debug_timeout;;
  RUN (Set_Systime device);;
  Rtc_sts_update;;
  test_mode_init_data.

(** ** Counters of seconds *)

(** Statements that leave one cell alone, and loops of them. *)
Lemma keep_for l body c : (forall i, i ∈ l -> respc (keep (fun w => w⟪c⟫)) (body i)) -> respc (keep (fun w => w⟪c⟫)) (forc l body).
Proof. intros H. by apply resp_for; [typeclasses eauto|]. Qed.

Lemma run_second_keep j c : fld c <> ComSta_u16Runtime \/ jx c <> j -> respc (keep (fun w => w⟪c⟫)) (run_second j).
Proof.
  intros Hc w. unfold keep. assert (forall k, Cell ComSta_u16Runtime k j <> c) as Hn.
  { intros k <-. cbn in Hc. destruct Hc; congruence. }
  unfold run_second, time_calc, seqc, letc. destruct (3600 <=? _); unfold skip;
    by rewrite !rd_assign_other.
Qed.

Definition counter (w : world) (i : Z) : Z * Z := (w⟪rt_sec i⟫, w⟪rt_hour i⟫).

(** Seconds counted. *)
Definition seconds (c : Z * Z) : Z := 3600 * c.2 + c.1.
Definition counter_ok (c : Z * Z) : Prop := 0 <= c.1 < 3600 /\ 0 <= c.2 < 65535.

Definition bump (c : Z * Z) : Z * Z :=
  let s := u16 (c.1 + 1) in if 3600 <=? (s .& 0x0fff) then (0, u16 (c.2 + 1)) else (s, c.2).

Lemma run_second_bump i w : counter (run_second i w) i = bump (counter w i).
Proof.
  unfold counter, bump. cbn [fst snd]. unfold run_second, time_calc, seqc, letc. set (w1 := (rt_sec i) .++ w).
  assert (w1⟪rt_sec i⟫ = u16 (w⟪rt_sec i⟫ + 1)) as E1 by (subst w1; by rewrite rd_assign_same).
  assert (w1⟪rt_hour i⟫ = w⟪rt_hour i⟫) as E2 by (subst w1; rewrite rd_assign_other; [done | congruence]).
  rewrite E1, E2. destruct (3600 <=? _); unfold skip; [|by rewrite E1, E2].
  rewrite !rd_assign_same. by rewrite (rd_assign_other (rt_sec i)), rd_assign_same by congruence.
Qed.

Lemma bump_ok c : counter_ok c -> (bump c).1 < 3600 /\ seconds (bump c) = seconds c + 1.
Proof.
  destruct c as [s h]. unfold counter_ok, bump, seconds. cbn [fst snd]. intros [Hs Hh].
  rewrite u16_small by lia. change 0x0fff with (Z.ones 12). rewrite Z.land_ones by lia. rewrite Z.mod_small by lia.
  destruct (Z.leb_spec 3600 (s + 1)); cbn [fst snd]; rewrite ?u16_small by lia; lia.
Qed.

Lemma count_one_eq i w : 0 <= i < 32 -> count_one i w = if dout_bit w i then run_second i w else w.
Proof.
  intros Hi. unfold count_one, dout_bit. destruct (byte_bit_split i Hi) as [-> ->].
  destruct (Z.leb_spec 16 i), (Z.ltb_spec i 16); try lia; unfold cif, skip.
  - fold (nz (w⟪status_dout_bitmap.[1]⟫ .& (1 .<< (i - 16)))). by rewrite land_pow2 by lia.
  - fold (nz (w⟪status_dout_bitmap.[0]⟫ .& (1 .<< i))). by rewrite land_pow2 by lia.
Qed.

Lemma count_one_keep j c : fld c <> ComSta_u16Runtime \/ jx c <> j -> respc (keep (fun w => w⟪c⟫)) (count_one j).
Proof.
  intros Hc w. unfold keep, count_one. pose proof (run_second_keep j c Hc w) as H.
  destruct (16 <=? j); unfold cif, skip; by destruct (negb _).
Qed.

Lemma count_outputs_counter i w :
  0 <= i < 32 ->
  counter (count_outputs w) i = if dout_bit w i then bump (counter w i) else counter w i.
Proof.
  intros Hi. change count_outputs with (forc (range 32) count_one).
  assert (range 32 = range i ++ [i] ++ seqZ (i + 1) (31 - i)) as ->.
  { unfold range. replace 32 with (i + (1 + (31 - i))) by lia. rewrite seqZ_app, seqZ_app by lia. by rewrite Z.add_0_l. }
  unfold forc. rewrite !foldl_app. cbn [foldl].
  fold (forc (range i) count_one w). set (w1 := forc (range i) count_one w).
  assert (forall c, fld c <> ComSta_u16Runtime \/ jx c = i -> w1⟪c⟫ = w⟪c⟫) as H1.
  { intros c Hc. apply (keep_for _ _ c). intros j Hj%elem_of_range. apply count_one_keep. destruct Hc; [by left | right; lia]. }
  fold (forc (seqZ (i + 1) (31 - i)) count_one (count_one i w1)).
  assert (counter (forc (seqZ (i + 1) (31 - i)) count_one (count_one i w1)) i = counter (count_one i w1) i) as ->.
  { unfold counter. f_equal; apply (keep_for (seqZ (i + 1) (31 - i)) count_one); intros j Hj%elem_of_seqZ;
      apply count_one_keep; right; cbn; lia. }
  rewrite count_one_eq by done.
  assert (dout_bit w1 i = dout_bit w i) as -> by (unfold dout_bit; rewrite H1; [done | by left]).
  assert (counter w1 i = counter w i) as Hc by (unfold counter; f_equal; apply H1; by right).
  destruct (dout_bit w i); [by rewrite run_second_bump, Hc | done].
Qed.

(** ** Dispensed water *)

(** Millilitres counted in the three totals: [0] in l, [1] in m3, [2] in ml. *)
Definition total_ml (w : world) : Z :=
  1000000 * w⟪ComSta_u16Cumulative_Water.[1]⟫ + 1000 * w⟪ComSta_u16Cumulative_Water.[0]⟫ + w⟪ComSta_u16Cumulative_Water.[2]⟫.
Definition totals_ok (w : world) : Prop :=
  w⟪ComSta_u16Cumulative_Water.[2]⟫ < 1000 /\ w⟪ComSta_u16Cumulative_Water.[0]⟫ < 1000.

Lemma Flow_calc_spec a b w :
  a <> b -> fty (fld a) = U16 -> fty (fld b) = U16 -> w⟪b⟫ + w⟪a⟫ / 1000 < 65536 ->
  (Flow_calc a b w)⟪a⟫ = w⟪a⟫ mod 1000 /\ (Flow_calc a b w)⟪b⟫ = w⟪b⟫ + w⟪a⟫ / 1000 /\
  forall c, c <> a -> c <> b -> (Flow_calc a b w)⟪c⟫ = w⟪c⟫.
Proof.
  intros Hab Ha Hb Hl. pose proof (rd_u16 w a Ha) as Ra. pose proof (rd_u16 w b Hb) as Rb.
  pose proof (Z.mod_pos_bound (w⟪a⟫) 1000) as Hm. pose proof (Z.div_pos (w⟪a⟫) 1000) as Hd.
  unfold Flow_calc, letc. destruct (Z.leb_spec 1000 (w⟪a⟫)); unfold seqc, skip.
  - split_and!.
    + rewrite rd_assign_same, Ha. apply u16_small. lia.
    + rewrite rd_assign_other, rd_assign_same, Hb by congruence. apply u16_small. lia.
    + intros c H1 H2. by rewrite !rd_assign_other by congruence.
  - rewrite Z.mod_small, Z.div_small by lia. split_and!; [done | lia | done].
Qed.

Lemma add_cumulative_spec w :
  totals_ok w -> w⟪ComSta_u16Cumulative_Water.[1]⟫ < 65535 -> w⟪ComSta_u16Last_Water⟫ < 64000 ->
  totals_ok (add_cumulative w) /\ total_ml (add_cumulative w) = total_ml w + w⟪ComSta_u16Last_Water⟫.
Proof.
  intros [H2 H0] H1 HL. unfold add_cumulative, seqc, totals_ok, total_ml.
  set (w1 := (ComSta_u16Cumulative_Water.[2] ::= _) w).
  assert (w1⟪ComSta_u16Cumulative_Water.[2]⟫ = w⟪ComSta_u16Cumulative_Water.[2]⟫ + w⟪ComSta_u16Last_Water⟫) as E2.
  { subst w1. obs. apply u16_small. pose proof (rd_u16 w ComSta_u16Last_Water eq_refl).
    pose proof (rd_u16 w ComSta_u16Cumulative_Water.[2] eq_refl). lia. }
  assert (w1⟪ComSta_u16Cumulative_Water.[0]⟫ = w⟪ComSta_u16Cumulative_Water.[0]⟫ /\
    w1⟪ComSta_u16Cumulative_Water.[1]⟫ = w⟪ComSta_u16Cumulative_Water.[1]⟫) as [E0 E1] by (subst w1; split; by obs).
  pose proof (rd_u16 w1 ComSta_u16Cumulative_Water.[2] eq_refl). pose proof (rd_u16 w ComSta_u16Cumulative_Water.[0] eq_refl).
  clearbody w1. destruct (Flow_calc_spec ComSta_u16Cumulative_Water.[2] ComSta_u16Cumulative_Water.[0] w1) as (A1 & A2 & A3);
    [done | done | done | Z.div_mod_to_equations; lia|].
  set (w2 := Flow_calc _ _ w1) in *. rewrite E0, E2 in *.
  destruct (Flow_calc_spec ComSta_u16Cumulative_Water.[0] ComSta_u16Cumulative_Water.[1] w2) as (B1 & B2 & B3);
    [done | done | done | rewrite A2, A3, E1 by done; Z.div_mod_to_equations; lia|].
  rewrite B1, B2, (B3 ComSta_u16Cumulative_Water.[2]) by done. rewrite A1, A2, (A3 ComSta_u16Cumulative_Water.[1]), E1 by done.
  Z.div_mod_to_equations. lia.
Qed.

Lemma save_counters_foot : respc (unch [run_u16Sec; P_ee] []) save_counters.
Proof. unfold save_counters. footprint. Qed.

Lemma element_flow_keep j c : fld c <> ComSta_u16Runtime \/ jx c <> j -> respc (keep (fun w => w⟪c⟫)) (element_flow j).
Proof.
  intros Hc w. unfold keep. assert (forall k, Cell ComSta_u16Runtime k j <> c) as Hn.
  { intros k <-. cbn in Hc. destruct Hc; congruence. }
  unfold element_flow, Flow_calc, seqc, letc. destruct (1000 <=? _); unfold skip; by rewrite !rd_assign_other.
Qed.

Lemma add_cumulative_foot : respc (unch [ComSta_u16Cumulative_Water] []) add_cumulative.
Proof. unfold add_cumulative, Flow_calc. footprint. Qed.

(** The loops over the filter elements, on the cells they do not touch. *)
Lemma elements_keep (body : Z -> cmd) c :
  (forall j, fld c <> ComSta_u16Runtime \/ jx c <> j -> respc (keep (fun w => w⟪c⟫)) (body j)) ->
  fld c <> ComSta_u16Runtime \/ jx c <= 32 -> respc (keep (fun w => w⟪c⟫)) (FOR i IN filter_elements DO body i END).
Proof. intros Hb Hc. apply keep_for. intros j Hj%elem_of_seqZ. apply Hb. destruct Hc; [by left | right; lia]. Qed.

Lemma count_elements_keep w c :
  (fld c <> ComSta_u16Runtime \/ jx c <= 32) -> fld c <> ComSta_u16Cumulative_Water -> fld c <> l_OutWater_OK -> fld c <> l_bitmap ->
  (count_elements w)⟪c⟫ = w⟪c⟫.
Proof.
  intros Hc H1 H2 H3.
  assert (forall v, (add_cumulative v)⟪c⟫ = v⟪c⟫) as Ha.
  { intros v. apply (unch_rd _ _ _ _ c (add_cumulative_foot v)).
    - unfold fin; cbn [existsb]. rewrite orb_false_r. apply not_true_iff_false. intros E%feqb_spec. congruence.
    - unfold is_req. apply andb_false_iff; left. apply not_true_iff_false. intros E%feqb_spec. congruence. }
  pose proof (fun v => elements_keep run_second c (fun j => run_second_keep j c) Hc v) as Hr.
  pose proof (fun v => elements_keep element_flow c (fun j => element_flow_keep j c) Hc v) as He.
  unfold keep in *. cbv beta in Hr, He. unfold count_elements, cif, seqc, skip.
  assert (forall v, ((l_OutWater_OK ::= HEATER_IDLE) v)⟪c⟫ = v⟪c⟫) as Ho.
  { intros v. apply rd_assign_other. intros <-. done. }
  repeat case_match; by rewrite ?Ha, ?He, ?Ho, ?Hr.
Qed.

Lemma count_elements_totals w :
  totals_ok w -> w⟪ComSta_u16Cumulative_Water.[1]⟫ < 65535 -> w⟪ComSta_u16Last_Water⟫ < 64000 ->
  totals_ok (count_elements w) /\
  total_ml (count_elements w) = total_ml w + (if w⟪l_OutWater_OK⟫ =? WATER_OUT then w⟪ComSta_u16Last_Water⟫ else 0) /\
  (count_elements w)⟪l_OutWater_OK⟫ <> WATER_OUT.
Proof.
  intros Ht H1 HL.
  assert (forall v, (add_cumulative v)⟪l_OutWater_OK⟫ = v⟪l_OutWater_OK⟫) as Ha
    by (intros v; by apply (unch_rd _ _ _ _ _ (add_cumulative_foot v))).
  assert (forall v, (forall c, fld c <> ComSta_u16Runtime -> fld c <> l_OutWater_OK -> v⟪c⟫ = w⟪c⟫) ->
    totals_ok (add_cumulative v) /\ total_ml (add_cumulative v) = total_ml w + w⟪ComSta_u16Last_Water⟫) as Hadd.
  { intros v Hv. assert (total_ml v = total_ml w) as <- by (unfold total_ml; by rewrite !Hv).
    rewrite <- (Hv ComSta_u16Last_Water) by done. apply add_cumulative_spec; unfold totals_ok in *; by rewrite !Hv. }
  assert (forall body, (forall j c, fld c <> ComSta_u16Runtime \/ jx c <> j -> respc (keep (fun w => w⟪c⟫)) (body j)) ->
    forall v c, fld c <> ComSta_u16Runtime -> ((FOR i IN filter_elements DO body i END) v)⟪c⟫ = v⟪c⟫) as Hloop.
  { intros body Hb v c Hc. apply (elements_keep body c); [intros j; apply Hb | by left]. }
  pose proof (Hloop run_second run_second_keep) as Hr. pose proof (Hloop element_flow element_flow_keep) as He.
  assert (forall v c, fld c <> l_OutWater_OK -> ((l_OutWater_OK ::= HEATER_IDLE) v)⟪c⟫ = v⟪c⟫) as Ho.
  { intros v c Hc. apply rd_assign_other. intros <-. done. }
  assert (forall v, ((l_OutWater_OK ::= HEATER_IDLE) v)⟪l_OutWater_OK⟫ = HEATER_IDLE) as Hi by (intros v; by obs).
  unfold count_elements, cif, seqc, skip.
  destruct (negb (w⟪ComPara_u16FILTER_ELEMENT_Type⟫ =? 0)).
  - set (v := if _ =? TRUE then _ else w).
    assert (forall c, fld c <> ComSta_u16Runtime -> v⟪c⟫ = w⟪c⟫) as Hv by (intros c Hc; subst v; case_match; [by apply Hr | done]).
    rewrite (Hv l_OutWater_OK) by done. destruct (Z.eqb_spec (w⟪l_OutWater_OK⟫) WATER_OUT) as [E|E].
    + destruct (Hadd ((l_OutWater_OK ::= HEATER_IDLE) v)) as [A1 A2].
      { intros c C1 C2. rewrite Ho by done. by apply Hv. }
      split_and!; [done | lia | by rewrite Ha, Hi].
    + split_and!; [unfold totals_ok in *; by rewrite !Hv | unfold total_ml; rewrite !Hv by done; lia | by rewrite Hv].
  - destruct (Z.eqb_spec (w⟪l_OutWater_OK⟫) WATER_OUT) as [E|E]; [|split_and!; [done | lia | done]].
    destruct (Hadd ((FOR i IN filter_elements DO element_flow i END) ((l_OutWater_OK ::= HEATER_IDLE) w))) as [A1 A2].
    { intros c C1 C2. rewrite He by done. by apply Ho. }
    split_and!; [done | lia | by rewrite Ha, He, Hi].
Qed.

(** The air filter counts with the fan. *)
Lemma count_air_filter_eq w :
  count_air_filter w = if dout_bit w DO_FAN_BPOS then run_second DO_FILLTER_DUMMY_BPOS w else w.
Proof.
  unfold count_air_filter, cif, skip, dout_bit. fold (nz (w⟪status_dout_bitmap.[0]⟫ .& (1 .<< DO_FAN_BPOS))).
  by rewrite land_pow2.
Qed.

Lemma count_outputs_keep w c : fld c <> ComSta_u16Runtime \/ 32 <= jx c -> (count_outputs w)⟪c⟫ = w⟪c⟫.
Proof.
  intros Hc. apply (keep_for (range 32) count_one c). intros j Hj%elem_of_range. apply count_one_keep.
  destruct Hc; [by left | right; lia].
Qed.

Lemma count_air_filter_keep w c : fld c <> ComSta_u16Runtime \/ jx c <> 32 -> (count_air_filter w)⟪c⟫ = w⟪c⟫.
Proof. intros Hc. rewrite count_air_filter_eq. case_match; [|done]. by apply (run_second_keep 32 c). Qed.

Lemma count_elements_counter w i : i <= 32 -> counter (count_elements w) i = counter w i.
Proof. intros Hi. unfold counter. by rewrite !count_elements_keep by (first [done | by right]). Qed.

Lemma save_counters_keep w c : fin (fld c) [run_u16Sec; P_ee; l_bitmap] = false -> (save_counters w)⟪c⟫ = w⟪c⟫.
Proof.
  intros Hc. apply (unch_rd _ _ _ _ c (save_counters_foot w)).
  - by apply (fin_sub [run_u16Sec; P_ee] [run_u16Sec; P_ee; l_bitmap]).
  - unfold is_req. apply (fin_sub [l_bitmap] [run_u16Sec; P_ee; l_bitmap]) in Hc; [|done].
    unfold fin in Hc. cbn [existsb] in Hc. by destruct (feqb (fld c) l_bitmap).
Qed.

Lemma bump_if c (b : bool) :
  counter_ok c -> (if b then bump c else c).1 < 3600 /\ seconds (if b then bump c else c) = seconds c + Z.b2z b.
Proof. intros Hc. destruct b; [by apply bump_ok|]. unfold counter_ok in Hc. split; [lia | cbn; lia]. Qed.

(** C21: One call of [run_time_process] counts one second for exactly the outputs that are
    on, one second of the air filter if the fan is on, and adds the amount dispensed last to
    the totals when a dispensing has completed since the last call: the request is consumed,
    so that it is added exactly once, and the carries from ml to l to m3 lose nothing. *)
Theorem run_time_accounting w :
  (forall i, 0 <= i <= 32 -> counter_ok (counter w i)) ->
  totals_ok w -> w⟪ComSta_u16Cumulative_Water.[1]⟫ < 65535 -> w⟪ComSta_u16Last_Water⟫ < 64000 ->
  let w' := run_time_process w in
  (forall i, 0 <= i < 32 -> (counter w' i).1 < 3600 /\ seconds (counter w' i) = seconds (counter w i) + Z.b2z (dout_bit w i)) /\
  ((counter w' 32).1 < 3600 /\ seconds (counter w' 32) = seconds (counter w 32) + Z.b2z (dout_bit w DO_FAN_BPOS)) /\
  totals_ok w' /\
  total_ml w' = total_ml w + (if w⟪l_OutWater_OK⟫ =? WATER_OUT then w⟪ComSta_u16Last_Water⟫ else 0) /\
  w'⟪l_OutWater_OK⟫ <> WATER_OUT.
Proof.
  intros Hc Ht H1 HL. unfold run_time_process, seqc. cbv zeta.
  set (w1 := count_outputs w). set (w2 := count_air_filter w1).
  assert (forall c, fld c <> ComSta_u16Runtime -> w2⟪c⟫ = w⟪c⟫) as K2.
  { intros c C. subst w2 w1. by rewrite count_air_filter_keep, count_outputs_keep by (by left). }
  assert (forall v i, counter (save_counters v) i = counter v i) as Ks by (intros v i; unfold counter; by rewrite !save_counters_keep).
  destruct (count_elements_totals w2) as (T1 & T2 & T3); [unfold totals_ok in *; by rewrite !K2 | by rewrite K2 | by rewrite K2 |].
  rewrite !K2 in T2 by done. assert (total_ml w2 = total_ml w) as E2 by (unfold total_ml; by rewrite !K2). rewrite E2 in T2.
  refine (conj _ (conj _ (conj _ (conj _ _)))).
  - intros i Hi. rewrite Ks, count_elements_counter by lia. subst w2 w1. unfold counter at 1 2.
    rewrite !count_air_filter_keep by (right; cbn; lia). fold (counter (count_outputs w) i).
    rewrite count_outputs_counter by done. apply bump_if, Hc. lia.
  - rewrite Ks, count_elements_counter by lia. subst w2. rewrite count_air_filter_eq.
    assert (dout_bit w1 DO_FAN_BPOS = dout_bit w DO_FAN_BPOS) as ->
      by (subst w1; unfold dout_bit; by rewrite count_outputs_keep by (by left)).
    assert (counter w1 32 = counter w 32) as Ew by (subst w1; unfold counter; by rewrite !count_outputs_keep by (by right)).
    pose proof (bump_if (counter w 32) (dout_bit w DO_FAN_BPOS) (Hc 32 ltac:(lia))) as B.
    destruct (dout_bit w DO_FAN_BPOS); [rewrite run_second_bump, Ew; exact B | rewrite Ew; exact B].
  - unfold totals_ok in *. by rewrite !save_counters_keep.
  - rewrite <- T2. unfold total_ml. by rewrite !save_counters_keep.
  - by rewrite save_counters_keep.
Qed.

(** A state in which the fan has been on for 3599 s and 750 ml have just been dispensed. *)
Definition accounting_state : world :=
  poke [(status_dout_bitmap.[0], 8); (rt_sec 3, 3599); (rt_hour 3, 4); (scalar l_OutWater_OK, WATER_OUT);
        (scalar ComSta_u16Last_Water, 750); (ComSta_u16Cumulative_Water.[2], 600); (ComSta_u16Cumulative_Water.[0], 999)] w_zero.

Lemma run_time_accounting_witness :
  seconds (counter (run_time_process accounting_state) DO_FAN_BPOS) = 18000 /\
  total_ml (run_time_process accounting_state) = 1000350.
Proof.
  assert (forall i, 0 <= i <= 32 -> counter_ok (counter accounting_state i)) as Hc.
  { assert (Forall (fun i => counter_ok (counter accounting_state i)) (range 33)) as H.
    { let l := eval vm_compute in (range 33) in change (range 33) with l. repeat constructor; vm_compute; congruence. }
    intros i Hi. rewrite Forall_forall in H. apply H, list_elem_of_In, elem_of_range. lia. }
  destruct (run_time_accounting accounting_state Hc) as (H1 & _ & _ & H2 & _); [by vm_compute.. |]. split.
  - destruct (H1 3) as [_ ->]; [lia|]. vm_compute. reflexivity.
  - rewrite H2. vm_compute. reflexivity.
Defined.

(** ** Power schedule and status bits *)

(** The switching time [at_] of an enabled schedule is now. *)
Definition due (w : world) (at_ : cell) : bool :=
  nz (w⟪ComPara_u16TPower_En⟫) && negb (w⟪ComPara_u16TPower_On⟫ =? w⟪ComPara_u16TPower_Off⟫) &&
  (u16 (w⟪ComSta_Sys_Time_Hour⟫ .<< 8) .| w⟪ComSta_Sys_Time_Min⟫ =? w⟪at_⟫).

Lemma write_power_mode w v :
  0 <= v < 65536 -> w⟪ComPara_u16Power_Mode⟫ = v -> ((write_reg_map POWER_ON_ADDR v w).2)⟪ComPara_u16Power_Mode⟫ = v.
Proof.
  intros Hv Hw. unfold write_reg_map, reg_map_write, letc. case_match; unfold seqc, reta; cbn [snd]; [done|].
  rewrite (write_loop_stores _ _ _ _ _ 0 ComPara_u16Power_Mode); [by apply u16_small | done | by apply NoDup_seqZ | | | done].
  - intros k ?%elem_of_range. lia.
  - by apply elem_of_range.
Qed.

Lemma scheduled_power_foot a m : respc (unch [ComPara_u16Power_Mode; P_ee; P_eventlog] []) (scheduled_power a m).
Proof.
  unfold scheduled_power. repeat resp_step; try typeclasses eauto; try by apply unch_assign.
  by apply (write_reg_map_foot _ _ ComPara_u16Power_Mode).
Qed.

Lemma scheduled_power_mode a m w :
  0 <= m < 65536 ->
  (scheduled_power a m w)⟪ComPara_u16Power_Mode⟫ = if due w a then m else w⟪ComPara_u16Power_Mode⟫.
Proof.
  intros Hm. unfold scheduled_power, due, cif, letc, skip. destruct (nz _ && negb _); cbn [andb]; [|done].
  destruct (_ =? _); [|done]. unfold seqc, runc.
  assert (((ComPara_u16Power_Mode ::= m) w)⟪ComPara_u16Power_Mode⟫ = m) as E by (rewrite rd_assign_same; by apply u16_small).
  rewrite E. by apply write_power_mode.
Qed.

Lemma set_work_status_bit bpos b w r' b' :
  0 <= bpos < 16 -> 0 <= b' < 16 ->
  remap_bit (set_work_status bpos b w) r' b' = if (WORK_MODE_STS_REG_NO =? r') && (bpos =? b') then b w else remap_bit w r' b'.
Proof.
  intros Hb Hb'. unfold set_work_status, cif. destruct (b w); by rewrite remap_bit_set.
Qed.

Lemma set_work_status_keep bpos b w c : fld c <> ComSta_u16Status_remap -> (set_work_status bpos b w)⟪c⟫ = w⟪c⟫.
Proof.
  intros Hc. unfold set_work_status, cif, sys_set_remap_status.
  repeat case_match; unfold cif; repeat case_match; apply rd_assign_other; intros <-; done.
Qed.

Lemma sys_get_do_sts_on w ch : (@sys_get_do_sts w ch =? 1) = sts_bit w ch.
Proof. rewrite sys_get_do_sts_bit. unfold sts_bit. by destruct (Z.testbit _ _). Qed.

Lemma sys_get_pwr_signal_spec w :
  let on := nz (w⟪ComPara_u16Power_Mode⟫) in
  let (r, w') := sys_get_pwr_signal w in
  (r =? 1) = on && negb (w⟪ComPara_u16Storage⟫ =? 1) /\
  w'⟪ComPara_u16Power_Mode⟫ =
    (if on then if due w ComPara_u16TPower_Off then 0 else w⟪ComPara_u16Power_Mode⟫
     else if due w ComPara_u16TPower_On then 1 else w⟪ComPara_u16Power_Mode⟫) /\
  forall c, fin (fld c) [ComPara_u16Power_Mode; P_ee; P_eventlog] || is_req c = false -> w'⟪c⟫ = w⟪c⟫.
Proof.
  unfold sys_get_pwr_signal, cif, nz. destruct (Z.eqb_spec (w⟪ComPara_u16Power_Mode⟫) 0) as [E|E]; cbn [negb andb];
    unfold seqc, reta.
  - split_and!; [done | by rewrite scheduled_power_mode|].
    intros c [C1 C2]%orb_false_iff. by apply (unch_rd _ _ _ _ c (scheduled_power_foot _ _ w)).
  - split_and!.
    + unfold Sys_Get_Storage_Signal. rewrite (unch_rd _ _ _ _ ComPara_u16Storage (scheduled_power_foot ComPara_u16TPower_Off 0 w)) by done.
      by destruct (w⟪ComPara_u16Storage⟫ =? 1).
    + by rewrite scheduled_power_mode.
    + intros c [C1 C2]%orb_false_iff. by apply (unch_rd _ _ _ _ c (scheduled_power_foot _ _ w)).
Qed.

(** What [sys_running_mode_update] publishes.  The power mode follows the schedule (it is
    switched at most in the direction the current mode allows, and only in the minute that is
    due); the power bit is the mode before that switch, masked by the storage request; the
    fan, cooling, dispensing and drain bits are the commanded outputs and the dispensing flag;
    every other status bit keeps its value. *)
Theorem running_mode_status w :
  let w' := sys_running_mode_update w in
  let on := nz (w⟪ComPara_u16Power_Mode⟫) in
  let bit b := remap_bit w' WORK_MODE_STS_REG_NO b in
  w'⟪ComPara_u16Power_Mode⟫ =
    (if on then if due w ComPara_u16TPower_Off then 0 else w⟪ComPara_u16Power_Mode⟫
     else if due w ComPara_u16TPower_On then 1 else 0) /\
  bit PWR_STS_BPOS = on && negb (w⟪ComPara_u16Storage⟫ =? 1) /\
  bit FAN_STS_BPOS = sts_bit w DO_FAN_BPOS /\
  bit COOLING_STS_BPOS = sts_bit w DO_COMP1_BPOS || sts_bit w DO_COMP2_BPOS /\
  bit OUTWATER_STS_BPOS = nz (w⟪l_OutWater_Flag⟫) /\
  bit EXITWATER_STS_BPOS = sts_bit w DO_FV_BPOS /\
  (forall r b, 0 <= b < 16 -> r <> WORK_MODE_STS_REG_NO \/
     b ∉ [PWR_STS_BPOS; FAN_STS_BPOS; COOLING_STS_BPOS; OUTWATER_STS_BPOS; EXITWATER_STS_BPOS] ->
     remap_bit w' r b = remap_bit w r b).
Proof.
  cbv zeta. pose proof (sys_get_pwr_signal_spec w) as H. unfold sys_running_mode_update, bindc.
  destruct (sys_get_pwr_signal w) as [r w1]. cbv zeta in H. destruct H as (H1 & H2 & H3).
  assert (forall d, sts_bit w1 d = sts_bit w d) as Hs by (intros d; unfold sts_bit; by rewrite H3).
  assert (forall r b, remap_bit w1 r b = remap_bit w r b) as Hr by (intros r' b'; unfold remap_bit; by rewrite H3).
  assert (forall v b p d, sts_bit (set_work_status b p v) d = sts_bit v d) as Hk
    by (intros; unfold sts_bit; by rewrite set_work_status_keep).
  unfold seqc. rewrite !set_work_status_bit by lia. rewrite !set_work_status_keep by done.
  cbv beta. cbn [Z.eqb Pos.eqb andb fst snd]. rewrite ?sys_get_do_sts_on, !Hk, !Hs, H1, H2, H3 by done. cbn [Z.eqb Pos.eqb andb].
  split_and!; try done.
  - unfold nz. destruct (Z.eqb_spec (w⟪ComPara_u16Power_Mode⟫) 0) as [->|]; done.
  - intros r' b' Hb' Hd. rewrite !set_work_status_bit by lia. rewrite Hr.
    assert (forall b, b ∈ [PWR_STS_BPOS; FAN_STS_BPOS; COOLING_STS_BPOS; OUTWATER_STS_BPOS; EXITWATER_STS_BPOS] ->
      (WORK_MODE_STS_REG_NO =? r') && (b =? b') = false) as Hn.
    { intros b Hb. apply andb_false_iff. rewrite !Z.eqb_neq. destruct Hd as [Hd|Hd]; [left; lia | right; intros <-; done]. }
    by rewrite !Hn by (clear; set_solver).
Qed.
