(* ===== verification/CoreLoop.v ===== *)
(** * usr/threads/core_thread.c: the control loop

    [core_step] is the loop body of [core_thread_entry]: the alarm engine, the execution of
    requests and the update of the outputs, in that order.  The theorem composes the results
    about the three parts into statements about the pins, for every state the loop can reach
    while the other threads change anything but the objects the loop owns.

    [inc_pid_param_init], called before the loop, clears three registers nothing called reads;
    it is left out. *)

From S2P Require Import Prelude Conf Fifo Machine SysStatus EventRecord Eeprom GlobalVar AlarmCalc Fan Compressor WaterMake WaterOut Storage Dio OutputCtrl Background.

Section core.
Context {U : f2u_undefined}.

Definition req_process : cmd :=
  LET i16Current_Temp := s16 «ComSta_u16TH_Temp.[0]» IN
  LET i16Current_Hum := s16 «ComSta_u16TH_Hum.[0]» IN
  req_execution i16Current_Temp i16Current_Hum.

Definition core_start : cmd :=
  alarm_acl_init;;
  sys_option_di_sts DI_POWER_LOSS_BPOS 1.

Definition core_step : cmd :=
  alarm_acl_exe;;
  req_process;;
  oc_update.

(** ** Footprints *)

(** What the loop must not change outside the alarm engine and the output update. *)
Definition guarded_fields : list field :=
  [status_alarm_bitmap; gpio_out; status_dout_bitmap; ComSta_u16Dout_bitmap; l_bitmap;
   general_alarm_bypass_en; ComPara_u16Test_Mode_Type; ComPara_u16Manual_Test_En].
Definition request_fields : list field :=
  filter (fun f => negb (fin f (guarded_fields ++ engine_fields))) all_fields.

Lemma req_execution_foot t h : respc (unch request_fields all_do) (req_execution t h).
Proof. unfold req_execution. footprint. Qed.

Lemma req_process_foot : respc (unch request_fields all_do) req_process.
Proof. intros w. unfold req_process, letc. apply req_execution_foot. Qed.

Definition exe_fields : list field := alarm_acl_exe_u8CNT :: ComSta_u16Alarm_bitmap :: l_bitmap :: step_fields.

Lemma alarm_pass_foot : respc (unch exe_fields []) alarm_pass.
Proof.
  set (k := ComSta_u16Alarm_bitmap.[0] ::= «status_alarm_bitmap.[0]»;;
    ComSta_u16Alarm_bitmap.[1] ::= «status_alarm_bitmap.[1]»;; alarm_arbiration).
  assert (respc (unch exe_fields []) k) as Hk by (subst k; footprint).
  assert (respc (unch exe_fields []) (turn 23)) as Ht by footprint.
  intros w. rewrite alarm_pass_turn. fold k. etransitivity; [exact (Ht w) | exact (Hk (turn 23 w))].
Qed.

Lemma alarm_acl_exe_foot : respc (unch exe_fields []) alarm_acl_exe.
Proof. pose proof alarm_pass_foot. unfold alarm_acl_exe. footprint. Qed.

(** ** What the loop owns *)

Definition owned (c : cell) : bool :=
  fin (fld c) (engine_fields ++ [status_dout_bitmap; ComSta_u16Dout_bitmap]) ||
  feqb (fld c) gpio_out && (ix c <? 20) ||
  feqb (fld c) l_bitmap && ((jx c =? BITMAP_MASK) || (jx c =? BITMAP_ALARM)).

(** The other threads run: anything else may change. *)
Definition core_env (w w' : world) : Prop :=
  (forall c, owned c = true -> w'⟪c⟫ = w⟪c⟫) /\ chain w' = chain w.

#[global] Instance core_env_preorder : PreOrder core_env.
Proof.
  split; [by intros w | intros w1 w2 w3 [A1 A2] [B1 B2]]. split; [|congruence]. intros c Hc. by rewrite B1, A1.
Qed.

Lemma owned_not_req c : owned c = true -> is_req c = false.
Proof.
  unfold owned, is_req. intros H. destruct (feqb (fld c) l_bitmap) eqn:E; [|done]. apply feqb_spec in E. rewrite E in H.
  cbn [andb]. destruct (Z.eqb_spec (jx c) BITMAP_REQ) as [Ej|]; [|done]. by rewrite Ej in H.
Qed.

Definition owned_fields : list field := engine_fields ++ [status_dout_bitmap; ComSta_u16Dout_bitmap] ++ [gpio_out; l_bitmap].

Lemma owned_field c : owned c = true -> fin (fld c) owned_fields = true.
Proof.
  unfold owned, owned_fields, fin. rewrite !existsb_app, !orb_true_iff, !andb_true_iff. cbn [existsb].
  rewrite !orb_true_iff. tauto.
Qed.

Lemma core_env_unch F D w w' : unch F D w w' -> disjoint_from owned_fields F = true -> core_env w w'.
Proof.
  intros H HF. split.
  - intros c Hc. apply (unch_rd _ _ _ _ c H); [|by apply owned_not_req]. by apply (disjoint_fin _ _ _ HF), owned_field.
  - apply (unch_chain _ _ _ _ H). by apply (disjoint_fin _ _ _ HF).
Qed.

(** The alarm columns of the bitmap agree with the alarms shown: an alarm decides about an
    output exactly when it forces it off, and then decides "off". *)
Definition forced_inv (w : world) : Prop :=
  forall d, 0 <= d < 32 ->
            bmp_bit BITMAP_MASK w d = default false (alarm_forces w d) /\
            (bmp_bit BITMAP_MASK w d = true -> bmp_bit BITMAP_ALARM w d = false).

Record core_inv (w : world) : Prop := {
  core_alarm : alarm_inv w;
  core_out : out_inv w;
  core_forced : forced_inv w
}.

Lemma alarm_forces_ext w w' d :
  (forall i, alarm_bit w' i = alarm_bit w i) -> alarm_forces w' d = alarm_forces w d.
Proof. intros H. unfold alarm_forces. by rewrite !H. Qed.

Lemma owned_alarm_bit w w' i : (forall c, owned c = true -> w'⟪c⟫ = w⟪c⟫) -> alarm_bit w' i = alarm_bit w i.
Proof. intros H. unfold alarm_bit. by rewrite H. Qed.

Lemma forced_inv_env w w' : (forall c, owned c = true -> w'⟪c⟫ = w⟪c⟫) -> forced_inv w -> forced_inv w'.
Proof.
  intros H Hv d Hd. rewrite (alarm_forces_ext w w') by (intros i; by apply owned_alarm_bit).
  unfold bmp_bit. rewrite !H by done. by apply Hv.
Qed.

Lemma core_inv_env w w' : core_env w w' -> core_inv w -> core_inv w'.
Proof.
  intros [H Hc] [I1 I2 I3]. split.
  - apply (alarm_inv_env w); [|done]. split; [|done]. intros c E. apply H. unfold owned, fin in *.
    by rewrite existsb_app, E.
  - intros d Hd. unfold pin_on, dout_bit, sts_bit. rewrite !H; [by apply I2 | done | done |].
    unfold owned. cbn [fld ix]. rewrite (proj2 (Z.ltb_lt d 20)) by lia. done.
  - by apply (forced_inv_env w).
Qed.

(** ** The three parts of a step *)

Lemma req_process_env w : core_env w (req_process w).
Proof. apply (core_env_unch _ _ _ _ (req_process_foot w)). vm_compute. reflexivity. Qed.

Lemma arbitrated_forced w : forced_inv w -> forced_inv (alarm_pass w).
Proof.
  intros Hv d Hd. destruct (alarm_pass_bits w d) as [-> ->]. specialize (Hv d Hd).
  assert (alarm_forces (alarm_pass w) d = None -> alarm_forces w d = None) as Hn.
  { unfold alarm_forces. by repeat case_match. }
  destruct (alarm_forces (alarm_pass w) d) as [b|]; cbn [default]; [split; [done|]; by intros -> |].
  by rewrite Hn in Hv.
Qed.

Lemma alarm_acl_exe_cases w : exists w1, core_env w w1 /\ (alarm_acl_exe w = w1 \/ alarm_acl_exe w = alarm_pass w1).
Proof.
  set (k := alarm_acl_exe_u8CNT .++;; IF 0xFF <=? «alarm_acl_exe_u8CNT» THEN alarm_acl_exe_u8CNT ::= 0 END).
  assert (respc (unch [alarm_acl_exe_u8CNT] []) k) as Hk by (subst k; footprint).
  exists (k w). split; [by apply (core_env_unch _ _ _ _ (Hk w))|].
  change (alarm_acl_exe w) with ((IF «alarm_acl_exe_u8CNT» mod 2 =? 0 THEN alarm_pass END) (k w)).
  generalize (k w). intros w1. unfold cif, skip. case_match; auto.
Qed.

Lemma alarm_acl_exe_core w : core_inv w -> core_inv (alarm_acl_exe w).
Proof.
  intros Hv. split.
  - by apply alarm_acl_exe_inv, Hv.
  - intros d Hd. destruct (out_bits_foot _ _ _ _ d (alarm_acl_exe_foot w)) as (-> & -> & ->); [vm_compute; reflexivity|].
    by apply Hv.
  - destruct (alarm_acl_exe_cases w) as (w1 & H1 & H2). pose proof (core_forced _ (core_inv_env w w1 H1 Hv)) as Hf.
    destruct H2 as [-> | ->]; [done | by apply arbitrated_forced].
Qed.

Lemma oc_arbitration_chain w : chain (oc_arbitration w).2 = chain w.
Proof.
  unfold oc_arbitration, seqc, reta, forc. change (range 2) with [0; 1]. cbn [foldl snd].
  assert (forall i v, chain (oc_word i v) = chain v) as H; [|by rewrite !H].
  intros i v. unfold oc_word, seqc, cif, letc, skip. by repeat case_match.
Qed.

Definition update_fields : list field := [ComSta_u16AO; pwm_duty; l_ao_list] ++ do_update_fields.

(** An output update changes nothing but its own objects and two columns of the bitmap. *)
Lemma oc_update_after w : unch update_fields [] (oc_arbitration w).2 (oc_update w).
Proof.
  unfold oc_update, bindc. set (b := (oc_arbitration w).1). set (w1 := (oc_arbitration w).2). clearbody w1 b.
  assert (respc (unch update_fields []) (oc_do_update b;; oc_ao_arbitration;; oc_ao_update)) as H by footprint.
  exact (H w1).
Qed.

Lemma oc_update_keep w c :
  fin (fld c) update_fields = false ->
  feqb (fld c) l_bitmap = false \/ jx c = BITMAP_MASK \/ jx c = BITMAP_ALARM -> (oc_update w)⟪c⟫ = w⟪c⟫.
Proof.
  intros Hf Hc. rewrite (unch_rd _ _ _ _ c (oc_update_after w)); [|done|].
  - apply oc_arbitration_keep. destruct Hc as [|[-> | ->]]; [by left | by right..].
  - unfold is_req. destruct Hc as [-> | [-> | ->]]; [done | apply andb_false_r..].
Qed.

Lemma oc_update_core w : core_inv w -> core_inv (oc_update w).
Proof.
  intros Hv. destruct (oc_update_ok w) as [Ho _]; [apply Hv|]. split; [| done |].
  - apply (alarm_inv_env w); [|apply Hv]. split.
    + intros c Hc. apply oc_update_keep.
      * by apply (disjoint_fin engine_fields update_fields).
      * left. apply not_true_is_false. intros E%feqb_spec. by rewrite E in Hc.
    + rewrite (unch_chain _ _ _ _ (oc_update_after w)) by done. apply oc_arbitration_chain.
  - intros d Hd. assert (alarm_forces (oc_update w) d = alarm_forces w d) as ->.
    { apply alarm_forces_ext. intros i. unfold alarm_bit. rewrite oc_update_keep; [done..|by left]. }
    unfold bmp_bit. rewrite !oc_update_keep by (first [done | by right; left | by right; right]).
    by apply (core_forced w Hv).
Qed.

Lemma core_step_inv w : core_inv w -> core_inv (core_step w).
Proof.
  intros Hv. unfold core_step, seqc. apply oc_update_core, (core_inv_env (alarm_acl_exe w)); [apply req_process_env|].
  by apply alarm_acl_exe_core.
Qed.

(** ** Reachable states *)

(** Memory as reset leaves it: no alarm, nothing masked, all outputs off. *)
Definition reset_state (w : world) : Prop :=
  no_alarm_bits w /\ out_inv w /\ forall k, 0 <= k <= 1 -> w⟪l_bitmap.[k, BITMAP_MASK]⟫ = 0.

(** What the update of the outputs and the forced columns live in. *)
Definition out_fields : list field := [gpio_out; status_dout_bitmap; ComSta_u16Dout_bitmap; l_bitmap].

Lemma alarm_acl_init_keep w c : fin (fld c) out_fields = true -> is_req c = false -> (alarm_acl_init w)⟪c⟫ = w⟪c⟫.
Proof.
  intros Hc Hr. destruct alarm_acl_init_after as (k & Hk & Ek).
  rewrite Ek, (unch_rd _ _ _ _ c (Hk _)), (unch_rd _ _ _ _ c (chain_init_foot w)) by
    (first [done | by apply (disjoint_fin out_fields)]). done.
Qed.

Lemma alarm_acl_init_bit w i : no_alarm_bits w -> 0 <= i < ACL_TOTAL_NUM -> alarm_bit (alarm_acl_init w) i = false.
Proof.
  intros Hb Hi. rewrite (inv_bit _ (alarm_acl_init_inv w Hb) i Hi). by destruct (init_alarm_conf w i Hi) as [_ ->].
Qed.

Lemma core_start_inv w : reset_state w -> core_inv (core_start w).
Proof.
  intros (Hb & Ho & Hm). unfold core_start, seqc.
  apply (core_inv_env (alarm_acl_init w)).
  { eapply core_env_unch; [apply sys_option_di_sts_foot | vm_compute; reflexivity]. }
  split; [by apply alarm_acl_init_inv | |].
  - intros d Hd. destruct (out_bits_ext (alarm_acl_init w) w d) as (-> & -> & ->); [|by apply Ho].
    intros [f i j] Hf. apply alarm_acl_init_keep; cbn [fld] in Hf; by destruct Hf as [-> | [-> | ->]].
  - intros d Hd. assert (0 <= byte_offset d <= 1) as Hb1 by (destruct (byte_bit_split d Hd) as [-> _]; case_match; lia).
    unfold bmp_bit. rewrite alarm_acl_init_keep, Hm, Z.bits_0 by done. split; [|done].
    unfold alarm_forces. rewrite !alarm_acl_init_bit by (done || lia). by repeat case_match.
Qed.

(** States of the control loop: start, steps, and the other threads in between. *)
Inductive core_reach : world -> Prop :=
  | core_reach_start w : reset_state w -> core_reach (core_start w)
  | core_reach_step w : core_reach w -> core_reach (core_step w)
  | core_reach_env w w' : core_reach w -> core_env w w' -> core_reach w'.

Lemma core_reach_ok w : core_reach w -> core_inv w.
Proof. induction 1; eauto using core_start_inv, core_step_inv, core_inv_env. Qed.

(** ** The other threads

    The once-a-second thread, its test modes included, and the sampling of the inputs change
    none of the objects of the loop. *)

Lemma env_assign c e : owned c = false -> respc core_env (assign c e).
Proof.
  intros H w. split; [|done]. intros d Hd. apply rd_assign_other. intros ->. congruence.
Qed.

Lemma env_foot {X} (out : X -> world) F D k :
  resp out (unch F D) k -> disjoint_from owned_fields F = true -> resp out core_env k.
Proof. intros H HF w. by apply (core_env_unch F D). Qed.

Ltac env_leaf :=
  lazymatch goal with
  | |- resp _ core_env (assign _ _) => apply env_assign; vm_compute; reflexivity
  | |- resp _ core_env _ => eapply env_foot; [solve [eauto 2 with foot] | vm_compute; reflexivity]
  end.
Ltac env_steps := repeat first [progress cbv beta zeta | resp_step; try typeclasses eauto | env_leaf].

Lemma led_toggle_env : respc core_env led_toggle.
Proof. unfold led_toggle, do_set. env_steps. Qed.

Lemma run_time_process_env : respc core_env run_time_process.
Proof.
  unfold run_time_process, count_outputs, count_one, count_air_filter, count_elements, save_counters, element_flow,
    add_cumulative, run_second, time_calc, Flow_calc. env_steps.
Qed.

Lemma running_mode_env : respc core_env sys_running_mode_update.
Proof.
  unfold sys_running_mode_update, set_work_status, sys_get_pwr_signal. pose proof scheduled_power_foot. env_steps.
Qed.

Lemma test_mode_env : respc core_env test_mode_init_data.
Proof.
  unfold test_mode_init_data, test_switch, test_leave, test_valve, test_relay, test_purify, test_masks, test_ao, close_heater.
  env_steps.
Qed.

Lemma background_env dev : respc core_env (background dev).
Proof.
  pose proof led_toggle_env. pose proof run_time_process_env. pose proof running_mode_env. pose proof test_mode_env.
  unfold background, sys_comp_cooldown, count_down, count_down_if, sys_debug_timeout, Set_Systime, Rtc_sts_update. env_steps; assumption.
Qed.

Lemma inputs_env : respc core_env (di_reg_update;; di_sts_update).
Proof. unfold di_reg_update, di_sts_update, di_reg, stimer_di_timeout. env_steps. Qed.

(** Both threads may run between two steps, in any order. *)
Lemma core_reach_threads dev w :
  core_reach w -> core_reach (background dev w) /\ core_reach ((di_reg_update;; di_sts_update) w).
Proof. intros Hw. split; eapply core_reach_env; [done | apply background_env | done | apply inputs_env]. Qed.

(** ** The pins after a step *)

Lemma core_step_pin w d :
  core_reach w -> 0 <= d < 20 ->
  pin_on (core_step w) d = final_on (req_process (alarm_acl_exe w)) d.
Proof.
  intros Hw Hd. unfold core_step, seqc. apply oc_update_ok; [|done]. apply core_out.
  eapply core_inv_env; [apply req_process_env|]. by apply alarm_acl_exe_core, core_reach_ok.
Qed.

(** What the output update reads of the modes and the alarms is what is there afterwards. *)
Lemma core_step_modes w :
  let v := req_process (alarm_acl_exe w) in
  (core_step w)⟪general_alarm_bypass_en⟫ = v⟪general_alarm_bypass_en⟫ /\
  (core_step w)⟪ComPara_u16Test_Mode_Type⟫ = v⟪ComPara_u16Test_Mode_Type⟫ /\
  automatic (core_step w) = automatic v /\
  (forall i, alarm_bit (core_step w) i = alarm_bit v i).
Proof.
  cbv zeta. unfold core_step, seqc, automatic, alarm_bit. set (v := req_process _). clearbody v.
  rewrite !(oc_update_keep v) by (first [done | by left]). split_and!; try done.
  intros i. by rewrite oc_update_keep by (first [done | by left]).
Qed.

Lemma req_process_lid w d :
  alarm_bit w ACL_E4 = true -> w⟪storage_fsm⟫ <> WATER_STROGE_2 -> d = DO_WP_BPOS \/ d = DO_EV2_BPOS ->
  req_bit (req_process w) d = false.
Proof. unfold req_process, letc. apply lid_closes. Qed.

Lemma forced_pin v d :
  0 <= d < 32 -> forced_inv v -> v⟪general_alarm_bypass_en⟫ = 0 -> v⟪ComPara_u16Test_Mode_Type⟫ = 0 ->
  alarm_forces v d = Some true -> final_on v d = false.
Proof.
  intros Hr Hf Hb Ht Hd. destruct (Hf d Hr) as [Hm Ha]. rewrite Hd in Hm. cbn in Hm.
  unfold final_on, masked. rewrite Hb, Ht, Hm, (Ha Hm). apply andb_false_r.
Qed.

Lemma unforced_pin v d :
  0 <= d < 32 -> forced_inv v -> automatic v = true -> alarm_forces v d = None -> req_bit v d = false -> final_on v d = false.
Proof.
  intros Hd32 Hf Ha Hd Hr. destruct (Hf d Hd32) as [Hm _]. rewrite Hd in Hm. cbn in Hm. unfold final_on, masked. rewrite Hm, andb_false_r, Ha, Hr.
  apply andb_true_iff in Ha as [_ ->]. apply andb_false_r.
Qed.

(** C1: the control loop is safe.  In every state the loop reaches, whatever the other threads
    change in between and in every mode, a further step leaves pins, output register and published
    status in agreement, and every pin as the arbitration of this step's alarms and requests
    ([final_on]) says.  With alarms not bypassed and no test running, the pins of the compressors
    and the fan are off while an alarm that forces them off is shown (fan overload E7 or
    purification-pump time-out E9 for all three, high pressure for compressor 1).  In automatic
    mode (no test, no manual operation), the outlet pump and the outlet valve are off while the lid
    alarm E4 is shown, except in the second stage of storage, which empties the drinking tank
    without regard to the lid.  Nothing is claimed of these outputs where alarms are bypassed, a
    test runs or the mode is manual: there the operator decides. *)
Theorem core_safety w :
  core_reach w ->
  let w' := core_step w in
  out_inv w' /\
  (forall d, 0 <= d < 20 -> pin_on w' d = final_on (req_process (alarm_acl_exe w)) d) /\
  (w'⟪general_alarm_bypass_en⟫ = 0 -> w'⟪ComPara_u16Test_Mode_Type⟫ = 0 ->
   forall d, 0 <= d < 20 -> alarm_forces w' d = Some true -> pin_on w' d = false) /\
  (automatic w' = true -> alarm_bit w' ACL_E4 = true -> w⟪storage_fsm⟫ <> WATER_STROGE_2 ->
   pin_on w' DO_WP_BPOS = false /\ pin_on w' DO_EV2_BPOS = false).
Proof.
  intros Hw. pose proof (core_reach_ok w Hw) as Hv. cbv zeta.
  destruct (core_step_modes w) as (E1 & E2 & E3 & E4).
  set (v1 := alarm_acl_exe w) in *. set (v := req_process v1) in *.
  assert (forced_inv v) as Hf by (apply core_forced, (core_inv_env v1), alarm_acl_exe_core; [apply req_process_env | done]).
  split_and!.
  - by apply core_step_inv.
  - intros d. by apply core_step_pin.
  - intros Hb Ht d Hd Ha. rewrite core_step_pin by done. fold v1 v. rewrite E1 in Hb. rewrite E2 in Ht.
    rewrite (alarm_forces_ext v) in Ha by done. apply forced_pin; (assumption || lia).
  - intros Ha H4 Hs. rewrite E3 in Ha. rewrite E4 in H4.
    assert (alarm_bit v1 ACL_E4 = true) as H4' by (rewrite <- H4; symmetry; apply owned_alarm_bit, req_process_env).
    assert (v1⟪storage_fsm⟫ <> WATER_STROGE_2) as Hs' by (subst v1; by rewrite (unch_rd _ _ _ _ _ (alarm_acl_exe_foot w))).
    pose proof (req_process_lid v1 DO_WP_BPOS H4' Hs' (or_introl eq_refl)) as Hwp.
    pose proof (req_process_lid v1 DO_EV2_BPOS H4' Hs' (or_intror eq_refl)) as Hev. fold v in Hwp, Hev.
    rewrite !core_step_pin by (exact Hw || lia). fold v1 v. clearbody v.
    split; apply unforced_pin; (assumption || lia || reflexivity).
Qed.

End core.

(** Twelve steps after power-on with the lid open, a key held and every output enabled. *)
Definition lid_open_state : world :=
  poke [(dev_mask_dout.[0], 0xffff); (scalar ComPara_u16Water_Ctrl, 2); (ComSta_u16Din_bitmap.[0], 0x200)] w_zero.

Lemma core_safety_witness :
  let U : f2u_undefined := fun _ => 0 in
  let w := Nat.iter 11 core_step (core_start lid_open_state) in
  alarm_bit (core_step w) ACL_E4 = true /\ pin_on (core_step w) DO_WP_BPOS = false.
Proof.
  cbv zeta. set (w := Nat.iter 11 (@core_step (fun _ => 0)) (core_start lid_open_state)).
  assert (core_reach (U := fun _ => 0) w) as Hw.
  { subst w. cbn [Nat.iter nat_rect]. do 11 apply core_reach_step. apply core_reach_start.
    split_and!; [intros k Hk; reflexivity | | intros k _; reflexivity].
    intros d Hd. unfold pin_on, dout_bit, sts_bit, lid_open_state, poke. cbn [foldr fst snd].
    rewrite !rd_wr_fld by reflexivity. rewrite !rd_w_zero, !Z.bits_0. done. }
  assert (alarm_bit (@core_step (fun _ => 0) w) ACL_E4 = true) as H4 by (vm_compute; reflexivity).
  split; [exact H4|]. destruct (core_safety (U := fun _ => 0) w Hw) as (_ & _ & _ & H).
  assert (automatic (@core_step (fun _ => 0) w) = true) as Ha by (vm_compute; reflexivity).
  assert (w⟪storage_fsm⟫ <> WATER_STROGE_2) as Hs by (vm_compute; discriminate).
  exact (proj1 (H Ha H4 Hs)).
Defined.
