(* ===== verification/ConfLoad.v ===== *)
(** * applications/global_var.c: saving and loading the configuration

    The configuration is kept three times in the EEPROM, each copy followed by its checksum,
    with a fourth copy for the factory settings and one byte that says which to load at power
    on.  [save_conf_reg] writes and verifies, [init_load_user_conf] reads by majority vote,
    [init_load_factory_conf] by checksum; [sys_global_var_init] is the whole start-up.
    usr/modules/authentication.c stores password digests beside it; the digest comes from a
    binary library (STM32_Cryptographic_Library) and is a parameter. *)

From S2P Require Import Prelude Conf Fifo Machine SysStatus EventRecord Eeprom GlobalVar Dio.

Abbreviation EE_FLAG_LOAD_USR := 0xdf.
Abbreviation EE_FLAG_LOAD_FACT := 0x1b.
Abbreviation EE_FLAG_LOAD_DFT := 0x9b.
Abbreviation EE_FLAG_LOAD_DEBUT := 0xff.
Abbreviation STS_EE_ADDR := 0.
Abbreviation USR_PW_EE_BASE := 0x100.
Abbreviation Start_Init := 2.
Abbreviation CONF_REG_SID_START := 335.
Abbreviation STATUS_REG_MAP_NUM := 50.
Abbreviation CMD_REG_SIZE := 64.
Abbreviation HARDWARE_VER := 0x1000.
Abbreviation SOFTWARE_VER := 0x211A.

Inductive init_state_em := INIT_LOAD_USR | INIT_LOAD_FACT | INIT_LOAD_DEBUT | INIT_LOAD_DEFAULT.

(** ** Words and bytes *)

(** [(uint8_t * )] of an array of half-words, and back. *)
Definition words_bytes (l : list Z) : list Z := concat (le16 <$> l).
Fixpoint bytes_words (l : list Z) : list Z :=
  match l with a :: b :: l' => of_le16 [a; b] :: bytes_words l' | _ => [] end.

(** kits/calc.c; an empty array would be read at its first element. *)
Definition checksum_u16 (data : list Z) : Z :=
  match data with [] => 0 | x :: l => foldl Z.lxor x l end.

(** ** The load flag *)

Definition get_ee_status : act init_state_em :=
  LET ee_pflag := nth 0 (I2C_EE_BufRead STS_EE_ADDR 1) 0 IN
  CALL sel := GetSEL IN
  l_SEL_Jump ::= sel;;
  LET ee_pflag := (if nz («l_SEL_Jump» .& Start_Init) then EE_FLAG_LOAD_DEBUT else ee_pflag) IN
  RETURN (if ee_pflag =? EE_FLAG_LOAD_USR then INIT_LOAD_USR
          else if ee_pflag =? EE_FLAG_LOAD_FACT then INIT_LOAD_FACT
          else if ee_pflag =? EE_FLAG_LOAD_DFT then INIT_LOAD_DEFAULT
          else INIT_LOAD_DEBUT).

Definition set_load_flag (ee_load_flag : Z) : act Z :=
  let ee_flag := match ee_load_flag with
                 | 0 => EE_FLAG_LOAD_USR
                 | 1 => EE_FLAG_LOAD_FACT
                 | 2 => EE_FLAG_LOAD_DEBUT
                 | _ => EE_FLAG_LOAD_DFT
                 end in
  RUN (I2C_EE_BufWrite [ee_flag] STS_EE_ADDR 1);;
  RETURN 1.

(** ** Saving *)

Definition conf_words {w : cur} : list Z :=
  (fun i => deref (reg_ptr (conf_reg i))) <$> range CONF_REG_MAP_NUM.

(** Half-words that differ. *)
Fixpoint count_diff (l l' : list Z) : Z :=
  match l, l' with
  | x :: l, y :: l' => (if x =? y then 0 else 1) + count_diff l l'
  | _, _ => 0
  end.

(** One copy: write, read back, compare; on success the checksum and the load flag. *)
Definition save_copy (conf_reg : list Z) (ee_flag ee_save_addr err_cnt : Z) : act Z :=
  RUN (I2C_EE_BufWrite (words_bytes conf_reg) ee_save_addr (CONF_REG_MAP_NUM * 2));;
  LET test_reg := bytes_words (I2C_EE_BufRead ee_save_addr (CONF_REG_MAP_NUM * 2)) IN
  let err_cnt := u16 (err_cnt + count_diff conf_reg test_reg) in
  if err_cnt =? 0 then
    RUN (I2C_EE_BufWrite (le16 (checksum_u16 conf_reg)) (ee_save_addr + CONF_REG_MAP_NUM * 2) 2);;
    RUN (I2C_EE_BufWrite [ee_flag] STS_EE_ADDR 1);;
    RETURN err_cnt
  else RETURN err_cnt.

Definition save_conf_reg (addr_sel : Z) : act Z :=
  LET conf_reg := conf_words IN
  match addr_sel with
  | 0 =>
      CALL e1 := save_copy conf_reg EE_FLAG_LOAD_USR CONF_REG_EE1_ADDR 0 IN
      CALL e2 := save_copy conf_reg EE_FLAG_LOAD_USR CONF_REG_EE2_ADDR e1 IN
      CALL e3 := save_copy conf_reg EE_FLAG_LOAD_USR CONF_REG_EE3_ADDR e2 IN
      let req := Z.b2z (nz e1) + Z.b2z (nz e2) + Z.b2z (nz e3) in
      RETURN (if req <? 2 then 0 else req)
  | 1 => save_copy conf_reg EE_FLAG_LOAD_FACT CONF_REG_FACT_ADDR 0
  | _ => RETURN 0xff
  end.

(** ** Loading *)

(** One word by majority; out of its range, the default.  Returns whether that failed. *)
Definition conf_reg_read_ee (addr : Z) : act Z :=
  CALL r := eeprom_compare_read addr 0 IN
  let ee_err := r.1 in
  let reg := r.2 in
  let g := conf_reg addr in
  if bool_decide (is_Some (reg_ptr g)) && ((reg <? min_ g) || (max_ g <? reg)) then
    store (reg_ptr g) (dft g);;
    RETURN 1
  else
    store (reg_ptr g) reg;;
    RETURN (if ee_err =? 0 then 0 else 1).

(** The sum of the failures over the registers [l]. *)
Fixpoint load_words (l : list Z) (sum : Z) : act Z :=
  match l with
  | [] => RETURN sum
  | i :: l' =>
      CALL e := conf_reg_read_ee i IN
      load_words l' (u16 (sum + e))
  end.

Definition init_load_user_conf : act Z :=
  CALL sum := load_words (range CONF_REG_MAP_NUM) 0 IN
  RETURN (if sum =? 0 then 1 else 0).

(** Defaults, except that the serial number and device information are read. *)
Definition load_dft (i : Z) : cmd :=
  if i <? CONF_REG_SID_START then store (reg_ptr (conf_reg i)) (dft (conf_reg i))
  else RUN (conf_reg_read_ee i).

Definition init_load_factory_conf : act Z :=
  LET buf_reg := bytes_words (I2C_EE_BufRead CONF_REG_FACT_ADDR ((CONF_REG_MAP_NUM + 1) * 2)) IN
  if negb (checksum_u16 buf_reg =? 0) then
    FOR i IN range CONF_REG_MAP_NUM DO load_dft i END;;
    RETURN 0
  else
    FOR i IN range CONF_REG_MAP_NUM DO store (reg_ptr (conf_reg i)) (nth (Z.to_nat i) buf_reg 0) END;;
    RETURN 1.

(** ** Passwords (usr/modules/authentication.c) *)

Section startup.
(** [SHA256_Init], [_Append], [_Finish] of the binary library: the digest of a message. *)
Context (sha256 : list Z -> list Z).

Definition GUEST_PW_STR : list Z := repeat 0x31 6.
Definition OPERATOR_PW_STR : list Z := repeat 0x32 6.
Definition ENGINEER_PW_STR : list Z := repeat 0x33 6.
Definition ADMIN_PW_STR : list Z := repeat 0x34 6.

Definition pw_strings : list (list Z) := [GUEST_PW_STR; OPERATOR_PW_STR; ENGINEER_PW_STR; ADMIN_PW_STR].

Definition authen_init : act Z :=
  FOR i IN range 4 DO
    RUN (I2C_EE_BufWrite (sha256 (nth (Z.to_nat i) pw_strings [])) (USR_PW_EE_BASE + 32 * i) 32)
  END;;
  RETURN 1.

(** [Buffercmp] over the length of the digest. *)
Fixpoint Buffercmp (a b : list Z) : Z :=
  match a, b with
  | x :: a', y :: b' => if x =? y then Buffercmp a' b' else 0
  | _, _ => 1
  end.

Definition authen_verify (user_name : Z) (password : list Z) : act Z :=
  let obuf := sha256 password in
  LET pbuf := I2C_EE_BufRead (USR_PW_EE_BASE + 32 * (user_name - 1)) (Z.of_nat (List.length obuf)) IN
  if Buffercmp obuf pbuf =? 1 then
    status_permission_level ::= user_name;;
    RETURN 1
  else
    status_permission_level ::= 0;;
    RETURN 0.

Definition authen_revise (user_name : Z) (password : list Z) : act Z :=
  RUN (I2C_EE_BufWrite (sha256 password) (USR_PW_EE_BASE + 32 * (user_name - 1)) 32);;
  RETURN 1.

(** ** Start-up *)

Definition init_load_default : act Z :=
  FOR i IN range CONF_REG_MAP_NUM DO load_dft i END;;
  RUN authen_init;;
  status_status_remap.[0] .|= 0x0001;;
  RETURN 1.

Definition sts_entry : Type := option cell * Z.
Definition status_reg_map_inst : list sts_entry :=
  [(ptr ComSta_u16Hardware_ver, HARDWARE_VER); (ptr ComSta_u16Software_ver, SOFTWARE_VER);
   (ptr ComSta_u16Status_remap.[0], 0); (ptr ComSta_u16Din_bitmap.[0], 0); (ptr ComSta_u16Dout_bitmap.[0], 0);
   (ptr ComSta_u16Alarm_bitmap.[0], 0); (ptr ComSta_u16Alarm_bitmap.[1], 0);
   (ptr ComSta_u16Ain.[0], 0); (ptr ComSta_u16Ain.[1], 0); (ptr ComSta_u16Ain.[2], 0); (ptr ComSta_u16Ain.[3], 0);
   (ptr ComSta_u16TH_Temp.[0], 0); (ptr ComSta_u16TH_Hum.[0], 0); (ptr ComSta_u16Last_Water, 0);
   (ptr ComSta_u16Cumulative_Water.[0], 0); (ptr ComSta_u16Cumulative_Water.[1], 0);
   (ptr ComSta_u16Din_bitmap.[1], 0); (ptr ComSta_u16Dout_bitmap.[1], 0); (ptr ComSta_u16Ain.[AI_NTC4], 0);
   (ptr ComSta_u16AO.[0], 0);
   (ptr ComSta_u16Runtime.[1, DO_FILLTER_DUMMY_BPOS], 0); (ptr ComSta_u16Runtime.[1, DO_FILLTER_ELEMENT_DUMMY_BPOS_0], 0);
   (ptr ComSta_u16Runtime.[1, DO_FAN_BPOS], 0); (ptr ComSta_u16Runtime.[1, DO_COMP1_BPOS], 0);
   (ptr ComSta_u16Runtime.[1, DO_COMP2_BPOS], 0); (ptr ComSta_u16Runtime.[1, DO_FILLTER_ELEMENT_DUMMY_BPOS_1], 0);
   (ptr ComSta_u16Runtime.[1, DO_FILLTER_ELEMENT_DUMMY_BPOS_2], 0); (ptr ComSta_u16Runtime.[1, DO_FILLTER_ELEMENT_DUMMY_BPOS_3], 0);
   (ptr ComSta_u16Cumulative_Water.[2], 0); (ptr ComSta_u16Runtime.[1, DO_UV1_BPOS], 0); (None, 0);
   (ptr ComSta_REQ_TEST.[0], 0); (ptr ComSta_REQ_TEST.[1], 0); (ptr ComSta_REQ_TEST.[2], 0); (ptr ComSta_REQ_TEST.[3], 0);
   (ptr ComSta_u16WL, 0); (ptr ComSta_u16Status_remap.[1], 0); (ptr ComSta_u16Cur_Water, 0); (ptr ComSta_net_status, 0);
   (ptr ComSta_u16PM25, 0); (ptr ComSta_u16TDS.[0], 0); (ptr ComSta_u16TDS.[1], 0); (ptr ComSta_u16TDS.[2], 0);
   (ptr ComSta_u16TDS.[3], 0)] ++ repeat (None, 0) 6.

Definition init_load_status : cmd :=
  FOR i IN range STATUS_REG_MAP_NUM DO
    let r := nth (Z.to_nat i) status_reg_map_inst (None, 0) in
    store r.1 r.2
  END;;
  LET rt := bytes_words (I2C_EE_BufRead STS_REG_EE1_ADDR 156) IN
  FOR i IN range DO_MAX_CNT DO
    ComSta_u16Runtime.[0, i] ::= nth (Z.to_nat i) rt 0;;
    ComSta_u16Runtime.[1, i] ::= nth (Z.to_nat (DO_MAX_CNT + i)) rt 0
  END;;
  LET cu := bytes_words (I2C_EE_BufRead (STS_REG_EE1_ADDR + 156) 6) IN
  FOR i IN range 3 DO ComSta_u16Cumulative_Water.[i] ::= nth (Z.to_nat i) cu 0 END.

(** Bit 0 of the status word: the configuration was loaded. *)
Definition conf_loaded (ok : bool) : cmd :=
  if ok then status_status_remap.[0] .|= 0x01 else status_status_remap.[0] .&= 0xFFFE.

Definition init_load (em_init_state : init_state_em) : act Z :=
  match em_init_state with
  | INIT_LOAD_USR =>
      CALL ret := init_load_user_conf IN
      conf_loaded (ret =? 1);;
      RETURN ret
  | INIT_LOAD_FACT =>
      CALL ret := init_load_factory_conf IN
      (if ret =? 1 then
         RUN (save_conf_reg 0);;
         RUN (set_load_flag 0);;
         conf_loaded true
       else conf_loaded false);;
      RETURN ret
  | INIT_LOAD_DEBUT =>
      CALL ret := init_load_default IN
      (if ret =? 1 then
         conf_loaded true;;
         RUN (save_conf_reg 0);;
         RUN (save_conf_reg 1);;
         RUN (set_load_flag 0)
       else conf_loaded false);;
      RETURN ret
  | INIT_LOAD_DEFAULT =>
      CALL ret := init_load_default IN
      conf_loaded (ret =? 1);;
      RETURN ret
  end.

Definition sys_global_var_init : act Z :=
  CALL em_init_state := get_ee_status IN
  init_load_status;;
  CALL ret := init_load em_init_state IN
  ComPara_u16Manual_Test_En ::= 0;;
  general_alarm_bypass_en ::= 0;;
  ComPara_u16Test_Mode_Type ::= 0;;
  ComPara_u16ExitWater_Mode ::= 0;;
  ComPara_u16Water_Mode ::= 0;;
  ComPara_u16Water_Flow ::= 0;;
  Platform_Net_ERR ::= 0;;
  RETURN ret.

(** Up to the reset it ends in. *)
Definition load_factory_pram : act Z :=
  CALL req := init_load_factory_conf IN
  RUN authen_init;;
  RUN (save_conf_reg 0);;
  RUN (set_load_flag 0);;
  RETURN req.

End startup.

(** ** Reading registers *)

(** [hold]: the command registers of the Modbus stack.  A half-word from outside a table has
    no value. *)
Definition reg_map_read {w : cur} (hold : list Z) (reg_addr read_cnt : Z) : Z * list (option Z) :=
  if nz (reg_addr .& 0x8000) then
    let a := reg_addr .& 0x7fff in
    if STATUS_REG_MAP_NUM <? a then (CPAD_ERR_ADDR_OR, [])
    else (CPAD_ERR_NOERR, (fun i => (fun r : sts_entry => deref r.1) <$> status_reg_map_inst !! Z.to_nat (a + i)) <$> range read_cnt)
  else if nz (reg_addr .& 0x4000) then
    let a := reg_addr .& 0x3fff in
    if CMD_REG_SIZE <? a then (CPAD_ERR_ADDR_OR, [])
    else (CPAD_ERR_NOERR, (fun i => hold !! Z.to_nat (a + i)) <$> range read_cnt)
  else
    if CONF_REG_MAP_NUM <? reg_addr then (CPAD_ERR_ADDR_OR, [])
    else (CPAD_ERR_NOERR, (fun i => (fun r => deref (reg_ptr r)) <$> conf_reg_map_inst !! Z.to_nat (reg_addr + i)) <$> range read_cnt).

(** ** Words in the EEPROM *)

Lemma read_bytes_SS m a n :
  read_bytes m a (S (S n)) = u8 (m (u16 a)) :: u8 (m (u16 (a + 1))) :: read_bytes m (a + 2) n.
Proof.
  unfold read_bytes. cbn [seq fmap list_fmap]. rewrite Z.add_0_r. do 2 f_equal.
  rewrite <- !seq_shift, !map_map. apply map_ext. intros k. do 3 f_equal. lia.
Qed.

Lemma bufread_words w a n :
  0 < n -> bytes_words (@I2C_EE_BufRead w a (n * 2)) = (fun i => ee_word w (a + 2 * i)) <$> range n.
Proof.
  intros Hn. unfold I2C_EE_BufRead, I2C_EE_BufRead_bsp.
  replace (S (Z.to_nat (n * 2 - 1))) with (Z.to_nat n * 2)%nat by lia.
  replace n with (Z.of_nat (Z.to_nat n)) at 2 by lia. generalize (Z.to_nat n). intros m. clear n Hn.
  revert a. induction m as [|m IH]; intros a; [done|].
  cbn [Nat.mul Nat.add]. rewrite read_bytes_SS. cbn [bytes_words]. rewrite IH. clear IH.
  unfold range. rewrite Nat2Z.inj_succ, (seqZ_cons 0 (Z.succ (Z.of_nat m))) by lia. rewrite Z.pred_succ. cbn [fmap list_fmap]. f_equal.
  - rewrite ee_word_bytes, Z.mul_0_r, Z.add_0_r. unfold of_le16. done.
  - rewrite <- (fmap_add_seqZ 1 0). rewrite <- list_fmap_compose. apply list_fmap_ext. intros j x _. cbn. f_equal. lia.
Qed.

Lemma words_bytes_length l : List.length (words_bytes l) = (2 * List.length l)%nat.
Proof. induction l as [|x l IH]; [done|]. unfold words_bytes in *. cbn -[Nat.mul]. rewrite IH. lia. Qed.

Lemma words_bytes_nth l i :
  (i < List.length l)%nat ->
  nth (2 * i) (words_bytes l) 0 = u8 (nth i l 0) /\ nth (2 * i + 1) (words_bytes l) 0 = u8 (nth i l 0 .>> 8).
Proof.
  revert i. induction l as [|x l IH]; intros i Hi; [cbn in Hi; lia|]. unfold words_bytes in *.
  destruct i as [|i]; [done|]. cbn [List.length] in Hi. destruct (IH i) as [H1 H2]; [lia|].
  replace (2 * S i)%nat with (S (S (2 * i))) by lia. cbn [fmap list_fmap concat le16 app nth Nat.add]. by rewrite H1, H2.
Qed.

(** A buffer of half-words, written at [a]. *)
Lemma ee_word_bufwrite w l a n b :
  0 <= a -> n = 2 * Z.of_nat (List.length l) -> a + n < 65536 -> 0 <= b -> b + 2 < 65536 ->
  (forall i, b = a + 2 * i -> 0 <= i < Z.of_nat (List.length l) ->
     ee_word (I2C_EE_BufWrite (words_bytes l) a n w).2 b = u16 (nth (Z.to_nat i) l 0)) /\
  (b + 2 <= a \/ a + n <= b -> ee_word (I2C_EE_BufWrite (words_bytes l) a n w).2 b = ee_word w b).
Proof.
  intros Ha Hn Hu Hb Hb2. pose proof (words_bytes_length l) as Hl.
  assert (forall x, ee (I2C_EE_BufWrite (words_bytes l) a n w).2 x = flat_write a (words_bytes l) (ee w) x) as H
    by (intros x; apply bufwrite_flat; lia).
  rewrite !ee_word_bytes, !H, !(u16_small b), !(u16_small (b + 1)) by lia. unfold flat_write. rewrite Hl. split.
  - intros i -> Hi. destruct (words_bytes_nth l (Z.to_nat i)) as [E1 E2]; [lia|].
    rewrite !(proj2 (Z.leb_le _ _)), !(proj2 (Z.ltb_lt _ _)) by lia. cbn [andb].
    replace (Z.to_nat (a + 2 * i - a)) with (2 * Z.to_nat i)%nat by lia.
    replace (Z.to_nat (a + 2 * i + 1 - a)) with (2 * Z.to_nat i + 1)%nat by lia.
    rewrite E1, E2, !u8_idemp. apply (of_le16_le16 (nth (Z.to_nat i) l 0)).
  - intros Hd. destruct (Z.leb_spec a b), (Z.ltb_spec b (a + Z.of_nat (2 * List.length l))),
      (Z.leb_spec a (b + 1)), (Z.ltb_spec (b + 1) (a + Z.of_nat (2 * List.length l))); try lia; done.
Qed.

(** The byte at address 0 lies outside all words of the copies. *)
Lemma ee_word_flag w f b : 1 <= b -> b + 2 < 65536 -> ee_word (I2C_EE_BufWrite [f] STS_EE_ADDR 1 w).2 b = ee_word w b.
Proof.
  intros Hb Hu. rewrite !ee_word_bytes, !bufwrite_flat by (cbn; lia). rewrite !(u16_small b), !(u16_small (b + 1)) by lia.
  unfold flat_write. cbn [List.length]. by rewrite !(proj2 (Z.ltb_ge _ _)), !andb_false_r by lia.
Qed.

(** ** Saving *)

Lemma foldl_lxor x l : foldl Z.lxor x l = x .^ xor_words l.
Proof.
  revert x. induction l as [|y l IH]; intros x; cbn; [by rewrite Z.lxor_0_r|]. by rewrite IH, Z.lxor_assoc.
Qed.

Lemma checksum_xor l : checksum_u16 l = xor_words l.
Proof. destruct l as [|x l]; [done|]. apply foldl_lxor. Qed.

Lemma xor_words_range l : Forall (fun x => 0 <= x < 65536) l -> 0 <= xor_words l < 65536.
Proof. induction 1 as [|x l Hx Hl IH]; cbn; [lia|]. by apply u16_lxor. Qed.

Lemma count_diff_refl l : count_diff l l = 0.
Proof. induction l as [|x l IH]; cbn; [done|]. by rewrite Z.eqb_refl, IH. Qed.

(** [k = 3] is the factory copy. *)
Lemma copy_addr_bounds k i : 0 <= k <= 3 -> 0 <= i <= 435 -> 512 <= copy_addr k i /\ copy_addr k i + 2 <= 4000.
Proof. unfold copy_addr. lia. Qed.

(** Half-words of a list at consecutive addresses. *)
Lemma nth_fmap_range (f : Z -> Z) n i : 0 <= i < n -> nth (Z.to_nat i) (f <$> range n) 0 = f i.
Proof.
  intros Hi. apply nth_lookup_Some. unfold range. rewrite list_lookup_fmap, lookup_seqZ_lt by lia. cbn. f_equal. f_equal. lia.
Qed.

Lemma save_copy_spec l f k w :
  0 <= k <= 3 -> List.length l = 435%nat -> Forall (fun x => 0 <= x < 65536) l ->
  (save_copy l f (copy_addr k 0) 0 w).1 = 0 /\
  forall k' i, 0 <= k' <= 3 -> 0 <= i <= 435 ->
    cw (save_copy l f (copy_addr k 0) 0 w).2 k' i =
    if k' =? k then if i =? 435 then xor_words l else nth (Z.to_nat i) l 0 else cw w k' i.
Proof.
  intros Hk Hl Hr. pose proof (xor_words_range l Hr) as Hx. set (a := copy_addr k 0).
  assert (512 <= a <= 3128) as Ha by (unfold a, copy_addr; lia).
  set (w1 := (I2C_EE_BufWrite (words_bytes l) a (CONF_REG_MAP_NUM * 2) w).2).
  assert (forall i, 0 <= i < 435 -> ee_word w1 (a + 2 * i) = nth (Z.to_nat i) l 0) as H1.
  { intros i Hi. destruct (ee_word_bufwrite w l a (CONF_REG_MAP_NUM * 2) (a + 2 * i)) as [E _]; try lia.
    subst w1. rewrite (E i) by lia. apply u16_small. rewrite Forall_forall in Hr. apply Hr, nth_In. lia. }
  assert (forall b, 0 <= b -> b + 2 < 65536 -> b + 2 <= a \/ a + 870 <= b -> ee_word w1 b = ee_word w b) as H2.
  { intros b ? ? ?. destruct (ee_word_bufwrite w l a (CONF_REG_MAP_NUM * 2) b) as [_ E]; try lia. by apply E. }
  unfold save_copy, seqc, runc. fold w1. unfold letc.
  assert (bytes_words (@I2C_EE_BufRead w1 a (CONF_REG_MAP_NUM * 2)) = l) as ->.
  { rewrite bufread_words by lia. apply (nth_ext _ _ 0 0).
    - unfold range. rewrite length_fmap, length_seqZ. lia.
    - intros n. unfold range. rewrite length_fmap, length_seqZ. intros Hn. fold (range 435). rewrite <- (Nat2Z.id n), nth_fmap_range by lia. apply H1. lia. }
  rewrite count_diff_refl. change (u16 (0 + 0)) with 0. change (0 =? 0) with true. cbv iota beta. unfold reta. cbn [fst snd].
  split; [done|].
  intros k' i Hk' Hi. unfold cw. rewrite ee_word_flag by (pose proof (copy_addr_bounds k' i); lia).
  rewrite checksum_xor. change (ee_word (I2C_EE_BufWrite (le16 (xor_words l)) (a + CONF_REG_MAP_NUM * 2) 2 w1).2)
    with (ee_word (stw (a + 870) (xor_words l) w1)).
  rewrite ee_word_stw by (unfold a, copy_addr; lia). rewrite (u16_small (xor_words l)) by done.
  destruct (Z.eqb_spec k' k) as [->|Hne].
  - destruct (Z.eqb_spec i 435) as [->|Hni]; [by rewrite (proj2 (Z.eqb_eq _ _)) by (unfold a, copy_addr; lia)|].
    rewrite (proj2 (Z.eqb_neq _ _)) by (unfold a, copy_addr; lia).
    replace (copy_addr k i) with (a + 2 * i) by (unfold a, copy_addr; lia). apply H1. lia.
  - rewrite (proj2 (Z.eqb_neq _ _)) by (unfold a, copy_addr; lia). apply H2; unfold a, copy_addr; lia.
Qed.

(** The value a register has in the configuration. *)
Definition reg_value (w : world) (i : Z) : Z := @deref w (reg_ptr (conf_reg i)).

Lemma reg_value_range w i : 0 <= reg_value w i < 65536.
Proof. unfold reg_value, deref. destruct (reg_ptr (conf_reg i)) as [c|]; [apply u16_range | by apply (rd_u16 w)]. Qed.

Lemma conf_words_spec w :
  List.length (@conf_words w) = 435%nat /\ Forall (fun x => 0 <= x < 65536) (@conf_words w) /\
  forall i, 0 <= i < CONF_REG_MAP_NUM -> nth (Z.to_nat i) (@conf_words w) 0 = reg_value w i.
Proof.
  unfold conf_words. split_and!.
  - unfold range. rewrite length_fmap, length_seqZ. lia.
  - apply Forall_fmap, Forall_forall. intros i _. apply (reg_value_range w).
  - intros i Hi. by rewrite nth_fmap_range.
Qed.

Definition conf_sum (w : world) : Z := xor_words (@conf_words w).

(** What a copy holds after the configuration of [w] was saved in it. *)
Definition saved (w : world) (i : Z) : Z := if i =? CONF_REG_MAP_NUM then conf_sum w else reg_value w i.

Lemma saved_words w i :
  0 <= i <= 435 -> (if i =? 435 then xor_words (@conf_words w) else nth (Z.to_nat i) (@conf_words w) 0) = saved w i.
Proof.
  intros Hi. unfold saved, conf_sum. destruct (Z.eqb_spec i 435); [done|]. apply conf_words_spec. lia.
Qed.

Lemma save_user_spec w :
  (save_conf_reg 0 w).1 = 0 /\
  forall k i, 0 <= k <= 3 -> 0 <= i <= 435 ->
    cw (save_conf_reg 0 w).2 k i = if k <? 3 then saved w i else cw w k i.
Proof.
  destruct (conf_words_spec w) as (Hl & Hr & _). unfold save_conf_reg, letc, bindc.
  change CONF_REG_EE3_ADDR with (copy_addr 2 0). change CONF_REG_EE2_ADDR with (copy_addr 1 0).
  change CONF_REG_EE1_ADDR with (copy_addr 0 0).
  pose proof (saved_words w) as Hw. set (l := @conf_words w) in *. set (f := EE_FLAG_LOAD_USR).
  destruct (save_copy_spec l f 0 w) as [A1 A2]; [lia | done | done |]. rewrite !A1.
  set (w1 := (save_copy l f (copy_addr 0 0) 0 w).2) in *.
  destruct (save_copy_spec l f 1 w1) as [B1 B2]; [lia | done | done |]. rewrite !B1.
  set (w2 := (save_copy l f (copy_addr 1 0) 0 w1).2) in *.
  destruct (save_copy_spec l f 2 w2) as [C1 C2]; [lia | done | done |]. rewrite !C1.
  split; [done|]. intros k i Hk Hi. cbn [reta snd]. rewrite C2, B2, A2, Hw by done.
  destruct (Z.eqb_spec k 2), (Z.eqb_spec k 1), (Z.eqb_spec k 0), (Z.ltb_spec k 3); done || lia.
Qed.

Lemma save_factory_spec w :
  (save_conf_reg 1 w).1 = 0 /\
  forall k i, 0 <= k <= 3 -> 0 <= i <= 435 ->
    cw (save_conf_reg 1 w).2 k i = if k =? 3 then saved w i else cw w k i.
Proof.
  destruct (conf_words_spec w) as (Hl & Hr & _). unfold save_conf_reg, letc.
  destruct (save_copy_spec (@conf_words w) EE_FLAG_LOAD_FACT 3 w) as [A1 A2]; [lia | done | done |].
  split; [exact A1|]. intros k i Hk Hi. rewrite <- saved_words by done. by apply A2.
Qed.

(** The checksum word makes the XOR of a saved copy zero. *)
Lemma saved_checksum w : conf_sum w = xor_words (saved w <$> range CONF_REG_MAP_NUM).
Proof.
  unfold conf_sum, conf_words. apply xor_words_ext. intros i Hi. unfold saved.
  destruct (Z.eqb_spec i CONF_REG_MAP_NUM); [lia | done].
Qed.

(** ** Loading by vote *)

(** At least two of the three copies hold [f i] as word [i]. *)
Definition voted (w : world) (f : Z -> Z) : Prop :=
  forall i, 0 <= i < CONF_REG_MAP_NUM -> majority (cw w 0 i) (cw w 1 i) (cw w 2 i) = Some (f i).

Definition in_range (f : Z -> Z) : Prop :=
  forall i, 0 <= i < CONF_REG_MAP_NUM -> is_Some (reg_ptr (conf_reg i)) -> min_ (conf_reg i) <= f i <= max_ (conf_reg i).

Lemma store_ee p v w : ee (store p v w) = ee w.
Proof. by destruct p. Qed.

Lemma conf_reg_read_ok w f i :
  0 <= i < CONF_REG_MAP_NUM -> voted w f -> in_range f ->
  (conf_reg_read_ee i w).1 = 0 /\
  (conf_reg_read_ee i w).2 = store (reg_ptr (conf_reg i)) (f i) (eeprom_compare_read i 0 w).2 /\
  forall k j, 0 <= k <= 2 -> 0 <= j < CONF_REG_MAP_NUM ->
    cw (conf_reg_read_ee i w).2 k j = if j =? i then f i else cw w k j.
Proof.
  intros Hi Hv Hr. destruct (compare_read_vote w i 0 (f i)) as [H1 H2]; [done | by apply Hv | by right |].
  assert (conf_reg_read_ee i w = (0, store (reg_ptr (conf_reg i)) (f i) (eeprom_compare_read i 0 w).2)) as ->.
  { unfold conf_reg_read_ee, bindc. rewrite H1. cbn [fst snd].
    assert (bool_decide (is_Some (reg_ptr (conf_reg i))) && ((f i <? min_ (conf_reg i)) || (max_ (conf_reg i) <? f i)) = false) as ->.
    { destruct (bool_decide_reflect (is_Some (reg_ptr (conf_reg i)))) as [Hp|]; [|done].
      destruct (Hr i Hi Hp) as [A1 A2]. by rewrite (proj2 (Z.ltb_ge _ _) A1), (proj2 (Z.ltb_ge _ _) A2). }
    done. }
  split_and!; [done | done |]. intros k j Hk Hj. cbn [snd].
  rewrite (cw_ee _ (eeprom_compare_read i 0 w).2) by apply store_ee. by apply H2.
Qed.

(** A register that was read keeps its value while others are. *)
Lemma read_reg_value w f i :
  0 <= i < CONF_REG_MAP_NUM -> voted w f -> in_range f -> is_Some (reg_ptr (conf_reg i)) ->
  reg_value (conf_reg_read_ee i w).2 i = f i.
Proof.
  intros Hi Hv Hr Hp. destruct (conf_reg_read_ok w f i Hi Hv Hr) as (_ & -> & _). unfold reg_value. pose proof (Hr i Hi Hp) as Hf.
  destruct Hp as [c Hc]. rewrite Hc. cbn [store deref]. rewrite rd_assign_same, (conf_reg_fits i) by done.
  apply u16_small. destruct (compare_read_vote w i 0 (f i)) as [H1 H2]; [done | by apply Hv | by right |].
  pose proof (H2 0 i ltac:(lia) Hi) as E. rewrite Z.eqb_refl in E. rewrite <- E. apply ee_word_range.
Qed.

(** Storing one register does not change another. *)
Lemma store_other v w i j :
  0 <= i < CONF_REG_MAP_NUM -> 0 <= j < CONF_REG_MAP_NUM -> i <> j -> is_Some (reg_ptr (conf_reg j)) ->
  reg_value (store (reg_ptr (conf_reg i)) v w) j = reg_value w j.
Proof.
  intros Hi Hj Hij [c Hc]. unfold reg_value. rewrite Hc. cbn [deref]. f_equal.
  destruct (reg_ptr (conf_reg i)) as [d|] eqn:Hd; cbn [store]; [|done].
  apply rd_assign_other. intros ->. apply Hij. by apply (conf_reg_inj i j c).
Qed.

Lemma compare_read_value w i j :
  0 <= j < CONF_REG_MAP_NUM -> is_Some (reg_ptr (conf_reg j)) -> reg_value (eeprom_compare_read i 0 w).2 j = reg_value w j.
Proof.
  intros Hj [c Hc]. unfold reg_value. rewrite Hc. cbn [deref]. f_equal.
  assert (plain_cell c = true) as Hpl by (by apply (conf_reg_plain j)).
  assert (respa (keep (fun w => w⟪c⟫)) (eeprom_compare_read i 0)) as K by (eapply keep_plain; [done | eauto with foot | done]).
  exact (K w).
Qed.

(** Whatever the EEPROM holds, reading a register only sets that register. *)
Lemma read_other_value w i j :
  0 <= i < CONF_REG_MAP_NUM -> 0 <= j < CONF_REG_MAP_NUM -> i <> j -> is_Some (reg_ptr (conf_reg j)) ->
  reg_value (conf_reg_read_ee i w).2 j = reg_value w j.
Proof.
  intros Hi Hj Hij Hp. rewrite <- (compare_read_value w i j) by done. unfold conf_reg_read_ee, bindc.
  case_match; unfold seqc, reta; cbn [snd]; by apply store_other.
Qed.

Lemma voted_read w f i : 0 <= i < CONF_REG_MAP_NUM -> voted w f -> in_range f -> voted (conf_reg_read_ee i w).2 f.
Proof.
  intros Hi Hv Hr j Hj. destruct (conf_reg_read_ok w f i Hi Hv Hr) as (_ & _ & H). rewrite !H by lia.
  destruct (Z.eqb_spec j i) as [->|]; [|by apply Hv]. unfold majority. by rewrite Z.eqb_refl.
Qed.

Lemma load_words_ok f l : forall w,
  NoDup l -> (forall i, i ∈ l -> 0 <= i < CONF_REG_MAP_NUM) -> voted w f -> in_range f ->
  (load_words l 0 w).1 = 0 /\
  (forall j, 0 <= j < CONF_REG_MAP_NUM -> is_Some (reg_ptr (conf_reg j)) ->
     reg_value (load_words l 0 w).2 j = if bool_decide (j ∈ l) then f j else reg_value w j) /\
  (forall k j, 0 <= k <= 2 -> 0 <= j < CONF_REG_MAP_NUM ->
     cw (load_words l 0 w).2 k j = if bool_decide (j ∈ l) then f j else cw w k j).
Proof.
  induction l as [|i l IH]; intros w Hnd Hl Hv Hr; cbn [load_words]; [split_and!; done|].
  inversion_clear Hnd as [|? ? Hn Hnd2]. assert (0 <= i < CONF_REG_MAP_NUM) as Hi by (apply Hl; by left).
  unfold bindc. destruct (conf_reg_read_ok w f i Hi Hv Hr) as (E & _ & Hc). rewrite E. change (u16 (0 + 0)) with 0.
  destruct (IH (conf_reg_read_ee i w).2) as (H1 & H2 & H3); [exact Hnd2 | intros j Hj; apply Hl; by right | by apply voted_read | done |].
  assert (forall j, (bool_decide (j ∈ i :: l)) = (j =? i) || bool_decide (j ∈ l)) as Hm.
  { intros j. destruct (Z.eqb_spec j i) as [->|]; [by rewrite bool_decide_true by (by left)|]. cbn [orb]. apply bool_decide_ext. rewrite elem_of_cons. tauto. }
  split_and!; [done | |].
  - intros j Hj Hp. rewrite H2, Hm by done. destruct (bool_decide (j ∈ l)); [by rewrite orb_true_r|]. rewrite orb_false_r.
    destruct (Z.eqb_spec j i) as [->|Hne]; [by apply read_reg_value | by apply read_other_value].
  - intros k j Hk Hj. rewrite H3, Hm, Hc by done. destruct (bool_decide (j ∈ l)); [by rewrite orb_true_r|]. by rewrite orb_false_r; destruct (Z.eqb_spec j i) as [->|].
Qed.

(** [init_load_user_conf] over any list of all registers. *)
Definition load_user (l : list Z) : act Z :=
  CALL sum := load_words l 0 IN RETURN (if sum =? 0 then 1 else 0).

Lemma load_user_all l w f :
  NoDup l -> (forall i, i ∈ l <-> 0 <= i < CONF_REG_MAP_NUM) -> voted w f -> in_range f ->
  (load_user l w).1 = 1 /\
  (forall j, 0 <= j < CONF_REG_MAP_NUM -> is_Some (reg_ptr (conf_reg j)) -> reg_value (load_user l w).2 j = f j) /\
  (forall k j, 0 <= k <= 2 -> 0 <= j < CONF_REG_MAP_NUM -> cw (load_user l w).2 k j = f j).
Proof.
  intros Hnd Hl Hv Hr. destruct (load_words_ok f l w) as (H1 & H2 & H3); [done | by intros i ?%Hl | done | done |].
  unfold load_user, bindc. rewrite H1. cbn [reta fst snd]. split_and!; [done | |].
  - intros j Hj Hp. rewrite H2 by done. by rewrite bool_decide_true by (by apply Hl).
  - intros k j Hk Hj. rewrite H3 by done. by rewrite bool_decide_true by (by apply Hl).
Qed.

Lemma load_user_ok w f :
  voted w f -> in_range f ->
  (init_load_user_conf w).1 = 1 /\
  (forall j, 0 <= j < CONF_REG_MAP_NUM -> is_Some (reg_ptr (conf_reg j)) -> reg_value (init_load_user_conf w).2 j = f j) /\
  (forall k j, 0 <= k <= 2 -> 0 <= j < CONF_REG_MAP_NUM -> cw (init_load_user_conf w).2 k j = f j).
Proof. exact (load_user_all (range CONF_REG_MAP_NUM) w f (NoDup_seqZ 0 435) (fun i => elem_of_range i CONF_REG_MAP_NUM)). Qed.

(** ** Round trips *)

(** The registers hold values inside their ranges. *)
Definition conf_valid (w : world) : Prop := in_range (reg_value w).

(** C6: the configuration survives a power cycle, and one damaged copy.  Saving a valid
    configuration succeeds and leaves three identical copies with matching checksums.  At any
    later start, whatever memory holds, if each word is still intact in two of the three
    copies (not necessarily the same two), loading succeeds, every register has the value it
    had when it was saved, and the damaged words are repaired in all copies. *)
Theorem user_conf_roundtrip w :
  conf_valid w ->
  let w1 := (save_conf_reg 0 w).2 in
  (save_conf_reg 0 w).1 = 0 /\
  (forall k, 0 <= k <= 2 -> checksum_ok w1 k) /\
  forall w2, (forall i, 0 <= i < CONF_REG_MAP_NUM -> majority (cw w2 0 i) (cw w2 1 i) (cw w2 2 i) = Some (cw w1 0 i)) ->
    (init_load_user_conf w2).1 = 1 /\
    (forall i, 0 <= i < CONF_REG_MAP_NUM -> is_Some (reg_ptr (conf_reg i)) ->
       reg_value (init_load_user_conf w2).2 i = reg_value w i) /\
    (forall k i, 0 <= k <= 2 -> 0 <= i < CONF_REG_MAP_NUM -> cw (init_load_user_conf w2).2 k i = reg_value w i).
Proof.
  intros Hv w1. destruct (save_user_spec w) as [H1 H2]. fold w1 in H2.
  assert (forall k i, 0 <= k <= 2 -> 0 <= i < CONF_REG_MAP_NUM -> cw w1 k i = reg_value w i) as Hc.
  { intros k i Hk Hi. rewrite H2 by lia. rewrite (proj2 (Z.ltb_lt k 3)) by lia. unfold saved.
    by rewrite (proj2 (Z.eqb_neq i CONF_REG_MAP_NUM)) by lia. }
  split_and!; [done | |].
  - intros k Hk. unfold checksum_ok, copy_words. rewrite H2 by lia. rewrite (proj2 (Z.ltb_lt k 3)) by lia.
    change (saved w CONF_REG_MAP_NUM) with (conf_sum w). rewrite saved_checksum. apply xor_words_ext. intros i Hi.
    rewrite Hc by done. unfold saved. by rewrite (proj2 (Z.eqb_neq i CONF_REG_MAP_NUM)) by lia.
  - intros w2 Hm. apply load_user_ok; [|done]. intros i Hi. rewrite Hm by done. f_equal. apply Hc; lia.
Qed.

(** The least valid configuration. *)
Definition least_conf : world :=
  poke (omap (fun r => match reg_ptr r with
                       | Some c => if 0 <? min_ r then Some (c, min_ r) else None
                       | None => None
                       end) conf_reg_map_inst) w_zero.

Lemma least_conf_valid : conf_valid least_conf.
Proof.
  assert (forallb (fun i => match reg_ptr (conf_reg i) with
    | Some _ => (min_ (conf_reg i) <=? reg_value least_conf i) && (reg_value least_conf i <=? max_ (conf_reg i))
    | None => true end) (range CONF_REG_MAP_NUM) = true) as H by (vm_compute; reflexivity).
  rewrite forallb_forall in H. intros i Hi [c Hc]. specialize (H i). rewrite Hc in H.
  destruct (proj1 (andb_true_iff _ _) (H ltac:(by apply list_elem_of_In, elem_of_range))) as [?%Z.leb_le ?%Z.leb_le]. done.
Qed.

(** Word 40 of the second copy and word 41 of the third are overwritten while the power is off. *)
Lemma user_conf_roundtrip_witness :
  let w2 := stw (copy_addr 1 40) 999 (stw (copy_addr 2 41) 7 (save_conf_reg 0 least_conf).2) in
  (init_load_user_conf w2).1 = 1 /\ reg_value (init_load_user_conf w2).2 3 = 1.
Proof.
  cbv zeta. destruct (user_conf_roundtrip least_conf least_conf_valid) as (_ & _ & H).
  destruct (save_user_spec least_conf) as [_ Hs].
  assert (forall k i, 0 <= k <= 2 -> 0 <= i < 435 ->
    cw (save_conf_reg 0 least_conf).2 k i = cw (save_conf_reg 0 least_conf).2 0 i) as Hk.
  { intros k i Hk Hi. rewrite (Hs k i), (Hs 0 i) by lia. by rewrite !(proj2 (Z.ltb_lt _ _)) by lia. }
  set (w1 := (save_conf_reg 0 least_conf).2) in *. clearbody w1.
  destruct (H (stw (copy_addr 1 40) 999 (stw (copy_addr 2 41) 7 w1))) as (H1 & H2 & _).
  - intros i Hi. rewrite !cw_stw by lia. rewrite (Hk 1 i), (Hk 2 i) by lia. cbn [Z.eqb Pos.eqb andb]. unfold majority.
    destruct (Z.eqb_spec i 40), (Z.eqb_spec i 41); subst; cbn [Z.eqb Pos.eqb andb];
      rewrite ?Z.eqb_refl; try done; by case_match.
  - split; [exact H1|]. rewrite H2; [vm_compute; reflexivity | lia | vm_compute; eauto].
Defined.

(** ** The factory copy *)

Definition half_ptr (r : conf_reg_map_st) : bool :=
  match reg_ptr r with Some c => match fty (fld c) with U16 | S16 => true | _ => false end | None => true end.
Lemma conf_reg_map_half : forallb half_ptr conf_reg_map_inst = true.
Proof. vm_compute. reflexivity. Qed.

Lemma store_value v w i :
  0 <= i < CONF_REG_MAP_NUM -> 0 <= v < 65536 -> is_Some (reg_ptr (conf_reg i)) ->
  reg_value (store (reg_ptr (conf_reg i)) v w) i = v.
Proof.
  intros Hi Hv [c Hc]. pose proof conf_reg_map_half as H. rewrite forallb_forall in H.
  assert (half_ptr (conf_reg i) = true) as Hh by (apply H, nth_In; rewrite conf_reg_map_length; lia).
  unfold half_ptr, reg_value in *. rewrite Hc in *. cbn [store deref]. rewrite rd_assign_same.
  destruct (fty (fld c)); try done; cbn [cast]; rewrite ?u16_small by (apply u16_range || done); try done.
  unfold s16, u16. Z.div_mod_to_equations. lia.
Qed.

(** A loop whose turns each set their own register, the first [n] of them to [f]. *)
Lemma set_loop body f n l w :
  n <= CONF_REG_MAP_NUM ->
  (forall i, i ∈ l -> forall w j, 0 <= j < CONF_REG_MAP_NUM -> i <> j -> is_Some (reg_ptr (conf_reg j)) ->
     reg_value (body i w) j = reg_value w j) ->
  (forall i, i ∈ l -> i < n -> forall w, is_Some (reg_ptr (conf_reg i)) -> reg_value (body i w) i = f i) ->
  forall j, 0 <= j < n -> is_Some (reg_ptr (conf_reg j)) ->
  reg_value (forc l body w) j = if bool_decide (j ∈ l) then f j else reg_value w j.
Proof.
  intros Hn. unfold forc. revert w. induction l as [|i l IH]; intros w Ho Hs j Hj Hp; cbn [foldl]; [done|].
  rewrite IH; [| intros k Hk; apply Ho; by right | intros k Hk; apply Hs; by right | done | done].
  destruct (bool_decide_reflect (j ∈ l)) as [Hin|Hin]; [by rewrite bool_decide_true by (by right)|].
  destruct (decide (i = j)) as [->|Hne].
  - rewrite bool_decide_true by (by left). apply Hs; [by left | lia | done].
  - rewrite Ho by (first [by left | done | lia]). rewrite bool_decide_false; [done|]. intros [|]%elem_of_cons; congruence.
Qed.

Definition dft_value (i : Z) : Z := dft (conf_reg i).

Lemma conf_reg_map_dft : forallb (fun r => (0 <=? dft r) && (dft r <? 65536)) conf_reg_map_inst = true.
Proof. vm_compute. reflexivity. Qed.

Lemma dft_value_range i : 0 <= i < CONF_REG_MAP_NUM -> 0 <= dft_value i < 65536.
Proof.
  intros Hi. pose proof conf_reg_map_dft as H. rewrite forallb_forall in H.
  destruct (proj1 (andb_true_iff _ _) (H (conf_reg i) ltac:(apply nth_In; rewrite conf_reg_map_length; lia)))
    as [?%Z.leb_le ?%Z.ltb_lt]. done.
Qed.

Lemma load_dft_loop l w :
  (forall i, i ∈ l <-> 0 <= i < CONF_REG_MAP_NUM) ->
  forall j, 0 <= j < CONF_REG_SID_START -> is_Some (reg_ptr (conf_reg j)) -> reg_value (forc l load_dft w) j = dft_value j.
Proof.
  intros Hl j Hj Hp. rewrite (set_loop load_dft dft_value CONF_REG_SID_START) by
    (lia || done || (intros i Hi%Hl; intros; unfold load_dft; repeat case_match;
       by (apply store_other || apply read_other_value || (apply store_value; [lia | by apply dft_value_range | done]) || lia))).
  by rewrite bool_decide_true by (apply Hl; lia).
Qed.

Lemma xor_words_snoc l x : xor_words (l ++ [x]) = xor_words l .^ x.
Proof. unfold xor_words. induction l as [|y l IH]; cbn; [by rewrite Z.lxor_0_r|]. by rewrite IH, Z.lxor_assoc. Qed.

Lemma saved_xor w : xor_words (saved w <$> seqZ 0 436) = 0.
Proof.
  assert (seqZ 0 436 = seqZ 0 435 ++ [435]) as -> by exact (seqZ_app 0 435 1 ltac:(lia) ltac:(lia)).
  rewrite fmap_app. change (saved w <$> [435]) with [conf_sum w]. rewrite xor_words_snoc.
  fold (range 435). rewrite <- saved_checksum. apply Z.lxor_nilpotent.
Qed.

(** One word of a saved copy was changed. *)
Lemma damaged_xor w (g : Z -> Z) o :
  0 <= o <= 435 -> g o <> saved w o -> (forall i, i <> o -> g i = saved w i) -> xor_words (g <$> seqZ 0 436) <> 0.
Proof.
  intros Ho Hne Hg. rewrite (xor_words_update (saved w) g 0 436 o) by (lia || done). rewrite saved_xor, Z.lxor_0_l.
  intros E%Z.lxor_eq. congruence.
Qed.

(** [init_load_factory_conf] with the words it reads. *)
Definition load_factory (l words : list Z) : act Z :=
  if negb (checksum_u16 words =? 0) then (FOR i IN l DO load_dft i END;; RETURN 0)
  else (FOR i IN l DO store (reg_ptr (conf_reg i)) (nth (Z.to_nat i) words 0) END;; RETURN 1).

Lemma load_factory_eq w : init_load_factory_conf w = load_factory (range CONF_REG_MAP_NUM) (cw w 3 <$> seqZ 0 436) w.
Proof.
  assert (bytes_words (@I2C_EE_BufRead w CONF_REG_FACT_ADDR ((CONF_REG_MAP_NUM + 1) * 2)) = cw w 3 <$> seqZ 0 436) as E.
  { rewrite bufread_words by lia. apply list_fmap_ext. intros j x _. done. }
  unfold init_load_factory_conf, letc. rewrite E. unfold load_factory. generalize (cw w 3 <$> seqZ 0 436), (range CONF_REG_MAP_NUM). reflexivity.
Qed.

Lemma load_factory_good l words w :
  (forall i, i ∈ l <-> 0 <= i < CONF_REG_MAP_NUM) -> Forall (fun x => 0 <= x < 65536) words ->
  List.length words = 436%nat -> xor_words words = 0 ->
  (load_factory l words w).1 = 1 /\
  forall j, 0 <= j < CONF_REG_MAP_NUM -> is_Some (reg_ptr (conf_reg j)) ->
    reg_value (load_factory l words w).2 j = nth (Z.to_nat j) words 0.
Proof.
  intros Hl Hw Hlen Hx. unfold load_factory. rewrite checksum_xor, Hx. cbn [Z.eqb negb]. unfold seqc, reta. cbn [fst snd].
  split; [done|]. intros j Hj Hp.
  rewrite (set_loop _ (fun i => nth (Z.to_nat i) words 0) CONF_REG_MAP_NUM).
  - by rewrite bool_decide_true by (by apply Hl).
  - lia.
  - intros i Hi%Hl. intros. by apply store_other.
  - intros i Hi%Hl _ v Hp'. apply store_value; [done | | done]. rewrite Forall_forall in Hw. apply Hw, nth_In. lia.
  - done.
  - done.
Qed.

Lemma load_factory_bad l words w :
  (forall i, i ∈ l <-> 0 <= i < CONF_REG_MAP_NUM) -> xor_words words <> 0 ->
  (load_factory l words w).1 = 0 /\
  forall j, 0 <= j < CONF_REG_SID_START -> is_Some (reg_ptr (conf_reg j)) -> reg_value (load_factory l words w).2 j = dft_value j.
Proof.
  intros Hl Hx%Z.eqb_neq. unfold load_factory. rewrite checksum_xor, Hx. cbn [negb]. unfold seqc, reta. cbn [fst snd].
  split; [done|]. intros j Hj Hp. by apply load_dft_loop.
Qed.

(** The factory settings.  Saving them succeeds.  At any later time, whatever memory and
    the other copies hold: an intact factory copy is loaded into every register, and a copy
    in which one word, or the checksum, was changed is refused and the registers get their
    defaults (all but the device information, which is taken from the user copies). *)
Theorem factory_conf_roundtrip w w2 :
  let w1 := (save_conf_reg 1 w).2 in
  (save_conf_reg 1 w).1 = 0 /\
  ((forall i, 0 <= i <= CONF_REG_MAP_NUM -> cw w2 3 i = cw w1 3 i) ->
   (init_load_factory_conf w2).1 = 1 /\
   forall i, 0 <= i < CONF_REG_MAP_NUM -> is_Some (reg_ptr (conf_reg i)) ->
     reg_value (init_load_factory_conf w2).2 i = reg_value w i) /\
  (forall o, 0 <= o <= CONF_REG_MAP_NUM -> cw w2 3 o <> cw w1 3 o ->
   (forall i, 0 <= i <= CONF_REG_MAP_NUM -> i <> o -> cw w2 3 i = cw w1 3 i) ->
   (init_load_factory_conf w2).1 = 0 /\
   forall i, 0 <= i < CONF_REG_SID_START -> is_Some (reg_ptr (conf_reg i)) ->
     reg_value (init_load_factory_conf w2).2 i = dft_value i).
Proof.
  destruct (save_factory_spec w) as [H1 H2]. cbv zeta.
  assert (forall i, 0 <= i <= 435 -> cw (save_conf_reg 1 w).2 3 i = saved w i) as Hs by (intros i Hi; by rewrite H2 by lia).
  pose proof (fun i => elem_of_range i CONF_REG_MAP_NUM) as Hl. rewrite load_factory_eq.
  generalize dependent (range CONF_REG_MAP_NUM). intros l Hl.
  split_and!; [done | intros Hi | intros o Ho Hne Hi].
  - assert (cw w2 3 <$> seqZ 0 436 = saved w <$> seqZ 0 436) as E.
    { apply list_fmap_ext. intros j x Hx%lookup_seqZ. rewrite Hi, Hs by lia. done. }
    destruct (load_factory_good l (cw w2 3 <$> seqZ 0 436) w2) as [A1 A2]; [done | | | rewrite E; apply saved_xor |].
    + apply Forall_fmap, Forall_forall. intros i _. apply ee_word_range.
    + rewrite length_fmap, length_seqZ. lia.
    + split; [done|]. intros j Hj Hp. rewrite A2 by done. fold (range 436). rewrite nth_fmap_range, Hi, Hs by lia.
      unfold saved. by rewrite (proj2 (Z.eqb_neq j CONF_REG_MAP_NUM)) by lia.
  - apply load_factory_bad; [done|].
    set (g := fun i => if bool_decide (0 <= i <= 435) then cw w2 3 i else saved w i).
    assert (cw w2 3 <$> seqZ 0 436 = g <$> seqZ 0 436) as ->.
    { apply list_fmap_ext. intros j x Hx%lookup_seqZ. unfold g. by rewrite bool_decide_true by lia. }
    apply (damaged_xor w g o); [done | |].
    + unfold g. rewrite bool_decide_true by lia. by rewrite <- Hs by lia.
    + intros i Hio. unfold g. case_bool_decide; [|done]. by rewrite Hi, Hs by lia.
Qed.

(** Word 10 of the factory copy is overwritten. *)
Lemma factory_conf_roundtrip_witness :
  let w2 := stw (copy_addr 3 10) 5 (save_conf_reg 1 w_zero).2 in
  (init_load_factory_conf w2).1 = 0 /\ reg_value (init_load_factory_conf w2).2 10 = 32799 /\
  (init_load_factory_conf (save_conf_reg 1 w_zero).2).1 = 1.
Proof.
  cbv zeta. destruct (save_factory_spec w_zero) as [_ Hs]. pose proof (factory_conf_roundtrip w_zero) as H. cbv zeta in H.
  assert (cw (save_conf_reg 1 w_zero).2 3 10 = 0) as E0 by (rewrite Hs by lia; reflexivity).
  set (w1 := (save_conf_reg 1 w_zero).2) in *. clearbody w1.
  destruct (H (stw (copy_addr 3 10) 5 w1)) as (_ & _ & H2). destruct (H w1) as (_ & H1 & _).
  destruct (H2 10) as [A1 A2].
  - lia.
  - rewrite cw_stw, E0 by lia. discriminate.
  - intros i Hi Hne. rewrite cw_stw by lia. by rewrite (proj2 (Z.eqb_neq i 10)), andb_false_r by done.
  - split_and!; [exact A1 | | by apply H1].
    rewrite A2; [reflexivity | lia | eexists; reflexivity].
Defined.

(** ** Passwords *)

Section passwords.
(** What the digest library documents: SHA-256 gives 32 bytes. *)
Context (sha256 : list Z -> list Z).
Hypothesis sha256_length : forall m, List.length (sha256 m) = 32%nat.
Hypothesis sha256_bytes : forall m, Forall (fun x => 0 <= x < 256) (sha256 m).

(** The digest stored for user [u] (1 to 4). *)
Definition stored (w : world) (u : Z) : list Z := @I2C_EE_BufRead w (USR_PW_EE_BASE + 32 * (u - 1)) 32.

Lemma nth_read_bytes m a n k : (k < n)%nat -> nth k (read_bytes m a n) 0 = u8 (m (u16 (a + Z.of_nat k))).
Proof. intros Hk. apply nth_lookup_Some. unfold read_bytes. by rewrite list_lookup_fmap, lookup_seq_lt. Qed.

Lemma stored_write d u v w :
  1 <= u <= 4 -> 1 <= v <= 4 -> List.length d = 32%nat -> Forall (fun x => 0 <= x < 256) d ->
  stored (I2C_EE_BufWrite d (USR_PW_EE_BASE + 32 * (u - 1)) 32 w).2 v = if u =? v then d else stored w v.
Proof.
  intros Hu Hv Hd Hb. unfold stored, I2C_EE_BufRead, I2C_EE_BufRead_bsp, here. change (S (Z.to_nat (32 - 1))) with 32%nat.
  assert (forall m, List.length (read_bytes m (USR_PW_EE_BASE + 32 * (v - 1)) 32) = 32%nat) as Hl
    by (intros m; unfold read_bytes; by rewrite length_fmap, length_seq).
  apply (nth_ext _ _ 0 0); [rewrite Hl; by case_match|]. intros k. rewrite Hl. intros Hk.
  rewrite nth_read_bytes, bufwrite_flat, (u16_small (_ + Z.of_nat k)) by lia. unfold flat_write. rewrite Hd.
  destruct (Z.eqb_spec u v) as [->|Hne].
  - rewrite (proj2 (Z.leb_le _ _)), (proj2 (Z.ltb_lt _ _)) by lia. cbn [andb].
    replace (Z.to_nat _) with k by lia. apply u8_small. rewrite Forall_forall in Hb. apply Hb, nth_In. lia.
  - rewrite nth_read_bytes, (u16_small (_ + Z.of_nat k)) by lia.
    destruct (Z.leb_spec (USR_PW_EE_BASE + 32 * (u - 1)) (USR_PW_EE_BASE + 32 * (v - 1) + Z.of_nat k)),
      (Z.ltb_spec (USR_PW_EE_BASE + 32 * (v - 1) + Z.of_nat k) (USR_PW_EE_BASE + 32 * (u - 1) + Z.of_nat 32)); done || lia.
Qed.

Lemma Buffercmp_eq a b : List.length a = List.length b -> (Buffercmp a b =? 1) = bool_decide (a = b).
Proof.
  revert b. induction a as [|x a IH]; intros [|y b] Hl; try done. cbn [Buffercmp]. cbn in Hl.
  destruct (Z.eqb_spec x y) as [->|Hne].
  - rewrite IH by lia. apply bool_decide_ext. split; congruence.
  - rewrite bool_decide_false by congruence. done.
Qed.

Lemma stored_length w u : List.length (stored w u) = 32%nat.
Proof. unfold stored, I2C_EE_BufRead, I2C_EE_BufRead_bsp, read_bytes. by rewrite length_fmap, length_seq. Qed.

Lemma authen_verify_spec u q w :
  let ok := bool_decide (sha256 q = stored w u) in
  (authen_verify sha256 u q w).1 = Z.b2z ok /\
  (authen_verify sha256 u q w).2⟪status_permission_level⟫ = if ok then u16 u else 0.
Proof.
  cbv zeta. unfold authen_verify, letc. rewrite sha256_length. change (Z.of_nat 32) with 32. fold (stored w u).
  rewrite Buffercmp_eq by (by rewrite sha256_length, stored_length).
  destruct (bool_decide _); unfold seqc, reta; cbn [fst snd]; (split; [done|]); by rewrite rd_assign_same.
Qed.

(** C39: passwords.  After the password of user [u] is set to [p], logging in as [u] with [q]
    succeeds, and gives the permission level [u], exactly if [q] has the digest of [p];
    otherwise the level is 0.  The passwords of the other users are unaffected.  After
    [authen_init] each user's password is the default one. *)
Theorem authen_roundtrip u v p q w :
  1 <= u <= 4 -> 1 <= v <= 4 ->
  let w1 := (authen_revise sha256 u p w).2 in
  let ok := bool_decide (sha256 q = sha256 p) in
  (authen_verify sha256 u q w1).1 = Z.b2z ok /\
  (authen_verify sha256 u q w1).2⟪status_permission_level⟫ = (if ok then u else 0) /\
  (u <> v -> (authen_verify sha256 v q w1).1 = (authen_verify sha256 v q w).1) /\
  (authen_verify sha256 v (nth (Z.to_nat (v - 1)) pw_strings []) (authen_init sha256 w).2).1 = 1.
Proof.
  intros Hu Hv. cbv zeta. set (w1 := (authen_revise sha256 u p w).2).
  assert (forall x, 1 <= x <= 4 -> stored w1 x = if u =? x then sha256 p else stored w x) as Hs.
  { intros x Hx. unfold w1, authen_revise, seqc, runc, reta. cbn [snd]. by apply stored_write. }
  destruct (authen_verify_spec u q w1) as [-> ->]. rewrite (Hs u Hu), Z.eqb_refl.
  split_and!; [done | by rewrite u16_small by lia | |].
  - intros Hne. destruct (authen_verify_spec v q w1) as [-> _], (authen_verify_spec v q w) as [-> _].
    rewrite (Hs v Hv). by rewrite (proj2 (Z.eqb_neq u v)).
  - destruct (authen_verify_spec v (nth (Z.to_nat (v - 1)) pw_strings []) (authen_init sha256 w).2) as [-> _].
    rewrite bool_decide_true; [done|]. unfold authen_init, seqc, reta, forc. change (range 4) with [1 - 1; 2 - 1; 3 - 1; 4 - 1].
    cbn [foldl snd]. unfold runc. rewrite !stored_write by (done || lia).
    assert (v = 1 \/ v = 2 \/ v = 3 \/ v = 4) as [->|[->|[->| ->]]] by lia; done.
Qed.

End passwords.

(** With a stand-in digest: the message itself, padded or cut to 32 bytes. *)
Lemma authen_roundtrip_witness :
  let digest := fun m => u8 <$> take 32 (m ++ repeat 0 32) in
  (authen_verify digest 2 [0x61; 0x62] (authen_revise digest 2 [0x61; 0x62] w_zero).2).1 = 1 /\
  (authen_verify digest 2 [0x61] (authen_revise digest 2 [0x61; 0x62] w_zero).2).1 = 0.
Proof.
  cbv zeta. set (digest := fun m => u8 <$> take 32 (m ++ repeat 0 32)).
  assert (forall m, List.length (digest m) = 32%nat) as H1.
  { intros m. unfold digest. rewrite length_fmap, length_take, length_app, repeat_length. lia. }
  assert (forall m, Forall (fun x => 0 <= x < 256) (digest m)) as H2.
  { intros m. apply Forall_fmap, Forall_forall. intros x _. apply u8_range. }
  split.
  - destruct (authen_roundtrip digest H1 H2 2 1 [0x61; 0x62] [0x61; 0x62] w_zero) as [-> _]; [lia | lia | reflexivity].
  - destruct (authen_roundtrip digest H1 H2 2 1 [0x61; 0x62] [0x61] w_zero) as [-> _]; [lia | lia | reflexivity].
Defined.
