(* ===== verification/Boot.v ===== *)
(** * applications/application.c: from power-on to the control loop

    [rt_init_thread_entry] loads the configuration ([sys_global_var_init]) and clears the
    local registers ([sys_local_var_init]) before the threads run.  The theorem starts from
    memory as the C runtime leaves it, with any contents of the EEPROM, and shows that the
    loop starts in a state from which it is safe. *)

From S2P Require Import Prelude Conf Fifo Machine SysStatus EventRecord Eeprom GlobalVar AlarmCalc Fan Compressor WaterMake WaterOut Storage Dio OutputCtrl Background CoreLoop ConfLoad.

Abbreviation DEBUG_TIMEOUT_MAX := 5000.
Abbreviation BITMAP_MAX_CNT := 5.
Abbreviation L_FSM_STATE_MAX_NUM := 9.

(** The source clears the rows of [l_sys.bitmap] up to [DO_MAX_CNT], past their five columns:
    the half-words it reaches belong to [ao_list] and [comp_timeout], which are cleared
    next.  The demand registers of the unused demand calculation are left out. *)
Definition sys_local_var_init : act Z :=
  FOR i IN range BITMAP_MAX_CNT DO
    l_bitmap.[0, i] ::= 0;;
    l_bitmap.[1, i] ::= 0
  END;;
  FOR i IN range DO_MAX_CNT DO l_comp_timeout.[i] ::= 0 END;;
  FOR i IN range AO_MAX_CNT DO
    FOR j IN range BITMAP_MAX_CNT DO l_ao_list.[i, j] ::= 0 END
  END;;
  FOR i IN range L_FSM_STATE_MAX_NUM DO l_l_fsm_state.[i] ::= 0 END;;
  l_debug_flag ::= 0;;
  l_debug_tiemout ::= DEBUG_TIMEOUT_MAX;;
  l_TH_Check_Delay ::= 5;;
  RETURN 1.

Section boot.
Context (sha256 : list Z -> list Z).

Definition boot : cmd :=
  RUN (sys_global_var_init sha256);;
  RUN sys_local_var_init.

(** ** Footprints *)

Definition conf_fields : list field :=
  Eval vm_compute in remove_dups (omap (fun r => fld <$> reg_ptr r) conf_reg_map_inst).
Definition field_of (F : list field) (p : option cell) : bool :=
  match p with Some c => fin (fld c) F && negb (is_req c) | None => true end.

Lemma conf_fields_all : forallb (fun r => field_of conf_fields (reg_ptr r)) conf_reg_map_inst = true.
Proof. vm_compute. reflexivity. Qed.
(** What loading changes, the status registers apart. *)
Definition boot_fields : list field :=
  Eval vm_compute in P_ee :: l_SEL_Jump :: status_status_remap :: ComPara_u16Manual_Test_En :: general_alarm_bypass_en ::
    ComPara_u16Test_Mode_Type :: ComPara_u16ExitWater_Mode :: ComPara_u16Water_Mode :: ComPara_u16Water_Flow ::
    Platform_Net_ERR :: conf_fields.

Lemma field_of_boot p : field_of conf_fields p = true -> field_of boot_fields p = true.
Proof.
  destruct p as [c|]; [|done]. unfold field_of. rewrite !andb_true_iff. intros [H1 H2]. split; [|done].
  unfold fin in H1. apply existsb_exists in H1 as (g & Hg & E%feqb_spec). rewrite E.
  assert (forallb (fun g => fin g boot_fields) conf_fields = true) as HF by (vm_compute; reflexivity).
  rewrite forallb_forall in HF. by apply HF.
Qed.

Lemma store_boot p v : field_of boot_fields p = true -> respc (unch boot_fields []) (store p v).
Proof.
  intros H. destruct p as [c|]; cbn [store]; [|apply resp_skip; typeclasses eauto].
  by apply unch_assign_col.
Qed.

Lemma store_conf i v : 0 <= i < CONF_REG_MAP_NUM -> respc (unch boot_fields []) (store (reg_ptr (conf_reg i)) v).
Proof.
  intros Hi. apply store_boot, field_of_boot. pose proof conf_fields_all as H. rewrite forallb_forall in H.
  apply H, nth_In. rewrite conf_reg_map_length. lia.
Qed.

Lemma conf_reg_read_boot i : 0 <= i < CONF_REG_MAP_NUM -> respa (unch boot_fields []) (conf_reg_read_ee i).
Proof.
  intros Hi. unfold conf_reg_read_ee. pose proof (store_conf i) as Hs. repeat resp_step; try typeclasses eauto; try by apply Hs.
  eapply resp_unch_weaken; [apply eeprom_compare_read_foot | vm_compute; reflexivity].
Qed.

Lemma load_words_boot l : forall sum, (forall i, i ∈ l -> 0 <= i < CONF_REG_MAP_NUM) -> respa (unch boot_fields []) (load_words l sum).
Proof.
  induction l as [|i l IH]; intros sum Hl; cbn [load_words]; [apply resp_ret; typeclasses eauto|].
  apply resp_bind; [typeclasses eauto | apply conf_reg_read_boot, Hl; by left | intros e; apply IH; intros j Hj; apply Hl; by right].
Qed.

Lemma load_dft_boot i : 0 <= i < CONF_REG_MAP_NUM -> respc (unch boot_fields []) (load_dft i).
Proof. intros Hi. unfold load_dft. case_match; [by apply store_conf | by apply resp_run, conf_reg_read_boot]. Qed.

Lemma save_copy_foot l f a e : respa (unch [P_ee] []) (save_copy l f a e).
Proof. unfold save_copy. footprint. Qed.
#[local] Hint Resolve save_copy_foot : foot.
Lemma save_conf_reg_foot k : respa (unch [P_ee] []) (save_conf_reg k).
Proof. unfold save_conf_reg. footprint. Qed.
Lemma set_load_flag_foot k : respa (unch [P_ee] []) (set_load_flag k).
Proof. unfold set_load_flag. footprint. Qed.
Lemma authen_init_foot : respa (unch [P_ee] []) (authen_init sha256).
Proof. unfold authen_init. footprint. Qed.
Lemma get_ee_status_foot : respa (unch [l_SEL_Jump] []) get_ee_status.
Proof. unfold get_ee_status, GetSEL. footprint. Qed.
#[local] Hint Resolve save_conf_reg_foot set_load_flag_foot authen_init_foot get_ee_status_foot : foot.

Lemma user_conf_boot : respa (unch boot_fields []) init_load_user_conf.
Proof.
  unfold init_load_user_conf. repeat resp_step; try typeclasses eauto. apply load_words_boot. by intros i ?%elem_of_range.
Qed.
Lemma factory_conf_boot : respa (unch boot_fields []) init_load_factory_conf.
Proof.
  unfold init_load_factory_conf. repeat resp_step; try typeclasses eauto;
    [by apply load_dft_boot, elem_of_range | by apply store_conf, elem_of_range].
Qed.
Lemma default_boot : respa (unch boot_fields []) (init_load_default sha256).
Proof.
  unfold init_load_default. repeat resp_step; try typeclasses eauto; try foot_leaf. by apply load_dft_boot, elem_of_range.
Qed.

(** ** The status registers *)

(** Statements that leave a cell at 0 if it was. *)
Definition zero_keep (c : cell) : relation world := fun w w' => w⟪c⟫ = 0 -> w'⟪c⟫ = 0.

#[local] Instance zero_keep_preorder c : PreOrder (zero_keep c).
Proof. split; [intros w H; exact H | intros w1 w2 w3 H1 H2 H; exact (H2 (H1 H))]. Qed.

Lemma zero_keep_rd {X} (out : X -> world) k c : resp out (keep (fun w => w⟪c⟫)) k -> resp out (zero_keep c) k.
Proof. intros H w E. unfold keep in H. by rewrite H. Qed.

(** What a power-on state has at 0 and start-up must not set. *)
Definition quiet_fields : list field := [status_alarm_bitmap; gpio_out; status_dout_bitmap; ComSta_u16Dout_bitmap].
Definition quiet (c : cell) : bool := fin (fld c) quiet_fields.

Lemma quiet_not_req c : quiet c = true -> is_req c = false.
Proof.
  unfold quiet, is_req. intros H. destruct (feqb (fld c) l_bitmap) eqn:E; [|done]. apply feqb_spec in E. by rewrite E in H.
Qed.

Lemma quiet_foot {X} (out : X -> world) F k c :
  quiet c = true -> resp out (unch F []) k -> disjoint_from quiet_fields F = true -> resp out (zero_keep c) k.
Proof.
  intros Hc Hk HF. apply zero_keep_rd. eapply keep_rd_unch; [exact Hk|]. rewrite (quiet_not_req c Hc), orb_false_r.
  by apply (disjoint_fin quiet_fields).
Qed.

Lemma quiet_assign c d e : quiet c = true -> quiet d = false -> respc (zero_keep c) (assign d e).
Proof. intros Hc Hd. apply zero_keep_rd. intros w. unfold keep. apply rd_assign_other. intros ->. congruence. Qed.

Lemma quiet_table :
  forallb (fun r : sts_entry => match r.1 with Some d => negb (quiet d) || (r.2 =? 0) | None => true end) status_reg_map_inst = true.
Proof. vm_compute. reflexivity. Qed.

Lemma status_quiet c : quiet c = true -> respc (zero_keep c) init_load_status.
Proof.
  intros Hc. pose proof quiet_table as Ht. rewrite forallb_forall in Ht. unfold init_load_status.
  repeat (resp_step; try typeclasses eauto); try (apply quiet_assign; [done | reflexivity]).
  match goal with Hi : _ ∈ range 50 |- _ => apply elem_of_range in Hi end.
  set (r := nth _ _ _). assert (In r status_reg_map_inst) as Hr by (apply nth_In; change (List.length status_reg_map_inst) with 50%nat; lia).
  specialize (Ht r Hr). clearbody r. destruct r as [[d|] v]; cbn [fst snd store] in *; [|apply resp_skip; typeclasses eauto].
  intros w Hz. destruct (cell_eqb d c) eqn:E.
  - apply cell_eqb_spec in E as ->. rewrite Hc in Ht. cbn in Ht. apply Z.eqb_eq in Ht as ->. rewrite rd_assign_same.
    by destruct (fty (fld c)).
  - rewrite rd_assign_other; [done|]. intros ->. by rewrite cell_eqb_refl in E.
Qed.

(** ** Start-up as a whole *)

#[local] Hint Resolve user_conf_boot factory_conf_boot default_boot : foot.

Ltac quiet_leaf :=
  lazymatch goal with
  | |- resp _ (zero_keep _) (assign _ _) => apply quiet_assign; [assumption | reflexivity]
  | |- resp _ (zero_keep _) init_load_status => apply status_quiet; assumption
  | |- resp _ (zero_keep _) _ => eapply quiet_foot; [assumption | solve [eauto 2 with foot] | vm_compute; reflexivity]
  end.
Ltac quiet_steps := repeat first [progress cbv beta zeta | resp_step; try typeclasses eauto | quiet_leaf].

Lemma global_init_quiet c : quiet c = true -> respa (zero_keep c) (sys_global_var_init sha256).
Proof. intros Hc. unfold sys_global_var_init, init_load, conf_loaded. quiet_steps. Qed.

Lemma local_init_quiet c : quiet c = true -> respa (zero_keep c) sys_local_var_init.
Proof. intros Hc. unfold sys_local_var_init. quiet_steps. Qed.

Lemma boot_quiet c : quiet c = true -> respc (zero_keep c) (boot).
Proof.
  intros Hc. unfold boot. apply resp_seq; [typeclasses eauto | | ]; apply resp_run; [by apply global_init_quiet | by apply local_init_quiet].
Qed.

Lemma local_init_mask k w : 0 <= k <= 1 -> (sys_local_var_init w).2⟪l_bitmap.[k, BITMAP_MASK]⟫ = 0.
Proof.
  intros Hk. assert (k = 0 \/ k = 1) as [->| ->] by lia; unfold sys_local_var_init; by obs.
Qed.

(** Memory as the C runtime and the reset leave it; the EEPROM and the input pins are free. *)
Definition power_on (w : world) : Prop := forall c, quiet c = true -> w⟪c⟫ = 0.

Lemma boot_zero w c : power_on w -> quiet c = true -> (boot w)⟪c⟫ = 0.
Proof. intros Hw Hc. apply (boot_quiet c Hc w). by apply Hw. Qed.

Lemma boot_reset_state w : power_on w -> reset_state (boot w).
Proof.
  intros Hw. split_and!.
  - intros k _. by apply boot_zero.
  - intros d Hd. unfold pin_on, dout_bit, sts_bit. rewrite !boot_zero by done. by rewrite !Z.bits_0.
  - intros k Hk. by apply local_init_mask.
Qed.

Definition mode_cells : list cell :=
  [scalar general_alarm_bypass_en; scalar ComPara_u16Manual_Test_En; scalar ComPara_u16Test_Mode_Type].

Lemma boot_modes w c : c ∈ mode_cells -> (boot w)⟪c⟫ = 0.
Proof.
  unfold boot, seqc, runc, sys_global_var_init, bindc, seqc, reta. generalize (init_load sha256). intros load.
  unfold mode_cells. rewrite !elem_of_cons, elem_of_nil. intros [->|[->|[->|[]]]]; cbn [snd]; obs; reflexivity.
Qed.

Lemma core_start_keep w c :
  fin (fld c) (general_alarm_bypass_en :: ComPara_u16Manual_Test_En :: ComPara_u16Test_Mode_Type :: out_fields) = true ->
  is_req c = false -> (core_start w)⟪c⟫ = w⟪c⟫.
Proof.
  intros Hc Hr. unfold core_start, seqc. destruct alarm_acl_init_after as (k & Hk & Ek).
  set (G := general_alarm_bypass_en :: ComPara_u16Manual_Test_En :: ComPara_u16Test_Mode_Type :: out_fields) in *.
  rewrite (unch_rd _ _ _ _ c (sys_option_di_sts_foot _ _ _)) by (first [done | by apply (disjoint_fin G)]).
  by rewrite Ek, (unch_rd _ _ _ _ c (Hk _)), (unch_rd _ _ _ _ c (chain_init_foot w)) by (first [done | by apply (disjoint_fin G)]).
Qed.

(** C14: from power-on to the loop.  Whatever the EEPROM and the input pins hold, start-up ends
    in a state from which the control loop is safe: it is one of the states [core_safety] is
    about, every output pin is off, alarms are not bypassed, and the machine is in automatic
    mode with no test running. *)
Theorem boot_reaches_loop {U : f2u_undefined} w :
  power_on w ->
  let w0 := core_start (boot w) in
  core_reach w0 /\ (forall d, 0 <= d < 20 -> pin_on w0 d = false) /\
  w0⟪general_alarm_bypass_en⟫ = 0 /\ automatic w0 = true.
Proof.
  intros Hw. cbv zeta. split_and!.
  - by apply core_reach_start, boot_reset_state.
  - intros d Hd. unfold pin_on. by rewrite core_start_keep, boot_zero.
  - rewrite core_start_keep by done. by apply boot_modes; left.
  - unfold automatic. rewrite !core_start_keep by done. rewrite !boot_modes; [done | |]; unfold mode_cells; set_solver.
Qed.

End boot.

(** An erased EEPROM (all bytes 0xff): the defaults are loaded and saved. *)
Lemma boot_reaches_loop_witness :
  let U : f2u_undefined := fun _ => 0 in
  let digest := fun m => u8 <$> take 32 (m ++ repeat 0 32) in
  core_reach (core_start (boot digest w_zero)) /\ pin_on (core_start (boot digest w_zero)) DO_COMP1_BPOS = false.
Proof.
  cbv zeta. assert (power_on w_zero) as Hw by (intros c _; apply rd_w_zero).
  destruct (boot_reaches_loop (U := fun _ => 0) (fun m => u8 <$> take 32 (m ++ repeat 0 32)) w_zero Hw) as (H1 & H2 & _).
  split; [exact H1 | apply H2; lia].
Defined.
