(* ===== verification/ModbusRegs.v ===== *)
(** * Registers seen from the host: FreeModbus/port/modbus_monitor_slave/user_mb_app_cpad.c

    The host (or the display) addresses 64 command registers, the 435 configuration registers
    from address 64 and the 50 status registers from address 500.  [mbs_read_reg] reads one,
    [COM_SINGLE_eMBRegHoldingCB] writes one configuration register or executes the command
    behind it, [cpad_eMBRegHoldingCB] serves a whole request from the receive buffer.

    The code can index the configuration table outside its bounds (addresses 499 and 500, and
    multiple writes that start below 64); what is there is a parameter.  A reset of the
    processor is recorded in [system_reset]; the device executes nothing after it. *)

From S2P Require Import Prelude Conf Fifo Machine SysStatus EventRecord Eeprom GlobalVar AlarmCalc Fan Dio ConfLoad.

#[local] Open Scope Z_scope.

Abbreviation MB_ENOERR := 0.
Abbreviation MB_ENOREG := 1.
Abbreviation MB_ENORES := 4.
Abbreviation CPAD_MB_REG_READ := 0x03.
Abbreviation CPAD_MB_REG_SINGLE_WRITE := 0x06.
Abbreviation CPAD_MB_REG_MULTIPLE_WRITE := 0x10.
Abbreviation CONFIG_REG_MAP_OFFSET := 64.
Abbreviation STATUS_REG_MAP_OFFSET := 500.
Abbreviation CPAD_S_REG_HOLDING_START := 0.
Abbreviation CPAD_S_REG_HOLDING_NREGS := 800.
Abbreviation CPAD_REG_HOLDING_WRITE_NREGS := 501.
Abbreviation MNT_RX_LEN := 512.
Abbreviation USER_CPAD := 2.
Abbreviation FACTORY_RESET := 56.
Abbreviation MANUAL_TSET := 58.
Abbreviation CLEAR_RT := 66.
Abbreviation CLEAR_ALARM := 67.
Abbreviation SET_TL := 68.
Abbreviation SET_TH := 69.
Abbreviation EE_WIFI_SET := 313.
Abbreviation EE_WIFI_PASSWORD := 325.
Abbreviation WIFI_SET := 0x5AA5.
Abbreviation SETTIME_DELAY := 10.
Abbreviation MANUAL_TEST_UNABLE := 0.

(** What lies where the table would have an entry before its first or after its last one. *)
Class beyond_table : Type := {
  beyond_id : Z -> Z;
  beyond_store : Z -> Z -> world -> world
}.

Definition in_table (i : Z) : bool := (0 <=? i) && (i <? CONF_REG_MAP_NUM).

(** [conf_reg_map_inst[i].id]. *)
Definition reg_id {T : beyond_table} (i : Z) : Z := if in_table i then id (conf_reg i) else beyond_id i.

(** [*conf_reg_map_inst[i].reg_ptr = v]. *)
Definition store_reg {T : beyond_table} (i v : Z) : cmd :=
  if in_table i then store (reg_ptr (conf_reg i)) v else beyond_store i v.

Definition NVIC_SystemReset : cmd := system_reset ::= 1.

(** ** One register *)

Definition mbs_read_reg {w : cur} (read_addr : Z) : Z :=
  if read_addr <? CMD_REG_SIZE then «cpad_usSRegHoldBuf.[read_addr]»
  else if (CMD_REG_SIZE <=? read_addr) && (read_addr <? CONF_REG_MAP_NUM + CMD_REG_SIZE) then
    deref (reg_ptr (conf_reg (read_addr - CMD_REG_SIZE)))
  else if (STATUS_REG_MAP_OFFSET <=? read_addr) && (read_addr <? STATUS_REG_MAP_OFFSET + STATUS_REG_MAP_NUM) then
    deref (nth (Z.to_nat (read_addr - STATUS_REG_MAP_OFFSET)) status_reg_map_inst (None, 0)).1
  else 0x7fff.

(** A write of the table's register, with the checks of [reg_map_write]. *)
Definition checked_write {T : beyond_table} (u16RegAddr usValue : Z) : act Z :=
  CALL r := reg_map_write (reg_id u16RegAddr) [usValue] 1 USER_CPAD IN
  RETURN (if r =? CPAD_ERR_NOERR then MB_ENOERR else MB_ENORES).

Definition factory_command (temp : Z) : act Z :=
  if temp =? 0x3C then RUN (set_load_flag 0x02);; NVIC_SystemReset;; RETURN MB_ENOERR
  else if temp =? 0x5A then RUN (set_load_flag 0x01);; NVIC_SystemReset;; RETURN MB_ENOERR
  else if temp =? 0x69 then RUN (save_conf_reg 0x01);; NVIC_SystemReset;; RETURN MB_ENOERR
  else if temp =? 0x2D then Close_DIS_PWR 1;; NVIC_SystemReset;; RETURN MB_ENOERR
  else if temp =? 0x1E then Close_DIS_PWR 1;; Close_DIS_PWR 0;; RETURN MB_ENOERR
  else if temp =? 0x15 then RUN (reset_runtime 0xFF);; RETURN MB_ENOERR
  else RETURN MB_ENORES.

Definition COM_SINGLE_eMBRegHoldingCB {T : beyond_table} (usAddress usValue : Z) : act Z :=
  if usAddress =? FACTORY_RESET then factory_command usValue
  else if usAddress =? MANUAL_TSET then
    if usValue =? MANUAL_TEST_UNABLE then NVIC_SystemReset;; RETURN MB_ENOERR
    else checked_write usAddress usValue
  else if usAddress =? CLEAR_RT then
    if nz usValue then RUN (reset_runtime usValue);; RETURN MB_ENOERR else RETURN MB_ENORES
  else if usAddress =? CLEAR_ALARM then
    if usValue =? 0x5A then RUN clear_alarm;; RETURN MB_ENOERR else RETURN MB_ENORES
  else if usAddress =? SET_TL then
    if nz usValue then
      l_Set_Systime_Delay ::= SETTIME_DELAY;;
      l_Set_Systime_Flag .|= 0x01;;
      ComPara_u16Set_Time.[0] ::= usValue;;
      RETURN MB_ENOERR
    else RETURN MB_ENORES
  else if usAddress =? SET_TH then
    if nz usValue then
      l_Set_Systime_Delay ::= SETTIME_DELAY;;
      l_Set_Systime_Flag .|= 0x02;;
      ComPara_u16Set_Time.[1] ::= usValue;;
      RETURN MB_ENOERR
    else RETURN MB_ENORES
  else checked_write usAddress usValue.

(** ** A request

    [off] is the position of [pucRegBuffer] in the receive buffer. *)

Definition rx_word {w : cur} (off : Z) : Z := u16 (u16 («cpad_rxbuf.[off]» .<< 8) + «cpad_rxbuf.[off + 1]»).

(** [CPAD_MB_REG_READ]: the values, high byte first. *)
Definition read_regs (off iRegIndex usNRegs : Z) : cmd :=
  FOR k IN range usNRegs DO
    LET cmd_value := mbs_read_reg (u16 (iRegIndex + k)) IN
    cpad_rxbuf.[off + 2 * k] ::= cmd_value .>> 8;;
    cpad_rxbuf.[off + 2 * k + 1] ::= cmd_value .& 0xFF
  END.

(** [CPAD_MB_REG_SINGLE_WRITE]: [while (usNRegs > 0)]. *)
Fixpoint single_write {T : beyond_table} (usNRegs : nat) (usAddress off iRegIndex : Z) : act Z :=
  match usNRegs with
  | O => RETURN MB_ENOERR
  | S n =>
      if usAddress + Z.of_nat usNRegs <=? CPAD_S_REG_HOLDING_START + CPAD_REG_HOLDING_WRITE_NREGS then
        if CPAD_S_REG_HOLDING_START + CONFIG_REG_MAP_OFFSET + 1 <=? usAddress + Z.of_nat usNRegs then
          LET cmd_value := rx_word off IN
          CALL r := COM_SINGLE_eMBRegHoldingCB (u16 (iRegIndex - CONFIG_REG_MAP_OFFSET)) cmd_value IN
          if r =? MB_ENOERR then single_write n usAddress off iRegIndex else RETURN MB_ENORES
        else
          cpad_usSRegHoldBuf.[iRegIndex] ::= «cpad_rxbuf.[off]» .<< 8;;
          cpad_usSRegHoldBuf.[iRegIndex] .|= «cpad_rxbuf.[off + 1]»;;
          single_write n usAddress (off + 2) (u16 (iRegIndex + 1))
      else RETURN MB_ENOREG
  end.

(** [CPAD_MB_REG_MULTIPLE_WRITE]: stored without any check of the values. *)
Definition multiple_write {T : beyond_table} (usNRegs usAddress off : Z) : act Z :=
  if (0 <? usNRegs) && (usNRegs <=? 100) then
    if usAddress + usNRegs <=? CPAD_S_REG_HOLDING_START + CPAD_REG_HOLDING_WRITE_NREGS then
      if CPAD_S_REG_HOLDING_START + CONFIG_REG_MAP_OFFSET + 1 <=? usAddress + usNRegs then
        FOR i IN range usNRegs DO
          LET cmd_value := rx_word (off + 2 * i) IN
          store_reg (usAddress - CONFIG_REG_MAP_OFFSET + i) cmd_value
        END;;
        RUN (save_conf_reg 0);;
        (if usAddress - CONFIG_REG_MAP_OFFSET =? EE_WIFI_PASSWORD then
           ComPara_u16Net_WifiSet ::= WIFI_SET;;
           LET v := «ComPara_u16Net_WifiSet» IN
           RUN (RAM_Write_Reg EE_WIFI_SET v 1)
         else skip);;
        RETURN MB_ENOERR
      else RETURN MB_ENOERR
    else RETURN MB_ENOREG
  else RETURN MB_ENOERR.

Definition cpad_eMBRegHoldingCB {T : beyond_table} (off usAddress usNRegs eMode : Z) : act Z :=
  if (CPAD_S_REG_HOLDING_START <=? usAddress)
     && (usAddress + usNRegs <=? CPAD_S_REG_HOLDING_START + CPAD_S_REG_HOLDING_NREGS) then
    let iRegIndex := usAddress - CPAD_S_REG_HOLDING_START in
    if eMode =? CPAD_MB_REG_READ then read_regs off iRegIndex usNRegs;; RETURN MB_ENOERR
    else if eMode =? CPAD_MB_REG_SINGLE_WRITE then single_write (Z.to_nat usNRegs) usAddress off iRegIndex
    else if eMode =? CPAD_MB_REG_MULTIPLE_WRITE then multiple_write usNRegs usAddress off
    else RETURN MB_ENOERR
  else RETURN MB_ENOREG.
