(* ===== verification/ModbusSlave.v ===== *)
(** * The serial link to the host: mb_event_cpad.c, portserial_cpad.c, porttimer_cpad.c

    (all in FreeModbus/port/modbus_monitor_slave).  The receive interrupt collects a frame in
    [cpad_slave_inst.rxbuf]; the slave thread polls it, checks its checksum, serves it
    ([analysis_protocol], file ModbusRegs) and queues the reply, which the transmit interrupt
    sends byte by byte.  The receive buffer is the array of cells [cpad_rxbuf.[i]], 512 bytes;
    cells with other indices stand for the memory around it, which some requests reach. *)

From S2P Require Import Prelude Calc Conf Fifo Crc Machine SysStatus EventRecord Eeprom GlobalVar AlarmCalc Fan Dio ConfLoad ModbusRegs.

#[local] Open Scope Z_scope.

Abbreviation REC_ADDR_STATE := 0.
Abbreviation REC_HEAD_STATE := 1.
Abbreviation REC_LEN_STATE := 2.
Abbreviation REC_DATA_STATE := 3.
Abbreviation MNT_RX_MIN := 4.
Abbreviation MNT_CMD_LEN := 8.
Abbreviation T5_HEAD := 0x5AA5.
Abbreviation T5_HEAD_LEN := 3.
Abbreviation Com_Pad := 0x01.

(** ** Receiving *)

(** [cpad_slave_inst.rxbuf[cpad_slave_inst.rec_cnt++] = rec_data]. *)
Definition rx_put (rec_data : Z) : cmd :=
  LET n := «cpad_rec_cnt» IN
  cpad_rxbuf.[n] ::= rec_data;;
  cpad_rec_cnt ::= n + 1.

(** The end of a frame: after eight bytes, or where a multiple write says it ends. *)
Definition rx_finish : cmd :=
  IF negb («cpad_rxbuf.[1]» =? CPAD_MB_REG_MULTIPLE_WRITE) THEN
    IF MNT_CMD_LEN <=? «cpad_rec_cnt» THEN
      cpad_rx_ok ::= 1;;
      cpad_rec_state ::= REC_ADDR_STATE
    END
  ELSE
    IF 9 <=? «cpad_rec_cnt» THEN
      IF «cpad_rec_cnt» =? «cpad_rxbuf.[6]» + 9 THEN
        cpad_rx_ok ::= 1;;
        cpad_rec_state ::= REC_ADDR_STATE
      END
    END
  END.

Definition CpadPortSerialReceiveFSM_MBS (rec_data : Z) : cmd :=
  cpad_rx_flag ::= 1;;
  IF «cpad_rx_ok» =? 0 THEN
    IF «cpad_rec_state» =? REC_ADDR_STATE THEN
      IF rec_data =? «cpad_addr» THEN
        cpad_rec_cnt ::= 0;;
        rx_put rec_data;;
        cpad_rec_state ::= REC_DATA_STATE
      END
    ELSE IF «cpad_rec_state» =? REC_DATA_STATE THEN
      IF «cpad_rec_cnt» <? MNT_RX_LEN THEN
        rx_put rec_data;;
        rx_finish
      ELSE
        cpad_rec_cnt ::= 0;;
        cpad_rx_ok ::= 0;;
        cpad_rec_state ::= REC_ADDR_STATE
      END
    ELSE cpad_rec_state ::= REC_ADDR_STATE END END
  END.

Definition CpadPortSerialReceiveFSM_T5 (rec_data : Z) : cmd :=
  cpad_rx_flag ::= 1;;
  IF «cpad_rx_ok» =? 0 THEN
    IF «cpad_rec_state» =? REC_ADDR_STATE THEN
      IF rec_data =? u8 (T5_HEAD .>> 8) THEN
        cpad_rec_cnt ::= 0;;
        rx_put rec_data;;
        cpad_rec_state ::= REC_HEAD_STATE
      END
    ELSE IF «cpad_rec_state» =? REC_HEAD_STATE THEN
      IF rec_data =? u8 T5_HEAD THEN
        rx_put rec_data;;
        cpad_rec_state ::= REC_LEN_STATE
      END
    ELSE IF «cpad_rec_state» =? REC_LEN_STATE THEN
      IF «cpad_rec_cnt» <? MNT_RX_LEN THEN
        cpad_rx_DataCnt ::= rec_data;;
        rx_put rec_data;;
        cpad_rec_state ::= REC_DATA_STATE
      END
    ELSE IF «cpad_rec_state» =? REC_DATA_STATE THEN
      IF «cpad_rec_cnt» <? MNT_RX_LEN THEN
        rx_put rec_data;;
        IF «cpad_rx_DataCnt» + T5_HEAD_LEN <=? «cpad_rec_cnt» THEN
          cpad_rx_ok ::= 1;;
          cpad_rec_state ::= REC_ADDR_STATE
        END
      END
    ELSE cpad_rec_state ::= REC_ADDR_STATE END END END END
  END.

(** ** Sending *)

(** [fifo8_push(&mnt_tx_fifo, ucbyte)]. *)
Definition tx_push (b : Z) : cmd := fun w => set_cpadfifo (fifo8_push (mnt_tx_fifo w) [b]).2 w.

(** [USART_SendData(USART2, b)]. *)
Definition USART2_SendData (b : Z) : cmd := fun w => set_cpadtx (u8 b :: usart2_tx w) w.

(** [fifo8_pop(&mnt_tx_fifo, &tx_data); USART_SendData(USART2, tx_data)]: when the queue is
    empty [tx_data] keeps whatever was on the stack. *)
Definition tx_next : cmd := fun w =>
  let '(_, d, f) := fifo8_pop (mnt_tx_fifo w) in
  let b := match d with Some blk => nth 0 blk 0 | None => w⟪stack_cs_data⟫ end in
  USART2_SendData b (set_cpadfifo f w).

(** The first [len] bytes of the receive buffer. *)
Definition cpad_xMBPortSerialPutByte (len : Z) : cmd :=
  FOR i IN range len DO
    LET b := «cpad_rxbuf.[i]» IN tx_push b
  END;;
  CPAD_RS485_send ::= 1;;
  USART2_RXNE_int ::= 0;;
  tx_next;;
  USART2_TC_int ::= 1.

(** The transmission-complete part of the interrupt. *)
Definition USART2_TC : cmd :=
  IF is_fifo8_empty (mnt_tx_fifo here) =? 0 THEN tx_next
  ELSE
    USART2_TC_int ::= 0;;
    USART2_RXNE_int ::= 1;;
    CPAD_RS485_send ::= 0
  END.

(** The receive part: a byte arrived. *)
Definition USART2_RXNE (data : Z) : cmd :=
  l_u16Uart_Timeout.[0] ::= 0;;
  l_u16Uart_Timeout.[1] ::= 0;;
  IF nz («l_SEL_Jump» .& Com_Pad) THEN CpadPortSerialReceiveFSM_T5 data
  ELSE CpadPortSerialReceiveFSM_MBS data END.

(** [ore]: an overrun made the handler read, and so drop, the data register first, after which
    the receive flag is clear. *)
Definition USART2_IRQHandler (ore rxne tc : bool) (data : Z) : cmd :=
  (if negb ore && rxne then USART2_RXNE data else skip);;
  (if tc then USART2_TC else skip).

(** ** The frame timer *)

Definition cpad_vMBPortTimersEnable : cmd := TIM5_enabled ::= 1.
Definition cpad_vMBPortTimersDisable : cmd := TIM5_enabled ::= 0.
Definition TIM5_IRQHandler : cmd := cpad_rx_timeout ::= 1.

(** ** The protocol *)

Definition cpad_MBPortSerialInit : cmd :=
  CPAD_RS485_send ::= 0;;
  USART2_RXNE_int ::= 1;;
  (fun w => set_cpadfifo
     (match buffer (mnt_tx_fifo w) with
      | [] => FifoCb (repeat 0 512) 0 0 1 MNT_RX_LEN 0
      | _ => fifo8_reset (mnt_tx_fifo w)
      end) w).

Definition cpad_MBRTUInit (ucSlaveAddress : Z) : cmd :=
  cpad_addr ::= ucSlaveAddress;;
  cpad_rec_cnt ::= 0;;
  cpad_rec_state ::= REC_ADDR_STATE;;
  cpad_rx_flag ::= 0;;
  cpad_rx_ok ::= 0;;
  cpad_rx_timeout ::= 0;;
  cpad_update_timer_flag ::= 0;;
  cpad_MBPortSerialInit;;
  cpad_vMBPortTimersDisable.

(** The reply's checksum over the first [sendlen - 2] bytes, low byte first, then sending. *)
Definition send_reply (sendlen : Z) : cmd :=
  LET crc := usMBCRC16 (fun i => «cpad_rxbuf.[i]») (u16 (sendlen - 2)) IN
  cpad_rxbuf.[sendlen - 1] ::= crc .>> 8;;
  cpad_rxbuf.[sendlen - 2] ::= crc;;
  cpad_xMBPortSerialPutByte sendlen.

(** The request is served in place; the error code and the length of the reply. *)
Definition serve_request {T : beyond_table} (cmd_ addr nreg : Z) : act (Z * Z) :=
  if cmd_ =? CPAD_MB_REG_READ then
    CALL errcode := cpad_eMBRegHoldingCB 3 addr nreg cmd_ IN
    cpad_rxbuf.[2] ::= nreg * 2;;
    RETURN (errcode, «cpad_rxbuf.[2]» + 5)
  else if cmd_ =? CPAD_MB_REG_SINGLE_WRITE then
    CALL errcode := cpad_eMBRegHoldingCB 4 addr 1 cmd_ IN
    RETURN (errcode, 8)
  else if cmd_ =? CPAD_MB_REG_MULTIPLE_WRITE then
    CALL errcode := cpad_eMBRegHoldingCB 7 addr nreg cmd_ IN
    RETURN (errcode, 8)
  else RETURN (MB_ENOERR, 0).

Definition analysis_protocol {T : beyond_table} : cmd :=
  LET cmd_ := «cpad_rxbuf.[1]» IN
  LET addr := u16 ((«cpad_rxbuf.[2]» .<< 8) + «cpad_rxbuf.[3]») IN
  LET nreg := u16 ((«cpad_rxbuf.[4]» .<< 8) + «cpad_rxbuf.[5]») IN
  CALL r := serve_request cmd_ addr nreg IN
  if r.1 =? MB_ENOERR then send_reply r.2
  else
    cpad_rxbuf.[1] ::= 0x80 .| «cpad_rxbuf.[1]»;;
    cpad_rxbuf.[2] ::= r.1;;
    send_reply 5.

(** Serve the frame received, if its checksum is right. *)
Definition check_frame {T : beyond_table} : cmd :=
  IF MNT_RX_MIN <=? «cpad_rec_cnt» THEN
    IF usMBCRC16 (fun i => «cpad_rxbuf.[i]») «cpad_rec_cnt» =? 0 THEN analysis_protocol END
  END.

Definition cpad_MBPoll {T : beyond_table} : cmd :=
  IF nz «cpad_rx_flag» THEN
    cpad_rx_flag ::= 0;;
    cpad_vMBPortTimersEnable
  END;;
  IF nz «cpad_rx_ok» || nz «cpad_rx_timeout» THEN
    cpad_vMBPortTimersDisable;;
    IF nz «cpad_rx_timeout» THEN
      cpad_rx_ok ::= 1;;
      cpad_rx_timeout ::= 0;;
      cpad_rec_state ::= REC_ADDR_STATE
    END;;
    check_frame;;
    cpad_rec_cnt ::= 0;;
    cpad_rx_ok ::= 0
  END.

(** One round of [cpad_modbus_slave_thread_entry]. *)
Definition cpad_slave_round {T : beyond_table} : cmd :=
  l_u16Uart_Timeout.[0].++;;
  IF 500 <=? «l_u16Uart_Timeout.[0]» THEN
    l_u16Uart_Timeout.[0] ::= 0;;
    cpad_MBRTUInit 1
  END;;
  cpad_MBPoll.

(** ** Contents of the receive buffer *)

(** The buffer holds [l] from position [off] on. *)
Definition buf_is (w : world) (off : Z) (l : list Z) : Prop :=
  forall k x, l !! k = Some x -> w⟪cpad_rxbuf.[off + Z.of_nat k]⟫ = x.

Lemma buf_is_nil w off : buf_is w off [].
Proof. by intros k x. Qed.

Lemma buf_is_cons w off x l : buf_is w off (x :: l) <-> w⟪cpad_rxbuf.[off]⟫ = x /\ buf_is w (off + 1) l.
Proof.
  split.
  - intros H. split; [specialize (H 0%nat x eq_refl); by rewrite Z.add_0_r in H|].
    intros k y Hk. specialize (H (S k) y Hk). by replace (off + 1 + Z.of_nat k) with (off + Z.of_nat (S k)) by lia.
  - intros [H1 H2] [|k] y Hk; [injection Hk as <-; by rewrite Z.add_0_r|].
    rewrite <- (H2 k y Hk). do 2 f_equal. lia.
Qed.

Lemma buf_is_app w off l1 l2 :
  buf_is w off (l1 ++ l2) <-> buf_is w off l1 /\ buf_is w (off + Z.of_nat (length l1)) l2.
Proof.
  revert off. induction l1 as [|x l1 IH]; intros off; cbn [app length].
  - rewrite Z.add_0_r. split; [intros; split; [apply buf_is_nil|done]|by intros []].
  - rewrite !buf_is_cons, IH.
    replace (off + 1 + Z.of_nat (length l1)) with (off + Z.of_nat (S (length l1))) by lia. tauto.
Qed.

(** Reading the whole of it. *)
Lemma buf_is_list w l : buf_is w 0 l -> (fun i => w⟪cpad_rxbuf.[i]⟫) <$> seqZ 0 (Z.of_nat (length l)) = l.
Proof.
  intros H. apply list_eq. intros k. rewrite list_lookup_fmap.
  destruct (l !! k) as [x|] eqn:E.
  - apply lookup_lt_Some in E as Hk. rewrite (proj2 (lookup_seqZ 0 _ k (Z.of_nat k))) by lia.
    cbn. f_equal. by apply (H k x).
  - apply lookup_ge_None in E. rewrite lookup_seqZ_ge by lia. done.
Qed.

Lemma buf_is_ext w w' off l :
  (forall i, off <= i < off + Z.of_nat (length l) -> w'⟪cpad_rxbuf.[i]⟫ = w⟪cpad_rxbuf.[i]⟫) ->
  buf_is w off l -> buf_is w' off l.
Proof.
  intros H Hl k x Hk. apply lookup_lt_Some in Hk as Hlt. rewrite H by lia. by apply Hl.
Qed.

(** ** Receiving a frame *)

(** The receiver takes a frame as complete after [cnt] bytes. *)
Definition frame_done (c1 c6 cnt : Z) : bool :=
  if negb (c1 =? CPAD_MB_REG_MULTIPLE_WRITE) then MNT_CMD_LEN <=? cnt
  else (9 <=? cnt) && (cnt =? c6 + 9).

Lemma rx_put_foot b : respc (unch [cpad_rxbuf; cpad_rec_cnt] []) (rx_put b).
Proof. unfold rx_put. footprint. Qed.
#[export] Hint Resolve rx_put_foot : foot.

Lemma rx_put_cnt b w : (rx_put b w)⟪cpad_rec_cnt⟫ = u16 (w⟪cpad_rec_cnt⟫ + 1).
Proof. unfold rx_put, letc, seqc. by rewrite rd_assign_same. Qed.

Lemma rx_put_buf b w i :
  (rx_put b w)⟪cpad_rxbuf.[i]⟫ = if i =? w⟪cpad_rec_cnt⟫ then u8 b else w⟪cpad_rxbuf.[i]⟫.
Proof.
  unfold rx_put, letc, seqc. rewrite rd_assign_other by done. unfold assign.
  destruct (Z.eqb_spec i (w⟪cpad_rec_cnt⟫)) as [->|Hne]; [by rewrite rd_wr_same|by rewrite rd_wr_ix by lia].
Qed.

Lemma rx_finish_foot : respc (unch [cpad_rx_ok; cpad_rec_state] []) rx_finish.
Proof. unfold rx_finish. footprint. Qed.
#[export] Hint Resolve rx_finish_foot : foot.

Lemma rx_finish_state w :
  w⟪cpad_rx_ok⟫ = 0 -> w⟪cpad_rec_state⟫ = REC_DATA_STATE ->
  let done := frame_done (w⟪cpad_rxbuf.[1]⟫) (w⟪cpad_rxbuf.[6]⟫) (w⟪cpad_rec_cnt⟫) in
  (rx_finish w)⟪cpad_rx_ok⟫ = Z.b2z done /\
  (rx_finish w)⟪cpad_rec_state⟫ = if done then REC_ADDR_STATE else REC_DATA_STATE.
Proof.
  intros K S. unfold rx_finish, frame_done, cif, seqc, skip. cbv zeta.
  destruct (negb _); [destruct (MNT_CMD_LEN <=? _)|destruct (9 <=? _); cbn [andb]; [destruct (_ =? _ + 9)|]].
  all: obs; done.
Qed.

Lemma rx_data_eq w b :
  w⟪cpad_rx_ok⟫ = 0 -> w⟪cpad_rec_state⟫ = REC_DATA_STATE -> w⟪cpad_rec_cnt⟫ < MNT_RX_LEN ->
  CpadPortSerialReceiveFSM_MBS b w = rx_finish (rx_put b ((cpad_rx_flag ::= 1) w)).
Proof.
  intros Hok Hst Hlt. unfold CpadPortSerialReceiveFSM_MBS, seqc, cif. obs. rewrite Hok, Hst. cbn [Z.eqb Pos.eqb].
  by rewrite (proj2 (Z.ltb_lt _ _) Hlt).
Qed.

(** A byte after the first one. *)
Lemma rx_data_step w b n :
  w⟪cpad_rx_ok⟫ = 0 -> w⟪cpad_rec_state⟫ = REC_DATA_STATE -> w⟪cpad_rec_cnt⟫ = n -> n < MNT_RX_LEN ->
  let w' := CpadPortSerialReceiveFSM_MBS b w in
  let c i := if i =? n then u8 b else w⟪cpad_rxbuf.[i]⟫ in
  let done := frame_done (c 1) (c 6) (n + 1) in
  (forall i, w'⟪cpad_rxbuf.[i]⟫ = c i) /\ w'⟪cpad_rec_cnt⟫ = n + 1 /\
  w'⟪cpad_rx_ok⟫ = Z.b2z done /\ w'⟪cpad_rec_state⟫ = if done then REC_ADDR_STATE else REC_DATA_STATE.
Proof.
  intros Hok Hst Hn Hlt. rewrite rx_data_eq by (done || lia). cbv beta zeta.
  pose proof (rd_u16 w cpad_rec_cnt eq_refl). set (w2 := rx_put b _).
  assert (B2 : forall i, w2⟪cpad_rxbuf.[i]⟫ = if i =? n then u8 b else w⟪cpad_rxbuf.[i]⟫).
  { intros i. unfold w2. rewrite rx_put_buf. obs. by rewrite Hn. }
  assert (N2 : w2⟪cpad_rec_cnt⟫ = n + 1) by (unfold w2; rewrite rx_put_cnt; obs; rewrite Hn; apply u16_small; lia).
  destruct (rx_finish_state w2) as [F1 F2]; [unfold w2; obs; done..|].
  rewrite !B2, N2 in F1, F2. split; [intros i; obs; apply B2|]. split; [obs; apply N2|]. done.
Qed.

(** The first byte. *)
Lemma rx_first_step w b :
  w⟪cpad_rx_ok⟫ = 0 -> w⟪cpad_rec_state⟫ = REC_ADDR_STATE -> 0 <= b < 256 -> w⟪cpad_addr⟫ = b ->
  let w' := CpadPortSerialReceiveFSM_MBS b w in
  w'⟪cpad_rxbuf.[0]⟫ = b /\ w'⟪cpad_rec_cnt⟫ = 1 /\ w'⟪cpad_rx_ok⟫ = 0 /\ w'⟪cpad_rec_state⟫ = REC_DATA_STATE.
Proof.
  intros Hok Hst Hb Ha. cbv zeta.
  assert (CpadPortSerialReceiveFSM_MBS b w =
    (cpad_rec_state ::= REC_DATA_STATE) (rx_put b ((cpad_rec_cnt ::= 0) ((cpad_rx_flag ::= 1) w)))) as ->.
  { unfold CpadPortSerialReceiveFSM_MBS, seqc, cif. obs. rewrite Hok, Hst, Ha. cbn [Z.eqb]. by rewrite Z.eqb_refl. }
  rewrite !(keep_rd (cpad_rec_state ::= _)) by keep_tac. rewrite rx_put_buf, rx_put_cnt, !rd_assign_same.
  cbn [fty fld scalar cast]. change (u16 0) with 0. cbn [Z.eqb]. rewrite u8_small by done. obs. done.
Qed.

(** Bytes arriving at the port. *)
Definition bytes_arrive (l : list Z) (w : world) : world := foldl (fun w b => USART2_RXNE b w) w l.

(** The jumper selects the Modbus protocol. *)
Definition modbus_selected (w : world) : Prop := nz (w⟪l_SEL_Jump⟫ .& Com_Pad) = false.

(** A frame as the receiver delimits it. *)
Definition frame_shape (f : list Z) : Prop :=
  bytes f /\ Z.of_nat (length f) <= MNT_RX_LEN /\
  if nth 1 f 0 =? CPAD_MB_REG_MULTIPLE_WRITE then Z.of_nat (length f) = nth 6 f 0 + 9
  else length f = 8%nat.

Lemma bytes_nth l i : bytes l -> byte (nth i l 0).
Proof.
  intros H. destruct (nth_in_or_default i l 0) as [Hin| ->]; [|unfold byte; lia].
  unfold bytes in H. rewrite List.Forall_forall in H. by apply H.
Qed.

Lemma frame_done_shape f c1 c6 m :
  frame_shape f -> 2 <= m <= Z.of_nat (length f) -> c1 = nth 1 f 0 -> (9 <= m -> c6 = nth 6 f 0) ->
  frame_done c1 c6 m = (m =? Z.of_nat (length f)).
Proof.
  intros (Hb & Hl & Hs) Hm -> H6. unfold frame_done. pose proof (bytes_nth f 6 Hb) as B6. unfold byte in B6.
  destruct (nth 1 f 0 =? _); cbn [negb].
  - destruct (Z.leb_spec 9 m); cbn [andb]; [rewrite H6 by done; by rewrite Hs|].
    symmetry. apply Z.eqb_neq. lia.
  - rewrite Hs in *. change (Z.of_nat 8) with 8 in *. destruct (Z.leb_spec MNT_CMD_LEN m), (Z.eqb_spec m 8); lia.
Qed.

(** The state of the receiver after [n] bytes of [f]. *)
Definition rx_partial (w : world) (f : list Z) (n : nat) : Prop :=
  buf_is w 0 (take n f) /\ w⟪cpad_rec_cnt⟫ = Z.of_nat n /\ w⟪cpad_rx_ok⟫ = 0 /\ w⟪cpad_rec_state⟫ = REC_DATA_STATE.
Definition rx_idle (w : world) : Prop := w⟪cpad_rx_ok⟫ = 0 /\ w⟪cpad_rec_state⟫ = REC_ADDR_STATE.
Definition rx_complete (w : world) (f : list Z) : Prop :=
  buf_is w 0 f /\ w⟪cpad_rec_cnt⟫ = Z.of_nat (length f) /\ w⟪cpad_rx_ok⟫ = 1 /\ w⟪cpad_rec_state⟫ = REC_ADDR_STATE.

Lemma rx_partial_step w f n b :
  frame_shape f -> (1 <= n)%nat -> f !! n = Some b -> rx_partial w f n ->
  let w' := CpadPortSerialReceiveFSM_MBS b w in
  if Nat.eqb (S n) (length f) then rx_complete w' f else rx_partial w' f (S n).
Proof.
  intros Hf Hn Hb (Hbuf & Hcnt & Hok & Hst) w'. pose proof Hf as (Hby & Hl & _).
  apply lookup_lt_Some in Hb as Hlt.
  destruct (rx_data_step w b (Z.of_nat n)) as (B & N & K & Q); [done..|lia|]. fold w' in B, N, K, Q.
  assert (Hu : u8 b = b).
  { apply u8_small. unfold bytes in Hby. rewrite List.Forall_forall in Hby. apply Hby.
    by eapply list_elem_of_In, list_elem_of_lookup_2. }
  rewrite Hu in *.
  assert (Hbuf' : buf_is w' 0 (take (S n) f)).
  { rewrite (take_S_r f n b Hb). apply buf_is_app. rewrite length_take_le by lia. split.
    - eapply buf_is_ext; [|exact Hbuf]. rewrite length_take_le by lia. intros i Hi. rewrite B.
      destruct (Z.eqb_spec i (Z.of_nat n)); [lia|done].
    - apply buf_is_cons. split; [|apply buf_is_nil]. rewrite B. by destruct (Z.eqb_spec (0 + Z.of_nat n) (Z.of_nat n)); [|lia]. }
  assert (Hc : forall k, (k <= n)%nat -> (if Z.of_nat k =? Z.of_nat n then b else w⟪cpad_rxbuf.[Z.of_nat k]⟫) = nth k f 0).
  { intros k Hk. rewrite <- B. pose proof (nth_lookup_or_length f k 0) as [Hx|Hx]; [|lia].
    specialize (Hbuf' k (nth k f 0)). rewrite Z.add_0_l in Hbuf'. apply Hbuf'. by rewrite lookup_take_lt by lia. }
  assert (Hd : frame_done (if 1 =? Z.of_nat n then b else w⟪cpad_rxbuf.[1]⟫) (if 6 =? Z.of_nat n then b else w⟪cpad_rxbuf.[6]⟫)
    (Z.of_nat n + 1) = (Z.of_nat n + 1 =? Z.of_nat (length f))).
  { apply frame_done_shape; [done|lia| |].
    - apply (Hc 1%nat). lia.
    - intros ?. apply (Hc 6%nat). lia. }
  rewrite Hd in K, Q. destruct (Nat.eqb_spec (S n) (length f)) as [E|E].
  - replace (Z.of_nat n + 1 =? Z.of_nat (length f)) with true in K, Q by (symmetry; apply Z.eqb_eq; lia).
    rewrite E, firstn_all in Hbuf'. split_and!; [done|lia|done|done].
  - replace (Z.of_nat n + 1 =? Z.of_nat (length f)) with false in K, Q by (symmetry; apply Z.eqb_neq; lia).
    split_and!; [done|lia|done|done].
Qed.

(** With the Modbus protocol selected, the interrupt clears the idle times and runs the
    receiver. *)
Definition clear_idle : cmd := l_u16Uart_Timeout.[0] ::= 0;; l_u16Uart_Timeout.[1] ::= 0.

Lemma RXNE_modbus b w :
  modbus_selected w -> USART2_RXNE b w = CpadPortSerialReceiveFSM_MBS b (clear_idle w).
Proof. intros H. unfold USART2_RXNE, clear_idle, seqc, cif. obs. by rewrite H. Qed.

Lemma MBS_foot b : respc (unch [cpad_rx_flag; cpad_rec_cnt; cpad_rxbuf; cpad_rec_state; cpad_rx_ok] []) (CpadPortSerialReceiveFSM_MBS b).
Proof. unfold CpadPortSerialReceiveFSM_MBS. footprint. Qed.
Lemma T5_foot b :
  respc (unch [cpad_rx_flag; cpad_rec_cnt; cpad_rxbuf; cpad_rec_state; cpad_rx_ok; cpad_rx_DataCnt] []) (CpadPortSerialReceiveFSM_T5 b).
Proof. unfold CpadPortSerialReceiveFSM_T5. footprint. Qed.
#[export] Hint Resolve MBS_foot T5_foot : foot.
Lemma RXNE_foot b :
  respc (unch [l_u16Uart_Timeout; cpad_rx_flag; cpad_rec_cnt; cpad_rxbuf; cpad_rec_state; cpad_rx_ok; cpad_rx_DataCnt] []) (USART2_RXNE b).
Proof. unfold USART2_RXNE. footprint. Qed.
#[export] Hint Resolve RXNE_foot : foot.

Lemma modbus_selected_RXNE b w : modbus_selected w -> modbus_selected (USART2_RXNE b w).
Proof. unfold modbus_selected. by obs. Qed.

Lemma rx_partial_arrive w f n b :
  frame_shape f -> (1 <= n)%nat -> f !! n = Some b -> modbus_selected w -> rx_partial w f n ->
  let w' := USART2_RXNE b w in
  if Nat.eqb (S n) (length f) then rx_complete w' f else rx_partial w' f (S n).
Proof.
  intros Hf Hn Hb Hm (B & N & K & Q). rewrite RXNE_modbus by done. apply rx_partial_step; [done..|].
  unfold clear_idle, seqc. split_and!; [|by obs..].
  eapply buf_is_ext; [|exact B]. intros i _. by obs.
Qed.

Lemma receive_rest f n w :
  frame_shape f -> (1 <= n < length f)%nat -> modbus_selected w -> rx_partial w f n ->
  rx_complete (bytes_arrive (drop n f) w) f.
Proof.
  intros Hf. remember (length f - n)%nat as m eqn:Em. revert n w Em.
  induction m as [|m IH]; intros n w Em Hn Hm Hp; [lia|].
  destruct (lookup_lt_is_Some_2 f n ltac:(lia)) as [b Hb].
  rewrite (drop_S f b n Hb). unfold bytes_arrive. cbn [foldl].
  pose proof (rx_partial_arrive w f n b Hf ltac:(lia) Hb Hm Hp) as Hs. cbv zeta in Hs.
  destruct (Nat.eqb_spec (S n) (length f)) as [E|E].
  - rewrite drop_ge by lia. done.
  - apply IH; [lia|lia|by apply modbus_selected_RXNE|done].
Qed.

Lemma receive_frame f w a :
  frame_shape f -> rx_idle w -> modbus_selected w -> w⟪cpad_addr⟫ = a -> nth 0 f 0 = a ->
  rx_complete (bytes_arrive f w) f.
Proof.
  intros Hf [Hok Hst] Hm Ha H0. pose proof Hf as (Hby & Hl & Hs).
  assert (Hlen : (8 <= length f)%nat).
  { destruct (_ =? _); [|lia]. pose proof (bytes_nth f 6 Hby) as B6. unfold byte in B6. lia. }
  destruct f as [|b f]; [cbn in Hlen; lia|]. cbn in H0. subst b.
  unfold bytes_arrive. cbn [foldl]. pose proof (bytes_nth (a :: f) 0 Hby) as Hb. cbn in Hb.
  assert (Hp : rx_partial (USART2_RXNE a w) (a :: f) 1).
  { rewrite RXNE_modbus by done.
    destruct (rx_first_step (clear_idle w) a) as (B & N & K & S); [unfold clear_idle, seqc; by obs..|done|unfold clear_idle, seqc; by obs|].
    split_and!; [|done..]. apply buf_is_cons. split; [done|apply buf_is_nil]. }
  apply (receive_rest (a :: f) 1); [done|cbn in *; lia|by apply modbus_selected_RXNE|done].
Qed.

(** Less than a frame: the receiver collects. *)
Lemma receive_part f n w a :
  frame_shape f -> (1 <= n < length f)%nat -> rx_idle w -> modbus_selected w -> w⟪cpad_addr⟫ = a -> nth 0 f 0 = a ->
  rx_partial (bytes_arrive (take n f) w) f n.
Proof.
  intros Hf Hn [Hok Hst] Hm Ha H0. pose proof Hf as (Hby & _ & _).
  destruct f as [|b f]; [cbn in Hn; lia|]. cbn in H0. subst b. pose proof (bytes_nth (a :: f) 0 Hby) as Hb. cbn in Hb.
  induction n as [|n IH]; [lia|]. destruct (decide (n = 0%nat)) as [->|Hn0].
  - cbn [take]. unfold bytes_arrive. cbn [foldl]. rewrite RXNE_modbus by done.
    destruct (rx_first_step (clear_idle w) a) as (B & N & K & S); [unfold clear_idle, seqc; by obs..|done|unfold clear_idle, seqc; by obs|].
    split_and!; [|done..]. apply buf_is_cons. split; [done|apply buf_is_nil].
  - destruct (lookup_lt_is_Some_2 (a :: f) n ltac:(lia)) as [b Hbn]. rewrite (take_S_r _ n b Hbn). unfold bytes_arrive. rewrite foldl_app.
    fold (bytes_arrive (take n (a :: f)) w). cbn [foldl].
    assert (modbus_selected (bytes_arrive (take n (a :: f)) w)) as Hm'.
    { generalize (take n (a :: f)). intros l. unfold bytes_arrive. clear -Hm. revert w Hm.
      induction l as [|c l IHl]; intros w Hm; [done|]. by apply IHl, modbus_selected_RXNE. }
    pose proof (rx_partial_arrive _ (a :: f) n b Hf ltac:(lia) Hbn Hm' (IH ltac:(lia))) as Hs. cbv zeta in Hs.
    by rewrite (proj2 (Nat.eqb_neq (S n) (length (a :: f)))) in Hs by lia.
Qed.

(** A receiver that has collected at most [n] bytes since it was idle. *)
Definition rx_few (n : Z) (w : world) : Prop :=
  w⟪cpad_rx_ok⟫ = 0 /\ (w⟪cpad_rec_state⟫ = REC_ADDR_STATE \/ w⟪cpad_rec_state⟫ = REC_DATA_STATE /\ w⟪cpad_rec_cnt⟫ <= n).

Lemma rx_few_step n b w : 1 <= n + 1 < 8 -> byte b -> modbus_selected w -> rx_few n w -> rx_few (n + 1) (USART2_RXNE b w).
Proof.
  intros Hn Hb Hm [Hok Hs]. rewrite RXNE_modbus by done.
  assert (rx_few n (clear_idle w)) as [Hok' Hs'] by (unfold rx_few, clear_idle, seqc; obs; done).
  destruct Hs' as [Hst|[Hst Hc]].
  - destruct (decide ((clear_idle w)⟪cpad_addr⟫ = b)) as [Ha|Ha].
    + destruct (rx_first_step (clear_idle w) b) as (_ & N & K & S); [done..|]. split; [done|]. right. rewrite N. split; [done|lia].
    + assert (CpadPortSerialReceiveFSM_MBS b (clear_idle w) = (cpad_rx_flag ::= 1) (clear_idle w)) as ->.
      { unfold CpadPortSerialReceiveFSM_MBS, seqc, cif, skip. obs. rewrite Hok', Hst. cbn [Z.eqb].
        by rewrite (proj2 (Z.eqb_neq _ _)) by congruence. }
      split; [by obs|]. left. by obs.
  - destruct (rx_data_step (clear_idle w) b ((clear_idle w)⟪cpad_rec_cnt⟫)) as (_ & N & K & S); [done..|lia|].
    set (c1 := if 1 =? _ then u8 b else _) in *. set (c6 := if 6 =? _ then u8 b else _) in *.
    assert (frame_done c1 c6 ((clear_idle w)⟪cpad_rec_cnt⟫ + 1) = false) as Hd.
    { unfold frame_done. destruct (negb _); [apply Z.leb_gt; lia|]. by rewrite (proj2 (Z.leb_gt 9 _)) by lia. }
    rewrite Hd in K, S. split; [done|]. right. split; [done|lia].
Qed.

Lemma rx_few_arrive l : forall n w, 0 <= n -> n + Z.of_nat (length l) < 8 -> bytes l -> modbus_selected w -> rx_few n w ->
  rx_few (n + Z.of_nat (length l)) (bytes_arrive l w).
Proof.
  induction l as [|b l IH]; intros n w Hn Hl Hb Hm Hf; [cbn; by rewrite Z.add_0_r|].
  apply Forall_cons_1 in Hb as [Hb1 Hb]. cbn [length] in *. unfold bytes_arrive. cbn [foldl].
  replace (n + Z.of_nat (S (length l))) with ((n + 1) + Z.of_nat (length l)) by lia.
  apply IH; [lia|lia|done|by apply modbus_selected_RXNE|]. apply rx_few_step; [lia|done..].
Qed.

Lemma bytes_arrive_foot l w :
  unch [l_u16Uart_Timeout; cpad_rx_flag; cpad_rec_cnt; cpad_rxbuf; cpad_rec_state; cpad_rx_ok; cpad_rx_DataCnt] [] w (bytes_arrive l w).
Proof. revert w. induction l as [|b l IH]; intros w; [reflexivity|]. etrans; [apply RXNE_foot|apply IH]. Qed.

(** The receive interrupt assembles frames: from an idle link, the bytes of any frame that
    starts with the slave's address (eight bytes, or for a multiple write the length its seventh
    byte announces, at most 512) are stored unchanged and in order, and the frame is reported
    complete exactly after its last byte. *)
Theorem receiver_assembles_frame f w :
  frame_shape f -> modbus_selected w -> w⟪cpad_rx_ok⟫ = 0 -> w⟪cpad_rec_state⟫ = REC_ADDR_STATE ->
  w⟪cpad_addr⟫ = nth 0 f 0 ->
  let w' := bytes_arrive f w in
  w'⟪cpad_rx_ok⟫ = 1 /\ w'⟪cpad_rec_cnt⟫ = Z.of_nat (length f) /\ w'⟪cpad_rec_state⟫ = REC_ADDR_STATE /\
  (fun i => w'⟪cpad_rxbuf.[i]⟫) <$> seqZ 0 (Z.of_nat (length f)) = f.
Proof.
  intros Hf Hm Hok Hst Ha. destruct (receive_frame f w (nth 0 f 0)) as (B & N & K & S); [done|by split|done..|].
  split_and!; [done..|]. by apply buf_is_list.
Qed.

Lemma receiver_assembles_frame_witness :
  let f := [1; 6; 0; 66; 0; 5; 232; 29] in
  let w := poke [(cpad_addr.[0], 1)] w_zero in
  (bytes_arrive f w)⟪cpad_rx_ok⟫ = 1 /\ (fun i => (bytes_arrive f w)⟪cpad_rxbuf.[i]⟫) <$> seqZ 0 8 = f.
Proof.
  cbv zeta. destruct (receiver_assembles_frame [1; 6; 0; 66; 0; 5; 232; 29] (poke [(cpad_addr.[0], 1)] w_zero))
    as (H1 & _ & _ & H2).
  - split; [|split; [cbn; lia|reflexivity]].
    repeat (apply List.Forall_cons; [unfold byte; lia|]). apply List.Forall_nil.
  - reflexivity.
  - reflexivity.
  - reflexivity.
  - reflexivity.
  - split; [exact H1|exact H2].
Defined.

(** ** The receive buffer is never overrun *)

(** The count stays in the buffer, with room for the second byte of a display frame. *)
Definition rx_bounded (w : world) : Prop :=
  w⟪cpad_rec_cnt⟫ <= MNT_RX_LEN /\ (w⟪cpad_rec_state⟫ = REC_HEAD_STATE -> w⟪cpad_rec_cnt⟫ < MNT_RX_LEN).

(** One step: the invariant holds afterwards and no byte outside the buffer changed. *)
Definition rx_safe (w w' : world) : Prop :=
  rx_bounded w' /\ forall i, ~ 0 <= i < MNT_RX_LEN -> w'⟪cpad_rxbuf.[i]⟫ = w⟪cpad_rxbuf.[i]⟫.

Lemma rx_put_safe b w s w' :
  w⟪cpad_rec_cnt⟫ < MNT_RX_LEN -> (s = REC_HEAD_STATE -> w⟪cpad_rec_cnt⟫ < MNT_RX_LEN - 1) ->
  (forall i, w'⟪cpad_rxbuf.[i]⟫ = (rx_put b w)⟪cpad_rxbuf.[i]⟫) -> w'⟪cpad_rec_cnt⟫ = (rx_put b w)⟪cpad_rec_cnt⟫ ->
  w'⟪cpad_rec_state⟫ = s -> rx_safe w w'.
Proof.
  intros Hn Hh B N S. pose proof (rd_u16 w cpad_rec_cnt eq_refl). split; [split|].
  - rewrite N, rx_put_cnt, u16_small; lia.
  - intros Hs. rewrite N, rx_put_cnt, u16_small; lia.
  - intros i Hi. rewrite B, rx_put_buf. destruct (Z.eqb_spec i (w⟪cpad_rec_cnt⟫)); [lia|done].
Qed.

Lemma rx_keep_safe w w' :
  rx_bounded w -> (forall i, w'⟪cpad_rxbuf.[i]⟫ = w⟪cpad_rxbuf.[i]⟫) -> w'⟪cpad_rec_cnt⟫ = w⟪cpad_rec_cnt⟫ ->
  (w'⟪cpad_rec_state⟫ = w⟪cpad_rec_state⟫ \/ w'⟪cpad_rec_state⟫ = REC_ADDR_STATE) -> rx_safe w w'.
Proof.
  intros [Hn Hh] B N S. split; [split; rewrite N; [done|]|intros; apply B].
  intros Hs. destruct S as [S|S]; [apply Hh; congruence|rewrite S in Hs; done].
Qed.

Lemma MBS_safe b w : rx_bounded w -> rx_safe w (CpadPortSerialReceiveFSM_MBS b w).
Proof.
  intros Hb. pose proof Hb as [Hn Hh]. unfold CpadPortSerialReceiveFSM_MBS, seqc, cif, skip. obs.
  destruct (w⟪cpad_rx_ok⟫ =? 0).
  2: { apply rx_keep_safe; [done|intros; by obs|by obs|left; by obs]. }
  destruct (Z.eqb_spec (w⟪cpad_rec_state⟫) REC_ADDR_STATE) as [E|E].
  { destruct (b =? _).
    2: { apply rx_keep_safe; [done|intros; by obs|by obs|left; by obs]. }
    set (w1 := (cpad_rec_cnt ::= 0) _).
    assert (N1 : w1⟪cpad_rec_cnt⟫ = 0) by (unfold w1; by obs).
    assert (B1 : forall i, w1⟪cpad_rxbuf.[i]⟫ = w⟪cpad_rxbuf.[i]⟫) by (intros i; unfold w1; by obs).
    clearbody w1. destruct (rx_put_safe b w1 REC_DATA_STATE ((cpad_rec_state ::= REC_DATA_STATE) (rx_put b w1)))
      as [H1 H2]; [lia|lia|intros; by obs|by obs|by obs|].
    split; [done|]. intros i Hi. by rewrite H2, B1. }
  destruct (Z.eqb_spec (w⟪cpad_rec_state⟫) REC_DATA_STATE) as [E2|E2].
  2: { apply rx_keep_safe; [done|intros; by obs|by obs|right; by obs]. }
  destruct (Z.ltb_spec (w⟪cpad_rec_cnt⟫) MNT_RX_LEN).
  2: { split; [split; obs; [change (u16 0) with 0; lia|done]|intros i Hi; by obs]. }
  set (w1 := (cpad_rx_flag ::= 1) w).
  assert (N1 : w1⟪cpad_rec_cnt⟫ = w⟪cpad_rec_cnt⟫) by (unfold w1; by obs).
  assert (B1 : forall i, w1⟪cpad_rxbuf.[i]⟫ = w⟪cpad_rxbuf.[i]⟫) by (intros i; unfold w1; by obs).
  assert (S1 : w1⟪cpad_rec_state⟫ = REC_DATA_STATE) by (unfold w1; by obs).
  clearbody w1. set (w2 := rx_finish (rx_put b w1)).
  assert (S2 : w2⟪cpad_rec_state⟫ = REC_ADDR_STATE \/ w2⟪cpad_rec_state⟫ = REC_DATA_STATE).
  { unfold w2, rx_finish, cif, seqc, skip. repeat case_match; obs; auto. }
  destruct (rx_put_safe b w1 (w2⟪cpad_rec_state⟫) w2) as [H1 H2]; [lia|lia|intros; unfold w2; by obs|unfold w2; by obs|done|].
  split; [done|]. intros i Hi. by rewrite H2, B1.
Qed.

Lemma T5_safe b w : rx_bounded w -> rx_safe w (CpadPortSerialReceiveFSM_T5 b w).
Proof.
  intros Hb. pose proof Hb as [Hn Hh]. unfold CpadPortSerialReceiveFSM_T5, seqc, cif, skip. obs.
  destruct (w⟪cpad_rx_ok⟫ =? 0).
  2: { apply rx_keep_safe; [done|intros; by obs|by obs|left; by obs]. }
  destruct (Z.eqb_spec (w⟪cpad_rec_state⟫) REC_ADDR_STATE) as [E|E].
  { destruct (b =? _).
    2: { apply rx_keep_safe; [done|intros; by obs|by obs|left; by obs]. }
    set (w1 := (cpad_rec_cnt ::= 0) _).
    assert (N1 : w1⟪cpad_rec_cnt⟫ = 0) by (unfold w1; by obs).
    assert (B1 : forall i, w1⟪cpad_rxbuf.[i]⟫ = w⟪cpad_rxbuf.[i]⟫) by (intros i; unfold w1; by obs).
    clearbody w1. destruct (rx_put_safe b w1 REC_HEAD_STATE ((cpad_rec_state ::= REC_HEAD_STATE) (rx_put b w1)))
      as [H1 H2]; [lia|lia|intros; by obs|by obs|by obs|].
    split; [done|]. intros i Hi. by rewrite H2, B1. }
  set (w1 := (cpad_rx_flag ::= 1) w).
  assert (N1 : w1⟪cpad_rec_cnt⟫ = w⟪cpad_rec_cnt⟫) by (unfold w1; by obs).
  assert (B1 : forall i, w1⟪cpad_rxbuf.[i]⟫ = w⟪cpad_rxbuf.[i]⟫) by (intros i; unfold w1; by obs).
  assert (S1 : w1⟪cpad_rec_state⟫ = w⟪cpad_rec_state⟫) by (unfold w1; by obs).
  assert (K1 : forall w', rx_bounded w1 -> rx_safe w1 w' -> rx_safe w w').
  { intros w' _ [H1 H2]. split; [done|]. intros i Hi. by rewrite H2, B1. }
  assert (Hb1 : rx_bounded w1) by (split; rewrite N1, ?S1; done).
  clearbody w1. apply K1; [done|]. rewrite <- N1 in *. rewrite <- S1 in *. clear K1 N1 B1 S1.
  destruct (Z.eqb_spec (w1⟪cpad_rec_state⟫) REC_HEAD_STATE) as [E1|E1].
  { destruct (b =? _); [|apply rx_keep_safe; auto].
    apply (rx_put_safe b w1 REC_LEN_STATE); [auto|lia|intros; by obs|by obs|by obs]. }
  destruct (Z.eqb_spec (w1⟪cpad_rec_state⟫) REC_LEN_STATE) as [E2|E2].
  { destruct (Z.ltb_spec (w1⟪cpad_rec_cnt⟫) MNT_RX_LEN); [|apply rx_keep_safe; auto].
    set (w2 := (cpad_rx_DataCnt ::= b) w1).
    assert (N2 : w2⟪cpad_rec_cnt⟫ = w1⟪cpad_rec_cnt⟫) by (unfold w2; by obs).
    assert (B2 : forall i, w2⟪cpad_rxbuf.[i]⟫ = w1⟪cpad_rxbuf.[i]⟫) by (intros i; unfold w2; by obs).
    clearbody w2. destruct (rx_put_safe b w2 REC_DATA_STATE ((cpad_rec_state ::= REC_DATA_STATE) (rx_put b w2)))
      as [H1 H2]; [lia|lia|intros; by obs|by obs|by obs|].
    split; [done|]. intros i Hi. by rewrite H2, B2. }
  destruct (Z.eqb_spec (w1⟪cpad_rec_state⟫) REC_DATA_STATE) as [E3|E3].
  2: { apply rx_keep_safe; [done|intros; by obs|by obs|right; by obs]. }
  destruct (Z.ltb_spec (w1⟪cpad_rec_cnt⟫) MNT_RX_LEN); [|apply rx_keep_safe; auto].
  case_match.
  - apply (rx_put_safe b w1 REC_ADDR_STATE); [done|lia|intros; by obs|by obs|by obs].
  - apply (rx_put_safe b w1 REC_DATA_STATE); [done|lia|intros; by obs|by obs|by obs].
Qed.

Lemma RXNE_safe b w : rx_bounded w -> rx_safe w (USART2_RXNE b w).
Proof.
  intros Hb. unfold USART2_RXNE, seqc, cif. set (w1 := (l_u16Uart_Timeout.[1] ::= 0) _).
  assert (B1 : forall i, w1⟪cpad_rxbuf.[i]⟫ = w⟪cpad_rxbuf.[i]⟫) by (intros i; unfold w1; by obs).
  assert (Hb1 : rx_bounded w1) by (unfold rx_bounded, w1 in *; by obs).
  clearbody w1. enough (rx_safe w1 (if nz (w1⟪l_SEL_Jump⟫ .& Com_Pad) then CpadPortSerialReceiveFSM_T5 b w1
    else CpadPortSerialReceiveFSM_MBS b w1)) as [H1 H2]; [split; [done|intros i Hi; by rewrite H2, B1]|].
  case_match; [by apply T5_safe|by apply MBS_safe].
Qed.

(** C36: No sequence of received bytes, valid or not, in either protocol, writes outside the 512
    bytes of the receive buffer: the count never passes its size, and the memory before and
    after it keeps its contents. *)
Theorem receiver_never_overruns l w :
  w⟪cpad_rec_cnt⟫ <= MNT_RX_LEN -> (w⟪cpad_rec_state⟫ = REC_HEAD_STATE -> w⟪cpad_rec_cnt⟫ < MNT_RX_LEN) ->
  (bytes_arrive l w)⟪cpad_rec_cnt⟫ <= MNT_RX_LEN /\
  forall i, ~ 0 <= i < MNT_RX_LEN -> (bytes_arrive l w)⟪cpad_rxbuf.[i]⟫ = w⟪cpad_rxbuf.[i]⟫.
Proof.
  intros H1 H2. assert (rx_bounded w) as Hb by done. clear H1 H2.
  revert w Hb. induction l as [|b l IH]; intros w Hb; [split; [apply Hb|done]|].
  destruct (RXNE_safe b w Hb) as [Hb' Hs]. destruct (IH (USART2_RXNE b w) Hb') as [H1 H2].
  split; [exact H1|]. intros i Hi. unfold bytes_arrive in *. cbn [foldl]. by rewrite H2, Hs.
Qed.

Lemma receiver_never_overruns_witness :
  let w := poke [(cpad_addr.[0], 1)] w_zero in
  (bytes_arrive (1 :: 16 :: repeat 0 600) w)⟪cpad_rec_cnt⟫ <= MNT_RX_LEN /\
  (bytes_arrive (1 :: 16 :: repeat 0 600) w)⟪cpad_rxbuf.[512]⟫ = 0.
Proof.
  cbv zeta. destruct (receiver_never_overruns (1 :: 16 :: repeat 0 600) (poke [(cpad_addr.[0], 1)] w_zero)) as [H1 H2].
  - vm_compute. congruence.
  - intros H. vm_compute in H. congruence.
  - split; [exact H1|]. rewrite H2 by lia. reflexivity.
Defined.

(** ** Sending a reply *)

(** The transmit queue holds the bytes [q]. *)
Definition tx_holds (w : world) (q : list Z) : Prop :=
  exists t, fifo_inv (mnt_tx_fifo w) t /\ block_size (mnt_tx_fifo w) = 1 /\ depth (mnt_tx_fifo w) = MNT_RX_LEN /\
    contents (mnt_tx_fifo w) t = (fun b => [b]) <$> q.

Lemma tx_holds_ext w w' q : mnt_tx_fifo w' = mnt_tx_fifo w -> tx_holds w q -> tx_holds w' q.
Proof. intros E. unfold tx_holds. by rewrite E. Qed.

Lemma tx_push_holds w q b :
  tx_holds w q -> Z.of_nat (length q) < MNT_RX_LEN -> tx_holds (tx_push b w) (q ++ [b]).
Proof.
  intros (t & Hi & Hb & Hd & Hc) Hl. unfold tx_push, tx_holds. cbn [mnt_tx_fifo set_cpadfifo].
  pose proof (push_spec (mnt_tx_fifo w) t [b] Hi ltac:(rewrite Hb; done)) as H. unfold fifo8_push.
  destruct (fifo_push (mnt_tx_fifo w) [b]) as [r f]. cbn [snd]. destruct H as (Hi' & Hd' & Hb' & Hs).
  exists t. rewrite Hb', Hd'. split_and!; [done..|]. cbn [Spec.step] in Hs. rewrite Hc in Hs.
  rewrite length_fmap, Hd in Hs. replace (Z.of_nat (length q) =? MNT_RX_LEN) with false in Hs by lia.
  injection Hs as _ ->. by rewrite fmap_app.
Qed.

Lemma tx_next_holds w q b :
  tx_holds w (b :: q) -> tx_holds (tx_next w) q /\ usart2_tx (tx_next w) = u8 b :: usart2_tx w.
Proof.
  intros (t & Hi & Hb & Hd & Hc). unfold tx_next.
  pose proof (pop_spec (mnt_tx_fifo w) t Hi) as H. unfold fifo8_pop.
  destruct (fifo_pop (mnt_tx_fifo w)) as [[r d] f]. destruct H as (t' & Hi' & Hd' & Hb' & Hs).
  rewrite Hc in Hs. cbn [Spec.step fmap list_fmap] in Hs. injection Hs as _ -> Hs.
  split; [|done]. exists t'. cbn [mnt_tx_fifo set_cpadfifo USART2_SendData set_cpadtx]. by rewrite Hb', Hd'.
Qed.

Lemma tx_empty w q : tx_holds w q -> is_fifo8_empty (mnt_tx_fifo w) = Z.b2z (match q with [] => true | _ => false end).
Proof.
  intros (t & Hi & _ & _ & Hc). apply (f_equal length) in Hc. rewrite length_contents, length_fmap in Hc.
  destruct Hi. unfold is_fifo8_empty, is_fifo_empty.
  destruct q; cbn [length Z.b2z] in *; destruct (Z.eqb_spec (length_ (mnt_tx_fifo w)) 0); lia.
Qed.

Lemma tx_push_foot b : respc (unch [P_cpadfifo] []) (tx_push b).
Proof. unfold tx_push. apply (unch_set_cpadfifo _ _ (fun w => (fifo8_push (mnt_tx_fifo w) [b]).2)). done. Qed.
Lemma tx_next_foot : respc (unch [P_cpadfifo; P_cpadtx] []) tx_next.
Proof. intros w. unfold tx_next. destruct (fifo8_pop _) as [[r d] f]. split; try done. Qed.
#[export] Hint Resolve tx_push_foot tx_next_foot : foot.

(** The fields of the transmitter. *)
Definition tx_fields : list field := [P_cpadfifo; P_cpadtx; CPAD_RS485_send; USART2_RXNE_int; USART2_TC_int].

Lemma PutByte_foot n : respc (unch tx_fields []) (cpad_xMBPortSerialPutByte n).
Proof. unfold cpad_xMBPortSerialPutByte. footprint. Qed.
Lemma USART2_TC_foot : respc (unch tx_fields []) USART2_TC.
Proof. unfold USART2_TC. footprint. Qed.
#[export] Hint Resolve PutByte_foot USART2_TC_foot : foot.

(** Queueing a list of bytes. *)
Lemma push_loop l0 n w q :
  tx_holds w q -> Z.of_nat (length q) + Z.of_nat n <= MNT_RX_LEN ->
  let w' := forc (seqZ l0 (Z.of_nat n)) (fun i => letc (fun w : cur => w⟪cpad_rxbuf.[i]⟫) (fun b => tx_push b)) w in
  tx_holds w' (q ++ ((fun i => w⟪cpad_rxbuf.[i]⟫) <$> seqZ l0 (Z.of_nat n))) /\ usart2_tx w' = usart2_tx w.
Proof.
  revert l0 w q. induction n as [|n IH]; intros l0 w q Hq Hl.
  - change (seqZ l0 (Z.of_nat 0)) with (@nil Z). cbn. by rewrite app_nil_r.
  - rewrite seqZ_cons by lia. replace (Z.pred (Z.of_nat (S n))) with (Z.of_nat n) by lia.
    cbv zeta. unfold forc in *. cbn [foldl fmap list_fmap].
    change (letc (fun w : cur => w⟪cpad_rxbuf.[l0]⟫) (fun b => tx_push b) w) with (tx_push (w⟪cpad_rxbuf.[l0]⟫) w).
    set (w1 := tx_push (w⟪cpad_rxbuf.[l0]⟫) w).
    assert (Hq1 : tx_holds w1 (q ++ [w⟪cpad_rxbuf.[l0]⟫])) by (apply tx_push_holds; [done|lia]).
    destruct (IH (Z.succ l0) w1 (q ++ [w⟪cpad_rxbuf.[l0]⟫])) as [H1 H2]; [done|rewrite length_app; cbn; lia|].
    rewrite <- app_assoc in H1. cbn [app] in H1. split; [exact H1|exact H2].
Qed.

(** [TC] repeated. *)
Definition drain (n : nat) (w : world) : world := Nat.iter n USART2_TC w.

Lemma drain_sends q w :
  tx_holds w q -> bytes q ->
  tx_holds (drain (length q) w) [] /\ usart2_tx (drain (length q) w) = rev q ++ usart2_tx w.
Proof.
  unfold drain. revert w. induction q as [|b q IH]; intros w Hq Hb; [done|].
  inversion_clear Hb as [|? ? Hb1 Hb2]. cbn [length]. rewrite Nat.iter_succ_r.
  destruct (tx_next_holds w q b Hq) as [Hn Ht].
  assert (USART2_TC w = tx_next w) as -> by (unfold USART2_TC, cif, here; by rewrite (tx_empty w (b :: q) Hq)).
  destruct (IH _ Hn Hb2) as [H1 H2]. split; [done|]. rewrite H2, Ht, u8_small by done.
  cbn [rev]. by rewrite <- app_assoc.
Qed.

Lemma rx_bytes l w : bytes ((fun i => w⟪cpad_rxbuf.[i]⟫) <$> (l : list Z)).
Proof. apply Forall_fmap, Forall_forall. intros i _. by apply (rd_u8 w cpad_rxbuf.[i]). Qed.

(** The first byte of [l] is sent, the others are queued behind the bytes [old]. *)
Definition sending (w : world) (l old : list Z) : Prop :=
  exists b q, l = b :: q /\ bytes q /\ tx_holds w q /\ usart2_tx w = b :: old.

Lemma sending_ext w w' l old :
  mnt_tx_fifo w' = mnt_tx_fifo w -> usart2_tx w' = usart2_tx w -> sending w l old -> sending w' l old.
Proof. intros E1 E2 (b & q & ? & ? & ? & ?). exists b, q. rewrite E2. eauto using tx_holds_ext. Qed.

(** Then the transmit interrupts bring everything to the wire, in order. *)
Lemma sending_drain w l old :
  sending w l old -> let w' := drain (length l - 1) w in tx_holds w' [] /\ usart2_tx w' = rev l ++ old.
Proof.
  intros (b & q & -> & Hb & Hq & Ht). cbv zeta. replace (length (b :: q) - 1)%nat with (length q) by (cbn; lia).
  destruct (drain_sends q w Hq Hb) as [D1 D2]. split; [done|]. rewrite D2, Ht. cbn [rev]. by rewrite <- app_assoc.
Qed.

Lemma PutByte_sending l w :
  tx_holds w [] -> buf_is w 0 l -> (1 <= length l)%nat -> Z.of_nat (length l) <= MNT_RX_LEN ->
  sending (cpad_xMBPortSerialPutByte (Z.of_nat (length l)) w) l (usart2_tx w).
Proof.
  intros Hq Hl H1 Hn. unfold cpad_xMBPortSerialPutByte, seqc.
  destruct (push_loop 0 (length l) w [] Hq) as [P1 P2]; [cbn; lia|].
  rewrite (buf_is_list w l Hl) in P1. cbn [app] in P1. unfold range. set (w1 := forc _ _ w) in *. clearbody w1.
  assert (Hby : bytes l) by (rewrite <- (buf_is_list w l Hl); apply rx_bytes).
  destruct l as [|b l]; [cbn in H1; lia|]. inversion_clear Hby as [|? ? Hb1 Hb2].
  set (w2 := (USART2_RXNE_int ::= 0) _).
  assert (Q2 : tx_holds w2 (b :: l)) by (eapply tx_holds_ext; [|exact P1]; done).
  assert (T2 : usart2_tx w2 = usart2_tx w) by (rewrite <- P2; done).
  clearbody w2. destruct (tx_next_holds w2 l b Q2) as [Q3 T3].
  exists b, l. split_and!; [done|done|eapply tx_holds_ext; [|exact Q3]; done|].
  rewrite <- T2, <- (u8_small b) by done. exact T3.
Qed.

(** ** The reply to a read *)

Lemma set_buf w i v j : (assign cpad_rxbuf.[i] v w)⟪cpad_rxbuf.[j]⟫ = if j =? i then u8 (v w) else w⟪cpad_rxbuf.[j]⟫.
Proof.
  unfold assign. destruct (Z.eqb_spec j i) as [->|]; [by rewrite rd_wr_same|by rewrite rd_wr_ix by lia].
Qed.

(** The reply in the buffer gets its checksum and is sent. *)
Lemma send_reply_sending body w :
  tx_holds w [] -> buf_is w 0 body -> (1 <= length body)%nat -> Z.of_nat (length body) <= 510 ->
  sending (send_reply (Z.of_nat (length body) + 2) w) (body ++ crc_bytes body) (usart2_tx w).
Proof.
  intros Hq Hb Hl Hn. unfold send_reply, letc, seqc.
  rewrite (u16_small (_ - 2)) by lia. rewrite usMBCRC16_list.
  replace (Z.of_nat (length body) + 2 - 2) with (Z.of_nat (length body)) by lia.
  rewrite (buf_is_list w body Hb).
  replace (Z.of_nat (length body) + 2 - 1) with (Z.of_nat (length body) + 1) by lia.
  set (w1 := (cpad_rxbuf.[Z.of_nat (length body)] ::= _) _).
  assert (B1 : buf_is w1 0 (body ++ crc_bytes body)).
  { apply buf_is_app. rewrite Z.add_0_l. split; [|apply buf_is_cons; split; [|apply buf_is_cons; split; [|apply buf_is_nil]]].
    - eapply buf_is_ext; [|exact Hb]. intros i Hi. unfold w1. rewrite !set_buf.
      destruct (Z.eqb_spec i (Z.of_nat (length body))); [lia|]. destruct (Z.eqb_spec i (Z.of_nat (length body) + 1)); [lia|done].
    - unfold w1. rewrite set_buf. by rewrite Z.eqb_refl.
    - unfold w1. rewrite !set_buf. destruct (Z.eqb_spec (Z.of_nat (length body) + 1) (Z.of_nat (length body))); [lia|].
      by rewrite Z.eqb_refl. }
  assert (Q1 : tx_holds w1 []) by (eapply tx_holds_ext; [|exact Hq]; done).
  assert (T1 : usart2_tx w1 = usart2_tx w) by done. clearbody w1.
  pose proof (PutByte_sending (body ++ crc_bytes body) w1 Q1 B1) as Ht. rewrite length_app in Ht. cbn [length crc_bytes] in Ht.
  rewrite <- T1. replace (Z.of_nat (length body) + 2) with (Z.of_nat (length body + 2)) by lia. apply Ht; lia.
Qed.

(** The objects of the link; no register of the tables is among them. *)
Definition link_fields : list field :=
  tx_fields ++ [cpad_rxbuf; cpad_rec_cnt; cpad_rec_state; cpad_rx_flag; cpad_rx_ok; cpad_rx_timeout; cpad_rx_DataCnt;
    TIM5_enabled; l_u16Uart_Timeout].

Definition off_link (p : option cell) : bool :=
  match p with Some c => negb (fin (fld c) link_fields || is_req c) | None => true end.

Lemma deref_unch w w' p : unch link_fields [] w w' -> off_link p = true -> @deref w' p = @deref w p.
Proof.
  intros H Hp. destruct p as [c|]; cbn [deref off_link] in *.
  - apply negb_true_iff, orb_false_iff in Hp as [? ?]. by rewrite (unch_rd link_fields [] w w').
  - by rewrite (unch_rd link_fields [] w w').
Qed.

Lemma conf_off_link i : 0 <= i < CONF_REG_MAP_NUM -> off_link (reg_ptr (conf_reg i)) = true.
Proof.
  intros Hi. assert (H : forallb (fun r => off_link (reg_ptr r)) conf_reg_map_inst = true) by (vm_compute; reflexivity).
  rewrite forallb_forall in H. apply H. apply nth_In. rewrite conf_reg_map_length. lia.
Qed.

Lemma status_off_link i : off_link (nth i status_reg_map_inst (None, 0)).1 = true.
Proof.
  assert (H : forallb (fun r => off_link r.1) status_reg_map_inst = true) by (vm_compute; reflexivity).
  rewrite forallb_forall in H. destruct (nth_in_or_default i status_reg_map_inst (None, 0)) as [Hin| ->]; [by apply H|done].
Qed.

Lemma mbs_read_unch w w' a : unch link_fields [] w w' -> @mbs_read_reg w' a = @mbs_read_reg w a.
Proof.
  intros H. unfold mbs_read_reg. destruct (Z.ltb_spec a CMD_REG_SIZE); [by rewrite (unch_rd link_fields [] w w')|].
  destruct ((CMD_REG_SIZE <=? a) && _) eqn:E.
  { apply deref_unch; [done|]. apply andb_true_iff in E. apply conf_off_link. lia. }
  case_match; [|done]. apply deref_unch; [done|apply status_off_link].
Qed.

Lemma deref_range w p : 0 <= @deref w p < 65536.
Proof. destruct p; cbn [deref]; [apply u16_range|by apply rd_u16]. Qed.

Lemma mbs_read_range w a : 0 <= @mbs_read_reg w a < 65536.
Proof. unfold mbs_read_reg. repeat case_match; [by apply rd_u16|apply deref_range..|lia]. Qed.

Definition reg_bytes (w : world) (addr n : Z) : list Z :=
  List.concat ((fun k => be16 (@mbs_read_reg w (addr + k))) <$> seqZ 0 n).

Lemma read_regs_foot off idx n : respc (unch [cpad_rxbuf] []) (read_regs off idx n).
Proof. unfold read_regs. footprint. Qed.
#[export] Hint Resolve read_regs_foot : foot.

Lemma length_concat_be16 (f : Z -> Z) l : length (List.concat ((fun k => be16 (f k)) <$> (l : list Z))) = (2 * length l)%nat.
Proof. induction l as [|x l IH]; [done|]. cbn [fmap list_fmap List.concat]. rewrite length_app, IH. cbn. lia. Qed.

Lemma length_reg_bytes w addr n : 0 <= n -> Z.of_nat (length (reg_bytes w addr n)) = 2 * n.
Proof. intros Hn. unfold reg_bytes. rewrite length_concat_be16, length_seqZ. lia. Qed.

Lemma read_regs_spec off addr n w :
  0 <= addr -> addr + Z.of_nat n <= 800 ->
  let w' := read_regs off addr (Z.of_nat n) w in
  buf_is w' off (reg_bytes w addr (Z.of_nat n)) /\
  (forall i, ~ off <= i < off + 2 * Z.of_nat n -> w'⟪cpad_rxbuf.[i]⟫ = w⟪cpad_rxbuf.[i]⟫).
Proof.
  intros Ha. induction n as [|n IH]; intros Hn; [split; [apply buf_is_nil|done]|].
  destruct IH as [IH1 IH2]; [lia|]. cbv zeta in *.
  assert (Hu : unch link_fields [] w (read_regs off addr (Z.of_nat n) w)).
  { eapply unch_weaken; [apply read_regs_foot|vm_compute; reflexivity..]. }
  unfold read_regs, range, reg_bytes in *. rewrite !seqZ_S.
  unfold forc in *. rewrite foldl_app. set (w1 := foldl _ w (seqZ 0 (Z.of_nat n))) in *. cbn [foldl].
  unfold letc, seqc. rewrite Z.add_0_l, (u16_small (addr + Z.of_nat n)) by lia.
  rewrite (mbs_read_unch w w1) by done. pose proof (mbs_read_range w (addr + Z.of_nat n)) as Hr.
  set (v := @mbs_read_reg w _) in *. set (w2 := (cpad_rxbuf.[off + 2 * Z.of_nat n + 1] ::= _) _).
  assert (B2 : forall i, w2⟪cpad_rxbuf.[i]⟫ = if i =? off + 2 * Z.of_nat n + 1 then u8 (v .& 255)
    else if i =? off + 2 * Z.of_nat n then u8 (v .>> 8) else w1⟪cpad_rxbuf.[i]⟫)
    by (intros i; unfold w2; by rewrite !set_buf).
  clearbody w1 w2. rewrite fmap_app, concat_app. cbn [fmap list_fmap List.concat]. rewrite app_nil_r. split.
  - apply buf_is_app. rewrite length_concat_be16, length_seqZ.
    replace (off + Z.of_nat (2 * Z.to_nat (Z.of_nat n))) with (off + 2 * Z.of_nat n) by lia. split.
    + eapply buf_is_ext; [|exact IH1]. intros i Hi. rewrite length_concat_be16, length_seqZ in Hi. rewrite B2.
      destruct (Z.eqb_spec i (off + 2 * Z.of_nat n + 1)); [lia|]. destruct (Z.eqb_spec i (off + 2 * Z.of_nat n)); [lia|done].
    + fold v. apply buf_is_cons. rewrite !B2. rewrite Z.eqb_refl.
      destruct (Z.eqb_spec (off + 2 * Z.of_nat n) (off + 2 * Z.of_nat n + 1)); [lia|]. split; [done|].
      apply buf_is_cons. split; [|apply buf_is_nil]. rewrite B2, Z.eqb_refl.
      change 255 with (Z.ones 8). rewrite Z.land_ones by lia. apply u8_small. apply u8_range.
  - intros i Hi. rewrite B2. destruct (Z.eqb_spec i (off + 2 * Z.of_nat n + 1)); [lia|].
    destruct (Z.eqb_spec i (off + 2 * Z.of_nat n)); [lia|]. apply IH2. lia.
Qed.

Lemma read_regs_Z off addr n w :
  0 <= addr -> 0 <= n -> addr + n <= 800 ->
  let w' := read_regs off addr n w in
  buf_is w' off (reg_bytes w addr n) /\
  (forall i, ~ off <= i < off + 2 * n -> w'⟪cpad_rxbuf.[i]⟫ = w⟪cpad_rxbuf.[i]⟫).
Proof. intros Ha Hn Hle. rewrite <- (Z2Nat.id n) by done. apply read_regs_spec; lia. Qed.

(** ** Polling *)

(** A frame that is complete and passes the checksum test is served. *)
Definition poll_prefix : list field := [cpad_rx_flag; TIM5_enabled; cpad_rx_ok; cpad_rx_timeout; cpad_rec_state].

Lemma poll_checks {T : beyond_table} w f :
  buf_is w 0 f -> w⟪cpad_rec_cnt⟫ = Z.of_nat (length f) ->
  (w⟪cpad_rx_ok⟫ = 1 /\ w⟪cpad_rec_state⟫ = REC_ADDR_STATE \/ w⟪cpad_rx_timeout⟫ = 1) ->
  exists w1, unch poll_prefix [] w w1 /\ w1⟪cpad_rec_state⟫ = REC_ADDR_STATE /\
    cpad_MBPoll w = (cpad_rx_ok ::= 0) ((cpad_rec_cnt ::= 0)
      ((if (MNT_RX_MIN <=? Z.of_nat (length f)) && (crc_of f =? 0) then analysis_protocol else skip) w1)).
Proof.
  intros Hb Hn Hc.
  set (w0 := (if nz (w⟪cpad_rx_flag⟫) then cpad_vMBPortTimersEnable ((cpad_rx_flag ::= 0) w) else w)).
  assert (U0 : unch poll_prefix [] w w0).
  { unfold w0. case_match; [|reflexivity].
    change (unch poll_prefix [] w ((cpad_rx_flag ::= 0;; cpad_vMBPortTimersEnable) w)).
    revert w Hb Hn Hc w0 H. intros w _ _ _ _ _. revert w.
    change (respc (unch poll_prefix []) (cpad_rx_flag ::= 0;; cpad_vMBPortTimersEnable)).
    unfold cpad_vMBPortTimersEnable. footprint. }
  set (w1 := (IF nz «cpad_rx_timeout» THEN cpad_rx_ok ::= 1;; cpad_rx_timeout ::= 0;; cpad_rec_state ::= REC_ADDR_STATE END)
    (cpad_vMBPortTimersDisable w0)).
  assert (U1 : unch poll_prefix [] w0 w1).
  { unfold w1. generalize w0. change (respc (unch poll_prefix []) (cpad_vMBPortTimersDisable;;
      IF nz «cpad_rx_timeout» THEN cpad_rx_ok ::= 1;; cpad_rx_timeout ::= 0;; cpad_rec_state ::= REC_ADDR_STATE END)).
    unfold cpad_vMBPortTimersDisable. footprint. }
  assert (S0 : w0⟪cpad_rx_ok⟫ = 1 /\ w0⟪cpad_rec_state⟫ = REC_ADDR_STATE \/ w0⟪cpad_rx_timeout⟫ = 1)
    by (unfold w0, cpad_vMBPortTimersEnable; case_match; [obs|]; done).
  exists w1. split; [by transitivity w0|]. split.
  { unfold w1, cpad_vMBPortTimersDisable, cif, seqc, skip. case_match; obs; [done|]. destruct S0 as [[_ S0]|S0]; [done|].
    revert H. obs. by rewrite S0. }
  assert (U : unch poll_prefix [] w w1) by (by transitivity w0).
  assert (B1 : buf_is w1 0 f).
  { eapply buf_is_ext; [|exact Hb]. intros i _. by apply (unch_rd poll_prefix [] w w1). }
  assert (N1 : w1⟪cpad_rec_cnt⟫ = Z.of_nat (length f)) by (rewrite <- Hn; by apply (unch_rd poll_prefix [] w w1)).
  unfold cpad_MBPoll, seqc. unfold cif at 1 2 3.
  change (if nz (w⟪cpad_rx_flag⟫) then cpad_vMBPortTimersEnable ((cpad_rx_flag ::= 0) w) else skip w) with w0.
  assert (nz (w0⟪cpad_rx_ok⟫) || nz (w0⟪cpad_rx_timeout⟫) = true) as -> by (destruct S0 as [[-> _]| ->]; [done|apply orb_true_r]).
  change (check_frame ?x) with (check_frame w1).
  assert (check_frame w1 = (if (MNT_RX_MIN <=? Z.of_nat (length f)) && (crc_of f =? 0) then analysis_protocol else skip) w1) as ->.
  { unfold check_frame, cif. rewrite N1. destruct (MNT_RX_MIN <=? _); [|done]. rewrite usMBCRC16_list, (buf_is_list w1 f B1).
    by destruct (crc_of f =? 0). }
  done.
Qed.

Lemma poll_complete {T : beyond_table} w f :
  rx_complete w f -> 4 <= Z.of_nat (length f) <= MNT_RX_LEN ->
  exists w1, unch poll_prefix [] w w1 /\ w1⟪cpad_rec_state⟫ = REC_ADDR_STATE /\
    cpad_MBPoll w = (cpad_rx_ok ::= 0) ((cpad_rec_cnt ::= 0) ((if crc_of f =? 0 then analysis_protocol else skip) w1)).
Proof.
  intros (Hb & Hn & Hok & Hst) Hlen. destruct (poll_checks w f Hb Hn) as (w1 & U & S & E); [by left|].
  exists w1. split_and!; [done..|]. rewrite E. by rewrite (proj2 (Z.leb_le MNT_RX_MIN _)) by lia.
Qed.

(** A frame that is too short or fails the checksum test is discarded. *)
Definition poll_fields : list field := poll_prefix ++ [cpad_rec_cnt].

Lemma poll_discards {T : beyond_table} w f :
  buf_is w 0 f -> w⟪cpad_rec_cnt⟫ = Z.of_nat (length f) ->
  (w⟪cpad_rx_ok⟫ = 1 /\ w⟪cpad_rec_state⟫ = REC_ADDR_STATE \/ w⟪cpad_rx_timeout⟫ = 1) ->
  Z.of_nat (length f) < MNT_RX_MIN \/ crc_of f <> 0 ->
  let w' := cpad_MBPoll w in unch poll_fields [] w w' /\ rx_idle w' /\ w'⟪cpad_rec_cnt⟫ = 0.
Proof.
  intros Hb Hn Hc Hbad. destruct (poll_checks w f Hb Hn Hc) as (w1 & U & S & E). cbv zeta. rewrite E.
  assert ((MNT_RX_MIN <=? Z.of_nat (length f)) && (crc_of f =? 0) = false) as -> by (destruct Hbad; lia). unfold skip. split.
  - transitivity w1; [eapply unch_weaken; [exact U|vm_compute; reflexivity..]|]. generalize w1.
    change (respc (unch poll_fields []) (cpad_rec_cnt ::= 0;; cpad_rx_ok ::= 0)). footprint.
  - unfold rx_idle. obs. done.
Qed.

(** With neither a complete frame nor an expired timer the poll at most starts the timer. *)
Lemma poll_waits {T : beyond_table} w :
  w⟪cpad_rx_ok⟫ = 0 -> w⟪cpad_rx_timeout⟫ = 0 -> unch [cpad_rx_flag; TIM5_enabled] [] w (cpad_MBPoll w).
Proof.
  intros Hok Ht. set (w0 := (if nz (w⟪cpad_rx_flag⟫) then cpad_vMBPortTimersEnable ((cpad_rx_flag ::= 0) w) else w)).
  assert (U : unch [cpad_rx_flag; TIM5_enabled] [] w w0).
  { unfold w0. clear. case_match; [|reflexivity].
    change (unch [cpad_rx_flag; TIM5_enabled] [] w ((cpad_rx_flag ::= 0;; cpad_vMBPortTimersEnable) w)). clear. revert w.
    change (respc (unch [cpad_rx_flag; TIM5_enabled] []) (cpad_rx_flag ::= 0;; cpad_vMBPortTimersEnable)).
    unfold cpad_vMBPortTimersEnable. footprint. }
  unfold cpad_MBPoll, seqc.
  match goal with |- context [cif ?c ?x skip w] => change (cif c x skip w) with w0 end. unfold cif at 1.
  rewrite (unch_rd _ _ _ _ cpad_rx_ok U), (unch_rd _ _ _ _ cpad_rx_timeout U) by done. by rewrite Hok, Ht.
Qed.

(** ** A read request from the wire to the wire *)

Definition request (a c x y : Z) : list Z :=
  let body := [a; c; u8 (x .>> 8); u8 x; u8 (y .>> 8); u8 y] in body ++ crc_bytes body.

Lemma request_crc a c x y : crc_of (request a c x y) = 0.
Proof. apply crc_closed. Qed.

Lemma request_bytes a c x y : byte a -> byte c -> bytes (request a c x y).
Proof.
  intros Ha Hc. unfold request, crc_bytes. cbn [app].
  repeat (apply List.Forall_cons; [first [done|apply u8_range]|]). apply List.Forall_nil.
Qed.

Lemma length_request a c x y : length (request a c x y) = 8%nat.
Proof. done. Qed.

Lemma request_shape a c x y : byte a -> byte c -> c <> CPAD_MB_REG_MULTIPLE_WRITE -> frame_shape (request a c x y).
Proof.
  intros Ha Hc Hne. split; [by apply request_bytes|]. rewrite length_request. split; [lia|].
  change (nth 1 (request a c x y) 0) with c. by rewrite (proj2 (Z.eqb_neq _ _) Hne).
Qed.

Lemma be_join v : 0 <= v < 65536 -> u16 ((u8 (v .>> 8) .<< 8) + u8 v) = v.
Proof.
  intros Hv. rewrite Z.shiftr_div_pow2, Z.shiftl_mul_pow2 by lia. change (2 ^ 8) with 256. unfold u8, u16.
  Z.div_mod_to_equations. lia.
Qed.

(** The request as [analysis_protocol] reads it from the buffer. *)
Lemma buf_request w a c x y :
  buf_is w 0 (request a c x y) -> 0 <= x < 65536 -> 0 <= y < 65536 ->
  w⟪cpad_rxbuf.[0]⟫ = a /\ w⟪cpad_rxbuf.[1]⟫ = c /\
  u16 ((w⟪cpad_rxbuf.[2]⟫ .<< 8) + w⟪cpad_rxbuf.[3]⟫) = x /\ u16 ((w⟪cpad_rxbuf.[4]⟫ .<< 8) + w⟪cpad_rxbuf.[5]⟫) = y.
Proof.
  intros Hb Hx Hy. revert Hb. unfold request. cbv zeta. generalize (crc_bytes [a; c; u8 (x .>> 8); u8 x; u8 (y .>> 8); u8 y]).
  intros t Hb. pose proof (Hb 0%nat _ eq_refl : w⟪cpad_rxbuf.[0]⟫ = a) as ->.
  pose proof (Hb 1%nat _ eq_refl : w⟪cpad_rxbuf.[1]⟫ = c) as ->.
  pose proof (Hb 2%nat _ eq_refl : w⟪cpad_rxbuf.[2]⟫ = u8 (x .>> 8)) as ->.
  pose proof (Hb 3%nat _ eq_refl : w⟪cpad_rxbuf.[3]⟫ = u8 x) as ->.
  pose proof (Hb 4%nat _ eq_refl : w⟪cpad_rxbuf.[4]⟫ = u8 (y .>> 8)) as ->.
  pose proof (Hb 5%nat _ eq_refl : w⟪cpad_rxbuf.[5]⟫ = u8 y) as ->.
  by rewrite !be_join.
Qed.

Lemma analysis_read {T : beyond_table} w a addr n :
  buf_is w 0 (request a CPAD_MB_REG_READ addr n) -> tx_holds w [] ->
  0 <= addr -> 1 <= n <= 125 -> addr + n <= 800 ->
  let reply := [a; CPAD_MB_REG_READ; 2 * n] ++ reg_bytes w addr n in
  sending (analysis_protocol w) (reply ++ crc_bytes reply) (usart2_tx w).
Proof.
  intros Hb Hq Ha Hn Hle. destruct (buf_request w a CPAD_MB_REG_READ addr n Hb) as (B0 & B1 & Ex & Ey); [lia..|].
  cbv zeta. unfold analysis_protocol, letc. rewrite B1, Ex, Ey. unfold bindc, serve_request. cbn [Z.eqb Pos.eqb].
  unfold bindc, cpad_eMBRegHoldingCB. rewrite (proj2 (Z.leb_le _ _) Ha).
  rewrite (proj2 (Z.leb_le (addr + n) _)) by lia. cbn [andb Z.eqb Pos.eqb]. unfold seqc, reta; cbn [fst snd Z.eqb].
  rewrite Z.sub_0_r.
  destruct (read_regs_Z 3 addr n w) as [R1 R2]; [lia..|]. cbv zeta in *.
  set (w2 := read_regs 3 addr n w) in *.
  assert (T2 : mnt_tx_fifo w2 = mnt_tx_fifo w /\ usart2_tx w2 = usart2_tx w).
  { pose proof (read_regs_foot 3 addr n w) as U. fold w2 in U.
    split; [by apply (unch_cpadfifo _ _ _ _ U)|by apply (unch_cpadtx _ _ _ _ U)]. }
  clearbody w2. rewrite rd_assign_same. cbn [fty fld cast].
  set (w3 := (cpad_rxbuf.[2] ::= n * 2) w2). rewrite (u8_small (n * 2)) by lia.
  assert (B3 : buf_is w3 0 ([a; CPAD_MB_REG_READ; 2 * n] ++ reg_bytes w addr n)).
  { apply buf_is_app. split.
    - repeat (apply buf_is_cons; split); [..|apply buf_is_nil]; unfold w3; rewrite set_buf; cbn [Z.add Z.eqb Pos.eqb Pos.add Pos.succ].
      + rewrite R2 by lia. done.
      + rewrite R2 by lia. done.
      + change (0 + 1 + 1 =? 2) with true. cbv iota. rewrite u8_small; lia.
    - eapply buf_is_ext; [|exact R1]. intros i Hi. unfold w3. rewrite set_buf. cbn [length] in Hi.
      destruct (Z.eqb_spec i 2); [lia|done]. }
  pose proof (length_reg_bytes w addr n ltac:(lia)) as Lr.
  assert (Hs : sending (send_reply (Z.of_nat (length ([a; CPAD_MB_REG_READ; 2 * n] ++ reg_bytes w addr n)) + 2) w3)
    (([a; CPAD_MB_REG_READ; 2 * n] ++ reg_bytes w addr n) ++ crc_bytes ([a; CPAD_MB_REG_READ; 2 * n] ++ reg_bytes w addr n))
    (usart2_tx w3)).
  { apply send_reply_sending; [|done|rewrite length_app; cbn; lia|rewrite length_app; cbn [length]; lia].
    eapply tx_holds_ext; [|exact Hq]. apply T2. }
  replace (Z.of_nat (length ([a; CPAD_MB_REG_READ; 2 * n] ++ reg_bytes w addr n)) + 2) with (n * 2 + 5) in Hs
    by (rewrite length_app; cbn [length]; lia).
  replace (usart2_tx w3) with (usart2_tx w) in Hs by (symmetry; apply T2). exact Hs.
Qed.

(** The link is idle: no frame, nothing to send. *)
Definition link_idle (w : world) : Prop := rx_idle w /\ tx_holds w [].

Lemma drain_foot n w : unch tx_fields [] w (drain n w).
Proof. unfold drain. induction n as [|n IH]; [reflexivity|]. rewrite Nat.iter_succ. etrans; [exact IH|apply USART2_TC_foot]. Qed.

Lemma send_reply_foot n : respc (unch (cpad_rxbuf :: tx_fields) []) (send_reply n).
Proof. unfold send_reply. footprint. Qed.
#[export] Hint Resolve send_reply_foot : foot.

Lemma poll_end_foot : respc (unch [cpad_rec_cnt; cpad_rx_ok] []) (cpad_rec_cnt ::= 0;; cpad_rx_ok ::= 0).
Proof. footprint. Qed.

(** A request of eight bytes, from the wire to the queued reply: what remains to be shown of a
    handler is its reply and what it leaves of the receiver's state. *)
Lemma request_served {T : beyond_table} w a c x y l :
  link_idle w -> modbus_selected w -> w⟪cpad_addr⟫ = a -> byte a -> byte c -> c <> CPAD_MB_REG_MULTIPLE_WRITE ->
  (forall w1, unch link_fields [] w w1 -> buf_is w1 0 (request a c x y) -> tx_holds w1 [] -> usart2_tx w1 = usart2_tx w ->
     sending (analysis_protocol w1) l (usart2_tx w) /\
     (analysis_protocol w1)⟪cpad_rec_state⟫ = w1⟪cpad_rec_state⟫) ->
  let w' := drain (length l - 1) (cpad_MBPoll (bytes_arrive (request a c x y) w)) in
  link_idle w' /\ usart2_tx w' = rev l ++ usart2_tx w /\
  exists w1, unch link_fields [] w w1 /\ buf_is w1 0 (request a c x y) /\ unch link_fields [] (analysis_protocol w1) w'.
Proof.
  intros [Hi Hq] Hm Ha Hba Hbc Hne Hserve. set (f := request a c x y).
  pose proof (request_shape a c x y Hba Hbc Hne) as Hf.
  pose proof (receive_frame f w a Hf Hi Hm Ha eq_refl) as Hc.
  set (v := bytes_arrive f w) in *.
  assert (Uv : unch link_fields [] w v) by (eapply unch_weaken; [apply bytes_arrive_foot|vm_compute; reflexivity..]).
  assert (Tv : mnt_tx_fifo v = mnt_tx_fifo w /\ usart2_tx v = usart2_tx w).
  { pose proof (bytes_arrive_foot f w) as U. fold v in U.
    split; [by apply (unch_cpadfifo _ _ _ _ U)|by apply (unch_cpadtx _ _ _ _ U)]. }
  clearbody v. destruct (poll_complete v f Hc) as (w1 & U1 & S1 & E); [unfold f; rewrite length_request; lia|].
  assert (T1 : mnt_tx_fifo w1 = mnt_tx_fifo v /\ usart2_tx w1 = usart2_tx v).
  { split; [by apply (unch_cpadfifo _ _ _ _ U1)|by apply (unch_cpadtx _ _ _ _ U1)]. }
  assert (B1 : buf_is w1 0 f).
  { eapply buf_is_ext; [|apply Hc]. intros i _. by apply (unch_rd poll_prefix [] v w1). }
  assert (Uw1 : unch link_fields [] w w1)
    by (transitivity v; [done|eapply unch_weaken; [exact U1|vm_compute; reflexivity..]]).
  destruct (Hserve w1) as [Hs Hst]; [done|done| |intuition congruence|].
  { eapply tx_holds_ext; [|exact Hq]. intuition congruence. }
  rewrite E. unfold f. rewrite request_crc. change (0 =? 0) with true. cbv iota.
  set (w2 := analysis_protocol w1) in *.
  set (w3 := (cpad_rx_ok ::= 0) ((cpad_rec_cnt ::= 0) w2)).
  destruct (sending_drain w3 l (usart2_tx w)) as [D1 D2]; [eapply sending_ext; [..|exact Hs]; done|].
  set (w4 := drain _ w3) in *. pose proof (drain_foot (length l - 1) w3) as U4. fold w4 in U4.
  cbv zeta. split_and!; [split; [split|done]|done|exists w1].
  - rewrite (unch_rd tx_fields [] w3 w4) by done. unfold w3. by obs.
  - rewrite (unch_rd tx_fields [] w3 w4) by done. unfold w3. obs. by rewrite Hst.
  - split_and!; [done..|]. transitivity w3; [|eapply unch_weaken; [exact U4|vm_compute; reflexivity..]].
    eapply unch_weaken; [exact (poll_end_foot w2)|vm_compute; reflexivity..].
Qed.

Lemma reg_bytes_unch w w' addr n : unch link_fields [] w w' -> reg_bytes w' addr n = reg_bytes w addr n.
Proof. intros H. unfold reg_bytes. f_equal. apply list_fmap_ext. intros i k _. by rewrite (mbs_read_unch w w'). Qed.

Lemma read_foot {T : beyond_table} w a addr n :
  buf_is w 0 (request a CPAD_MB_REG_READ addr n) -> 0 <= addr -> 1 <= n <= 125 -> addr + n <= 800 ->
  unch (cpad_rxbuf :: tx_fields) [] w (analysis_protocol w).
Proof.
  intros Hb Ha Hn Hle. destruct (buf_request w a CPAD_MB_REG_READ addr n Hb) as (B0 & B1 & Ex & Ey); [lia..|].
  unfold analysis_protocol, letc. rewrite B1, Ex, Ey. unfold bindc at 1.
  assert (respa (unch [cpad_rxbuf] []) (serve_request CPAD_MB_REG_READ addr n)) as Hr.
  { unfold serve_request, cpad_eMBRegHoldingCB. cbn [Z.eqb Pos.eqb].
    rewrite (proj2 (Z.leb_le _ _) Ha), (proj2 (Z.leb_le (addr + n) _)) by lia. cbn [andb]. footprint. }
  etrans; [eapply unch_weaken; [apply Hr|reflexivity..]|].
  generalize (serve_request CPAD_MB_REG_READ addr n w). intros [r v]. cbn [fst snd].
  revert v. change (respc (unch (cpad_rxbuf :: tx_fields) []) (if r.1 =? MB_ENOERR then send_reply r.2
    else cpad_rxbuf.[1] ::= 0x80 .| «cpad_rxbuf.[1]»;; cpad_rxbuf.[2] ::= r.1;; send_reply 5)).
  case_match; footprint.
Qed.

(** C15: A read request is answered correctly, from the wire to the wire.  On an idle link, the
    eight bytes of a valid request for [n] registers (1 to 125, the limit of the protocol) from
    address [addr], then a poll of the slave thread and the transmit interrupts, put exactly one
    frame on the wire: address, function code, byte count, the values of the registers, high
    byte first, and a checksum the host will accept; nothing but the link's own state changes
    and the link is idle again. *)
Theorem modbus_read_answered {T : beyond_table} w a addr n :
  link_idle w -> modbus_selected w -> w⟪cpad_addr⟫ = a -> byte a ->
  0 <= addr -> 1 <= n <= 125 -> addr + n <= 800 ->
  let reply := [a; CPAD_MB_REG_READ; 2 * n] ++ reg_bytes w addr n in
  let frame := reply ++ crc_bytes reply in
  let w' := drain (length frame - 1) (cpad_MBPoll (bytes_arrive (request a CPAD_MB_REG_READ addr n) w)) in
  usart2_tx w' = rev frame ++ usart2_tx w /\ crc_of frame = 0 /\
  unch link_fields [] w w' /\ link_idle w'.
Proof.
  intros Hl Hm Hca Ha Haddr Hn Hle reply frame.
  destruct (request_served w a CPAD_MB_REG_READ addr n frame) as (H1 & H2 & w1 & U1 & B1 & U2);
    [done..|unfold byte; lia|lia| |].
  - intros w1 U1 B1 Q1 T1. unfold frame, reply. rewrite <- (reg_bytes_unch w w1), <- T1 by done.
    split; [by apply analysis_read|].
    by rewrite (unch_rd (cpad_rxbuf :: tx_fields) [] w1) by (done || by eapply read_foot).
  - split_and!; [done|apply crc_closed| |done].
    transitivity w1; [done|]. etrans; [|exact U2].
    eapply unch_weaken; [by eapply read_foot|vm_compute; reflexivity..].
Qed.

(** Initialising the port makes the link idle. *)
Lemma fresh_fifo : fifo_inv (FifoCb (repeat 0 512) 0 0 1 MNT_RX_LEN 0) 0.
Proof. by split; cbn [buffer bhead_ptr btail_ptr block_size depth length_]; rewrite ?repeat_length; try lia. Qed.

Lemma SerialInit_foot : respc (unch [CPAD_RS485_send; USART2_RXNE_int; P_cpadfifo] []) cpad_MBPortSerialInit.
Proof. unfold cpad_MBPortSerialInit. footprint. Qed.
Lemma TimersDisable_foot : respc (unch [TIM5_enabled] []) cpad_vMBPortTimersDisable.
Proof. unfold cpad_vMBPortTimersDisable. footprint. Qed.
#[export] Hint Resolve SerialInit_foot TimersDisable_foot : foot.

Lemma fresh_holds w : mnt_tx_fifo w = FifoCb (repeat 0 512) 0 0 1 MNT_RX_LEN 0 -> tx_holds w [].
Proof. intros E. exists 0. rewrite E. split; [exact fresh_fifo|]. by split_and!. Qed.

Lemma SerialInit_fifo w :
  buffer (mnt_tx_fifo w) = [] -> mnt_tx_fifo (cpad_MBPortSerialInit w) = FifoCb (repeat 0 512) 0 0 1 MNT_RX_LEN 0.
Proof. intros Hb. unfold cpad_MBPortSerialInit, seqc. cbn [set_cpadfifo mnt_tx_fifo assign wr set_mem]. by rewrite Hb. Qed.

Lemma cpad_init_idle w : buffer (mnt_tx_fifo w) = [] -> link_idle (cpad_MBRTUInit 1 w).
Proof.
  intros Hb. unfold cpad_MBRTUInit, seqc. split; [split; by obs|].
  apply fresh_holds. by apply SerialInit_fifo.
Qed.

Lemma modbus_read_answered_witness :
  let T : beyond_table := {| beyond_id := fun _ => 0; beyond_store := fun _ _ w => w |} in
  let w := cpad_MBRTUInit 1 (poke [(ComPara_u16Water_Flow.[0], 0x1234)] w_zero) in
  let reply := [1; 3; 2; 0x12; 0x34] in
  let w' := drain 6 (cpad_MBPoll (bytes_arrive (request 1 3 111 1) w)) in
  usart2_tx w' = rev (reply ++ crc_bytes reply) /\ crc_of (reply ++ crc_bytes reply) = 0.
Proof.
  intros T w.
  destruct (@modbus_read_answered T w 1 111 1) as (H1 & H2 & _); [apply cpad_init_idle; reflexivity|vm_compute; reflexivity|
    vm_compute; reflexivity|unfold byte; lia|lia|lia|lia|].
  assert (E : reg_bytes w 111 1 = [0x12; 0x34]) by (vm_compute; reflexivity).
  rewrite E in H1, H2. cbv zeta. split; [exact H1|exact H2].
Defined.
