(* ===== verification/ModbusWrite.v ===== *)
(** * Write requests of the host: from the wire to the register

    Theorems about [cpad_eMBRegHoldingCB] and [analysis_protocol] (files ModbusRegs and
    ModbusSlave) for the function codes that change something: a single write is validated and
    echoed or refused with an exception reply; a multiple write is not validated. *)

From S2P Require Import Prelude Calc Conf Fifo Crc Machine SysStatus EventRecord Eeprom GlobalVar AlarmCalc Fan Dio ConfLoad Boot ModbusRegs ModbusSlave.

#[local] Open Scope Z_scope.

Lemma conf_reg_id i : 0 <= i < CONF_REG_MAP_NUM -> id (conf_reg i) = i.
Proof. intros Hi. apply Z.eqb_eq. apply (range_check (fun i => id (conf_reg i) =? i) 435); [vm_compute; reflexivity|done]. Qed.

Lemma reg_map_err_unch w w' r v u :
  unch link_fields [] w w' -> @reg_map_err w' r [v] 1 u = @reg_map_err w r [v] 1 u.
Proof.
  intros H. unfold reg_map_err, data_err. change (range 1) with [0]. cbn [first_err].
  destruct (chk_ptr (conf_reg (r + 0))) as [[|]|]; [..|done];
    unfold run_check, ColdWater_StartTemp_Chek, ColdWater_StopTemp_Chek; by rewrite (unch_rd link_fields [] w w').
Qed.

(** The objects a write of register [r] may change. *)
Definition write_fields (r : Z) : list field :=
  match reg_ptr (conf_reg r) with Some c => [fld c; P_ee; P_eventlog] | None => [P_ee; P_eventlog] end.

Definition no_req (r : conf_reg_map_st) : bool :=
  match reg_ptr r with Some c => negb (is_req c) | None => true end.

Lemma conf_no_req i : 0 <= i < CONF_REG_MAP_NUM -> no_req (conf_reg i) = true.
Proof.
  intros Hi. assert (H : forallb no_req conf_reg_map_inst = true) by (vm_compute; reflexivity).
  rewrite forallb_forall in H. apply H. apply nth_In. rewrite conf_reg_map_length. lia.
Qed.

Lemma reg_write_foot r v u :
  0 <= r < CONF_REG_MAP_NUM -> respc (unch (write_fields r) []) (reg_write_loop r [v] u [0]).
Proof.
  intros Hr. pose proof (conf_no_req r Hr) as Hb. unfold no_req in Hb. unfold write_fields.
  apply write_loop_foot; [destruct (reg_ptr _) as [c|]; [destruct (fld c)|]; reflexivity|].
  intros i c Hi Hc. apply list_elem_of_singleton in Hi as ->. rewrite Z.add_0_r in Hc. rewrite Hc in *.
  rewrite Hb, andb_true_r. unfold fin. cbn [existsb]. by destruct (fld c).
Qed.

(** One register: the object holds the value, also where the loop returns early. *)
Lemma reg_write_one r v u w c :
  0 <= r < CONF_REG_MAP_NUM -> reg_ptr (conf_reg r) = Some c ->
  (reg_write_loop r [v] u [0] w)⟪c⟫ = cast (fty (fld c)) v.
Proof.
  intros Hr Hc. destruct ((r =? EE_WATER_MODE) || (r =? EE_WATER_FLOW)) eqn:E.
  - cbn [reg_write_loop]. rewrite E. unfold letc, seqc. rewrite Z.add_0_r, Hc. apply rd_assign_same.
  - rewrite (write_loop_stores r [v] u [0] w 0 c); [done|done|apply NoDup_singleton| |by apply list_elem_of_singleton|by rewrite Z.add_0_r].
    intros k ->%list_elem_of_singleton. lia.
Qed.

Lemma write_fields_off r g :
  0 <= r < CONF_REG_MAP_NUM -> fin g link_fields = true -> fin g (write_fields r) = false.
Proof.
  intros Hr Hg. pose proof (conf_off_link r Hr) as H. unfold write_fields. destruct (reg_ptr _) as [c|]; cbn [off_link] in H.
  - apply negb_true_iff, orb_false_iff in H as [H _].
    unfold fin. cbn [existsb]. destruct (feqb g (fld c)) eqn:E.
    { apply feqb_spec in E as ->. congruence. }
    clear H E. by destruct g.
  - clear H. by destruct g.
Qed.

Lemma fin_incl F F' : incl F F' -> forallb (fun g => fin g F') F = true.
Proof. intros H. apply forallb_forall. intros g Hg. apply existsb_exists. exists g. split; [by apply H|by apply feqb_spec]. Qed.

(** A register's object survives the link's own work. *)
Lemma conf_rd_link w w' r c :
  0 <= r < CONF_REG_MAP_NUM -> reg_ptr (conf_reg r) = Some c -> unch link_fields [] w w' -> w'⟪c⟫ = w⟪c⟫.
Proof.
  intros Hr Hc U. pose proof (conf_off_link r Hr) as H. rewrite Hc in H. cbn [off_link] in H.
  apply negb_true_iff, orb_false_iff in H as [H H']. by apply (unch_rd link_fields [] w w').
Qed.

(** ** A single write *)

(** The registers that are commands, not parameters: they are served before the table is. *)
Definition command_reg (r : Z) : bool :=
  existsb (Z.eqb r) [FACTORY_RESET; MANUAL_TSET; CLEAR_RT; CLEAR_ALARM; SET_TL; SET_TH].

Lemma single_plain {T : beyond_table} r v :
  0 <= r < CONF_REG_MAP_NUM -> command_reg r = false ->
  COM_SINGLE_eMBRegHoldingCB r v = checked_write r v.
Proof.
  intros Hr Hc. unfold command_reg in Hc. cbn [existsb] in Hc. rewrite !orb_false_iff in Hc.
  destruct Hc as (E1 & E2 & E3 & E4 & E5 & E6 & _). unfold COM_SINGLE_eMBRegHoldingCB. by rewrite E1, E2, E3, E4, E5, E6.
Qed.

Lemma checked_write_eq {T : beyond_table} r v w :
  0 <= r < CONF_REG_MAP_NUM ->
  checked_write r v w = if @reg_map_err w r [v] 1 USER_CPAD =? 0 then (MB_ENOERR, reg_write_loop r [v] USER_CPAD [0] w)
                        else (MB_ENORES, w).
Proof.
  intros Hr. unfold checked_write, bindc, reg_map_write, letc, reg_id, in_table.
  rewrite (proj2 (Z.leb_le 0 r)), (proj2 (Z.ltb_lt r 435)) by lia. cbn [andb]. rewrite conf_reg_id by done.
  destruct (Z.eqb_spec (@reg_map_err w r [v] 1 USER_CPAD) 0) as [E|E]; cbn [negb]; unfold seqc, reta; cbn [fst snd]; [done|].
  by rewrite (proj2 (Z.eqb_neq _ _) E).
Qed.

(** What [analysis_protocol] makes of the request. *)
Lemma analysis_write {T : beyond_table} w a r v :
  buf_is w 0 (request a CPAD_MB_REG_SINGLE_WRITE (r + 64) v) ->
  0 <= r < CONF_REG_MAP_NUM -> command_reg r = false -> 0 <= v < 65536 ->
  analysis_protocol w =
    if @reg_map_err w r [v] 1 USER_CPAD =? 0 then send_reply 8 (reg_write_loop r [v] USER_CPAD [0] w)
    else send_reply 5 ((cpad_rxbuf.[2] ::= MB_ENORES) ((cpad_rxbuf.[1] ::= 0x80 .| «cpad_rxbuf.[1]») w)).
Proof.
  intros Hb Hr Hc Hv.
  destruct (buf_request w a CPAD_MB_REG_SINGLE_WRITE (r + 64) v Hb) as (B0 & B1 & Ex & Ey); [lia..|].
  unfold analysis_protocol, letc. rewrite B1, Ex, Ey. unfold bindc, serve_request. cbn [Z.eqb Pos.eqb].
  unfold bindc, cpad_eMBRegHoldingCB. rewrite (proj2 (Z.leb_le 0 (r + 64))), (proj2 (Z.leb_le (r + 64 + 1) _)) by lia.
  cbn [andb Z.eqb Pos.eqb]. change (Z.to_nat 1) with 1%nat. cbn [single_write]. change (Z.of_nat 1) with 1.
  rewrite (proj2 (Z.leb_le (r + 64 + 1) _)) by lia. rewrite (proj2 (Z.leb_le _ (r + 64 + 1))) by lia.
  unfold letc, rx_word, bindc. change (4 + 1) with 5.
  assert (u16 (u16 (w⟪cpad_rxbuf.[4]⟫ .<< 8) + w⟪cpad_rxbuf.[5]⟫) = v) as ->
    by (rewrite <- Ey; unfold u16; by rewrite Z.add_mod_idemp_l).
  replace (u16 (r + 64 - 0 - 64)) with r by (rewrite u16_small; lia).
  rewrite single_plain, checked_write_eq by done. destruct (reg_map_err r [v] 1 USER_CPAD =? 0); reflexivity.
Qed.

Lemma analysis_write_state {T : beyond_table} w a r v :
  buf_is w 0 (request a CPAD_MB_REG_SINGLE_WRITE (r + 64) v) ->
  0 <= r < CONF_REG_MAP_NUM -> command_reg r = false -> 0 <= v < 65536 ->
  unch (write_fields r ++ cpad_rxbuf :: tx_fields) [] w (analysis_protocol w) /\
  (@reg_map_err w r [v] 1 USER_CPAD <> 0 -> unch (cpad_rxbuf :: tx_fields) [] w (analysis_protocol w)) /\
  (@reg_map_err w r [v] 1 USER_CPAD = 0 -> forall c, reg_ptr (conf_reg r) = Some c -> (analysis_protocol w)⟪c⟫ = v).
Proof.
  intros Hb Hr Hc Hv. rewrite (analysis_write w a r v) by done.
  assert (Href : forall w, unch (cpad_rxbuf :: tx_fields) [] w (send_reply 5
    ((cpad_rxbuf.[2] ::= MB_ENORES) ((cpad_rxbuf.[1] ::= 0x80 .| «cpad_rxbuf.[1]») w)))).
  { intros w'. etrans; [|apply send_reply_foot]. etrans; [|by apply (unch_assign _ [] cpad_rxbuf.[2] (fun _ => MB_ENORES))].
    by apply (unch_assign _ [] cpad_rxbuf.[1] (fun w : cur => 0x80 .| «cpad_rxbuf.[1]»)). }
  destruct (Z.eqb_spec (@reg_map_err w r [v] 1 USER_CPAD) 0) as [E|E].
  - split_and!; [|done|].
    + etrans; [eapply unch_weaken; [by apply reg_write_foot|apply fin_incl, incl_appl, incl_refl|done]|].
      eapply unch_weaken; [apply send_reply_foot|apply fin_incl, incl_appr, incl_refl|done].
    + intros _ c Hp. rewrite (conf_rd_link (reg_write_loop r [v] USER_CPAD [0] w) _ r c); [|done..|].
      2: eapply unch_weaken; [apply send_reply_foot|vm_compute; reflexivity..].
      rewrite (reg_write_one r v USER_CPAD w c) by done. destruct (reg_map_err_none _ _ _ _ _ E) as [_ Ha].
      destruct (Ha 0) as (_ & _ & Hm & _); [lia|]. rewrite Z.add_0_r in Hm. by apply (conf_reg_fits r).
  - split_and!; [|auto|done]. eapply unch_weaken; [apply Href|apply fin_incl, incl_appr, incl_refl|done].
Qed.

(** The echoed request, or the exception reply. *)
Definition write_reply (a r v e : Z) : list Z :=
  if e =? CPAD_ERR_NOERR then [a; CPAD_MB_REG_SINGLE_WRITE; u8 ((r + 64) .>> 8); u8 (r + 64); u8 (v .>> 8); u8 v]
  else [a; 0x80 .| CPAD_MB_REG_SINGLE_WRITE; MB_ENORES].

Lemma analysis_write_sending {T : beyond_table} w a r v :
  buf_is w 0 (request a CPAD_MB_REG_SINGLE_WRITE (r + 64) v) -> tx_holds w [] ->
  0 <= r < CONF_REG_MAP_NUM -> command_reg r = false -> 0 <= v < 65536 ->
  let reply := write_reply a r v (@reg_map_err w r [v] 1 USER_CPAD) in
  sending (analysis_protocol w) (reply ++ crc_bytes reply) (usart2_tx w).
Proof.
  intros Hb Hq Hr Hc Hv. cbv zeta. rewrite (analysis_write w a r v) by done. unfold write_reply.
  destruct (Z.eqb_spec (@reg_map_err w r [v] 1 USER_CPAD) 0) as [E|E].
  - pose proof (reg_write_foot r v USER_CPAD Hr w) as U. set (w1 := reg_write_loop _ _ _ _ w) in *. clearbody w1.
    assert (usart2_tx w1 = usart2_tx w) as <- by (apply (unch_cpadtx _ _ _ _ U); by apply write_fields_off).
    apply (send_reply_sending [a; CPAD_MB_REG_SINGLE_WRITE; u8 ((r + 64) .>> 8); u8 (r + 64); u8 (v .>> 8); u8 v] w1);
      [| |cbn; lia|cbn; lia].
    + eapply tx_holds_ext; [|exact Hq]. apply (unch_cpadfifo _ _ _ _ U). by apply write_fields_off.
    + eapply buf_is_ext; [|exact (proj1 (proj1 (buf_is_app w 0 _ _) Hb))].
      intros i _. apply (unch_rd _ _ _ _ _ U); [by apply write_fields_off|done].
  - set (w1 := (cpad_rxbuf.[2] ::= MB_ENORES) _).
    change (usart2_tx w) with (usart2_tx w1).
    apply (send_reply_sending [a; 0x80 .| CPAD_MB_REG_SINGLE_WRITE; MB_ENORES] w1); [| |cbn; lia|cbn; lia].
    + eapply tx_holds_ext; [|exact Hq]. done.
    + pose proof (Hb 0%nat _ eq_refl : w⟪cpad_rxbuf.[0]⟫ = a) as H0.
      pose proof (Hb 1%nat _ eq_refl : w⟪cpad_rxbuf.[1]⟫ = CPAD_MB_REG_SINGLE_WRITE) as H1.
      repeat (apply buf_is_cons; split); [..|apply buf_is_nil]; unfold w1; rewrite !set_buf; cbn [Z.add Z.eqb Pos.eqb Pos.add Pos.succ];
        [done|by rewrite H1|done].
Qed.

(** C7: A single write is validated, carried out and answered, from the wire to the wire.  On an
    idle link, a valid request to write [v] to register [r] of the table (commands excepted),
    then a poll and the transmit interrupts, put exactly one frame on the wire.  If the
    register's checks refuse the value it is the exception reply, and nothing but the link's own
    state changes; if they accept it, it is the echoed request, the register's object holds [v],
    and nothing but that object, the EEPROM and the event log changes besides the link. *)
Theorem modbus_write_answered {T : beyond_table} w a r v :
  link_idle w -> modbus_selected w -> w⟪cpad_addr⟫ = a -> byte a ->
  0 <= r < CONF_REG_MAP_NUM -> command_reg r = false -> 0 <= v < 65536 ->
  let e := @reg_map_err w r [v] 1 USER_CPAD in
  let reply := write_reply a r v e in
  let frame := reply ++ crc_bytes reply in
  let w' := drain (length frame - 1) (cpad_MBPoll (bytes_arrive (request a CPAD_MB_REG_SINGLE_WRITE (r + 64) v) w)) in
  usart2_tx w' = rev frame ++ usart2_tx w /\ crc_of frame = 0 /\ link_idle w' /\
  unch (write_fields r ++ link_fields) [] w w' /\
  (e <> CPAD_ERR_NOERR -> unch link_fields [] w w') /\
  (e = CPAD_ERR_NOERR -> reg_accepts w r [v] USER_CPAD 0 /\ forall c, reg_ptr (conf_reg r) = Some c -> w'⟪c⟫ = v).
Proof.
  intros Hl Hm Hca Ha Hr Hc Hv e reply frame.
  destruct (request_served w a CPAD_MB_REG_SINGLE_WRITE (r + 64) v frame) as (H1 & H2 & w1 & U1 & B1 & U2);
    [done..|unfold byte; lia|lia| |].
  { intros w1 U1 B1 Q1 T1. split.
    - unfold frame, reply, e. rewrite <- (reg_map_err_unch w w1), <- T1 by done. by apply analysis_write_sending.
    - destruct (analysis_write_state w1 a r v B1 Hr Hc Hv) as [U _].
      apply (unch_rd _ _ _ _ _ U); [|done]. unfold fin. rewrite existsb_app.
      apply orb_false_iff. split; [by apply write_fields_off|done]. }
  destruct (analysis_write_state w1 a r v B1 Hr Hc Hv) as (S1 & S2 & S3).
  rewrite (reg_map_err_unch w w1) in S2, S3 by done. fold e in S2, S3.
  split_and!; [done|apply crc_closed|done| | |].
  - transitivity w1; [eapply unch_weaken; [done|apply fin_incl, incl_appr, incl_refl|done]|].
    etrans; [|eapply unch_weaken; [exact U2|apply fin_incl, incl_appr, incl_refl|done]].
    eapply unch_weaken; [exact S1| |done]. apply fin_incl, incl_app_app; [apply incl_refl|].
    unfold link_fields. apply incl_cons; [apply in_or_app; cbn; tauto|apply incl_appl, incl_refl].
  - intros He. transitivity w1; [done|]. etrans; [|exact U2].
    eapply unch_weaken; [by apply S2|vm_compute; reflexivity..].
  - intros He. split; [destruct (reg_map_err_none _ _ _ _ _ He) as [_ Hacc]; apply Hacc; lia|].
    intros c Hp. rewrite (conf_rd_link (analysis_protocol w1) _ r c) by done. by apply S3.
Qed.

(** The compressor's start-up delay (register 22, at most 600): 100 is accepted, 65535 is
    refused. *)
Lemma modbus_write_answered_witness :
  let T : beyond_table := {| beyond_id := fun _ => 0; beyond_store := fun _ _ w => w |} in
  let w := cpad_MBRTUInit 1 w_zero in
  let ok := drain 7 (cpad_MBPoll (bytes_arrive (request 1 6 (22 + 64) 100) w)) in
  let no := drain 4 (cpad_MBPoll (bytes_arrive (request 1 6 (22 + 64) 65535) w)) in
  usart2_tx ok = rev (request 1 6 86 100) /\ ok⟪compressor_startup_delay⟫ = 100 /\
  usart2_tx no = rev ([1; 0x86; 4] ++ crc_bytes [1; 0x86; 4]) /\ unch link_fields [] w no.
Proof.
  intros T w.
  assert (I : link_idle w) by (apply cpad_init_idle; reflexivity).
  destruct (@modbus_write_answered T w 1 22 100) as (A1 & _ & _ & _ & _ & A2);
    [done|vm_compute; reflexivity|vm_compute; reflexivity|unfold byte; lia|lia|reflexivity|lia|].
  destruct (@modbus_write_answered T w 1 22 65535) as (B1 & _ & _ & _ & B2 & _);
    [done|vm_compute; reflexivity|vm_compute; reflexivity|unfold byte; lia|lia|reflexivity|lia|].
  assert (E1 : @reg_map_err w 22 [100] 1 USER_CPAD = 0) by (vm_compute; reflexivity).
  assert (E2 : @reg_map_err w 22 [65535] 1 USER_CPAD = 2) by (vm_compute; reflexivity).
  rewrite E1 in A1, A2. rewrite E2 in B1, B2.
  cbv zeta. split_and!; [exact A1|apply A2; reflexivity|exact B1|apply B2; discriminate].
Defined.

(** ** A corrupted frame *)

(** What a poll without a reply leaves alone. *)
Definition quiet (w w' : world) : Prop := usart2_tx w' = usart2_tx w /\ unch link_fields [] w w'.

Lemma quiet_trans w1 w2 w3 : quiet w1 w2 -> quiet w2 w3 -> quiet w1 w3.
Proof. intros [T1 U1] [T2 U2]. split; [congruence|by transitivity w2]. Qed.

(** Statements that write only what the receiver and the poll own. *)
Definition rx_fields : list field :=
  [l_u16Uart_Timeout; cpad_rx_flag; cpad_rec_cnt; cpad_rxbuf; cpad_rec_state; cpad_rx_ok; cpad_rx_DataCnt; TIM5_enabled; cpad_rx_timeout].

Lemma quiet_rx F w w' : unch F [] w w' -> forallb (fun g => fin g rx_fields) F = true -> quiet w w' /\ mnt_tx_fifo w' = mnt_tx_fifo w.
Proof.
  intros U HF. assert (unch rx_fields [] w w') as U' by (by eapply unch_weaken).
  split; [split|].
  - by rewrite (unch_cpadtx _ _ _ _ U').
  - eapply unch_weaken; [exact U'|vm_compute; reflexivity..].
  - by rewrite (unch_cpadfifo _ _ _ _ U').
Qed.

Lemma discarded_quiet {T : beyond_table} w f :
  buf_is w 0 f -> w⟪cpad_rec_cnt⟫ = Z.of_nat (length f) ->
  (w⟪cpad_rx_ok⟫ = 1 /\ w⟪cpad_rec_state⟫ = REC_ADDR_STATE \/ w⟪cpad_rx_timeout⟫ = 1) ->
  Z.of_nat (length f) < MNT_RX_MIN \/ crc_of f <> 0 -> tx_holds w [] ->
  quiet w (cpad_MBPoll w) /\ link_idle (cpad_MBPoll w) /\ (cpad_MBPoll w)⟪cpad_rec_cnt⟫ = 0.
Proof.
  intros Hb Hn Hc Hbad Hq. destruct (poll_discards w f Hb Hn Hc Hbad) as (U & I & N).
  destruct (quiet_rx _ _ _ U) as [Q F]; [reflexivity|]. split; [done|]. split; [|done]. split; [done|].
  by eapply tx_holds_ext.
Qed.

(** C24: A request damaged in transit has no effect.  Take a frame the checksum accepts and replace one of its
    bytes, whichever it is.  If it has the eight bytes of a request to read or to write one register and
    the frame timer has not expired before, the poll after its last byte sends no reply and changes
    nothing but the link's own state; if the address is this device's, the link is idle again at the
    latest with the poll after the frame timer, still without a reply.  A frame of any length (a multiple
    write) that still has the length its function code and byte count announce and is addressed to this
    device is discarded by the first poll, and the link is idle again. *)
Theorem corrupted_frame_ignored {T : beyond_table} w a pre x y post :
  bytes pre -> byte x -> byte y -> bytes post -> x <> y -> crc_of (pre ++ x :: post) = 0 ->
  let f := pre ++ y :: post in
  link_idle w -> modbus_selected w -> w⟪cpad_addr⟫ = a ->
  let w' := cpad_MBPoll (bytes_arrive f w) in
  let w'' := cpad_MBPoll (TIM5_IRQHandler w') in
  (length f = 8%nat -> w⟪cpad_rx_timeout⟫ = 0 ->
     quiet w w' /\ (nth 0 f 0 = a -> quiet w w'' /\ link_idle w'')) /\
  (frame_shape f -> nth 0 f 0 = a -> quiet w w' /\ link_idle w').
Proof.
  intros Hpre Hx Hy Hpost Hne Hcrc f [Hi Hq] Hm Ha w' w''.
  assert (Hbad : crc_of f <> 0) by (by apply (crc_detects_byte_error pre x y post)).
  assert (Hf : bytes f) by (apply Forall_app_2; [done|by constructor]). clearbody f.
  pose proof (bytes_arrive_foot f w) as Uv. destruct (quiet_rx _ _ _ Uv) as [Qv Fv]; [reflexivity|].
  assert (Hqv : tx_holds (bytes_arrive f w) []) by (by eapply tx_holds_ext).
  assert (Hfull : frame_shape f -> nth 0 f 0 = a -> quiet w w' /\ link_idle w' /\ w'⟪cpad_rec_cnt⟫ = 0).
  { intros Hsh H0. destruct (receive_frame f w a Hsh Hi Hm Ha H0) as (B & N & K & S).
    destruct (discarded_quiet (bytes_arrive f w) f B N) as (Q & I & Z0); [by left|by right|done|].
    split; [by eapply quiet_trans|done]. }
  split; [|intros Hsh H0; destruct (Hfull Hsh H0) as (? & ? & _); done]. intros H8 Ht.
  assert (Htv : (bytes_arrive f w)⟪cpad_rx_timeout⟫ = 0) by (by rewrite (unch_rd _ _ _ _ cpad_rx_timeout Uv)).
  assert (Hwait : (bytes_arrive f w)⟪cpad_rx_ok⟫ = 0 -> quiet w w' /\ unch [cpad_rx_flag; TIM5_enabled] [] (bytes_arrive f w) w').
  { intros Hok. pose proof (poll_waits _ Hok Htv) as U. split; [|done]. eapply quiet_trans; [done|]. by eapply quiet_rx. }
  assert (Htim : unch [cpad_rx_timeout] [] w' (TIM5_IRQHandler w')) by (by apply (unch_assign _ [] cpad_rx_timeout (fun _ => 1))).
  assert (Hlate : forall g, quiet w w' -> tx_holds w' [] -> buf_is w' 0 g -> w'⟪cpad_rec_cnt⟫ = Z.of_nat (length g) ->
    Z.of_nat (length g) < MNT_RX_MIN \/ crc_of g <> 0 -> quiet w w'' /\ link_idle w'').
  { intros g Q Hq' B N Hg. destruct (quiet_rx _ _ _ Htim) as [Qt Ft]; [reflexivity|].
    destruct (discarded_quiet (TIM5_IRQHandler w') g) as (Q' & I & _); [| |right|done| |].
    - eapply buf_is_ext; [|exact B]. intros i _. by apply (unch_rd _ _ _ _ _ Htim).
    - by rewrite (unch_rd _ _ _ _ cpad_rec_cnt Htim).
    - unfold TIM5_IRQHandler. by obs.
    - by eapply tx_holds_ext.
    - split; [|done]. eapply quiet_trans; [exact Q|]. by eapply quiet_trans. }
  destruct (decide (nth 0 f 0 = a)) as [H0|H0].
  - destruct (Z.eqb_spec (nth 1 f 0) CPAD_MB_REG_MULTIPLE_WRITE) as [H1|H1].
    + pose proof (bytes_nth f 6 Hf) as B6. unfold byte in B6.
      set (g := f ++ repeat 0 (Z.to_nat (nth 6 f 0 + 1))).
      assert (Hg : forall i, (i < 8)%nat -> nth i g 0 = nth i f 0) by (intros; apply app_nth1; lia).
      assert (frame_shape g) as Hsh.
      { unfold frame_shape. rewrite !Hg, H1, Z.eqb_refl by lia. unfold g. rewrite length_app, repeat_length, H8.
        split; [apply Forall_app_2; [done|]; generalize (Z.to_nat (nth 6 f 0 + 1)); intros k; induction k; constructor; [unfold byte; lia|done]|]. lia. }
      destruct (receive_part g 8 w a Hsh) as (B & N & K & S); [unfold g; rewrite length_app, repeat_length; lia|done..|by rewrite Hg by lia|].
      assert (take 8 g = f) as Eg by (unfold g; rewrite <- H8; apply take_app_length). rewrite Eg in *.
      destruct (Hwait K) as [Q U]. split; [done|]. intros _. apply (Hlate f Q).
      * eapply tx_holds_ext; [|exact Hqv]. apply (unch_cpadfifo _ _ _ _ U). done.
      * eapply buf_is_ext; [|exact B]. intros i _. by apply (unch_rd _ _ _ _ _ U).
      * rewrite (unch_rd _ _ _ _ cpad_rec_cnt U), N, H8 by done. done.
      * by right.
    + assert (frame_shape f) as Hsh.
      { unfold frame_shape. rewrite (proj2 (Z.eqb_neq _ _) H1), H8. done. }
      destruct (Hfull Hsh H0) as (Q & [Hi' Hq'] & N). split; [done|]. intros _.
      apply (Hlate []); [done|done|apply buf_is_nil|done|by left].
  - destruct f as [|b f]; [done|]. cbn in H0, H8. injection H8 as H8. apply Forall_cons_1 in Hf as [Hb Hf].
    assert (rx_few 7 (bytes_arrive (b :: f) w)) as [Hok _].
    { unfold bytes_arrive. cbn [foldl]. replace 7 with (0 + Z.of_nat (length f)) by lia.
      apply rx_few_arrive; [lia|lia|done|by apply modbus_selected_RXNE|]. rewrite RXNE_modbus by done.
      assert (CpadPortSerialReceiveFSM_MBS b (clear_idle w) = (cpad_rx_flag ::= 1) (clear_idle w)) as ->.
      { destruct Hi as [Hok Hst]. unfold CpadPortSerialReceiveFSM_MBS, clear_idle, seqc, cif, skip. obs. rewrite Hok, Hst. cbn [Z.eqb].
        by rewrite Ha, (proj2 (Z.eqb_neq _ _) H0). }
      destruct Hi as [Hok Hst]. unfold rx_few, clear_idle, seqc. obs. auto. }
    destruct (Hwait Hok) as [Q _]. split; [done|]. intros H0'. by cbn in H0'.
Qed.

(** A read request with every one of its bytes damaged in turn: the address, the function code (here to that
    of a multiple write), the register number. *)
Lemma corrupted_frame_ignored_witness :
  let T : beyond_table := {| beyond_id := fun _ => 0; beyond_store := fun _ _ w => w |} in
  let w := cpad_MBRTUInit 1 w_zero in
  let after f := cpad_MBPoll (bytes_arrive f w) in
  quiet w (after ([] ++ 0x02 :: [0x03; 0x00; 0x00; 0x00; 0x0A; 0xC5; 0xCD])) /\
  link_idle (cpad_MBPoll (TIM5_IRQHandler (after ([0x01] ++ 0x10 :: [0x00; 0x00; 0x00; 0x0A; 0xC5; 0xCD])))) /\
  link_idle (after ([0x01; 0x03; 0x00] ++ 0x08 :: [0x00; 0x0A; 0xC5; 0xCD])).
Proof.
  intros T w after.
  assert (I : link_idle w) by (apply cpad_init_idle; reflexivity).
  assert (M : modbus_selected w) by (vm_compute; reflexivity).
  assert (B : forall l, forallb (fun b => (0 <=? b) && (b <? 256)) l = true -> bytes l).
  { intros l H. apply List.Forall_forall. intros b Hb. rewrite forallb_forall in H. specialize (H b Hb). unfold byte. lia. }
  split; [|split].
  - destruct (@corrupted_frame_ignored T w 1 [] 0x01 0x02 [0x03; 0x00; 0x00; 0x00; 0x0A; 0xC5; 0xCD]) as [H _];
      [by apply B|unfold byte; lia|unfold byte; lia|by apply B|lia|vm_compute; reflexivity|exact I|exact M|vm_compute; reflexivity|].
    destruct H as [H _]; [vm_compute; reflexivity..|exact H].
  - destruct (@corrupted_frame_ignored T w 1 [0x01] 0x03 0x10 [0x00; 0x00; 0x00; 0x0A; 0xC5; 0xCD]) as [H _];
      [by apply B|unfold byte; lia|unfold byte; lia|by apply B|lia|vm_compute; reflexivity|exact I|exact M|vm_compute; reflexivity|].
    destruct H as [_ H]; [vm_compute; reflexivity..|]. destruct (H eq_refl) as [_ H']. exact H'.
  - destruct (@corrupted_frame_ignored T w 1 [0x01; 0x03; 0x00] 0x00 0x08 [0x00; 0x0A; 0xC5; 0xCD]) as [_ H];
      [by apply B|unfold byte; lia|unfold byte; lia|by apply B|lia|vm_compute; reflexivity|exact I|exact M|vm_compute; reflexivity|].
    destruct H as [_ H]; [|reflexivity|exact H]. split; [by apply B|]. split; [vm_compute; discriminate|reflexivity].
Defined.

(** ** A multiple write *)

Lemma store_keep p v c : p <> Some c -> respc (keep (fun w => w⟪c⟫)) (store p v).
Proof.
  intros Hne. destruct p as [d|]; cbn [store]; [|apply resp_skip; typeclasses eauto].
  apply keep_rd_assign. destruct (cell_eqb d c) eqn:E; [|exact E]. apply cell_eqb_spec in E as ->. done.
Qed.

(** The registers [r + i] for [i] in [js] receive what the frame holds for them. *)
Definition store_words {T : beyond_table} (r off : Z) (js : list Z) : cmd :=
  forc js (fun i => LET cmd_value := rx_word (off + 2 * i) IN store_reg (r + i) cmd_value).

Lemma store_words_foot {T : beyond_table} r off js i :
  (forall k, k ∈ js -> 0 <= r + k < CONF_REG_MAP_NUM) ->
  respc (keep (fun w => w⟪cpad_rxbuf.[i]⟫)) (store_words r off js).
Proof.
  intros Hj. unfold store_words. apply resp_for; [typeclasses eauto|]. intros j H%Hj.
  apply resp_let; intros v. unfold store_reg, in_table.
  rewrite (proj2 (Z.leb_le 0 _)), (proj2 (Z.ltb_lt _ 435)) by lia. cbn [andb].
  apply store_keep. intros E. pose proof (conf_off_link (r + j) H) as O. rewrite E in O. discriminate.
Qed.

Lemma store_words_keep {T : beyond_table} r off js c :
  (forall k, k ∈ js -> 0 <= r + k < CONF_REG_MAP_NUM) -> (forall k, k ∈ js -> reg_ptr (conf_reg (r + k)) <> Some c) ->
  respc (keep (fun w => w⟪c⟫)) (store_words r off js).
Proof.
  intros Hj Hc. unfold store_words. apply resp_for; [typeclasses eauto|]. intros j H.
  apply resp_let; intros v. unfold store_reg, in_table. specialize (Hj j H).
  rewrite (proj2 (Z.leb_le 0 _)), (proj2 (Z.ltb_lt _ 435)) by lia. by apply store_keep, Hc.
Qed.

Lemma store_words_stores {T : beyond_table} r off js w j c :
  (forall k, k ∈ js -> 0 <= r + k < CONF_REG_MAP_NUM) -> NoDup js -> j ∈ js -> reg_ptr (conf_reg (r + j)) = Some c ->
  (store_words r off js w)⟪c⟫ = cast (fty (fld c)) (@rx_word w (off + 2 * j)).
Proof.
  revert w. induction js as [|k js IH]; intros w Hr Hnd Hj Hc; [set_solver|].
  inversion_clear Hnd as [|? ? Hk Hnd'].
  change (store_words r off (k :: js) w) with (store_words r off js (store_words r off [k] w)).
  destruct (decide (j = k)) as [->|Hne].
  - rewrite (keep_rd (store_words r off js)).
    2: { apply store_words_keep; [set_solver|]. intros i Hi Hic. apply Hk.
         assert (r + k = r + i) by (eapply conf_reg_inj; eauto; apply Hr; set_solver). by replace k with i by lia. }
    assert (0 <= r + k < 435) as H by (apply Hr; set_solver).
    unfold store_words, forc, letc, store_reg, in_table. cbn [foldl].
    rewrite (proj2 (Z.leb_le 0 _)), (proj2 (Z.ltb_lt _ 435)) by lia. cbn [andb]. rewrite Hc. apply rd_assign_same.
  - rewrite IH; [|set_solver..|done]. unfold rx_word.
    assert (Hs : forall k', k' ∈ [k] -> 0 <= r + k' < 435) by set_solver.
    by rewrite !(keep_rd (store_words r off [k])) by (by apply store_words_foot).
Qed.

(** A multiple write is not validated.  For every group of registers of the table (other than
    one starting at the WiFi password) the handler reports success and every register's object
    holds the word of the frame, whatever the register's limits, its access rights and its
    consistency check say; the frame may even address a read-only register. *)
Theorem multiple_write_unchecked {T : beyond_table} w r n i c :
  0 <= r -> 1 <= n <= 100 -> r + n <= CONF_REG_MAP_NUM -> r <> EE_WIFI_PASSWORD ->
  0 <= i < n -> reg_ptr (conf_reg (r + i)) = Some c ->
  let (e, w') := cpad_eMBRegHoldingCB 7 (r + CONFIG_REG_MAP_OFFSET) n CPAD_MB_REG_MULTIPLE_WRITE w in
  e = MB_ENOERR /\ w'⟪c⟫ = cast (fty (fld c)) (@rx_word w (7 + 2 * i)).
Proof.
  intros Hr Hn Hle Hne Hi Hc. unfold cpad_eMBRegHoldingCB.
  rewrite (proj2 (Z.leb_le _ (r + 64))), (proj2 (Z.leb_le (r + 64 + n) _)) by lia. cbn [andb Z.eqb Pos.eqb].
  unfold multiple_write. rewrite (proj2 (Z.ltb_lt 0 n)), (proj2 (Z.leb_le n 100)) by lia. cbn [andb].
  rewrite (proj2 (Z.leb_le (r + 64 + n) _)) by lia. rewrite (proj2 (Z.leb_le _ (r + 64 + n))) by lia.
  replace (r + 64 - 64) with r by lia. rewrite (proj2 (Z.eqb_neq _ _) Hne). unfold seqc, reta, skip. split; [done|].
  assert (Hpl : plain_cell c = true) by (apply (conf_reg_plain (r + i)); [lia|done]).
  change (foldl _ w _) with (store_words r 7 (range n) w). fold (store_words r 7 (range n)).
  rewrite (keep_rd (runc (save_conf_reg 0))) by (apply resp_run; eapply keep_plain; [done|apply save_conf_reg_foot|done]).
  apply store_words_stores; [|apply NoDup_seqZ|by apply elem_of_range|done].
  intros k Hk%elem_of_range. lia.
Qed.

(** The compressor's start-up delay receives 65535; its limit is 600. *)
Lemma multiple_write_unchecked_witness :
  let T : beyond_table := {| beyond_id := fun _ => 0; beyond_store := fun _ _ w => w |} in
  let w := poke [(cpad_rxbuf.[7], 0xFF); (cpad_rxbuf.[8], 0xFF)] w_zero in
  (cpad_eMBRegHoldingCB 7 (22 + 64) 1 CPAD_MB_REG_MULTIPLE_WRITE w).2⟪compressor_startup_delay⟫ = 65535 /\
  max_ (conf_reg 22) = 600.
Proof.
  intros T w. pose proof (@multiple_write_unchecked T w 22 1 0 compressor_startup_delay) as H.
  destruct (cpad_eMBRegHoldingCB _ _ _ _ w) as [e w']. cbn [snd]. split; [|reflexivity].
  rewrite (proj2 (H ltac:(lia) ltac:(lia) ltac:(lia) ltac:(lia) ltac:(lia) ltac:(vm_compute; reflexivity))).
  vm_compute. reflexivity.
Defined.
