(* ===== verification/Network.v ===== *)
(** * Messages of the cloud connection: TQ01_net/network.c

    The unit reports its registers to an IoT platform in signed JSON messages and takes new
    settings from it.  A JSON document is a value of type [json]; its text form is the work of the
    cJSON package.  Names and texts are lists of characters ([Format]); an access through a null
    pointer is [None].

    What is handed to [cpad_eMBRegHoldingCB] for a write is returned as a [request]; ModbusRegs.v
    models what that function does with it.  Memory the C library allocates succeeds (cJSON ignores
    failures); [rt_calloc] may fail. *)

From S2P Require Import Prelude Conf Format Md5 Calendar Machine GlobalVar ModbusRegs.
From Stdlib Require Import Ascii String.

#[local] Abbreviation length := Datatypes.length.
#[local] Abbreviation concat := List.concat.
#[local] Open Scope Z_scope.

Abbreviation MCode_QRCODE_GENERATE := 2.
Abbreviation MCode_PARAMETER_SET := 5.
Abbreviation MCode_PARAMETER_GET := 6.
Abbreviation REALTIME_REPORT := 3.
Abbreviation TIMING_REPORT := 4.
Abbreviation IOT_SID_FLAG := 0xA5A5.
Abbreviation TIMING_INTERVAL_MIN := 60.
Abbreviation TIMING_INTERVAL_MAX := 60000.
Abbreviation REALTIME_INTERVAL_MIN := 5.
Abbreviation REALTIME_INTERVAL_MAX := 1000.

(** ** Texts *)

(** The characters before the first zero. *)
Fixpoint cstr (l : list Z) : list Z :=
  match l with [] => [] | c :: l => if c =? 0 then [] else c :: cstr l end.

(** The text [rt_snprintf] leaves; all calls below pass arguments that fit the format. *)
Definition rt_snprintf (size : Z) (fmt : string) (args : list arg) : list Z :=
  default [] (snd <$> rt_vsnprintf size (chars fmt) args).

Definition text (s : list Z) : arg := Str (Some s).

(** The loops that store two characters for each byte. *)
Definition hex_text (l : list Z) : list Z := concat ((fun v => [utils_hb2hex (u8 (v .>> 4)); utils_hb2hex v]) <$> l).

(** ** JSON values *)

#[warnings="-register-all"]
Inductive json : Type := JStr (s : list Z) | JNum (n : Z) | JObj (items : list (string * json)).

Definition add (name : string) (v : json) (items : list (string * json)) : list (string * json) := items ++ [(name, v)].
Definition cJSON_AddStringToObject (name : string) (s : list Z) := add name (JStr s).

Definition valuestring (j : json) : option (list Z) := match j with JStr s => Some s | _ => None end.
Definition valueint (j : json) : Z := match j with JNum n => n | _ => 0 end.

Definition tolower (a : ascii) : ascii :=
  let n := nat_of_ascii a in if (65 <=? n)%nat && (n <=? 90)%nat then ascii_of_nat (n + 32) else a.

Fixpoint same_name (a b : string) : bool :=
  match a, b with
  | EmptyString, EmptyString => true
  | String c a, String d b => Ascii.eqb (tolower c) (tolower d) && same_name a b
  | _, _ => false
  end.

(** [cJSON_GetObjectItem]: the first item with this name, in any case of letters. *)
Definition cJSON_GetObjectItem (j : json) (name : string) : option json :=
  match j with JObj items => snd <$> find (fun p => same_name name p.1) items | _ => None end.

(** ** The device's identity

    [iotx_device_info_t] as its 186 bytes: the flag, then the texts. *)

Definition info_flag (d : list Z) : Z := nth 0 d 0 + 256 * nth 1 d 0.
Definition device_name (d : list Z) : list Z := cstr (drop 2 d).
Definition product_key (d : list Z) : list Z := cstr (drop 35 d).
Definition device_secret (d : list Z) : list Z := cstr (drop 56 d).
Definition device_id (d : list Z) : list Z := cstr (drop 121 d).

(** The bytes of an array of registers in memory. *)
Definition register_bytes (regs : list Z) : list Z := concat (le16 <$> regs).

(** [Conversion_modbus_2_ram]: [len / 2] times, the two bytes of a register are exchanged. *)
Fixpoint swap_pairs (n : nat) (src : list Z) : list Z :=
  match n, src with
  | S n, a :: b :: src => b :: a :: swap_pairs n src
  | _, _ => []
  end.

Definition Conversion_modbus_2_ram (dst src : list Z) (len : Z) : list Z :=
  memcpy dst 0 (swap_pairs (Z.to_nat (len / 2)) src).

(** ** Reports *)

Definition network_get_interval {w : cur} : Z * Z :=
  let interval_temp := u32 («Platform_Fixed_Report» * 60) in
  let interval_temp := if TIMING_INTERVAL_MAX <? interval_temp then TIMING_INTERVAL_MAX else interval_temp in
  let timing := if interval_temp <? TIMING_INTERVAL_MIN then TIMING_INTERVAL_MIN else interval_temp in
  let interval_temp := «Platform_Real_Report» in
  let interval_temp := if REALTIME_INTERVAL_MAX <? interval_temp then REALTIME_INTERVAL_MAX else interval_temp in
  let real := if interval_temp <? REALTIME_INTERVAL_MIN then REALTIME_INTERVAL_MIN else interval_temp in
  (real, timing).

(** [mqtt_client_packet_id]: the number and the static [id] afterwards. *)
Definition mqtt_client_packet_id (id : Z) : Z * Z :=
  let id := if id <? 1 then 1 else id in (id, u16 (id + 1)).

(** The time stamp; [now] is [g_sys.status.ComSta.Sys_Time.u32Systime]. *)
Definition Timestamp_str (now : Z) : list Z :=
  match gmtime_r now with
  | Some ti => rt_snprintf 15 "%04d%02d%02d%02d%02d%02d"
      [Int (tm_year ti + 1900); Int (tm_mon ti + 1); Int (tm_mday ti); Int (tm_hour ti); Int (tm_min ti); Int (tm_sec ti)]
  | None => []
  end.

(** [cpad_eMBRegHoldingCB(buf, addr, n, CPAD_MB_REG_READ)]: the bytes left in [buf]. *)
Definition read_holding {w : cur} (addr n : Z) : list Z :=
  concat ((fun k => [u8 (mbs_read_reg (u16 (addr + k)) .>> 8); u8 (mbs_read_reg (u16 (addr + k)) .& 0xFF)]) <$> range n).

Definition network_Serialize_init_json (info : list Z) (id now : Z) : json * Z :=
  let PRODUCT_KEY := product_key info in
  let DEVICE_NAME := device_name info in
  let '(msgid, id) := mqtt_client_packet_id id in
  let root := cJSON_AddStringToObject "MCode" (chars "001") [] in
  let RequestNoStr := rt_snprintf 10 "%d" [Int msgid] in
  let root := cJSON_AddStringToObject "RequestNo" RequestNoStr root in
  let root := cJSON_AddStringToObject "ProductKey" PRODUCT_KEY root in
  let root := cJSON_AddStringToObject "DeviceName" DEVICE_NAME root in
  let Timestamp_str := Timestamp_str now in
  let root := cJSON_AddStringToObject "Timestamp" Timestamp_str root in
  let sign_hex := rt_snprintf 128 "DeviceName=%s&MCode=001&ProductKey=%s&RequestNo=%s&Timestamp=%s&Key=123456"
    [text DEVICE_NAME; text PRODUCT_KEY; text RequestNoStr; text Timestamp_str] in
  let sign_hex := hex_text (utils_md5 sign_hex) in
  (JObj (cJSON_AddStringToObject "Sign" sign_hex root), id).

Definition network_Serialize_inform_json : json :=
  let versiontemp := rt_snprintf 10 "%02d.%02d.%02d" [Int 2; Int 2; Int 26] in
  JObj (add "params" (JObj (cJSON_AddStringToObject "version" versiontemp [])) (cJSON_AddStringToObject "id" (chars "1") [])).

Definition network_Serialize_para_json {w : cur} (info : list Z) (id now : Z) : json * Z :=
  let PRODUCT_KEY := product_key info in
  let DEVICE_NAME := device_name info in
  let '(msgid, id) := mqtt_client_packet_id id in
  let root := cJSON_AddStringToObject "MCode" (chars "007") [] in
  let root := cJSON_AddStringToObject "RequestNo" (rt_snprintf 10 "%d" [Int msgid]) root in
  let Timestamp_str := Timestamp_str now in
  let root := cJSON_AddStringToObject "Timestamp" Timestamp_str root in
  let root := cJSON_AddStringToObject "Settingversion" Timestamp_str root in
  let root := cJSON_AddStringToObject "Setaddrstart" (chars "100") root in
  let StrCache := hex_text (read_holding 100 80) in
  let root := cJSON_AddStringToObject "Settingmsg" StrCache root in
  let root := cJSON_AddStringToObject "Settingleng" (chars "80") root in
  let root := cJSON_AddStringToObject "ProductKey" PRODUCT_KEY root in
  let root := cJSON_AddStringToObject "DeviceName" DEVICE_NAME root in
  let sign_Cache := rt_snprintf 800 "DeviceName=%s&MCode=007&ProductKey=%s&RequestNo=%d&Setaddrstart=100&Settingleng=80&Settingmsg=%s&Settingversion=%s&Timestamp=%s&Key=123456"
    [text DEVICE_NAME; text PRODUCT_KEY; Int msgid; text StrCache; text Timestamp_str; text Timestamp_str] in
  let sign_hex := hex_text (utils_md5 sign_Cache) in
  (JObj (cJSON_AddStringToObject "Sign" sign_hex root), id).

Definition network_Serialize_report_json {w : cur} (topic_type : Z) (info : list Z) (id now : Z) : json * Z :=
  let PRODUCT_KEY := product_key info in
  let DEVICE_NAME := device_name info in
  let real := topic_type =? REALTIME_REPORT in
  let root := cJSON_AddStringToObject "DeviceName" DEVICE_NAME [] in
  let root := cJSON_AddStringToObject "ProductKey" PRODUCT_KEY root in
  let root := if real then cJSON_AddStringToObject "MCode" (chars "008") root
              else cJSON_AddStringToObject "MCode" (chars "009") root in
  let '(msgid, id) := mqtt_client_packet_id id in
  let root := cJSON_AddStringToObject "RequestNo" (rt_snprintf 10 "%d" [Int msgid]) root in
  let Timestamp_str := Timestamp_str now in
  let root := cJSON_AddStringToObject "Timestamp" Timestamp_str root in
  let root := if real then cJSON_AddStringToObject "Statusaddrstart" (chars "502") root
              else cJSON_AddStringToObject "Statusaddrstart" (chars "500") root in
  let StrCache := if real then hex_text (read_holding 502 18) else hex_text (read_holding 500 50) in
  let root := cJSON_AddStringToObject "Statusmsg" StrCache root in
  let root := if real then cJSON_AddStringToObject "Statusleng" (chars "18") root
              else cJSON_AddStringToObject "Statusleng" (chars "50") root in
  let sign_Cache :=
    if real then rt_snprintf 800 "DeviceName=%s&MCode=008&ProductKey=%s&RequestNo=%d&Statusaddrstart=502&Statusleng=18&Statusmsg=%s&Timestamp=%s&Key=123456"
      [text DEVICE_NAME; text PRODUCT_KEY; Int msgid; text StrCache; text Timestamp_str]
    else rt_snprintf 800 "DeviceName=%s&MCode=009&ProductKey=%s&RequestNo=%d&Statusaddrstart=500&Statusleng=50&Statusmsg=%s&Timestamp=%s&Key=123456"
      [text DEVICE_NAME; text PRODUCT_KEY; Int msgid; text StrCache; text Timestamp_str] in
  let sign_hex := hex_text (utils_md5 sign_Cache) in
  (JObj (cJSON_AddStringToObject "Sign" sign_hex root), id).

(** ** Messages from the platform *)

Definition isspace (c : Z) : bool := (c =? 32) || ((9 <=? c) && (c <=? 13)).

Fixpoint skip_space (s : list Z) : list Z :=
  match s with c :: s' => if isspace c then skip_space s' else s | [] => [] end.

Definition take_sign (s : list Z) : bool * list Z :=
  match s with c :: s' => if c =? 45 then (true, s') else if c =? 43 then (false, s') else (false, s) | [] => (false, []) end.

Definition digit_of (base c : Z) : option Z :=
  let d := if (48 <=? c) && (c <=? 57) then c - 48
           else if (97 <=? c) && (c <=? 102) then c - 87
           else if (65 <=? c) && (c <=? 70) then c - 55 else 99 in
  if d <? base then Some d else None.

(** The number at the start of [s]; [None] without a digit. *)
Fixpoint leading_number (base : Z) (s : list Z) (acc : option Z) : option Z :=
  match s with
  | c :: s' => match digit_of base c with Some d => leading_number base s' (Some (default 0 acc * base + d)) | None => acc end
  | [] => acc
  end.

(** [sscanf(s, "%d", &old)]: [old] is left alone when there is no number.  Numbers outside the range
    of an [int], for which C leaves the result open, wrap around here. *)
Definition sscanf_d (s : list Z) (old : Z) : Z :=
  let '(neg, s) := take_sign (skip_space s) in
  match leading_number 10 s None with Some v => s32 (if neg : bool then - v else v) | None => old end.

(** [sscanf(s, "%02X", &old)]: at most two characters, a prefix [0x] may come first. *)
Definition sscanf_02X (s : list Z) (old : Z) : Z :=
  let '(neg, s) := take_sign (take 2 (skip_space s)) in
  let s := match s with 48 :: c :: s' => if (c =? 120) || (c =? 88) then s' else s | _ => s end in
  match leading_number 16 s None with Some v => s32 (if neg : bool then - v else v) | None => old end.

(** What local variables hold before they are assigned. *)
Class uninitialised : Type := { MCode_0 : Z; Setaddrstart_0 : Z; Settingleng_0 : Z; Settingmsg_data_0 : Z; rc_0 : Z }.

(** A write of registers: address, number, bytes. *)
Record request : Type := Request { usAddress : Z; usNRegs : Z; pucRegBuffer : list Z }.

(** The results of the parsers; the outer [None]: an access through a null pointer.  [root] is what
    [cJSON_Parse] makes of the text. *)
Definition network_water_notice_parse (root : option json) : option Z :=
  match root with
  | None => Some (-1)
  | Some root =>
      match cJSON_GetObjectItem root "MCode" with
      | None => Some (-1)
      | Some js_MCode => _ ← valuestring js_MCode; Some 0
      end
  end.

Definition network_parameter_get_parse (root : option json) : option Z :=
  match root with
  | None => Some (-1)
  | Some root => js_MCode ← cJSON_GetObjectItem root "MCode"; _ ← valuestring js_MCode; Some 0
  end.

(** [for (i = 0; i < Settingleng * 2; i++)]; the variable keeps its value where there is no number. *)
Fixpoint setting_bytes (n i : nat) (Settingmsg_str : list Z) (Settingmsg_data : Z) : list Z :=
  match n with
  | O => []
  | S n =>
      let d := sscanf_02X (cstr (drop (2 * i) Settingmsg_str)) Settingmsg_data in
      u8 (d .& 0xFF) :: setting_bytes n (S i) Settingmsg_str d
  end.

(** [rt_strncpy] into [n + 1] zeroed bytes. *)
Definition strncpy0 (src : list Z) (n : nat) : list Z := let s := take n src in s ++ repeat 0 (n + 1 - length s)%nat.

(** [alloc n] tells whether [rt_calloc] finds [n] bytes. *)
Definition network_parameter_set_parse {U : uninitialised} (alloc : Z -> bool) (root : option json) :
    option (Z * option request) :=
  match root with
  | None => Some (-1, None)
  | Some root =>
      js_MCode ← cJSON_GetObjectItem root "MCode";
      s ← valuestring js_MCode;
      if sscanf_d s MCode_0 =? MCode_PARAMETER_SET then
        js_Setaddrstart ← cJSON_GetObjectItem root "Setaddrstart";
        s ← valuestring js_Setaddrstart;
        let Setaddrstart := sscanf_d s Setaddrstart_0 in
        js_Settingleng ← cJSON_GetObjectItem root "Settingleng";
        s ← valuestring js_Settingleng;
        let Settingleng := sscanf_d s Settingleng_0 in
        match cJSON_GetObjectItem root "Settingmsg", alloc (u32 (Settingleng * 4 + 1)) with
        | Some js_Settingmsg, true =>
            Settingmsg_str ←
              (if u32 (Settingleng * 4) =? 0 then Some [0]
               else msg ← valuestring js_Settingmsg; Some (strncpy0 msg (Z.to_nat (u32 (Settingleng * 4)))));
            if alloc (u32 (Settingleng * 2)) || (Settingleng * 2 <=? 0) then
              let buf := setting_bytes (Z.to_nat (Settingleng * 2)) 0 Settingmsg_str Settingmsg_data_0 in
              Some (0, Some (Request (u16 Setaddrstart) (u16 Settingleng) buf))
            else None
        | _, _ => Some (0, None)
        end
      else Some (-1, None)
  end.

(** [rt_snprintf(field, size, "%s", s)] into a field of the record. *)
Definition put_field (d : list Z) (at_ : nat) (size : Z) (s : list Z) : list Z :=
  memcpy d at_ (rt_snprintf size "%s" [text s] ++ [0]).

(** The result and the record of the device. *)
Definition network_register_parse {U : uninitialised} (root : option json) (dev_info : list Z) : option (Z * list Z) :=
  match root with
  | None => Some (-1, dev_info)
  | Some root =>
      match cJSON_GetObjectItem root "code", cJSON_GetObjectItem root "message" with
      | Some js_Code, Some _ =>
          if valueint js_Code =? 200 then
            match cJSON_GetObjectItem root "data" with
            | None => Some (-1, dev_info)
            | Some js_Data =>
                match cJSON_GetObjectItem js_Data "deviceName", cJSON_GetObjectItem js_Data "deviceSecret",
                      cJSON_GetObjectItem js_Data "productKey" with
                | Some n, Some s, Some k =>
                    let str j := default (chars "(NULL)") (valuestring j) in
                    let d := repeat 0 186%nat in
                    let d := put_field d 2 33 (str n) in
                    let d := put_field d 35 21 (str k) in
                    let d := put_field d 56 65 (str s) in
                    let d := put_field d 121 65 (chars "cdtest0041") in
                    Some (rc_0, memcpy d 0 (le16 IOT_SID_FLAG))
                | _, _, _ => Some (-1, dev_info)
                end
            end
          else Some (-1, dev_info)
      | _, _ => Some (-1, dev_info)
      end
  end.

(** ** Signatures *)

(** The rule of the platform: "name=value" for all fields but the signature in the order of their
    names, joined with "&", then the key. *)
Fixpoint insert_field (p : string * json) (l : list (string * json)) : list (string * json) :=
  match l with
  | [] => [p]
  | q :: l' => if String.leb p.1 q.1 then p :: l else q :: insert_field p l'
  end.

Definition by_name (l : list (string * json)) : list (string * json) := foldr insert_field [] l.

Definition signed_text (l : list (string * json)) : list Z :=
  concat ((fun p => chars p.1 ++ chars "=" ++ default [] (valuestring p.2) ++ chars "&") <$> by_name l) ++ chars "Key=123456".

Lemma hex_text_spec l : bytes l -> hex_text l = hex l.
Proof.
  intros Hl. unfold hex_text, hex. f_equal. apply list_fmap_ext. intros i v Hv.
  assert (byte v) as Hb by (eapply Forall_lookup_1; [exact Hl|exact Hv]). unfold byte in Hb.
  rewrite Z.shiftr_div_pow2 by lia. change (2 ^ 4) with 16.
  assert (0 <= v / 16 < 16) by (Z.div_mod_to_equations; lia).
  rewrite !hb2hex_spec, (u8_small (v / 16)), (Z.mod_small (v / 16)) by lia. done.
Qed.

Lemma utils_md5_spec m : bytes m -> Z.of_nat (length m) < 4294967296 -> utils_md5 m = Rfc.md5 m.
Proof.
  intros Hm Hl. unfold utils_md5. apply finish_rep. apply (utils_md5_update_rep _ []); [by apply rep_starts|done..].
Qed.

Lemma snprintf_text ps size fmt args out :
  chars fmt = concat (show <$> ps) -> Forall piece_ok ps -> 1 <= size < 4294967295 -> render ps args = Some out ->
  rt_snprintf size fmt args = take (Z.to_nat (size - 1)) out.
Proof.
  intros E Hok Hs Hr. unfold rt_snprintf, rt_vsnprintf, buffer_end. rewrite E.
  destruct (Z.eqb_spec size 0), (Z.eqb_spec size 4294967295); try lia. cbn [orb].
  rewrite (format_pieces ps args _ _ [] out Hok (Nat.lt_succ_diag_r _) Hr). cbn [mbind option_bind app fmap option_fmap option_map snd default].
  destruct (Z.leb_spec (Z.of_nat (length out)) (size - 1)); [|done]. by rewrite take_ge by lia.
Qed.

Lemma snprintf_whole ps size fmt args out :
  chars fmt = concat (show <$> ps) -> Forall piece_ok ps -> 1 <= size < 4294967295 -> render ps args = Some out ->
  Z.of_nat (length out) <= size - 1 -> rt_snprintf size fmt args = out.
Proof. intros E Hok Hs Hr Hl. rewrite (snprintf_text ps size fmt args out) by done. apply take_ge. lia. Qed.

Lemma chars_bytes s : bytes (chars s).
Proof.
  unfold chars. induction (list_ascii_of_string s) as [|a l IH]; [constructor|]. constructor; [|done].
  pose proof (nat_ascii_bounded a). unfold byte. lia.
Qed.

Lemma decimal_bytes n : 0 <= n < 2147483648 -> bytes (decimal n).
Proof. intros Hn. eapply Forall_impl; [|exact (proj1 (proj2 (decimal_spec n Hn)))]. unfold byte. cbn. lia. Qed.

Lemma zero_padded_bytes w n : 0 <= n < 2147483648 -> bytes (zero_padded w n).
Proof.
  intros Hn. unfold zero_padded. case_match; [|by apply decimal_bytes].
  eapply Forall_impl; [|apply places_digits]. unfold byte. cbn. lia.
Qed.

Lemma hex_digit_byte d : byte (hex_digit d).
Proof. unfold hex_digit. apply (nth_byte _ _ (chars_bytes "0123456789abcdef")). Qed.

Lemma hex_text_bytes l : bytes (hex_text l).
Proof.
  unfold hex_text. induction l as [|v l IH]; [constructor|]. cbn [fmap list_fmap List.concat].
  rewrite !hb2hex_spec. repeat constructor; try apply hex_digit_byte. exact IH.
Qed.

Lemma hex_text_length l : length (hex_text l) = (2 * length l)%nat.
Proof. unfold hex_text. induction l as [|v l IH]; [done|]. cbn. rewrite IH. lia. Qed.

Lemma cstr_bytes l : bytes l -> bytes (cstr l).
Proof. induction 1 as [|c l Hc _ IH]; [constructor|]. cbn. case_match; [constructor|]. by constructor. Qed.

Lemma bytes_nil : bytes [].
Proof. constructor. Qed.

Create HintDb bytes.
#[export] Hint Resolve bytes_nil : bytes.
#[export] Hint Resolve chars_bytes decimal_bytes zero_padded_bytes hex_text_bytes cstr_bytes bytes_app bytes_drop : bytes.

Lemma bytes_cons c l : byte c -> bytes l -> bytes (c :: l).
Proof. intros. by constructor. Qed.

Ltac solve_bytes :=
  repeat match goal with
    | |- bytes (_ ++ _) => apply bytes_app
    | |- bytes (_ :: _) => apply bytes_cons; [done|]
    end; auto with bytes.

Lemma read_holding_length {w : cur} addr n : 0 <= n -> length (read_holding addr n) = (2 * Z.to_nat n)%nat.
Proof.
  intros Hn. unfold read_holding, range. transitivity (2 * length (seqZ 0 n))%nat; [|by rewrite length_seqZ].
  induction (seqZ 0 n) as [|k l IH]; [done|]. cbn. rewrite IH. lia.
Qed.

Lemma packet_id_range id : 0 <= id < 65536 -> 1 <= (mqtt_client_packet_id id).1 < 65536.
Proof. intros H. unfold mqtt_client_packet_id. cbn. destruct (Z.ltb_spec id 1); lia. Qed.

Lemma packet_id_text n : 1 <= n < 65536 ->
  rt_snprintf 10 "%d" [Int n] = decimal n /\ Z.of_nat (length (decimal n)) <= 5.
Proof.
  intros Hn. destruct (decimal_spec n ltac:(lia)) as (_ & _ & L). specialize (L 5 ltac:(lia) ltac:(lia)). split; [|exact L].
  rewrite (snprintf_text [PDec] 10 "%d" _ (decimal n ++ [])).
  - rewrite app_nil_r. apply take_ge. lia.
  - reflexivity.
  - repeat constructor.
  - lia.
  - by rewrite render_number by lia.
Qed.

Lemma timestamp_spec now : 0 <= now < 4294967296 -> bytes (Timestamp_str now) /\ length (Timestamp_str now) = 14%nat.
Proof.
  intros Hn. destruct (gmtime_r_spec now Hn) as (t & E & _ & Hs & Hm & Hh & Hd & Hmon & _ & Hy).
  specialize (Hy 1970 2107 ltac:(lia)). 
  assert (1970 <= tm_year t + 1900 < 2107) as Hy'
    by (apply Hy; change (SPD * year_days 1970) with 0; change (SPD * year_days 2107) with 4323283200; lia). clear Hy.
  unfold Timestamp_str. rewrite E.
  set (ns := [tm_year t + 1900; tm_mon t + 1; tm_mday t; tm_hour t; tm_min t; tm_sec t]).
  assert (forall w n, 0 < w -> 0 <= n < 10 ^ w -> n < 2147483648 ->
    bytes (zero_padded w n) /\ Z.of_nat (length (zero_padded w n)) = w) as K.
  { intros w n Hw Hp Hb. split; [apply zero_padded_bytes; lia|]. apply zero_padded_spec; lia. }
  destruct (K 4 (tm_year t + 1900)) as [B1 L1]; [lia..|]. destruct (K 2 (tm_mon t + 1)) as [B2 L2]; [lia..|].
  destruct (K 2 (tm_mday t)) as [B3 L3]; [lia..|]. destruct (K 2 (tm_hour t)) as [B4 L4]; [lia..|].
  destruct (K 2 (tm_min t)) as [B5 L5]; [lia..|]. destruct (K 2 (tm_sec t)) as [B6 L6]; [lia..|].
  rewrite (snprintf_text [PPad 4; PPad 2; PPad 2; PPad 2; PPad 2; PPad 2] 15 _ _
    (zero_padded 4 (tm_year t + 1900) ++ zero_padded 2 (tm_mon t + 1) ++ zero_padded 2 (tm_mday t) ++
     zero_padded 2 (tm_hour t) ++ zero_padded 2 (tm_min t) ++ zero_padded 2 (tm_sec t) ++ [])); cycle 1.
  { reflexivity. }
  { repeat constructor; lia. }
  { lia. }
  { cbn [render]. repeat match goal with |- context [(0 <=? ?n) && (?n <? 2147483648)] =>
      replace ((0 <=? n) && (n <? 2147483648)) with true by lia end. reflexivity. }
  rewrite take_ge by (rewrite !length_app; cbn; lia).
  split; [solve_bytes|rewrite !length_app; cbn; lia].
Qed.

(** A document whose last field is the platform's signature of the others. *)
Definition signed (doc : json) : Prop :=
  exists fields, doc = JObj (fields ++ [("Sign"%string, JStr (hex (Rfc.md5 (signed_text fields))))]).

Lemma signature_of size fmt ps args out fields :
  chars fmt = concat (show <$> ps) -> Forall piece_ok ps -> render ps args = Some out ->
  1 <= size < 4294967295 -> out = signed_text fields -> bytes out -> Z.of_nat (length out) <= size - 1 ->
  signed (JObj (cJSON_AddStringToObject "Sign" (hex_text (utils_md5 (rt_snprintf size fmt args))) fields)).
Proof.
  intros E Hok Hr Hs Ho Hb Hl. exists fields. unfold cJSON_AddStringToObject, add. do 4 f_equal.
  rewrite (snprintf_text ps size fmt args out) by done. rewrite take_ge by lia.
  rewrite utils_md5_spec by (done || lia). rewrite hex_text_spec by apply md5_bytes. by rewrite Ho.
Qed.

(** A field in the format of the signed text. *)
Definition field_pieces (name : string) (v : piece) : list piece := [Text (chars name); Text [61]; v; Text [38]].

Lemma Text_ok l : (forallb (fun c => negb (c =? 37)) l) = true -> piece_ok (Text l).
Proof.
  intros H Hin. apply list_elem_of_In in Hin. rewrite forallb_forall in H. specialize (H _ Hin). done.
Qed.

Ltac pieces_ok := repeat (constructor; [first [exact I | apply Text_ok; vm_compute; reflexivity]|]); constructor.

Lemma render_dec m ps args out : 1 <= m < 65536 -> render ps args = Some out ->
  render (PDec :: ps) (Int m :: args) = Some (decimal m ++ out).
Proof.
  intros Hm Hr. by rewrite render_number, Hr by lia.
Qed.

#[local] Open Scope string_scope.

Lemma init_order a b c d e :
  by_name [("MCode", a); ("RequestNo", b); ("ProductKey", c); ("DeviceName", d); ("Timestamp", e)] =
  [("DeviceName", d); ("MCode", a); ("ProductKey", c); ("RequestNo", b); ("Timestamp", e)].
Proof. reflexivity. Qed.

Lemma para_order a b c d e f g h i :
  by_name [("MCode", a); ("RequestNo", b); ("Timestamp", c); ("Settingversion", d); ("Setaddrstart", e);
    ("Settingmsg", f); ("Settingleng", g); ("ProductKey", h); ("DeviceName", i)] =
  [("DeviceName", i); ("MCode", a); ("ProductKey", h); ("RequestNo", b); ("Setaddrstart", e); ("Settingleng", g);
    ("Settingmsg", f); ("Settingversion", d); ("Timestamp", c)].
Proof. reflexivity. Qed.

Lemma report_order a b c d e f g h :
  by_name [("DeviceName", a); ("ProductKey", b); ("MCode", c); ("RequestNo", d); ("Timestamp", e);
    ("Statusaddrstart", f); ("Statusmsg", g); ("Statusleng", h)] =
  [("DeviceName", a); ("MCode", c); ("ProductKey", b); ("RequestNo", d); ("Statusaddrstart", f); ("Statusleng", h);
    ("Statusmsg", g); ("Timestamp", e)].
Proof. reflexivity. Qed.

#[local] Close Scope string_scope.

Ltac chars_lengths :=
  repeat (rewrite length_app || cbn [Datatypes.length]);
  repeat match goal with
    | |- context [length (chars ?s)] => let n := eval vm_compute in (length (chars s)) in change (length (chars s)) with n
    end.

(** What the three kinds of message share: the number and the time stamp as texts, and the names. *)
Ltac message_parts info id now :=
  pose proof (packet_id_range id ltac:(assumption)) as Hm;
  destruct (mqtt_client_packet_id id) as [m id']; cbn [fst] in *;
  destruct (packet_id_text m Hm) as [-> Lm]; destruct (timestamp_spec now ltac:(assumption)) as [Bt Lt];
  assert (bytes (device_name info)) as Bd by (unfold device_name; auto with bytes);
  assert (bytes (product_key info)) as Bp by (unfold product_key; auto with bytes);
  assert (bytes (decimal m)) as Bm by (apply decimal_bytes; lia);
  generalize dependent (device_name info); intros dn; generalize dependent (product_key info); intros pk;
  generalize dependent (Timestamp_str now); intros ts; intros.

Ltac signed_fields order :=
  unfold signed_text, cJSON_AddStringToObject, add; cbn [app]; rewrite order, app_nil_r;
  cbn [fmap list_fmap List.concat]; rewrite <- !app_assoc; reflexivity.

Ltac render_pieces :=
  cbn [app field_pieces]; cbn [render text fmap option_fmap option_map];
  try match goal with |- context [(?l <? ?m) && (?m <? ?h)] => replace ((l <? m) && (m <? h)) with true by lia end;
  rewrite ?signed_decimal_nonneg by lia;
  reflexivity.

Ltac sign_with size ps order :=
  eapply (signature_of size _ ps);
  [vm_compute; reflexivity | pieces_ok | render_pieces | lia | signed_fields order | solve_bytes | chars_lengths; lia].

Lemma init_signed info id now :
  bytes info -> 0 <= id < 65536 -> 0 <= now < 4294967296 ->
  (length (device_name info) + length (product_key info) <= 42)%nat ->
  signed (network_Serialize_init_json info id now).1.
Proof.
  intros Hi Hid Hn Hl. unfold network_Serialize_init_json. revert Hl. message_parts info id now.
  generalize dependent (decimal m). intros ms; intros.
  sign_with 128 (field_pieces "DeviceName" PStr ++ field_pieces "MCode" (Text (chars "001")) ++
    field_pieces "ProductKey" PStr ++ field_pieces "RequestNo" PStr ++ field_pieces "Timestamp" PStr ++
    [Text (chars "Key=123456")]) init_order.
Qed.

Lemma para_signed {w : cur} info id now :
  bytes info -> 0 <= id < 65536 -> 0 <= now < 4294967296 ->
  (length (device_name info) <= 32)%nat -> (length (product_key info) <= 20)%nat ->
  signed (network_Serialize_para_json info id now).1.
Proof.
  intros Hi Hid Hn Hd Hp. unfold network_Serialize_para_json. revert Hd Hp. message_parts info id now.
  pose proof (hex_text_bytes (read_holding 100 80)) as Bx. pose proof (hex_text_length (read_holding 100 80)) as Lx.
  rewrite read_holding_length in Lx by lia. generalize dependent (hex_text (read_holding 100 80)). intros x; intros.
  sign_with 800 (field_pieces "DeviceName" PStr ++ field_pieces "MCode" (Text (chars "007")) ++
    field_pieces "ProductKey" PStr ++ field_pieces "RequestNo" PDec ++ field_pieces "Setaddrstart" (Text (chars "100")) ++
    field_pieces "Settingleng" (Text (chars "80")) ++ field_pieces "Settingmsg" PStr ++
    field_pieces "Settingversion" PStr ++ field_pieces "Timestamp" PStr ++ [Text (chars "Key=123456")]) para_order.
Qed.

Lemma report_signed {w : cur} topic_type info id now :
  bytes info -> 0 <= id < 65536 -> 0 <= now < 4294967296 ->
  (length (device_name info) <= 32)%nat -> (length (product_key info) <= 20)%nat ->
  signed (network_Serialize_report_json topic_type info id now).1.
Proof.
  intros Hi Hid Hn Hd Hp. unfold network_Serialize_report_json. revert Hd Hp. message_parts info id now.
  assert (exists x x' : list Z, bytes x /\ bytes x' /\ (length x = 72 /\ length x' = 200)%nat /\
    hex_text (read_holding 502 18) = x /\ hex_text (read_holding 500 50) = x') as (x & x' & Bx & Bx' & [Lx Lx'] & -> & ->).
  { do 2 eexists. split; [apply hex_text_bytes|]. split; [apply hex_text_bytes|]. split; [|done].
    by rewrite !hex_text_length, !read_holding_length by lia. }
  destruct (topic_type =? REALTIME_REPORT).
  - sign_with 800 (field_pieces "DeviceName" PStr ++ field_pieces "MCode" (Text (chars "008")) ++
      field_pieces "ProductKey" PStr ++ field_pieces "RequestNo" PDec ++ field_pieces "Statusaddrstart" (Text (chars "502")) ++
      field_pieces "Statusleng" (Text (chars "18")) ++ field_pieces "Statusmsg" PStr ++
      field_pieces "Timestamp" PStr ++ [Text (chars "Key=123456")]) report_order.
  - sign_with 800 (field_pieces "DeviceName" PStr ++ field_pieces "MCode" (Text (chars "009")) ++
      field_pieces "ProductKey" PStr ++ field_pieces "RequestNo" PDec ++ field_pieces "Statusaddrstart" (Text (chars "500")) ++
      field_pieces "Statusleng" (Text (chars "50")) ++ field_pieces "Statusmsg" PStr ++
      field_pieces "Timestamp" PStr ++ [Text (chars "Key=123456")]) report_order.
Qed.

Lemma inform_unsigned : ~ signed network_Serialize_inform_json.
Proof.
  intros (fields & E). assert (exists l v, network_Serialize_inform_json = JObj (l ++ [("params"%string, v)])) as (l & v & E').
  { exists [("id"%string, JStr (chars "1"))]. eexists. reflexivity. }
  rewrite E in E'. injection E' as E'. apply app_inj_tail in E' as [_ E']. discriminate.
Qed.

(** C19: the messages to the platform's own topics (start-up, parameters, reports) carry the platform's
    signature of their other fields, for names of the lengths the device allows; the start-up message
    only while both names together have at most 42 characters ([init_signature_cut]).  The announcement
    of the firmware version, which goes to the broker's update service, carries its number and the
    version only, and no signature. *)
Theorem messages_signed {w : cur} topic_type info id now :
  bytes info -> 0 <= id < 65536 -> 0 <= now < 4294967296 ->
  (length (device_name info) <= 32)%nat -> (length (product_key info) <= 20)%nat ->
  signed (network_Serialize_para_json info id now).1 /\
  signed (network_Serialize_report_json topic_type info id now).1 /\
  ((length (device_name info) + length (product_key info) <= 42)%nat ->
   signed (network_Serialize_init_json info id now).1) /\
  network_Serialize_inform_json =
    JObj [("id", JStr (chars "1")); ("params", JObj [("version", JStr (chars "02.02.26"))])]%string /\
  ~ signed network_Serialize_inform_json.
Proof.
  intros Hi Hid Hn Hd Hp. split_and!; [by apply para_signed | by apply report_signed | intros Hl; by apply init_signed | |].
  - vm_compute. reflexivity.
  - apply inform_unsigned.
Qed.

(** A device with the names "device" and "product". *)
Definition sample_info : list Z :=
  memcpy (memcpy (repeat 0 186%nat) 2 (chars "device")) 35 (chars "product").

Lemma messages_signed_witness :
  let w : cur := w_zero in
  signed (network_Serialize_para_json sample_info 1 0).1 /\
  signed (network_Serialize_report_json REALTIME_REPORT sample_info 1 0).1 /\
  ((length (device_name sample_info) + length (product_key sample_info) <= 42)%nat ->
   signed (network_Serialize_init_json sample_info 1 0).1) /\
  network_Serialize_inform_json =
    JObj [("id", JStr (chars "1")); ("params", JObj [("version", JStr (chars "02.02.26"))])]%string /\
  ~ signed network_Serialize_inform_json.
Proof.
  intros w. apply (messages_signed REALTIME_REPORT sample_info 1 0); [|lia|lia|vm_compute; lia|vm_compute; lia].
  apply (bool_decide_unpack _). vm_compute. exact I.
Defined.

(** With names of full length the text to sign does not fit its 128 bytes: the first message goes
    out with the signature of a shorter text. *)
Definition full_info : list Z :=
  memcpy (memcpy (repeat 0 186%nat) 2 (repeat 65 32%nat)) 35 (repeat 66 20%nat).

Lemma init_signature_cut : ~ signed (network_Serialize_init_json full_info 1 0).1.
Proof.
  intros (fields & E).
  assert (exists l s, (network_Serialize_init_json full_info 1 0).1 = JObj (l ++ [("Sign"%string, JStr s)]) /\
    s <> hex_text (utils_md5 (signed_text l)) /\ bytes (signed_text l) /\ Z.of_nat (length (signed_text l)) < 4294967296)
    as (l & s & E' & Hs & Hb & Hl).
  { eexists [_; _; _; _; _], _. split; [vm_compute; reflexivity|]. split; [vm_compute; discriminate|].
    split; [apply (bool_decide_unpack _); vm_compute; exact I|vm_compute; reflexivity]. }
  rewrite E in E'. injection E' as E'. apply app_inj_tail in E' as [-> E']. injection E' as E'.
  apply Hs. rewrite utils_md5_spec, hex_text_spec by (done || apply md5_bytes). done.
Qed.

(** ** Settings from the platform *)

Lemma leading_digits l acc : Forall (fun c => 48 <= c <= 57) l ->
  leading_number 10 l (Some acc) = Some (foldl (fun v c => v * 10 + (c - 48)) acc l).
Proof.
  intros Hl. revert acc. induction Hl as [|c l Hc _ IH]; intros acc; [done|]. cbn [leading_number foldl].
  unfold digit_of. replace ((48 <=? c) && (c <=? 57)) with true by lia. replace (c - 48 <? 10) with true by lia. apply IH.
Qed.

Lemma sscanf_decimal n old : 0 <= n < 2147483648 -> sscanf_d (decimal n) old = n.
Proof.
  intros Hn. destruct (decide (n = 0)) as [->|H0]; [reflexivity|].
  destruct (decimal_spec n Hn) as (V & F & _). unfold sscanf_d, dec_value in *.
  destruct (decimal n) as [|c l]; [cbn in V; lia|]. apply Forall_cons_1 in F as [Hc Hl].
  cbn [skip_space]. unfold isspace. replace ((c =? 32) || _) with false by lia. cbn [take_sign].
  replace (c =? 45) with false by lia. replace (c =? 43) with false by lia. cbn [leading_number].
  unfold digit_of at 1. replace ((48 <=? c) && (c <=? 57)) with true by lia. replace (c - 48 <? 10) with true by lia.
  rewrite leading_digits by done. cbn [default foldl] in *. rewrite V. cast_lia.
Qed.

Definition hex_pair (v : Z) : list Z := [hex_digit (v / 16); hex_digit (v mod 16)].

Lemma hex_pair_scan v : byte v ->
  isspace (hex_digit (v / 16)) = false /\ sscanf_02X (hex_pair v) 0 = v /\ sscanf_02X (hex_pair v) 1 = v /\
  hex_digit (v / 16) <> 0 /\ hex_digit (v mod 16) <> 0.
Proof.
  intros Hv. assert (negb (isspace (hex_digit (v / 16))) && (sscanf_02X (hex_pair v) 0 =? v) && (sscanf_02X (hex_pair v) 1 =? v) &&
    negb (hex_digit (v / 16) =? 0) && negb (hex_digit (v mod 16) =? 0) = true) as H.
  { apply (range_check (fun v => negb (isspace (hex_digit (v / 16))) && (sscanf_02X (hex_pair v) 0 =? v) &&
      (sscanf_02X (hex_pair v) 1 =? v) && negb (hex_digit (v / 16) =? 0) && negb (hex_digit (v mod 16) =? 0)) 256);
      [vm_compute; reflexivity|exact Hv]. }
  rewrite !andb_true_iff, !negb_true_iff, !Z.eqb_eq, !Z.eqb_neq in H. tauto.
Qed.

Lemma sscanf_hex_pair v rest old : byte v -> sscanf_02X (hex_pair v ++ rest) old = v.
Proof.
  intros Hv. destruct (hex_pair_scan v Hv) as (Hs & H0 & H1 & _). revert H0 H1. unfold sscanf_02X, hex_pair.
  cbn [app skip_space]. rewrite Hs. cbn [take]. destruct (take_sign _) as [neg s].
  destruct (leading_number 16 _ None); [|lia]. auto.
Qed.

Lemma hex_text_cons v l : byte v -> hex_text (v :: l) = hex_pair v ++ hex_text l.
Proof.
  intros Hv. unfold hex_text. cbn [fmap list_fmap List.concat]. f_equal. unfold hex_pair, byte in *.
  rewrite Z.shiftr_div_pow2 by lia. change (2 ^ 4) with 16. assert (0 <= v / 16 < 16) by (Z.div_mod_to_equations; lia).
  by rewrite !hb2hex_spec, (u8_small (v / 16)), (Z.mod_small (v / 16)) by lia.
Qed.

Lemma cstr_hex b rest : bytes b -> cstr (hex_text b ++ 0 :: rest) = hex_text b.
Proof.
  induction 1 as [|v b Hv _ IH]; [done|]. rewrite hex_text_cons by done. unfold hex_pair.
  destruct (hex_pair_scan v Hv) as (_ & _ & _ & N1 & N2). cbn [app cstr].
  destruct (Z.eqb_spec (hex_digit (v / 16)) 0), (Z.eqb_spec (hex_digit (v mod 16)) 0); try lia. by rewrite IH.
Qed.

Lemma setting_bytes_hex b : bytes b -> forall pre i d, length pre = (2 * i)%nat ->
  setting_bytes (length b) i (pre ++ hex_text b ++ [0]) d = b.
Proof.
  induction 1 as [|v b Hv Hb IH]; intros pre i d Hp; [done|]. cbn [Datatypes.length setting_bytes].
  rewrite drop_app_length' by done. rewrite cstr_hex by (by constructor).
  rewrite hex_text_cons, sscanf_hex_pair by done. f_equal.
  - change 0xFF with (Z.ones 8). rewrite Z.land_ones by lia. unfold byte in Hv. change (2 ^ 8) with 256.
    rewrite (Z.mod_small v) by lia. apply u8_small. lia.
  - rewrite <- app_assoc, (app_assoc pre). apply IH. rewrite length_app, Hp. cbn. lia.
Qed.

(** A message that sets the registers from [addr] on to the bytes [b]. *)
Definition setting_message (addr : Z) (b : list Z) : json :=
  JObj [("MCode"%string, JStr (chars "005")); ("Setaddrstart"%string, JStr (decimal addr));
    ("Settingleng"%string, JStr (decimal (Z.of_nat (length b) / 2))); ("Settingmsg"%string, JStr (hex_text b))].

Lemma setting_items a b c d :
  let j := JObj [("MCode"%string, a); ("Setaddrstart"%string, b); ("Settingleng"%string, c); ("Settingmsg"%string, d)] in
  cJSON_GetObjectItem j "MCode" = Some a /\ cJSON_GetObjectItem j "Setaddrstart" = Some b /\
  cJSON_GetObjectItem j "Settingleng" = Some c /\ cJSON_GetObjectItem j "Settingmsg" = Some d.
Proof. repeat split. Qed.

(** C30: the settings a message carries reach the registers byte by byte: what is written as text, at
    the address and with the number of registers given, is what [cpad_eMBRegHoldingCB] gets. *)
Theorem settings_roundtrip {U : uninitialised} alloc addr b :
  bytes b -> (length b mod 2 = 0)%nat -> Z.of_nat (length b) <= 1000 -> 0 <= addr < 65536 ->
  (forall n, 0 <= n <= 2001 -> alloc n = true) ->
  network_parameter_set_parse alloc (Some (setting_message addr b)) =
    Some (0, Some (Request addr (Z.of_nat (length b) / 2) b)).
Proof.
  intros Hb He Hl Ha Hal. unfold network_parameter_set_parse, setting_message.
  set (n := Z.of_nat (length b) / 2).
  assert (Z.of_nat (length b) = 2 * n) as En.
  { unfold n. apply (f_equal Z.of_nat) in He. rewrite Nat2Z.inj_mod in He. Z.div_mod_to_equations. lia. }
  destruct (setting_items (JStr (chars "005")) (JStr (decimal addr)) (JStr (decimal n)) (JStr (hex_text b)))
    as (-> & -> & -> & ->). cbn [mbind option_bind valuestring].
  change (sscanf_d (chars "005") MCode_0) with 5. cbn [Z.eqb Pos.eqb].
  rewrite !sscanf_decimal by lia. rewrite !u32_small, !Hal by lia. cbn [orb].
  assert (strncpy0 (hex_text b) (Z.to_nat (n * 4)) = hex_text b ++ [0]) as Es.
  { unfold strncpy0. rewrite take_ge by (rewrite hex_text_length; lia). rewrite hex_text_length.
    replace (Z.to_nat (n * 4) + 1 - 2 * length b)%nat with 1%nat by lia. done. }
  rewrite !u16_small by lia. replace (Z.to_nat (n * 2)) with (length b) by lia.
  destruct (Z.eqb_spec (n * 4) 0) as [E0|_].
  - destruct b; [reflexivity|cbn in En; lia].
  - rewrite Es. cbn [mbind option_bind]. by rewrite (setting_bytes_hex b Hb []).
Qed.

Lemma settings_roundtrip_witness :
  let U := Build_uninitialised 7 7 7 7 7 in
  network_parameter_set_parse (fun n => n <=? 4096) (Some (setting_message 164 [1; 44; 255; 0])) =
    Some (0, Some (Request 164 2 [1; 44; 255; 0])).
Proof.
  intros U. apply (settings_roundtrip (fun n => n <=? 4096) 164 [1; 44; 255; 0]).
  - apply (bool_decide_unpack _). vm_compute. exact I.
  - reflexivity.
  - cbn. lia.
  - lia.
  - intros n Hn. lia.
Defined.

(** A message without "MCode" is read through a null pointer. *)
Lemma missing_MCode {U : uninitialised} alloc items :
  cJSON_GetObjectItem (JObj items) "MCode" = None ->
  network_parameter_set_parse alloc (Some (JObj items)) = None /\ network_parameter_get_parse (Some (JObj items)) = None /\
  network_water_notice_parse (Some (JObj items)) = Some (-1).
Proof.
  intros H. unfold network_parameter_set_parse, network_parameter_get_parse, network_water_notice_parse. by rewrite H.
Qed.

(** A registration that succeeds returns what its result variable held before. *)
Lemma register_result_uninitialised {U : uninitialised} d :
  fst <$> network_register_parse (Some (JObj [("code"%string, JNum 200); ("message"%string, JStr (chars "success"));
    ("data"%string, JObj [("deviceName"%string, JStr (chars "n")); ("deviceSecret"%string, JStr (chars "s"));
      ("productKey"%string, JStr (chars "k"))])])) d = Some rc_0.
Proof. reflexivity. Qed.

(** ** Intervals and numbers *)

(** The intervals are those set, limited to what the platform allows. *)
Lemma intervals_limited (w : world) :
  @network_get_interval w =
    (Z.max 5 (Z.min 1000 (w⟪Platform_Real_Report⟫)), Z.max 60 (Z.min 60000 (w⟪Platform_Fixed_Report⟫ * 60))).
Proof.
  unfold network_get_interval. fold (w⟪Platform_Fixed_Report⟫). fold (w⟪Platform_Real_Report⟫).
  pose proof (rd_u16 w Platform_Fixed_Report eq_refl) as H. rewrite u32_small by lia.
  f_equal; repeat (case_match; try lia).
Qed.

(** Packet numbers are never zero and run through 1 .. 65535. *)
Lemma packet_id_next id : 0 <= id < 65536 ->
  (mqtt_client_packet_id id).1 = (if id =? 0 then 1 else id) /\
  (mqtt_client_packet_id (mqtt_client_packet_id id).2).1 =
    (if (mqtt_client_packet_id id).1 =? 65535 then 1 else (mqtt_client_packet_id id).1 + 1).
Proof.
  intros H. unfold mqtt_client_packet_id. cbn [fst snd].
  destruct (Z.ltb_spec id 1), (Z.eqb_spec id 0); try lia; split; try reflexivity.
  destruct (Z.eqb_spec id 65535) as [->|]; [reflexivity|]. rewrite u16_small by lia.
  destruct (Z.ltb_spec (id + 1) 1); lia.
Qed.

(** ** The device's identity in the registers *)

Lemma swap_pairs_le16 regs n : (length regs <= n)%nat -> Forall (fun v => 0 <= v < 65536) regs ->
  swap_pairs n (register_bytes regs) = concat (be16 <$> regs).
Proof.
  revert n. induction regs as [|v regs IH]; intros n Hn Hr; [by destruct n|].
  apply Forall_cons_1 in Hr as [_ Hr]. destruct n as [|n]; [cbn in Hn; lia|].
  cbn [register_bytes fmap list_fmap List.concat le16 be16 app swap_pairs]. do 2 f_equal.
  apply IH; [cbn in Hn; lia|done].
Qed.
