(* ===== verification/Mqtt.v ===== *)
(** * The MQTT client: TQ01_net/mqtt_client.c and paho_mqtt_pipe.c

    [mqtt_client_init] reads the identity of the device from its registers, computes the credentials
    for the broker and the names of the topics; the client thread then connects, announces the
    device and publishes its reports.  The packets themselves are made and read by the MQTTPacket
    library, the sockets by the kernel: what they return in one turn of the thread's loop is a
    [turn], and a packet that arrives is a [packet]. *)

From S2P Require Import Prelude Conf Format Md5 Machine SysStatus Network.
From Stdlib Require Import Ascii String.

#[local] Abbreviation length := Datatypes.length.
#[local] Abbreviation concat := List.concat.
#[local] Open Scope Z_scope.
#[local] Set Warnings "-clear-no-such-hyp".

(** ** Credentials *)

Record iotx_conn_info_t : Type := Conn {
  port : Z; host_name : list Z; client_id : list Z; username : list Z; password : list Z }.

Definition conn_0 : iotx_conn_info_t := Conn 0 [] [] [] [].

Definition mqtt_setup_connect_info (conn : iotx_conn_info_t) (device_info : list Z) : Z * iotx_conn_info_t :=
  if negb (info_flag device_info =? IOT_SID_FLAG) then (-1, conn) else
  let host_name := rt_snprintf 129 "%s.iot-as-mqtt.cn-shanghai.aliyuncs.com" [text (product_key device_info)] in
  let username := rt_snprintf 513 "%s&%s" [text (device_name device_info); text (product_key device_info)] in
  let hmac_source := rt_snprintf 512 "clientId%sdeviceName%sproductKey%s"
    [text (device_id device_info); text (device_name device_info); text (product_key device_info)] in
  let guider_sign := default [] (utils_hmac_md5 hmac_source (device_secret device_info)) in
  let password := rt_snprintf 257 "%s" [text guider_sign] in
  let client_id := rt_snprintf 257 "%s|securemode=%d,signmethod=%s|" [text (device_id device_info); Int 3; text (chars "hmacmd5")] in
  (0, Conn 1883 host_name client_id username password).

(** ** [mqtt_client_init] *)

(** The names of the topics the device subscribes to and publishes on. *)
Definition sub_formats : list string :=
  ["/%s/%s/pay/service2Cloud/get"; "/%s/%s/monitor/service2Cloud/setting"; "/%s/%s/monitor/service2Cloud/getSetting";
   "/ota/device/upgrade/%s/%s"]%string.

Definition pub_formats : list string :=
  ["/%s/%s/pay/client2Cloud/init"; "/%s/%s/pay/client2Cloud/getWaterStatus"; "/%s/%s/monitor/client2Cloud/putSetting";
   "/%s/%s/monitor/client2Cloud/putRealStatus"; "/%s/%s/monitor/client2Cloud/putTimingStatus";
   "/%s/%s/monitor/service2Cloud/upgrade"; "/ota/device/inform/%s/%s"; "/ota/device/progress/%s/%s"]%string.

(** [rt_snprintf(topic_str_p, length, ...)] into [length + 1] bytes. *)
Definition topic_str (fmt : string) (product_key device_name : list Z) : list Z :=
  let length := Z.of_nat (length (chars fmt) + length product_key + length device_name) in
  rt_snprintf length fmt [text product_key; text device_name].

Record client_setup : Type := Setup {
  info : list Z;
  connect : iotx_conn_info_t;
  uri : option (list Z);
  buffers : bool;                    (* both buffers of 1024 bytes are there *)
  topics : list (list Z)             (* those named so far: the subscriptions, then the others *)
}.

(** The topics up to the first one for which there is no memory; [alloc k n] tells whether the
    [k]-th allocation, of [n] bytes, succeeds. *)
Fixpoint setup_topics (alloc : nat -> Z -> bool) (k : nat) (fmts : list string) (pk dn : list Z) : bool * list (list Z) :=
  match fmts with
  | [] => (true, [])
  | fmt :: fmts =>
      if alloc k (Z.of_nat (length (chars fmt) + length pk + length dn) + 1) then
        let '(ok, ts) := setup_topics alloc (S k) fmts pk dn in (ok, topic_str fmt pk dn :: ts)
      else (false, [])
  end.

(** [device_regs]: the registers [g_sys.config.ComPara.device_info]. *)
Definition mqtt_client_init (alloc : nat -> Z -> bool) (device_regs : list Z) (tick : Z) : Z * client_setup :=
  let device_info := repeat 0 186%nat in
  let device_info := Conversion_modbus_2_ram device_info (register_bytes device_regs) 186 in
  let device_info := memcpy device_info 121 (rt_snprintf 257 "rtthread%d" [Int tick] ++ [0]) in
  let '(rc, conn) := mqtt_setup_connect_info conn_0 device_info in
  if nz rc then (rc, Setup device_info conn None false []) else
  let mqtt_uri := rt_snprintf 100 "tcp://%s:%d" [text (host_name conn); Int (port conn)] in
  if negb (alloc 0%nat (Z.of_nat (length mqtt_uri) + 1)) then (-5, Setup device_info conn None false []) else
  if negb (alloc 1%nat 1024 && alloc 2%nat 1024) then (-5, Setup device_info conn (Some mqtt_uri) false []) else
  let '(ok, ts) := setup_topics alloc 3 (sub_formats ++ pub_formats) (product_key device_info) (device_name device_info) in
  (if ok then 0 else -5, Setup device_info conn (Some mqtt_uri) true ts).

(** ** [mqtt_resolve_uri], up to the look-up of the name: host and port *)

Fixpoint prefix_of (p s : list Z) : bool :=
  match p, s with [], _ => true | a :: p, b :: s => (a =? b) && prefix_of p s | _, [] => false end.

(** [strstr(s, c)] for one character: the position. *)
Fixpoint strstr (c : Z) (s : list Z) : option nat :=
  match s with [] => None | d :: s => if d =? c then Some 0%nat else S <$> strstr c s end.

Definition mqtt_resolve_uri (uri : list Z) : option (list Z * list Z) :=
  let uri_len := Z.of_nat (length uri) in
  if negb (prefix_of (chars "tcp://") uri) then None else
  let host_addr := drop 6 uri in
  let in_brackets := match host_addr with c :: _ => c =? 91 | [] => false end in
  let host_addr := if in_brackets then drop 1 host_addr else host_addr in
  ptr ← strstr (if in_brackets then 93 else 58) host_addr;
  let host_addr_len := Z.of_nat ptr in
  if (host_addr_len <? 1) || (uri_len <? host_addr_len) then None else
  let port_len := uri_len - 6 - host_addr_len - (if in_brackets then 3 else 1) in
  if (6 <=? port_len) || (port_len <? 1) then None else
  let port_str := take (Z.to_nat port_len) (drop (ptr + (if in_brackets then 2 else 1)) host_addr) in
  Some (take ptr host_addr, port_str).

(** ** Topics *)

(** The loop of [isTopicMatched]; a [break] leaves characters of the topic unread. *)
Fixpoint isTopicMatched (curf curn : list Z) : bool :=
  match curf, curn with
  | f :: curf', c :: curn' =>
      if (c =? 47) && negb (f =? 47) then false
      else if negb (f =? 43) && negb (f =? 35) && negb (f =? c) then false
      else if f =? 43 then
        isTopicMatched curf' ((fix skip (s : list Z) : list Z :=
          match s with d :: s' => if d =? 47 then s else skip s' | [] => [] end) curn')
      else if f =? 35 then isTopicMatched curf' []
      else isTopicMatched curf' curn'
  | [], [] => true
  | _, _ => false
  end.

(** [deliverMessage]: the handlers that are called, in order; none stands for the default handler. *)
Definition deliverMessage (filters : list (list Z)) (topicName : list Z) : list nat :=
  (fun p => p.1) <$> filter (fun p => bool_decide (topicName = p.2) || isTopicMatched p.2 topicName = true)
    (zip (seq 0 (length filters)) filters).

(** ** The client thread *)

Inductive ClientSend : Type := SENDINFORM | SENDINIT | SENDEDINIT | SENDPARAMETER | SENDPING | SENDREALTIME | SENDTIMING.

#[global] Instance ClientSend_eq_dec : EqDecision ClientSend.
Proof. solve_decision. Defined.

(** [sendState++]. *)
Definition succ_state (s : ClientSend) : ClientSend :=
  match s with
  | SENDINFORM => SENDINIT | SENDINIT => SENDEDINIT | SENDEDINIT => SENDPARAMETER | SENDPARAMETER => SENDPING
  | SENDPING => SENDREALTIME | SENDREALTIME => SENDTIMING | SENDTIMING => SENDTIMING
  end.

(** [MQTTClient] and the global [sendState]. *)
Record MQTTClient : Type := Client {
  isconnected : Z; isInformed : Z; isQRcodegeted : Z; isparameterPutted : Z;
  keepAliveInterval : Z; ping_outstanding : Z; RealtimeInterval : Z; TimingInterval : Z;
  tick_ping : Z; tick_timeing : Z; tick_realtime : Z; sendState : ClientSend
}.

Definition set_flags (inf qr par : Z) (c : MQTTClient) : MQTTClient :=
  Client (isconnected c) inf qr par (keepAliveInterval c) (ping_outstanding c) (RealtimeInterval c) (TimingInterval c)
    (tick_ping c) (tick_timeing c) (tick_realtime c) (sendState c).
Definition set_ping (t out : Z) (c : MQTTClient) : MQTTClient :=
  Client (isconnected c) (isInformed c) (isQRcodegeted c) (isparameterPutted c) (keepAliveInterval c) out
    (RealtimeInterval c) (TimingInterval c) t (tick_timeing c) (tick_realtime c) (sendState c).
Definition set_reports (timing real : Z) (c : MQTTClient) : MQTTClient :=
  Client (isconnected c) (isInformed c) (isQRcodegeted c) (isparameterPutted c) (keepAliveInterval c) (ping_outstanding c)
    (RealtimeInterval c) (TimingInterval c) (tick_ping c) timing real (sendState c).
Definition set_intervals (real timing : Z) (c : MQTTClient) : MQTTClient :=
  Client (isconnected c) (isInformed c) (isQRcodegeted c) (isparameterPutted c) (keepAliveInterval c) (ping_outstanding c)
    real timing (tick_ping c) (tick_timeing c) (tick_realtime c) (sendState c).
Definition set_state (s : ClientSend) (c : MQTTClient) : MQTTClient :=
  Client (isconnected c) (isInformed c) (isQRcodegeted c) (isparameterPutted c) (keepAliveInterval c) (ping_outstanding c)
    (RealtimeInterval c) (TimingInterval c) (tick_ping c) (tick_timeing c) (tick_realtime c) s.

(** Seconds left of an interval, as the C expression computes them: without sign, stored in a long. *)
Definition seconds_left (interval tick_now tick : Z) : Z := s32 (u32 (interval - u32 (tick_now - tick) / 1000)).

(** The first part of the loop: what to send next and how long to wait for other work. *)
Definition choose {w : cur} (tick_now : Z) (c : MQTTClient) : MQTTClient * Z :=
  if nz (isInformed c) then
    if nz (isQRcodegeted c) then
      if nz (isparameterPutted c) then
        let tv_sec := seconds_left (u32 (keepAliveInterval c - 10)) tick_now (tick_ping c) in
        let c := set_state SENDPING c in
        let '(real, timing) := network_get_interval in
        let c := set_intervals real timing c in
        let tv_sec_temp := seconds_left (TimingInterval c) tick_now (tick_timeing c) in
        let '(c, tv_sec) := if tv_sec_temp <? tv_sec then (set_state SENDTIMING c, tv_sec_temp) else (c, tv_sec) in
        let tv_sec_temp := seconds_left (RealtimeInterval c) tick_now (tick_realtime c) in
        let '(c, tv_sec) := if tv_sec_temp <? tv_sec then (set_state SENDREALTIME c, tv_sec_temp) else (c, tv_sec) in
        (c, if tv_sec <=? 5 then 1 else tv_sec)
      else (set_state SENDPARAMETER c, 1)
    else if bool_decide (sendState c = SENDEDINIT) then (c, 5) else (set_state SENDINIT c, 1)
  else (set_state SENDINFORM c, 1).

(** What is sent in a turn. *)
Inductive sent : Type := Ping | Publish (topic : Z).

Abbreviation PLATFORM_INIT := 0.
Abbreviation PARAMETER_PUT := 2.
Abbreviation OTA_INFORM := 6.

(** Packets as [MQTTPacket_readPacket] and the deserialisers report them; the payload of a message as
    [cJSON_Parse] reads it.  [Connack None], [Bad_publish]: packets that cannot be deserialised. *)
Inductive packet : Type :=
  | Read_error
  | Connack (connack_rc : option Z)
  | Suback (grantedQoS : Z)
  | Published (topicName : list Z) (payload : option json) (qos : Z)
  | Bad_publish
  | Pubrec (valid : bool)
  | Pingresp
  | Other_packet.

(** [mqtt_WATER_NOTICE_callback], [mqtt_PARAMETER_SET_callback], [mqtt_PARAMETER_GET_callback] and the
    two callbacks without effect; [None]: an access through a null pointer. *)
Definition callback {U : uninitialised} (alloc : Z -> bool) (handler : nat) (payload : option json) (c : MQTTClient) :
    option (MQTTClient * list request) :=
  match handler with
  | 0%nat =>
      rc ← network_water_notice_parse payload;
      Some (if rc =? 0 then set_flags (isInformed c) 1 (isparameterPutted c) c else c, [])
  | 1%nat => '(_, r) ← network_parameter_set_parse alloc payload; Some (c, match r with Some r => [r] | None => [] end)
  | 2%nat =>
      rc ← network_parameter_get_parse payload;
      Some (if rc =? 0 then set_flags (isInformed c) (isQRcodegeted c) 0 c else c, [])
  | _ => Some (c, [])
  end.

Fixpoint callbacks {U : uninitialised} (alloc : Z -> bool) (handlers : list nat) (payload : option json) (c : MQTTClient) :
    option (MQTTClient * list request) :=
  match handlers with
  | [] => Some (c, [])
  | h :: hs =>
      '(c, r) ← callback alloc h payload c;
      '(c, rs) ← callbacks alloc hs payload c;
      Some (c, r ++ rs)
  end.

(** One turn of the loop as its environment determines it. *)
Record turn : Type := Turn {
  tick_now : Z;               (* the kernel's clock *)
  select_res : Z;             (* the first select: 0 when nothing came in time *)
  packet_len : Z;             (* the length of the packet serialised for sending *)
  sendPacket : Z;             (* the result of sending it *)
  reply_res : Z;              (* the second select *)
  arrived : option packet;    (* the socket has data *)
  ack : Z;                    (* the result of sending an acknowledgement *)
  command : list Z;           (* the text in the pipe, or none *)
  module_ready : bool         (* the modem's state is READY *)
}.

(** [MQTT_cycle]: its result, the client, the writes requested. *)
Definition MQTT_cycle {U : uninitialised} (alloc : Z -> bool) (filters : list (list Z)) (t : turn) (p : packet) (c : MQTTClient) :
    option (Z * MQTTClient * list request) :=
  match p with
  | Read_error => Some (-3, c, [])
  | Connack _ => Some (0, c, [])
  | Suback grantedQoS => Some (if grantedQoS =? 0x80 then 0x80 else 0, c, [])
  | Published topicName payload qos =>
      '(c, rs) ← callbacks alloc (deliverMessage filters topicName) payload c;
      Some (if qos =? 0 then 0 else ack t, c, rs)
  | Bad_publish => Some (0, c, [])
  | Pubrec valid => Some (if valid && (ack t =? 0) then 0 else -1, c, [])
  | Pingresp => Some (0, set_ping (tick_now t) 0 c, [])
  | Other_packet => Some (0, c, [])
  end.

(** [keepalive]: the result and whether a ping went out. *)
Definition keepalive (t : turn) (c : MQTTClient) : Z * bool * MQTTClient :=
  if negb (nz (isconnected c)) then (0, false, c)
  else if keepAliveInterval c =? 0 then (0, false, c)
  else if nz (ping_outstanding c) then (-1, false, c)
  else if (0 <? packet_len t) && (sendPacket t =? 0) then (0, true, set_ping (tick_ping c) 1 c)
  else (if 0 <? packet_len t then sendPacket t else 0, false, c).

Inductive next : Type := Loop | Disconnect | Exit.

(** The result of a turn: the client, what was sent, the writes requested and how the thread goes on. *)
Record outcome : Type := Outcome { client : MQTTClient; sends : list sent; requests : list request; goes_on : next }.

(** The branch for [res == 0]; [inl]: the rest of the turn is left out. *)
Definition send_due (t : turn) (c : MQTTClient) : outcome + (MQTTClient * list sent) :=
  let publish (topic : Z) (c : MQTTClient) :=
    if negb (nz (isconnected c)) || (packet_len t <=? 0) then inl (Outcome c [] [] Disconnect)
    else if negb (sendPacket t =? 0) then inl (Outcome c [] [] Disconnect)
    else if reply_res t <=? 0 then inl (Outcome c [Publish topic] [] Disconnect)
    else
      let c := if bool_decide (sendState c = SENDINFORM) then set_flags 1 (isQRcodegeted c) (isparameterPutted c) c else c in
      let c := if bool_decide (sendState c = SENDPARAMETER) then set_flags (isInformed c) (isQRcodegeted c) 1 c else c in
      inr (if bool_decide (sendState c = SENDEDINIT) then c else set_state (succ_state (sendState c)) c, [Publish topic]) in
  match sendState c with
  | SENDINFORM => publish OTA_INFORM c
  | SENDPING =>
      let '(rc, out, c) := keepalive t c in
      inl (Outcome c (if out : bool then [Ping] else []) [] (if rc =? 0 then Loop else Disconnect))
  | SENDEDINIT | SENDINIT => publish PLATFORM_INIT c
  | SENDPARAMETER => publish PARAMETER_PUT c
  | SENDREALTIME => publish REALTIME_REPORT (set_reports (tick_timeing c) (tick_now t) c)
  | SENDTIMING => publish TIMING_REPORT (set_reports (tick_now t) (tick_realtime c) c)
  end.

(** What arrived on the socket and in the pipe; the second select does not look at the pipe. *)
Definition receive {U : uninitialised} (alloc : Z -> bool) (filters : list (list Z)) (t : turn) (c : MQTTClient) (out : list sent)
    (command : list Z) : option outcome :=
  '(rc, c, rs) ← match arrived t with Some p => MQTT_cycle alloc filters t p c | None => Some (0, c, []) end;
  Some (
    if rc <? 0 then Outcome c out rs Disconnect
    else if bool_decide (command = chars "DISCONNECT") then Outcome c out rs Exit
    else if bool_decide (command = chars "RECONNECT") then Outcome c out rs Disconnect
    else Outcome c out rs (if module_ready t then Loop else Disconnect)).

(** The body of [while (1)] in [paho_mqtt_thread]. *)
Definition paho_turn {U : uninitialised} {w : cur} (alloc : Z -> bool) (filters : list (list Z)) (t : turn) (c : MQTTClient) :
    option outcome :=
  let '(c, _) := choose (tick_now t) c in
  if select_res t =? 0 then
    match send_due t c with inl o => Some o | inr (c, out) => receive alloc filters t c out [] end
  else if select_res t <? 0 then Some (Outcome c [] [] Disconnect)
  else receive alloc filters t c [] (command t).

(** [MQTTDisconnect]. *)
Definition MQTTDisconnect (c : MQTTClient) : MQTTClient :=
  Client 0 0 0 0 (keepAliveInterval c) 0 (RealtimeInterval c) (TimingInterval c) (tick_ping c) (tick_timeing c) (tick_realtime c) (sendState c).

(** *** Going online: the part of [paho_mqtt_thread] before its loop *)

Definition set_connected (v keepAlive : Z) (c : MQTTClient) : MQTTClient :=
  Client v (isInformed c) (isQRcodegeted c) (isparameterPutted c) keepAlive (ping_outstanding c) (RealtimeInterval c)
    (TimingInterval c) (tick_ping c) (tick_timeing c) (tick_realtime c) (sendState c).

(** [MQTTConnect]; [keepAlive] is the interval of the connection's options. *)
Definition MQTTConnect (keepAlive : Z) (t : turn) (c : MQTTClient) : Z * MQTTClient :=
  if nz (isconnected c) then (-1, c) else
  let c := set_connected 0 keepAlive c in
  let rc :=
    if packet_len t <=? 0 then -1
    else if negb (sendPacket t =? 0) then sendPacket t
    else if reply_res t <=? 0 then -1
    else match arrived t with Some (Connack (Some connack_rc)) => connack_rc | _ => -1 end in
  (rc, if rc =? 0 then set_connected 1 keepAlive c else c).

(** [MQTTSubscribe]: the topic is only in the packet; what arrives after it need not be the answer. *)
Definition MQTTSubscribe {U : uninitialised} (alloc : Z -> bool) (filters : list (list Z)) (t : turn) (c : MQTTClient) :
    option (Z * MQTTClient * list request) :=
  if negb (nz (isconnected c)) then Some (-1, c, [])
  else if packet_len t <=? 0 then Some (-1, c, [])
  else if negb (sendPacket t =? 0) then Some (sendPacket t, c, [])
  else if reply_res t <=? 0 then Some (-1, c, [])
  else MQTT_cycle alloc filters t (default Read_error (arrived t)) c.

(** The loop over the handlers, [ts i] what happens during the subscription of handler [i]. *)
Fixpoint subscribe_loop {U : uninitialised} (alloc : Z -> bool) (filters : list (list Z)) (handlers : nat) (ts : nat -> turn) (i : nat)
    (c : MQTTClient) : option (Z * MQTTClient * list request) :=
  match handlers with
  | O => Some (0, c, [])
  | S n =>
      '(rc, c, rs) ← MQTTSubscribe alloc filters (ts i) c;
      if rc =? 0 then
        '(rc, c, rs') ← subscribe_loop alloc filters n ts (S i) c;
        Some (rc, c, rs ++ rs')
      else Some (rc, c, rs)
  end.

Definition set_ticks (tick : Z) (c : MQTTClient) : MQTTClient :=
  Client (isconnected c) (isInformed c) (isQRcodegeted c) (isparameterPutted c) (keepAliveInterval c) (ping_outstanding c)
    (RealtimeInterval c) (TimingInterval c) tick tick tick (sendState c).

(** From [MQTTConnect] to the loop; a result other than 0 goes to [_mqtt_disconnect]. *)
Definition go_online {U : uninitialised} (alloc : Z -> bool) (filters : list (list Z)) (keepAlive : Z) (t : turn) (ts : nat -> turn)
    (tick : Z) (c : MQTTClient) : option (Z * MQTTClient * list request) :=
  let '(rc, c) := MQTTConnect keepAlive t c in
  if negb (rc =? 0) then Some (rc, c, []) else
  '(rc, c, rs) ← subscribe_loop alloc filters (length filters) ts 0 c;
  Some (rc, if rc =? 0 then set_ticks tick c else c, rs).

(** [mqtt_online_callback] and [mqtt_offline_callback]. *)
Abbreviation NET_STS_BPOS := 9.
Definition mqtt_online_callback : cmd := sys_set_remap_status WORK_MODE_STS_REG_NO NET_STS_BPOS 1.
Definition mqtt_offline_callback : cmd := sys_set_remap_status WORK_MODE_STS_REG_NO NET_STS_BPOS 0.

(** ** Matching topics *)

(** A topic name level by level; a level of a filter is a text, stands for any level but the empty one,
    or, as the last, for all levels that are left. *)
Inductive level : Type := Lit (t : list Z) | Plus | Hash.

Definition show_level (l : level) : list Z := match l with Lit t => t | Plus => [43] | Hash => [35] end.

Fixpoint path (ls : list (list Z)) : list Z :=
  match ls with [] => [] | [l] => l | l :: ls => l ++ 47 :: path ls end.

Definition plain (t : list Z) : Prop := (47 ∉ t) /\ (43 ∉ t) /\ (35 ∉ t).
Definition level_ok (l : level) : Prop := match l with Lit t => plain t | Plus => True | Hash => False end.
Definition level_matches (l : level) (u : list Z) : Prop := match l with Lit t => t = u | Plus => u <> [] | Hash => False end.

(** A filter in correct format: "# can only be at end; + and # can only be next to separator". *)
Fixpoint filter_ok (fs : list level) : Prop :=
  match fs with [] => True | [Hash] => True | f :: fs => level_ok f /\ filter_ok fs end.

(** A final # takes one level or more, the first of them not empty. *)
Fixpoint filter_matches (fs : list level) (us : list (list Z)) : Prop :=
  match fs, us with
  | [], [] => True
  | [Hash], u :: _ => u <> []
  | f :: fs, u :: us => level_matches f u /\ filter_matches fs us
  | _, _ => False
  end.

(** What follows a level: nothing or a slash. *)
Definition ends (s : list Z) : Prop := match s with [] => True | c :: _ => c = 47 end.

Lemma plain_cons c t : plain (c :: t) -> c <> 47 /\ c <> 43 /\ c <> 35 /\ plain t.
Proof. unfold plain. rewrite !not_elem_of_cons. intros ((?&?) & (?&?) & (?&?)). auto 10. Qed.

Lemma match_lit t u F N : plain t -> 47 ∉ u -> ends F -> ends N ->
  isTopicMatched (t ++ F) (u ++ N) = bool_decide (t = u) && isTopicMatched F N.
Proof.
  revert u. induction t as [|f t IH]; intros [|c u] Ht Hu HF HN; [done| | |]; cbn [app].
  - apply not_elem_of_cons in Hu as [Hc _]. rewrite bool_decide_eq_false_2 by done.
    destruct F as [|f F]; [done|]. cbn in HF. subst f. cbn [isTopicMatched].
    destruct (Z.eqb_spec c 47); [done|]. destruct (Z.eqb_spec 47 c); [done|]. reflexivity.
  - apply plain_cons in Ht as (H1 & H2 & H3 & _). rewrite bool_decide_eq_false_2 by done.
    destruct N as [|c N]; [done|]. cbn in HN. subst c. cbn [isTopicMatched].
    destruct (Z.eqb_spec f 47); [done|]. reflexivity.
  - apply plain_cons in Ht as (H1 & H2 & H3 & Ht). apply not_elem_of_cons in Hu as [Hc Hu].
    cbn [isTopicMatched]. destruct (Z.eqb_spec c 47); [done|]. destruct (Z.eqb_spec f 43); [done|].
    destruct (Z.eqb_spec f 35); [done|]. cbn [andb negb]. destruct (Z.eqb_spec f c) as [->|Hfc]; cbn [negb].
    + rewrite IH by done. f_equal. apply bool_decide_ext. split; [by intros ->|by intros [= ->]].
    + rewrite bool_decide_eq_false_2; [done|]. by intros [= -> ->].
Qed.

Lemma match_plus u F N : 47 ∉ u -> ends F -> ends N ->
  isTopicMatched (43 :: F) (u ++ N) = bool_decide (u <> []) && isTopicMatched F N.
Proof.
  intros Hu HF HN. destruct u as [|c u].
  - cbn [app]. rewrite bool_decide_eq_false_2 by naive_solver. destruct N as [|c N]; [done|]. cbn in HN. by subst c.
  - apply not_elem_of_cons in Hu as [Hc Hu]. rewrite bool_decide_eq_true_2 by done. cbn [app isTopicMatched].
    destruct (Z.eqb_spec c 47); [done|]. cbn [andb]. f_equal.
    induction u as [|d u IH]; [by destruct N as [|? N]; [|cbn in HN; subst]|].
    apply not_elem_of_cons in Hu as [Hd Hu]. cbn [app]. destruct (Z.eqb_spec d 47); [done|]. by apply IH.
Qed.

Lemma match_level l u F N : level_ok l -> 47 ∉ u -> ends F -> ends N ->
  isTopicMatched (show_level l ++ F) (u ++ N) = true <-> level_matches l u /\ isTopicMatched F N = true.
Proof.
  intros Hl Hu HF HN. destruct l as [t| |]; cbn [show_level level_matches level_ok] in *; [| |done].
  - rewrite match_lit, andb_true_iff, bool_decide_eq_true by done. done.
  - cbn [app]. rewrite match_plus, andb_true_iff, bool_decide_eq_true by done. done.
Qed.

Lemma path_cons l ls : ls <> [] -> path (l :: ls) = l ++ 47 :: path ls.
Proof. by destruct ls. Qed.

Lemma match_hash N : isTopicMatched [35] N = true <-> exists c N', N = c :: N' /\ c <> 47.
Proof.
  destruct N as [|c N]; [split; [done|by intros (? & ? & ? & _)]|]. cbn [isTopicMatched].
  destruct (Z.eqb_spec c 47) as [->|Hc]; cbn; [split; [done|naive_solver]|]. split; [intros _|done]. by exists c, N.
Qed.

Lemma path_starts u us : 47 ∉ u -> (exists c N', path (u :: us) = c :: N' /\ c <> 47) <-> u <> [].
Proof.
  intros Hu. destruct u as [|c u].
  - split; [|done]. intros (c & N & E & Hc). destruct us; cbn in E; [done|]. by injection E as <- _.
  - apply not_elem_of_cons in Hu as [Hc _]. split; [done|]. intros _. destruct us; cbn; eauto.
Qed.

(** C31: a topic matches a filter in correct format exactly when its levels match those of the filter one
    by one, a plus sign any level that is not empty, and a final # one level or more of which the
    first is not empty (so [a/#] matches neither [a] nor [a/]). *)
Theorem topic_match_spec fs us : fs <> [] -> us <> [] -> filter_ok fs -> Forall (fun u => 47 ∉ u) us ->
  isTopicMatched (path (show_level <$> fs)) (path us) = true <-> filter_matches fs us.
Proof.
  intros Hf Hu Hok Hus. revert us Hu Hus Hok. induction fs as [|f fs IH]; [done|]. intros us Hu Hus Hok.
  destruct us as [|u us]; [done|]. apply Forall_cons_1 in Hus as [Hu1 Hus].
  destruct (decide (fs = [])) as [->|Hfs].
  - change (path (show_level <$> [f])) with (show_level f).
    destruct f as [t| |]; [..|cbn [show_level]; by rewrite match_hash, path_starts].
    all: destruct Hok as [Hok _]; cbn [filter_matches]; rewrite <- (app_nil_r (show_level _)).
    all: destruct us as [|u2 us]; [cbn [path]; rewrite <- (app_nil_r u) at 1; rewrite match_level by done; naive_solver|].
    all: rewrite (path_cons u), match_level by done; split; [by intros [_ ?]|by intros [_ ?]].
  - assert (level_ok f /\ filter_ok fs) as [Hfo Hok'] by (destruct f; [exact Hok|exact Hok|destruct fs; [done|exact Hok]]).
    assert (filter_matches (f :: fs) (u :: us) = (level_matches f u /\ filter_matches fs us)) as -> by (destruct f; [done..|by destruct fs]).
    rewrite fmap_cons, path_cons by (by destruct fs). destruct us as [|u2 us].
    + cbn [path]. rewrite <- (app_nil_r u), match_level by done. split; [by intros [_ ?]|]. intros [_ H]. by destruct fs as [|[] []].
    + rewrite (path_cons u), match_level by done.
      cbn [isTopicMatched Z.eqb Pos.eqb andb negb]. rewrite IH by done. done.
Qed.

Lemma topic_match_spec_witness :
  isTopicMatched (path [chars "a"; [43]; [35]]) (path [chars "a"; chars "unit7"; chars "set"; chars "now"]) = true <->
  filter_matches [Lit (chars "a"); Plus; Hash] [chars "a"; chars "unit7"; chars "set"; chars "now"].
Proof.
  apply (topic_match_spec [Lit (chars "a"); Plus; Hash] [chars "a"; chars "unit7"; chars "set"; chars "now"]).
  - discriminate.
  - discriminate.
  - repeat split; apply (bool_decide_unpack _); vm_compute; exact I.
  - apply (bool_decide_unpack _). vm_compute. exact I.
Defined.

(** ** The connection *)

Ltac whole fmt ps :=
  erewrite (snprintf_whole ps _ fmt); cycle 1;
  [vm_compute; reflexivity | pieces_ok | lia | cbn [app]; cbn [render text fmap option_fmap option_map]; reflexivity
  | unfold id; change (signed_decimal 3) with (chars "3"); rewrite ?app_nil_r; chars_lengths; lia | unfold id ].

(** C20: a device whose record is valid connects with these credentials: its two names as user name and
    the HMAC-MD5 of its identity under its secret as password. *)
Theorem connect_credentials conn d :
  bytes d -> info_flag d = IOT_SID_FLAG -> (length (device_name d) <= 32)%nat -> (length (product_key d) <= 20)%nat ->
  (length (device_id d) <= 64)%nat -> (length (device_secret d) <= 64)%nat ->
  mqtt_setup_connect_info conn d =
    (0, Conn 1883 (product_key d ++ chars ".iot-as-mqtt.cn-shanghai.aliyuncs.com")
      (device_id d ++ chars "|securemode=3,signmethod=hmacmd5|")
      (device_name d ++ chars "&" ++ product_key d)
      (hex (Rfc.hmac (device_secret d)
        (chars "clientId" ++ device_id d ++ chars "deviceName" ++ device_name d ++ chars "productKey" ++ product_key d)))).
Proof.
  intros Hb Hf Hn Hk Hi Hs. unfold mqtt_setup_connect_info. rewrite Hf. cbn [Z.eqb Pos.eqb negb].
  assert (bytes (device_name d) /\ bytes (product_key d) /\ bytes (device_id d) /\ bytes (device_secret d)) as (Bn & Bk & Bi & Bs).
  { unfold device_name, product_key, device_id, device_secret. repeat split; apply cstr_bytes, bytes_drop, Hb. }
  generalize dependent (device_name d). intros dn Hn Bn. generalize dependent (product_key d). intros pk Hk Bk.
  generalize dependent (device_id d). intros di Hi Bi. generalize dependent (device_secret d). intros sec Hs Bs.
  whole "%s.iot-as-mqtt.cn-shanghai.aliyuncs.com"%string [PStr; Text (chars ".iot-as-mqtt.cn-shanghai.aliyuncs.com")].
  whole "%s&%s"%string [PStr; Text (chars "&"); PStr].
  whole "clientId%sdeviceName%sproductKey%s"%string
    [Text (chars "clientId"); PStr; Text (chars "deviceName"); PStr; Text (chars "productKey"); PStr].
  rewrite hmac_md5_spec; [|solve_bytes|done|chars_lengths; lia]. destruct (decide _); [|lia]. cbn [default].
  rewrite !app_nil_r. assert (forall k m, length (hex (Rfc.hmac k m)) = 32%nat) as Lh by reflexivity.
  specialize (Lh sec (chars "clientId" ++ di ++ chars "deviceName" ++ dn ++ chars "productKey" ++ pk)).
  generalize dependent (hex (Rfc.hmac sec (chars "clientId" ++ di ++ chars "deviceName" ++ dn ++ chars "productKey" ++ pk))).
  intros sign Lh. whole "%s"%string [PStr].
  whole "%s|securemode=%d,signmethod=%s|"%string [PStr; Text (chars "|securemode="); PDec; Text (chars ",signmethod="); PStr; Text (chars "|")].
  rewrite !app_nil_r. reflexivity.
Qed.

(** The record of a device: the flag, the names, the secret, ended by zeros. *)
Definition sample_device : list Z :=
  memcpy (memcpy (memcpy (memcpy (memcpy (repeat 0 186%nat) 0 [0xA5; 0xA5]) 2 (chars "unit7")) 35 (chars "product"))
    56 (chars "secret")) 121 (chars "rtthread42").

Lemma connect_credentials_witness :
  mqtt_setup_connect_info conn_0 sample_device =
    (0, Conn 1883 (product_key sample_device ++ chars ".iot-as-mqtt.cn-shanghai.aliyuncs.com")
      (device_id sample_device ++ chars "|securemode=3,signmethod=hmacmd5|")
      (device_name sample_device ++ chars "&" ++ product_key sample_device)
      (hex (Rfc.hmac (device_secret sample_device)
        (chars "clientId" ++ device_id sample_device ++ chars "deviceName" ++ device_name sample_device ++
         chars "productKey" ++ product_key sample_device)))).
Proof.
  apply (connect_credentials conn_0 sample_device);
    [apply (bool_decide_unpack _); vm_compute; exact I | reflexivity | vm_compute; lia..].
Defined.

(** ** Topics and address *)

(** A topic's format: two names among plain text. *)
Definition topic_pieces (a b c : string) : list piece := [Text (chars a); PStr; Text (chars b); PStr; Text (chars c)].

Lemma topic_str_spec fmt a b c pk dn :
  chars fmt = concat (show <$> topic_pieces a b c) -> Forall piece_ok (topic_pieces a b c) ->
  Z.of_nat (length pk) <= 200 -> Z.of_nat (length dn) <= 200 -> Z.of_nat (length (chars fmt)) <= 1000 ->
  topic_str fmt pk dn = chars a ++ pk ++ chars b ++ dn ++ chars c.
Proof.
  intros E Hok Hp Hd Hf. unfold topic_str.
  assert (length (chars fmt) = length (chars a) + length (chars b) + length (chars c) + 4)%nat as Lf
    by (rewrite E; unfold topic_pieces; cbn; rewrite !length_app; cbn; rewrite !length_app; cbn; rewrite ?length_app; cbn; lia).
  rewrite (snprintf_whole (topic_pieces a b c) _ fmt _ (chars a ++ pk ++ chars b ++ dn ++ chars c ++ [])); try done.
  - by rewrite app_nil_r.
  - lia.
  - rewrite !length_app. cbn [Datatypes.length]. lia.
Qed.

Lemma setup_topics_all alloc k fmts pk dn : (forall k n, alloc k n = true) ->
  setup_topics alloc k fmts pk dn = (true, (fun fmt => topic_str fmt pk dn) <$> fmts).
Proof.
  intros Ha. revert k. induction fmts as [|fmt fmts IH]; intros k; [done|]. cbn [setup_topics]. by rewrite Ha, IH.
Qed.

(** The twelve topics, as what stands before, between and after the names. *)
Definition topic_parts : list (string * string * string) :=
  ([("/", "/", "/pay/service2Cloud/get"); ("/", "/", "/monitor/service2Cloud/setting");
    ("/", "/", "/monitor/service2Cloud/getSetting"); ("/ota/device/upgrade/", "/", "");
    ("/", "/", "/pay/client2Cloud/init"); ("/", "/", "/pay/client2Cloud/getWaterStatus");
    ("/", "/", "/monitor/client2Cloud/putSetting"); ("/", "/", "/monitor/client2Cloud/putRealStatus");
    ("/", "/", "/monitor/client2Cloud/putTimingStatus"); ("/", "/", "/monitor/service2Cloud/upgrade");
    ("/ota/device/inform/", "/", ""); ("/ota/device/progress/", "/", "")])%string.

Lemma all_topics pk dn : Z.of_nat (length pk) <= 200 -> Z.of_nat (length dn) <= 200 ->
  (fun fmt => topic_str fmt pk dn) <$> sub_formats ++ pub_formats =
  (fun '(a, b, c) => chars a ++ pk ++ chars b ++ dn ++ chars c) <$> topic_parts.
Proof.
  intros Hp Hd. cbn [sub_formats pub_formats app fmap list_fmap topic_parts].
  repeat (apply f_equal2; [apply topic_str_spec; [vm_compute; reflexivity|pieces_ok|lia|lia|vm_compute; discriminate]|]).
  reflexivity.
Qed.

Lemma strstr_spec c s r : c ∉ s -> strstr c (s ++ c :: r) = Some (length s).
Proof.
  induction s as [|d s IH]; intros H; cbn [app strstr].
  - by rewrite Z.eqb_refl.
  - apply not_elem_of_cons in H as [Hd Hs]. destruct (Z.eqb_spec d c); [congruence|]. by rewrite IH.
Qed.

Lemma resolve_uri_spec host port : host <> [] -> 58 ∉ host -> hd 0 host <> 91 -> (1 <= length port <= 5)%nat ->
  mqtt_resolve_uri (chars "tcp://" ++ host ++ chars ":" ++ port) = Some (host, port).
Proof.
  intros Hh Hc Hb Hp. unfold mqtt_resolve_uri.
  change (prefix_of (chars "tcp://") (chars "tcp://" ++ ?s)) with true. cbn [negb].
  change (drop 6 (chars "tcp://" ++ ?s)) with s.
  assert (match host ++ chars ":" ++ port with c :: _ => c =? 91 | [] => false end = false) as ->.
  { destruct host as [|c host]; [done|]. cbn [hd] in Hb. cbn [app]. by destruct (Z.eqb_spec c 91). }
  change (chars ":" ++ port) with (58 :: port). rewrite strstr_spec by done. cbn [mbind option_bind].
  assert (Z.of_nat (length (chars "tcp://" ++ host ++ 58 :: port)) = 6 + Z.of_nat (length host) + 1 + Z.of_nat (length port)) as El
    by (rewrite !length_app; cbn [Datatypes.length]; change (length (chars "tcp://")) with 6%nat; lia).
  rewrite El. destruct host as [|c host]; [done|]. set (h := c :: host) in *. assert (1 <= length h)%nat by (cbn; lia).
  replace ((Z.of_nat (length h) <? 1) || _) with false by lia.
  replace ((6 <=? _) || _) with false by lia. rewrite take_app_length. do 2 f_equal.
  rewrite (drop_app_add' _ _ (length h) 1) by done. cbn [drop]. apply take_ge. lia.
Qed.

(** The identity as [mqtt_client_init] takes it from the registers. *)
Definition device_record (device_regs : list Z) (tick : Z) : list Z :=
  memcpy (Conversion_modbus_2_ram (repeat 0 186%nat) (register_bytes device_regs) 186) 121
    (rt_snprintf 257 "rtthread%d" [Int tick] ++ [0]).

(** C32: with memory for its buffers, a device whose record is valid gets all twelve topics in full, and
    the address composed for the broker resolves to the host and the port of the connection. *)
Theorem client_set_up alloc device_regs tick :
  let d := device_record device_regs tick in
  (forall k n, alloc k n = true) -> info_flag d = IOT_SID_FLAG ->
  (length (device_name d) <= 32)%nat -> (length (product_key d) <= 20)%nat ->
  58 ∉ product_key d -> hd 0 (product_key d) <> 91 ->
  let '(rc, s) := mqtt_client_init alloc device_regs tick in
  rc = 0 /\ info s = d /\ buffers s = true /\
  topics s = (fun '(a, b, c) => chars a ++ product_key d ++ chars b ++ device_name d ++ chars c) <$> topic_parts /\
  (u ← uri s; mqtt_resolve_uri u) = Some (host_name (connect s), chars "1883").
Proof.
  intros d Ha Hf Hn Hk Hc Hb. unfold mqtt_client_init. cbv zeta. fold (device_record device_regs tick). fold d.
  unfold mqtt_setup_connect_info. rewrite Hf. cbn [Z.eqb Pos.eqb negb]. change (nz 0) with false. cbv iota.
  cbn [host_name port]. rewrite !Ha. cbn [negb andb]. rewrite setup_topics_all by done.
  split; [done|]. split; [done|]. split; [done|]. cbn [topics uri connect host_name mbind option_bind].
  split; [apply all_topics; lia|].
  generalize dependent (product_key d). intros pk Hk Hc Hb.
  whole "%s.iot-as-mqtt.cn-shanghai.aliyuncs.com"%string [PStr; Text (chars ".iot-as-mqtt.cn-shanghai.aliyuncs.com")].
  rewrite (snprintf_whole [Text (chars "tcp://"); PStr; Text (chars ":"); PDec] _ "tcp://%s:%d"%string _
    (chars "tcp://" ++ (pk ++ chars ".iot-as-mqtt.cn-shanghai.aliyuncs.com") ++ chars ":" ++ chars "1883")); cycle 1.
  { vm_compute. reflexivity. }
  { pieces_ok. }
  { lia. }
  { reflexivity. }
  { chars_lengths. lia. }
  rewrite !app_nil_r. apply resolve_uri_spec.
  - by destruct pk.
  - rewrite elem_of_app. intros [H|H]; [done|]. revert H. apply (bool_decide_unpack _). vm_compute. exact I.
  - destruct pk; [discriminate|exact Hb].
  - cbn. lia.
Qed.

(** The registers that hold [sample_device], high byte first. *)
Definition sample_registers : list Z :=
  (fun i => 256 * nth (2 * i) sample_device 0 + nth (2 * i + 1) sample_device 0) <$> seq 0 100.

Lemma client_set_up_witness :
  let d := device_record sample_registers 42 in
  let '(rc, s) := mqtt_client_init (fun _ _ => true) sample_registers 42 in
  rc = 0 /\ info s = d /\ buffers s = true /\
  topics s = (fun '(a, b, c) => chars a ++ product_key d ++ chars b ++ device_name d ++ chars c) <$> topic_parts /\
  (u ← uri s; mqtt_resolve_uri u) = Some (host_name (connect s), chars "1883").
Proof.
  apply (client_set_up (fun _ _ => true) sample_registers 42).
  - reflexivity.
  - vm_compute. reflexivity.
  - vm_compute. lia.
  - vm_compute. lia.
  - apply (bool_decide_unpack _). vm_compute. exact I.
  - vm_compute. discriminate.
Defined.

(** ** The order of the messages *)

(** A connection: it begins with the flags of [MQTTDisconnect] (those of a new client are the same), goes
    online and goes on while the turns do.  The turns so far, those of the subscriptions included, are
    kept with what was published in them, the latest first. *)
Definition subscriptions (n : nat) (ts : nat -> turn) : list (turn * list sent) := (fun i => (ts i, [])) <$> rev (seq 0 n).

Inductive session {U : uninitialised} (alloc : Z -> bool) (filters : list (list Z)) : MQTTClient -> list (turn * list sent) -> Prop :=
  | session_begins keepAlive t ts tick c c' rs :
      go_online alloc filters keepAlive t ts tick (MQTTDisconnect c) = Some (0, c', rs) ->
      session alloc filters c' (subscriptions (length filters) ts)
  | session_goes_on w c tr t o : session alloc filters c tr -> @paho_turn U w alloc filters t c = Some o -> goes_on o = Loop ->
      session alloc filters (client o) ((t, sends o) :: tr).

Definition published (topic : Z) (tr : list (turn * list sent)) : Prop := Exists (fun p => Publish topic ∈ p.2) tr.

(** A message arrived on the topic of handler 0, the water notice. *)
Definition notice (filters : list (list Z)) (t : turn) : Prop :=
  exists topicName payload qos, arrived t = Some (Published topicName payload qos) /\ 0%nat ∈ deliverMessage filters topicName.
Definition noticed (filters : list (list Z)) (tr : list (turn * list sent)) : Prop := Exists (fun p => notice filters p.1) tr.

(** Each flag is the memory of something that happened. *)
Definition flags_remember (filters : list (list Z)) (c : MQTTClient) (tr : list (turn * list sent)) : Prop :=
  (isInformed c <> 0 -> published OTA_INFORM tr) /\ (isQRcodegeted c <> 0 -> noticed filters tr) /\
  (isparameterPutted c <> 0 -> published PARAMETER_PUT tr).

Ltac split_ifs := repeat match goal with |- context [if ?b then _ else _] => destruct b end.

Lemma choose_flags {w : cur} now c :
  isInformed (choose now c).1 = isInformed c /\ isQRcodegeted (choose now c).1 = isQRcodegeted c /\
  isparameterPutted (choose now c).1 = isparameterPutted c /\ isconnected (choose now c).1 = isconnected c.
Proof. unfold choose. destruct network_get_interval. cbv zeta. split_ifs; done. Qed.

(** Reports are chosen only with all three flags set. *)
Lemma choose_reports {w : cur} now c :
  sendState (choose now c).1 = SENDREALTIME \/ sendState (choose now c).1 = SENDTIMING ->
  isInformed c <> 0 /\ isQRcodegeted c <> 0 /\ isparameterPutted c <> 0.
Proof.
  unfold choose. destruct network_get_interval. unfold nz.
  destruct (Z.eqb_spec (isInformed c) 0); [cbn; naive_solver|].
  destruct (Z.eqb_spec (isQRcodegeted c) 0).
  { cbn [negb]. cbv iota. destruct (bool_decide_reflect (sendState c = SENDEDINIT)) as [E|]; cbn; [rewrite E|]; naive_solver. }
  destruct (Z.eqb_spec (isparameterPutted c) 0); [cbn; naive_solver|]. done.
Qed.

(** What a turn publishes is what its state says. *)
Lemma send_due_spec t c :
  match send_due t c with
  | inl o => isInformed (client o) = isInformed c /\ isQRcodegeted (client o) = isQRcodegeted c /\
      isparameterPutted (client o) = isparameterPutted c /\
      (forall k, Publish k ∈ sends o -> k = REALTIME_REPORT \/ k = TIMING_REPORT -> sendState c = SENDREALTIME \/ sendState c = SENDTIMING)
  | inr (c', out) => isQRcodegeted c' = isQRcodegeted c /\
      (isInformed c' <> 0 -> isInformed c <> 0 \/ Publish OTA_INFORM ∈ out) /\
      (isparameterPutted c' <> 0 -> isparameterPutted c <> 0 \/ Publish PARAMETER_PUT ∈ out) /\
      (forall k, Publish k ∈ out -> k = REALTIME_REPORT \/ k = TIMING_REPORT -> sendState c = SENDREALTIME \/ sendState c = SENDTIMING)
  end.
Proof.
  unfold send_due, keepalive. destruct (sendState c) eqn:E; cbv zeta.
  all: cbn [sendState set_reports]; rewrite ?E.
  all: repeat match goal with
    | |- context [bool_decide (?a = ?b)] => first [rewrite (bool_decide_eq_true_2 (a = b)) by reflexivity
        | rewrite (bool_decide_eq_false_2 (a = b)) by (cbn; congruence)]
    | |- context [if ?b then _ else _] => destruct b
    end.
  all: cbn; rewrite ?E; set_solver.
Qed.

Lemma callback_flags {U : uninitialised} alloc h payload c c' rs :
  callback alloc h payload c = Some (c', rs) ->
  isInformed c' = isInformed c /\ (isQRcodegeted c' <> 0 -> isQRcodegeted c <> 0 \/ h = 0%nat) /\
  (isparameterPutted c' <> 0 -> isparameterPutted c <> 0).
Proof.
  intros H. destruct h as [|[|[|h]]]; cbn [callback] in H.
  - destruct (network_water_notice_parse payload) as [rc|]; [|done]. cbn in H. injection H as <- <-.
    destruct (rc =? 0); cbn; naive_solver.
  - destruct (network_parameter_set_parse alloc payload) as [[rc r]|]; [|done]. cbn in H. injection H as <- <-. naive_solver.
  - destruct (network_parameter_get_parse payload) as [rc|]; [|done]. cbn in H. injection H as <- <-.
    destruct (rc =? 0); cbn; naive_solver.
  - injection H as <- <-. naive_solver.
Qed.

Lemma callbacks_flags {U : uninitialised} alloc hs payload c c' rs :
  callbacks alloc hs payload c = Some (c', rs) ->
  isInformed c' = isInformed c /\ (isQRcodegeted c' <> 0 -> isQRcodegeted c <> 0 \/ 0%nat ∈ hs) /\
  (isparameterPutted c' <> 0 -> isparameterPutted c <> 0).
Proof.
  revert c c' rs. induction hs as [|h hs IH]; intros c c' rs H; cbn [callbacks] in H; [injection H as <- <-; auto|].
  destruct (callback alloc h payload c) as [[c1 r1]|] eqn:E1; [|done]. cbn in H.
  destruct (callbacks alloc hs payload c1) as [[c2 r2]|] eqn:E2; [|done]. cbn in H. injection H as <- <-.
  apply callback_flags in E1 as (A1 & B1 & C1). apply IH in E2 as (A2 & B2 & C2). rewrite elem_of_cons.
  split; [congruence|]. split; [|auto]. intros HQ. destruct (B2 HQ) as [HQ1|]; [|auto].
  destruct (B1 HQ1) as [| ->]; auto.
Qed.

Lemma cycle_flags {U : uninitialised} alloc filters t p c rc c' rs :
  arrived t = Some p -> MQTT_cycle alloc filters t p c = Some (rc, c', rs) ->
  isInformed c' = isInformed c /\ (isQRcodegeted c' <> 0 -> isQRcodegeted c <> 0 \/ notice filters t) /\
  (isparameterPutted c' <> 0 -> isparameterPutted c <> 0).
Proof.
  intros Ha E. destruct p as [| | q | topicName payload qos | | v | | ]; cbn [MQTT_cycle] in E; try (injection E as <- <- <-; auto).
  destruct (callbacks alloc _ payload c) as [[c2 r2]|] eqn:E2; [|done]. cbn in E. injection E as <- <- <-.
  apply callbacks_flags in E2 as (A & B & C). split; [done|]. split; [|done]. intros HQ.
  destruct (B HQ) as [|Hin]; [by left|]. right. by exists topicName, payload, qos.
Qed.

Lemma receive_flags {U : uninitialised} alloc filters t c out cmd o :
  receive alloc filters t c out cmd = Some o ->
  sends o = out /\ isInformed (client o) = isInformed c /\
  (isQRcodegeted (client o) <> 0 -> isQRcodegeted c <> 0 \/ notice filters t) /\
  (isparameterPutted (client o) <> 0 -> isparameterPutted c <> 0).
Proof.
  unfold receive. intros H.
  assert (exists rc c1 rs, match arrived t with Some p => MQTT_cycle alloc filters t p c | None => Some (0, c, []) end = Some (rc, c1, rs) /\
    sends o = out /\ client o = c1) as (rc & c1 & rs & E & Hs & Hc).
  { destruct (match arrived t with Some p => _ | None => _ end) as [[[rc c1] rs]|]; [|done]. exists rc, c1, rs.
    split; [done|]. cbn in H. injection H as <-. split_ifs; done. }
  rewrite Hs, Hc. split; [done|]. destruct (arrived t) as [p|] eqn:Ea; [by eapply cycle_flags|injection E as <- <- <-; auto].
Qed.

Lemma subscribe_flags {U : uninitialised} alloc filters n ts : forall i c rc c' rs tr,
  flags_remember filters c tr -> subscribe_loop alloc filters n ts i c = Some (rc, c', rs) ->
  rc = 0 -> flags_remember filters c' (((fun i => (ts i, [])) <$> rev (seq i n)) ++ tr).
Proof.
  induction n as [|n IH]; intros i c rc c' rs tr HM E Hrc; cbn [subscribe_loop] in E; [by injection E as _ <- _|].
  destruct (MQTTSubscribe alloc filters (ts i) c) as [[[rc1 c1] rs1]|] eqn:E1; [|done]. cbn in E.
  destruct (Z.eqb_spec rc1 0) as [->|]; [|by injection E as <- _ _].
  destruct (subscribe_loop alloc filters n ts (S i) c1) as [[[rc2 c2] rs2]|] eqn:E2; [|done]. cbn in E. injection E as <- <- <-.
  cbn [seq rev]. rewrite fmap_app, <- app_assoc. eapply IH; [|exact E2|done].
  destruct HM as (HI & HQ & HP). unfold flags_remember, published, noticed in *. cbn [fmap list_fmap app]. rewrite !Exists_cons. cbn [fst snd].
  unfold MQTTSubscribe in E1. destruct (negb (nz (isconnected c))); [done|]. destruct (packet_len (ts i) <=? 0); [done|].
  destruct (Z.eqb_spec (sendPacket (ts i)) 0) as [|Hne]; cbn [negb] in E1; [|by injection E1 as E1 _ _].
  destruct (reply_res (ts i) <=? 0); [done|]. destruct (arrived (ts i)) as [p|] eqn:Ea; [|done]. cbn [default] in E1.
  destruct (cycle_flags _ _ _ _ _ _ _ _ Ea E1) as (A & B & C). rewrite A. naive_solver.
Qed.

Lemma connect_flags keepAlive t c :
  isInformed (MQTTConnect keepAlive t c).2 = isInformed c /\ isQRcodegeted (MQTTConnect keepAlive t c).2 = isQRcodegeted c /\
  isparameterPutted (MQTTConnect keepAlive t c).2 = isparameterPutted c.
Proof. unfold MQTTConnect. cbv zeta. destruct (nz (isconnected c)); [done|]. cbn [snd]. by destruct (_ =? 0). Qed.

Lemma online_remembers {U : uninitialised} alloc filters keepAlive t ts tick c c' rs :
  go_online alloc filters keepAlive t ts tick (MQTTDisconnect c) = Some (0, c', rs) ->
  flags_remember filters c' (subscriptions (length filters) ts).
Proof.
  unfold go_online. intros E. destruct (MQTTConnect keepAlive t (MQTTDisconnect c)) as [rc0 c0] eqn:E0.
  assert (isInformed c0 = 0 /\ isQRcodegeted c0 = 0 /\ isparameterPutted c0 = 0) as (F1 & F2 & F3).
  { pose proof (connect_flags keepAlive t (MQTTDisconnect c)) as F. by rewrite E0 in F. }
  destruct (negb (rc0 =? 0)) eqn:En; [injection E as -> _ _; done|].
  destruct (subscribe_loop alloc filters _ ts 0 c0) as [[[rc1 c1] rs1]|] eqn:E1; [|done]. cbn in E. injection E as -> <- _.
  unfold subscriptions. rewrite <- (app_nil_r (_ <$> _)). cbn [Z.eqb].
  assert (flags_remember filters c0 []) as H0 by (unfold flags_remember; rewrite F1, F2, F3; done).
  pose proof (subscribe_flags _ _ _ _ _ _ _ _ _ _ H0 E1 eq_refl) as (A & B & C). done.
Qed.

(** A turn keeps the memory, and sends reports only with all flags set. *)
Lemma turn_remembers {U : uninitialised} (w : cur) alloc filters t c tr o :
  flags_remember filters c tr -> paho_turn alloc filters t c = Some o ->
  flags_remember filters (client o) ((t, sends o) :: tr) /\
  (forall k, Publish k ∈ sends o -> k = REALTIME_REPORT \/ k = TIMING_REPORT ->
    isInformed c <> 0 /\ isQRcodegeted c <> 0 /\ isparameterPutted c <> 0).
Proof.
  intros (HI & HQ & HP) H. unfold paho_turn in H.
  pose proof (choose_flags (tick_now t) c) as (FI & FQ & FP & _). pose proof (choose_reports (tick_now t) c) as FR.
  destruct (choose (tick_now t) c) as [c1 tv]. cbn [fst] in *.
  rewrite <- FI, <- FQ, <- FP in *. unfold flags_remember, published, noticed in *. rewrite !Exists_cons. cbn [fst snd].
  destruct (select_res t =? 0).
  - pose proof (send_due_spec t c1) as HS. destruct (send_due t c1) as [o1|[c2 out]].
    + injection H as <-. destruct HS as (SI & SQ & SP & SR). rewrite SI, SQ, SP. split; [tauto|]. intros k Hk Hr. eauto.
    + destruct HS as (SQ & SI & SP & SR). apply receive_flags in H as (-> & RI & RQ & RP). rewrite RI.
      split; [|intros k Hk Hr; eauto]. rewrite SQ in RQ. naive_solver.
  - destruct (select_res t <? 0).
    + injection H as <-. cbn. split; [tauto|]. intros k Hk. by apply elem_of_nil in Hk.
    + apply receive_flags in H as (-> & RI & RQ & RP). rewrite RI. split; [|intros k Hk; by apply elem_of_nil in Hk].
      naive_solver.
Qed.

Lemma session_remembers {U : uninitialised} alloc filters c tr : session alloc filters c tr -> flags_remember filters c tr.
Proof.
  induction 1 as [keepAlive t ts tick c c' rs H|w c tr t o _ IH H _]; [by eapply online_remembers|]. exact (proj1 (turn_remembers w _ _ _ _ _ _ IH H)).
Qed.

(** C11: on a connection, from its first subscription on, reports go out only after the device was
    announced, the platform's notice has arrived (perhaps already while the topics were subscribed) and
    the parameters were sent, whatever arrives and however the turns interleave. *)
Theorem reports_after_handshake {U : uninitialised} (w : cur) alloc filters c tr t o k :
  session alloc filters c tr -> paho_turn alloc filters t c = Some o ->
  Publish k ∈ sends o -> k = REALTIME_REPORT \/ k = TIMING_REPORT ->
  published OTA_INFORM tr /\ noticed filters tr /\ published PARAMETER_PUT tr.
Proof.
  intros Hs Ht Hk Hr. pose proof (session_remembers _ _ _ _ Hs) as HM.
  destruct (proj2 (turn_remembers w _ _ _ _ _ _ HM Ht) k Hk Hr) as (A & B & C). destruct HM as (HI & HQ & HP). auto.
Qed.

(** A connection that gets as far as its first report. *)
Definition demo_filters : list (list Z) := [chars "notice"; chars "set"; chars "get"; chars "upgrade"].
Definition demo_env : uninitialised := Build_uninitialised 0 0 0 0 0.
Definition demo_turn (p : packet) : turn := Turn 0 0 10 0 1 (Some p) 0 [] true.
Definition demo_notice : packet := Published (chars "notice") (Some (JObj [("MCode"%string, JStr (chars "003"))])) 0.
Definition demo_step (c : MQTTClient) (p : packet) : outcome :=
  default (Outcome c [] [] Exit) (@paho_turn demo_env w_zero (fun _ => true) demo_filters (demo_turn p) c).
(** The client goes online; the notice is already there when the second topic is subscribed. *)
Definition demo_client : MQTTClient := Client 0 0 0 0 0 0 0 0 0 0 0 SENDINIT.
Definition demo_ts (i : nat) : turn := demo_turn (if Nat.eqb i 1 then demo_notice else Suback 1).
Definition demo_online : option (Z * MQTTClient * list request) :=
  @go_online demo_env (fun _ => true) demo_filters 60 (demo_turn (Connack (Some 0))) demo_ts 0 (MQTTDisconnect demo_client).
Definition demo_start : MQTTClient := default demo_client ((fun x => x.1.2) <$> demo_online).
Definition demo_1 : outcome := demo_step demo_start Other_packet.
Definition demo_2 : outcome := demo_step (client demo_1) Other_packet.
Definition demo_trace : list (turn * list sent) :=
  (demo_turn Other_packet, sends demo_2) :: (demo_turn Other_packet, sends demo_1) :: subscriptions 4 demo_ts.

Lemma demo_session : @session demo_env (fun _ => true) demo_filters (client demo_2) demo_trace.
Proof.
  apply (@session_goes_on demo_env _ _ w_zero (client demo_1)); [|vm_compute; reflexivity..].
  apply (@session_goes_on demo_env _ _ w_zero demo_start); [|vm_compute; reflexivity..].
  apply (@session_begins demo_env _ demo_filters 60 (demo_turn (Connack (Some 0))) demo_ts 0 demo_client demo_start []).
  vm_compute. reflexivity.
Qed.

Lemma reports_after_handshake_witness :
  published OTA_INFORM demo_trace /\ noticed demo_filters demo_trace /\ published PARAMETER_PUT demo_trace.
Proof.
  apply (@reports_after_handshake demo_env w_zero (fun _ => true) demo_filters (client demo_2) demo_trace
    (demo_turn Other_packet) (demo_step (client demo_2) Other_packet) REALTIME_REPORT).
  - exact demo_session.
  - vm_compute. reflexivity.
  - vm_compute. left.
  - by left.
Defined.

(** ** What is due *)

Lemma seconds_left_exact interval now tick elapsed :
  u32 (now - tick) / 1000 = elapsed -> 0 <= interval < 2147483648 -> seconds_left interval now tick = interval - elapsed.
Proof.
  intros <- Hi. unfold seconds_left. pose proof (u32_range (now - tick)) as Hr.
  assert (0 <= u32 (now - tick) / 1000 <= 4294967) by (generalize dependent (u32 (now - tick)); intros; Z.div_mod_to_equations; lia).
  cast_lia.
Qed.

(** C33: with the handshake done, the thread waits for the earliest of its three deadlines - ping, timed
    report, real-time report, in this order when they coincide - and sends what is due then; a deadline
    within five seconds is taken after one second. *)
Theorem earliest_deadline_first (w : cur) now c :
  isInformed c <> 0 -> isQRcodegeted c <> 0 -> isparameterPutted c <> 0 -> 10 <= keepAliveInterval c < 65536 ->
  let ping := keepAliveInterval c - 10 - u32 (now - tick_ping c) / 1000 in
  let timing := Z.max 60 (Z.min 60000 («Platform_Fixed_Report» * 60)) - u32 (now - tick_timeing c) / 1000 in
  let real := Z.max 5 (Z.min 1000 «Platform_Real_Report») - u32 (now - tick_realtime c) / 1000 in
  let due := Z.min ping (Z.min timing real) in
  (choose now c).2 = (if due <=? 5 then 1 else due) /\
  sendState (choose now c).1 =
    (if ping =? due then SENDPING else if timing =? due then SENDTIMING else SENDREALTIME).
Proof.
  intros H1 H2 H3 Hk ping timing real due. unfold choose, nz.
  destruct (Z.eqb_spec (isInformed c) 0), (Z.eqb_spec (isQRcodegeted c) 0), (Z.eqb_spec (isparameterPutted c) 0); try done.
  cbn [negb]. rewrite (intervals_limited w). cbn [TimingInterval RealtimeInterval set_intervals set_state tick_timeing tick_realtime].
  rewrite (u32_small (keepAliveInterval c - 10)) by lia.
  rewrite (seconds_left_exact (keepAliveInterval c - 10) now (tick_ping c) _ eq_refl) by lia. fold ping.
  rewrite (seconds_left_exact _ now (tick_timeing c) _ eq_refl) by lia. fold timing.
  destruct (Z.ltb_spec timing ping); cbv iota beta; cbn [TimingInterval RealtimeInterval set_intervals set_state tick_realtime].
  all: rewrite (seconds_left_exact _ now (tick_realtime c) _ eq_refl) by lia; fold real.
  all: unfold due; clear due; clearbody ping timing real.
  all: match goal with |- context [?r <? ?x] => destruct (Z.ltb_spec r x) end; cbn [fst snd sendState set_state].
  all: split; [repeat match goal with |- context [?a <=? ?b] => destruct (Z.leb_spec a b) end; lia|].
  all: repeat match goal with |- context [?a =? ?b] => destruct (Z.eqb_spec a b) end; done || lia.
Qed.

Lemma earliest_deadline_first_witness :
  let w : cur := w_zero in let c := client demo_2 in
  (choose 2000 c).2 = 1 /\ sendState (choose 2000 c).1 = SENDREALTIME.
Proof.
  intros w c. apply (earliest_deadline_first w_zero 2000 c); vm_compute; try discriminate; split; discriminate || reflexivity.
Defined.

(** A ping that is not answered within the next turn ends the connection. *)
Lemma unanswered_ping t c : sendState c = SENDPING -> isconnected c <> 0 -> keepAliveInterval c <> 0 -> ping_outstanding c <> 0 ->
  send_due t c = inl (Outcome c [] [] Disconnect).
Proof.
  intros E H1 H2 H3. unfold send_due, keepalive, nz. rewrite E.
  destruct (Z.eqb_spec (isconnected c) 0), (Z.eqb_spec (keepAliveInterval c) 0), (Z.eqb_spec (ping_outstanding c) 0); done.
Qed.
